(* ===== verification/_CoqProject ===== *)
-Q . S2P
Prelude.v
Nt.v
World.v
Quiet.v
Format.v
Utf16.v
BuildScript.v
UnicodeStr.v
Crate.v
Pool.v
UnicodeString.v
StringLife.v
Mdl.v
FileObj.v
Device.v
Irp.v
DeviceControl.v
Driver.v
Interleave.v
LockApi.v
SpinLock.v
Sync.v
PushLock.v
Mutex.v
EResource.v
Notify.v
Ob.v
Callback.v
Process.v
TestDriver.v
Event.v
EventSystem.v
EventLife.v
EventDispatch.v
EventServer.v
EventServerLife.v
Sioctl.v
SioctlSystem.v
ObCallback.v
ObCallbackSystem.v
ObCallbackLife.v
