(* ===== verification/Prelude.v ===== *)
(** * Verification of win-drvutils-rs

    The repository is a Rust crate of safe wrappers around the routines of the
    Windows kernel, for writing drivers, with some example drivers.  What the
    crate adds to the kernel is bookkeeping: it remembers who allocated a
    buffer, keeps Rust values behind the kernel's void pointers and gives
    them back once, copies its own structures into the extensions of driver
    and device objects and finds them there when the kernel calls, picks the
    buffer of a request by its buffering method, remembers the IRQL or the
    kind of access a lock was taken with, and undoes registrations.  The
    theorems are about this bookkeeping: for every state of memory and every
    behaviour of the kernel, what the operations do, that they do not read
    freed memory, lose an allocation or panic, and where the code does.

    ** The model

    - [Prelude]: machine integers with their wrap-around, Rust's [Result],
      the monad [M] of computations that end, panic or reach undefined
      behaviour, and total correctness [wp]: [wp m s Q] says that [m] ends
      normally, so a theorem about [wp] is also one of termination and of
      absence of panics and of bad accesses.  [Vec] operations.
    - [Nt]: what the crate takes from [windows-sys]: the kernel's structures,
      with the members the crate uses, its constants, and one constructor of
      [kcall] for each routine the crate calls.  What a routine does is not
      modelled: class [Kernel] is a parameter, a state of its own and for each
      call an answer, out-parameters included.  The few theorems that need
      something of a routine have it as a hypothesis that states the
      routine's documentation.
    - [World]: the state: the kernel's, the trace of the calls made, and
      memory, a finite map from addresses to values of a universe [U].  A
      component asks by class [Storable] that the structures it touches are in
      [U], so its theorems hold for any driver's memory.  Reading null or an
      address where nothing of the type is, is undefined behaviour.  A box is
      an address that was free; dropping it removes it.  The tactics [wp_step]
      and [map_at] run code symbolically.  [Quiet] has what code leaves alone
      because of the calls it does not make, by a tactic that looks at them.
    - Rust's [&mut self] on a value is a function that gives the changed value
      back; on a structure whose address the kernel keeps, a function of that
      address.  A member of a structure has the structure's address.  A Rust
      function is known by its address ([fnptr]); what the client's functions
      do is a parameter where the crate calls them.  The addresses of the
      crate's own functions and the sizes of its structures are class
      [Linked] (file [Crate]), compilation with debug assertions class
      [Build].

    ** The parts of the crate (below src/src/) and their files

    - the integers of the hand-written [Debug] and [Display]: [Format] (what
      [{}], [{:?}] of a pointer and [{:#X}] print, and that it reads back),
      used by [UnicodeString], [Process] and [TestDriver].
    - strings/unicode.rs: [Utf16] (decoding, ASCII case, substring search of
      the crate's dependencies and of Rust's library), [UnicodeStr] (borrowed
      strings), [UnicodeString] (owned strings: constructors, allocators,
      copying, searching), [StringLife] (an owned string from its making to
      its drop, with everything that reads it in between; the strings backed
      by a [Vec], of the feature unicode_as_vec).
    - lib.rs: [Crate].  memory/: [Pool] (the allocator that picks its routine
      at run time, and the two fixed ones), [Mdl].
    - io/: [FileObj], [Device], [Irp] (requests, create requests, completion
      and cancellation), [DeviceControl].
    - common/driver.rs: [Driver], registration with the I/O manager and
      dispatch of requests to the client's routines, by the four files above.
    - sync/: [SpinLock], [PushLock], [Mutex], [EResource], and [Sync] for the
      rest, with common/dpc.rs.  [Interleave] is the step relation in which
      any number of threads run the code of a lock, one action at a time; the
      actions are those the operations of the lock are made of.  Its class
      [Progressive] is what a lock's component promises for the threads to
      come to an end.  [LockApi] holds the traits of the third-party crate
      lock_api as classes, which each lock's file instantiates.
    - callbacks/: [Notify] (process, thread and image routines: three
      implementations of one interface, class [NotifyApi], whose clients are
      verified once), [Ob] (object manager callbacks), [Callback] (callback
      objects, registry callbacks, and common/obj_attr.rs).
    - common/process.rs, thread.rs: [Process].

    ** The example drivers (below src/examples/) and their files

    - event: [Event], a queue of timers that complete pending requests.
      [EventSystem] puts its handlers, its timers' DPCs and its cancel routine
      in one step relation with the kernel that calls them, next to a
      specification with nothing but a board of pending notifications;
      [EventLife] begins with [init] and ends with the unload routine, and has
      the cleanup of a handle, which the relation leaves out; [EventDispatch]
      is the way of a control request through the crate to the handlers.
      [EventServer] puts all of this together: file objects are opened, used
      through control requests, cleaned up and closed, every request through
      the crate's dispatch handler, next to a specification of a desk that
      knows who waits, what is open and what was told; [EventServerLife] is its
      beginning in [init] and what is true of it all.
    - sioctl: [Sioctl], one control request for each buffering method.
      [SioctlSystem] runs its [init] and then its handlers, through the
      crate's dispatch, on any sequence of requests.
    - obcallback: [ObCallback], the lib.rs and callback.rs of a driver that
      takes the right to terminate from handles to a process.
      [ObCallbackSystem] interleaves the handle operations of any number of
      threads, each a call before and a call after; [ObCallbackLife] has the
      entry point and the unload routine.

    The driver that tests the strings, src/tests/strings, is [TestDriver].
    The build script, of which each of these drivers has a copy, is
    [BuildScript]; the registry, the directories and the environment it reads
    are class [BuildEnv].

    The drivers are written against the definitions above.  The members of their
    structures that other code is given the address of are cells of their
    own, at an offset that is a parameter; [lock_api]'s mutex, which the third
    one uses, is a parameter too.

    ** What the theorems show

    - Strings: an owned string points to a live block large enough for it, can
      be read without a fault by every operation there is, and gives its
      buffer back to the allocator it came from, so that its whole life leaves
      memory as it was; an empty one without a block, which the kernel may
      answer with, is the exception: no slice may be made of it; what each constructor yields, and which of them count
      bytes as units; search is search of the case-folded units, where it is;
      that the repository's own test driver trips over one of the slips.
    - Memory: the run-time allocator and the fixed ones ask the kernel for the
      same; an MDL is unlocked and freed exactly once by its scope, and twice
      by a clone.
    - Requests: dispatch runs exactly the client's routine for the request,
      on the device and driver that were built and registered; the buffers of
      a control request are those of its method; completion gives the request
      up; a cancel routine that was set is the one that runs, with its
      context, and how taking it back races with cancellation.
    - Locks: mutual exclusion, and that what is restored on release is what
      was found on acquisition, for all interleavings; that threads that take
      locks in a critical section and give them back cannot block each other
      and all finish, with the lock free; that an in-stack queued lock cannot be
      waited for; the critical sections of the [lock_api] mutexes, and the
      addresses used by the [lock_api] implementations.  The kernel's part in
      these interleavings is what the routines' documentation says; a call that
      it does not allow ends the thread.
    - Callbacks: what is registered after any sequence of operations and the
      drop; that the object manager filter runs exactly the callbacks that
      ask for an operation; contexts handed from one callback to another.
    - The build script: the directory it picks is valid, and the greatest as
      a string; which is not always the newest.
    - Example drivers: for any sequence of notifications, expirations and
      cancellations, the event driver's queue, the kernel's timers and its
      memory agree, it never touches freed memory, it does what the
      specification says and every notification is signalled in the end; this
      with the handlers one at a time, in builds without debug assertions, and
      without the orders that [EventSystem.step] lists, in which it does not,
      which theorems of their own show; how a control request of any code,
      length and contents gets there and what is answered;
      that from [init] on, whatever is opened, asked, cleaned up and closed in
      whatever order, every request is answered as the specification of a desk
      says, nothing faults, whoever waits is answered in its time, and the
      unload routine can be run once nobody waits (what callers may do is
      [EventServer.asked], with the same limits); what cleaning up one handle
      does to the clients of the others, which those theorems leave out: there
      a handle is cleaned up when nobody waits.  That sioctl, from [init] on, answers
      each request as it is to be, cleanup requests excepted.  What obcallback
      answers to a control request; which handles lose which right; that for
      overlapping handle operations memory holds exactly the contexts of those
      under way, and gives them all back, as long as the callbacks are
      registered once, and that the process callback overruns the copy of a
      name; what a second registration does; that what [init] leaves, the unload
      routine takes back, and what [init] does when the kernel refuses.

    ** Bounds

    One definition has fuel, [digits] of [Format], with 64, the most digits a
    64-bit integer has; [value_digits] shows that enough.  Every other loop is
    over a list.  The schedules in the examples of interleavings are concrete
    lists.

    ** Not modelled

    Derived [Debug] of errors and enumerations; the empty registry module; the
    panic handler and linker statics of lib.rs; what the drivers only log; the
    toaster examples, which are stubs.  Rust's own heap is
    assumed not to run out where the code uses infallible allocation;
    [try_reserve] may fail.  The event driver's handlers inside one another, on
    several processors: its theorems are of whole handlers, one after another;
    and its builds with debug assertions, but for the assertion a client can
    make fail ([event_control_answered]): those of the spin locks look at the
    kernel's IRQL, which the handlers' theorems do not follow
    ([SpinLock] has the locks with and without debug assertions). *)

From Stdlib Require Export ZArith Lia.
From stdpp Require Export base gmap list strings.

#[global] Open Scope Z_scope.

Declare Scope wdu_scope.
Delimit Scope wdu_scope with wdu.
#[global] Open Scope wdu_scope.

Create HintDb wdu.
Create Rewrite HintDb wdu.

(** ** Machine integers *)

Definition wrap (w z : Z) : Z := z mod 2 ^ w.
Definition u8 (z : Z) : Z := wrap 8 z.
Definition u16 (z : Z) : Z := wrap 16 z.
Definition u32 (z : Z) : Z := wrap 32 z.
(** [usize] on the only target of the crate that defines it so, x64. *)
Definition usize (z : Z) : Z := wrap 64 z.
(** Two's complement of width [w]. *)
Definition swrap (w z : Z) : Z := (z + 2 ^ (w - 1)) mod 2 ^ w - 2 ^ (w - 1).
Definition i8 (z : Z) : Z := swrap 8 z.
Definition i16 (z : Z) : Z := swrap 16 z.
Definition i32 (z : Z) : Z := swrap 32 z.
Definition i64 (z : Z) : Z := swrap 64 z.

(** [u8::from(b)]. *)
Definition u8_from (b : bool) : Z := if b then 1 else 0.

Lemma wrap_small w z : 0 <= z < 2 ^ w -> wrap w z = z.
Proof. apply Z.mod_small. Qed.

Lemma wrap_bound w z : 0 <= w -> 0 <= wrap w z < 2 ^ w.
Proof. intros. apply Z.mod_pos_bound. lia. Qed.

Lemma swrap_small w z : 0 < w -> - 2 ^ (w - 1) <= z < 2 ^ (w - 1) -> swrap w z = z.
Proof.
  intros Hw Hz. unfold swrap.
  assert (E : 2 ^ w = 2 * 2 ^ (w - 1)) by (rewrite <- Z.pow_succ_r by lia; f_equal; lia).
  rewrite Z.mod_small; lia.
Qed.

#[export] Hint Resolve wrap_small wrap_bound : wdu.

(** ** Rust's [Result] *)

Inductive result (A E : Type) : Type :=
| Ok (a : A)
| Err (e : E).
Arguments Ok {A E} a.
Arguments Err {A E} e.

Definition is_ok {A E} (r : result A E) : bool := if r is Ok _ then true else false.

(** ** Computations

    A computation over a state [S] ends normally, panics (an [assert!], an
    [unwrap] on [None], [todo!()], [unreachable!()]), or reaches undefined
    behaviour (a bad access through a raw pointer). *)

Inductive fault : Type :=
| NullDeref
| Dangling (p : Z)
| OutOfBounds (p : Z).

Inductive outcome (S A : Type) : Type :=
| Done (a : A) (s : S)
| Panicked (msg : string) (s : S)
| Ub (f : fault) (s : S).
Arguments Done {S A} a s.
Arguments Panicked {S A} msg s.
Arguments Ub {S A} f s.

Definition M (S A : Type) : Type := S -> outcome S A.

#[export] Instance M_ret {S} : MRet (M S) := fun A a s => Done a s.
#[export] Instance M_bind {S} : MBind (M S) := fun A B f m s =>
  match m s with
  | Done a s' => f a s'
  | Panicked msg s' => Panicked msg s'
  | Ub flt s' => Ub flt s'
  end.

Definition panic {S A} (msg : string) : M S A := fun s => Panicked msg s.
Definition ub {S A} (f : fault) : M S A := fun s => Ub f s.
Definition get {S} : M S S := fun s => Done s s.
Definition modify {S} (f : S -> S) : M S unit := fun s => Done tt (f s).

(** [assert!(b)] *)
Definition assert_ {S} (b : bool) (msg : string) : M S unit :=
  if b then mret tt else panic msg.

(** The [?] operator: leave with the converted error, or go on. *)
Definition try_ {S A B E E'} (conv : E -> E') (m : M S (result A E))
    (k : A -> M S (result B E')) : M S (result B E') :=
  r ← m; match r with Ok a => k a | Err e => mret (Err (conv e)) end.

Notation "x '←?' m ; k" := (try_ id m (fun x => k))
  (at level 20, m at level 100, k at level 200, only parsing) : wdu_scope.

(** [for x in l { f x }] *)
Fixpoint for_each {S A} (f : A -> M S unit) (l : list A) : M S unit :=
  match l with
  | [] => mret tt
  | x :: l => f x ;; for_each f l
  end.

(** ** Total correctness

    [wp m s Q]: from [s] the computation [m] ends normally - no panic, no
    undefined behaviour - in a value and a state satisfying [Q]. *)

Definition wp {S A} (m : M S A) (s : S) (Q : A -> S -> Prop) : Prop :=
  match m s with Done a s' => Q a s' | _ => False end.

Section wp_rules.
Context {S : Type}.
Implicit Types s : S.

Lemma wp_ret {A} (a : A) s (Q : A -> S -> Prop) : Q a s -> wp (mret a) s Q.
Proof. done. Qed.

Lemma wp_bind {A B} (m : M S A) (f : A -> M S B) s Q :
  wp m s (fun a s' => wp (f a) s' Q) -> wp (m ≫= f) s Q.
Proof. unfold wp, mbind, M_bind. destruct (m s); done. Qed.

Lemma wp_mono {A} (m : M S A) s (P Q : A -> S -> Prop) :
  wp m s P -> (forall a s', P a s' -> Q a s') -> wp m s Q.
Proof. unfold wp. destruct (m s); naive_solver. Qed.

Lemma wp_get s (Q : S -> S -> Prop) : Q s s -> wp get s Q.
Proof. done. Qed.

Lemma wp_modify f s (Q : unit -> S -> Prop) : Q tt (f s) -> wp (modify f) s Q.
Proof. done. Qed.

Lemma wp_assert b msg s (Q : unit -> S -> Prop) :
  b = true -> Q tt s -> wp (assert_ b msg) s Q.
Proof. by intros ->. Qed.

Lemma wp_done {A} (m : M S A) s a s' (Q : A -> S -> Prop) :
  m s = Done a s' -> Q a s' -> wp m s Q.
Proof. unfold wp. by intros ->. Qed.

Lemma wp_result {A} (m : M S A) s a s' (Q : A -> S -> Prop) : wp m s Q -> m s = Done a s' -> Q a s'.
Proof. unfold wp. intros H E. by rewrite E in H. Qed.

(** A computation that is another one, from another state. *)
Lemma wp_from {A} (m m' : M S A) s s' (Q : A -> S -> Prop) : m s = m' s' -> wp m' s' Q -> wp m s Q.
Proof. unfold wp. by intros ->. Qed.

Lemma wp_elim {A} (m : M S A) s (Q : A -> S -> Prop) :
  wp m s Q -> exists a s', m s = Done a s' /\ Q a s'.
Proof. unfold wp. destruct (m s); naive_solver. Qed.

Lemma wp_and {A} (m : M S A) s (P Q : A -> S -> Prop) :
  wp m s P -> wp m s Q -> wp m s (fun a s' => P a s' /\ Q a s').
Proof. unfold wp. destruct (m s); naive_solver. Qed.

Lemma for_each_app {A} (f : A -> M S unit) l1 l2 s :
  for_each f (l1 ++ l2) s = (for_each f l1 ;; for_each f l2) s.
Proof.
  revert s. induction l1 as [|x l1 IH]; intros s; simpl; [done|].
  unfold mbind, M_bind in *. destruct (f x s); [apply IH|done|done].
Qed.

Lemma wp_for_each {A} (I : list A -> S -> Prop) (f : A -> M S unit) l s (Q : unit -> S -> Prop) :
  I l s ->
  (forall x l' s', I (x :: l') s' -> wp (f x) s' (fun _ s'' => I l' s'')) ->
  (forall s', I [] s' -> Q tt s') ->
  wp (for_each f l) s Q.
Proof.
  intros HI Hf HQ. revert s HI. induction l as [|x l IH]; intros s HI; simpl.
  - by apply HQ.
  - apply wp_bind. eapply wp_mono; [by apply Hf|]. intros [] s' HI'. by apply IH.
Qed.

(** Running a sequence whose head is known. *)
Lemma bind_done {A B} (m : M S A) (f : A -> M S B) s a s' :
  m s = Done a s' -> (m ≫= f) s = f a s'.
Proof. unfold mbind, M_bind. by intros ->. Qed.

Lemma bind_panicked {A B} (m : M S A) (f : A -> M S B) s msg s' :
  m s = Panicked msg s' -> (m ≫= f) s = Panicked msg s'.
Proof. unfold mbind, M_bind. by intros ->. Qed.

Lemma bind_ub {A B} (m : M S A) (f : A -> M S B) s flt s' :
  m s = Ub flt s' -> (m ≫= f) s = Ub flt s'.
Proof. unfold mbind, M_bind. by intros ->. Qed.
End wp_rules.

#[export] Hint Resolve wp_ret wp_modify wp_get : wdu.

(** ** Vectors

    [Vec::swap_remove], [Iterator::position] and the index of [unwrap]. *)

Fixpoint position {A} (p : A -> bool) (l : list A) : option nat :=
  match l with
  | [] => None
  | x :: l => if p x then Some O else S <$> position p l
  end.

(** [v.swap_remove(i)]: [None] stands for the panic of an index out of
    range; the last element takes the place of the removed one. *)
Definition swap_remove {A} (i : nat) (l : list A) : option (A * list A) :=
  match l !! i, last l with
  | Some x, Some z =>
      Some (x, if decide (S i = length l) then take i l
               else <[i := z]> (take (pred (length l)) l))
  | _, _ => None
  end.

Section vectors.
Context {A : Type}.
Implicit Types (l : list A) (p : A -> bool).

Lemma position_Some p l i :
  position p l = Some i ->
  exists x, l !! i = Some x /\ p x = true /\ forall j y, (j < i)%nat -> l !! j = Some y -> p y = false.
Proof.
  revert i. induction l as [|x l IH]; intros i H; simpl in H; [done|].
  destruct (p x) eqn:Hp; simplify_eq.
  - exists x. split_and!; [done|done|]. intros j y Hj. lia.
  - destruct (position p l) as [k|]; simplify_eq/=.
    destruct (IH k eq_refl) as (z & Hz & Hpz & Hlt). exists z. split_and!; [done|done|].
    intros [|j] y Hj Hy; simplify_eq/=; [done|]. apply (Hlt j); [lia|done].
Qed.

Lemma position_None p l :
  position p l = None <-> Forall (fun x => p x = false) l.
Proof.
  induction l as [|x l IH]; simpl; [done|].
  rewrite Forall_cons, <- IH. destruct (p x); [by split; [|intros [? _]]|].
  destruct (position p l); simpl; by split; [|intros [_ ?]].
Qed.

Lemma position_is_Some p l : is_Some (position p l) <-> exists x, x ∈ l /\ p x = true.
Proof.
  destruct (position p l) as [i|] eqn:H.
  - apply position_Some in H as (x & Hx & Hp & _). split; [|done].
    intros _. exists x. split; [|done]. by eapply list_elem_of_lookup_2.
  - apply position_None in H. rewrite Forall_forall in H.
    split; [by intros []|]. intros (x & Hx & Hp). specialize (H x Hx). congruence.
Qed.

Lemma swap_remove_perm i l x l' : swap_remove i l = Some (x, l') -> l ≡ₚ x :: l'.
Proof.
  unfold swap_remove. intros H.
  destruct (l !! i) as [y|] eqn:Hi; [|done]. destruct (last l) as [z|] eqn:Hz; [|done].
  destruct l as [|w l0 _] using rev_ind; [done|].
  rewrite last_snoc in Hz. simplify_eq. rewrite length_app. simpl.
  case_decide as Hd.
  - assert (i = length l0) as -> by lia. rewrite list_lookup_middle in Hi by done. simplify_eq.
    rewrite take_app_length. by rewrite Permutation_app_comm.
  - assert (Hlt : (i < length l0)%nat).
    { apply lookup_lt_Some in Hi. rewrite length_app in Hi. simpl in Hi. lia. }
    rewrite lookup_app_l in Hi by done. rewrite Nat.add_1_r. simpl.
    rewrite take_app_length, insert_take_drop by done.
    rewrite <- (take_drop_middle l0 i x Hi) at 1. rewrite <- app_assoc. simpl.
    rewrite <- !Permutation_middle. constructor. rewrite app_assoc.
    by rewrite app_nil_r.
Qed.

Lemma swap_remove_lookup i l x l' : swap_remove i l = Some (x, l') -> l !! i = Some x.
Proof. unfold swap_remove. destruct (l !! i), (last l); naive_solver. Qed.

(** The elements at other indices stay. *)
Lemma swap_remove_other i j l x y l' :
  swap_remove i l = Some (x, l') -> j <> i -> l !! j = Some y -> y ∈ l'.
Proof.
  intros H Hne Hj. pose proof (swap_remove_lookup _ _ _ _ H) as Hi.
  apply swap_remove_perm in H. rewrite (delete_Permutation l i x Hi) in H.
  apply Permutation_cons_inv in H. rewrite <- H. apply list_elem_of_lookup.
  destruct (decide (j < i)%nat) as [Hlt|Hge].
  - exists j. by rewrite list_lookup_delete_lt.
  - exists (pred j). rewrite list_lookup_delete_ge by lia. by replace (S (pred j)) with j by lia.
Qed.

(** The search for an element that is the only one of its kind. *)
Lemma position_swap_remove p i l x l' :
  swap_remove i l = Some (x, l') -> p x = true -> Forall (fun y => p y = false) l' ->
  position p l = Some i.
Proof.
  intros H Hx Hl'. destruct (position p l) as [j|] eqn:E.
  - apply position_Some in E as (z & Hz & Hp & _). f_equal. apply dec_stable. intros Hne.
    rewrite Forall_forall in Hl'. specialize (Hl' z (swap_remove_other _ _ _ _ _ _ H Hne Hz)). congruence.
  - apply position_None in E. rewrite Forall_forall in E. apply swap_remove_lookup in H.
    apply list_elem_of_lookup_2, E in H. congruence.
Qed.

Lemma swap_remove_elem x l : x ∈ l -> exists i l', swap_remove i l = Some (x, l').
Proof.
  intros [i Hi]%list_elem_of_lookup_1. exists i. unfold swap_remove. rewrite Hi.
  destruct (last l) eqn:E; [by eexists|]. apply last_None in E. by subst.
Qed.
End vectors.

Lemma swap_remove_fmap {X Y} (f : X -> Y) i l x l' :
  swap_remove i l = Some (x, l') -> swap_remove i (f <$> l) = Some (f x, f <$> l').
Proof.
  unfold swap_remove. rewrite list_lookup_fmap, fmap_last, length_fmap.
  destruct (l !! i) as [y|], (last l) as [z|]; simpl; try done. intros H. simplify_eq. do 2 f_equal.
  destruct (decide (S i = length l)); [by rewrite fmap_take|].
  by rewrite list_fmap_insert, fmap_take.
Qed.

Lemma filter_all {X} (P : X -> Prop) `{!forall x, Decision (P x)} l : Forall P l -> filter P l = l.
Proof. induction 1 as [|x l Hx _ IH]; [done|]. by rewrite filter_cons_True, IH. Qed.
