(* ===== verification/Nt.v ===== *)
(** * Nt: what the crate takes from [windows-sys]

    The structures of the Windows kernel, with the members the crate reads or
    writes, the constants it names, and the type [kcall] of the kernel
    routines it calls.  None of this is code of the repository: the
    structures and constants are the documented ABI of the WDK, and what a
    routine does is a parameter (class [Kernel]); [kret] says only what a
    routine returns and what it writes through its out-parameters. *)

From S2P Require Import Prelude.

Abbreviation ptr := Z.
Definition null : ptr := 0.
Abbreviation NTSTATUS := Z.
(** A Rust [fn] pointer. *)
Abbreviation fnptr := Z.

(** ** Constants of [windows-sys] *)

Definition STATUS_SUCCESS : NTSTATUS := 0.
Definition STATUS_PENDING : NTSTATUS := 259.
Definition STATUS_UNSUCCESSFUL : NTSTATUS := i32 0xC0000001.
Definition STATUS_NOT_IMPLEMENTED : NTSTATUS := i32 0xC0000002.
Definition STATUS_INVALID_PARAMETER : NTSTATUS := i32 0xC000000D.
Definition STATUS_INVALID_DEVICE_REQUEST : NTSTATUS := i32 0xC0000010.
Definition STATUS_ACCESS_DENIED : NTSTATUS := i32 0xC0000022.
Definition STATUS_INSUFFICIENT_RESOURCES : NTSTATUS := i32 0xC000009A.
Definition STATUS_INTERNAL_ERROR : NTSTATUS := i32 0xC00000E5.
Definition STATUS_CANCELLED : NTSTATUS := i32 0xC0000120.
Definition STATUS_NOT_FOUND : NTSTATUS := i32 0xC0000225.

Definition PASSIVE_LEVEL : Z := 0.
Definition DISPATCH_LEVEL : Z := 2.

Definition IRP_MJ_CREATE : Z := 0.
Definition IRP_MJ_CLOSE : Z := 2.
Definition IRP_MJ_READ : Z := 3.
Definition IRP_MJ_WRITE : Z := 4.
Definition IRP_MJ_DEVICE_CONTROL : Z := 14.
Definition IRP_MJ_CLEANUP : Z := 18.
Definition IRP_MJ_MAXIMUM_FUNCTION : Z := 27.
Definition SL_PENDING_RETURNED : Z := 1.

Definition METHOD_BUFFERED : Z := 0.
Definition METHOD_IN_DIRECT : Z := 1.
Definition METHOD_OUT_DIRECT : Z := 2.
Definition METHOD_NEITHER : Z := 3.

Definition FILE_DEVICE_DISK_FILE_SYSTEM : Z := 8.
Definition FILE_DEVICE_FILE_SYSTEM : Z := 9.
Definition FILE_DEVICE_UNKNOWN : Z := 0x22.
Definition FILE_DEVICE_MASS_STORAGE : Z := 0x2d.
Definition FILE_DEVICE_ACPI : Z := 0x32.
Definition FILE_ANY_ACCESS : Z := 0.
Definition FILE_SPECIAL_ACCESS : Z := 0.
Definition DO_BUFFERED_IO : Z := 4.

Definition NonPagedPool : Z := 0.
Definition PagedPool_type : Z := 1.
Definition NonPagedPoolNx : Z := 512.

Definition MmCached : Z := 1.
Definition FM_LOCK_BIT : Z := 1.
Definition NotificationEvent : Z := 0.
Definition SynchronizationEvent : Z := 1.
Definition NotificationTimer : Z := 0.
Definition SynchronizationTimer : Z := 1.
Definition EX_DEFAULT_PUSH_LOCK_FLAGS : Z := 0.
Definition EX_TIMER_HIGH_RESOLUTION : Z := 4.
Definition EX_TIMER_NO_WAKE : Z := 8.

Definition OB_OPERATION_HANDLE_CREATE : Z := 1.
Definition OB_OPERATION_HANDLE_DUPLICATE : Z := 2.
Definition OB_PREOP_SUCCESS : Z := 0.
Definition OB_FLT_REGISTRATION_VERSION : Z := 0x100.
Definition PsCreateProcessNotifySubsystems : Z := 0.

Definition OBJ_INHERIT : Z := 0x2.
Definition OBJ_PERMANENT : Z := 0x10.
Definition OBJ_EXCLUSIVE : Z := 0x20.
Definition OBJ_CASE_INSENSITIVE : Z := 0x40.
Definition OBJ_OPENIF : Z := 0x80.
Definition OBJ_KERNEL_HANDLE : Z := 0x200.
Definition OBJ_FORCE_ACCESS_CHECK : Z := 0x400.
Definition OBJ_IGNORE_IMPERSONATED_DEVICEMAP : Z := 0x800.
Definition OBJ_DONT_REPARSE : Z := 0x1000.
Definition OBJ_VALID_ATTRIBUTES : Z := 0x1FF2.

(** ** Structures *)

Record UNICODE_STRING : Type := mkUnicode {
  Length : Z;
  MaximumLength : Z;
  Buffer : ptr
}.

(** A block of memory seen as UTF-16 code units, of [bytes] bytes. *)
Record units : Type := mkUnits {
  b_bytes : Z;
  b_units : list Z
}.

Record IRP : Type := mkIRP {
  IoStatus_Status : NTSTATUS;
  IoStatus_Information : Z;
  CurrentLocation : Z;
  StackCount : Z;
  CurrentStackLocation : ptr;
  SystemBuffer : ptr;
  UserBuffer : ptr;
  MdlAddress : ptr;
  OriginalFileObject : ptr;
  Cancel : Z;
  CancelIrql : Z;
  RequestorMode : Z;
  DriverContext3 : ptr;
  CancelRoutine : option fnptr
}.

Record CREATE_PARAMS : Type := mkCreateParams {
  SecurityContext : ptr;
  FileAttributes : Z;
  ShareAccess : Z
}.

(** The [Parameters] union is kept as its two readings. *)
Record DeviceIoControlRaw : Type := mkDeviceIoControlRaw {
  OutputBufferLength : Z;
  InputBufferLength : Z;
  IoControlCode : Z;
  Type3InputBuffer : ptr
}.

Record IO_STACK_LOCATION : Type := mkStack {
  MajorFunction_ : Z;
  Control : Z;
  FileObject : ptr;
  Parameters_Create : CREATE_PARAMS;
  Parameters_DeviceIoControl : DeviceIoControlRaw
}.

(** [IO_SECURITY_CONTEXT] *)
Record SECURITY_CONTEXT : Type := mkSecurityContext { DesiredAccess : Z }.

Record FILE_OBJECT : Type := mkFileObject {
  FileName : UNICODE_STRING;
  FsContext : ptr;
  FsContext2 : ptr
}.

Record MDL : Type := mkMDL {
  MdlFlags : Z;
  MappedSystemVa : ptr;
  StartVa : ptr;
  ByteOffset : Z;
  ByteCount : Z
}.

Record DEVICE_OBJECT : Type := mkDeviceObject {
  DeviceExtension : ptr;
  DriverObject : ptr;
  Flags : Z
}.

Record DRIVER_OBJECT : Type := mkDriverObject {
  DeviceObject : ptr;
  DriverExtension : ptr;
  DriverUnload : option fnptr;
  MajorFunctions : list (option fnptr)
}.

Record DRIVER_EXTENSION : Type := mkDriverExtension { AddDevice : option fnptr }.

Record OB_OPERATION_REGISTRATION : Type := mkObOperation {
  ObjectType_ : ptr;
  Operations : Z;
  PreOperation : option fnptr;
  PostOperation : option fnptr
}.

Record PS_CREATE_NOTIFY_INFO : Type := mkPsInfo {
  CreationStatus : NTSTATUS;
  ParentProcessId : Z;
  CommandLine : ptr;
  ImageFileName : ptr;
  PsFileObject : ptr;
  CreatingThreadId : Z * Z;
  PsFlags : Z
}.

(** The two members of the parameter unions have the same layout as far as
    the crate reads them: they are one record each. *)
Record OB_PRE_PARAMETERS : Type := mkObPreParams {
  ObDesiredAccess : Z;
  ObOriginalDesiredAccess : Z
}.
Record OB_POST_PARAMETERS : Type := mkObPostParams { ObGrantedAccess : Z }.

Record OB_PRE_INFORMATION : Type := mkObPre {
  PreOperation_ : Z;
  PreFlags : Z;
  PreObject : ptr;
  PreObjectType : ptr;
  PreCallContext : ptr;
  PreParameters : ptr
}.

Record OB_POST_INFORMATION : Type := mkObPost {
  PostOperation_ : Z;
  PostFlags : Z;
  PostObject : ptr;
  PostObjectType : ptr;
  PostCallContext : ptr;
  PostReturnStatus : NTSTATUS;
  PostParameters : ptr
}.

Record OBJECT_ATTRIBUTES : Type := mkObjectAttributes {
  ObjLength : Z;
  RootDirectory : Z;
  ObjectName : ptr;
  ObjAttributes : Z;
  SecurityDescriptor : ptr;
  SecurityQualityOfService : ptr
}.

(** Its size on x64. *)
Definition size_of_OBJECT_ATTRIBUTES : Z := 48.

(** ** The kernel routines the crate calls

    One constructor per routine, with the arguments as the crate passes them;
    a structure passed by reference for reading appears by value. *)

Inductive kcall : Type :=
(* executive, lib.rs *)
| ExGetPreviousMode
| MmGetSystemRoutineAddress (name : UNICODE_STRING) (text : list Z)
| ProbeForRead (addr len align : Z)
| ProbeForWrite (addr len align : Z)
| KeBugCheckEx (code p1 p2 p3 p4 : Z)
| ObReferenceObjectByHandle (handle access objtype mode : Z)
| ObfDereferenceObject (object : ptr)
| KeGetCurrentIrql
| KeEnterCriticalRegion
| KeLeaveCriticalRegion
| KeWaitForSingleObject (object reason mode alertable timeout : Z)
(* pools *)
| ExAllocatePool2 (flags size tag : Z)
| CallExAllocatePool2 (pfn flags size tag : Z)
| ExAllocatePoolWithTag (pool_type size tag : Z)
| ExFreePoolWithTag (p : ptr) (tag : Z)
(* strings *)
| RtlValidateUnicodeString (flags : Z) (s : UNICODE_STRING)
| RtlFreeUnicodeString (s : UNICODE_STRING)
| RtlUTF8StringToUnicodeString (src : list Z) (len maxlen allocate : Z)
| RtlIntegerToUnicodeString (value base : Z) (dst : UNICODE_STRING)
| RtlInt64ToUnicodeString (value base : Z) (dst : UNICODE_STRING)
| RtlCopyUnicodeString (dst src : UNICODE_STRING)
| RtlDuplicateUnicodeString (flags : Z) (src : UNICODE_STRING)
| RtlCompareUnicodeString (s1 s2 : UNICODE_STRING) (ci : Z)
| RtlCompareMemory (p1 p2 len : Z)
| RtlDowncaseUnicodeString (src : UNICODE_STRING) (allocate : Z)
| RtlUpcaseUnicodeString (src : UNICODE_STRING) (allocate : Z)
| RtlSuffixUnicodeString (s1 s2 : UNICODE_STRING) (ci : Z)
| RtlPrefixUnicodeString (s1 s2 : UNICODE_STRING) (ci : Z)
| FsRtlIsNameInExpression (expr name : UNICODE_STRING) (ci : Z)
(* memory descriptor lists *)
| IoAllocateMdl (va len secondary charge irp : Z)
| IoFreeMdl (mdl : ptr)
| MmProbeAndLockPages (mdl mode op : Z)
| MmUnlockPages (mdl : ptr)
| MmMapLockedPagesSpecifyCache (mdl mode cache base bugcheck priority : Z)
(* I/O manager *)
| IofCompleteRequest (irp boost status information : Z)
| IoForwardIrpSynchronously (device irp : Z)
| IoReleaseCancelSpinLock (irql : Z)
| IoCreateDevice (driver ext_size : Z) (name : UNICODE_STRING) (dev_type chars exclusive : Z)
| IoDeleteDevice (device : ptr)
| IoCreateSymbolicLink (symbolic device : UNICODE_STRING)
| IoDeleteSymbolicLink (symbolic : UNICODE_STRING)
| IoAllocateDriverObjectExtension (driver : ptr) (id : fnptr) (size : Z)
| IoGetDriverObjectExtension (driver : ptr) (id : fnptr)
(* spin locks *)
| KeInitializeSpinLock (l : ptr)
| KeAcquireSpinLockRaiseToDpc (l : ptr)
| KeReleaseSpinLock (l irql : Z)
| KeAcquireSpinLockAtDpcLevel (l : ptr)
| KeReleaseSpinLockFromDpcLevel (l : ptr)
| KeAcquireInStackQueuedSpinLock (l handle : ptr)
| KeReleaseInStackQueuedSpinLock (handle : Z)
| KeAcquireSpinLockForDpc (l : ptr)
| KeReleaseSpinLockForDpc (l irql : Z)
(* mutexes *)
| KeInitializeMutex (m level : Z)
| KeReleaseMutex (m wait : Z)
| KeReadStateMutex (m : ptr)
| KeInitializeEvent (e ty state : Z)
| ExAcquireFastMutex (m : ptr)
| ExAcquireFastMutexUnsafe (m : ptr)
| ExTryToAcquireFastMutex (m : ptr)
| ExReleaseFastMutex (m : ptr)
| ExReleaseFastMutexUnsafe (m : ptr)
| KeInitializeGuardedMutex (m : ptr)
| KeAcquireGuardedMutex (m : ptr)
| KeAcquireGuardedMutexUnsafe (m : ptr)
| KeTryToAcquireGuardedMutex (m : ptr)
| KeReleaseGuardedMutex (m : ptr)
| KeReleaseGuardedMutexUnsafe (m : ptr)
(* semaphores and events *)
| KeInitializeSemaphore (s count limit : Z)
| KeReleaseSemaphore (s increment adjustment wait : Z)
| KeReadStateSemaphore (s : ptr)
| KeResetEvent (e : ptr)
| KeClearEvent (e : ptr)
| KeSetEvent (e increment wait : Z)
| KeReadStateEvent (e : ptr)
| KePulseEvent (e increment wait : Z)
(* rundown protection, remove locks *)
| ExInitializeRundownProtection (r : ptr)
| ExAcquireRundownProtection (r : ptr)
| ExAcquireRundownProtectionEx (r count : Z)
| ExReleaseRundownProtection (r : ptr)
| ExWaitForRundownProtectionRelease (r : ptr)
| ExRundownCompleted (r : ptr)
| ExReInitializeRundownProtection (r : ptr)
| IoInitializeRemoveLockEx (l tag maxmin high size : Z)
| IoAcquireRemoveLockEx (l tag line size : Z)
| IoReleaseRemoveLockEx (l tag size : Z)
| IoReleaseRemoveLockAndWaitEx (l tag size : Z)
(* push locks, resources *)
| ExInitializePushLock (l : ptr)
| ExAcquirePushLockSharedEx (l flags : Z)
| ExAcquirePushLockExclusiveEx (l flags : Z)
| ExReleasePushLockSharedEx (l flags : Z)
| ExReleasePushLockExclusiveEx (l flags : Z)
| ExInitializeResourceLite (r : ptr)
| ExDeleteResourceLite (r : ptr)
| ExAcquireResourceSharedLite (r wait : Z)
| ExAcquireResourceExclusiveLite (r wait : Z)
| ExConvertExclusiveToSharedLite (r : ptr)
| ExReleaseResourceLite (r : ptr)
(* timers, DPCs *)
| KeInitializeTimer (t : ptr)
| KeInitializeTimerEx (t ty : Z)
| KeCancelTimer (t : ptr)
| KeReadStateTimer (t : ptr)
| KeSetCoalescableTimer (t duetime period delay dpc : Z)
| KeSetTimer (t duetime dpc : Z)
| KeSetTimerEx (t duetime period dpc : Z)
| ExDeleteTimer (t cancel wait : Z)
| ExSetTimer (t duetime period : Z)
| ExCancelTimer (t : ptr)
| KeInitializeDpc (dpc : ptr) (routine : fnptr) (ctx : ptr)
| KeInsertQueueDpc (dpc arg1 arg2 : Z)
(* notification callbacks *)
| PsSetCreateProcessNotifyRoutine (cb : option fnptr) (remove : Z)
| PsSetCreateProcessNotifyRoutineEx (cb : fnptr) (remove : bool)
| PsSetCreateProcessNotifyRoutineEx2 (ty : Z) (cb : fnptr) (remove : bool)
| PsSetCreateThreadNotifyRoutine (cb : option fnptr)
| PsSetCreateThreadNotifyRoutineEx (ty : Z) (cb : option fnptr)
| PsRemoveCreateThreadNotifyRoutine (cb : option fnptr)
| PsSetLoadImageNotifyRoutine (cb : option fnptr)
| PsRemoveLoadImageNotifyRoutine (cb : option fnptr)
| ExCreateCallback (attr : ptr) (create allow_multiple : Z)
| ExRegisterCallback (object : ptr) (cb : fnptr) (ctx : ptr)
| ExUnregisterCallback (handle : ptr)
| ExNotifyCallback (object arg1 arg2 : Z)
| CmRegisterCallbackEx (cb : fnptr) (altitude : ptr)
| CmUnRegisterCallback (cookie : Z)
| CmGetCallbackVersion
| CmCallbackGetKeyObjectIDEx (cookie object flags : Z)
| CmCallbackReleaseKeyObjectIDEx (name : ptr)
| CmGetBoundTransaction (cookie object : Z)
| ObRegisterCallbacks (version count : Z) (altitude : UNICODE_STRING) (ctx : ptr)
    (ops : list OB_OPERATION_REGISTRATION)
| ObUnRegisterCallbacks (handle : ptr)
| ObGetFilterVersion
(* processes and threads *)
| IoGetCurrentProcess
| PsGetCurrentProcessId
| PsGetProcessExitTime
| PsGetProcessId (process : ptr)
| PsGetProcessCreateTimeQuadPart (process : ptr)
| PsGetProcessExitStatus (process : ptr)
| PsGetProcessStartKey (process : ptr)
| CallPsGetProcessProtection (pfn process : ptr)
| PsGetCurrentThreadId
| PsGetThreadProcessId (thread : ptr)
| PsGetThreadCreateTime (thread : ptr).

(** What a routine returns, with what it writes through its out-parameters. *)
Definition kret (c : kcall) : Type :=
  match c with
  | ObReferenceObjectByHandle _ _ _ _ => NTSTATUS * ptr
  (* the destination string and the code units of its buffer *)
  | RtlUTF8StringToUnicodeString _ _ _ _ | RtlDuplicateUnicodeString _ _
  | RtlDowncaseUnicodeString _ _ | RtlUpcaseUnicodeString _ _ =>
      NTSTATUS * (UNICODE_STRING * units)
  (* the new Length, and the code units written to the buffer *)
  | RtlIntegerToUnicodeString _ _ _ | RtlInt64ToUnicodeString _ _ _ => NTSTATUS * (Z * list Z)
  | RtlCopyUnicodeString _ _ => Z * list Z
  | IoAllocateMdl _ _ _ _ _ => ptr * MDL
  | IoCreateDevice _ _ _ _ _ _ => NTSTATUS * (ptr * DEVICE_OBJECT)
  | IoAllocateDriverObjectExtension _ _ _ => NTSTATUS * ptr
  | ExCreateCallback _ _ _ => NTSTATUS * option ptr
  | CmRegisterCallbackEx _ _ => NTSTATUS * option Z
  | CmGetCallbackVersion => Z * Z
  (* the object's id, and where the kernel put its name *)
  | CmCallbackGetKeyObjectIDEx _ _ _ => NTSTATUS * option (Z * ptr)
  | ObRegisterCallbacks _ _ _ _ _ => NTSTATUS * option ptr
  | ProbeForRead _ _ _ | ProbeForWrite _ _ _ | KeBugCheckEx _ _ _ _ _ | ObfDereferenceObject _
  | KeEnterCriticalRegion | KeLeaveCriticalRegion | ExFreePoolWithTag _ _ | RtlFreeUnicodeString _
  | IoFreeMdl _ | MmProbeAndLockPages _ _ _ | MmUnlockPages _ | IofCompleteRequest _ _ _ _
  | IoReleaseCancelSpinLock _ | IoDeleteDevice _ | KeInitializeSpinLock _ | KeReleaseSpinLock _ _
  | KeAcquireSpinLockAtDpcLevel _ | KeReleaseSpinLockFromDpcLevel _
  | KeAcquireInStackQueuedSpinLock _ _ | KeReleaseInStackQueuedSpinLock _ | KeReleaseSpinLockForDpc _ _ | KeInitializeMutex _ _
  | KeInitializeEvent _ _ _ | ExAcquireFastMutex _ | ExAcquireFastMutexUnsafe _
  | ExReleaseFastMutex _ | ExReleaseFastMutexUnsafe _ | KeInitializeGuardedMutex _
  | KeAcquireGuardedMutex _ | KeAcquireGuardedMutexUnsafe _ | KeReleaseGuardedMutex _
  | KeReleaseGuardedMutexUnsafe _ | KeInitializeSemaphore _ _ _ | KeClearEvent _
  | ExInitializeRundownProtection _ | ExReleaseRundownProtection _
  | ExWaitForRundownProtectionRelease _ | ExRundownCompleted _ | ExReInitializeRundownProtection _
  | IoInitializeRemoveLockEx _ _ _ _ _ | IoReleaseRemoveLockEx _ _ _
  | IoReleaseRemoveLockAndWaitEx _ _ _ | ExInitializePushLock _ | ExAcquirePushLockSharedEx _ _
  | ExAcquirePushLockExclusiveEx _ _ | ExReleasePushLockSharedEx _ _
  | ExReleasePushLockExclusiveEx _ _ | ExConvertExclusiveToSharedLite _ | ExReleaseResourceLite _
  | KeInitializeTimer _ | KeInitializeTimerEx _ _ | KeInitializeDpc _ _ _ | ExUnregisterCallback _
  | ExNotifyCallback _ _ _ | CmCallbackReleaseKeyObjectIDEx _ | CmGetBoundTransaction _ _
  | ObUnRegisterCallbacks _ => unit
  | _ => Z
  end.

(** ** The kernel as a parameter

    A kernel is a state of its own and, for each routine, what it returns
    and how that state changes.  No theorem fixes a kernel; what a theorem
    needs of one is a hypothesis on [kstep] that states the routine's
    documentation. *)

Class Kernel : Type := {
  kstate : Type;
  kstep : forall c : kcall, kstate -> kret c * kstate
}.

(** A call that was made, with what it returned. *)
Inductive event : Type := Ev (c : kcall) (r : kret c).

Definition call_of (e : event) : kcall := let (c, _) := e in c.

(** Whether the crate is compiled with debug assertions (and with the
    overflow checks that come with them). *)
Class Build : Type := debug_assertions : bool.

(** The object types ntoskrnl exports: [nt::X] is the exported pointer,
    [deref_X] what it points to. *)
Class NtStatics : Type := {
  PsProcessType : ptr;
  PsThreadType : ptr;
  ExDesktopObjectType : ptr;
  deref_PsProcessType : ptr;
  deref_PsThreadType : ptr;
  deref_ExDesktopObjectType : ptr;
  deref_ExEventObjectType : ptr;
  deref_ExSemaphoreObjectType : ptr
}.
