(* ===== verification/World.v ===== *)
(** * World: the state the crate's code runs in

    Memory reached through raw pointers, the kernel's state, and the calls
    made so far.  Memory holds values of a universe [U]; a component asks
    through [Storable] that the structures it reads and writes are in it, so
    each component is stated over the memory it needs and no more. *)

From S2P Require Import Prelude Nt.

(** ** Typed memory *)

Class Storable (U T : Type) : Type := {
  inj : T -> U;
  prj : U -> option T;
  prj_inj : forall x, prj (inj x) = Some x
}.

(** Universes are sums; the left summand is found first. *)
#[export] Instance Storable_here A B : Storable (A + B) A | 1 :=
  {| inj := inl; prj u := if u is inl a then Some a else None; prj_inj x := eq_refl |}.
#[export] Instance Storable_there A B T `{!Storable B T} : Storable (A + B) T | 2.
Proof.
  refine {| inj x := inr (inj x); prj u := if u is inr b then prj b else None |}.
  intros x. apply prj_inj.
Defined.

Section World.
Context {KN : Kernel}.

Record world (U : Type) : Type := World {
  w_kernel : kstate;
  w_trace : list event;
  w_mem : gmap ptr U
}.
End World.
Arguments World {KN U}.
Arguments w_kernel {KN U}.
Arguments w_trace {KN U}.
Arguments w_mem {KN U}.

(** The address the global allocator hands out: any free one would do. *)
Definition fresh_addr {U} (m : gmap ptr U) : ptr := 16 + set_fold Z.max 0 (dom m).

Section Ops.
Context {KN : Kernel} {U : Type}.
Local Abbreviation W := (world U).

Definition set_mem (m : gmap ptr U) (s : W) : W := World (w_kernel s) (w_trace s) m.

(** What the kernel answers to [c] in [s], and the state that leaves. *)
Definition kresp (c : kcall) (s : W) : kret c := fst (kstep c (w_kernel s)).
Definition kafter (c : kcall) (s : W) : W :=
  World (snd (kstep c (w_kernel s))) (w_trace s ++ [Ev c (kresp c s)]) (w_mem s).

Definition kcall_ (c : kcall) : M W (kret c) := fun s => Done (kresp c s) (kafter c s).

(** [*p] at type [T]. *)
Definition load {T} `{!Storable U T} (p : ptr) : M W T := fun s =>
  if p =? null then Ub NullDeref s
  else match w_mem s !! p ≫= prj with
       | Some x => Done x s
       | None => Ub (Dangling p) s
       end.

(** [*p = x] where [p] points to a [T]. *)
Definition store {T} `{!Storable U T} (p : ptr) (x : T) : M W unit :=
  load (T := T) p ;; modify (fun s => set_mem (<[p := inj x]> (w_mem s)) s).

(** A change of some members of [*p]. *)
Definition update {T} `{!Storable U T} (p : ptr) (f : T -> T) : M W unit :=
  x ← load p; store p (f x).

(** An object that comes to be at [p]: the kernel made it, or the crate
    copies one to memory it was given. *)
Definition install {T} `{!Storable U T} (p : ptr) (x : T) : M W unit :=
  if p =? null then ub NullDeref
  else modify (fun s => set_mem (<[p := inj x]> (w_mem s)) s).

(** [Box::into_raw(Box::new(x))] *)
Definition box_into_raw {T} `{!Storable U T} (x : T) : M W ptr := fun s =>
  let p := fresh_addr (w_mem s) in
  Done p (set_mem (<[p := inj x]> (w_mem s)) s).

(** [Box::from_raw(p)], the box dropped or moved out of: the allocation ends. *)
Definition box_from_raw {T} `{!Storable U T} (p : ptr) : M W T :=
  x ← load p; modify (fun s => set_mem (delete p (w_mem s)) s) ;; mret x.

Definition calls (s : W) : list kcall := call_of <$> w_trace s.
End Ops.
Arguments kresp : simpl never.
Arguments kafter : simpl never.

(** ** Laws *)

Section Laws.
Context {KN : Kernel} {U : Type}.
Implicit Types s : world U.

Lemma fresh_addr_pos (m : gmap ptr U) : 0 < fresh_addr m.
Proof.
  unfold fresh_addr. enough (0 <= set_fold Z.max 0 (dom m)) by lia.
  apply (set_fold_ind_L (fun r _ => 0 <= r)); lia.
Qed.

Lemma fresh_addr_above (m : gmap ptr U) a : fresh_addr m <= a -> m !! a = None.
Proof.
  intros Ha. apply not_elem_of_dom. intros H. unfold fresh_addr in Ha.
  enough (Hmax : forall x, x ∈ dom m -> x <= set_fold Z.max 0 (dom m)).
  { apply Hmax in H. lia. }
  clear H. apply (set_fold_ind_L (fun r X => forall x, x ∈ X -> x <= r)); [set_solver|].
  intros y X r _ IH x [->%elem_of_singleton|Hx]%elem_of_union; [lia|].
  specialize (IH x Hx). lia.
Qed.

Lemma fresh_addr_fresh (m : gmap ptr U) : m !! fresh_addr m = None.
Proof. apply fresh_addr_above. lia. Qed.

Lemma not_null (p : ptr) : p <> 0 -> (p =? null) = false.
Proof. apply Z.eqb_neq. Qed.

Lemma mem_kafter c s : w_mem (kafter c s) = w_mem s.
Proof. done. Qed.
Lemma trace_kafter c s : w_trace (kafter c s) = w_trace s ++ [Ev c (kresp c s)].
Proof. done. Qed.
Lemma calls_kafter c s : calls (kafter c s) = calls s ++ [c].
Proof. unfold calls. by rewrite trace_kafter, fmap_app. Qed.
Lemma mem_set_mem m s : w_mem (set_mem m s) = m.
Proof. done. Qed.
Lemma trace_set_mem m s : w_trace (set_mem m s) = w_trace s.
Proof. done. Qed.
Lemma calls_set_mem m s : calls (set_mem m s) = calls s.
Proof. done. Qed.
Lemma kernel_set_mem m s : w_kernel (set_mem m s) = w_kernel s.
Proof. done. Qed.

Lemma wp_kcall c s (Q : kret c -> world U -> Prop) :
  Q (kresp c s) (kafter c s) -> wp (kcall_ c) s Q.
Proof. done. Qed.

Context {T : Type} `{!Storable U T}.
Implicit Types x : T.

Lemma load_at p x s : p <> 0 -> w_mem s !! p = Some (inj x) -> load p s = Done x s.
Proof.
  intros Hp Hx. unfold load, null. rewrite (proj2 (Z.eqb_neq p 0) Hp), Hx. simpl.
  by rewrite prj_inj.
Qed.

Lemma load_null s : load (T := T) 0 s = Ub NullDeref s.
Proof. done. Qed.

Lemma load_dangling p s :
  p <> 0 -> w_mem s !! p = None -> load (T := T) p s = Ub (Dangling p) s.
Proof.
  intros Hp Hn. unfold load, null. by rewrite (proj2 (Z.eqb_neq p 0) Hp), Hn.
Qed.

(** Nothing of type [T] there. *)
Lemma load_fault p s :
  p <> 0 -> w_mem s !! p ≫= prj (T := T) = None -> load (T := T) p s = Ub (Dangling p) s.
Proof.
  intros Hp Hn. unfold load, null. by rewrite (proj2 (Z.eqb_neq p 0) Hp), Hn.
Qed.

Lemma wp_load p x s (Q : T -> world U -> Prop) :
  p <> 0 -> w_mem s !! p = Some (inj x) -> Q x s -> wp (load p) s Q.
Proof. intros. eapply wp_done; [by apply load_at|done]. Qed.

Lemma wp_store p x y s (Q : unit -> world U -> Prop) :
  p <> 0 -> w_mem s !! p = Some (inj y) ->
  Q tt (set_mem (<[p := inj x]> (w_mem s)) s) -> wp (store p x) s Q.
Proof. intros. apply wp_bind. by eapply wp_load. Qed.

Lemma wp_update p f x s (Q : unit -> world U -> Prop) :
  p <> 0 -> w_mem s !! p = Some (inj x) ->
  Q tt (set_mem (<[p := inj (f x)]> (w_mem s)) s) -> wp (update p f) s Q.
Proof. intros. apply wp_bind. eapply wp_load; [done..|]. by eapply wp_store. Qed.

Lemma wp_install p x s (Q : unit -> world U -> Prop) :
  p <> 0 -> Q tt (set_mem (<[p := inj x]> (w_mem s)) s) -> wp (install p x) s Q.
Proof. intros Hp ?. unfold install, null. by rewrite (proj2 (Z.eqb_neq p 0) Hp). Qed.

Lemma wp_box_into_raw x s (Q : ptr -> world U -> Prop) :
  (let p := fresh_addr (w_mem s) in Q p (set_mem (<[p := inj x]> (w_mem s)) s)) ->
  wp (box_into_raw x) s Q.
Proof. done. Qed.

Lemma wp_box_from_raw p x s (Q : T -> world U -> Prop) :
  p <> 0 -> w_mem s !! p = Some (inj x) ->
  Q x (set_mem (delete p (w_mem s)) s) -> wp (box_from_raw p) s Q.
Proof. intros. apply wp_bind. eapply wp_load; [done..|]. by apply wp_bind, wp_modify, wp_ret. Qed.
End Laws.

#[export] Hint Rewrite @mem_kafter @trace_kafter @calls_kafter @mem_set_mem @trace_set_mem
  @calls_set_mem @kernel_set_mem : wdu.
#[export] Hint Resolve fresh_addr_pos fresh_addr_fresh : wdu.

(** Symbolic execution: the rules above, one operation after another; what
    remains are the side conditions and the post-condition. *)
Ltac wp_side := first [done | by auto with wdu | by simplify_map_eq | lia].

(** What is at an address after insertions and deletions at addresses known
    to be equal or different. *)
Ltac map_at :=
  simpl; repeat first [rewrite lookup_insert_eq | rewrite lookup_insert_ne by done
                      | rewrite lookup_delete_eq | rewrite lookup_delete_ne by done]; try done.

Ltac wp_step :=
  lazymatch goal with
  | |- wp (mbind _ _) _ _ => apply wp_bind
  | |- wp (mret _) _ _ => apply wp_ret
  | |- wp get _ _ => apply wp_get
  | |- wp (modify _) _ _ => apply wp_modify
  | |- wp (kcall_ ?c) ?s ?Q => refine (wp_kcall c s Q _)
  | |- wp (assert_ _ _) _ _ => apply wp_assert; [try wp_side|]
  | |- wp (load _) _ _ => eapply wp_load; [try wp_side|try wp_side|]
  | |- wp (store _ _) _ _ => eapply wp_store; [try wp_side|try wp_side|]
  | |- wp (update _ _) _ _ => eapply wp_update; [try wp_side|try wp_side|]
  | |- wp (install _ _) _ _ => apply wp_install; [try wp_side|]
  | |- wp (box_into_raw _) _ _ => apply wp_box_into_raw
  | |- wp (box_from_raw _) _ _ => eapply wp_box_from_raw; [try wp_side|try wp_side|]
  | |- wp (let '(_, _) := ?p in _) _ _ => destruct p eqn:?
  end.
(** Both branches of a test the goal's computation starts with. *)
Ltac wp_if := lazymatch goal with |- wp (if ?b then _ else _) _ _ => destruct b eqn:? end.
Ltac wp_steps := repeat (wp_step; cbv beta zeta); autorewrite with wdu.

(** Different addresses, one by one. *)
Ltac apart H :=
  rewrite !NoDup_cons in H; destruct_and!; rewrite ?not_elem_of_cons in *; destruct_and?.

(** Gives the state a name, and its memory and calls as equations. *)
Ltac name_state s' M C :=
  lazymatch goal with
  | |- wp _ (set_mem ?m ?s0) _ =>
      pose proof (mem_set_mem m s0) as M; pose proof (calls_set_mem m s0) as C;
      set (s' := set_mem m s0) in *; clearbody s'
  | |- wp _ (kafter ?c ?s0) _ =>
      pose proof (mem_kafter c s0) as M; pose proof (calls_kafter c s0) as C;
      set (s' := kafter c s0) in *; clearbody s'
  end.

(** The same, with its trace. *)
Ltac name_traced s' M C T :=
  lazymatch goal with
  | |- wp _ (set_mem ?m ?s0) _ => pose proof (trace_set_mem m s0) as T
  | |- wp _ (kafter ?c ?s0) _ => pose proof (trace_kafter c s0) as T
  end;
  name_state s' M C.

(** ** Concrete kernels

    The witnesses run the code against kernels that always give the same
    answers: [default_answer] says zero, null and nothing written. *)

Definition no_string : UNICODE_STRING := mkUnicode 0 0 0.
Definition no_units : units := mkUnits 0 [].

Definition default_answer (c : kcall) : kret c.
Proof.
  destruct c; simpl;
    first [exact 0 | exact tt | exact (0, None) | exact (0, 0) | exact (0, (no_string, no_units))
          | exact (0, (0, 0)) | exact (0, (0, [])) | exact (0, []) | exact (0, mkMDL 0 0 0 0 0)
          | exact (0, (0, mkDeviceObject 0 0 0))].
Defined.

Definition answering (answer : forall c, kret c) : Kernel :=
  {| kstate := unit; kstep c k := (answer c, k) |}.

Definition idle_kernel : Kernel := answering default_answer.

(** The world of a kernel without state of its own. *)
Definition world_of {U} (answer : forall c, kret c) (m : gmap ptr U) : @world (answering answer) U :=
  @World (answering answer) U tt [] m.
