(* ===== verification/Quiet.v ===== *)
(** * Quiet: what a computation leaves alone

    A fact about the kernel and the calls made so far, which no change of memory
    can touch, is kept by a computation when every call the computation can make
    keeps it; the tactic [quiet] looks at the calls.  One such fact is that the
    trace replays: the kernel is in the state the calls of the trace put it in,
    and answered as it says. *)

From S2P Require Import Prelude Nt World.

Section Quiet.
Context {KN : Kernel} {U : Type}.
Implicit Types s : world U.

(** Facts that memory has no part in. *)
Class Memoryless (P : world U -> Prop) : Prop := memoryless : forall m s, P s -> P (set_mem m s).

Context (P : world U -> Prop) `{!Memoryless P}.

(** The computation keeps [P]; so does a call. *)
Definition quiet {A} (m : M (world U) A) : Prop := forall s a s', P s -> m s = Done a s' -> P s'.
Definition leaves (c : kcall) : Prop := forall s, P s -> P (kafter c s).

Lemma wp_quiet {A} (m : M (world U) A) s (Q : A -> world U -> Prop) :
  quiet m -> P s -> wp m s Q -> wp m s (fun a s' => Q a s' /\ P s').
Proof. unfold wp. intros Hm HP. destruct (m s) as [a s'| |] eqn:E; [|done..]. intros HQ. split; [done|by eapply Hm]. Qed.

Lemma quiet_ret {A} (a : A) : quiet (mret a).
Proof. intros s b s' H [= _ <-]. exact H. Qed.
Lemma quiet_panic {A} msg : quiet (panic (A := A) msg).
Proof. done. Qed.
Lemma quiet_ub {A} f : quiet (ub (A := A) f).
Proof. done. Qed.
Lemma quiet_bind {A B} (m : M (world U) A) (k : A -> M (world U) B) :
  quiet m -> (forall a, quiet (k a)) -> quiet (m ≫= k).
Proof.
  intros Hm Hk s b s' H E. unfold mbind, M_bind in E. destruct (m s) as [a s1|msg s1|f s1] eqn:E1; [|done..].
  exact (Hk a s1 b s' (Hm s a s1 H E1) E).
Qed.
Lemma quiet_kcall c : leaves c -> quiet (kcall_ c).
Proof. intros Hc s a s' H [= _ <-]. by apply Hc. Qed.
Lemma quiet_load {T} `{!Storable U T} p : quiet (load (T := T) p).
Proof.
  intros s a s' H E. unfold load in E. destruct (p =? null); [done|].
  destruct (w_mem s !! p ≫= prj); [|done]. by injection E as _ <-.
Qed.
Lemma quiet_modify (f : world U -> gmap ptr U) : quiet (modify (fun s => set_mem (f s) s)).
Proof. intros s a s' H [= _ <-]. by apply memoryless. Qed.
Lemma quiet_store {T} `{!Storable U T} p (x : T) : quiet (store p x).
Proof. apply quiet_bind; [apply quiet_load|]. intros _. apply quiet_modify. Qed.
Lemma quiet_update {T} `{!Storable U T} p (f : T -> T) : quiet (update p f).
Proof. apply quiet_bind; [apply quiet_load|]. intros x. apply quiet_store. Qed.
Lemma quiet_install {T} `{!Storable U T} p (x : T) : quiet (install p x).
Proof. unfold install. destruct (p =? null); [apply quiet_ub|apply quiet_modify]. Qed.
Lemma quiet_box_into_raw {T} `{!Storable U T} (x : T) : quiet (box_into_raw x).
Proof. intros s a s' H [= _ <-]. by apply memoryless. Qed.
Lemma quiet_box_from_raw {T} `{!Storable U T} p : quiet (box_from_raw (T := T) p).
Proof.
  apply quiet_bind; [apply quiet_load|]. intros x.
  apply quiet_bind; [apply quiet_modify|]. intros _. apply quiet_ret.
Qed.
Lemma quiet_for_each {A} (f : A -> M (world U) unit) l : (forall x, quiet (f x)) -> quiet (for_each f l).
Proof. intros Hf. induction l; simpl; [apply quiet_ret|]. apply quiet_bind; [apply Hf|done]. Qed.
End Quiet.
Arguments Memoryless {KN U}.
#[export] Hint Resolve quiet_ret quiet_panic quiet_ub quiet_load quiet_modify quiet_store quiet_update quiet_install
  quiet_box_into_raw quiet_box_from_raw : quiet.

(** Whether a computation is quiet, by its parts: what is left to show is what
    its calls leave. *)
Ltac head_of t := lazymatch t with ?f _ => head_of f | _ => t end.
Ltac quiet_step :=
  lazymatch goal with
  | |- forall _, _ => intros ?
  | |- quiet _ (match ?x with _ => _ end) => destruct x
  | |- quiet _ (let _ := _ in _) => cbv zeta
  | |- quiet _ (_ ≫= _) => apply quiet_bind
  | |- quiet ?P (kcall_ ?c) => refine (quiet_kcall P c _)
  | |- quiet _ (for_each _ _) => apply quiet_for_each
  | |- quiet _ ?m =>
      first [solve [auto with quiet typeclass_instances nocore]
            |let f := head_of m in unfold f; cbv beta]
  end.
Ltac quiet := repeat quiet_step.

(** ** Traces *)

Section Replay.
Context {KN : Kernel} {U : Type}.
Implicit Types s : world U.

(** The events of [t], from the kernel's state [k] on, leave it in [k']. *)
Fixpoint replays (k : kstate) (t : list event) (k' : kstate) : Prop :=
  match t with
  | [] => k' = k
  | Ev c answer :: t => answer = (kstep c k).1 /\ replays (kstep c k).2 t k'
  end.

Lemma replays_app k t t' k' : replays k (t ++ t') k' <-> exists k1, replays k t k1 /\ replays k1 t' k'.
Proof.
  revert k. induction t as [|[c answer] t IH]; intros k; simpl; [naive_solver|].
  rewrite IH. naive_solver.
Qed.

(** Since [s0]. *)
Definition replays_since s0 s : Prop :=
  exists t, w_trace s = w_trace s0 ++ t /\ replays (w_kernel s0) t (w_kernel s).

#[export] Instance replays_memoryless s0 : Memoryless (replays_since s0).
Proof. intros m s H. exact H. Qed.

(** Every call is one of the trace. *)
Lemma replays_leaves s0 c : leaves (replays_since s0) c.
Proof.
  intros s (t & Ht & Hr). exists (t ++ [Ev c (kresp c s)]).
  split; [by rewrite trace_kafter, Ht, <- app_assoc|]. apply replays_app. by exists (w_kernel s).
Qed.

Lemma quiet_replays {A} (m : M (world U) A) s a s' t :
  quiet (replays_since s) m -> m s = Done a s' -> w_trace s' = w_trace s ++ t ->
  replays (w_kernel s) t (w_kernel s').
Proof.
  intros Hq E Ht. destruct (Hq s a s') as (t' & Ht' & Hr); [|done|].
  - exists []. split; [by rewrite app_nil_r|done].
  - rewrite Ht in Ht'. by apply app_inv_head in Ht' as ->.
Qed.
End Replay.
