(* ===== verification/Format.v ===== *)
(** * Format: integers as the standard library's [fmt] prints them

    [{}], [{:x}] and [{:#X}] of an unsigned integer: its digits, the most
    significant first, with the prefix of the alternate form.  A signed
    integer or a pointer is printed in hexadecimal as the unsigned integer of
    its bits. *)

From Stdlib Require Import Ascii.
From S2P Require Import Prelude.

Definition digit (upper : bool) (d : Z) : ascii :=
  ascii_of_N (Z.to_N (if d <? 10 then 48 + d else (if upper then 55 else 87) + d)).

(** The loop puts a digit in front until nothing is left. *)
Fixpoint digits (fuel : nat) (base : Z) (upper : bool) (z : Z) (acc : string) : string :=
  match fuel with
  | O => acc
  | S fuel =>
      let acc := String (digit upper (z mod base)) acc in
      if z / base =? 0 then acc else digits fuel base upper (z / base) acc
  end.

(** A 64-bit integer has at most 64 digits. *)
Definition fmt_radix (base : Z) (upper : bool) (z : Z) : string := digits 64 base upper z EmptyString.
(** [{}] of a [u64], or of a smaller unsigned integer *)
Definition fmt_display (z : Z) : string := fmt_radix 10 false z.
(** [{:#X}] of a [usize] or an [isize] *)
Definition fmt_upper_hex (z : Z) : string := String.append "0x" (fmt_radix 16 true (usize z)).
(** [{:?}] of a raw pointer *)
Definition fmt_pointer (p : Z) : string := String.append "0x" (fmt_radix 16 false (usize p)).

(** ** Reading back *)

Definition digit_value (c : ascii) : Z :=
  let n := Z.of_N (N_of_ascii c) in
  if n <? 58 then n - 48 else if n <? 71 then n - 55 else n - 87.
Fixpoint value (base : Z) (acc : Z) (l : string) : Z :=
  match l with EmptyString => acc | String c l => value base (acc * base + digit_value c) l end.

Lemma digit_value_digit upper d : 0 <= d < 16 -> digit_value (digit upper d) = d.
Proof.
  intros H. assert (Hd : d = 0 \/ d = 1 \/ d = 2 \/ d = 3 \/ d = 4 \/ d = 5 \/ d = 6 \/ d = 7 \/ d = 8 \/
    d = 9 \/ d = 10 \/ d = 11 \/ d = 12 \/ d = 13 \/ d = 14 \/ d = 15) by lia.
  by destruct upper; repeat destruct Hd as [-> | Hd]; try subst d.
Qed.

Lemma value_digits fuel base upper z acc :
  2 <= base <= 16 -> 0 <= z < 2 ^ Z.of_nat fuel -> (0 < fuel)%nat ->
  value base 0 (digits fuel base upper z acc) = value base z acc.
Proof.
  intros Hb. revert z acc. induction fuel as [|fuel IH]; intros z acc Hz Hf; [lia|].
  pose proof (Z.div_mod z base ltac:(lia)) as Hdiv. pose proof (Z.mod_pos_bound z base ltac:(lia)).
  simpl. destruct (Z.eqb_spec (z / base) 0) as [E|E].
  - simpl. rewrite digit_value_digit by lia. f_equal. lia.
  - assert (0 <= z / base) by (apply Z.div_pos; lia).
    assert (z / base < 2 ^ Z.of_nat fuel).
    { rewrite Nat2Z.inj_succ, Z.pow_succ_r in Hz by lia. apply Z.div_lt_upper_bound; nia. }
    rewrite IH; [|lia|destruct fuel; simpl in *; lia].
    simpl. rewrite digit_value_digit by lia. f_equal. lia.
Qed.

Lemma fmt_radix_value base upper z : 2 <= base <= 16 -> 0 <= z < 2 ^ 64 -> value base 0 (fmt_radix base upper z) = z.
Proof. intros Hb Hz. unfold fmt_radix. by rewrite value_digits by (simpl; lia). Qed.

Lemma fmt_upper_hex_inj a b : 0 <= a < 2 ^ 64 -> 0 <= b < 2 ^ 64 -> fmt_upper_hex a = fmt_upper_hex b -> a = b.
Proof.
  unfold fmt_upper_hex, usize. intros Ha Hb E. rewrite !wrap_small in E by done.
  apply (inj (String.append _)) in E. rewrite <- (fmt_radix_value 16 true a), <- (fmt_radix_value 16 true b), E by lia. done.
Qed.

Example fmt_upper_hex_example : fmt_upper_hex 0xFFFF8A0012345678 = "0xFFFF8A0012345678".
Proof. reflexivity. Qed.
Example fmt_display_example : fmt_display 0xDEADBEEF = "3735928559".
Proof. reflexivity. Qed.
