(* ===== verification/Utf16.v ===== *)
(** * Utf16: the UTF-16 conversions of Rust's [alloc]

    [str::encode_utf16], [String::from_utf16_lossy] and [str::contains], which
    strings/unicode.rs uses.  A [char] is its scalar value, a code unit a
    16-bit number.  No code of the repository is here. *)

From S2P Require Import Prelude.

Definition is_scalar (c : Z) : bool :=
  ((0 <=? c) && (c <? 0xD800)) || ((0xE000 <=? c) && (c <? 0x110000)).

Definition encode_char (c : Z) : list Z :=
  if c <? 0x10000 then [c]
  else [0xD800 + (c - 0x10000) / 0x400; 0xDC00 + (c - 0x10000) mod 0x400].

(** [s.encode_utf16()] *)
Definition encode_utf16 (s : list Z) : list Z := s ≫= encode_char.

Definition is_surrogate (u : Z) : bool := (0xD800 <=? u) && (u <? 0xE000).
Definition is_high (u : Z) : bool := (0xD800 <=? u) && (u <? 0xDC00).
Definition is_low (u : Z) : bool := (0xDC00 <=? u) && (u <? 0xE000).

Definition REPLACEMENT_CHARACTER : Z := 0xFFFD.

(** [String::from_utf16_lossy(v)] *)
Fixpoint from_utf16_lossy (v : list Z) : list Z :=
  match v with
  | [] => []
  | u :: v1 =>
      if negb (is_surrogate u) then u :: from_utf16_lossy v1
      else if is_high u then
        match v1 with
        | w :: v2 =>
            if is_low w
            then 0x10000 + (u - 0xD800) * 0x400 + (w - 0xDC00) :: from_utf16_lossy v2
            else REPLACEMENT_CHARACTER :: from_utf16_lossy v1
        | [] => [REPLACEMENT_CHARACTER]
        end
      else REPLACEMENT_CHARACTER :: from_utf16_lossy v1
  end.

Fixpoint prefixb (n h : list Z) : bool :=
  match n, h with
  | [], _ => true
  | _, [] => false
  | x :: n, y :: h => (x =? y) && prefixb n h
  end.

(** [h.contains(n)] *)
Fixpoint str_contains (h n : list Z) : bool :=
  prefixb n h || match h with [] => false | _ :: h => str_contains h n end.

(** [char::len_utf16] *)
Definition len_utf16 (c : Z) : nat := if c <? 0x10000 then 1%nat else 2%nat.

Definition len_utf16_str (s : list Z) : nat := sum_list (len_utf16 <$> s).

Ltac surrogates :=
  unfold is_surrogate, is_high, is_low, is_scalar, len_utf16, REPLACEMENT_CHARACTER in *;
  repeat match goal with
  | |- context [?a <? ?b] => destruct (Z.ltb_spec a b)
  | |- context [?a <=? ?b] => destruct (Z.leb_spec a b)
  | H : context [?a <? ?b] |- _ => destruct (Z.ltb_spec a b)
  | H : context [?a <=? ?b] |- _ => destruct (Z.leb_spec a b)
  end; simpl in *; try done; try lia.

Lemma encode_bmp c : c < 0x10000 -> encode_char c = [c].
Proof. intros H. unfold encode_char. by rewrite (proj2 (Z.ltb_lt c 0x10000) H). Qed.

Lemma decode_char c v :
  is_scalar c = true -> from_utf16_lossy (encode_char c ++ v) = c :: from_utf16_lossy v.
Proof.
  intros Hc. unfold encode_char. destruct (Z.ltb_spec c 0x10000); simpl.
  - assert (is_surrogate c = false) as -> by surrogates. done.
  - assert (0 <= (c - 0x10000) / 0x400 < 0x400).
    { split; [apply Z.div_pos; lia|]. apply Z.div_lt_upper_bound; surrogates. }
    pose proof (Z.mod_pos_bound (c - 0x10000) 0x400 ltac:(lia)).
    set (q := (c - 0x10000) / 0x400) in *. set (r := (c - 0x10000) mod 0x400) in *.
    assert (is_surrogate (0xD800 + q) = true) as -> by surrogates.
    assert (is_high (0xD800 + q) = true) as -> by surrogates.
    assert (is_low (0xDC00 + r) = true) as -> by surrogates. simpl. f_equal.
    pose proof (Z.div_mod (c - 0x10000) 0x400 ltac:(lia)). subst q r. lia.
Qed.

Lemma from_utf16_lossy_encode s :
  Forall (fun c => is_scalar c = true) s -> from_utf16_lossy (encode_utf16 s) = s.
Proof.
  induction 1 as [|c s Hc _ IH]; [done|]. unfold encode_utf16. simpl.
  rewrite decode_char by done. by f_equal.
Qed.

Lemma len_utf16_str_cons c s : len_utf16_str (c :: s) = (len_utf16 c + len_utf16_str s)%nat.
Proof. done. Qed.

(** Decoding keeps the number of code units: a pair makes a character of two
    units, a lone surrogate one of one unit. *)
Lemma len_from_utf16_lossy_aux n v :
  (length v <= n)%nat -> Forall (fun u => 0 <= u < 0x10000) v ->
  len_utf16_str (from_utf16_lossy v) = length v.
Proof.
  revert v. induction n as [|n IH]; intros [|u v1] Hn Hv; simpl in Hn; try done; try lia.
  apply Forall_cons in Hv as [Hu Hv1].
  assert (E1 : len_utf16_str (from_utf16_lossy v1) = length v1) by (apply IH; [lia|done]).
  cbn [from_utf16_lossy length].
  destruct (is_surrogate u) eqn:Es; cbn [negb].
  2: { rewrite len_utf16_str_cons, E1. clear IH E1. surrogates. }
  destruct (is_high u) eqn:Eh; [|by rewrite len_utf16_str_cons, E1].
  destruct v1 as [|w v2]; [done|]. apply Forall_cons in Hv1 as [Hw Hv2]. simpl in Hn.
  destruct (is_low w) eqn:El; [|by rewrite len_utf16_str_cons, E1].
  rewrite len_utf16_str_cons, IH by (done || lia). clear IH E1. simpl. surrogates.
Qed.

Lemma len_from_utf16_lossy v :
  Forall (fun u => 0 <= u < 0x10000) v -> len_utf16_str (from_utf16_lossy v) = length v.
Proof. by apply len_from_utf16_lossy_aux with (n := length v). Qed.

Lemma prefixb_spec n h : prefixb n h = true <-> exists k, h = n ++ k.
Proof.
  revert h. induction n as [|x n IH]; intros h; simpl; [naive_solver|].
  destruct h as [|y h]; [split; [done|by intros (k & ?)]|].
  rewrite andb_true_iff, Z.eqb_eq, IH. split.
  - intros [-> (k & ->)]. by exists k.
  - intros (k & ?). simplify_eq. split; [done|]. by exists k.
Qed.

Lemma str_contains_spec h n :
  str_contains h n = true <-> exists k1 k2, h = k1 ++ n ++ k2.
Proof.
  induction h as [|y h IH]; simpl; rewrite orb_true_iff, prefixb_spec.
  - split.
    + intros [(k & Hk)|?]; [|done]. by exists [], k.
    + intros (k1 & k2 & Hk). left. destruct k1; [by exists k2|done].
  - rewrite IH. split.
    + intros [(k & ->)|(k1 & k2 & ->)]; [by exists [], k|by exists (y :: k1), k2].
    + intros ([|z k1] & k2 & Hk); simplify_eq/=; [left; by exists k2|right; by exists k1, k2].
Qed.

Lemma len_utf16_app s t : len_utf16_str (s ++ t) = (len_utf16_str s + len_utf16_str t)%nat.
Proof. unfold len_utf16_str. rewrite fmap_app. induction (len_utf16 <$> s); simpl; lia. Qed.

(** A needle that is longer in code units occurs nowhere in the haystack. *)
Lemma contains_length h n :
  Forall (fun u => 0 <= u < 0x10000) h -> Forall (fun u => 0 <= u < 0x10000) n ->
  str_contains (from_utf16_lossy h) (from_utf16_lossy n) = true -> (length n <= length h)%nat.
Proof.
  intros Hh Hn (k1 & k2 & E)%str_contains_spec.
  rewrite <- (len_from_utf16_lossy h), <- (len_from_utf16_lossy n), E, !len_utf16_app by done. lia.
Qed.
