(* ===== verification/BuildScript.v ===== *)
(** * BuildScript: the build scripts of the drivers, [examples/event/build.rs]

    Each driver, and the one that tests the strings, has the same script.  It
    finds the libraries of the newest Windows kit and tells cargo where they
    are.  What it reads, the registry, the directories and the environment, is
    class [BuildEnv]; what it prints is the state of [main]. *)

From Stdlib Require Import Permutation.
From S2P Require Import Prelude Utf16.

(** ** Paths and strings of the operating system *)

(** The units of Windows, of any value; std keeps and compares them as code
    points, among them the surrogates that have no partner. *)
Definition OsStr : Type := list Z.
Definition to_str (s : OsStr) : option (list Z) := if forallb is_scalar s then Some s else None.

(** A string literal *)
Definition literal (s : string) : list Z :=
  (fun c => Z.of_N (Ascii.N_of_ascii c)) <$> String.list_ascii_of_string s.

(** A path: a string, and the names joined to it since. *)
Record PathBuf : Type := mkPath { root : OsStr; names : list OsStr }.
Definition join (p : PathBuf) (name : OsStr) : PathBuf := mkPath (root p) (names p ++ [name]).

(** [PathBuf::push] puts a separator unless the path ends with one, or is a
    bare drive. *)
Definition is_sep (c : Z) : bool := (c =? 92) || (c =? 47).
Definition is_letter (c : Z) : bool := ((65 <=? c) && (c <=? 90)) || ((97 <=? c) && (c <=? 122)).
Definition need_sep (p : OsStr) : bool :=
  match p with
  | [] => false
  | [d; 58] => negb (is_letter d)
  | _ => negb (is_sep (List.last p 0))
  end.
Definition push (p name : OsStr) : OsStr := if need_sep p then p ++ 92 :: name else p ++ name.
Definition as_os_str (p : PathBuf) : OsStr := fold_left push (names p) (root p).

Section lex.
Context {A : Type} (cmp : A -> A -> comparison).

Fixpoint lex (l1 l2 : list A) : comparison :=
  match l1, l2 with
  | [], [] => Eq
  | [], _ => Lt
  | _, [] => Gt
  | x :: l1, y :: l2 => match cmp x y with Eq => lex l1 l2 | c => c end
  end.

(** [Iterator::max] *)
Definition max_by (l : list A) : option A :=
  match l with
  | [] => None
  | x :: l => Some (fold_left (fun x y => match cmp x y with Gt => x | _ => y end) l x)
  end.
End lex.

Definition OsStr_cmp : OsStr -> OsStr -> comparison := lex Z.compare.

(** ** The script *)

(** What the script finds on the machine; [io_error] is [std::io::Error],
    [root_components] is what a string falls into as a path. *)
Class BuildEnv : Type := {
  io_error : Type;
  RegKey : Type;
  open_subkey : list Z -> result RegKey io_error;
  get_value : RegKey -> list Z -> result (list Z) io_error;
  root_components : OsStr -> list OsStr;
  read_dir : PathBuf -> result (list (result OsStr io_error)) io_error;
  is_dir : PathBuf -> bool;
  var_TARGET : option (list Z)
}.

Section Script.
Context {BE : BuildEnv}.

(** [failure::Error]: an [io::Error], or the message of [format_err!]. *)
Inductive Error : Type :=
| Io (e : io_error)
| NoKmDir (windows_kits_dir : PathBuf).

Definition components (p : PathBuf) : list OsStr := root_components (root p) ++ names p.
Definition PathBuf_cmp (p q : PathBuf) : comparison := lex OsStr_cmp (components p) (components q).

Definition get_windows_kits_dir : result PathBuf Error :=
  match open_subkey (literal "SOFTWARE\Microsoft\Windows Kits\Installed Roots") with
  | Err e => Err (Io e)
  | Ok key =>
      match get_value key (literal "KitsRoot10") with
      | Err e => Err (Io e)
      | Ok dir => Ok (mkPath dir [])
      end
  end.

(** The closure of [filter]. *)
Definition valid_km_dir (dir : PathBuf) : bool :=
  match last (components dir) ≫= to_str with
  | Some c => prefixb (literal "10.") c && is_dir (join dir (literal "km"))
  | None => false
  end.

Definition get_km_dir (windows_kits_dir : PathBuf) : result PathBuf Error :=
  match read_dir (join windows_kits_dir (literal "lib")) with
  | Err e => Err (Io e)
  | Ok readdir =>
      let dirs := omap (fun dir => match dir with Ok name => Some (join (join windows_kits_dir (literal "lib")) name)
                                                | Err _ => None end) readdir in
      match max_by PathBuf_cmp (List.filter valid_km_dir dirs) with
      | Some max_libdir => Ok (join max_libdir (literal "km"))
      | None => Err (NoKmDir windows_kits_dir)
      end
  end.

Definition unwrap {A E} (r : result A E) : M (list (list Z)) A :=
  match r with Ok a => mret a | Err _ => panic "called `Result::unwrap()` on an `Err` value" end.
Definition println (line : list Z) : M (list (list Z)) unit := modify (fun out => out ++ [line]).

Definition main : M (list (list Z)) unit :=
  windows_kits_dir ← unwrap get_windows_kits_dir;
  km_dir ← unwrap (get_km_dir windows_kits_dir);
  target ← match var_TARGET with Some t => mret t | None => panic "called `Result::unwrap()` on an `Err` value" end;
  arch ← (if str_contains target (literal "x86_64") then mret (literal "x64")
          else if str_contains target (literal "i686") then mret (literal "x86")
          else panic "Only support x86_64 and i686!");
  lib_dir ← match to_str (as_os_str (join km_dir arch)) with
            | Some s => mret s
            | None => panic "called `Option::unwrap()` on a `None` value"
            end;
  println (literal "cargo:rustc-link-search=native=" ++ lib_dir).
End Script.

(** ** Ordered strings *)

(** What the order of a type promises to the searches for a maximum. *)
Class Comparable {A : Type} (cmp : A -> A -> comparison) : Prop := {
  cmp_eq x y : cmp x y = Eq <-> x = y;
  cmp_opp x y : cmp y x = CompOpp (cmp x y);
  cmp_trans x y z : cmp x y = Lt -> cmp y z = Lt -> cmp x z = Lt
}.

#[export] Instance Z_comparable : Comparable Z.compare.
Proof.
  split; [apply Z.compare_eq_iff|intros; apply Z.compare_antisym|].
  intros x y z. rewrite !Z.compare_lt_iff. lia.
Qed.

#[export] Instance lex_comparable {A} (cmp : A -> A -> comparison) `{!Comparable cmp} : Comparable (lex cmp).
Proof.
  split.
  - intros x. induction x as [|a x IH]; intros [|b y]; simpl; try done.
    destruct (cmp a b) eqn:E; [apply cmp_eq in E as ->; rewrite IH; split; congruence| |];
      (split; [done|]; intros [= -> ->]; by rewrite (proj2 (cmp_eq b b)) in E).
  - intros x. induction x as [|a x IH]; intros [|b y]; simpl; try done.
    rewrite (cmp_opp (cmp := cmp) a b). by destruct (cmp a b); simpl.
  - intros x. induction x as [|a x IH]; intros [|b y] [|c z]; simpl; try done.
    destruct (cmp a b) eqn:Eab; [apply cmp_eq in Eab as ->| |done];
      destruct (cmp b c) eqn:Ebc; try done.
    + by apply IH.
    + apply cmp_eq in Ebc as <-. by rewrite Eab.
    + by rewrite (cmp_trans (cmp := cmp) a b c Eab Ebc).
Qed.

#[export] Instance OsStr_comparable : Comparable OsStr_cmp := lex_comparable Z.compare.

Section max.
Context {A : Type} (cmp : A -> A -> comparison) `{!Comparable cmp}.

Lemma cmp_refl x : cmp x x = Eq.
Proof. by apply cmp_eq. Qed.

Lemma cmp_le_trans x y z : cmp x y <> Lt -> cmp y z <> Lt -> cmp x z <> Lt.
Proof.
  rewrite (cmp_opp (cmp := cmp) y x), (cmp_opp (cmp := cmp) z y), (cmp_opp (cmp := cmp) z x). intros H1 H2 H3.
  destruct (cmp z y) eqn:Ezy; simpl in *; [apply cmp_eq in Ezy as ->; congruence| |congruence].
  destruct (cmp y x) eqn:Eyx; simpl in *; [apply cmp_eq in Eyx as ->; by rewrite Ezy in H3| |congruence].
  by rewrite (cmp_trans (cmp := cmp) _ _ _ Ezy Eyx) in H3.
Qed.

(** The greatest of a list is one of its elements, and no element is greater. *)
Lemma max_by_spec l :
  match max_by cmp l with
  | Some m => m ∈ l /\ forall x, x ∈ l -> cmp m x <> Lt
  | None => l = []
  end.
Proof.
  destruct l as [|x l]; simpl; [done|]. revert x. induction l as [|y l IH]; intros x; simpl.
  { split; [set_solver|]. intros z ->%list_elem_of_singleton. by rewrite cmp_refl. }
  set (m := match cmp x y with Gt => x | _ => y end). set (fm := fold_left _ l m). destruct (IH m) as [Hin Hmax].
  assert (Hm : (m = x \/ m = y) /\ cmp m x <> Lt /\ cmp m y <> Lt).
  { unfold m. pose proof (cmp_opp (cmp := cmp) x y) as Ho.
    destruct (cmp x y) eqn:E; rewrite ?cmp_refl, ?E, ?Ho; simpl; repeat split; auto; discriminate. }
  destruct Hm as (Hm & Hx & Hy). fold fm in Hin, Hmax. split.
  - apply elem_of_cons in Hin as [->|?]; [|set_solver]. destruct Hm as [->| ->]; set_solver.
  - assert (Hmm : cmp fm m <> Lt) by (apply Hmax; set_solver).
    intros z Hz. apply elem_of_cons in Hz as [->|[->|Hz]%elem_of_cons]; [| |apply Hmax; set_solver];
      by eapply cmp_le_trans.
Qed.
End max.

Lemma lex_app {A} (cmp : A -> A -> comparison) `{!Comparable cmp} l l1 l2 :
  lex cmp (l ++ l1) (l ++ l2) = lex cmp l1 l2.
Proof. induction l as [|x l IH]; simpl; [done|]. by rewrite (proj2 (cmp_eq x x)). Qed.

(** ** What the script finds *)

Section found.
Context {BE : BuildEnv}.

(** A directory of the kits' [lib] that the script takes for a kit's: of
    version 10, with a [km] in it. *)
Definition km_kit (lib : PathBuf) (name : OsStr) : bool :=
  forallb is_scalar name && prefixb (literal "10.") name && is_dir (join (join lib name) (literal "km")).

Lemma valid_km_dir_kit lib name : valid_km_dir (join lib name) = km_kit lib name.
Proof.
  unfold valid_km_dir, components, km_kit, to_str. simpl. rewrite app_assoc, last_snoc. simpl.
  by destruct (forallb is_scalar name).
Qed.

Lemma PathBuf_cmp_join lib n1 n2 : PathBuf_cmp (join lib n1) (join lib n2) = OsStr_cmp n1 n2.
Proof.
  unfold PathBuf_cmp, components. simpl. rewrite !app_assoc, (lex_app OsStr_cmp) by apply OsStr_comparable. cbn [lex].
  by destruct (OsStr_cmp n1 n2).
Qed.

Lemma filter_join lib l : List.filter valid_km_dir (join lib <$> l) = join lib <$> List.filter (km_kit lib) l.
Proof.
  induction l as [|n l IH]; csimpl; [done|]. rewrite valid_km_dir_kit. destruct (km_kit lib n); csimpl; by rewrite IH.
Qed.

(** The search on paths is the search on the names. *)
Lemma max_by_join lib l : max_by PathBuf_cmp (join lib <$> l) = join lib <$> max_by OsStr_cmp l.
Proof.
  destruct l as [|x l]; simpl; [done|]. f_equal. revert x. induction l as [|y l IH]; intros x; simpl; [done|].
  rewrite PathBuf_cmp_join. by destruct (OsStr_cmp x y).
Qed.

(** The names that could be read, and are kits. *)
Definition kits (lib : PathBuf) (entries : list (result OsStr io_error)) : list OsStr :=
  List.filter (km_kit lib) (omap (fun e => if e is Ok n then Some n else None) entries).

Lemma kits_elem lib entries n : n ∈ kits lib entries <-> Ok n ∈ entries /\ km_kit lib n = true.
Proof.
  unfold kits. rewrite !list_elem_of_In, filter_In, <- !list_elem_of_In, list_elem_of_omap.
  split; [intros [([n'|] & ? & ?) ?]; naive_solver|]. intros [H ?]. split; [|done]. by exists (Ok n).
Qed.

Lemma get_km_dir_kits kits_dir entries :
  let lib := join kits_dir (literal "lib") in
  read_dir lib = Ok entries ->
  get_km_dir kits_dir =
    match max_by OsStr_cmp (kits lib entries) with
    | Some n => Ok (join (join lib n) (literal "km"))
    | None => Err (NoKmDir kits_dir)
    end.
Proof.
  intros lib E. unfold get_km_dir. fold lib. rewrite E. simpl.
  assert (Hd : List.filter valid_km_dir
      (omap (fun dir : result OsStr io_error => match dir with Ok name => Some (join lib name) | Err _ => None end) entries) =
    join lib <$> kits lib entries).
  { unfold kits. rewrite <- filter_join, list_fmap_omap. f_equal. apply list_omap_ext, Forall_Forall2_diag, Forall_true.
    by intros []. }
  rewrite Hd, max_by_join. by destruct (max_by OsStr_cmp _).
Qed.

(** The build is pointed at the kit whose name is the greatest, of those that
    could be read, have version 10 and libraries for drivers; it stops with
    a message only if there is none, and with the error of the system if the
    directory of the kits cannot be read. *)
Theorem get_km_dir_greatest kits_dir :
  let lib := join kits_dir (literal "lib") in
  match read_dir lib with
  | Err e => get_km_dir kits_dir = Err (Io e)
  | Ok entries =>
      match get_km_dir kits_dir with
      | Ok p => exists n, p = join (join lib n) (literal "km") /\ Ok n ∈ entries /\ km_kit lib n = true /\
                  forall n', Ok n' ∈ entries -> km_kit lib n' = true -> OsStr_cmp n n' <> Lt
      | Err e => e = NoKmDir kits_dir /\ forall n, Ok n ∈ entries -> km_kit lib n = false
      end
  end.
Proof.
  simpl. destruct (read_dir _) as [entries|e] eqn:E; [|by unfold get_km_dir; rewrite E].
  rewrite (get_km_dir_kits _ _ E). pose proof (max_by_spec OsStr_cmp (kits (join kits_dir (literal "lib")) entries)) as Hmax.
  destruct (max_by _ _) as [n|].
  - destruct Hmax as [[Hin Hk]%kits_elem Hmax]. exists n. do 3 (split; [done|]). intros n' ??. apply Hmax. by apply kits_elem.
  - split; [done|]. intros n Hn. apply not_true_is_false. intros Hk.
    assert (Hin : n ∈ kits (join kits_dir (literal "lib")) entries) by by apply kits_elem.
    rewrite Hmax in Hin. by apply not_elem_of_nil in Hin.
Qed.
End found.

(** The maximum does not depend on the order of the list. *)
Lemma max_by_permutation {A} (cmp : A -> A -> comparison) `{!Comparable cmp} l1 l2 :
  l1 ≡ₚ l2 -> max_by cmp l1 = max_by cmp l2.
Proof.
  intros HP. pose proof (max_by_spec cmp l1) as H1. pose proof (max_by_spec cmp l2) as H2.
  destruct (max_by cmp l1) as [m1|], (max_by cmp l2) as [m2|]; [|subst..|done].
  - destruct H1 as [H1 G1], H2 as [H2 G2]. rewrite HP in H1. rewrite <- HP in H2.
    specialize (G1 _ H2). specialize (G2 _ H1). rewrite (cmp_opp (cmp := cmp) m1 m2) in G2. f_equal. apply (cmp_eq (cmp := cmp)).
    by destruct (cmp m1 m2).
  - apply Permutation_nil_r in HP as ->. set_solver.
  - symmetry in HP. apply Permutation_nil_r in HP as ->. set_solver.
Qed.

Lemma filter_permutation {A} (f : A -> bool) l1 l2 : l1 ≡ₚ l2 -> List.filter f l1 ≡ₚ List.filter f l2.
Proof.
  induction 1 as [|x l1 l2 _ IH|x y l|l1 l2 l3 _ IH1 _ IH2]; simpl; [done|by destruct (f x); rewrite IH| |by rewrite IH1].
  destruct (f x), (f y); first [done|constructor].
Qed.

(** The order in which the system lists the directory does not matter. *)
Theorem get_km_dir_any_order (E1 E2 : BuildEnv) kits_dir l1 l2 :
  let lib := join kits_dir (literal "lib") in
  (forall p, is_dir (BuildEnv := E1) p = is_dir (BuildEnv := E2) p) ->
  read_dir (BuildEnv := E1) lib = Ok (Ok <$> l1) -> read_dir (BuildEnv := E2) lib = Ok (Ok <$> l2) -> l1 ≡ₚ l2 ->
  forall p, get_km_dir (BE := E1) kits_dir = Ok p <-> get_km_dir (BE := E2) kits_dir = Ok p.
Proof.
  intros lib Hdir H1 H2 HP p.
  assert (Hk : forall (E : BuildEnv) l, kits (BE := E) lib (Ok <$> l) = List.filter (km_kit (BE := E) lib) l).
  { intros E l. unfold kits. f_equal. induction l as [|n l IH]; csimpl; [done|]. by rewrite IH. }
  assert (Hf : List.filter (km_kit (BE := E1) lib) l1 ≡ₚ List.filter (km_kit (BE := E2) lib) l2).
  { rewrite (filter_ext (km_kit (BE := E1) lib) (km_kit (BE := E2) lib)); [by apply filter_permutation|].
    intros n. unfold km_kit. by rewrite Hdir. }
  rewrite (get_km_dir_kits (BE := E1) _ _ H1), (get_km_dir_kits (BE := E2) _ _ H2), !Hk.
  rewrite (max_by_permutation _ _ _ Hf). destruct (max_by OsStr_cmp _); split; congruence.
Qed.

(** The script ends with one line for cargo, the directory of the kit found
    for the architecture of the target, or stops before it prints. *)
Theorem main_prints_once {BE : BuildEnv} out :
  match main out with
  | Done _ out' => exists dir km target arch,
      get_windows_kits_dir = Ok dir /\ get_km_dir dir = Ok km /\ var_TARGET = Some target /\
      (str_contains target (literal "x86_64") = true /\ arch = literal "x64" \/
       str_contains target (literal "x86_64") = false /\ str_contains target (literal "i686") = true /\ arch = literal "x86") /\
      out' = out ++ [literal "cargo:rustc-link-search=native=" ++ as_os_str (join km arch)]
  | Panicked _ out' => out' = out
  | Ub _ _ => False
  end.
Proof.
  assert (Hl : forall p out, match to_str p with
                             | Some s => (mret s : M (list (list Z)) (list Z))
                             | None => panic "called `Option::unwrap()` on a `None` value"
                             end out =
                           match to_str p with
                           | Some _ => Done p out
                           | None => Panicked "called `Option::unwrap()` on a `None` value" out
                           end).
  { intros p o. unfold to_str. by destruct (forallb is_scalar p). }
  unfold main, unwrap, println, modify, mbind, M_bind.
  destruct get_windows_kits_dir as [dir|] eqn:Ed; [|done]. unfold mret at 1, M_ret at 1.
  destruct (get_km_dir dir) as [km|] eqn:Ek; [|done]. unfold mret at 1, M_ret at 1.
  destruct var_TARGET as [target|]; [|done]. unfold mret at 1, M_ret at 1.
  destruct (str_contains target (literal "x86_64")) eqn:E1; [|destruct (str_contains target (literal "i686")) eqn:E2; [|done]];
    unfold mret at 1, M_ret at 1; rewrite Hl;
    match goal with |- context [to_str ?p] => destruct (to_str p) end; try done;
    exists dir, km, target; eexists; (split_and!; [done|done|done| |reflexivity]); auto.
Qed.

(** A machine with two kits, one older than the other *)
Module BuildDemo.
Definition kits_root : list Z := literal "C:\Program Files (x86)\Windows Kits\10\".
Definition lib : PathBuf := join (mkPath kits_root []) (literal "lib").
Definition old : OsStr := literal "10.0.9600.0".
Definition new : OsStr := literal "10.0.26100.0".
Definition machine (target : string) : BuildEnv := {|
  io_error := unit; RegKey := unit;
  open_subkey _ := Ok tt;
  get_value _ _ := Ok kits_root;
  root_components r := [r];
  read_dir p := if bool_decide (root p = kits_root /\ names p = names lib)
                then Ok [Ok old; Ok (literal "wdf"); Err tt; Ok new] else Err tt;
  is_dir p := bool_decide (names p = [literal "lib"; old; literal "km"] \/ names p = [literal "lib"; new; literal "km"]);
  var_TARGET := Some (literal target)
|}.

Example main_links :
  main (BE := machine "x86_64-pc-windows-msvc") [] =
  Done tt [literal "cargo:rustc-link-search=native=C:\Program Files (x86)\Windows Kits\10\lib\10.0.9600.0\km\x64"].
Proof. vm_compute. reflexivity. Qed.

Example main_other_target : exists msg, main (BE := machine "aarch64-pc-windows-msvc") [] = Panicked msg [].
Proof. eexists. vm_compute. reflexivity. Qed.
End BuildDemo.

(** Names are compared as strings, so a version with fewer digits in a
    number is taken for the newer one. *)
Theorem older_kit_preferred {BE : BuildEnv} kits_dir :
  let lib := join kits_dir (literal "lib") in
  read_dir lib = Ok [Ok BuildDemo.old; Ok BuildDemo.new] ->
  is_dir (join (join lib BuildDemo.old) (literal "km")) = true ->
  is_dir (join (join lib BuildDemo.new) (literal "km")) = true ->
  get_km_dir kits_dir = Ok (join (join lib BuildDemo.old) (literal "km")).
Proof.
  intros lib E H1 H2. rewrite (get_km_dir_kits _ _ E). fold lib. unfold kits, km_kit. cbn -[literal BuildDemo.old BuildDemo.new].
  by rewrite H1, H2.
Qed.

Lemma older_kit_preferred_witness :
  let BE := {|
    io_error := unit; RegKey := unit; open_subkey _ := Err tt; get_value _ _ := Err tt; root_components r := [r];
    read_dir _ := Ok [Ok BuildDemo.old; Ok BuildDemo.new]; is_dir _ := true; var_TARGET := None |} in
  get_km_dir (mkPath BuildDemo.kits_root []) = Ok (join (join BuildDemo.lib BuildDemo.old) (literal "km")).
Proof. intros BE. by apply (older_kit_preferred (BE := BE) (mkPath BuildDemo.kits_root [])). Defined.
