(* ===== verification/UnicodeStr.v ===== *)
(** * UnicodeStr: borrowed strings, [strings::unicode::str] *)

From S2P Require Import Prelude Nt World Utf16.

Inductive WduUnicodeError : Type :=
| Invalid
| CreateError
| InsufficientResources
| NtStatus (status : NTSTATUS).

(** [core::slice::from_raw_parts(p as *const u16, n)]: the pointer must not
    be null, and the [n] units must lie in the block it points to. *)
Definition slice_from_raw_parts {KN : Kernel} {U} `{!Storable U units} (p : ptr) (n : Z)
    : M (world U) (list Z) :=
  b ← load p;
  if (2 * n <=? b_bytes b) && (n <=? Z.of_nat (length (b_units b)))
  then mret (take (Z.to_nat n) (b_units b))
  else ub (OutOfBounds p).

Module WduUnicodeStr.

(** [&'a [u16]]: where the units are, and the units. *)
Record WduUnicodeStr : Type := mk {
  as_ptr : ptr;
  slice : list Z
}.

Definition to_unicode_len (len : Z) : Z := u16 (usize (len * 2)).

(** [&[]]: a dangling, aligned pointer. *)
Definition default : WduUnicodeStr := {| as_ptr := 2; slice := [] |}.

Definition from_slice (p : ptr) (source : list Z) : WduUnicodeStr :=
  {| as_ptr := p; slice := source |}.

Definition as_unicode_string (self : WduUnicodeStr) : UNICODE_STRING :=
  {| Length := to_unicode_len (Z.of_nat (length (slice self)));
     MaximumLength := to_unicode_len (Z.of_nat (length (slice self)));
     Buffer := as_ptr self |}.

Definition into_UNICODE_STRING (self : WduUnicodeStr) : UNICODE_STRING := as_unicode_string self.

Definition is_empty (self : WduUnicodeStr) : bool := if slice self is [] then true else false.

(** [Display], as [ToString] uses it. *)
Definition to_string (self : WduUnicodeStr) : list Z := from_utf16_lossy (slice self).

(** [PartialEq<Self>] (derived), [PartialEq<str>] and [PartialEq<&str>]; a
    [str] is its characters. *)
Definition eq (self other : WduUnicodeStr) : bool := bool_decide (slice self = slice other).
Definition eq_str (self : WduUnicodeStr) (other : list Z) : bool :=
  bool_decide (to_string self = other).

Section Memory.
Context {KN : Kernel} {U : Type} `{!Storable U units, !Storable U UNICODE_STRING}.

(** [from_ptr] of a string that is a member of another structure. *)
Definition from_member (u : UNICODE_STRING) : M (world U) WduUnicodeStr :=
  l ← slice_from_raw_parts (Buffer u) (MaximumLength u / 2);
  mret {| as_ptr := Buffer u; slice := l |}.

Definition from_ptr (source : ptr) : M (world U) WduUnicodeStr :=
  if source =? null then mret default else u ← load source; from_member u.

(** [PartialEq<UNICODE_STRING>] *)
Definition eq_UNICODE_STRING (self : WduUnicodeStr) (other : UNICODE_STRING) : M (world U) bool :=
  l ← slice_from_raw_parts (Buffer other) (Length other);
  mret (bool_decide (slice self = l)).
End Memory.

End WduUnicodeStr.
Import WduUnicodeStr (WduUnicodeStr).

(** ** Lengths *)

Lemma to_unicode_len_mod n :
  0 <= n -> WduUnicodeStr.to_unicode_len n = (2 * n) mod 2 ^ 16.
Proof.
  intros Hn. unfold WduUnicodeStr.to_unicode_len, u16, usize, wrap.
  rewrite Z.mod_mod_divide by (by exists (2 ^ 48)). f_equal. lia.
Qed.

Lemma to_unicode_len_small n :
  0 <= n < 2 ^ 15 -> WduUnicodeStr.to_unicode_len n = 2 * n.
Proof. intros. rewrite to_unicode_len_mod by lia. apply Z.mod_small. lia. Qed.

#[export] Hint Resolve to_unicode_len_small : wdu.

Section slices.
Context {KN : Kernel} {U : Type} `{!Storable U units}.
Implicit Types s : world U.

Lemma wp_slice_from_raw_parts p n b s (Q : list Z -> world U -> Prop) :
  p <> 0 -> w_mem s !! p = Some (inj b) ->
  2 * n <= b_bytes b -> n <= Z.of_nat (length (b_units b)) ->
  Q (take (Z.to_nat n) (b_units b)) s -> wp (slice_from_raw_parts p n) s Q.
Proof.
  intros Hp Hb H1 H2 HQ. apply wp_bind. eapply wp_load; [done..|].
  apply Z.leb_le in H1, H2. by rewrite H1, H2.
Qed.

Lemma slice_from_raw_parts_overrun p n b s :
  p <> 0 -> w_mem s !! p = Some (inj b) -> b_bytes b < 2 * n ->
  slice_from_raw_parts p n s = Ub (OutOfBounds p) s.
Proof.
  intros Hp Hb H. unfold slice_from_raw_parts. erewrite bind_done by by apply load_at.
  by rewrite (proj2 (Z.leb_gt _ _) H).
Qed.
End slices.

(** ** Properties *)

Section properties.
Context {KN : Kernel} {U : Type} `{!Storable U units, !Storable U UNICODE_STRING}.
Implicit Types (s : world U) (str : WduUnicodeStr).

(** The native string a borrowed string converts to describes exactly its
    units as long as they are fewer than 2^15; from there on its [Length]
    wraps around and is wrong. *)
Theorem as_unicode_string_length str :
  Length (WduUnicodeStr.as_unicode_string str) = 2 * Z.of_nat (length (WduUnicodeStr.slice str))
  <-> Z.of_nat (length (WduUnicodeStr.slice str)) < 2 ^ 15.
Proof.
  simpl. set (n := Z.of_nat (length (WduUnicodeStr.slice str))).
  assert (0 <= n) by lia. rewrite to_unicode_len_mod by done.
  split; [|intros; apply Z.mod_small; lia].
  pose proof (Z.mod_pos_bound (2 * n) (2 ^ 16) ltac:(lia)). lia.
Qed.

(** a borrowed string of fewer than 2^15 units survives the trip through a
    [UNICODE_STRING] in memory: [from_ptr] reads back the same slice. *)
Theorem from_ptr_as_unicode_string str p s :
  WduUnicodeStr.as_ptr str <> 0 -> p <> 0 ->
  Z.of_nat (length (WduUnicodeStr.slice str)) < 2 ^ 15 ->
  w_mem s !! p = Some (inj (WduUnicodeStr.as_unicode_string str)) ->
  w_mem s !! WduUnicodeStr.as_ptr str =
    Some (inj (mkUnits (2 * Z.of_nat (length (WduUnicodeStr.slice str))) (WduUnicodeStr.slice str))) ->
  WduUnicodeStr.from_ptr p s = Done str s.
Proof.
  intros Hb Hp Hn Hu Hd. unfold WduUnicodeStr.from_ptr, WduUnicodeStr.from_member, null.
  rewrite (proj2 (Z.eqb_neq p 0) Hp). erewrite bind_done by by apply load_at. simpl.
  rewrite to_unicode_len_small by lia.
  replace (2 * _ / 2) with (Z.of_nat (length (WduUnicodeStr.slice str)))
    by (rewrite Z.mul_comm, Z.div_mul; lia).
  unfold slice_from_raw_parts. rewrite (bind_done _ _ s (WduUnicodeStr.slice str) s).
  { by destruct str. }
  erewrite bind_done by by apply load_at. simpl. rewrite !(proj2 (Z.leb_le _ _)) by lia. simpl.
  by rewrite Nat2Z.id, take_ge.
Qed.

(** comparing a borrowed string with a native one takes the byte count
    [Length] for a count of 16-bit units: on every non-empty native string
    whose buffer is as long as its [Length] says, the comparison reads past
    the end of that buffer. *)
Theorem eq_UNICODE_STRING_overruns str u b s :
  Buffer u <> 0 -> 0 < Length u -> b_bytes b = Length u ->
  w_mem s !! Buffer u = Some (inj b) ->
  WduUnicodeStr.eq_UNICODE_STRING str u s = Ub (OutOfBounds (Buffer u)) s.
Proof.
  intros Hp Hlen Hb Hm. unfold WduUnicodeStr.eq_UNICODE_STRING.
  erewrite bind_ub; [done|]. eapply slice_from_raw_parts_overrun; [done..|lia].
Qed.
End properties.

(** ** Instances *)

Module UnicodeStrDemo.
Abbreviation cells := (units + (UNICODE_STRING + unit))%type.

(** "Hi" at 0x500, a native string for it at 0x600. *)
Definition hi : WduUnicodeStr := WduUnicodeStr.from_slice 0x500 [72; 105].
Definition memory : gmap ptr cells :=
  <[0x500 := inj (mkUnits 4 [72; 105])]> (<[0x600 := inj (WduUnicodeStr.as_unicode_string hi)]> ∅).
Definition start : @world idle_kernel cells := world_of default_answer memory.
End UnicodeStrDemo.

Lemma from_ptr_as_unicode_string_witness :
  WduUnicodeStr.from_ptr 0x600 UnicodeStrDemo.start = Done UnicodeStrDemo.hi UnicodeStrDemo.start.
Proof.
  apply (from_ptr_as_unicode_string UnicodeStrDemo.hi 0x600 UnicodeStrDemo.start);
    [discriminate|discriminate|reflexivity|vm_compute; reflexivity|vm_compute; reflexivity].
Defined.

Lemma eq_UNICODE_STRING_overruns_witness :
  WduUnicodeStr.eq_UNICODE_STRING UnicodeStrDemo.hi
    (WduUnicodeStr.as_unicode_string UnicodeStrDemo.hi) UnicodeStrDemo.start
  = Ub (OutOfBounds 0x500) UnicodeStrDemo.start.
Proof.
  apply (eq_UNICODE_STRING_overruns UnicodeStrDemo.hi
           (WduUnicodeStr.as_unicode_string UnicodeStrDemo.hi) (mkUnits 4 [72; 105]));
    [discriminate|reflexivity|reflexivity|vm_compute; reflexivity].
Defined.
