(* ===== verification/Crate.v ===== *)
(** * Crate: the items of [lib.rs] *)

From S2P Require Import Prelude Nt World UnicodeStr.
Import WduUnicodeStr (WduUnicodeStr).

(** [WduError] *)
Inductive WduError : Type := WduError_NtStatus (status : NTSTATUS).

Module ProcessorMode.
Inductive ProcessorMode : Type := UserMode | KernelMode.

(** [From<i8>]; any other value is [unreachable!()]. *)
Definition from_i8 {S} (value : Z) : M S ProcessorMode :=
  if value =? 0 then mret KernelMode
  else if value =? 1 then mret UserMode
  else panic "internal error: entered unreachable code".

Definition into_i8 (self : ProcessorMode) : Z :=
  match self with KernelMode => 0 | UserMode => 1 end.

Definition previous_mode {KN : Kernel} {U} : M (world U) ProcessorMode :=
  m ← kcall_ ExGetPreviousMode; from_i8 m.
End ProcessorMode.
Import ProcessorMode (ProcessorMode, UserMode, KernelMode).

Definition WDU_BUGCHECK_CODE : Z := 0x06941393.

(** What the compiler and the linker decide: the sizes of the two structures
    the crate copies into extensions, and the addresses of its functions, by
    path. *)
Class Linked : Type := {
  size_of_WduDevice : Z;
  size_of_WduDriver : Z;
  code_addr : string -> fnptr
}.

Section crate.
Context {KN : Kernel} {U : Type}.

Definition get_system_routine_addr (rtn_name : WduUnicodeStr) : M (world U) (option fnptr) :=
  p ← kcall_ (MmGetSystemRoutineAddress (WduUnicodeStr.into_UNICODE_STRING rtn_name)
                (WduUnicodeStr.slice rtn_name));
  mret (if p =? null then None else Some p).

Definition probe_read (addr len alignment : Z) : M (world U) unit :=
  kcall_ (ProbeForRead addr len alignment).

Definition probe_write (addr len alignment : Z) : M (world U) unit :=
  kcall_ (ProbeForWrite addr len alignment).

(** [msg] is the address of the text of the panic. *)
Definition bug_check (msg : ptr) (code param2 param3 param4 : option Z) : M (world U) unit :=
  kcall_ (KeBugCheckEx (default WDU_BUGCHECK_CODE code) msg (default 0 param2) (default 0 param3)
            (default 0 param4)).

(** The object pointer is written through [object]; here it is returned. *)
Definition ref_by_handle (handle access_mask : Z) (obj_type : option ptr)
    (access_mode : ProcessorMode) : M (world U) (result ptr WduError) :=
  r ← kcall_ (ObReferenceObjectByHandle handle access_mask (default 0 obj_type)
                (ProcessorMode.into_i8 access_mode));
  let '(status, object) := r in
  if negb (status =? STATUS_SUCCESS) then mret (Err (WduError_NtStatus status))
  else mret (Ok object).

Definition dereference (object : ptr) : M (world U) unit := kcall_ (ObfDereferenceObject object).

Definition current_irql : M (world U) Z := kcall_ KeGetCurrentIrql.

(** [debug_assert!(b)]; the condition is computed only with debug assertions. *)
Definition debug_assert {B : Build} (b : M (world U) bool) (msg : string) : M (world U) unit :=
  if debug_assertions then c ← b; assert_ c msg else mret tt.
End crate.

(** ** The getters the macros make

    [member] is the member of the structure [T] they are made for, [offset]
    where it is in it. *)

Module inner_getters_value.
Section Ops.
Context {KN : Kernel} {U T V : Type} `{!Storable U T}.
Context (member : T -> V) (offset : Z).
Definition get (self : ptr) : M (world U) V := d ← load (T := T) self; mret (member d).
Definition as_ref (self : ptr) : ptr := self + offset.
Definition as_ptr (self : ptr) : ptr := as_ref self.
Definition as_mut_ptr (self : ptr) : ptr := as_ref self.
End Ops.
End inner_getters_value.

Module inner_getters_ptr.
Section Ops.
Context {KN : Kernel} {U T : Type} `{!Storable U T}.
Context (member : T -> ptr).
Definition as_ptr (self : ptr) : M (world U) ptr := d ← load (T := T) self; mret (member d).
Definition as_mut_ptr (self : ptr) : M (world U) ptr := d ← load (T := T) self; mret (member d).
End Ops.
End inner_getters_ptr.

(** The numbers of [ProcessorMode] are the ones [From<i8>] reads. *)
Lemma processor_mode_roundtrip {S} (m : ProcessorMode) (s : S) :
  ProcessorMode.from_i8 (ProcessorMode.into_i8 m) s = Done m s.
Proof. by destruct m. Qed.
