(* ===== verification/Pool.v ===== *)
(** * Pool: pool flags and allocators, [memory/mod.rs] and [memory/pool.rs] *)

From S2P Require Import Prelude Nt World UnicodeStr Crate.
Import WduUnicodeStr (WduUnicodeStr).

(** [u32::from_ne_bytes] on a little-endian machine. *)
Definition u32_from_ne_bytes (b0 b1 b2 b3 : Z) : Z :=
  b0 + Z.shiftl b1 8 + Z.shiftl b2 16 + Z.shiftl b3 24.

(** [*b"ALrs"] *)
Definition DEFAULT_POOL_TAG : Z := u32_from_ne_bytes 65 76 114 115.

(** ** [PoolFlags] *)

Module PoolFlags.
Inductive PoolFlags : Type :=
| PoolFlagUninit
| PoolFlagCacheAligned
| PoolFlagNonPaged
| PoolFlagNonPagedExecute
| PoolFlagPaged.

#[export] Instance PoolFlags_eq_dec : EqDecision PoolFlags.
Proof. solve_decision. Defined.

(** [self as u64]: the discriminant. *)
Definition as_u64 (self : PoolFlags) : Z :=
  match self with
  | PoolFlagUninit => 0x2
  | PoolFlagCacheAligned => 0x4
  | PoolFlagNonPaged => 0x40
  | PoolFlagNonPagedExecute => 0x80
  | PoolFlagPaged => 0x100
  end.

(** [From<POOL_TYPE>] *)
Definition from_pool_type (value : Z) : PoolFlags :=
  if (value =? NonPagedPool) || (value =? NonPagedPoolNx) then PoolFlagNonPaged else PoolFlagPaged.

(** [Into<u64>] *)
Definition into_u64 {S} (self : PoolFlags) : M S Z :=
  match self with
  | PoolFlagNonPaged => mret 0x40
  | PoolFlagPaged => mret 0x100
  | _ => panic "internal error: entered unreachable code"
  end.
End PoolFlags.
Import PoolFlags (PoolFlags, PoolFlagNonPaged, PoolFlagPaged).

(** [core::alloc::Layout]: only the size matters to the allocators. *)
Record Layout : Type := mkLayout { size : Z }.

Inductive AllocError : Type := mkAllocError.

(** A [NonNull<[u8]>]: the address and the length. *)
Abbreviation slice_u8 := (ptr * Z)%type.

(** ** [SimpleAlloc] *)

Module SimpleAlloc.
Record SimpleAlloc : Type := mk {
  tag_ : Z;
  pool_type_ : Z;
  pool_flags : PoolFlags;
  alloc_pool2 : option fnptr
}.

Definition const_new : SimpleAlloc :=
  {| tag_ := DEFAULT_POOL_TAG; pool_type_ := NonPagedPool; pool_flags := PoolFlagNonPaged;
     alloc_pool2 := None |}.

Definition tag (self : SimpleAlloc) (tag : Z) : SimpleAlloc :=
  {| tag_ := tag; pool_type_ := pool_type_ self; pool_flags := pool_flags self;
     alloc_pool2 := alloc_pool2 self |}.

Definition pool_type (self : SimpleAlloc) (pool_type : Z) : SimpleAlloc :=
  {| tag_ := tag_ self; pool_type_ := pool_type;
     pool_flags := PoolFlags.from_pool_type pool_type; alloc_pool2 := alloc_pool2 self |}.

(** The name is a local array; [name_at] is its address. *)
Definition pool2_name : list Z :=
  [69; 120; 65; 108; 108; 111; 99; 97; 116; 101; 80; 111; 111; 108; 50; 0].

Section Ops.
Context {KN : Kernel} {U : Type}.

Definition init (name_at : ptr) (self : SimpleAlloc) : M (world U) SimpleAlloc :=
  pfn ← get_system_routine_addr (WduUnicodeStr.from_slice name_at pool2_name);
  mret {| tag_ := tag_ self; pool_type_ := pool_type_ self; pool_flags := pool_flags self;
          alloc_pool2 := pfn |}.

Definition alloc_with_tag (self : SimpleAlloc) (size tag : Z) : M (world U) ptr :=
  match alloc_pool2 self with
  | None => kcall_ (ExAllocatePoolWithTag (pool_type_ self) size tag)
  | Some pfn => kcall_ (CallExAllocatePool2 pfn (PoolFlags.as_u64 (pool_flags self)) size tag)
  end.

Definition alloc (self : SimpleAlloc) (layout : Layout) : M (world U) ptr :=
  match alloc_pool2 self with
  | None => kcall_ (ExAllocatePoolWithTag (pool_type_ self) (size layout) (tag_ self))
  | Some pfn =>
      kcall_ (CallExAllocatePool2 pfn (PoolFlags.as_u64 (pool_flags self)) (size layout) (tag_ self))
  end.

Definition free_with_tag (self : SimpleAlloc) (p : ptr) (tag : Z) : M (world U) unit :=
  kcall_ (ExFreePoolWithTag p tag).

(** [Allocator] *)
Definition allocate (self : SimpleAlloc) (layout : Layout) : M (world U) (result slice_u8 AllocError) :=
  pool ← alloc self layout;
  if pool =? null then mret (Err mkAllocError) else mret (Ok (pool, size layout)).

Definition deallocate (self : SimpleAlloc) (p : ptr) (_layout : Layout) : M (world U) unit :=
  kcall_ (ExFreePoolWithTag p (tag_ self)).

(** [GlobalAlloc] *)
Definition global_alloc (self : SimpleAlloc) (layout : Layout) : M (world U) ptr := alloc self layout.
Definition global_dealloc (self : SimpleAlloc) (p : ptr) (_layout : Layout) : M (world U) unit :=
  kcall_ (ExFreePoolWithTag p (tag_ self)).
End Ops.
End SimpleAlloc.
Import SimpleAlloc (SimpleAlloc).

Definition alloc_error {S A} (layout : Layout) : M S A := panic "allocation failed".

(** ** [PagedPool] and [NonPagedPool]

    A block the pool hands out is in memory from then on, zeroed, and gone
    when it is given back; giving back what is not there is undefined. *)

Section Blocks.
Context {KN : Kernel} {U : Type} `{!Storable U units}.

Definition allocate_pool2 (flags : PoolFlags) (size tag : Z) : M (world U) ptr :=
  f ← PoolFlags.into_u64 flags;
  p ← kcall_ (ExAllocatePool2 f size tag);
  (if p =? null then mret tt
   else install p (mkUnits size (replicate (Z.to_nat (size / 2)) 0))) ;;
  mret p.

Definition free_pool_with_tag (p : ptr) (tag : Z) : M (world U) unit :=
  load (T := units) p ;;
  kcall_ (ExFreePoolWithTag p tag) ;;
  modify (fun s => set_mem (delete p (w_mem s)) s).
End Blocks.

Module PagedPool.
Section Ops.
Context {KN : Kernel} {U : Type} `{!Storable U units}.

Definition alloc (size : Z) : M (world U) ptr := allocate_pool2 PoolFlagPaged size DEFAULT_POOL_TAG.
Definition alloc_with_tag (size tag : Z) : M (world U) ptr := allocate_pool2 PoolFlagPaged size tag.
Definition free_with_tag (p : ptr) (tag : Z) : M (world U) unit := free_pool_with_tag p tag.

Definition allocate (layout : Layout) : M (world U) (result slice_u8 AllocError) :=
  pool ← alloc (size layout);
  if pool =? null then mret (Err mkAllocError) else mret (Ok (pool, size layout)).
Definition deallocate (p : ptr) (_layout : Layout) : M (world U) unit :=
  free_pool_with_tag p DEFAULT_POOL_TAG.
End Ops.
End PagedPool.

Module NonPagedPool.
Section Ops.
Context {KN : Kernel} {U : Type} `{!Storable U units}.

Definition alloc (size : Z) : M (world U) ptr := allocate_pool2 PoolFlagNonPaged size DEFAULT_POOL_TAG.
Definition alloc_with_tag (size tag : Z) : M (world U) ptr := allocate_pool2 PoolFlagNonPaged size tag.
Definition free_with_tag (p : ptr) (tag : Z) : M (world U) unit := free_pool_with_tag p tag.

Definition allocate (layout : Layout) : M (world U) (result slice_u8 AllocError) :=
  pool ← alloc (size layout);
  if pool =? null then mret (Err mkAllocError) else mret (Ok (pool, size layout)).
Definition deallocate (p : ptr) (_layout : Layout) : M (world U) unit :=
  free_pool_with_tag p DEFAULT_POOL_TAG.
End Ops.
End NonPagedPool.

(** ** Properties *)

(** What a driver does to its allocator before use. *)
Inductive config : Type := SetTag (tag : Z) | SetPoolType (pool_type : Z) | Init (name_at : ptr).

Section properties.
Context {KN : Kernel} {U : Type}.
Implicit Types s : world U.

Definition configure (c : config) (a : SimpleAlloc) : M (world U) SimpleAlloc :=
  match c with
  | SetTag t => mret (SimpleAlloc.tag a t)
  | SetPoolType t => mret (SimpleAlloc.pool_type a t)
  | Init p => SimpleAlloc.init p a
  end.

Fixpoint configure_all (cs : list config) (a : SimpleAlloc) : M (world U) SimpleAlloc :=
  match cs with [] => mret a | c :: cs => a' ← configure c a; configure_all cs a' end.

Definition flags_agree (a : SimpleAlloc) : Prop :=
  SimpleAlloc.pool_flags a = PoolFlags.from_pool_type (SimpleAlloc.pool_type_ a).

Lemma configure_all_agree cs a s :
  flags_agree a -> wp (configure_all cs a) s (fun a' _ => flags_agree a').
Proof.
  revert a s. induction cs as [|c cs IH]; intros a s Ha; simpl; [by apply wp_ret|].
  apply wp_bind. destruct c; simpl; [by apply wp_ret, IH..|].
  unfold SimpleAlloc.init, get_system_routine_addr. wp_steps. by apply IH.
Qed.

Lemma from_pool_type_u64 t :
  PoolFlags.as_u64 (PoolFlags.from_pool_type t) =
  if (t =? NonPagedPool) || (t =? NonPagedPoolNx) then 0x40 else 0x100.
Proof. unfold PoolFlags.from_pool_type. by destruct (_ || _). Qed.

(** Whatever tags and pool types a driver sets and however often it
    initialises its allocator, an allocation is one kernel call, with the
    current tag, through the old and the new interface to the same kind of
    pool: the flags passed to [ExAllocatePool2] are those of the [POOL_TYPE]
    that [ExAllocatePoolWithTag] would get. *)
Theorem simple_alloc_pool_agrees cs layout s :
  wp (configure_all cs SimpleAlloc.const_new) s (fun a s1 =>
    wp (SimpleAlloc.alloc a layout) s1 (fun _ s2 =>
      calls s2 = calls s1 ++
        [match SimpleAlloc.alloc_pool2 a with
         | None => ExAllocatePoolWithTag (SimpleAlloc.pool_type_ a) (size layout) (SimpleAlloc.tag_ a)
         | Some pfn =>
             CallExAllocatePool2 pfn
               (if (SimpleAlloc.pool_type_ a =? NonPagedPool)
                   || (SimpleAlloc.pool_type_ a =? NonPagedPoolNx) then 0x40 else 0x100)
               (size layout) (SimpleAlloc.tag_ a)
         end] /\ w_mem s2 = w_mem s1)).
Proof.
  eapply wp_mono; [by apply configure_all_agree|]. intros a s1 Ha.
  rewrite <- from_pool_type_u64, <- Ha. unfold SimpleAlloc.alloc.
  destruct (SimpleAlloc.alloc_pool2 a); wp_steps; done.
Qed.

Context `{!Storable U units}.

Lemma into_u64_pool f s :
  f = PoolFlagPaged \/ f = PoolFlagNonPaged ->
  PoolFlags.into_u64 f s = Done (PoolFlags.as_u64 f) s.
Proof. by intros [-> | ->]. Qed.

(** What [allocate_pool2] leaves: the kernel's answer, and a block there. *)
Definition new_block (sz : Z) : units := mkUnits sz (replicate (Z.to_nat (sz / 2)) 0).

Lemma wp_allocate_pool2 f sz tag s (Q : ptr -> world U -> Prop) :
  f = PoolFlagPaged \/ f = PoolFlagNonPaged ->
  (let c := ExAllocatePool2 (PoolFlags.as_u64 f) sz tag in
   let p := kresp c s in
   let s1 := kafter c s in
   (p = 0 -> Q p s1) /\ (p <> 0 -> Q p (set_mem (<[p := inj (new_block sz)]> (w_mem s1)) s1))) ->
  wp (allocate_pool2 f sz tag) s Q.
Proof.
  intros Hf [H0 H1]. unfold allocate_pool2. apply wp_bind.
  eapply wp_done; [by apply into_u64_pool|]. wp_step. wp_step. wp_step.
  change null with 0. destruct (Z.eqb_spec (kresp (ExAllocatePool2 (PoolFlags.as_u64 f) sz tag) s) 0).
  - by do 2 wp_step; apply H0.
  - do 2 wp_step. by apply H1.
Qed.

Lemma wp_free_pool_with_tag p tag (b : units) s (Q : unit -> world U -> Prop) :
  p <> 0 -> w_mem s !! p = Some (inj b) ->
  (let s1 := kafter (ExFreePoolWithTag p tag) s in Q tt (set_mem (delete p (w_mem s1)) s1)) ->
  wp (free_pool_with_tag p tag) s Q.
Proof. intros. unfold free_pool_with_tag. wp_steps. done. Qed.
End properties.
