(* ===== verification/UnicodeString.v ===== *)
(** * UnicodeString: owned strings, [strings::unicode::string]

    A [WduUnicodeString] is a native string and who allocated its buffer,
    which decides how [drop] gives the buffer back. *)

From S2P Require Import Prelude Nt World Format Utf16 UnicodeStr Crate Pool.
Import WduUnicodeStr (WduUnicodeStr).
Import PoolFlags (PoolFlags, PoolFlagNonPaged, PoolFlagPaged).

(** [core::ptr::copy(src, dst, count)] on 16-bit units: [count] units are read
    from the slice [src] and written to the block at [dst]. *)
Definition ptr_copy_units {KN : Kernel} {U} `{!Storable U units} (src : ptr) (source : list Z)
    (dst : ptr) (count : Z) : M (world U) unit :=
  if count =? 0 then mret tt
  else b ← load dst;
       if b_bytes b <? 2 * count then ub (OutOfBounds dst)
       else if Z.of_nat (length source) <? count then ub (OutOfBounds src)
       else store dst (mkUnits (b_bytes b)
              (take (Z.to_nat count) source ++ drop (Z.to_nat count) (b_units b))).

(** The kernel writes [l] to the buffer at [dst]. *)
Definition write_units {KN : Kernel} {U} `{!Storable U units} (dst : ptr) (l : list Z)
    : M (world U) unit :=
  if decide (l = []) then mret tt
  else b ← load dst;
       if b_bytes b <? 2 * Z.of_nat (length l) then ub (OutOfBounds dst)
       else store dst (mkUnits (b_bytes b) (l ++ drop (length l) (b_units b))).

Module WduUnicodeString.

Inductive CopyFlags : Type :=
| DestNullTerminated
| DestNonNullTerminated
| CreateBufferOnEmtpySource.

Definition CopyFlags_as_u32 (f : CopyFlags) : Z :=
  match f with
  | DestNullTerminated => 0
  | DestNonNullTerminated => 1
  | CreateBufferOnEmtpySource => 3
  end.

Definition MAX_LEN_U32_STRING : Z := 0x15.
Definition MAX_LEN_U64_STRING : Z := 0x30.
(** [*b"WDUs"] *)
Definition STRING_ALLOC_TAG : Z := u32_from_ne_bytes 87 68 85 115.

Inductive AllocType : Type := Os | Rust | Pool.

#[export] Instance AllocType_eq_dec : EqDecision AllocType.
Proof. solve_decision. Defined.

(** [Debug], derived. *)
Definition AllocType_debug (a : AllocType) : string :=
  match a with Os => "Os" | Rust => "Rust" | Pool => "Pool" end.

Record WduUnicodeString : Type := mk {
  string : UNICODE_STRING;
  alloc : option AllocType
}.

Definition default : WduUnicodeString := {| string := mkUnicode 0 0 null; alloc := None |}.
Definition const_new : WduUnicodeString := {| string := mkUnicode 0 0 null; alloc := None |}.

(** [Debug]; [{:?}] of an option is derived. *)
Definition debug_fmt (self : WduUnicodeString) : Strings.String.string :=
  String.concat EmptyString
    ["Len "; fmt_display (Length (string self));
     ", MaxLen "; fmt_display (MaximumLength (string self));
     ", Buffer "; fmt_pointer (Buffer (string self));
     ". [Rust allocated: ";
     match alloc self with None => "None" | Some a => "Some(" +:+ AllocType_debug a +:+ ")" end;
     "]"]%string.

Definition to_unicode_len (len : Z) : Z := u16 (usize (len * 2)).

Definition is_empty (self : WduUnicodeString) : bool :=
  if (Length (string self) =? 0) || (MaximumLength (string self) =? 0) then true else false.

Definition len (self : WduUnicodeString) : Z := Length (string self) / 2.
Definition bytes (self : WduUnicodeString) : Z := Length (string self).
Definition capacity (self : WduUnicodeString) : Z := MaximumLength (string self).

Definition is_alloc (k : AllocType) (self : WduUnicodeString) : bool :=
  match alloc self with None => false | Some a => bool_decide (a = k) end.
Definition is_rust_alloc : WduUnicodeString -> bool := is_alloc Rust.
Definition is_os_alloc : WduUnicodeString -> bool := is_alloc Os.
Definition is_pool_alloc : WduUnicodeString -> bool := is_alloc Pool.

(** Feature [try_non_paged] picks the pool of the fallible constructors. *)
Section Ops.
Context {KN : Kernel} {U : Type} `{!Storable U units, !Storable U UNICODE_STRING}.
Context (try_non_paged : bool).

Definition POOL_TYPE : PoolFlags := if try_non_paged then PoolFlagNonPaged else PoolFlagPaged.

Definition alloc_buffer (len : Z) : M (world U) (result ptr WduUnicodeError) :=
  buffer ← (if try_non_paged then NonPagedPool.alloc_with_tag len STRING_ALLOC_TAG
            else PagedPool.alloc_with_tag len STRING_ALLOC_TAG);
  if buffer =? null then mret (Err InsufficientResources) else mret (Ok buffer).

Definition free_buffer (p : ptr) : M (world U) unit := free_pool_with_tag p STRING_ALLOC_TAG.

(** [RtlFreeUnicodeString] gives the buffer back, if there is one. *)
Definition free_os_string (u : UNICODE_STRING) : M (world U) unit :=
  kcall_ (RtlFreeUnicodeString u) ;;
  if Buffer u =? null then mret tt else box_from_raw (T := units) (Buffer u) ;; mret tt.

(** [Drop] *)
Definition drop (self : WduUnicodeString) : M (world U) unit :=
  match alloc self with
  | None => mret tt
  | Some Os => free_os_string (string self)
  | Some Rust => box_from_raw (T := units) (Buffer (string self)) ;; mret tt
  | Some Pool => free_buffer (Buffer (string self))
  end.

Definition validate (self : WduUnicodeString) : M (world U) (result unit WduUnicodeError) :=
  status ← kcall_ (RtlValidateUnicodeString 0 (string self));
  if status =? STATUS_INVALID_PARAMETER then mret (Err Invalid) else mret (Ok tt).

Definition as_slice (self : WduUnicodeString) : M (world U) (list Z) :=
  slice_from_raw_parts (Buffer (string self)) (len self).

Definition wrap (source : ptr) : M (world U) WduUnicodeString :=
  if source =? null then mret default
  else u ← load source; mret {| string := u; alloc := None |}.

(** What a routine that allocates its destination leaves in memory. *)
Definition os_string (u : UNICODE_STRING) (b : units) : M (world U) WduUnicodeString :=
  (if Buffer u =? null then mret tt else install (Buffer u) b) ;;
  mret {| string := u; alloc := Some Os |}.

Definition take (source : UNICODE_STRING) : WduUnicodeString :=
  {| string := source; alloc := Some Os |}.

(** [source] is at [src]. *)
Definition create (src : ptr) (source : list Z) (pool_type : PoolFlags)
    : M (world U) (result WduUnicodeString WduUnicodeError) :=
  let len := to_unicode_len (Z.of_nat (length source)) in
  buffer ← match pool_type with
           | PoolFlagNonPaged => NonPagedPool.alloc_with_tag len STRING_ALLOC_TAG
           | PoolFlagPaged => PagedPool.alloc_with_tag len STRING_ALLOC_TAG
           | _ => panic "Invalid PoolFlags for WduUnicodeString allocation"
           end;
  if buffer =? null then mret (Err InsufficientResources)
  else ptr_copy_units src source buffer len ;;
       mret (Ok {| string := mkUnicode len len buffer; alloc := Some Pool |}).

Definition try_from_slice (src : ptr) (value : list Z)
    : M (world U) (result WduUnicodeString WduUnicodeError) := create src value POOL_TYPE.

Definition try_from_utf8 (source : list Z) : M (world U) (result WduUnicodeString WduUnicodeError) :=
  let n := u16 (Z.of_nat (length source)) in
  r ← kcall_ (RtlUTF8StringToUnicodeString source n n (u8_from true));
  let '(status, (u, b)) := r in
  if negb (status =? STATUS_SUCCESS) then mret (Err (NtStatus status))
  else str ← os_string u b; mret (Ok str).

(** [try_reserve n]: the global allocator has room for [n] units. *)
Definition try_from_str (try_reserve : Z -> bool) (vec_at : ptr) (source : list Z)
    (pool_type : PoolFlags) : M (world U) (result WduUnicodeString WduUnicodeError) :=
  let u16_size := usize (Z.of_nat (length (encode_utf16 source)) * 2) in
  if negb (try_reserve u16_size) then mret (Err InsufficientResources)
  else create vec_at (encode_utf16 source) pool_type.

(** [FromStr], [TryFrom<&str>] *)
Definition from_str (try_reserve : Z -> bool) (vec_at : ptr) (s : list Z)
    : M (world U) (result WduUnicodeString WduUnicodeError) := try_from_str try_reserve vec_at s POOL_TYPE.
Definition TryFrom_str (try_reserve : Z -> bool) (vec_at : ptr) (value : list Z)
    : M (world U) (result WduUnicodeString WduUnicodeError) :=
  str ←? from_str try_reserve vec_at value; mret (Ok str).

(** [TryFrom<&[u8]>] *)
Definition TryFrom_bytes (value : list Z) : M (world U) (result WduUnicodeString WduUnicodeError) :=
  try_from_utf8 value.

(** Both integer conversions: the routine [conv] writes to the buffer the
    string was given; when it fails the local string is dropped. *)
Definition try_from_u32 (val base : Z) : M (world U) (result WduUnicodeString WduUnicodeError) :=
  buffer ←? alloc_buffer MAX_LEN_U32_STRING;
  let u := mkUnicode MAX_LEN_U32_STRING MAX_LEN_U32_STRING buffer in
  r ← kcall_ (RtlIntegerToUnicodeString val base u);
  let '(status, (n, l)) := r in
  if negb (status =? STATUS_SUCCESS)
  then drop {| string := u; alloc := Some Pool |} ;; mret (Err (NtStatus status))
  else write_units buffer l ;;
       mret (Ok {| string := mkUnicode n MAX_LEN_U32_STRING buffer; alloc := Some Pool |}).

Definition try_from_u64 (val base : Z) : M (world U) (result WduUnicodeString WduUnicodeError) :=
  buffer ←? alloc_buffer MAX_LEN_U64_STRING;
  let u := mkUnicode MAX_LEN_U64_STRING MAX_LEN_U64_STRING buffer in
  r ← kcall_ (RtlInt64ToUnicodeString val base u);
  let '(status, (n, l)) := r in
  if negb (status =? STATUS_SUCCESS)
  then drop {| string := u; alloc := Some Pool |} ;; mret (Err (NtStatus status))
  else write_units buffer l ;;
       mret (Ok {| string := mkUnicode n MAX_LEN_U64_STRING buffer; alloc := Some Pool |}).

(** [TryFrom<u32>], [TryFrom<u64>] *)
Definition TryFrom_u32 (value : Z) : M (world U) (result WduUnicodeString WduUnicodeError) :=
  try_from_u32 value 10.
Definition TryFrom_u64 (value : Z) : M (world U) (result WduUnicodeString WduUnicodeError) :=
  try_from_u64 value 10.

(** [Box::new(vec![0u16; n])] boxes the three words of the vector, not its
    elements: the buffer of the copy is those 24 bytes.  [header] is how the
    words look as code units. *)
Definition copy (header : ptr -> Z -> list Z) (self : WduUnicodeString)
    : M (world U) WduUnicodeString :=
  v ← (if len self =? 0 then mret 2
       else box_into_raw (mkUnits (2 * len self) (replicate (Z.to_nat (len self)) 0)));
  b ← box_into_raw (mkUnits 24 (header v (len self)));
  r ← kcall_ (RtlCopyUnicodeString (mkUnicode (bytes self) (capacity self) b) (string self));
  let '(n, l) := r in
  write_units b l ;;
  mret {| string := mkUnicode n (capacity self) b; alloc := Some Rust |}.

Definition clone := copy.
Definition new (header : ptr -> Z -> list Z) (source : UNICODE_STRING)
    : M (world U) WduUnicodeString := clone header {| string := source; alloc := None |}.

Definition try_copy {A} (self : WduUnicodeString) : M (world U) A := panic "not yet implemented".
Definition to_lower {A} (self : WduUnicodeString) : M (world U) A := panic "not yet implemented".
Definition to_upper {A} (self : WduUnicodeString) : M (world U) A := panic "not yet implemented".
Definition hash {A} (self : WduUnicodeString) : M (world U) A := panic "not yet implemented".

Definition duplicate (self : WduUnicodeString) (flags : CopyFlags)
    : M (world U) (result WduUnicodeString WduUnicodeError) :=
  r ← kcall_ (RtlDuplicateUnicodeString (CopyFlags_as_u32 flags) (string self));
  let '(status, (u, b)) := r in
  if negb (status =? STATUS_SUCCESS) then mret (Err (NtStatus status))
  else str ← os_string u b; mret (Ok str).

Definition new_lower (self : WduUnicodeString) : M (world U) (result WduUnicodeString WduUnicodeError) :=
  r ← kcall_ (RtlDowncaseUnicodeString (string self) (u8_from true));
  let '(status, (u, b)) := r in
  if negb (status =? STATUS_SUCCESS) then mret (Err (NtStatus status))
  else str ← os_string u b; mret (Ok str).

Definition new_upper (self : WduUnicodeString) : M (world U) (result WduUnicodeString WduUnicodeError) :=
  r ← kcall_ (RtlUpcaseUnicodeString (string self) (u8_from true));
  let '(status, (u, b)) := r in
  if negb (status =? STATUS_SUCCESS) then mret (Err (NtStatus status))
  else str ← os_string u b; mret (Ok str).

Definition compare (self other : WduUnicodeString) (case_insensitive : bool) : M (world U) bool :=
  r ← kcall_ (RtlCompareUnicodeString (string self) (string other) (u8_from case_insensitive));
  mret (r =? 0).

Definition np_compare (self other : WduUnicodeString) : M (world U) bool :=
  if negb (Length (string self) =? Length (string other))
     || negb (MaximumLength (string self) =? MaximumLength (string other))
  then mret false
  else n ← kcall_ (RtlCompareMemory (Buffer (string self)) (Buffer (string other))
                     (Length (string self)));
       mret (n =? Length (string self)).

(** [source] is passed first, [self] second. *)
Definition is_suffix (self source : WduUnicodeString) (case_insensitive : bool) : M (world U) bool :=
  r ← kcall_ (RtlSuffixUnicodeString (string source) (string self) (u8_from case_insensitive));
  mret (r =? u8_from true).

Definition is_prefix (self source : WduUnicodeString) (case_insensitive : bool) : M (world U) bool :=
  r ← kcall_ (RtlPrefixUnicodeString (string source) (string self) (u8_from case_insensitive));
  mret (r =? u8_from true).

Definition match_expression (self expression : WduUnicodeString) (case_insensitive : bool)
    : M (world U) bool :=
  r ← kcall_ (FsRtlIsNameInExpression (string expression) (string self) (u8_from case_insensitive));
  mret (r =? u8_from true).

(** [Display], as [ToString] uses it. *)
Definition to_string (self : WduUnicodeString) : M (world U) (list Z) :=
  l ← as_slice self; mret (from_utf16_lossy l).

(** [to_lowercase] is [str::to_lowercase] of Rust's library. *)
Definition contains (to_lowercase : list Z -> list Z) (self needle : WduUnicodeString)
    (case_insensitive : bool) : M (world U) bool :=
  if bytes self <? bytes needle then mret false
  else if case_insensitive then
    h ← to_string self; n ← to_string needle;
    mret (str_contains (to_lowercase h) (to_lowercase n))
  else
    h ← to_string self; n ← to_string needle; mret (str_contains h n).

(** The [PartialEq] instances. *)
Definition eq_UNICODE_STRING (self : WduUnicodeString) (other : UNICODE_STRING) : M (world U) bool :=
  compare self {| string := other; alloc := None |} false.
Definition eq (self other : WduUnicodeString) : M (world U) bool := compare self other false.
Definition eq_str (self : WduUnicodeString) (other : list Z) : M (world U) bool :=
  s ← to_string self; mret (bool_decide (s = other)).
Definition eq_WduUnicodeStr (self : WduUnicodeString) (other : WduUnicodeStr) : M (world U) bool :=
  l ← as_slice self; mret (bool_decide (l = WduUnicodeStr.slice other)).

(** [WduUnicodeStr::to_owned] *)
Definition to_owned (self : WduUnicodeStr) : M (world U) (result WduUnicodeString WduUnicodeError) :=
  try_from_slice (WduUnicodeStr.as_ptr self) (WduUnicodeStr.slice self).
End Ops.

End WduUnicodeString.
Import WduUnicodeString (WduUnicodeString, AllocType, Os, Rust, Pool).

(** What the documentation of the runtime library says of its writes: they
    stay within the [MaximumLength] of the destination. *)
Class RtlWithinBuffer {KN : Kernel} : Prop := {
  integer_within k v b u : 0 <= MaximumLength u ->
    2 * Z.of_nat (length (fst (kstep (RtlIntegerToUnicodeString v b u) k)).2.2) <= MaximumLength u;
  int64_within k v b u : 0 <= MaximumLength u ->
    2 * Z.of_nat (length (fst (kstep (RtlInt64ToUnicodeString v b u) k)).2.2) <= MaximumLength u
}.

Section memory_rules.
Context {KN : Kernel} {U : Type} `{!Storable U units, !Storable U UNICODE_STRING}.
Implicit Types s : world U.

Lemma wp_write_units p l b s (Q : unit -> world U -> Prop) :
  p <> 0 -> w_mem s !! p = Some (inj b) -> 2 * Z.of_nat (length l) <= b_bytes b ->
  (forall b' : units, b_bytes b' = b_bytes b -> (length l <= length (b_units b'))%nat ->
    Q tt (set_mem (<[p := inj b']> (w_mem s)) s)) ->
  wp (write_units p l) s Q.
Proof.
  intros Hp Hb Hl HQ. unfold write_units. case_decide as E.
  - apply wp_ret. specialize (HQ b eq_refl). rewrite insert_id in HQ by done. subst. destruct s.
    apply HQ. simpl. lia.
  - wp_steps. rewrite (proj2 (Z.ltb_ge _ _)) by lia. wp_steps. apply HQ; [done|]. simpl. rewrite length_app. lia.
Qed.

Lemma write_units_overrun p l b s :
  p <> 0 -> w_mem s !! p = Some (inj b) -> b_bytes b < 2 * Z.of_nat (length l) -> 0 <= b_bytes b ->
  write_units p l s = Ub (OutOfBounds p) s.
Proof.
  intros Hp Hb Hl H0. unfold write_units. case_decide as E; [subst; simpl in *; lia|].
  erewrite bind_done by by apply load_at. by rewrite (proj2 (Z.ltb_lt _ _)).
Qed.

Lemma delete_block (p : ptr) (u u' : U) (m : gmap ptr U) :
  m !! p = None -> delete p (<[p := u]> (<[p := u']> m)) = m.
Proof. intros. by rewrite insert_insert_eq, delete_insert_eq, delete_id. Qed.

Lemma delete_block1 (p : ptr) (u : U) (m : gmap ptr U) :
  m !! p = None -> delete p (<[p := u]> m) = m.
Proof. intros. by rewrite delete_insert_eq, delete_id. Qed.
End memory_rules.

(** ** Ownership *)

(** The fallible constructors, but for [create] (below). *)
Inductive ctor : Type :=
| FromU32 (val base : Z)
| FromU64 (val base : Z)
| FromUtf8 (source : list Z)
| Duplicate (self : WduUnicodeString) (flags : WduUnicodeString.CopyFlags)
| NewLower (self : WduUnicodeString)
| NewUpper (self : WduUnicodeString).

Section ownership.
Context {KN : Kernel} {U : Type} `{!Storable U units, !Storable U UNICODE_STRING}.
Context (try_non_paged : bool).
Implicit Types s : world U.

Definition run_ctor (c : ctor) : M (world U) (result WduUnicodeString WduUnicodeError) :=
  match c with
  | FromU32 v b => WduUnicodeString.try_from_u32 try_non_paged v b
  | FromU64 v b => WduUnicodeString.try_from_u64 try_non_paged v b
  | FromUtf8 l => WduUnicodeString.try_from_utf8 l
  | Duplicate self f => WduUnicodeString.duplicate self f
  | NewLower self => WduUnicodeString.new_lower self
  | NewUpper self => WduUnicodeString.new_upper self
  end.

(** The end of a scope that holds the constructed string. *)
Definition drop_result (r : result WduUnicodeString WduUnicodeError) : M (world U) unit :=
  match r with Ok str => WduUnicodeString.drop str | Err _ => mret tt end.

Definition string_pool_call (sz : Z) : kcall :=
  ExAllocatePool2 (PoolFlags.as_u64 (WduUnicodeString.POOL_TYPE try_non_paged)) sz
    WduUnicodeString.STRING_ALLOC_TAG.

(** What the kernel hands out in [s] is not in memory yet. *)
Definition hands_out_fresh (c : ctor) s : Prop :=
  match c with
  | FromU32 _ _ => w_mem s !! kresp (string_pool_call WduUnicodeString.MAX_LEN_U32_STRING) s = None
  | FromU64 _ _ => w_mem s !! kresp (string_pool_call WduUnicodeString.MAX_LEN_U64_STRING) s = None
  | FromUtf8 l =>
      let n := u16 (Z.of_nat (length l)) in
      w_mem s !! Buffer (kresp (RtlUTF8StringToUnicodeString l n n 1) s).2.1 = None
  | Duplicate self f =>
      w_mem s !! Buffer (kresp (RtlDuplicateUnicodeString (WduUnicodeString.CopyFlags_as_u32 f)
                                  (WduUnicodeString.string self)) s).2.1 = None
  | NewLower self =>
      w_mem s !! Buffer (kresp (RtlDowncaseUnicodeString (WduUnicodeString.string self) 1) s).2.1 = None
  | NewUpper self =>
      w_mem s !! Buffer (kresp (RtlUpcaseUnicodeString (WduUnicodeString.string self) 1) s).2.1 = None
  end.

Lemma wp_alloc_buffer sz s (Q : result ptr WduUnicodeError -> world U -> Prop) :
  (let p := kresp (string_pool_call sz) s in
   let s1 := kafter (string_pool_call sz) s in
   (p = 0 -> Q (Err InsufficientResources) s1) /\
   (p <> 0 -> Q (Ok p) (set_mem (<[p := inj (new_block sz)]> (w_mem s1)) s1))) ->
  wp (WduUnicodeString.alloc_buffer try_non_paged sz) s Q.
Proof.
  intros [H0 H1]. unfold WduUnicodeString.alloc_buffer. apply wp_bind.
  unfold string_pool_call, WduUnicodeString.POOL_TYPE in *.
  destruct try_non_paged; (apply wp_allocate_pool2; [by auto|]); cbv zeta; split; intros Hp;
    change null with 0;
    first [rewrite Hp; apply wp_ret, H0, Hp
          |rewrite (proj2 (Z.eqb_neq _ 0) Hp); apply wp_ret, H1, Hp].
Qed.

Lemma wp_os_string_drop u b s (Q : unit -> world U -> Prop) :
  w_mem s !! Buffer u = None ->
  (forall s', w_mem s' = w_mem s -> Q tt s') ->
  wp (str ← WduUnicodeString.os_string u b; drop_result (Ok str)) s Q.
Proof.
  intros Hf HQ. unfold WduUnicodeString.os_string, WduUnicodeString.drop. wp_step. wp_step.
  change null with 0. destruct (Z.eqb_spec (Buffer u) 0) as [E|E].
  - do 2 wp_step. simpl. unfold WduUnicodeString.drop, WduUnicodeString.free_os_string. simpl.
    change null with 0. rewrite (proj2 (Z.eqb_eq _ 0) E). wp_steps. by apply HQ.
  - do 2 wp_step. simpl. unfold WduUnicodeString.drop, WduUnicodeString.free_os_string. simpl.
    change null with 0. rewrite (proj2 (Z.eqb_neq _ 0) E). wp_steps.
    apply HQ. simpl. by apply delete_block1.
Qed.

Lemma wp_os_tail (r : NTSTATUS * (UNICODE_STRING * units)) s (Q : unit -> world U -> Prop) :
  w_mem s !! Buffer r.2.1 = None ->
  (forall s', w_mem s' = w_mem s -> Q tt s') ->
  wp (let '(status, (u, b)) := r in
      if negb (status =? STATUS_SUCCESS) then mret (Err (NtStatus status))
      else str ← WduUnicodeString.os_string u b; mret (Ok str)) s
    (fun a s' => wp (drop_result a) s' Q).
Proof.
  destruct r as [status [u b]]. simpl. intros Hf HQ. destruct (negb _).
  - apply wp_ret. by apply wp_ret, HQ.
  - apply wp_bind.
    pose proof (wp_os_string_drop u b s Q Hf HQ) as H. unfold wp, mbind, M_bind in H |- *.
    by destruct (WduUnicodeString.os_string u b s).
Qed.

(** The tail the two integer conversions share, from a live buffer [p]. *)
Lemma wp_integer_tail (r : NTSTATUS * (Z * list Z)) p max (b : units) m0 s (Q : unit -> world U -> Prop) :
  p <> 0 -> m0 !! p = None -> w_mem s = <[p := inj b]> m0 -> b_bytes b = max ->
  2 * Z.of_nat (length r.2.2) <= max ->
  (forall s', w_mem s' = m0 -> Q tt s') ->
  wp (let '(status, (n, l)) := r in
      if negb (status =? STATUS_SUCCESS)
      then WduUnicodeString.drop (WduUnicodeString.mk (mkUnicode max max p) (Some Pool)) ;;
           mret (Err (NtStatus status))
      else write_units p l ;;
           mret (Ok (WduUnicodeString.mk (mkUnicode n max p) (Some Pool)))) s
    (fun a s' => wp (drop_result a) s' Q).
Proof.
  destruct r as [status [n l]]. simpl. intros Hp Hm0 Hs Hb Hl HQ.
  assert (Hsp : w_mem s !! p = Some (inj b)) by (rewrite Hs; apply lookup_insert_eq).
  destruct (negb _); apply wp_bind; unfold WduUnicodeString.drop, WduUnicodeString.free_buffer; simpl.
  - eapply wp_free_pool_with_tag; [done..|]. cbv zeta. apply wp_ret, wp_ret, HQ.
    simpl. rewrite Hs. by apply delete_block1.
  - eapply wp_write_units; [done|done|lia|]. intros b' _ _. apply wp_ret. simpl.
    unfold WduUnicodeString.drop, WduUnicodeString.free_buffer. simpl.
    eapply (wp_free_pool_with_tag _ _ b'); [done|apply lookup_insert_eq|].
    apply HQ. simpl. rewrite Hs. by apply delete_block.
Qed.

Context {RW : RtlWithinBuffer}.

(** No fallible constructor leaks.  Whatever the kernel answers - no
    memory, a failing conversion, success - once the result goes out of scope
    memory is what it was before the call: an early return gives back the
    buffer it had, and [drop] frees with the deallocator of the allocator
    that made the buffer. *)
Theorem construct_then_drop_restores_memory c s :
  hands_out_fresh c s ->
  wp (r ← run_ctor c; drop_result r) s (fun _ s' => w_mem s' = w_mem s).
Proof.
  intros Hf. apply wp_bind. destruct c; simpl in *.
  1,2: unfold WduUnicodeString.try_from_u32, WduUnicodeString.try_from_u64, try_; apply wp_bind;
    apply wp_alloc_buffer; cbv zeta; split; intros Hp; [by apply wp_ret, wp_ret|];
    do 2 wp_step; eapply (wp_integer_tail _ _ _ _ (w_mem s)); simpl; eauto;
    [by (apply integer_within || apply int64_within)].
  all: unfold WduUnicodeString.try_from_utf8, WduUnicodeString.duplicate,
    WduUnicodeString.new_lower, WduUnicodeString.new_upper; cbv zeta; do 2 wp_step;
    apply wp_os_tail; [exact Hf|done].
Qed.

(** [drop] of a string that owns a buffer frees that buffer and nothing
    else, with the deallocator that matches how it was allocated - the
    runtime library for a buffer of the runtime library, the pool and the
    crate's tag for one of the pool, the global allocator for a boxed one -
    and a string that owns nothing is left alone. *)
Theorem drop_frees_with_matching_allocator (str : WduUnicodeString) (b : units) s :
  Buffer (WduUnicodeString.string str) <> 0 ->
  w_mem s !! Buffer (WduUnicodeString.string str) = Some (inj b) ->
  wp (WduUnicodeString.drop str) s (fun _ s' =>
    calls s' = calls s ++
      match WduUnicodeString.alloc str with
      | Some Os => [RtlFreeUnicodeString (WduUnicodeString.string str)]
      | Some Pool => [ExFreePoolWithTag (Buffer (WduUnicodeString.string str))
                        WduUnicodeString.STRING_ALLOC_TAG]
      | _ => []
      end /\
    w_mem s' = match WduUnicodeString.alloc str with
               | Some _ => delete (Buffer (WduUnicodeString.string str)) (w_mem s)
               | None => w_mem s
               end).
Proof.
  intros Hp Hb. destruct str as [u [[]|]]; simpl in *;
    unfold WduUnicodeString.drop, WduUnicodeString.free_os_string, WduUnicodeString.free_buffer; simpl.
  - wp_step. wp_step. change null with 0. rewrite (proj2 (Z.eqb_neq _ 0) Hp). by wp_steps.
  - wp_steps. by rewrite app_nil_r.
  - eapply wp_free_pool_with_tag; [done..|]. cbv zeta. autorewrite with wdu. done.
  - wp_steps. by rewrite app_nil_r.
Qed.
End ownership.

(** ** Creation and copies *)

(** The documentation of [RtlCopyUnicodeString]: as many bytes as fit. *)
Class RtlCopies {KN : Kernel} : Prop :=
  copies k dst src : 0 <= Length src -> 0 <= MaximumLength dst ->
    2 * Z.of_nat (length (fst (kstep (RtlCopyUnicodeString dst src) k)).2) =
    2 * (Z.min (Length src) (MaximumLength dst) / 2).

Section creation.
Context {KN : Kernel} {U : Type} `{!Storable U units, !Storable U UNICODE_STRING}.
Implicit Types s : world U.

Lemma alloc_with_tag_pool pt {A} (k : ptr -> M (world U) A) sz tag s :
  pt = PoolFlagPaged \/ pt = PoolFlagNonPaged ->
  (match pt with
   | PoolFlagNonPaged => NonPagedPool.alloc_with_tag sz tag
   | PoolFlagPaged => PagedPool.alloc_with_tag sz tag
   | _ => panic "Invalid PoolFlags for WduUnicodeString allocation"
   end ≫= k) s = (allocate_pool2 pt sz tag ≫= k) s.
Proof. by intros [-> | ->]. Qed.

Lemma to_unicode_len_bound n : 0 <= WduUnicodeString.to_unicode_len n < 2 ^ 16.
Proof. by apply wrap_bound. Qed.

(** [create], in one equation. *)
Lemma create_eq src source pt s :
  pt = PoolFlagPaged \/ pt = PoolFlagNonPaged ->
  let n := WduUnicodeString.to_unicode_len (Z.of_nat (length source)) in
  let p := kresp (ExAllocatePool2 (PoolFlags.as_u64 pt) n WduUnicodeString.STRING_ALLOC_TAG) s in
  exists s', WduUnicodeString.create src source pt s =
    (if p =? 0 then Done (Err InsufficientResources) s'
     else if n =? 0 then Done (Ok (WduUnicodeString.mk (mkUnicode 0 0 p) (Some Pool))) s'
     else Ub (OutOfBounds p) s') /\
    (p = 0 -> w_mem s' = w_mem s).
Proof.
  intros Hpt n p. unfold WduUnicodeString.create. rewrite alloc_with_tag_pool by done.
  fold n. assert (0 <= n) by apply to_unicode_len_bound.
  destruct (wp_elim (allocate_pool2 pt n WduUnicodeString.STRING_ALLOC_TAG) s
    (fun a s1 => a = p /\ (p <> 0 -> w_mem s1 !! p = Some (inj (new_block n))) /\ (p = 0 -> w_mem s1 = w_mem s)))
    as (a & s1 & E & -> & Hm & Hsame).
  { apply wp_allocate_pool2; [done|]. cbv zeta. split; intros Hp; (split; [done|]).
    - by split.
    - split; [|done]. intros _. simpl. apply lookup_insert_eq. }
  exists s1. split; [|done]. erewrite bind_done by done. change null with 0.
  destruct (Z.eqb_spec p 0) as [E0|E0]; [done|]. specialize (Hm E0).
  destruct (Z.eqb_spec n 0) as [En|En].
  - rewrite En. done.
  - erewrite bind_ub; [done|]. unfold ptr_copy_units.
    rewrite (proj2 (Z.eqb_neq n 0) En). erewrite bind_done by by apply load_at.
    simpl. by rewrite (proj2 (Z.ltb_lt n (2 * n))) by lia.
Qed.

(** C34: [create] on any source.  With no memory it reports so.  Otherwise, for
    a source whose length does not wrap around to zero, it writes past the
    end of the pool block it has just allocated: [core::ptr::copy] counts
    elements and is given the byte count, twice the number of units the block
    holds.  Only a source of a multiple of 2^15 units (the empty one, or one
    whose length wraps) gets through, as an empty string. *)
Theorem create_outcome src source pt s :
  pt = PoolFlagPaged \/ pt = PoolFlagNonPaged ->
  let n := WduUnicodeString.to_unicode_len (Z.of_nat (length source)) in
  let p := kresp (ExAllocatePool2 (PoolFlags.as_u64 pt) n WduUnicodeString.STRING_ALLOC_TAG) s in
  exists s', WduUnicodeString.create src source pt s =
    if p =? 0 then Done (Err InsufficientResources) s'
    else if n =? 0 then Done (Ok (WduUnicodeString.mk (mkUnicode 0 0 p) (Some Pool))) s'
    else Ub (OutOfBounds p) s'.
Proof. intros Hpt n p. destruct (create_eq src source pt s Hpt) as (s' & E & _). by exists s'. Qed.

(** A native string at [p], with its buffer in memory to the last unit of its
    capacity, of at least one unit. *)
Record native_string (p : ptr) (u : UNICODE_STRING) (b : units) s : Prop := {
  ns_string : p <> 0 /\ w_mem s !! p = Some (inj u);
  ns_buffer : Buffer u <> 0 /\ w_mem s !! Buffer u = Some (inj b);
  ns_capacity : 2 <= MaximumLength u < 2 ^ 16 /\ MaximumLength u <= b_bytes b;
  ns_units : MaximumLength u / 2 <= Z.of_nat (length (b_units b))
}.
(** What the crate sees of it. *)
Definition seen (u : UNICODE_STRING) (b : units) : WduUnicodeStr :=
  WduUnicodeStr.mk (Buffer u) (take (Z.to_nat (MaximumLength u / 2)) (b_units b)).

Lemma native_string_frame p u b s s' : w_mem s' = w_mem s -> native_string p u b s -> native_string p u b s'.
Proof. intros E []. by split; rewrite ?E. Qed.

Lemma from_ptr_done p u b s :
  native_string p u b s -> WduUnicodeStr.from_ptr p s = Done (seen u b) s.
Proof.
  intros [[Hp Hu] [Hb Hm] [Hcap Hbytes] Hunits].
  pose proof (Z.div_mod (MaximumLength u) 2 ltac:(lia)). pose proof (Z.mod_pos_bound (MaximumLength u) 2 ltac:(lia)).
  destruct (wp_elim (WduUnicodeStr.from_ptr p) s (fun r s' => r = seen u b /\ s' = s)) as (? & ? & E & -> & ->);
    [|exact E].
  unfold WduUnicodeStr.from_ptr, WduUnicodeStr.from_member. change null with 0.
  rewrite (proj2 (Z.eqb_neq _ _) Hp). wp_step. eapply wp_load; [done..|]. wp_step.
  eapply wp_slice_from_raw_parts; [done|done|lia|lia|]. by wp_step.
Qed.

(** An owned copy of it cannot be had: for want of memory, or because the copy
    is written past the end of its block. *)
Lemma to_owned_overruns try_non_paged p u b s :
  native_string p u b s ->
  let q := kresp (string_pool_call try_non_paged (2 * (MaximumLength u / 2))) s in
  exists s', WduUnicodeString.to_owned try_non_paged (seen u b) s =
    (if q =? 0 then Done (Err InsufficientResources) s' else Ub (OutOfBounds q) s') /\
    (q = 0 -> w_mem s' = w_mem s).
Proof.
  intros [_ _ [Hcap _] Hunits] q. pose proof (Z.div_mod (MaximumLength u) 2 ltac:(lia)).
  pose proof (Z.mod_pos_bound (MaximumLength u) 2 ltac:(lia)).
  destruct (create_eq (Buffer u) (WduUnicodeStr.slice (seen u b)) (WduUnicodeString.POOL_TYPE try_non_paged) s)
    as (s' & E & Hs).
  { destruct try_non_paged; [by right|by left]. }
  assert (Hn : WduUnicodeString.to_unicode_len (Z.of_nat (length (WduUnicodeStr.slice (seen u b)))) = 2 * (MaximumLength u / 2)).
  { simpl. rewrite length_take, Nat2Z.inj_min, Z2Nat.id, Z.min_l by lia. apply to_unicode_len_small. lia. }
  rewrite Hn in E, Hs. exists s'. rewrite (proj2 (Z.eqb_neq (2 * _) 0)) in E by lia. by split.
Qed.

(** [from_ptr] makes its slice of all of a native string's capacity, while
    [wrap] keeps the string's length: the two views of one string agree only
    if its [MaximumLength] leaves no unit beyond its [Length]. *)
Theorem from_ptr_takes_capacity p u b s :
  p <> 0 -> Buffer u <> 0 -> 0 <= Length u <= MaximumLength u ->
  w_mem s !! p = Some (inj u) -> w_mem s !! Buffer u = Some (inj b) ->
  MaximumLength u <= b_bytes b -> MaximumLength u / 2 <= Z.of_nat (length (b_units b)) ->
  wp (str ← WduUnicodeStr.from_ptr p; w ← WduUnicodeString.wrap p;
      l ← WduUnicodeString.as_slice w; mret (WduUnicodeStr.slice str, l)) s
    (fun r _ => r.1 = r.2 <-> MaximumLength u / 2 = Length u / 2).
Proof.
  intros Hp Hbuf Hlen Hu Hb Hfit Hunits. pose proof (Z.div_mod (MaximumLength u) 2 ltac:(lia)).
  pose proof (Z.mod_pos_bound (MaximumLength u) 2 ltac:(lia)).
  pose proof (Z.div_le_mono (Length u) (MaximumLength u) 2 ltac:(lia) ltac:(lia)).
  pose proof (Z.div_pos (Length u) 2 ltac:(lia) ltac:(lia)).
  unfold WduUnicodeStr.from_ptr, WduUnicodeStr.from_member, WduUnicodeString.wrap, WduUnicodeString.as_slice, WduUnicodeString.len.
  change null with 0. rewrite (proj2 (Z.eqb_neq p 0) Hp). repeat wp_step.
  eapply wp_slice_from_raw_parts; [done|done|lia|lia|]. repeat (wp_step; simpl).
  eapply wp_slice_from_raw_parts; [done|done|simpl; lia|simpl; lia|]. wp_step. simpl.
  split; [|by intros ->]. intros E. apply (f_equal length) in E.
  rewrite !length_take in E. lia.
Qed.

Context {RC : RtlCopies}.

Lemma copies_length dst src s :
  Length src <= MaximumLength dst -> 0 <= Length src ->
  Z.of_nat (length (kresp (RtlCopyUnicodeString dst src) s).2) = Length src / 2.
Proof.
  intros H1 H2. pose proof (copies (w_kernel s) dst src H2 ltac:(lia)) as E. unfold kresp.
  rewrite Z.min_l in E by lia. lia.
Qed.

(** Cloning a string of more than 12 units writes past the end of the copy's
    buffer: what the copy takes for its buffer is the box of the vector's
    three words. *)
Theorem clone_overruns_buffer header (self : WduUnicodeString) s :
  26 <= Length (WduUnicodeString.string self) <= MaximumLength (WduUnicodeString.string self) ->
  exists p s', w_mem s !! p = None /\ WduUnicodeString.clone header self s = Ub (OutOfBounds p) s'.
Proof.
  intros Hlen. set (u := WduUnicodeString.string self) in *.
  assert (Hl : 13 <= Length u / 2) by (apply Z.div_le_lower_bound; lia).
  unfold WduUnicodeString.clone, WduUnicodeString.copy, WduUnicodeString.len. fold u.
  rewrite (proj2 (Z.eqb_neq (Length u / 2) 0)) by lia.
  erewrite bind_done by done. erewrite bind_done by done. erewrite bind_done by done.
  match goal with |- context [kresp ?c ?s0] => set (s2 := s0) end.
  set (b := fresh_addr _). pose proof (copies_length (mkUnicode (WduUnicodeString.bytes self)
    (WduUnicodeString.capacity self) b) u s2 (proj2 Hlen) ltac:(lia)) as E.
  destruct (kresp _ s2) as [n l]. simpl in E. exists b. eexists. split.
  - match goal with b := fresh_addr ?m |- _ => pose proof (fresh_addr_fresh m) as Hb end.
    fold b in Hb. simpl in Hb. by apply lookup_insert_None in Hb as [? _].
  - erewrite bind_ub; [done|].
    eapply write_units_overrun; [|apply lookup_insert_eq|simpl; lia|simpl; lia].
    match goal with b := fresh_addr ?m |- _ => pose proof (fresh_addr_pos m) as Hb end.
    fold b in Hb. lia.
Qed.
End creation.

(** ** Search *)

Section search.
Context {KN : Kernel} {U : Type} `{!Storable U units, !Storable U UNICODE_STRING}.
Implicit Types s : world U.

Lemma as_slice_length (self : WduUnicodeString) l s s' :
  0 <= Length (WduUnicodeString.string self) ->
  WduUnicodeString.as_slice self s = Done l s' ->
  s' = s /\ Z.of_nat (length l) = Length (WduUnicodeString.string self) / 2.
Proof.
  unfold WduUnicodeString.as_slice, slice_from_raw_parts, WduUnicodeString.len, load, mbind, M_bind.
  intros H0 H. pose proof (Z.div_pos _ 2 H0 ltac:(lia)).
  destruct (Buffer _ =? null); [done|]. destruct (option_bind _ _ _ _); [|done].
  destruct (_ && _) eqn:E; [|done]. apply andb_true_iff in E as [_ E%Z.leb_le].
  unfold mret, M_ret in H. simplify_eq. split; [done|]. rewrite length_take. lia.
Qed.

Lemma even_half n : Z.even n = true -> n = 2 * (n / 2).
Proof. intros H%Zeven_bool_iff%Zeven_div2. by rewrite <- Z.div2_div. Qed.

(** The length test at the head of [contains] never changes its answer:
    on well-formed strings (an even [Length], units of 16 bits) the result is
    whether the decoded needle occurs in the decoded string - and, without
    regard to case, in their lower-case forms, provided that lower-casing
    these two keeps their UTF-16 length. *)
Theorem contains_spec to_lowercase (self needle : WduUnicodeString) h n ci s :
  0 <= Length (WduUnicodeString.string self) -> 0 <= Length (WduUnicodeString.string needle) ->
  Z.even (Length (WduUnicodeString.string self)) = true ->
  Z.even (Length (WduUnicodeString.string needle)) = true ->
  WduUnicodeString.as_slice self s = Done h s -> WduUnicodeString.as_slice needle s = Done n s ->
  Forall (fun u => 0 <= u < 0x10000) h -> Forall (fun u => 0 <= u < 0x10000) n ->
  (ci = true -> len_utf16_str (to_lowercase (from_utf16_lossy h)) = length h /\
                len_utf16_str (to_lowercase (from_utf16_lossy n)) = length n) ->
  WduUnicodeString.contains to_lowercase self needle ci s =
    Done (if ci then str_contains (to_lowercase (from_utf16_lossy h)) (to_lowercase (from_utf16_lossy n))
          else str_contains (from_utf16_lossy h) (from_utf16_lossy n)) s.
Proof.
  intros H0 N0 He Ne Hh Hn Fh Fn Hci.
  destruct (as_slice_length _ _ _ _ H0 Hh) as [_ Lh].
  destruct (as_slice_length _ _ _ _ N0 Hn) as [_ Ln].
  apply even_half in He, Ne. unfold WduUnicodeString.contains, WduUnicodeString.bytes.
  destruct (Z.ltb_spec (Length (WduUnicodeString.string self))
              (Length (WduUnicodeString.string needle))) as [Hlt|_].
  - unfold mret, M_ret. f_equal. symmetry. apply not_true_iff_false.
    destruct ci; intros Hc.
    + apply str_contains_spec in Hc as (k1 & k2 & E). destruct (Hci eq_refl) as [E1 E2].
      rewrite E, !len_utf16_app, E2 in E1. lia.
    + apply contains_length in Hc; [lia|done..].
  - unfold WduUnicodeString.to_string.
    destruct ci; do 2 (erewrite bind_done; [|by erewrite bind_done]); done.
Qed.
End search.

(** ** Instances *)

Module UnicodeStringDemo.
Abbreviation cells := (units + (UNICODE_STRING + unit))%type.

(** Blocks at 0x1000; decimal digits for integers; copies of zeros. *)
Definition answer (c : kcall) : kret c :=
  match c as c return kret c with
  | ExAllocatePool2 _ _ _ => 0x1000
  | RtlIntegerToUnicodeString _ _ u =>
      if 2 <=? MaximumLength u then (STATUS_SUCCESS, (2, [55])) else (STATUS_UNSUCCESSFUL, (0, []))
  | RtlCopyUnicodeString dst src =>
      (Length src, replicate (Z.to_nat (Z.min (Length src) (MaximumLength dst) / 2)) 0)
  | c => default_answer c
  end.
Definition kernel : Kernel := answering answer.

Definition start (m : gmap ptr cells) : @world kernel cells := world_of answer m.

Lemma within : @RtlWithinBuffer kernel.
Proof.
  split; intros k v b u H; simpl; [|lia].
  destruct (Z.leb_spec 2 (MaximumLength u)); simpl; lia.
Qed.

Lemma copying : @RtlCopies kernel.
Proof.
  intros k dst src H1 H2. simpl. rewrite length_replicate, Z2Nat.id; [done|].
  apply Z.div_pos; lia.
Qed.

(** "Hi" owned by the pool, at 0x500, and a string of 13 units. *)
Definition hi : WduUnicodeString := WduUnicodeString.mk (mkUnicode 4 4 0x500) (Some Pool).
Definition h : WduUnicodeString := WduUnicodeString.mk (mkUnicode 2 8 0x500) None.
Definition long : WduUnicodeString := WduUnicodeString.mk (mkUnicode 26 26 0x700) None.
Definition memory : gmap ptr cells :=
  <[0x500 := inj (mkUnits 8 [72; 105; 0; 0])]> (<[0x600 := inj (mkUnicode 2 8 0x500)]> ∅).

Example debug_long :
  WduUnicodeString.debug_fmt (WduUnicodeString.take (mkUnicode 26 28 0x7A0)) =
  "Len 26, MaxLen 28, Buffer 0x7a0. [Rust allocated: Some(Os)]"%string.
Proof. reflexivity. Qed.
End UnicodeStringDemo.

Lemma construct_then_drop_restores_memory_witness :
  wp (r ← run_ctor true (FromU32 7 10); drop_result r) (UnicodeStringDemo.start UnicodeStringDemo.memory)
    (fun _ s' => w_mem s' = UnicodeStringDemo.memory).
Proof.
  apply (construct_then_drop_restores_memory (RW := UnicodeStringDemo.within) true (FromU32 7 10)
           (UnicodeStringDemo.start UnicodeStringDemo.memory)).
  vm_compute. reflexivity.
Defined.

Lemma drop_frees_with_matching_allocator_witness :
  wp (WduUnicodeString.drop UnicodeStringDemo.hi) (UnicodeStringDemo.start UnicodeStringDemo.memory)
    (fun _ s' => calls s' = [ExFreePoolWithTag 0x500 WduUnicodeString.STRING_ALLOC_TAG] /\
                 w_mem s' = delete 0x500 UnicodeStringDemo.memory).
Proof.
  apply (drop_frees_with_matching_allocator UnicodeStringDemo.hi (mkUnits 8 [72; 105; 0; 0])
           (UnicodeStringDemo.start UnicodeStringDemo.memory)); [discriminate|vm_compute; reflexivity].
Defined.

Lemma create_outcome_witness :
  exists s', WduUnicodeString.create 0x500 [72; 105] PoolFlagPaged (UnicodeStringDemo.start ∅)
             = Ub (OutOfBounds 0x1000) s'.
Proof.
  exact (create_outcome 0x500 [72; 105] PoolFlagPaged (UnicodeStringDemo.start ∅) (or_introl eq_refl)).
Defined.

Lemma from_ptr_takes_capacity_witness :
  wp (str ← WduUnicodeStr.from_ptr 0x600; w ← WduUnicodeString.wrap 0x600;
      l ← WduUnicodeString.as_slice w; mret (WduUnicodeStr.slice str, l))
    (UnicodeStringDemo.start UnicodeStringDemo.memory) (fun r _ => r.1 = r.2 <-> 4 = 1).
Proof.
  apply (from_ptr_takes_capacity 0x600 (mkUnicode 2 8 0x500) (mkUnits 8 [72; 105; 0; 0])
           (UnicodeStringDemo.start UnicodeStringDemo.memory));
    [discriminate|discriminate|simpl; lia|vm_compute; reflexivity|vm_compute; reflexivity
    |simpl; lia|vm_compute; discriminate].
Defined.

Lemma clone_overruns_buffer_witness :
  exists p s', UnicodeStringDemo.memory !! p = None /\
    WduUnicodeString.clone (fun _ _ => replicate 12 0) UnicodeStringDemo.long
      (UnicodeStringDemo.start UnicodeStringDemo.memory) = Ub (OutOfBounds p) s'.
Proof.
  apply (clone_overruns_buffer (RC := UnicodeStringDemo.copying) (fun _ _ => replicate 12 0) UnicodeStringDemo.long
           (UnicodeStringDemo.start UnicodeStringDemo.memory)). simpl. lia.
Defined.

(** "Hi" contains "H", and "h" when case is ignored. *)
Lemma contains_spec_witness :
  WduUnicodeString.contains (fun l => l) UnicodeStringDemo.hi UnicodeStringDemo.h true
    (UnicodeStringDemo.start UnicodeStringDemo.memory)
  = Done true (UnicodeStringDemo.start UnicodeStringDemo.memory).
Proof.
  apply (contains_spec (fun l => l) UnicodeStringDemo.hi UnicodeStringDemo.h [72; 105] [72] true
           (UnicodeStringDemo.start UnicodeStringDemo.memory));
    try (vm_compute; done); try (simpl; lia); try (repeat constructor; lia).
Defined.
