(* ===== verification/StringLife.v ===== *)
(** * StringLife: what a string may be used for, from construction to drop

    A well-formed string has a length within its capacity, and its capacity
    within the block it points to.  The constructors that get through make
    well-formed strings, or an empty one without a block; no operation that
    reads a well-formed string can fault, of those that read an empty one
    without a block just the ones that make a slice do, and [drop] gives back
    all of it: [strings::unicode::string] as a type, and the use of it as a
    theorem.

    The module the feature [unicode_as_vec] has in its place is at the end. *)

From S2P Require Import Prelude Nt World Utf16 UnicodeStr Crate Pool UnicodeString.
Import WduUnicodeStr (WduUnicodeStr).
Import PoolFlags (PoolFlags, PoolFlagNonPaged, PoolFlagPaged).
Import WduUnicodeString (WduUnicodeString, AllocType, Os, Rust, Pool).

(** What the runtime library promises of the strings it makes and writes: a
    length within the capacity, the capacity within the block, and a block,
    unless the string is empty. *)
Definition made_well (u : UNICODE_STRING) (b : units) : Prop :=
  0 <= Length u <= MaximumLength u /\ MaximumLength u <= b_bytes b /\
  2 * Z.of_nat (length (b_units b)) >= Length u /\ (Buffer u = 0 -> MaximumLength u = 0).

Class RtlStrings {KN : Kernel} : Prop := {
  integer_made k v b u : 0 <= MaximumLength u ->
    let r := fst (kstep (RtlIntegerToUnicodeString v b u) k) in
    2 * Z.of_nat (length r.2.2) <= MaximumLength u /\
    (r.1 = STATUS_SUCCESS -> r.2.1 = 2 * Z.of_nat (length r.2.2));
  int64_made k v b u : 0 <= MaximumLength u ->
    let r := fst (kstep (RtlInt64ToUnicodeString v b u) k) in
    2 * Z.of_nat (length r.2.2) <= MaximumLength u /\
    (r.1 = STATUS_SUCCESS -> r.2.1 = 2 * Z.of_nat (length r.2.2));
  utf8_made k l n m a : let r := fst (kstep (RtlUTF8StringToUnicodeString l n m a) k) in
    r.1 = STATUS_SUCCESS -> made_well r.2.1 r.2.2;
  duplicate_made k f u : let r := fst (kstep (RtlDuplicateUnicodeString f u) k) in
    r.1 = STATUS_SUCCESS -> made_well r.2.1 r.2.2;
  downcase_made k u a : let r := fst (kstep (RtlDowncaseUnicodeString u a) k) in
    r.1 = STATUS_SUCCESS -> made_well r.2.1 r.2.2;
  upcase_made k u a : let r := fst (kstep (RtlUpcaseUnicodeString u a) k) in
    r.1 = STATUS_SUCCESS -> made_well r.2.1 r.2.2
}.

(** The operations that read a string. *)
Inductive reading : Type :=
| AsSlice | ToString | Validate
| EqStr (other : list Z) | EqWduUnicodeStr (other : WduUnicodeStr) | EqUNICODE_STRING (other : UNICODE_STRING)
| Compare (other : WduUnicodeString) (case_insensitive : bool)
| NpCompare (other : WduUnicodeString)
| IsSuffix (source : WduUnicodeString) (case_insensitive : bool)
| IsPrefix (source : WduUnicodeString) (case_insensitive : bool)
| MatchExpression (expression : WduUnicodeString) (case_insensitive : bool)
| Contains (to_lowercase : list Z -> list Z) (needle : WduUnicodeString) (case_insensitive : bool).

Section life.
Context {KN : Kernel} {U : Type} `{!Storable U units, !Storable U UNICODE_STRING}.
Context (try_non_paged : bool).
Implicit Types (s : world U) (str : WduUnicodeString).

Definition run_reading (op : reading) str : M (world U) unit :=
  match op with
  | AsSlice => WduUnicodeString.as_slice str ;; mret tt
  | ToString => WduUnicodeString.to_string str ;; mret tt
  | Validate => WduUnicodeString.validate str ;; mret tt
  | EqStr l => WduUnicodeString.eq_str str l ;; mret tt
  | EqWduUnicodeStr o => WduUnicodeString.eq_WduUnicodeStr str o ;; mret tt
  | EqUNICODE_STRING o => WduUnicodeString.eq_UNICODE_STRING str o ;; mret tt
  | Compare o ci => WduUnicodeString.compare str o ci ;; mret tt
  | NpCompare o => WduUnicodeString.np_compare str o ;; mret tt
  | IsSuffix o ci => WduUnicodeString.is_suffix str o ci ;; mret tt
  | IsPrefix o ci => WduUnicodeString.is_prefix str o ci ;; mret tt
  | MatchExpression o ci => WduUnicodeString.match_expression str o ci ;; mret tt
  | Contains f o ci => WduUnicodeString.contains f str o ci ;; mret tt
  end.

(** The string is a view of a live block. *)
Record well_formed str s : Prop := {
  wf_length : 0 <= Length (WduUnicodeString.string str) <= MaximumLength (WduUnicodeString.string str);
  wf_buffer : Buffer (WduUnicodeString.string str) <> 0;
  wf_block : exists b : units, w_mem s !! Buffer (WduUnicodeString.string str) = Some (inj b) /\
    MaximumLength (WduUnicodeString.string str) <= b_bytes b /\
    Length (WduUnicodeString.string str) <= 2 * Z.of_nat (length (b_units b))
}.

(** What an operation reads besides. *)
Definition operand (op : reading) : option WduUnicodeString :=
  if op is Contains _ needle _ then Some needle else None.
Definition operands_well_formed (op : reading) s : Prop :=
  match operand op with Some o => well_formed o s | None => True end.

(** *** Laws *)

Lemma well_formed_frame str s s' :
  (forall a, is_Some (w_mem s !! a) -> w_mem s' !! a = w_mem s !! a) -> well_formed str s -> well_formed str s'.
Proof. intros Hf [Hl Hb (b & Hm & ?)]. split; [done..|]. exists b. by rewrite Hf, Hm by (by rewrite Hm). Qed.

Lemma wp_as_slice str s (Q : list Z -> world U -> Prop) :
  well_formed str s -> (forall l, Q l s) -> wp (WduUnicodeString.as_slice str) s Q.
Proof.
  intros [Hl Hb (b & Hm & Hcap & Hlen)] HQ. pose proof (Z.div_mod (Length (WduUnicodeString.string str)) 2 ltac:(lia)).
  pose proof (Z.mod_pos_bound (Length (WduUnicodeString.string str)) 2 ltac:(lia)).
  eapply wp_slice_from_raw_parts; [done|done|unfold WduUnicodeString.len; lia..|apply HQ].
Qed.

(** Reading changes nothing, and cannot fault. *)
Lemma wp_reading op str s (Q : unit -> world U -> Prop) :
  well_formed str s -> operands_well_formed op s ->
  (forall s', w_mem s' = w_mem s -> Q tt s') -> wp (run_reading op str) s Q.
Proof.
  intros Hw Ho HQ. destruct op; simpl; unfold operands_well_formed in Ho; simpl in Ho;
    unfold WduUnicodeString.to_string, WduUnicodeString.validate, WduUnicodeString.eq_str,
      WduUnicodeString.eq_WduUnicodeStr, WduUnicodeString.eq_UNICODE_STRING, WduUnicodeString.compare,
      WduUnicodeString.np_compare, WduUnicodeString.is_suffix, WduUnicodeString.is_prefix,
      WduUnicodeString.match_expression, WduUnicodeString.contains, WduUnicodeString.to_string;
    repeat first [wp_if | wp_step | apply wp_as_slice; [by eauto|intros ?] | by apply HQ].
Qed.

Fixpoint run_readings (ops : list reading) str : M (world U) unit :=
  match ops with [] => mret tt | op :: ops => run_reading op str ;; run_readings ops str end.

Lemma wp_readings ops str s (Q : unit -> world U -> Prop) :
  well_formed str s -> Forall (fun op => operands_well_formed op s) ops ->
  (forall s', w_mem s' = w_mem s -> Q tt s') -> wp (run_readings ops str) s Q.
Proof.
  revert s. induction ops as [|op ops IH]; intros s Hw Ho HQ; simpl; [by apply wp_ret, HQ|].
  apply Forall_cons in Ho as [Ho Hos]. apply wp_bind, wp_reading; [done..|]. intros s1 M1.
  assert (Hf : forall a, is_Some (w_mem s !! a) -> w_mem s1 !! a = w_mem s !! a) by (intros; by rewrite M1).
  apply IH; [by eapply well_formed_frame| |intros s2 M2; apply HQ; by rewrite M2].
  eapply Forall_impl; [exact Hos|]. intros x. unfold operands_well_formed.
  destruct (operand x); [|done]. by apply well_formed_frame.
Qed.

(** *** A string without a block

    It may be given to the kernel, but no slice may be made of it: Rust's
    slices may not be at a null pointer. *)
Definition slices (op : reading) : bool :=
  match op with
  | AsSlice | ToString | EqStr _ | EqWduUnicodeStr _ => true
  | Contains _ needle _ => negb (0 <? WduUnicodeString.bytes needle)
  | _ => false
  end.

Definition bare str : Prop :=
  Buffer (WduUnicodeString.string str) = 0 /\ Length (WduUnicodeString.string str) = 0.

Lemma bare_sliced op str s :
  bare str -> slices op = true -> run_reading op str s = Ub NullDeref s.
Proof.
  intros [Hb Hl] Ho. assert (Hs : WduUnicodeString.as_slice str s = Ub NullDeref s).
  { unfold WduUnicodeString.as_slice, slice_from_raw_parts. by rewrite Hb. }
  assert (Ht : WduUnicodeString.to_string str s = Ub NullDeref s) by by apply bind_ub.
  destruct op; try discriminate; simpl in *; apply bind_ub; [done|done|by apply bind_ub|by apply bind_ub|].
  unfold WduUnicodeString.contains. replace (WduUnicodeString.bytes str) with 0 by done.
  destruct (0 <? _); [done|]. by destruct case_insensitive; apply bind_ub.
Qed.

Lemma wp_bare op str s (Q : unit -> world U -> Prop) :
  bare str -> slices op = false -> (forall s', w_mem s' = w_mem s -> Q tt s') -> wp (run_reading op str) s Q.
Proof.
  intros [Hb Hl] Ho HQ. destruct op; try discriminate; simpl in *;
    unfold WduUnicodeString.validate, WduUnicodeString.eq_UNICODE_STRING, WduUnicodeString.compare,
      WduUnicodeString.np_compare, WduUnicodeString.is_suffix, WduUnicodeString.is_prefix,
      WduUnicodeString.match_expression, WduUnicodeString.contains;
    try (replace (WduUnicodeString.bytes str) with 0 by done; apply negb_false_iff in Ho; rewrite Ho);
    repeat first [wp_if | wp_step | by apply HQ].
Qed.

Lemma readings_bare ops str s :
  bare str ->
  if existsb slices ops then exists s', run_readings ops str s = Ub NullDeref s'
  else wp (run_readings ops str) s (fun _ s' => w_mem s' = w_mem s).
Proof.
  intros Hb. revert s. induction ops as [|op ops IH]; intros s; simpl; [by apply wp_ret|].
  destruct (slices op) eqn:Ho; simpl; [exists s; by apply bind_ub, bare_sliced|].
  destruct (wp_elim _ _ _ (wp_bare op str s (fun _ s' => w_mem s' = w_mem s) Hb Ho ltac:(done))) as ([] & s1 & E & M1).
  specialize (IH s1). destruct (existsb slices ops).
  - destruct IH as [s' E']. exists s'. by erewrite bind_done.
  - eapply wp_bind, wp_done; [exact E|]. eapply wp_mono; [exact IH|]. intros [] s' M'. simpl in M'. by rewrite M', M1.
Qed.

(** *** Construction *)

Context {RS : RtlStrings}.

(** Whether the runtime library answers with a string that has no block. *)
Definition no_block (r : NTSTATUS * (UNICODE_STRING * units)) : bool :=
  (r.1 =? STATUS_SUCCESS) && (Buffer r.2.1 =? 0).
Definition made_bare (c : ctor) s : bool :=
  match c with
  | FromU32 _ _ | FromU64 _ _ => false
  | FromUtf8 l =>
      let n := u16 (Z.of_nat (length l)) in no_block (kresp (RtlUTF8StringToUnicodeString l n n 1) s)
  | Duplicate self f =>
      no_block (kresp (RtlDuplicateUnicodeString (WduUnicodeString.CopyFlags_as_u32 f) (WduUnicodeString.string self)) s)
  | NewLower self => no_block (kresp (RtlDowncaseUnicodeString (WduUnicodeString.string self) 1) s)
  | NewUpper self => no_block (kresp (RtlUpcaseUnicodeString (WduUnicodeString.string self) 1) s)
  end.

(** A result of a constructor in memory [m]: an error, and nothing is left; or
    a string with a block of its own, or an empty one without. *)
Definition constructed (m : gmap ptr U) (without : bool) (r : result WduUnicodeString WduUnicodeError) s : Prop :=
  match r with
  | Err _ => without = false /\ w_mem s = m
  | Ok str =>
      if without then bare str /\ WduUnicodeString.alloc str = Some Os /\ w_mem s = m
      else well_formed str s /\
        (WduUnicodeString.alloc str = Some Os \/ WduUnicodeString.alloc str = Some Pool) /\
        let p := Buffer (WduUnicodeString.string str) in m !! p = None /\ exists b : units, w_mem s = <[p := inj b]> m
  end.

Lemma wp_os_made (r : NTSTATUS * (UNICODE_STRING * units)) s (Q : _ -> world U -> Prop) :
  (r.1 = STATUS_SUCCESS -> made_well r.2.1 r.2.2) -> w_mem s !! Buffer r.2.1 = None ->
  (forall a s', constructed (w_mem s) (no_block r) a s' -> Q a s') ->
  wp (let '(status, (u, b)) := r in
      if negb (status =? STATUS_SUCCESS) then mret (Err (NtStatus status))
      else str ← WduUnicodeString.os_string u b; mret (Ok str)) s Q.
Proof.
  destruct r as [status [u b]]. unfold no_block. simpl. intros Hmade Hf HQ.
  destruct (Z.eqb_spec status STATUS_SUCCESS) as [E|E]; simpl in *; [|by wp_step; apply HQ].
  destruct (Hmade E) as (Hlen & Hcap & Hunits & Hnull). unfold WduUnicodeString.os_string. change null with 0.
  do 2 wp_step. destruct (Z.eqb_spec (Buffer u) 0) as [Eb|Eb]; repeat wp_step; apply HQ; simpl.
  - split; [|done]. split; [done|]. simpl. specialize (Hnull Eb). lia.
  - split; [|split; [by left|split; [done|by exists b]]].
    split; simpl; [lia|done|]. exists b. split; [apply lookup_insert_eq|lia].
Qed.

Lemma wp_integer_made (r : NTSTATUS * (Z * list Z)) p max m0 (b : units) s (Q : _ -> world U -> Prop) :
  p <> 0 -> m0 !! p = None -> w_mem s = <[p := inj b]> m0 -> b_bytes b = max ->
  2 * Z.of_nat (length r.2.2) <= max -> (r.1 = STATUS_SUCCESS -> r.2.1 = 2 * Z.of_nat (length r.2.2)) ->
  (forall a s', constructed m0 false a s' -> Q a s') ->
  wp (let '(status, (n, l)) := r in
      if negb (status =? STATUS_SUCCESS)
      then WduUnicodeString.drop (WduUnicodeString.mk (mkUnicode max max p) (Some Pool)) ;;
           mret (Err (NtStatus status))
      else write_units p l ;;
           mret (Ok (WduUnicodeString.mk (mkUnicode n max p) (Some Pool)))) s Q.
Proof.
  destruct r as [status [n l]]. simpl. intros Hp Hm0 Hs Hb Hl Hn HQ.
  assert (Hsp : w_mem s !! p = Some (inj b)) by (rewrite Hs; apply lookup_insert_eq).
  destruct (Z.eqb_spec status STATUS_SUCCESS) as [E|E]; simpl; wp_step.
  - eapply wp_write_units; [done|done|lia|]. intros b' Hb' Hlen. wp_step. apply HQ. simpl.
    rewrite (Hn E). split; [|split; [by right|split; [done|]]].
    + split; simpl; [lia|done|]. exists b'. split; [apply lookup_insert_eq|lia].
    + exists b'. simpl. by rewrite Hs, insert_insert_eq.
  - unfold WduUnicodeString.drop, WduUnicodeString.free_buffer. simpl.
    eapply wp_free_pool_with_tag; [done..|]. cbv zeta. wp_step. apply HQ. simpl. rewrite Hs.
    split; [done|by apply delete_block1].
Qed.

Lemma wp_construct c s :
  hands_out_fresh try_non_paged c s -> wp (run_ctor try_non_paged c) s (constructed (w_mem s) (made_bare c s)).
Proof.
  intros Hf. destruct c; simpl in *.
  1,2: unfold WduUnicodeString.try_from_u32, WduUnicodeString.try_from_u64, try_; wp_step;
    apply wp_alloc_buffer; cbv zeta; split; intros Hp; [by wp_step|];
    do 2 wp_step; (eapply (wp_integer_made _ _ _ (w_mem s)); simpl; [done|done|done|done|..|done]);
    [apply integer_made || apply int64_made; done..].
  all: unfold WduUnicodeString.try_from_utf8, WduUnicodeString.duplicate,
    WduUnicodeString.new_lower, WduUnicodeString.new_upper; cbv zeta; do 2 wp_step;
    (apply wp_os_made; [|exact Hf|done]);
    first [apply utf8_made|apply duplicate_made|apply downcase_made|apply upcase_made].
Qed.

(** A string is made, read and dropped. *)
Definition string_life (c : ctor) (ops : list reading) : M (world U) unit :=
  r ← run_ctor try_non_paged c;
  match r with
  | Err _ => mret tt
  | Ok str => run_readings ops str ;; WduUnicodeString.drop str
  end.

Lemma wp_drop_bare str s (Q : unit -> world U -> Prop) :
  bare str -> WduUnicodeString.alloc str = Some Os -> (forall s', w_mem s' = w_mem s -> Q tt s') ->
  wp (WduUnicodeString.drop str) s Q.
Proof.
  intros [Hb _] Ha HQ. unfold WduUnicodeString.drop, WduUnicodeString.free_os_string. rewrite Ha. do 2 wp_step. rewrite Hb. simpl. wp_step. by apply HQ.
Qed.

(** Reading and dropping a string that has a block. *)
Lemma wp_read_and_drop str ops m s :
  constructed m false (Ok str) s -> Forall (fun op => operands_well_formed op s) ops ->
  wp (run_readings ops str ;; WduUnicodeString.drop str) s (fun _ s' => w_mem s' = m).
Proof.
  intros (Hw & Ha & Hn & b & Hm) Hops. wp_step. apply wp_readings; [done..|].
  pose proof (wf_buffer _ _ Hw) as E. intros s2 M2. rewrite Hm in M2.
  assert (Hp : w_mem s2 !! Buffer (WduUnicodeString.string str) = Some (inj b)) by (rewrite M2; apply lookup_insert_eq).
  unfold WduUnicodeString.drop, WduUnicodeString.free_os_string, WduUnicodeString.free_buffer.
  destruct Ha as [-> | ->].
  - do 2 wp_step. change null with 0. rewrite (proj2 (Z.eqb_neq _ _) E). wp_step.
    eapply wp_box_from_raw; [done|done|]. wp_step. simpl. rewrite M2. by apply delete_block1.
  - eapply wp_free_pool_with_tag; [done..|]. simpl. rewrite M2. by apply delete_block1.
Qed.

(** C11: a string that a fallible constructor makes - a number, UTF-8 text, a
    duplicate or a change of case - is safe to use, but for one case.  If the
    kernel refuses, or answers with a string that has a block, then the string
    points to a live block that is large enough for its length, and any
    sequence of operations that read it, with other well-formed strings, runs
    without a fault; and when it is dropped, memory is what it was before:
    nothing leaks, on no path, and nothing that was there has changed.  The
    case left is an answer that is an empty string without a block: the same
    holds of it if no reading makes a slice of it, and the first reading that
    does is a dereference of null. *)
Theorem string_life_safe c ops s :
  hands_out_fresh try_non_paged c s -> Forall (fun op => operands_well_formed op s) ops ->
  if made_bare c s && existsb slices ops
  then exists s', string_life c ops s = Ub NullDeref s'
  else wp (string_life c ops) s (fun _ s' => w_mem s' = w_mem s).
Proof.
  intros Hf Hops. unfold string_life.
  destruct (wp_elim _ _ _ (wp_construct c s Hf)) as (r & s1 & E & Hc).
  destruct (made_bare c s) eqn:Hbare; simpl.
  - destruct r as [str|e]; [|by destruct Hc]. destruct Hc as (Hb & Ha & Hm).
    pose proof (readings_bare ops str s1 Hb) as Hr. destruct (existsb slices ops).
    + destruct Hr as [s' E']. exists s'. erewrite bind_done by exact E. by apply bind_ub.
    + eapply wp_bind, wp_done; [exact E|]. eapply wp_bind, wp_mono; [exact Hr|]. intros [] s2 M2.
      apply wp_drop_bare; [done..|]. intros s3 M3. simpl in M2. by rewrite M3, M2.
  - eapply wp_bind, wp_done; [exact E|]. destruct r as [str|e]; [|apply wp_ret; by destruct Hc].
    apply wp_read_and_drop; [done|]. destruct Hc as (_ & _ & Hn & b & Hm).
    eapply Forall_impl; [exact Hops|]. intros op. unfold operands_well_formed. destruct (operand op); [|done].
    apply well_formed_frame. intros a [y Hy]. rewrite Hm, lookup_insert_ne; [done|]. congruence.
Qed.
End life.

(** The default string has no buffer, and a slice may not be made of a null
    pointer even for no elements: [as_slice], and with it [to_string],
    [contains] and the comparisons with Rust's strings, may not be used on it. *)
Lemma default_string_unreadable {KN : Kernel} {U} `{!Storable U units} (s : world U) :
  WduUnicodeString.is_empty WduUnicodeString.default = true /\
  WduUnicodeString.as_slice WduUnicodeString.default s = Ub NullDeref s /\
  WduUnicodeString.to_string WduUnicodeString.default s = Ub NullDeref s /\
  forall l, WduUnicodeString.eq_str WduUnicodeString.default l s = Ub NullDeref s.
Proof. done. Qed.

(** ** Strings backed by a [Vec], feature [unicode_as_vec]

    Of [Vec<u16>], what [alloc] documents: a pointer, the number of elements
    and the capacity in elements, the memory having been allocated for just
    that capacity. *)

Module VecString.
Record Vec : Type := mkVec { vec_ptr : ptr; vec_len : Z; vec_capacity : Z }.
Record WduUnicodeString : Type := mk { buffer : Vec }.
(** Where a vector without memory points. *)
Definition dangling : ptr := 2.
Definition default : WduUnicodeString := {| buffer := mkVec dangling 0 0 |}.

Section Ops.
Context {KN : Kernel} {U : Type} `{!Storable U units}.

(** [Vec::from_raw_parts]: the documentation wants the capacity to be the one
    the memory was allocated with, and the elements up to the length there. *)
Definition from_raw_parts (p : ptr) (length capacity : Z) : M (world U) Vec :=
  if p =? null then ub NullDeref
  else if capacity =? 0 then
    if length =? 0 then mret (mkVec p 0 0) else ub (OutOfBounds p)
  else b ← load (T := units) p;
       if (b_bytes b =? 2 * capacity) && (length <=? capacity)
          && (length <=? Z.of_nat (List.length (b_units b)))
       then mret (mkVec p length capacity) else ub (OutOfBounds p).

(** [slice.to_vec()] *)
Definition to_vec (slice : list Z) : M (world U) Vec :=
  let n := Z.of_nat (List.length slice) in
  if n =? 0 then mret (mkVec dangling 0 0)
  else p ← box_into_raw (mkUnits (2 * n) slice); mret (mkVec p n n).

Definition new (string : UNICODE_STRING) : M (world U) WduUnicodeString :=
  v ← from_raw_parts (Buffer string) (Length string) (MaximumLength string);
  mret {| buffer := v |}.
Definition from_slice (slice : list Z) : M (world U) WduUnicodeString :=
  v ← to_vec slice; mret {| buffer := v |}.
(** [TryFrom<&[u16]>] *)
Definition try_from (value : list Z) : M (world U) (result WduUnicodeString WduUnicodeError) :=
  str ← from_slice value; mret (Ok str).
Definition as_slice (self : WduUnicodeString) : M (world U) (list Z) :=
  if vec_len (buffer self) =? 0 then mret []
  else slice_from_raw_parts (vec_ptr (buffer self)) (vec_len (buffer self)).
Definition into (self : WduUnicodeString) : M (world U) UNICODE_STRING := panic "not yet implemented".
Definition as_ptr (self : WduUnicodeString) : M (world U) ptr := panic "not yet implemented".
Definition as_mut_ptr (self : WduUnicodeString) : M (world U) ptr := panic "not yet implemented".
Definition get (self : WduUnicodeString) : M (world U) UNICODE_STRING := panic "not yet implemented".

(** The end of a scope: the vector gives its memory back. *)
Definition drop (self : WduUnicodeString) : M (world U) unit :=
  if vec_capacity (buffer self) =? 0 then mret tt
  else box_from_raw (T := units) (vec_ptr (buffer self)) ;; mret tt.
End Ops.
End VecString.

Section vec_strings.
Context {KN : Kernel} {U : Type} `{!Storable U units}.
Implicit Types s : world U.

(** A string made of a slice reads back as the slice, and gives back what
    it took. *)
Theorem vec_string_roundtrip (l : list Z) s :
  wp (r ← VecString.try_from l;
      match r with
      | Ok str => x ← VecString.as_slice str; VecString.drop str ;; mret (Some x)
      | Err _ => mret None
      end) s (fun r s' => r = Some l /\ w_mem s' = w_mem s).
Proof.
  unfold VecString.try_from, VecString.from_slice, VecString.to_vec, VecString.as_slice, VecString.drop.
  destruct l as [|u l]; [by repeat wp_step|]. simpl length. rewrite (proj2 (Z.eqb_neq _ 0)) by lia.
  pose proof (fresh_addr_fresh (w_mem s)) as Hf. pose proof (fresh_addr_pos (w_mem s)).
  repeat wp_step. cbv zeta. repeat wp_step. rewrite (proj2 (Z.eqb_neq _ 0)) by (simpl; lia).
  eapply wp_slice_from_raw_parts; [simpl; lia|apply lookup_insert_eq|simpl; lia|simpl; lia|].
  wp_step. rewrite (proj2 (Z.eqb_neq _ 0)) by (simpl; lia). wp_step.
  eapply wp_box_from_raw; [simpl; lia|apply lookup_insert_eq|]. do 2 wp_step. simpl. split; [|by apply delete_block1].
  f_equal. apply take_ge. simpl. lia.
Qed.

(** [new] takes the lengths of a native string, which are in bytes, for
    numbers of elements: on a string whose buffer was allocated for just its
    [MaximumLength] it claims twice the memory there is, always. *)
Theorem vec_string_new_overclaims (u : UNICODE_STRING) (b : units) s :
  Buffer u <> 0 -> w_mem s !! Buffer u = Some (inj b) ->
  b_bytes b = MaximumLength u -> 0 < MaximumLength u ->
  VecString.new u s = Ub (OutOfBounds (Buffer u)) s.
Proof.
  intros Hp Hm Hb Hcap. unfold VecString.new, VecString.from_raw_parts. apply bind_ub. change null with 0.
  rewrite (proj2 (Z.eqb_neq _ _) Hp), (proj2 (Z.eqb_neq (MaximumLength u) 0)) by lia.
  erewrite bind_done by by apply load_at. by rewrite (proj2 (Z.eqb_neq (b_bytes b) (2 * MaximumLength u))) by lia.
Qed.
End vec_strings.

(** ** Instances *)

Module StringLifeDemo.
(** Blocks at 0x1000, decimal digits, and "hi" at 0x3000 for a downcased
    string. *)
Definition answer (c : kcall) : kret c :=
  match c as c return kret c with
  | ExAllocatePool2 _ _ _ => 0x1000
  | RtlIntegerToUnicodeString _ _ u =>
      if 2 <=? MaximumLength u then (STATUS_SUCCESS, (2, [55])) else (STATUS_UNSUCCESSFUL, (0, []))
  | RtlInt64ToUnicodeString _ _ u => (STATUS_UNSUCCESSFUL, (0, []))
  | RtlUTF8StringToUnicodeString _ _ _ _ => (STATUS_UNSUCCESSFUL, (no_string, no_units))
  | RtlDuplicateUnicodeString _ _ => (STATUS_SUCCESS, (mkUnicode 0 0 0, no_units))
  | RtlDowncaseUnicodeString _ _ => (STATUS_SUCCESS, (mkUnicode 4 4 0x3000, mkUnits 4 [104; 105]))
  | RtlUpcaseUnicodeString _ _ => (STATUS_UNSUCCESSFUL, (no_string, no_units))
  | c => default_answer c
  end.
Definition kernel : Kernel := answering answer.

Lemma strings : @RtlStrings kernel.
Proof.
  split; intros; cbv zeta; simpl in *; try discriminate; try (destruct (2 <=? MaximumLength u) eqn:E; simpl);
    try apply Z.leb_le in E; try (split; [lia|done]); try (unfold made_well; simpl; lia).
Qed.
Definition start : @world kernel UnicodeStringDemo.cells := world_of answer UnicodeStringDemo.memory.
End StringLifeDemo.

(** A string in lower case, and a duplicate that has no block. *)
Lemma string_life_safe_witness :
  wp (string_life true (NewLower UnicodeStringDemo.hi)
        [AsSlice; EqStr [104; 105]; Contains (fun l => l) UnicodeStringDemo.h false]) StringLifeDemo.start
    (fun _ s' => w_mem s' = UnicodeStringDemo.memory) /\
  wp (string_life true (Duplicate UnicodeStringDemo.hi WduUnicodeString.DestNonNullTerminated) [Validate; NpCompare UnicodeStringDemo.hi])
    StringLifeDemo.start (fun _ s' => w_mem s' = UnicodeStringDemo.memory) /\
  exists s', string_life true (Duplicate UnicodeStringDemo.hi WduUnicodeString.DestNonNullTerminated) [Validate; ToString]
    StringLifeDemo.start = Ub NullDeref s'.
Proof.
  split; [|split].
  - refine (string_life_safe (RS := StringLifeDemo.strings) true (NewLower UnicodeStringDemo.hi)
             [AsSlice; EqStr [104; 105]; Contains (fun l => l) UnicodeStringDemo.h false] StringLifeDemo.start _ _).
    + vm_compute. reflexivity.
    + constructor; [exact I|]. constructor; [exact I|]. constructor; [|constructor].
      split; [split; discriminate|discriminate|]. exists (mkUnits 8 [72; 105; 0; 0]).
      split; [vm_compute; reflexivity|split; discriminate].
  - refine (string_life_safe (RS := StringLifeDemo.strings) true (Duplicate UnicodeStringDemo.hi WduUnicodeString.DestNonNullTerminated)
             [Validate; NpCompare UnicodeStringDemo.hi] StringLifeDemo.start _ _); [vm_compute; reflexivity|].
    by repeat constructor.
  - refine (string_life_safe (RS := StringLifeDemo.strings) true (Duplicate UnicodeStringDemo.hi WduUnicodeString.DestNonNullTerminated)
             [Validate; ToString] StringLifeDemo.start _ _); [vm_compute; reflexivity|].
    by repeat constructor.
Defined.

Lemma vec_string_new_overclaims_witness :
  VecString.new (mkUnicode 4 8 0x500) (UnicodeStringDemo.start UnicodeStringDemo.memory)
  = Ub (OutOfBounds 0x500) (UnicodeStringDemo.start UnicodeStringDemo.memory).
Proof.
  exact (vec_string_new_overclaims (mkUnicode 4 8 0x500) (mkUnits 8 [72; 105; 0; 0])
           (UnicodeStringDemo.start UnicodeStringDemo.memory) ltac:(discriminate) eq_refl eq_refl eq_refl).
Defined.
