(* ===== verification/Mdl.v ===== *)
(** * Mdl: memory descriptor lists, [memory/mdl.rs] *)

From S2P Require Import Prelude Nt World Crate.
Import ProcessorMode (ProcessorMode, UserMode, KernelMode).

Definition MDL_MAPPED_TO_SYSTEM_VA : Z := 1.
Definition MDL_SOURCE_IS_NONPAGED_POOL : Z := 4.

Inductive WduMdlError : Type := AllocateError.

Inductive LockOperation : Type := IoReadAccess | IoWriteAccess | IoModifyAccess.

Definition LockOperation_into_i32 (self : LockOperation) : Z :=
  match self with IoReadAccess => 0 | IoWriteAccess => 1 | IoModifyAccess => 2 end.

(** The [bitflags] type is its bits. *)
Module PagePriority.
Definition Low : Z := 0.
Definition Normal : Z := 16.
Definition High : Z := 32.
Definition MdlMappingWithGuardPtes : Z := 0x20000000.
Definition MdlMappingNoExecute : Z := 0x40000000.
Definition MdlMappingNoWrite : Z := 0x80000000.
End PagePriority.

Module WduMdl.
Record WduMdl : Type := mk {
  mdl : ptr;
  lock_ : bool;
  alloc : bool
}.

(** [Clone], derived. *)
Definition clone (self : WduMdl) : WduMdl :=
  {| mdl := mdl self; lock_ := lock_ self; alloc := alloc self |}.

Definition wrap (mdl : ptr) : WduMdl := {| mdl := mdl; lock_ := false; alloc := false |}.

(** [pub fn lock(&mut self) {}] *)
Definition lock (self : WduMdl) : WduMdl := self.

Section Ops.
Context {KN : Kernel} {U : Type} `{!Storable U MDL}.

(** [irp] is the pointer inside the optional [WduIrp]. *)
Definition allocate (va len : Z) (secondary : bool) (irp : option ptr)
    : M (world U) (result WduMdl WduMdlError) :=
  r ← kcall_ (IoAllocateMdl va len (u8_from secondary) (u8_from false) (default null irp));
  let '(mdl, x) := r in
  if mdl =? null then mret (Err AllocateError)
  else install mdl x ;; mret (Ok {| mdl := mdl; lock_ := false; alloc := true |}).

Definition get_system_addr (self : WduMdl) (priority : Z) : M (world U) ptr :=
  if mdl self =? null then mret null
  else m ← load (T := MDL) (mdl self);
       let flags := i16 (Z.lor MDL_MAPPED_TO_SYSTEM_VA MDL_SOURCE_IS_NONPAGED_POOL) in
       if negb (Z.land (MdlFlags m) flags =? 0) then mret (MappedSystemVa m)
       else kcall_ (MmMapLockedPagesSpecifyCache (mdl self) (ProcessorMode.into_i8 KernelMode)
                      MmCached null 0 priority).

(** [wrapping_add] on a pointer. *)
Definition get_va (self : WduMdl) : M (world U) ptr :=
  if mdl self =? null then mret null
  else m ← load (T := MDL) (mdl self); mret (usize (StartVa m + ByteOffset m)).

Definition get_base_va (self : WduMdl) : M (world U) ptr :=
  if mdl self =? null then mret null
  else m ← load (T := MDL) (mdl self); mret (StartVa m).

(** [IoFreeMdl] gives the list back: it is not in memory afterwards. *)
Definition free (self : WduMdl) : M (world U) unit :=
  kcall_ (IoFreeMdl (mdl self)) ;; box_from_raw (T := MDL) (mdl self) ;; mret tt.

Definition probe_and_lock (self : WduMdl) (access_mode : ProcessorMode) (lock_op : LockOperation)
    : M (world U) WduMdl :=
  kcall_ (MmProbeAndLockPages (mdl self) (ProcessorMode.into_i8 access_mode)
            (LockOperation_into_i32 lock_op)) ;;
  mret {| mdl := mdl self; lock_ := true; alloc := alloc self |}.

Definition unlock (self : WduMdl) : M (world U) WduMdl :=
  kcall_ (MmUnlockPages (mdl self)) ;;
  mret {| mdl := mdl self; lock_ := false; alloc := alloc self |}.

Definition byte_count (self : WduMdl) : M (world U) Z :=
  if mdl self =? null then mret 0
  else m ← load (T := MDL) (mdl self); mret (ByteCount m).

Definition drop (self : WduMdl) : M (world U) unit :=
  self ← (if lock_ self then unlock self else mret self);
  if alloc self then free self else mret tt.
End Ops.
End WduMdl.
Import WduMdl (WduMdl).

(** ** Properties *)

(** How many times the pages of [p] are locked by the calls [cs]. *)
Fixpoint lock_balance (p : ptr) (cs : list kcall) : Z :=
  match cs with
  | [] => 0
  | MmProbeAndLockPages q _ _ :: cs => (if q =? p then 1 else 0) + lock_balance p cs
  | MmUnlockPages q :: cs => (if q =? p then -1 else 0) + lock_balance p cs
  | _ :: cs => lock_balance p cs
  end.

Lemma lock_balance_app p cs ds : lock_balance p (cs ++ ds) = lock_balance p cs + lock_balance p ds.
Proof. induction cs as [|c cs IH]; [done|]. destruct c; simpl; rewrite ?IH; lia. Qed.

(** What a client does with a list between making it and dropping it. *)
Inductive mdl_op : Type :=
| ProbeAndLock (mode : ProcessorMode) (op : LockOperation)
| Unlock
| GetSystemAddr (priority : Z)
| GetVa
| GetBaseVa
| ByteCountOf.

(** Pages are locked when they are not, and unlocked when they are. *)
Fixpoint well_bracketed (locked : bool) (ops : list mdl_op) : bool :=
  match ops with
  | [] => true
  | ProbeAndLock _ _ :: ops => negb locked && well_bracketed true ops
  | Unlock :: ops => locked && well_bracketed false ops
  | _ :: ops => well_bracketed locked ops
  end.

Section properties.
Context {KN : Kernel} {U : Type} `{!Storable U MDL}.
Implicit Types (s : world U) (self : WduMdl).

Definition run_mdl_op (op : mdl_op) self : M (world U) WduMdl :=
  match op with
  | ProbeAndLock mode lock_op => WduMdl.probe_and_lock self mode lock_op
  | Unlock => WduMdl.unlock self
  | GetSystemAddr priority => WduMdl.get_system_addr self priority ;; mret self
  | GetVa => WduMdl.get_va self ;; mret self
  | GetBaseVa => WduMdl.get_base_va self ;; mret self
  | ByteCountOf => WduMdl.byte_count self ;; mret self
  end.

Fixpoint run_mdl_ops (ops : list mdl_op) self : M (world U) WduMdl :=
  match ops with [] => mret self | op :: ops => self ← run_mdl_op op self; run_mdl_ops ops self end.

(** The list is live, and locked once if its flag says so. *)
Definition mdl_inv (p : ptr) (owned : bool) (m : gmap ptr U) (base : Z) self s : Prop :=
  WduMdl.mdl self = p /\ WduMdl.alloc self = owned /\ w_mem s = m /\
  lock_balance p (calls s) = base + (if WduMdl.lock_ self then 1 else 0).

Lemma run_mdl_op_inv p owned m base (x : MDL) op self s (Q : WduMdl -> world U -> Prop) :
  p <> 0 -> m !! p = Some (inj x) -> mdl_inv p owned m base self s ->
  match op with
  | ProbeAndLock _ _ => WduMdl.lock_ self = false
  | Unlock => WduMdl.lock_ self = true
  | _ => True
  end ->
  (forall self' s', mdl_inv p owned m base self' s' ->
    WduMdl.lock_ self' = match op with
                         | ProbeAndLock _ _ => true | Unlock => false | _ => WduMdl.lock_ self
                         end -> Q self' s') ->
  wp (run_mdl_op op self) s Q.
Proof.
  intros Hp Hx (Hmdl & Ho & Hm & Hb) Hop HQ. destruct self as [q l a]. simpl in *. subst q a.
  assert (Hs : w_mem s !! p = Some (inj x)) by by rewrite Hm.
  assert (Hq : (p =? null) = false) by by apply Z.eqb_neq.
  destruct op; simpl in *; subst;
    unfold WduMdl.probe_and_lock, WduMdl.unlock, WduMdl.get_system_addr, WduMdl.get_va,
      WduMdl.get_base_va, WduMdl.byte_count; simpl; rewrite ?Hq; repeat wp_step; try wp_if;
    repeat wp_step; apply HQ; simpl; try done;
    (split_and!; [done|done|done|]); autorewrite with wdu; simpl;
    rewrite ?lock_balance_app, Hb; simpl; rewrite ?Z.eqb_refl; lia.
Qed.

Lemma run_mdl_ops_inv p owned m base (x : MDL) ops self s (Q : WduMdl -> world U -> Prop) :
  p <> 0 -> m !! p = Some (inj x) -> mdl_inv p owned m base self s ->
  well_bracketed (WduMdl.lock_ self) ops = true ->
  (forall self' s', mdl_inv p owned m base self' s' -> Q self' s') ->
  wp (run_mdl_ops ops self) s Q.
Proof.
  revert self s. induction ops as [|op ops IH]; intros self s Hp Hx HI Hwb HQ; simpl.
  - by apply wp_ret, HQ.
  - apply wp_bind. eapply run_mdl_op_inv; [done|done|done| |].
    + destruct op; simpl in Hwb; try done; apply andb_true_iff in Hwb as [Hl _];
        [by apply negb_true_iff|done].
    + intros self' s' HI' Hl'. apply IH; try done. rewrite Hl'.
      destruct op; simpl in Hwb; try done; by apply andb_true_iff in Hwb as [_ ?].
Qed.

Lemma drop_inv p m base (x : MDL) self s (Q : unit -> world U -> Prop) :
  p <> 0 -> m !! p = Some (inj x) -> mdl_inv p true m base self s ->
  (forall s', w_mem s' = delete p m -> lock_balance p (calls s') = base ->
     (exists cs, calls s' = cs ++ [IoFreeMdl p] /\ lock_balance p cs = base) -> Q tt s') ->
  wp (WduMdl.drop self) s Q.
Proof.
  intros Hp Hx (Hmdl & Ho & Hm & Hb) HQ. destruct self as [q l a]. simpl in *. subst.
  assert (Hs : w_mem s !! p = Some (inj x)) by done.
  unfold WduMdl.drop, WduMdl.free, WduMdl.unlock. simpl.
  destruct l; simpl; repeat (wp_step; simpl); apply HQ; simpl; autorewrite with wdu;
    rewrite ?lock_balance_app; simpl; rewrite ?Z.eqb_refl; try done; try lia;
    eexists; (split; [done|]); rewrite ?lock_balance_app; simpl; rewrite ?Z.eqb_refl; lia.
Qed.

(** C21: a memory descriptor list the crate allocates is released exactly: if
    the client locks its pages only when they are unlocked and unlocks them
    only when they are locked, then whatever it does before the list goes out
    of scope, the scope ends with memory as before, the pages unlocked as
    often as locked, and already unlocked when the list is freed. *)
Theorem mdl_scope_balanced va len secondary irp ops s :
  well_bracketed false ops = true ->
  w_mem s !! (kresp (IoAllocateMdl va len (u8_from secondary) 0 (default null irp)) s).1 = None ->
  wp (WduMdl.allocate va len secondary irp) s (fun r s1 =>
    match r with
    | Err _ => w_mem s1 = w_mem s
    | Ok self =>
        wp (self' ← run_mdl_ops ops self; WduMdl.drop self') s1 (fun _ s2 =>
          w_mem s2 = w_mem s /\
          lock_balance (WduMdl.mdl self) (calls s2) = lock_balance (WduMdl.mdl self) (calls s) /\
          exists cs, calls s2 = cs ++ [IoFreeMdl (WduMdl.mdl self)] /\
            lock_balance (WduMdl.mdl self) cs = lock_balance (WduMdl.mdl self) (calls s))
    end).
Proof.
  intros Hwb Hf. unfold WduMdl.allocate. do 2 wp_step. simpl (u8_from false).
  set (c := IoAllocateMdl _ _ _ _ _) in *. destruct (kresp c s) as [p x]. simpl in Hf.
  change null with 0. destruct (Z.eqb_spec p 0) as [->|Hp]; [by wp_steps|].
  wp_step. wp_step. wp_step. simpl. apply wp_bind.
  eapply (run_mdl_ops_inv p true (<[p := inj x]> (w_mem s)) (lock_balance p (calls s)) x);
    [done|apply lookup_insert_eq| |done|].
  - split_and!; [done..|]. simpl. autorewrite with wdu. rewrite lock_balance_app. simpl. lia.
  - intros self' s' HI. eapply drop_inv; [done|apply lookup_insert_eq|done|].
    intros s2 Hm Hb Hcs. split_and!; [|done|done]. rewrite Hm. by apply delete_insert_id.
Qed.

(** the derived [Clone] copies the ownership flags: dropping an allocated
    list and then its clone frees the list twice. *)
Theorem cloned_mdl_freed_twice self (x : MDL) s :
  WduMdl.mdl self <> 0 -> WduMdl.alloc self = true ->
  w_mem s !! WduMdl.mdl self = Some (inj x) ->
  exists s', (WduMdl.drop self ;; WduMdl.drop (WduMdl.clone self)) s
             = Ub (Dangling (WduMdl.mdl self)) s'.
Proof.
  intros Hp Ha Hx.
  destruct (wp_elim (WduMdl.drop self) s (fun _ s' => w_mem s' !! WduMdl.mdl self = None))
    as ([] & s1 & E & Hn).
  { eapply (drop_inv (WduMdl.mdl self) (w_mem s)
      (lock_balance (WduMdl.mdl self) (calls s) - (if WduMdl.lock_ self then 1 else 0))); [done|done| |].
    - split_and!; [done..|lia].
    - intros s' -> _ _. apply lookup_delete_eq. }
  erewrite bind_done by done. clear E. destruct self as [p l a]. simpl in *. subst a.
  unfold WduMdl.drop, WduMdl.clone, WduMdl.free, WduMdl.unlock. simpl.
  destruct l; simpl; unfold box_from_raw, mbind, M_bind, kcall_; simpl;
    rewrite load_dangling by done; by eexists.
Qed.
End properties.

(** ** Instances *)

Module MdlDemo.
Abbreviation cells := (MDL + unit)%type.
Definition answer (c : kcall) : kret c :=
  match c as c return kret c with
  | IoAllocateMdl va len _ _ _ => (0x800, mkMDL 0 0 va 0 len)
  | c => default_answer c
  end.
Definition kernel : Kernel := answering answer.
Definition start (m : gmap ptr cells) : @world kernel cells := world_of answer m.
Definition owned : WduMdl := WduMdl.mk 0x800 false true.
End MdlDemo.

Lemma mdl_scope_balanced_witness :
  wp (WduMdl.allocate 0x5000 64 false None) (MdlDemo.start ∅) (fun r s1 =>
    match r with
    | Err _ => False
    | Ok self =>
        wp (self' ← run_mdl_ops [ProbeAndLock UserMode IoReadAccess; GetSystemAddr 16] self;
            WduMdl.drop self') s1 (fun _ s2 =>
          w_mem s2 = ∅ /\ calls s2 <> [])
    end).
Proof.
  pose proof (mdl_scope_balanced 0x5000 64 false None
    [ProbeAndLock UserMode IoReadAccess; GetSystemAddr 16] (MdlDemo.start ∅) eq_refl eq_refl) as H.
  unfold wp in H |- *. vm_compute in H. vm_compute. destruct H as (H & _ & _). by split.
Defined.

Lemma cloned_mdl_freed_twice_witness :
  exists s', (WduMdl.drop MdlDemo.owned ;; WduMdl.drop (WduMdl.clone MdlDemo.owned))
               (MdlDemo.start {[0x800 := inj (mkMDL 0 0 0 0 0)]}) = Ub (Dangling 0x800) s'.
Proof.
  apply (cloned_mdl_freed_twice MdlDemo.owned (mkMDL 0 0 0 0 0)); [discriminate|reflexivity|].
  vm_compute. reflexivity.
Defined.
