(* ===== verification/FileObj.v ===== *)
(** * FileObj: file objects and create requests, [io/file_obj.rs], [io/create.rs]

    A [Box<T>] the client holds is its address; [drop_box] is the end of its
    scope. *)

From S2P Require Import Prelude Nt World UnicodeStr.
Import WduUnicodeStr (WduUnicodeStr).

(** The end of the scope of a [Box<T>]. *)
Definition drop_box {KN : Kernel} {U} (T : Type) `{!Storable U T} (b : ptr) : M (world U) unit :=
  box_from_raw (T := T) b ;; mret tt.

Definition drop_opt_box {KN : Kernel} {U} (T : Type) `{!Storable U T} (b : option ptr)
    : M (world U) unit :=
  match b with Some b => drop_box T b | None => mret tt end.

Module WduFileObject.
Record WduFileObject : Type := mk { file_object : ptr }.

(** [PartialEq], derived. *)
#[export] Instance WduFileObject_eq_dec : EqDecision WduFileObject.
Proof. solve_decision. Defined.

Definition is_valid (self : WduFileObject) : bool := negb (file_object self =? null).
Definition wrap (fo : ptr) : WduFileObject := {| file_object := fo |}.
Definition as_ptr (self : WduFileObject) : ptr := file_object self.

(** Feature [allocator_api] turns the two setters into [todo!()]. *)
Section Ops.
Context {KN : Kernel} {U : Type} `{!Storable U FILE_OBJECT, !Storable U units}.
Context (allocator_api : bool).

Definition file_name (self : WduFileObject) : M (world U) WduUnicodeStr :=
  fo ← load (T := FILE_OBJECT) (file_object self);
  WduUnicodeStr.from_member (FileName fo).

Section Context_.
Context (T : Type) `{!Storable U T}.

Definition set_context (self : WduFileObject) (context : T) : M (world U) unit :=
  if allocator_api then panic "not yet implemented"
  else b ← box_into_raw context;
       update (file_object self) (fun fo => mkFileObject (FileName fo) b (FsContext2 fo)).

Definition set_context2 (self : WduFileObject) (context : T) : M (world U) unit :=
  if allocator_api then panic "not yet implemented"
  else b ← box_into_raw context;
       update (file_object self) (fun fo => mkFileObject (FileName fo) (FsContext fo) b).

(** The box made of [FsContext]; making it does not read the pointee. *)
Definition context (self : WduFileObject) : M (world U) (option ptr) :=
  fo ← load (T := FILE_OBJECT) (file_object self);
  mret (if FsContext fo =? null then None else Some (FsContext fo)).

Definition context2 (self : WduFileObject) : M (world U) (option ptr) :=
  fo ← load (T := FILE_OBJECT) (file_object self);
  mret (if FsContext2 fo =? null then None else Some (FsContext2 fo)).

(** The references, as addresses of a [T]. *)
Definition context_as_ref (self : WduFileObject) : M (world U) (option ptr) :=
  fo ← load (T := FILE_OBJECT) (file_object self);
  mret (if FsContext fo =? null then None else Some (FsContext fo)).
Definition context_as_mut_ref (self : WduFileObject) : M (world U) (option ptr) :=
  fo ← load (T := FILE_OBJECT) (file_object self);
  mret (if FsContext fo =? null then None else Some (FsContext fo)).
Definition context2_as_ref (self : WduFileObject) : M (world U) (option ptr) :=
  fo ← load (T := FILE_OBJECT) (file_object self);
  mret (if FsContext2 fo =? null then None else Some (FsContext2 fo)).
Definition context2_as_mut_ref (self : WduFileObject) : M (world U) (option ptr) :=
  fo ← load (T := FILE_OBJECT) (file_object self);
  mret (if FsContext2 fo =? null then None else Some (FsContext2 fo)).
End Context_.
End Ops.
End WduFileObject.
Import WduFileObject (WduFileObject).
#[export] Existing Instance WduFileObject.WduFileObject_eq_dec.

(** ** Properties *)

Section properties.
Context {KN : Kernel} {U T : Type} `{!Storable U FILE_OBJECT, !Storable U T}.
Implicit Types (s : world U) (self : WduFileObject).

(** The two context slots are independent of each other; the name of the
    slot picks the operations. *)
Definition set_slot (second : bool) self (x : T) : M (world U) unit :=
  if second then WduFileObject.set_context2 false T self x
  else WduFileObject.set_context false T self x.
Definition get_slot (second : bool) self : M (world U) (option ptr) :=
  if second then WduFileObject.context2 self else WduFileObject.context self.
Definition slot (second : bool) (fo : FILE_OBJECT) : ptr :=
  if second then FsContext2 fo else FsContext fo.
Definition with_slot (second : bool) (fo : FILE_OBJECT) (p : ptr) : FILE_OBJECT :=
  if second then mkFileObject (FileName fo) (FsContext fo) p
  else mkFileObject (FileName fo) p (FsContext2 fo).

Lemma wp_set_slot second self x fo s (Q : unit -> world U -> Prop) :
  WduFileObject.file_object self <> 0 ->
  w_mem s !! WduFileObject.file_object self = Some (inj fo) ->
  (let b := fresh_addr (w_mem s) in
   b <> 0 -> w_mem s !! b = None ->
   Q tt (set_mem (<[WduFileObject.file_object self := inj (with_slot second fo b)]>
                    (<[b := inj x]> (w_mem s))) s)) ->
  wp (set_slot second self x) s Q.
Proof.
  intros Hp Hfo HQ. pose proof (fresh_addr_fresh (w_mem s)) as Hf.
  pose proof (fresh_addr_pos (w_mem s)) as Hpos.
  assert (fresh_addr (w_mem s) <> WduFileObject.file_object self) by congruence.
  unfold set_slot, WduFileObject.set_context, WduFileObject.set_context2.
  destruct second; simpl; wp_step; wp_step; cbv zeta; (eapply wp_update; [done| |]);
    first [by simpl; rewrite lookup_insert_ne | apply HQ; [lia|done]].
Qed.

Lemma wp_get_slot second self fo s (Q : option ptr -> world U -> Prop) :
  WduFileObject.file_object self <> 0 ->
  w_mem s !! WduFileObject.file_object self = Some (inj fo) ->
  Q (if slot second fo =? 0 then None else Some (slot second fo)) s ->
  wp (get_slot second self) s Q.
Proof.
  intros Hp Hfo HQ. unfold get_slot, WduFileObject.context, WduFileObject.context2.
  by destruct second; wp_step; (eapply wp_load; [done..|]); apply wp_ret.
Qed.

Lemma slot_with_slot second fo p : slot second (with_slot second fo p) = p.
Proof. by destruct second. Qed.

(** What is stored in a context slot of a file object is what comes back:
    after [set_context x] the slot yields a box holding [x], and once that box
    is dropped nothing but the slot's pointer differs from before. *)
Theorem set_context_roundtrip second self x fo s :
  WduFileObject.file_object self <> 0 ->
  w_mem s !! WduFileObject.file_object self = Some (inj fo) ->
  wp (set_slot second self x ;; b ← get_slot second self;
      v ← load (T := T) (default 0 b); drop_opt_box T b ;; mret (b, v)) s
    (fun r s' => exists b, r = (Some b, x) /\
       w_mem s' = <[WduFileObject.file_object self := inj (with_slot second fo b)]> (w_mem s)).
Proof.
  intros Hp Hfo. apply wp_bind. eapply wp_set_slot; [done..|]. intros b Hb Hfree.
  assert (b <> WduFileObject.file_object self) by congruence.
  apply wp_bind. eapply wp_get_slot; [done|by simpl; rewrite lookup_insert_eq|].
  rewrite slot_with_slot. apply Z.eqb_neq in Hb as Hb'. rewrite Hb'. simpl.
  assert (Hx : (<[WduFileObject.file_object self := inj (with_slot second fo b)]>
    (<[b := inj x]> (w_mem s))) !! b = Some (inj x))
    by by rewrite lookup_insert_ne, lookup_insert_eq.
  unfold drop_box. repeat (wp_step; try done). exists b. split; [done|]. simpl.
  rewrite delete_insert_ne by done. by rewrite delete_insert_eq, delete_id.
Qed.

(** [context] leaves the slot's pointer in place, so a second [context]
    after the first box was dropped makes a box of freed memory, whose drop is
    a double free. *)
Theorem context_taken_twice_dangles second self fo (x : T) s :
  WduFileObject.file_object self <> 0 ->
  w_mem s !! WduFileObject.file_object self = Some (inj fo) ->
  slot second fo <> 0 -> slot second fo <> WduFileObject.file_object self ->
  w_mem s !! slot second fo = Some (inj x) ->
  let take_and_drop := (b ← get_slot second self; drop_opt_box T b) in
  wp take_and_drop s (fun _ s1 =>
    exists s2, take_and_drop s1 = Ub (Dangling (slot second fo)) s2).
Proof.
  intros Hp Hfo Hs Hne Hx. cbv zeta. apply wp_bind. eapply wp_get_slot; [done..|].
  apply Z.eqb_neq in Hs as Hs'. rewrite Hs'. simpl. unfold drop_box.
  wp_step. wp_step. wp_step. exists (set_mem (delete (slot second fo) (w_mem s)) s).
  set (s1 := set_mem _ s).
  assert (E : get_slot second self s1 = Done (Some (slot second fo)) s1).
  { assert (Hl : load (WduFileObject.file_object self) s1 = Done fo s1).
    { apply load_at; [done|]. simpl. by rewrite lookup_delete_ne. }
    clear -Hl Hs'. unfold get_slot, WduFileObject.context, WduFileObject.context2, slot in *.
    destruct second; erewrite bind_done by done; change null with 0; by rewrite Hs'. }
  erewrite bind_done by done. simpl. apply bind_ub. apply bind_ub.
  apply load_dangling; [done|]. simpl. apply lookup_delete_eq.
Qed.
End properties.

(** ** Instances *)

Module FileObjDemo.
Abbreviation cells := (FILE_OBJECT + (Z + unit))%type.
Definition self : WduFileObject := WduFileObject.wrap 0x100.
Definition start (ctx : ptr) : @world idle_kernel cells :=
  world_of default_answer {[0x100 := inj (mkFileObject no_string ctx 0); 0x200 := inj 7]}.
End FileObjDemo.

Lemma set_context_roundtrip_witness :
  wp (set_slot false FileObjDemo.self 42 ;; b ← get_slot false FileObjDemo.self;
      v ← load (T := Z) (default 0 b); drop_opt_box Z b ;; mret (b, v)) (FileObjDemo.start 0)
    (fun r _ => r.2 = 42).
Proof.
  pose proof (set_context_roundtrip (T := Z) false FileObjDemo.self 42 (mkFileObject no_string 0 0)
    (FileObjDemo.start 0) ltac:(discriminate) ltac:(vm_compute; reflexivity)) as H.
  eapply wp_mono; [exact H|]. intros a s' (b & -> & _). reflexivity.
Defined.

Lemma context_taken_twice_dangles_witness :
  let take_and_drop := (b ← get_slot false FileObjDemo.self; drop_opt_box Z b) in
  wp take_and_drop (FileObjDemo.start 0x200) (fun _ s1 =>
    exists s2, take_and_drop s1 = Ub (Dangling 0x200) s2).
Proof.
  apply (context_taken_twice_dangles false FileObjDemo.self (mkFileObject no_string 0x200 0) 7
    (FileObjDemo.start 0x200)); try discriminate; vm_compute; reflexivity.
Defined.
