(* ===== verification/Device.v ===== *)
(** * Device: device objects, [io/device.rs]

    The crate keeps a copy of its [WduDevice] at the start of the device
    extension; the client's part of the extension follows it. *)

From S2P Require Import Prelude Nt World UnicodeStr Crate.
Import WduUnicodeStr (WduUnicodeStr).

Inductive WduDeviceError : Type :=
| WduDeviceError_CreateError (status : NTSTATUS)
| InvalidBuilderState
| GenericError (status : NTSTATUS).

Inductive WduDeviceType : Type :=
| ACPI | DiskFileSystem | Disk | FileSystem | MassStorage | UnknownDevice.

Definition WduDeviceType_into_u32 (self : WduDeviceType) : Z :=
  match self with
  | ACPI => FILE_DEVICE_ACPI
  | DiskFileSystem => FILE_DEVICE_DISK_FILE_SYSTEM
  | Disk => 0x00000007
  | FileSystem => FILE_DEVICE_FILE_SYSTEM
  | MassStorage => FILE_DEVICE_MASS_STORAGE
  | UnknownDevice => FILE_DEVICE_UNKNOWN
  end.

Inductive WduDeviceChars : Type :=
| NoChars | RemovableMedia | ReadOnly | WriteOnce | Remote | Mounted | VirtualVolume
| AutoGeneratedName | SecureOpen | AllowAppContainerTraversal | PortableDevice | RequireSecCheck.

Definition WduDeviceChars_into_u32 (self : WduDeviceChars) : Z :=
  match self with
  | NoChars => 0x0
  | RemovableMedia => 0x1
  | ReadOnly => 0x2
  | WriteOnce => 0x8
  | Remote => 0x10
  | Mounted => 0x20
  | VirtualVolume => 0x40
  | AutoGeneratedName => 0x80
  | SecureOpen => 0x100
  | AllowAppContainerTraversal => 0x20000
  | PortableDevice => 0x40000
  | RequireSecCheck => 0x100000
  end.

Module WduDevice.
Record WduDevice : Type := mk {
  device_type : WduDeviceType;
  characteristics : WduDeviceChars;
  exclusive : bool;
  device : ptr
}.

Definition default : WduDevice :=
  {| device_type := UnknownDevice; characteristics := NoChars; exclusive := false; device := null |}.

Definition wrap_device (device : ptr) : WduDevice :=
  {| device_type := device_type default; characteristics := characteristics default;
     exclusive := exclusive default; device := device |}.

Definition device_as_mut (self : WduDevice) : ptr := device self.

Definition set_exclusive (self : WduDevice) (exclusive : bool) : WduDevice :=
  mk (device_type self) (characteristics self) exclusive (device self).
Definition set_device_type (self : WduDevice) (device_type : WduDeviceType) : WduDevice :=
  mk device_type (characteristics self) (exclusive self) (device self).
Definition set_characteristics (self : WduDevice) (characteristics : WduDeviceChars) : WduDevice :=
  mk (device_type self) characteristics (exclusive self) (device self).

Section Ops.
Context {KN : Kernel} {LK : Linked} {U : Type}.
Context `{!Storable U DEVICE_OBJECT, !Storable U WduDevice}.

Definition device_extension (self : WduDevice) : M (world U) ptr :=
  d ← load (T := DEVICE_OBJECT) (device self); mret (DeviceExtension d).

Definition get_driver (self : WduDevice) : M (world U) ptr :=
  d ← load (T := DEVICE_OBJECT) (device self); mret (DriverObject d).

Definition set_flags (self : WduDevice) (flags : Z) : M (world U) unit :=
  update (device_as_mut self) (fun d =>
    mkDeviceObject (DeviceExtension d) (DriverObject d) (Z.lor (Flags d) flags)).

(** [driver] is [driver.as_ptr()], [size_of_T] the size of the client's part
    of the extension.  The kernel makes the device object and writes its
    address to [self.device]. *)
Definition build (size_of_T : Z) (self : WduDevice) (driver : ptr)
    (device_name : option WduUnicodeStr) : M (world U) (result WduDevice WduDeviceError) :=
  let name := match device_name with
              | None => WduUnicodeStr.into_UNICODE_STRING WduUnicodeStr.default
              | Some name => WduUnicodeStr.into_UNICODE_STRING name
              end in
  let ext_size := usize (size_of_WduDevice + size_of_T) in
  r ← kcall_ (IoCreateDevice driver (u32 ext_size) name
                (WduDeviceType_into_u32 (device_type self))
                (WduDeviceChars_into_u32 (characteristics self)) (u8_from (exclusive self)));
  let '(status, (object, contents)) := r in
  if negb (status =? STATUS_SUCCESS) then mret (Err (WduDeviceError_CreateError status))
  else
    install object contents ;;
    let self := mk (device_type self) (characteristics self) (exclusive self) object in
    ext ← device_extension self;
    install ext self ;;
    mret (Ok self).

(** The device object is gone once the kernel has deleted it. *)
Definition delete (self : WduDevice) : M (world U) unit :=
  if negb (device self =? null)
  then kcall_ (IoDeleteDevice (device self)) ;; box_from_raw (T := DEVICE_OBJECT) (device self) ;; mret tt
  else mret tt.

Definition symbolic_name (self : WduDevice) (device_name symbolic_name : WduUnicodeStr)
    : M (world U) (result unit WduDeviceError) :=
  status ← kcall_ (IoCreateSymbolicLink (WduUnicodeStr.into_UNICODE_STRING symbolic_name)
                     (WduUnicodeStr.into_UNICODE_STRING device_name));
  if negb (status =? STATUS_SUCCESS) then mret (Err (GenericError status)) else mret (Ok tt).

Definition delete_symbolic_name (symbolic_name : WduUnicodeStr)
    : M (world U) (result unit WduDeviceError) :=
  status ← kcall_ (IoDeleteSymbolicLink (WduUnicodeStr.into_UNICODE_STRING symbolic_name));
  if negb (status =? STATUS_SUCCESS) then mret (Err (GenericError status)) else mret (Ok tt).

(** The reference is read at once. *)
Definition get_wdu_device (device : ptr) : M (world U) WduDevice :=
  d ← load (T := DEVICE_OBJECT) device; load (T := WduDevice) (DeviceExtension d).

(** [wrapping_add] on a pointer. *)
Definition extension_as_ptr (self : WduDevice) : M (world U) ptr :=
  ext ← device_extension self; mret (usize (ext + size_of_WduDevice)).
Definition extension_as_mut_ptr (self : WduDevice) : M (world U) ptr :=
  ext ← device_extension self; mret (usize (ext + size_of_WduDevice)).
(** The references, as addresses of a [T]. *)
Definition extension_as_ref (self : WduDevice) : M (world U) ptr :=
  ext ← device_extension self; mret (usize (ext + size_of_WduDevice)).
Definition extension_as_mut_ref (self : WduDevice) : M (world U) ptr :=
  ext ← device_extension self; mret (usize (ext + size_of_WduDevice)).

(** [core::ptr::read]: the value moves out, the memory keeps its bytes. *)
Definition extension (T : Type) `{!Storable U T} (self : WduDevice) : M (world U) T :=
  ext ← device_extension self; load (T := T) (usize (ext + size_of_WduDevice)).
End Ops.
End WduDevice.
Import WduDevice (WduDevice).

(** ** Properties *)

(** The devices made in a trace. *)
Definition devices (t : list event) : list (ptr * DEVICE_OBJECT) :=
  omap (fun e : event => let (c, answer) := e in
    match c as c return kret c -> option (ptr * DEVICE_OBJECT) with
    | IoCreateDevice _ _ _ _ _ _ => fun answer => if answer.1 =? STATUS_SUCCESS then Some answer.2 else None
    | _ => fun _ => None
    end answer) t.

Lemma devices_app t t' : devices (t ++ t') = devices t ++ devices t'.
Proof. apply omap_app. Qed.

Section properties.
Context {KN : Kernel} {LK : Linked} {U : Type}.
Context `{!Storable U DEVICE_OBJECT, !Storable U WduDevice}.
Implicit Types (s : world U) (self : WduDevice).

Definition create_call (size_of_T : Z) self (driver : ptr) (name : option WduUnicodeStr) : kcall :=
  IoCreateDevice driver (u32 (size_of_WduDevice + size_of_T))
    (WduUnicodeStr.as_unicode_string (default WduUnicodeStr.default name))
    (WduDeviceType_into_u32 (WduDevice.device_type self))
    (WduDeviceChars_into_u32 (WduDevice.characteristics self))
    (u8_from (WduDevice.exclusive self)).

(** What the documentation of [IoCreateDevice] says of a new device. *)
Record new_device (driver object : ptr) (contents : DEVICE_OBJECT) : Prop := {
  nd_object : object <> 0;
  nd_driver : DriverObject contents = driver;
  nd_ext : DeviceExtension contents <> 0;
  nd_apart : DeviceExtension contents <> object
}.

Lemma u32_usize z : u32 (usize z) = u32 z.
Proof. unfold u32, usize, wrap. apply Z.mod_mod_divide. by exists (2 ^ 32). Qed.

Lemma wp_build size_of_T self driver name s
    (Q : result WduDevice WduDeviceError -> world U -> Prop) :
  (let c := create_call size_of_T self driver name in
   let '(st, (object, contents)) := kresp c s in
   let dev := WduDevice.mk (WduDevice.device_type self) (WduDevice.characteristics self)
                (WduDevice.exclusive self) object in
   if st =? STATUS_SUCCESS
   then object <> 0 /\ DeviceExtension contents <> 0 /\
        Q (Ok dev) (set_mem (<[DeviceExtension contents := inj dev]> (<[object := inj contents]> (w_mem s)))
                      (kafter c s))
   else Q (Err (WduDeviceError_CreateError st)) (kafter c s)) ->
  wp (WduDevice.build size_of_T self driver name) s Q.
Proof.
  intros HQ. unfold WduDevice.build. apply wp_bind. rewrite u32_usize.
  replace (match name with None => _ | Some n => _ end)
    with (WduUnicodeStr.as_unicode_string (default WduUnicodeStr.default name))
    by by destruct name.
  wp_step. fold (create_call size_of_T self driver name).
  cbv zeta in HQ. set (c := create_call size_of_T self driver name) in *.
  change (kret c) with (NTSTATUS * (ptr * DEVICE_OBJECT))%type in *.
  destruct (kresp c s) as [st [object contents]]. simpl in *.
  destruct (Z.eqb_spec st STATUS_SUCCESS) as [->|Hst]; simpl in *.
  - destruct HQ as (Ho & He & HQ). unfold WduDevice.device_extension. by wp_steps.
  - by apply wp_ret.
Qed.

(** [build] makes exactly one device, of the requested type,
    characteristics and exclusivity, with room for the crate's [WduDevice] and
    the client's extension. If the kernel makes it, the device object leads
    back to the very [WduDevice] that was returned and to its driver; if not,
    the kernel's status is the error and memory is as before. *)
Theorem build_leads_back size_of_T self driver name s :
  (forall st object contents, kresp (create_call size_of_T self driver name) s = (st, (object, contents)) ->
     st = STATUS_SUCCESS -> new_device driver object contents) ->
  wp (WduDevice.build size_of_T self driver name) s (fun r s' =>
    calls s' = calls s ++ [create_call size_of_T self driver name] /\
    match r with
    | Err e => w_mem s' = w_mem s /\
               e = WduDeviceError_CreateError (kresp (create_call size_of_T self driver name) s).1
    | Ok dev =>
        let object := WduDevice.device dev in
        dev = WduDevice.mk (WduDevice.device_type self) (WduDevice.characteristics self)
                (WduDevice.exclusive self) object /\
        wp (WduDevice.get_wdu_device object) s' (fun dev' s2 => dev' = dev /\ s2 = s') /\
        wp (WduDevice.get_driver dev) s' (fun d s2 => d = driver /\ s2 = s')
    end).
Proof.
  intros Hlaw. apply wp_build. cbv zeta. set (c := create_call size_of_T self driver name) in *.
  change (kret c) with (NTSTATUS * (ptr * DEVICE_OBJECT))%type in *.
  destruct (kresp c s) as [st [object contents]]. simpl.
  destruct (Z.eqb_spec st STATUS_SUCCESS) as [->|Hst]; [|by autorewrite with wdu].
  destruct (Hlaw _ _ _ eq_refl eq_refl) as [Ho Hd He Ha]. autorewrite with wdu.
  do 4 (split; [done|]).
  split; [unfold WduDevice.get_wdu_device|unfold WduDevice.get_driver]; simpl;
    apply wp_bind, (wp_load _ contents); [done|map_at| |done|map_at|].
  - eapply wp_load; [done|map_at|done].
  - by apply wp_ret.
Qed.
End properties.

(** ** Instances *)

Module DeviceDemo.
#[export] Instance linked : Linked :=
  {| size_of_WduDevice := 24; size_of_WduDriver := 72; code_addr s := 0x7000 |}.
Abbreviation cells := (DEVICE_OBJECT + (WduDevice + unit))%type.
Definition answer (c : kcall) : kret c :=
  match c as c return kret c with
  | IoCreateDevice driver _ _ _ _ _ => (STATUS_SUCCESS, (0x900, mkDeviceObject 0xA00 driver 0))
  | c => default_answer c
  end.
Definition start : @world (answering answer) cells := world_of answer ∅.
Definition self : WduDevice := WduDevice.set_characteristics WduDevice.default SecureOpen.
End DeviceDemo.

Lemma build_leads_back_witness :
  wp (WduDevice.build (LK := DeviceDemo.linked) 8 DeviceDemo.self 0x100 None) DeviceDemo.start
    (fun r s' =>
      match r with
      | Err _ => False
      | Ok dev => wp (WduDevice.get_driver dev) s' (fun d _ => d = 0x100)
      end).
Proof.
  pose proof (build_leads_back (LK := DeviceDemo.linked) 8 DeviceDemo.self 0x100 None DeviceDemo.start) as H.
  assert (Hlaw : forall st object contents,
    kresp (create_call (LK := DeviceDemo.linked) 8 DeviceDemo.self 0x100 None) DeviceDemo.start
      = (st, (object, contents)) -> st = STATUS_SUCCESS -> new_device 0x100 object contents).
  { intros st object contents E _. injection E as <- <- <-. by split. }
  specialize (H Hlaw). revert H. vm_compute. intros (_ & _ & _ & H & _). exact H.
Defined.
