(* ===== verification/Irp.v ===== *)
(** * Irp: I/O request packets, [io/irp.rs], and create requests, [io/create.rs]

    A [WduIrp] wraps the kernel's IRP; its cancel routine is kept both in the
    wrapper and, as a boxed clone of the wrapper, in [DriverContext[3]]. *)

From S2P Require Import Prelude Nt World Crate FileObj Device Mdl.
Import ProcessorMode (ProcessorMode).
Import WduDevice (WduDevice).
Import WduFileObject (WduFileObject).
Import WduMdl (WduMdl).

(** Changes of some members of an IRP. *)
Definition irp_with_io_status (i : IRP) (status information : Z) : IRP :=
  mkIRP status information (CurrentLocation i) (StackCount i) (CurrentStackLocation i)
    (SystemBuffer i) (UserBuffer i) (MdlAddress i) (OriginalFileObject i) (Cancel i) (CancelIrql i)
    (RequestorMode i) (DriverContext3 i) (CancelRoutine i).
Definition irp_with_context (i : IRP) (ctx : ptr) : IRP :=
  mkIRP (IoStatus_Status i) (IoStatus_Information i) (CurrentLocation i) (StackCount i)
    (CurrentStackLocation i) (SystemBuffer i) (UserBuffer i) (MdlAddress i) (OriginalFileObject i)
    (Cancel i) (CancelIrql i) (RequestorMode i) ctx (CancelRoutine i).
Definition irp_with_cancel_routine (i : IRP) (rtn : option fnptr) : IRP :=
  mkIRP (IoStatus_Status i) (IoStatus_Information i) (CurrentLocation i) (StackCount i)
    (CurrentStackLocation i) (SystemBuffer i) (UserBuffer i) (MdlAddress i) (OriginalFileObject i)
    (Cancel i) (CancelIrql i) (RequestorMode i) (DriverContext3 i) rtn.

(** [a + b] on [i8]: an overflow check panics where there is one. *)
Definition add_i8 {B : Build} {S} (a b : Z) : M S Z :=
  let r := a + b in
  if (-128 <=? r) && (r <=? 127) then mret r
  else if debug_assertions then panic "attempt to add with overflow" else mret (i8 r).

Module MajorFunction.
Inductive MajorFunction : Type := Create | Close | Cleanup | Read | Write | DeviceControl.

#[export] Instance MajorFunction_eq_dec : EqDecision MajorFunction.
Proof. solve_decision. Defined.

(** [From<u32>] *)
Definition from_u32 {S} (value : Z) : M S MajorFunction :=
  if value =? IRP_MJ_CREATE then mret Create
  else if value =? IRP_MJ_CLOSE then mret Close
  else if value =? IRP_MJ_CLEANUP then mret Cleanup
  else if value =? IRP_MJ_READ then mret Read
  else if value =? IRP_MJ_WRITE then mret Write
  else if value =? IRP_MJ_DEVICE_CONTROL then mret DeviceControl
  else panic "not yet implemented".

Definition is_io (self : MajorFunction) : bool :=
  match self with Write | Read | DeviceControl => true | _ => false end.
Definition is_fileobj (self : MajorFunction) : bool :=
  match self with Create | Close | Cleanup => true | _ => false end.
Definition is_power {S} (self : MajorFunction) : M S bool := panic "not yet implemented".
Definition is_pnp {S} (self : MajorFunction) : M S bool := panic "not yet implemented".
End MajorFunction.
Import MajorFunction (MajorFunction).

Module WduIoStatus.
Record WduIoStatus : Type := mk { status : NTSTATUS; info : Z }.

Definition new : WduIoStatus := {| status := STATUS_UNSUCCESSFUL; info := 0 |}.
Definition new_with_status (status : NTSTATUS) : WduIoStatus := {| status := status; info := 0 |}.
Definition success_no_info : WduIoStatus := {| status := STATUS_SUCCESS; info := 0 |}.
Definition success_with_info (info : Z) : WduIoStatus := {| status := STATUS_SUCCESS; info := info |}.
Definition set_status (self : WduIoStatus) (status : NTSTATUS) : WduIoStatus :=
  {| status := status; info := info self |}.
Definition set_info (self : WduIoStatus) (info : Z) : WduIoStatus :=
  {| status := status self; info := info |}.
End WduIoStatus.
Import WduIoStatus (WduIoStatus).

Module WduIrp.
Record WduIrp : Type := mk {
  irp : ptr;
  mj : MajorFunction;
  cancel : option fnptr
}.

(** [Clone], derived. *)
Definition clone (self : WduIrp) : WduIrp :=
  {| irp := irp self; mj := mj self; cancel := cancel self |}.
Definition as_ptr (self : WduIrp) : ptr := irp self.
Definition major (self : WduIrp) : MajorFunction := mj self.
Definition is_io (self : WduIrp) : bool := MajorFunction.is_io (mj self).
Definition is_fileobj (self : WduIrp) : bool := MajorFunction.is_fileobj (mj self).
Definition is_power {S} (self : WduIrp) : M S bool := MajorFunction.is_power (mj self).
Definition is_pnp {S} (self : WduIrp) : M S bool := MajorFunction.is_pnp (mj self).

Section Ops.
Context {KN : Kernel} {B : Build} {LK : Linked} {U : Type}.
Context `{!Storable U IRP, !Storable U IO_STACK_LOCATION, !Storable U WduIrp}.

Definition current_stack (irp : ptr) : M (world U) ptr :=
  i ← load (T := IRP) irp;
  n ← add_i8 (StackCount i) 1;
  assert_ (CurrentLocation i <=? n) "assertion failed: CurrentLocation <= StackCount + 1" ;;
  mret (CurrentStackLocation i).

Definition current_stack_as_mut (irp : ptr) : M (world U) ptr :=
  i ← load (T := IRP) irp;
  n ← add_i8 (StackCount i) 1;
  assert_ (CurrentLocation i <=? n) "assertion failed: CurrentLocation <= StackCount + 1" ;;
  mret (CurrentStackLocation i).

Definition wrap (irp : ptr) : M (world U) WduIrp :=
  p ← current_stack irp;
  st ← load (T := IO_STACK_LOCATION) p;
  mj ← MajorFunction.from_u32 (MajorFunction_ st);
  mret {| irp := irp; mj := mj; cancel := None |}.

(** The routine reads the [IoStatus] of the packet; afterwards the packet
    belongs to the I/O manager, and is not in memory. *)
Definition complete_request (self : WduIrp) (boost : Z) : M (world U) unit :=
  i ← load (T := IRP) (irp self);
  kcall_ (IofCompleteRequest (irp self) boost (IoStatus_Status i) (IoStatus_Information i)) ;;
  box_from_raw (T := IRP) (irp self) ;; mret tt.

Definition forward_sync (self : WduIrp) (device : WduDevice) : M (world U) bool :=
  res ← kcall_ (IoForwardIrpSynchronously (WduDevice.device device) (irp self));
  mret (res =? 1).

Definition complete (self : WduIrp) (io_status : WduIoStatus) : M (world U) unit :=
  if irp self =? null then mret tt
  else
    update (irp self) (fun i =>
      irp_with_io_status i (WduIoStatus.status io_status) (WduIoStatus.info io_status)) ;;
    complete_request self 0.

Definition system_buffer (self : WduIrp) : M (world U) ptr :=
  i ← load (T := IRP) (irp self); mret (SystemBuffer i).
Definition user_buffer (self : WduIrp) : M (world U) ptr :=
  i ← load (T := IRP) (irp self); mret (UserBuffer i).
Definition mdl_address (self : WduIrp) : M (world U) WduMdl :=
  i ← load (T := IRP) (irp self); mret (WduMdl.wrap (MdlAddress i)).

Definition file_object (self : WduIrp) : M (world U) WduFileObject :=
  p ← current_stack (irp self);
  st ← load (T := IO_STACK_LOCATION) p;
  mret (WduFileObject.wrap (FileObject st)).

Definition original_file_object (self : WduIrp) : M (world U) WduFileObject :=
  i ← load (T := IRP) (irp self); mret (WduFileObject.wrap (OriginalFileObject i)).

Definition is_cancel (self : WduIrp) : M (world U) bool :=
  i ← load (T := IRP) (irp self); mret (Cancel i =? u8_from true).

Definition mark_pending (self : WduIrp) : M (world U) unit :=
  p ← current_stack_as_mut (irp self);
  update p (fun st => mkStack (MajorFunction_ st) (Z.lor (Control st) SL_PENDING_RETURNED)
                        (FileObject st) (Parameters_Create st) (Parameters_DeviceIoControl st)).

Definition release_cancel_lock (self : WduIrp) : M (world U) unit :=
  i ← load (T := IRP) (irp self); kcall_ (IoReleaseCancelSpinLock (CancelIrql i)).

Definition processor_mode (self : WduIrp) : M (world U) ProcessorMode :=
  i ← load (T := IRP) (irp self); ProcessorMode.from_i8 (RequestorMode i).

Definition set_context (self : WduIrp) : M (world U) unit :=
  b ← box_into_raw (clone self);
  update (irp self) (fun i => irp_with_context i b).

Definition clear_context (self : WduIrp) : M (world U) unit :=
  update (irp self) (fun i => irp_with_context i null).

(** The box, as its address. *)
Definition from_context (irp : ptr) : M (world U) ptr :=
  i ← load (T := IRP) irp; mret (DriverContext3 i).

Definition set_cancel_rtn (self : WduIrp) (cancel_ : option fnptr)
    : M (world U) (option fnptr * WduIrp) :=
  let prev := cancel self in
  let self := {| irp := irp self; mj := mj self; cancel := cancel_ |} in
  match cancel_ with
  | Some _ =>
      set_context self ;;
      update (irp self) (fun i =>
        irp_with_cancel_routine i (Some (code_addr "WduIrp::cancel_routine")))
  | None =>
      update (irp self) (fun i => irp_with_cancel_routine i None) ;;
      b ← from_context (irp self); drop_box WduIrp b ;;
      clear_context self
  end ;;
  mret (prev, self).

(** [run pfn] is the client's routine at [pfn]; it may change the wrapper it
    is lent.  The box is dropped when the routine has returned. *)
Definition cancel_routine (run : fnptr -> WduDevice -> WduIrp -> M (world U) WduIrp)
    (device irp : ptr) : M (world U) unit :=
  let device := WduDevice.wrap_device device in
  original_irp ← wrap irp;
  b ← from_context irp;
  wdu_irp ← load (T := WduIrp) b;
  match cancel wdu_irp with
  | None => mret tt
  | Some pfn => run pfn device original_irp ;; mret tt
  end ;;
  drop_box WduIrp b.
End Ops.
End WduIrp.
Import WduIrp (WduIrp).

Module WduCreate.
Record WduCreate : Type := mk {
  file_object : WduFileObject;
  desired_access : Z;
  file_attributes : Z;
  share_access : Z
}.

Section Ops.
Context {KN : Kernel} {B : Build} {U : Type}.
Context `{!Storable U IRP, !Storable U IO_STACK_LOCATION, !Storable U SECURITY_CONTEXT}.

Definition new (irp : WduIrp) : M (world U) WduCreate :=
  current_stack ← WduIrp.current_stack (WduIrp.as_ptr irp);
  st ← load (T := IO_STACK_LOCATION) current_stack;
  let create_params := Parameters_Create st in
  desired_access ← (if SecurityContext create_params =? null then mret 0
                    else c ← load (T := SECURITY_CONTEXT) (SecurityContext create_params);
                         mret (DesiredAccess c));
  fo ← WduIrp.original_file_object irp;
  mret {| desired_access := desired_access;
          file_object := fo;
          file_attributes := FileAttributes create_params;
          share_access := ShareAccess create_params |}.
End Ops.
End WduCreate.
Import WduCreate (WduCreate).

(** ** Properties *)

(** The number of a major function. *)
Definition major_code (mj : MajorFunction) : Z :=
  match mj with
  | MajorFunction.Create => IRP_MJ_CREATE
  | MajorFunction.Close => IRP_MJ_CLOSE
  | MajorFunction.Cleanup => IRP_MJ_CLEANUP
  | MajorFunction.Read => IRP_MJ_READ
  | MajorFunction.Write => IRP_MJ_WRITE
  | MajorFunction.DeviceControl => IRP_MJ_DEVICE_CONTROL
  end.

Lemma from_u32_code {S} mj (s : S) : MajorFunction.from_u32 (major_code mj) s = Done mj s.
Proof. by destruct mj. Qed.

Section irps.
Context {KN : Kernel} {B : Build} {U : Type}.
Context `{!Storable U IRP, !Storable U IO_STACK_LOCATION}.
Implicit Types s : world U.

(** The IRP at [p], as the I/O manager hands it to a driver: its current
    stack location is in range and in memory. *)
Record dispatched (p : ptr) (i : IRP) (st : IO_STACK_LOCATION) s : Prop := {
  dp_irp : p <> 0;
  dp_mem : w_mem s !! p = Some (inj i);
  dp_count : -128 <= StackCount i < 127;
  dp_loc : CurrentLocation i <= StackCount i + 1;
  dp_stack : CurrentStackLocation i <> 0;
  dp_st : w_mem s !! CurrentStackLocation i = Some (inj st)
}.

Lemma add_i8_in_range {S} a b (x : S) : -128 <= a + b <= 127 -> add_i8 a b x = Done (a + b) x.
Proof.
  intros H. unfold add_i8. rewrite !(proj2 (Z.leb_le _ _)) by lia. done.
Qed.

Lemma current_stack_done p i st s :
  dispatched p i st s -> WduIrp.current_stack p s = Done (CurrentStackLocation i) s.
Proof.
  intros []. unfold WduIrp.current_stack. erewrite bind_done by by apply load_at.
  rewrite (bind_done _ _ s (StackCount i + 1) s) by (apply add_i8_in_range; lia).
  by rewrite (proj2 (Z.leb_le _ _)) by lia.
Qed.

Lemma wrap_done p i st mj s :
  dispatched p i st s -> MajorFunction_ st = major_code mj ->
  WduIrp.wrap p s = Done (WduIrp.mk p mj None) s.
Proof.
  intros Hd Hmj. unfold WduIrp.wrap. erewrite bind_done by by eapply current_stack_done.
  destruct Hd. erewrite bind_done by by apply load_at. rewrite Hmj.
  by erewrite bind_done by apply from_u32_code.
Qed.

Lemma file_object_done p mj c i st s :
  dispatched p i st s ->
  WduIrp.file_object (WduIrp.mk p mj c) s = Done (WduFileObject.wrap (FileObject st)) s.
Proof.
  intros Hd. unfold WduIrp.file_object. erewrite bind_done by by eapply current_stack_done.
  destruct Hd. by erewrite bind_done by by apply load_at.
Qed.

(** The data of a create request; its file object is the one of the packet. *)
Lemma new_create_done `{!Storable U SECURITY_CONTEXT} p mj c i st (sec : SECURITY_CONTEXT) s :
  dispatched p i st s ->
  (SecurityContext (Parameters_Create st) <> null ->
   w_mem s !! SecurityContext (Parameters_Create st) = Some (inj sec)) ->
  exists data, WduCreate.new (WduIrp.mk p mj c) s = Done data s /\
    WduCreate.file_object data = WduFileObject.wrap (OriginalFileObject i).
Proof.
  intros Hd Hsec. pose proof Hd as []. unfold WduCreate.new, WduIrp.as_ptr, WduIrp.original_file_object.
  eexists. split.
  - erewrite bind_done by by eapply current_stack_done. erewrite bind_done by by apply load_at.
    rewrite (bind_done _ _ s (if SecurityContext (Parameters_Create st) =? null then 0 else DesiredAccess sec) s).
    + erewrite bind_done; [done|]. by erewrite bind_done by by apply load_at.
    + destruct (Z.eqb_spec (SecurityContext (Parameters_Create st)) null) as [|Hn]; [done|].
      by erewrite bind_done by (apply load_at; [done|by apply Hsec]).
  - done.
Qed.

(** [complete] hands the packet back once, with the status and information
    it was given, and gives it up: nothing else in memory changes, and
    completing it again through a clone is an access to freed memory. *)
Theorem complete_reports_status (self : WduIrp) (io : WduIoStatus) (i : IRP) s :
  WduIrp.irp self <> 0 -> w_mem s !! WduIrp.irp self = Some (inj i) ->
  wp (WduIrp.complete self io) s (fun _ s1 =>
    calls s1 = calls s ++ [IofCompleteRequest (WduIrp.irp self) 0 (WduIoStatus.status io)
                             (WduIoStatus.info io)] /\
    w_mem s1 = delete (WduIrp.irp self) (w_mem s) /\
    forall io', WduIrp.complete (WduIrp.clone self) io' s1 = Ub (Dangling (WduIrp.irp self)) s1).
Proof.
  intros Hp Hi. unfold WduIrp.complete. rewrite not_null by done. unfold WduIrp.complete_request.
  wp_steps. simpl. split; [done|]. split.
  { by rewrite delete_insert_eq. }
  intros io'. destruct self as [p mj c]. simpl in *. rewrite not_null by done.
  apply bind_ub, bind_ub, load_dangling; [done|]. simpl. apply lookup_delete_eq.
Qed.

(** Completing makes one call, and takes the packet out of memory. *)
Lemma wp_complete_at (w : WduIrp) io (i : IRP) s (Q : unit -> world U -> Prop) :
  WduIrp.irp w <> 0 -> w_mem s !! WduIrp.irp w = Some (inj i) ->
  Q tt (set_mem (delete (WduIrp.irp w) (w_mem s))
          (kafter (IofCompleteRequest (WduIrp.irp w) 0 (WduIoStatus.status io) (WduIoStatus.info io)) s)) ->
  wp (WduIrp.complete w io) s Q.
Proof.
  intros Hp Hi HQ. unfold WduIrp.complete, WduIrp.complete_request. rewrite not_null by done.
  wp_step. eapply wp_update; [done..|]. wp_step. eapply wp_load; [done|map_at|]. wp_step. wp_step.
  wp_step. eapply wp_box_from_raw; [done|map_at|]. apply wp_ret. simpl in *.
  by rewrite delete_insert_eq.
Qed.

Lemma wp_complete (w : WduIrp) io (i : IRP) s (Q : unit -> world U -> Prop) :
  WduIrp.irp w <> 0 -> w_mem s !! WduIrp.irp w = Some (inj i) ->
  (forall s', w_mem s' = delete (WduIrp.irp w) (w_mem s) ->
     calls s' = calls s ++ [IofCompleteRequest (WduIrp.irp w) 0 (WduIoStatus.status io) (WduIoStatus.info io)] ->
     Q tt s') ->
  wp (WduIrp.complete w io) s Q.
Proof.
  intros Hp Hi HQ. eapply wp_complete_at; [done..|]. apply HQ; by autorewrite with wdu.
Qed.
End irps.

#[export] Hint Resolve wrap_done current_stack_done file_object_done : wdu.

Section cancellation.
Context {KN : Kernel} {B : Build} {LK : Linked} {U : Type}.
Context `{!Storable U IRP, !Storable U IO_STACK_LOCATION, !Storable U WduIrp}.
Implicit Types (s : world U) (self : WduIrp) (i : IRP).

Definition rtn_addr : fnptr := code_addr "WduIrp::cancel_routine".

(** An IRP with a cancel routine set, its context box at [b]. *)
Definition armed i (b : ptr) : IRP :=
  irp_with_cancel_routine (irp_with_context i b) (Some rtn_addr).
Definition disarmed i : IRP := irp_with_context (irp_with_cancel_routine i None) null.

Lemma wp_arm self f i s (Q : option fnptr * WduIrp -> world U -> Prop) :
  WduIrp.irp self <> 0 -> w_mem s !! WduIrp.irp self = Some (inj i) ->
  (let b := fresh_addr (w_mem s) in
   let self' := WduIrp.mk (WduIrp.irp self) (WduIrp.mj self) (Some f) in
   b <> 0 -> w_mem s !! b = None ->
   Q (WduIrp.cancel self, self')
     (set_mem (<[WduIrp.irp self := inj (armed i b)]> (<[b := inj self']> (w_mem s))) s)) ->
  wp (WduIrp.set_cancel_rtn self (Some f)) s Q.
Proof.
  intros Hp Hi HQ. pose proof (fresh_addr_fresh (w_mem s)) as Hf.
  pose proof (fresh_addr_pos (w_mem s)) as Hpos.
  assert (fresh_addr (w_mem s) <> WduIrp.irp self) by congruence.
  unfold WduIrp.set_cancel_rtn, WduIrp.set_context. simpl.
  wp_step. wp_step. wp_step. wp_step. cbv zeta.
  eapply wp_update; [done|map_at|].
  eapply wp_update; [done|map_at|].
  wp_step. unfold set_mem. simpl. rewrite insert_insert_eq. apply HQ; [lia|done].
Qed.

Lemma wp_disarm self (w : WduIrp) i s (Q : option fnptr * WduIrp -> world U -> Prop) :
  WduIrp.irp self <> 0 -> w_mem s !! WduIrp.irp self = Some (inj i) ->
  DriverContext3 i <> 0 -> DriverContext3 i <> WduIrp.irp self ->
  w_mem s !! DriverContext3 i = Some (inj w) ->
  Q (WduIrp.cancel self, WduIrp.mk (WduIrp.irp self) (WduIrp.mj self) None)
    (set_mem (<[WduIrp.irp self := inj (disarmed i)]> (delete (DriverContext3 i) (w_mem s))) s) ->
  wp (WduIrp.set_cancel_rtn self None) s Q.
Proof.
  intros Hp Hi Hc Hne Hw HQ.
  unfold WduIrp.set_cancel_rtn, WduIrp.from_context, WduIrp.clear_context, drop_box. simpl.
  wp_step. wp_step. wp_step. wp_step. wp_step.
  eapply wp_load; [done|map_at|].
  wp_step. wp_step. wp_step.
  eapply wp_box_from_raw; [done|map_at|].
  wp_step. eapply wp_update; [done|map_at|].
  wp_step. simpl. unfold set_mem in *. simpl in *.
  rewrite delete_insert_ne by done. by rewrite insert_insert_eq.
Qed.

(** Setting a cancel routine and taking it back yields that routine and
    leaves the IRP with no cancel routine and no context, and the rest of
    memory as it was: the boxed context is freed. *)
Theorem set_unset_cancel_rtn self f i s :
  WduIrp.irp self <> 0 -> w_mem s !! WduIrp.irp self = Some (inj i) ->
  wp (r ← WduIrp.set_cancel_rtn self (Some f); WduIrp.set_cancel_rtn r.2 None) s (fun r s' =>
    r = (Some f, WduIrp.mk (WduIrp.irp self) (WduIrp.mj self) None) /\
    w_mem s' = <[WduIrp.irp self := inj (disarmed i)]> (w_mem s)).
Proof.
  intros Hp Hi. apply wp_bind. eapply wp_arm; [done..|]. intros b self' Hb Hfree. simpl.
  assert (b <> WduIrp.irp self) by congruence.
  eapply (wp_disarm _ self');
    [done|map_at|done|done| |].
  { map_at. }
  simpl. split; [done|]. rewrite delete_insert_ne by done.
  rewrite (delete_insert_id (M := gmap ptr)) by done. by rewrite insert_insert_eq.
Qed.

(** C7: when the I/O manager calls the crate's cancel routine on an IRP a
    routine was set on, the client's routine runs, once, with the device and
    a new wrapper of the IRP; the context box is dropped after it returns. *)
Theorem armed_cancel_runs_routine run self f device i st s :
  dispatched (WduIrp.irp self) i st s -> MajorFunction_ st = major_code (WduIrp.mj self) ->
  CurrentStackLocation i <> WduIrp.irp self ->
  wp (WduIrp.set_cancel_rtn self (Some f)) s (fun r s1 => exists b,
    w_mem s !! b = None /\
    w_mem s1 = <[WduIrp.irp self := inj (armed i b)]> (<[b := inj r.2]> (w_mem s)) /\
    WduIrp.cancel_routine run device (WduIrp.irp self) s1 =
      (run f (WduDevice.wrap_device device) (WduIrp.mk (WduIrp.irp self) (WduIrp.mj self) None) ;;
       drop_box WduIrp b) s1).
Proof.
  intros [Hp Hi Hsc Hloc Hcs Hst] Hmj Hne. eapply wp_arm; [done..|]. intros b self' Hb Hfree.
  assert (b <> WduIrp.irp self) by congruence.
  assert (CurrentStackLocation i <> b) by congruence.
  exists b. split; [done|]. split; [done|]. simpl. set (s1 := set_mem _ s).
  assert (Hd : dispatched (WduIrp.irp self) (armed i b) st s1).
  { split; simpl; try done; [map_at|].
    map_at. }
  unfold WduIrp.cancel_routine. erewrite bind_done by by eapply wrap_done.
  rewrite (bind_done _ _ s1 b s1).
  2: { unfold WduIrp.from_context.
       by erewrite bind_done by (apply load_at; [done|map_at]). }
  rewrite (bind_done (load b) _ s1 self' s1).
  2: { apply load_at; [done|]. map_at. }
  simpl. unfold mbind, M_bind. by destruct (run f _ _ s1).
Qed.

(** C24: [set_cancel_rtn] returns the routine of the wrapper it is called on,
    not the one it takes out of the IRP, so it cannot tell that cancellation
    has begun: if the I/O manager has taken the routine out of the IRP to call
    it, [set_cancel_rtn(None)] still returns the routine, as if it had won,
    and frees the context; the cancel routine then reads a null context. *)
Theorem unset_races_cancel run self f device i st s :
  dispatched (WduIrp.irp self) i st s -> MajorFunction_ st = major_code (WduIrp.mj self) ->
  CurrentStackLocation i <> WduIrp.irp self ->
  let kernel_takes_routine := update (WduIrp.irp self) (fun i => irp_with_cancel_routine i None) in
  wp (r ← WduIrp.set_cancel_rtn self (Some f);
      kernel_takes_routine ;; WduIrp.set_cancel_rtn r.2 None) s (fun r s1 =>
    r.1 = Some f /\ WduIrp.cancel_routine run device (WduIrp.irp self) s1 = Ub NullDeref s1).
Proof.
  intros [Hp Hi Hsc Hloc Hcs Hst] Hmj Hne kt. subst kt. apply wp_bind. eapply wp_arm; [done..|].
  intros b self' Hb Hfree. assert (b <> WduIrp.irp self) by congruence.
  assert (CurrentStackLocation i <> b) by congruence.
  wp_step. eapply wp_update; [done|map_at|]. simpl.
  eapply (wp_disarm _ self');
    [done|map_at|done|done| |].
  { map_at. }
  simpl. split; [done|]. set (s1 := set_mem _ _).
  assert (Hd : dispatched (WduIrp.irp self) (disarmed (armed i b)) st s1).
  { split; simpl; try done; [map_at|].
    map_at. }
  unfold WduIrp.cancel_routine. erewrite bind_done by by eapply wrap_done.
  rewrite (bind_done _ _ s1 null s1).
  2: { unfold WduIrp.from_context.
       by erewrite bind_done by (apply load_at; [done|map_at]). }
  by apply bind_ub.
Qed.

(** Setting a second routine over a first one loses the first one's
    context: after both are taken back, its box is still allocated. *)
Theorem set_cancel_rtn_twice_leaks self f g i s :
  WduIrp.irp self <> 0 -> w_mem s !! WduIrp.irp self = Some (inj i) ->
  wp (r1 ← WduIrp.set_cancel_rtn self (Some f); r2 ← WduIrp.set_cancel_rtn r1.2 (Some g);
      WduIrp.set_cancel_rtn r2.2 None) s (fun _ s' =>
    exists b, w_mem s !! b = None /\
      w_mem s' !! b = Some (inj (WduIrp.mk (WduIrp.irp self) (WduIrp.mj self) (Some f)))).
Proof.
  intros Hp Hi. apply wp_bind. eapply wp_arm; [done..|]. intros b self' Hb Hfree. simpl.
  assert (b <> WduIrp.irp self) by congruence.
  apply wp_bind. eapply wp_arm; [done|map_at|]. simpl.
  set (b2 := fresh_addr _). intros Hb2 Hfree2.
  assert (b2 <> WduIrp.irp self) by (intros E; rewrite E, lookup_insert_eq in Hfree2; done).
  assert (b2 <> b).
  { intros E. rewrite E, lookup_insert_ne, lookup_insert_eq in Hfree2 by done. done. }
  eapply wp_disarm; [done|map_at|done|done| |].
  { map_at. }
  simpl. exists b. split; [done|].
  map_at.
Qed.

(** Taking back a cancel routine that was never set frees a null box. *)
Theorem unset_without_context self i s :
  WduIrp.irp self <> 0 -> w_mem s !! WduIrp.irp self = Some (inj i) -> DriverContext3 i = 0 ->
  exists s', WduIrp.set_cancel_rtn self None s = Ub NullDeref s'.
Proof.
  intros Hp Hi Hc. unfold WduIrp.set_cancel_rtn. simpl.
  destruct (wp_elim (update (WduIrp.irp self) (fun i => irp_with_cancel_routine i None)) s
    (fun _ s' => s' = set_mem (<[WduIrp.irp self := inj (irp_with_cancel_routine i None)]> (w_mem s)) s))
    as ([] & s1 & E & ->).
  { by eapply wp_update. }
  eexists. apply bind_ub. erewrite bind_done by done.
  erewrite bind_done.
  2: { unfold WduIrp.from_context.
       erewrite bind_done by (apply load_at; [done|map_at]). done. }
  simpl. rewrite Hc. apply bind_ub. unfold drop_box, box_from_raw. apply bind_ub, bind_ub, load_null.
Qed.
End cancellation.

(** ** Instances *)

Module IrpDemo.
#[export] Instance build : Build := true.
#[export] Instance linked : Linked :=
  {| size_of_WduDevice := 24; size_of_WduDriver := 72; code_addr s := 0x7000 |}.
Abbreviation cells := (IRP + (IO_STACK_LOCATION + (WduIrp + unit)))%type.
Definition irp : IRP := mkIRP 0 0 1 1 0x200 0x300 0 0 0x400 0 0 1 0 None.
Definition stack : IO_STACK_LOCATION :=
  mkStack IRP_MJ_DEVICE_CONTROL 0 0x400 (mkCreateParams 0 0 0) (mkDeviceIoControlRaw 16 8 0x222000 0).
Definition start : @world idle_kernel cells :=
  world_of default_answer {[0x100 := inj irp; 0x200 := inj stack]}.
Definition self : WduIrp := WduIrp.mk 0x100 MajorFunction.DeviceControl None.
(** A client's routine that completes the packet. *)
Definition cancelled (pfn : fnptr) (device : WduDevice) (irp : WduIrp)
    : M (@world idle_kernel cells) WduIrp :=
  WduIrp.complete irp (WduIoStatus.new_with_status STATUS_CANCELLED) ;; mret irp.

Lemma in_memory : w_mem start !! WduIrp.irp self = Some (inj irp).
Proof. vm_compute. reflexivity. Qed.
Lemma irp_arrives : dispatched (WduIrp.irp self) irp stack start.
Proof. split; first [discriminate | simpl; lia | vm_compute; reflexivity]. Qed.
End IrpDemo.
#[local] Existing Instance IrpDemo.build.
#[local] Existing Instance IrpDemo.linked.

Lemma complete_reports_status_witness :
  wp (WduIrp.complete IrpDemo.self (WduIoStatus.success_with_info 7)) IrpDemo.start (fun _ s1 =>
    calls s1 = [IofCompleteRequest 0x100 0 STATUS_SUCCESS 7]).
Proof.
  eapply wp_mono.
  - apply (complete_reports_status IrpDemo.self (WduIoStatus.success_with_info 7) IrpDemo.irp
      IrpDemo.start); [discriminate|vm_compute; reflexivity].
  - intros [] s1 (H & _). exact H.
Defined.

Lemma set_unset_cancel_rtn_witness :
  wp (r ← WduIrp.set_cancel_rtn IrpDemo.self (Some 0x5000); WduIrp.set_cancel_rtn r.2 None)
    IrpDemo.start (fun r s' => r = (Some 0x5000, IrpDemo.self) /\
      w_mem s' = <[0x100 := inj (disarmed IrpDemo.irp)]> (w_mem IrpDemo.start)).
Proof.
  apply (set_unset_cancel_rtn IrpDemo.self 0x5000 IrpDemo.irp IrpDemo.start);
    [discriminate|vm_compute; reflexivity].
Defined.

Lemma armed_cancel_runs_routine_witness :
  wp (WduIrp.set_cancel_rtn IrpDemo.self (Some 0x5000)) IrpDemo.start (fun r s1 => exists b,
    WduIrp.cancel_routine IrpDemo.cancelled 0x900 0x100 s1 =
      (IrpDemo.cancelled 0x5000 (WduDevice.wrap_device 0x900) IrpDemo.self ;; drop_box WduIrp b) s1).
Proof.
  eapply wp_mono.
  - apply (armed_cancel_runs_routine IrpDemo.cancelled IrpDemo.self 0x5000 0x900 IrpDemo.irp
      IrpDemo.stack IrpDemo.start IrpDemo.irp_arrives eq_refl). discriminate.
  - intros r s1 (b & _ & _ & E). exists b. exact E.
Defined.

Lemma unset_races_cancel_witness :
  wp (r ← WduIrp.set_cancel_rtn IrpDemo.self (Some 0x5000);
      update 0x100 (fun i => irp_with_cancel_routine i None) ;; WduIrp.set_cancel_rtn r.2 None)
    IrpDemo.start (fun r s1 =>
      r.1 = Some 0x5000 /\ WduIrp.cancel_routine IrpDemo.cancelled 0x900 0x100 s1 = Ub NullDeref s1).
Proof.
  apply (unset_races_cancel IrpDemo.cancelled IrpDemo.self 0x5000 0x900 IrpDemo.irp
    IrpDemo.stack IrpDemo.start IrpDemo.irp_arrives eq_refl). discriminate.
Defined.

Lemma set_cancel_rtn_twice_leaks_witness :
  wp (r1 ← WduIrp.set_cancel_rtn IrpDemo.self (Some 0x5000);
      r2 ← WduIrp.set_cancel_rtn r1.2 (Some 0x6000); WduIrp.set_cancel_rtn r2.2 None)
    IrpDemo.start (fun _ s' => exists b, w_mem IrpDemo.start !! b = None /\ w_mem s' !! b = Some (inj (WduIrp.mk 0x100 MajorFunction.DeviceControl (Some 0x5000)))).
Proof.
  apply (set_cancel_rtn_twice_leaks IrpDemo.self 0x5000 0x6000 IrpDemo.irp IrpDemo.start);
    [discriminate|vm_compute; reflexivity].
Defined.

Lemma unset_without_context_witness :
  exists s', WduIrp.set_cancel_rtn IrpDemo.self None IrpDemo.start = Ub NullDeref s'.
Proof.
  apply (unset_without_context IrpDemo.self IrpDemo.irp IrpDemo.start);
    [discriminate|vm_compute; reflexivity|reflexivity].
Defined.
