(* ===== verification/DeviceControl.v ===== *)
(** * DeviceControl: I/O control requests, [io/device_control.rs] *)

From S2P Require Import Prelude Nt World Crate FileObj Mdl Irp.
Import WduMdl (WduMdl).
Import WduIrp (WduIrp).

(** [encode_ioctl!] at [u32]: bits shifted out are lost. *)
Definition encode_ioctl (device_type function_code method access : Z) : Z :=
  Z.lor (Z.lor (Z.lor (u32 (Z.shiftl device_type 16)) (u32 (Z.shiftl access 14)))
           (u32 (Z.shiftl function_code 2))) method.

Definition method_from_ioctl (ioctl : Z) : Z := Z.land ioctl 0x3.

Inductive WduIocltBuffers : Type :=
| UnknownBuffers
| Buffered (buffer : ptr)
| Direct (input : ptr) (mdl : WduMdl)
| Neither (input output : ptr).

Module WduDeviceControl.
Record WduDeviceControl : Type := mk {
  ioctl : Z;
  out_buf_len : Z;
  in_buf_len : Z;
  buffer : WduIocltBuffers
}.

Definition input_buffer_size (self : WduDeviceControl) : Z := in_buf_len self.
Definition output_buffer_size (self : WduDeviceControl) : Z := out_buf_len self.

Definition input_buffer (self : WduDeviceControl) : ptr :=
  match buffer self with
  | Buffered buffer => buffer
  | Neither input _ => input
  | Direct input _ => input
  | UnknownBuffers => null
  end.

Section Ops.
Context {KN : Kernel} {B : Build} {U : Type}.
Context `{!Storable U IRP, !Storable U IO_STACK_LOCATION, !Storable U MDL}.

Definition new (irp : WduIrp) : M (world U) WduDeviceControl :=
  current_stack ← WduIrp.current_stack (WduIrp.as_ptr irp);
  st ← load (T := IO_STACK_LOCATION) current_stack;
  let data := Parameters_DeviceIoControl st in
  let ioctl := u32 (IoControlCode data) in
  let in_buf_len := InputBufferLength data in
  let out_buf_len := OutputBufferLength data in
  let method_bits := method_from_ioctl ioctl in
  buffer ← (if method_bits =? METHOD_BUFFERED then
              b ← WduIrp.system_buffer irp; mret (Buffered b)
            else if (method_bits =? METHOD_IN_DIRECT) || (method_bits =? METHOD_OUT_DIRECT) then
              b ← WduIrp.system_buffer irp; m ← WduIrp.mdl_address irp; mret (Direct b m)
            else if method_bits =? METHOD_NEITHER then
              b ← WduIrp.user_buffer irp; mret (Neither (Type3InputBuffer data) b)
            else mret UnknownBuffers);
  mret {| ioctl := ioctl; in_buf_len := in_buf_len; out_buf_len := out_buf_len; buffer := buffer |}.

Definition output_buffer (self : WduDeviceControl) : M (world U) ptr :=
  match buffer self with
  | Buffered buffer => mret buffer
  | Neither _ output => mret output
  | Direct _ mdl =>
      WduMdl.get_system_addr mdl (Z.lor PagePriority.Normal PagePriority.MdlMappingNoExecute)
  | UnknownBuffers => mret null
  end.

Definition mdl_byte_count (self : WduDeviceControl) : M (world U) Z :=
  match buffer self with
  | Direct _ mdl => WduMdl.byte_count mdl
  | _ => mret 0
  end.
End Ops.
End WduDeviceControl.
Import WduDeviceControl (WduDeviceControl).

(** ** Properties *)

(** The fields of a control code, as [CTL_CODE] documents them. *)
Definition decode_device_type (code : Z) : Z := Z.shiftr code 16.
Definition decode_access (code : Z) : Z := Z.land (Z.shiftr code 14) 0x3.
Definition decode_function (code : Z) : Z := Z.land (Z.shiftr code 2) 0xFFF.

Lemma lor_disjoint_add a b n : 0 <= n -> 0 <= b < 2 ^ n -> Z.lor (a * 2 ^ n) b = a * 2 ^ n + b.
Proof.
  intros Hn Hb. rewrite <- Z.shiftl_mul_pow2 by lia.
  assert (Z.land (Z.shiftl a n) b = 0).
  { apply Z.bits_inj'. intros k Hk. rewrite Z.land_spec, Z.bits_0.
    destruct (Z.ltb_spec k n).
    - by rewrite Z.shiftl_spec_low.
    - destruct (Z.eqb_spec b 0) as [->|]; [by rewrite Z.bits_0, andb_false_r|].
      rewrite (Z.bits_above_log2 b), andb_false_r; [done|lia|].
      apply Z.log2_lt_pow2; [lia|]. eapply Z.lt_le_trans; [apply Hb|]. by apply Z.pow_le_mono_r. }
  rewrite Z.add_nocarry_lxor by done. symmetry. by apply Z.lxor_lor.
Qed.

(** With the fields in range the code is the sum of its fields. *)
Lemma encode_ioctl_sum dt fn m a :
  0 <= dt < 2 ^ 16 -> 0 <= fn < 2 ^ 12 -> 0 <= m < 4 -> 0 <= a < 4 ->
  encode_ioctl dt fn m a = ((dt * 2 ^ 2 + a) * 2 ^ 12 + fn) * 2 ^ 2 + m.
Proof.
  intros Hdt Hfn Hm Ha. unfold encode_ioctl, u32.
  rewrite !Z.shiftl_mul_pow2, !wrap_small by lia.
  replace (dt * 2 ^ 16) with (dt * 2 ^ 2 * 2 ^ 14) by lia.
  rewrite <- (Z.shiftl_mul_pow2 (dt * 2 ^ 2) 14), <- (Z.shiftl_mul_pow2 a 14), <- Z.shiftl_lor,
    (lor_disjoint_add dt a 2), Z.shiftl_mul_pow2 by lia.
  replace ((dt * 2 ^ 2 + a) * 2 ^ 14) with ((dt * 2 ^ 2 + a) * 2 ^ 12 * 2 ^ 2) by lia.
  rewrite <- (Z.shiftl_mul_pow2 ((dt * 2 ^ 2 + a) * 2 ^ 12) 2), <- (Z.shiftl_mul_pow2 fn 2),
    <- Z.shiftl_lor, (lor_disjoint_add _ fn 12), Z.shiftl_mul_pow2 by lia.
  by rewrite (lor_disjoint_add _ m 2) by lia.
Qed.

(** C38: a control code built by [encode_ioctl!] from fields in range is a
    32-bit number from which each field is recovered; in particular the crate
    reads back the buffering method it was built with, and two codes are equal
    only if all their fields are. *)
Theorem encode_ioctl_roundtrip dt fn m a :
  0 <= dt < 2 ^ 16 -> 0 <= fn < 2 ^ 12 -> 0 <= m < 4 -> 0 <= a < 4 ->
  let code := encode_ioctl dt fn m a in
  0 <= code < 2 ^ 32 /\ method_from_ioctl code = m /\ decode_function code = fn /\
  decode_access code = a /\ decode_device_type code = dt.
Proof.
  intros Hdt Hfn Hm Ha. cbv zeta. rewrite encode_ioctl_sum by done.
  unfold method_from_ioctl, decode_function, decode_access, decode_device_type.
  change 0x3 with (Z.ones 2). change 0xFFF with (Z.ones 12).
  rewrite !Z.land_ones, !Z.shiftr_div_pow2 by lia.
  change (2 ^ 2) with 4 in *. change (2 ^ 12) with 4096 in *.
  change (2 ^ 14) with (4 * 4096). change (2 ^ 16) with (4 * 4096 * 4). change (2 ^ 32) with 4294967296.
  assert (E : forall q r, 0 <= r < 4 -> (q * 4 + r) / 4 = q /\ (q * 4 + r) mod 4 = r).
  { intros q r Hr. rewrite (Z.add_comm _ r), Z.div_add, Z_mod_plus_full by lia.
    rewrite Z.div_small, Z.mod_small by done. lia. }
  rewrite <- !Z.div_div by lia. destruct (E ((dt * 4 + a) * 4096 + fn) m Hm) as [-> ->].
  rewrite Z.div_add_l, (Z.div_small fn), Z.add_0_r by lia.
  destruct (E dt a Ha) as [-> ->]. rewrite (Z.add_comm _ fn), Z_mod_plus_full, Z.mod_small by done.
  split_and!; lia.
Qed.

Section properties.
Context {KN : Kernel} {B : Build} {U : Type}.
Context `{!Storable U IRP, !Storable U IO_STACK_LOCATION, !Storable U MDL}.
Implicit Types s : world U.

(** Which buffers the I/O manager documents for a buffering method: where
    the input is, and where the output goes. *)
Definition documented_input (method : Z) (i : IRP) (data : DeviceIoControlRaw) : ptr :=
  if method =? METHOD_NEITHER then Type3InputBuffer data else SystemBuffer i.
Definition documented_output (method : Z) (i : IRP) : M (world U) ptr :=
  if method =? METHOD_BUFFERED then mret (SystemBuffer i)
  else if method =? METHOD_NEITHER then mret (UserBuffer i)
  else WduMdl.get_system_addr (WduMdl.wrap (MdlAddress i))
         (Z.lor PagePriority.Normal PagePriority.MdlMappingNoExecute).

Lemma method_cases code : let m := method_from_ioctl code in m = 0 \/ m = 1 \/ m = 2 \/ m = 3.
Proof.
  cbv zeta. unfold method_from_ioctl.
  change (Z.land code 0x3) with (Z.land code (Z.ones 2)). rewrite Z.land_ones by lia.
  change (2 ^ 2) with 4. pose proof (Z.mod_pos_bound code 4 eq_refl). lia.
Qed.

(** The buffers of the method, as they are kept. *)
Definition buffers_for (method : Z) (i : IRP) (data : DeviceIoControlRaw) : WduIocltBuffers :=
  if method =? METHOD_BUFFERED then Buffered (SystemBuffer i)
  else if method =? METHOD_NEITHER then Neither (Type3InputBuffer data) (UserBuffer i)
  else Direct (SystemBuffer i) (WduMdl.wrap (MdlAddress i)).

(** [new] only reads. *)
Lemma new_control_done p mj c i st s :
  dispatched p i st s ->
  let data := Parameters_DeviceIoControl st in
  let code := u32 (IoControlCode data) in
  WduDeviceControl.new (WduIrp.mk p mj c) s =
    Done (WduDeviceControl.mk code (OutputBufferLength data) (InputBufferLength data)
            (buffers_for (method_from_ioctl code) i data)) s.
Proof.
  intros Hd data code. pose proof Hd as []. unfold WduDeviceControl.new, WduIrp.as_ptr.
  erewrite bind_done by by eapply current_stack_done. erewrite bind_done by by apply load_at.
  fold data code. set (w := WduIrp.mk p mj c).
  assert (Hs : WduIrp.system_buffer w s = Done (SystemBuffer i) s) by (unfold w, WduIrp.system_buffer, WduIrp.user_buffer, WduIrp.mdl_address; by erewrite bind_done by by apply load_at).
  assert (Hu : WduIrp.user_buffer w s = Done (UserBuffer i) s) by (unfold w, WduIrp.system_buffer, WduIrp.user_buffer, WduIrp.mdl_address; by erewrite bind_done by by apply load_at).
  assert (Ha : WduIrp.mdl_address w s = Done (WduMdl.wrap (MdlAddress i)) s) by (unfold w, WduIrp.system_buffer, WduIrp.user_buffer, WduIrp.mdl_address; by erewrite bind_done by by apply load_at).
  unfold mbind, M_bind, buffers_for. pose proof (method_cases code) as Hm.
  by destruct Hm as [Hm|[Hm|[Hm|Hm]]]; rewrite Hm; simpl; rewrite ?Hs, ?Hu, ?Ha.
Qed.

(** C22: for every control code, even an unknown one, a control request
    reports the code and the lengths of the stack location and gives the
    buffers the I/O manager documents for the code's buffering method; the
    [Unknown] case is never built. *)
Theorem device_control_buffers p mj c i st s :
  dispatched p i st s ->
  wp (WduDeviceControl.new (WduIrp.mk p mj c)) s (fun r s1 =>
    s1 = s /\ WduDeviceControl.buffer r <> UnknownBuffers /\
    let data := Parameters_DeviceIoControl st in
    let method := method_from_ioctl (u32 (IoControlCode data)) in
    WduDeviceControl.ioctl r = u32 (IoControlCode data) /\
    WduDeviceControl.input_buffer_size r = InputBufferLength data /\
    WduDeviceControl.output_buffer_size r = OutputBufferLength data /\
    WduDeviceControl.input_buffer r = documented_input method i data /\
    WduDeviceControl.output_buffer r = documented_output method i).
Proof.
  intros Hd. eapply wp_done; [by eapply new_control_done|]. simpl. split; [done|].
  unfold documented_input, documented_output, buffers_for, WduDeviceControl.input_buffer, WduDeviceControl.output_buffer.
  pose proof (method_cases (u32 (IoControlCode (Parameters_DeviceIoControl st)))) as Hm.
  by destruct Hm as [Hm|[Hm|[Hm|Hm]]]; rewrite Hm.
Qed.
End properties.

(** ** Instances *)

Lemma encode_ioctl_roundtrip_witness :
  method_from_ioctl (encode_ioctl 40000 0x903 METHOD_NEITHER FILE_ANY_ACCESS) = METHOD_NEITHER.
Proof.
  apply (encode_ioctl_roundtrip 40000 0x903 METHOD_NEITHER FILE_ANY_ACCESS);
    vm_compute; intuition discriminate.
Defined.

Module DeviceControlDemo.
Abbreviation cells := (IRP + (IO_STACK_LOCATION + (MDL + unit)))%type.
Definition start : @world idle_kernel cells :=
  world_of default_answer {[0x100 := inj IrpDemo.irp; 0x200 := inj IrpDemo.stack]}.
Lemma ioctl_arrives : dispatched 0x100 IrpDemo.irp IrpDemo.stack start.
Proof. split; first [discriminate | simpl; lia | vm_compute; reflexivity]. Qed.
End DeviceControlDemo.

Lemma device_control_buffers_witness :
  wp (WduDeviceControl.new (B := IrpDemo.build) IrpDemo.self) DeviceControlDemo.start (fun r _ =>
    WduDeviceControl.input_buffer r = 0x300 /\ WduDeviceControl.input_buffer_size r = 8).
Proof.
  eapply wp_mono.
  - apply (device_control_buffers (B := IrpDemo.build) 0x100 _ _ IrpDemo.irp IrpDemo.stack
      DeviceControlDemo.start DeviceControlDemo.ioctl_arrives).
  - intros r s1 (_ & _ & _ & H1 & _ & H2 & _). split; [exact H2|exact H1].
Defined.
