(* ===== verification/Driver.v ===== *)
(** * Driver: the driver object and request dispatch, [common/driver.rs]

    A [WduDriver] is copied to the driver object's extension when it is
    built; the functions the crate registers with the I/O manager find it
    there and call the client's routines. *)

From S2P Require Import Prelude Nt World Crate FileObj Device Mdl Irp DeviceControl.
Import WduDevice (WduDevice).
Import WduFileObject (WduFileObject).
Import WduIrp (WduIrp).
Import WduCreate (WduCreate).
Import WduDeviceControl (WduDeviceControl).
Import MajorFunction (MajorFunction).

Inductive WduDriverError : Type := DriverExtAllocFailed | AlreadyInit.

Module FileObjDispatch.
Record FileObjDispatch : Type := mk {
  create : option fnptr;
  close : option fnptr;
  cleanup : option fnptr
}.
Definition default : FileObjDispatch := mk None None None.
Definition create_irp (self : FileObjDispatch) (create : fnptr) : FileObjDispatch :=
  mk (Some create) (close self) (cleanup self).
Definition close_irp (self : FileObjDispatch) (close : fnptr) : FileObjDispatch :=
  mk (create self) (Some close) (cleanup self).
Definition cleanup_irp (self : FileObjDispatch) (cleanup : fnptr) : FileObjDispatch :=
  mk (create self) (close self) (Some cleanup).
End FileObjDispatch.
Import FileObjDispatch (FileObjDispatch).

Module IoDispath.
Record IoDispath : Type := mk {
  read : option fnptr;
  write : option fnptr;
  ioctl : option fnptr
}.
Definition default : IoDispath := mk None None None.
Definition read_irp (self : IoDispath) (read : fnptr) : IoDispath :=
  mk (Some read) (write self) (ioctl self).
Definition write_irp (self : IoDispath) (write : fnptr) : IoDispath :=
  mk (read self) (Some write) (ioctl self).
Definition ioctl_irp (self : IoDispath) (ioctl : fnptr) : IoDispath :=
  mk (read self) (write self) (Some ioctl).
End IoDispath.
Import IoDispath (IoDispath).

Record WduDriver : Type := mkWduDriver {
  init : bool;
  driver : ptr;
  add_device_rtn : option fnptr;
  unload_rtn : option fnptr;
  io_rtns : IoDispath;
  fileobj_rtns : FileObjDispatch
}.

(** The client's routines, by address.  A routine that is lent the request
    wrapper gives it back, perhaps changed. *)
Class Client {KN : Kernel} (U : Type) : Type := {
  run_add_device : fnptr -> WduDriver -> M (world U) NTSTATUS;
  run_unload : fnptr -> WduDriver -> M (world U) unit;
  run_create : fnptr -> WduDevice -> WduIrp -> WduCreate -> M (world U) WduIrp;
  run_close_cleanup : fnptr -> WduDevice -> WduIrp -> WduFileObject -> M (world U) WduIrp;
  run_read_write : fnptr -> WduDevice -> WduIrp -> Z -> M (world U) (WduIrp * NTSTATUS);
  run_ioctl : fnptr -> WduDevice -> WduIrp -> WduDeviceControl -> M (world U) (WduIrp * NTSTATUS)
}.

Module WduDriver.
Definition new (driver : ptr) : WduDriver :=
  {| driver := driver; add_device_rtn := None; unload_rtn := None; init := false;
     io_rtns := IoDispath.default; fileobj_rtns := FileObjDispatch.default |}.

Definition as_ptr (self : WduDriver) : ptr := driver self.

(** [driver.MajorFunction[major] = rtn] *)
Definition set_major (rtn : fnptr) (d : DRIVER_OBJECT) (major : Z) : DRIVER_OBJECT :=
  mkDriverObject (DeviceObject d) (DriverExtension d) (DriverUnload d)
    (<[Z.to_nat major := Some rtn]> (MajorFunctions d)).

Section Ops.
Context {KN : Kernel} {B : Build} {LK : Linked} {U : Type}.
Context `{!Storable U DRIVER_OBJECT, !Storable U DRIVER_EXTENSION, !Storable U DEVICE_OBJECT}.
Context `{!Storable U IRP, !Storable U IO_STACK_LOCATION, !Storable U SECURITY_CONTEXT}.
Context `{!Storable U WduDevice, !Storable U WduDriver, !Storable U WduIrp}.
Context `{!Client U}.

Definition WKR_DRIVER_ID : fnptr := code_addr "WduDriver::get_wdu_driver".

Definition device (self : WduDriver) : M (world U) WduDevice :=
  d ← load (T := DRIVER_OBJECT) (driver self); mret (WduDevice.wrap_device (DeviceObject d)).

Definition device_add (self : WduDriver) (device_add : fnptr) : M (world U) WduDriver :=
  d ← load (T := DRIVER_OBJECT) (driver self);
  (if negb (DriverExtension d =? null)
   then update (DriverExtension d) (fun _ =>
          mkDriverExtension (Some (code_addr "WduDriver::add_device")))
   else mret tt) ;;
  mret (mkWduDriver (init self) (driver self) (Some device_add) (unload_rtn self) (io_rtns self)
          (fileobj_rtns self)).

Definition unload (self : WduDriver) (driver_unload : fnptr) : M (world U) WduDriver :=
  update (driver self) (fun d =>
    mkDriverObject (DeviceObject d) (DriverExtension d)
      (Some (code_addr "WduDriver::driver_unload")) (MajorFunctions d)) ;;
  mret (mkWduDriver (init self) (driver self) (add_device_rtn self) (Some driver_unload)
          (io_rtns self) (fileobj_rtns self)).

Definition file_object (self : WduDriver) (dispatch_rtns : FileObjDispatch)
    : M (world U) WduDriver :=
  let pfn := code_addr "WduDriver::dispatch_handler" in
  for_each (fun major => update (driver self) (fun d => set_major pfn d major))
    [IRP_MJ_CREATE; IRP_MJ_CLOSE; IRP_MJ_CLEANUP] ;;
  mret (mkWduDriver (init self) (driver self) (add_device_rtn self) (unload_rtn self)
          (io_rtns self) dispatch_rtns).

Definition io (self : WduDriver) (dispatch_rtns : IoDispath) : M (world U) WduDriver :=
  let pfn := code_addr "WduDriver::dispatch_handler" in
  for_each (fun major => update (driver self) (fun d => set_major pfn d major))
    [IRP_MJ_READ; IRP_MJ_WRITE; IRP_MJ_DEVICE_CONTROL] ;;
  mret (mkWduDriver (init self) (driver self) (add_device_rtn self) (unload_rtn self)
          dispatch_rtns (fileobj_rtns self)).

Definition power (self : WduDriver) : M (world U) WduDriver := panic "not yet implemented".
Definition pnp (self : WduDriver) : M (world U) WduDriver := panic "not yet implemented".

(** [&mut self]: the changed driver is given back. *)
Definition alloc_ext (self : WduDriver) : M (world U) (result WduDriver WduDriverError) :=
  r ← kcall_ (IoAllocateDriverObjectExtension (as_ptr self) WKR_DRIVER_ID
                (u32 size_of_WduDriver));
  let '(status, ext) := r in
  if negb (status =? STATUS_SUCCESS) then mret (Err DriverExtAllocFailed)
  else
    let self := mkWduDriver true (driver self) (add_device_rtn self) (unload_rtn self)
                  (io_rtns self) (fileobj_rtns self) in
    install ext self ;; mret (Ok self).

Definition build (self : WduDriver) : M (world U) (result WduDriver WduDriverError) :=
  if init self then mret (Err AlreadyInit)
  else self ←? alloc_ext self; mret (Ok self).

Definition get_wdu_driver (driver : ptr) : M (world U) ptr :=
  kcall_ (IoGetDriverObjectExtension driver WKR_DRIVER_ID).

Definition add_device_internal (self : WduDriver) (device : WduDevice) : M (world U) NTSTATUS :=
  match add_device_rtn self with
  | None => mret STATUS_SUCCESS
  | Some add_device => run_add_device add_device self
  end.

Definition unload_internal (self : WduDriver) : M (world U) unit :=
  match unload_rtn self with None => mret tt | Some unload => run_unload unload self end.

Definition fo_dispatch (self : WduDriver) (device : WduDevice) (irp : WduIrp) : M (world U) WduIrp :=
  match WduIrp.major irp with
  | MajorFunction.Create =>
      match FileObjDispatch.create (fileobj_rtns self) with
      | None => mret irp
      | Some pfn => create ← WduCreate.new irp; run_create pfn device irp create
      end
  | MajorFunction.Close =>
      match FileObjDispatch.close (fileobj_rtns self) with
      | None => mret irp
      | Some pfn => file_object ← WduIrp.file_object irp; run_close_cleanup pfn device irp file_object
      end
  | MajorFunction.Cleanup =>
      match FileObjDispatch.cleanup (fileobj_rtns self) with
      | None => mret irp
      | Some pfn => file_object ← WduIrp.file_object irp; run_close_cleanup pfn device irp file_object
      end
  | _ => panic "internal error: entered unreachable code: Invalid FileObject dispatch"
  end.

Definition io_dispatch (self : WduDriver) (device : WduDevice) (irp : WduIrp)
    : M (world U) (WduIrp * NTSTATUS) :=
  match WduIrp.major irp with
  | MajorFunction.Read =>
      match IoDispath.read (io_rtns self) with
      | None => mret (irp, STATUS_SUCCESS)
      | Some pfn => run_read_write pfn device irp 0
      end
  | MajorFunction.Write =>
      match IoDispath.write (io_rtns self) with
      | None => mret (irp, STATUS_SUCCESS)
      | Some pfn => run_read_write pfn device irp 0
      end
  | MajorFunction.DeviceControl =>
      match IoDispath.ioctl (io_rtns self) with
      | None => mret (irp, STATUS_SUCCESS)
      | Some pfn => ioctl ← WduDeviceControl.new irp; run_ioctl pfn device irp ioctl
      end
  | _ => panic "internal error: entered unreachable code: Invalid I/O dispatch"
  end.

Definition power_dispatch (self : WduDriver) (device : WduDevice) (irp : WduIrp)
    : M (world U) NTSTATUS := panic "not yet implemented".
Definition pnp_dispatch (self : WduDriver) : M (world U) NTSTATUS := panic "not yet implemented".

Definition driver_unload (driver : ptr) : M (world U) unit :=
  wdu_driver ← get_wdu_driver driver;
  if wdu_driver =? null then mret tt
  else
    d ← load (T := WduDriver) wdu_driver;
    assert_ (init d) "assertion failed: (*wdu_driver).init" ;;
    unload_internal d.

Definition add_device (driver pdo : ptr) : M (world U) NTSTATUS :=
  wdu_driver ← get_wdu_driver driver;
  if wdu_driver =? null then mret STATUS_SUCCESS
  else
    d ← load (T := WduDriver) wdu_driver;
    add_device_internal d (WduDevice.wrap_device pdo).

Definition dispatch_handler (device irp : ptr) : M (world U) NTSTATUS :=
  wdu_irp ← WduIrp.wrap irp;
  wdu_device ← WduDevice.get_wdu_device device;
  driver ← WduDevice.get_driver wdu_device;
  wdu_driver ← get_wdu_driver driver;
  if wdu_driver =? null then mret STATUS_SUCCESS
  else
    d ← load (T := WduDriver) wdu_driver;
    if WduIrp.is_fileobj wdu_irp then fo_dispatch d wdu_device wdu_irp ;; mret STATUS_SUCCESS
    else if WduIrp.is_io wdu_irp then
      r ← io_dispatch d wdu_device wdu_irp; mret r.2
    else
      power ← WduIrp.is_power wdu_irp;
      if power : bool then power_dispatch d wdu_device wdu_irp
      else
        pnp ← WduIrp.is_pnp wdu_irp;
        if pnp : bool then pnp_dispatch d
        else panic "internal error: entered unreachable code: Unknown operation".
End Ops.
End WduDriver.

(** ** Properties *)

(** What the documentation says of driver object extensions: the one a driver
    allocated under an identification address is what it gets back, until the
    driver is unloaded. *)
Class DriverExtensions {KN : Kernel} : Type := {
  ext_of : kstate -> ptr -> fnptr -> ptr;
  get_ext : forall k d id, kstep (IoGetDriverObjectExtension d id) k = (ext_of k d id, k);
  alloc_ext_law : forall k k' d id sz p,
    kstep (IoAllocateDriverObjectExtension d id sz) k = ((STATUS_SUCCESS, p), k') ->
    p <> 0 /\ ext_of k' d id = p
}.

Section properties.
Context {KN : Kernel} {B : Build} {LK : Linked} {U : Type}.
Context `{!Storable U DRIVER_OBJECT, !Storable U DRIVER_EXTENSION, !Storable U DEVICE_OBJECT}.
Context `{!Storable U IRP, !Storable U IO_STACK_LOCATION, !Storable U SECURITY_CONTEXT}.
Context `{!Storable U WduDevice, !Storable U WduDriver, !Storable U WduIrp}.
Context `{!Client U}.
Implicit Types (s : world U) (drv : WduDriver) (o : DRIVER_OBJECT).

Definition handler_addr : fnptr := code_addr "WduDriver::dispatch_handler".
Definition id_addr : fnptr := WduDriver.WKR_DRIVER_ID.

Lemma wp_set_majors p ms o s (Q : unit -> world U -> Prop) :
  p <> 0 -> w_mem s !! p = Some (inj o) ->
  Q tt (set_mem (<[p := inj (foldl (WduDriver.set_major handler_addr) o ms)]> (w_mem s)) s) ->
  wp (for_each (fun major => update p (fun d => WduDriver.set_major handler_addr d major)) ms) s Q.
Proof.
  revert o s. induction ms as [|m ms IH]; intros o s Hp Ho HQ; simpl in *.
  - rewrite insert_id in HQ by done. apply wp_ret. by destruct s.
  - apply wp_bind. eapply wp_update; [done..|]. eapply IH; [done|map_at|].
    simpl. rewrite insert_insert_eq. by destruct s.
Qed.

(** The registration a client writes in its entry point. *)
Definition register (p : ptr) (unload : fnptr) (fo : FileObjDispatch) (io : IoDispath)
    : M (world U) (result WduDriver WduDriverError) :=
  d ← WduDriver.unload (WduDriver.new p) unload;
  d ← WduDriver.file_object d fo;
  d ← WduDriver.io d io;
  WduDriver.build d.

Definition all_majors : list Z :=
  [IRP_MJ_CREATE; IRP_MJ_CLOSE; IRP_MJ_CLEANUP; IRP_MJ_READ; IRP_MJ_WRITE; IRP_MJ_DEVICE_CONTROL].

(** The driver object afterwards. *)
Definition registered o : DRIVER_OBJECT :=
  foldl (WduDriver.set_major handler_addr)
    (mkDriverObject (DeviceObject o) (DriverExtension o)
       (Some (code_addr "WduDriver::driver_unload")) (MajorFunctions o)) all_majors.

Lemma wp_register p unload fo io o s (Q : result WduDriver WduDriverError -> world U -> Prop) :
  p <> 0 -> w_mem s !! p = Some (inj o) ->
  (let c := IoAllocateDriverObjectExtension p id_addr (u32 size_of_WduDriver) in
   let drv := mkWduDriver true p None (Some unload) io fo in
   let s1 := kafter c (set_mem (<[p := inj (registered o)]> (w_mem s)) s) in
   let st := (kresp c s).1 in
   let ext := (kresp c s).2 in
   (st <> STATUS_SUCCESS -> Q (Err DriverExtAllocFailed) s1) /\
   (st = STATUS_SUCCESS ->
    ext <> 0 /\ Q (Ok drv) (set_mem (<[ext := inj drv]> (<[p := inj (registered o)]> (w_mem s))) s1))) ->
  wp (register p unload fo io) s Q.
Proof.
  intros Hp Ho HQ. unfold register, WduDriver.unload, WduDriver.file_object, WduDriver.io.
  wp_step. wp_step. eapply wp_update; [done..|]. wp_step. wp_step. wp_step.
  eapply wp_set_majors; [done|map_at|]. wp_step. wp_step. wp_step.
  eapply wp_set_majors; [done|map_at|]. wp_step.
  unfold WduDriver.build, WduDriver.alloc_ext, try_. simpl. wp_step. wp_step. wp_step.
  unfold set_mem. simpl. rewrite !insert_insert_eq.
  fold (WduDriver.as_ptr (WduDriver.new p)). change (WduDriver.as_ptr (WduDriver.new p)) with p.
  fold id_addr. cbv zeta in HQ. set (s0 := World _ _ _) in *.
  set (c := IoAllocateDriverObjectExtension _ _ _) in *.
  change (kresp c s) with (kresp c s0) in HQ. destruct HQ as [H0 H1].
  change (kret c) with (NTSTATUS * ptr)%type in *.
  destruct (kresp c s0) as [st ext]. simpl in *.
  destruct (Z.eqb_spec st STATUS_SUCCESS) as [Hst|Hst]; simpl.
  - destruct (H1 Hst) as [Hext HQ1]. wp_step. apply wp_install; [done|]. wp_step. wp_step. apply HQ1.
  - wp_step. wp_step. by apply H0.
Qed.

(** The same, with what comes next. *)
Lemma register_then {A} p unload fo io (k : result WduDriver WduDriverError -> M (world U) A) s :
  (d ← WduDriver.unload (WduDriver.new p) unload;
   d ← WduDriver.file_object d fo;
   d ← WduDriver.io d io;
   r ← WduDriver.build d; k r) s = (r ← register p unload fo io; k r) s.
Proof.
  unfold register, mbind, M_bind.
  destruct (WduDriver.unload _ _ s); try done. destruct (WduDriver.file_object _ _ _); try done.
  by destruct (WduDriver.io _ _ _).
Qed.

(** What the I/O manager documents of the devices it makes for the driver
    object at [p]. *)
Definition new_devices (p : ptr) : Prop :=
  forall k size name ty chars exclusive object contents k',
    kstep (IoCreateDevice p size name ty chars exclusive) k = ((STATUS_SUCCESS, (object, contents)), k') ->
    new_device p object contents.

(** Its two halves. *)
Lemma register_traced p unload fo io o s :
  p <> 0 -> w_mem s !! p = Some (inj o) ->
  let alloc := IoAllocateDriverObjectExtension p id_addr (u32 size_of_WduDriver) in
  let r0 : NTSTATUS * ptr := kresp alloc s in
  let drv := mkWduDriver true p None (Some unload) io fo in
  (r0.1 = STATUS_SUCCESS -> r0.2 <> 0) ->
  wp (register p unload fo io) s (fun r s1 => w_trace s1 = w_trace s ++ [Ev alloc r0] /\
    (forall a, a ∉ [p; r0.2] -> w_mem s1 !! a = w_mem s !! a) /\
    match r with
    | Err e => e = DriverExtAllocFailed
    | Ok d => d = drv /\ r0.1 = STATUS_SUCCESS /\ w_mem s1 = <[r0.2 := inj drv]> (<[p := inj (registered o)]> (w_mem s))
    end).
Proof.
  intros Hp Ho alloc r0 drv Hext. eapply wp_register; [done..|]. cbv zeta. fold alloc r0.
  assert (T : w_trace (kafter alloc (set_mem (<[p := inj (registered o)]> (w_mem s)) s)) = w_trace s ++ [Ev alloc r0]) by done.
  split; intros Hst; rewrite ?trace_set_mem.
  - split_and!; [done| |done]. intros a Ha. rewrite !not_elem_of_cons in Ha. destruct_and! Ha. simpl. map_at.
  - split; [by apply Hext|]. split_and!; try done.
    intros a Ha. rewrite !not_elem_of_cons in Ha. destruct_and! Ha. simpl. map_at.
Qed.

Lemma build_traced p size_of_T self name s :
  new_devices p ->
  let create := create_call size_of_T self p name in
  wp (WduDevice.build size_of_T self p name) s (fun r s2 => exists answer,
    kresp create s = answer /\ w_trace s2 = w_trace s ++ [Ev create answer] /\
    match r with
    | Err e => answer.1 <> STATUS_SUCCESS /\ e = WduDeviceError_CreateError answer.1 /\ w_mem s2 = w_mem s
    | Ok dev => answer.1 = STATUS_SUCCESS /\ new_device p answer.2.1 answer.2.2 /\
        dev = WduDevice.mk (WduDevice.device_type self) (WduDevice.characteristics self)
                (WduDevice.exclusive self) answer.2.1 /\
        w_mem s2 = <[DeviceExtension answer.2.2 := inj dev]> (<[answer.2.1 := inj answer.2.2]> (w_mem s))
    end).
Proof.
  intros Hnew create. apply wp_build. cbv zeta. fold create.
  change (kret create) with (NTSTATUS * (ptr * DEVICE_OBJECT))%type in *.
  destruct (kresp create s) as [st [object contents]] eqn:Ek. pose proof Ek as Ek'.
  destruct (Z.eqb_spec st STATUS_SUCCESS) as [->|Hne].
  - unfold kresp in Ek. destruct (kstep create (w_kernel s)) as [answer k'] eqn:Es. simpl in Ek. subst answer.
    pose proof (Hnew _ _ _ _ _ _ _ _ _ Es) as Hd. pose proof Hd as [? _ ? _]. do 2 (split; [done|]).
    exists (STATUS_SUCCESS, (object, contents)). rewrite trace_set_mem, trace_kafter, Ek'. by split_and!.
  - exists (st, (object, contents)). rewrite trace_kafter, Ek'. by split_and!.
Qed.

(** The beginning of an entry point: the driver is registered, its device is
    made, and the rest is [k].  It ends early, with an error and only the
    calls it is made of, or goes on with the new device. *)
Lemma begin_entry {A E} p unload fo io (from_driver : WduDriverError -> E) (from_device : WduDeviceError -> E)
    size_of_T self name (k : WduDevice -> M (world U) (result A E)) o s :
  p <> 0 -> w_mem s !! p = Some (inj o) -> new_devices p ->
  let alloc := IoAllocateDriverObjectExtension p id_addr (u32 size_of_WduDriver) in
  let create := create_call size_of_T self p name in
  let r0 : NTSTATUS * ptr := kresp alloc s in
  let drv := mkWduDriver true p None (Some unload) io fo in
  (r0.1 = STATUS_SUCCESS -> r0.2 <> 0) ->
  let entry := (d ← WduDriver.unload (WduDriver.new p) unload;
    d ← WduDriver.file_object d fo;
    d ← WduDriver.io d io;
    try_ from_driver (WduDriver.build d) (fun wdu_driver =>
    try_ from_device (WduDevice.build size_of_T self (WduDriver.as_ptr wdu_driver) name) k)) in
  (exists e s1 cs, entry s = Done (Err e) s1 /\
     (e = from_driver DriverExtAllocFailed \/ exists st, e = from_device (WduDeviceError_CreateError st)) /\
     w_trace s1 = w_trace s ++ cs /\ devices cs = [] /\
     Forall (fun c => c = alloc \/ c = create) (call_of <$> cs) /\
     forall a, a ∉ [p; r0.2] -> w_mem s1 !! a = w_mem s !! a) \/
  (exists object contents s1,
     let dev := WduDevice.mk (WduDevice.device_type self) (WduDevice.characteristics self)
                  (WduDevice.exclusive self) object in
     entry s = k dev s1 /\ new_device p object contents /\
     w_trace s1 = w_trace s ++ [Ev alloc (STATUS_SUCCESS, r0.2); Ev create (STATUS_SUCCESS, (object, contents))] /\
     w_mem s1 = <[DeviceExtension contents := inj dev]> (<[object := inj contents]>
                  (<[r0.2 := inj drv]> (<[p := inj (registered o)]> (w_mem s)))) /\
     exists k0 k1, kstep create k0 = ((STATUS_SUCCESS, (object, contents)), k1)).
Proof.
  intros Hp Ho Hnew alloc create r0 drv Hext entry.
  assert (Hentry : entry s = (r ← register p unload fo io; match r with
    | Ok d => try_ from_device (WduDevice.build size_of_T self (WduDriver.as_ptr d) name) k
    | Err e => mret (Err (from_driver e)) end) s) by (unfold entry, try_ at 1; apply register_then).
  rewrite Hentry. clearbody entry. clear Hentry.
  destruct (wp_elim _ _ _ (register_traced p unload fo io o s Hp Ho Hext)) as (r & s1 & E1 & T1 & M1 & Hr).
  fold alloc r0 drv in T1, M1, Hr.
  rewrite (bind_done _ _ _ _ _ E1).
  destruct r as [d|e]; [destruct Hr as (-> & Hst & Hm)|].
  2: { left. exists (from_driver e), s1, [Ev alloc r0]. subst e. split; [done|]. split; [by left|].
       split_and!; try done. cbn. rewrite Forall_singleton. by left. }
  unfold try_. change (WduDriver.as_ptr drv) with p.
  destruct (wp_elim _ _ _ (build_traced p size_of_T self name s1 Hnew))
    as (r & s2 & E2 & [st [object contents]] & Hk & T2 & Hr). fold create in Hk, T2.
  rewrite (bind_done _ _ _ _ _ E2). simpl in Hr. destruct r as [dev|e].
  - destruct Hr as (-> & Hd & -> & Hm2). right. exists object, contents, s2. split_and!; [done|done| | |].
    + rewrite T2, T1, <- app_assoc. rewrite (surjective_pairing r0), Hst. done.
    + by rewrite Hm2, Hm.
    + exists (w_kernel s1). unfold kresp in Hk. exists (snd (kstep create (w_kernel s1))).
      rewrite <- Hk. apply surjective_pairing.
  - destruct Hr as (Hne & -> & Hm2). left. eexists _, s2, [Ev alloc r0; Ev create (st, (object, contents))].
    split; [done|]. split; [right; by exists st|]. split; [by rewrite T2, T1, <- app_assoc|].
    split. { unfold devices. cbn. rewrite (proj2 (Z.eqb_neq _ _) Hne). done. }
    split; [cbn; rewrite !Forall_cons; auto|]. intros a Ha. rewrite Hm2. by apply M1.
Qed.

Lemma set_majors_lookup h ms o (m : nat) :
  Forall (fun z => 0 <= z) ms -> (m < length (MajorFunctions o))%nat ->
  MajorFunctions (foldl (WduDriver.set_major h) o ms) !! m =
    if bool_decide (Z.of_nat m ∈ ms) then Some (Some h) else MajorFunctions o !! m.
Proof.
  revert o. induction ms as [|z ms IH]; intros o Hms Hm; simpl; [done|].
  apply Forall_cons in Hms as [Hz Hms]. rewrite IH by (simpl; by rewrite ?length_insert).
  case_bool_decide as Hin.
  - rewrite bool_decide_true by by right. done.
  - simpl. destruct (decide (Z.to_nat z = m)) as [<-|Hne].
    + rewrite list_lookup_insert_eq by done. rewrite bool_decide_true; [done|].
      rewrite Z2Nat.id by done. by left.
    + rewrite list_lookup_insert_ne by done. rewrite bool_decide_false; [done|].
      intros [E|?]%elem_of_cons; [|done]. rewrite <- E, Nat2Z.id in Hne. done.
Qed.

(** C14: registration succeeds exactly when the kernel gives the driver
    object an extension. The driver object then sends the six kinds of
    request of [file_object] and [io] - and no others - to the crate's
    dispatch handler, and its unload routine to the crate's; the extension
    holds the driver that was returned, with the client's routines in it. *)
Theorem register_installs p unload fo io o s :
  p <> 0 -> w_mem s !! p = Some (inj o) -> length (MajorFunctions o) = 28%nat ->
  let r0 := kresp (IoAllocateDriverObjectExtension p id_addr (u32 size_of_WduDriver)) s in
  (r0.1 = STATUS_SUCCESS -> r0.2 <> 0 /\ r0.2 <> p) ->
  wp (register p unload fo io) s (fun r s1 =>
    match r with
    | Err e => r0.1 <> STATUS_SUCCESS /\ e = DriverExtAllocFailed
    | Ok drv =>
        r0.1 = STATUS_SUCCESS /\ drv = mkWduDriver true p None (Some unload) io fo /\
        w_mem s1 !! r0.2 = Some (inj drv) /\
        exists o', w_mem s1 !! p = Some (inj o') /\
          DriverUnload o' = Some (code_addr "WduDriver::driver_unload") /\
          forall m : nat, (m < 28)%nat -> MajorFunctions o' !! m =
            if bool_decide (Z.of_nat m ∈ all_majors) then Some (Some handler_addr)
            else MajorFunctions o !! m
    end).
Proof.
  intros Hp Ho Hlen r0 Hr0. eapply wp_register; [done..|]. cbv zeta. fold r0. split.
  - done.
  - intros Hst. destruct (Hr0 Hst) as [H1 H2]. do 3 (split; [done|]).
    split; [map_at|]. exists (registered o). split; [map_at|]. split; [done|].
    intros m Hm. unfold registered.
    rewrite set_majors_lookup; [done|by repeat constructor|simpl; by rewrite Hlen].
Qed.

(** Unloading a registered driver does not trip the assertion of the
    unload routine: it runs the client's routine on the registered driver. *)
Theorem registered_driver_unloads `{!DriverExtensions} p unload fo io o s :
  p <> 0 -> w_mem s !! p = Some (inj o) ->
  wp (register p unload fo io) s (fun r s1 =>
    match r with
    | Err _ => True
    | Ok drv => WduDriver.driver_unload p s1 =
                  run_unload unload drv (kafter (IoGetDriverObjectExtension p id_addr) s1)
    end).
Proof.
  intros Hp Ho. eapply wp_register; [done..|]. cbv zeta. split; [done|]. intros Hst.
  set (c := IoAllocateDriverObjectExtension _ _ _) in *. set (s1 := kafter c _).
  assert (Hl : kstep c (w_kernel s) = ((STATUS_SUCCESS, (kresp c s).2), w_kernel s1)).
  { unfold s1, kafter. simpl. rewrite <- Hst. unfold kresp.
    by destruct (kstep c (w_kernel s)) as [[] ?]. }
  apply alloc_ext_law in Hl as [Hext He]. split; [done|]. set (ext := (kresp c s).2) in *.
  set (s2 := set_mem _ s1). unfold WduDriver.driver_unload, WduDriver.get_wdu_driver.
  fold id_addr. set (g := IoGetDriverObjectExtension p id_addr).
  rewrite (bind_done _ _ s2 ext (kafter g s2)).
  2: { unfold kcall_. f_equal. unfold kresp, g. rewrite get_ext. exact He. }
  rewrite not_null by done. erewrite bind_done by (apply load_at; [done|simpl; map_at]). done.
Qed.

(** *** Dispatch *)

(** What the registered routines say is to happen to a request: nothing,
    when there is no routine for it. *)
Definition client_rtn drv (mj : MajorFunction) : option fnptr :=
  match mj with
  | MajorFunction.Create => FileObjDispatch.create (fileobj_rtns drv)
  | MajorFunction.Close => FileObjDispatch.close (fileobj_rtns drv)
  | MajorFunction.Cleanup => FileObjDispatch.cleanup (fileobj_rtns drv)
  | MajorFunction.Read => IoDispath.read (io_rtns drv)
  | MajorFunction.Write => IoDispath.write (io_rtns drv)
  | MajorFunction.DeviceControl => IoDispath.ioctl (io_rtns drv)
  end.

(** The routine called as its type says, and the status the I/O manager gets:
    the file object requests always report success. *)
Definition call_client (pfn : fnptr) (dev : WduDevice) (irp : WduIrp) : M (world U) NTSTATUS :=
  match WduIrp.mj irp with
  | MajorFunction.Create => c ← WduCreate.new irp; run_create pfn dev irp c ;; mret STATUS_SUCCESS
  | MajorFunction.Close | MajorFunction.Cleanup =>
      fo ← WduIrp.file_object irp; run_close_cleanup pfn dev irp fo ;; mret STATUS_SUCCESS
  | MajorFunction.Read | MajorFunction.Write =>
      r ← run_read_write pfn dev irp 0; mret r.2
  | MajorFunction.DeviceControl =>
      c ← WduDeviceControl.new irp; r ← run_ioctl pfn dev irp c; mret r.2
  end.

(** [device], with contents [o], is one the crate built, on a driver object
    whose extension is [drv]. *)
Record attached (device : ptr) (o : DEVICE_OBJECT) (dev : WduDevice) (drv : WduDriver) s : Prop := {
  at_object : device <> 0;
  at_mem : w_mem s !! device = Some (inj o);
  at_ext : DeviceExtension o <> 0;
  at_dev : w_mem s !! DeviceExtension o = Some (inj dev);
  at_self : WduDevice.device dev = device;
  at_driver : kresp (IoGetDriverObjectExtension (DriverObject o) id_addr) s <> 0;
  at_drv : w_mem s !! kresp (IoGetDriverObjectExtension (DriverObject o) id_addr) s = Some (inj drv)
}.

(** It stays attached as long as its blocks are what they are. *)
Lemma attached_frame `{!DriverExtensions} device (o : DEVICE_OBJECT) dev drv s s' :
  attached device o dev drv s ->
  ext_of (w_kernel s') (DriverObject o) id_addr = ext_of (w_kernel s) (DriverObject o) id_addr ->
  (forall a, a ∈ [device; DeviceExtension o; ext_of (w_kernel s) (DriverObject o) id_addr] ->
     w_mem s' !! a = w_mem s !! a) ->
  attached device o dev drv s'.
Proof.
  intros [H1 H2 H3 H4 H5 H6 H7] Hk Hm. unfold kresp in *. rewrite !get_ext in *. simpl in *.
  split; unfold kresp; rewrite ?get_ext; simpl; rewrite ?Hk, ?Hm; try done; set_solver.
Qed.

(** Everything before the routine runs only reads memory. *)
Lemma dispatch_prefix device p i st mj dev (d : DEVICE_OBJECT) drv s :
  dispatched p i st s -> MajorFunction_ st = major_code mj -> attached device d dev drv s ->
  WduDriver.dispatch_handler device p s =
    (if MajorFunction.is_fileobj mj
     then WduDriver.fo_dispatch drv dev (WduIrp.mk p mj None) ;; mret STATUS_SUCCESS
     else r ← WduDriver.io_dispatch drv dev (WduIrp.mk p mj None); mret r.2)
      (kafter (IoGetDriverObjectExtension (DriverObject d) id_addr) s).
Proof.
  intros Hd Hmj [Ho Hm He Hdev Hself Hdrv Hx]. unfold WduDriver.dispatch_handler.
  erewrite bind_done by by eapply wrap_done.
  rewrite (bind_done _ _ s dev s).
  2: { unfold WduDevice.get_wdu_device. erewrite bind_done by by apply load_at. by apply load_at. }
  rewrite (bind_done _ _ s (DriverObject d) s).
  2: { unfold WduDevice.get_driver. rewrite Hself. by erewrite bind_done by by apply load_at. }
  unfold WduDriver.get_wdu_driver. fold id_addr. unfold kcall_ at 1.
  erewrite bind_done by done. rewrite not_null by done.
  erewrite bind_done by by apply load_at. unfold WduIrp.is_fileobj, WduIrp.is_io. simpl.
  by destruct mj.
Qed.

(** C3: a request that reaches the crate's dispatch handler runs the client's
    routine for its major function, once, with the device the request was sent
    to, the request and its data, and the I/O manager gets the routine's
    status (success for the file object requests). Requests without a routine
    do nothing. *)
Theorem dispatch_runs_client device p i st mj dev (d : DEVICE_OBJECT) drv s :
  dispatched p i st s -> MajorFunction_ st = major_code mj -> attached device d dev drv s ->
  WduDriver.dispatch_handler device p s =
    (match client_rtn drv mj with
     | None => mret STATUS_SUCCESS
     | Some pfn => call_client pfn dev (WduIrp.mk p mj None)
     end) (kafter (IoGetDriverObjectExtension (DriverObject d) id_addr) s).
Proof.
  intros Hd Hmj Ha. rewrite (dispatch_prefix device p i st mj dev d drv s) by done.
  unfold WduDriver.fo_dispatch, WduDriver.io_dispatch, call_client.
  destruct (client_rtn drv mj) as [pfn|] eqn:E; destruct mj; simpl in *; rewrite E; simpl; try done;
    unfold mbind, M_bind; repeat case_match; congruence.
Qed.

(** A request the client registered no routine for is reported to the I/O
    manager as a success but never completed: the packet stays in memory as it
    was, and no completion call is made. *)
Theorem unrouted_request_never_completed device p i st mj dev (d : DEVICE_OBJECT) drv s :
  dispatched p i st s -> MajorFunction_ st = major_code mj -> attached device d dev drv s ->
  client_rtn drv mj = None ->
  wp (WduDriver.dispatch_handler device p) s (fun status s1 =>
    status = STATUS_SUCCESS /\ w_mem s1 = w_mem s /\
    forall q boost status' info, IofCompleteRequest q boost status' info ∈ calls s1 ->
      IofCompleteRequest q boost status' info ∈ calls s).
Proof.
  intros Hd Hmj Ha Hn. unfold wp. rewrite (dispatch_prefix device p i st mj dev d drv s) by done.
  unfold mbind, M_bind, WduDriver.fo_dispatch, WduDriver.io_dispatch.
  destruct mj; simpl in *; rewrite Hn; simpl; autorewrite with wdu;
    (split; [done|]); (split; [done|]); intros q bo st' inf [?|H]%elem_of_app; try done;
    by apply list_elem_of_singleton in H.
Qed.
End properties.

(** *** Clients by address *)

Section clients.
Context {KN : Kernel} {LK : Linked} {U : Type}.

(** A call through a pointer runs the routine that is there. *)
Definition at_code {A} (rtn : string) (pfn : fnptr) (body : M (world U) A) : M (world U) A :=
  if pfn =? code_addr rtn then body else ub (Dangling pfn).
Lemma at_code_self {A} rtn (body : M (world U) A) : at_code rtn (code_addr rtn) body = body.
Proof. unfold at_code. by rewrite Z.eqb_refl. Qed.
End clients.

(** The routines the entry point with the body [init] registers, for [begin_entry]. *)
Ltac entry_routines init tac :=
  match init with
  | context [WduDriver.unload _ ?unload] =>
    match init with
    | context [WduDriver.file_object _ ?fo] =>
      match init with
      | context [WduDriver.io _ ?io] => tac unload fo io
      end
    end
  end.

(** ** Instances *)

Module DriverDemo.
#[export] Instance build : Build := true.
#[export] Instance linked : Linked :=
  {| size_of_WduDevice := 24; size_of_WduDriver := 72; code_addr s := 0x7000 |}.
Abbreviation cells :=
  (DRIVER_OBJECT + (DRIVER_EXTENSION + (DEVICE_OBJECT + (IRP + (IO_STACK_LOCATION +
    (SECURITY_CONTEXT + (WduDevice + (WduDriver + (WduIrp + unit)))))))))%type.

(** A kernel whose driver object extensions are at 0xB00. *)
#[export] Instance kernel : Kernel := {|
  kstate := unit;
  kstep c k := (match c as c return kret c with
                | IoAllocateDriverObjectExtension _ _ _ => (STATUS_SUCCESS, 0xB00)
                | IoGetDriverObjectExtension _ _ => 0xB00
                | c => default_answer c
                end, k) |}.
#[export] Instance extensions : DriverExtensions.
Proof.
  refine {| ext_of _ _ _ := 0xB00 |}; [done|]. intros k k' d id sz p E. by injection E as <- _.
Defined.

(** A client whose routines complete the request. *)
Definition done_with (irp : WduIrp) : M (world cells) WduIrp :=
  WduIrp.complete irp WduIoStatus.success_no_info ;; mret irp.
#[export] Instance client : Client cells := {|
  run_add_device _ _ := mret STATUS_SUCCESS;
  run_unload _ d := kcall_ (IoDeleteDevice (driver d)) ;; mret tt;
  run_create _ _ irp _ := done_with irp;
  run_close_cleanup _ _ irp _ := done_with irp;
  run_read_write _ _ irp _ := irp ← done_with irp; mret (irp, STATUS_SUCCESS);
  run_ioctl _ _ irp _ := irp ← done_with irp; mret (irp, STATUS_PENDING)
|}.

Definition fo : FileObjDispatch := FileObjDispatch.create_irp FileObjDispatch.default 0x11.
Definition io : IoDispath := IoDispath.ioctl_irp IoDispath.default 0x22.
Definition object : DRIVER_OBJECT := mkDriverObject 0x900 0 None (replicate 28 None).
Definition before : world cells := World tt [] {[0x80 := inj object]}.

Definition drv : WduDriver := mkWduDriver true 0x80 None (Some 0x33) io fo.
Definition dev : WduDevice := WduDevice.wrap_device 0x900.
Definition device_object : DEVICE_OBJECT := mkDeviceObject 0xA00 0x80 0.
Definition close_stack : IO_STACK_LOCATION :=
  mkStack IRP_MJ_CLOSE 0 0x400 (mkCreateParams 0 0 0) (mkDeviceIoControlRaw 0 0 0 0).
Definition running (st : IO_STACK_LOCATION) : world cells :=
  World tt [] {[0x100 := inj IrpDemo.irp; 0x200 := inj st; 0x900 := inj device_object;
                0xA00 := inj dev; 0xB00 := inj drv]}.

Lemma request_arrives st : dispatched 0x100 IrpDemo.irp st (running st).
Proof. split; first [discriminate | simpl; lia | vm_compute; reflexivity]. Qed.
Lemma is_attached st : attached 0x900 device_object dev drv (running st).
Proof. split; first [discriminate | vm_compute; reflexivity]. Qed.
End DriverDemo.
#[local] Existing Instance DriverDemo.build.
#[local] Existing Instance DriverDemo.linked.
#[local] Existing Instance DriverDemo.kernel.
#[local] Existing Instance DriverDemo.client.
#[local] Existing Instance DriverDemo.extensions.

Lemma register_installs_witness :
  wp (register 0x80 0x33 DriverDemo.fo DriverDemo.io) DriverDemo.before (fun r _ =>
    r = Ok DriverDemo.drv).
Proof.
  eapply wp_mono.
  - apply (register_installs 0x80 0x33 DriverDemo.fo DriverDemo.io DriverDemo.object
      DriverDemo.before); [discriminate|vm_compute; reflexivity|reflexivity|].
    intros _. split; discriminate.
  - intros r s1 H. destruct r as [d|e]; [|by destruct H as [[] _]].
    destruct H as (_ & -> & _). reflexivity.
Defined.

Lemma registered_driver_unloads_witness :
  wp (register 0x80 0x33 DriverDemo.fo DriverDemo.io) DriverDemo.before (fun r s1 =>
    match r with
    | Err _ => True
    | Ok drv => WduDriver.driver_unload 0x80 s1 =
                  run_unload 0x33 drv (kafter (IoGetDriverObjectExtension 0x80 0x7000) s1)
    end).
Proof.
  eapply wp_mono.
  - apply (registered_driver_unloads 0x80 0x33 DriverDemo.fo DriverDemo.io DriverDemo.object
      DriverDemo.before); [discriminate|vm_compute; reflexivity].
  - intros r s1 H. exact H.
Defined.

Lemma dispatch_runs_client_witness :
  WduDriver.dispatch_handler 0x900 0x100 (DriverDemo.running IrpDemo.stack) =
    call_client 0x22 DriverDemo.dev (WduIrp.mk 0x100 MajorFunction.DeviceControl None)
      (kafter (IoGetDriverObjectExtension 0x80 0x7000) (DriverDemo.running IrpDemo.stack)).
Proof.
  exact (dispatch_runs_client 0x900 0x100 IrpDemo.irp IrpDemo.stack MajorFunction.DeviceControl
    DriverDemo.dev DriverDemo.device_object DriverDemo.drv (DriverDemo.running IrpDemo.stack)
    (DriverDemo.request_arrives _) eq_refl (DriverDemo.is_attached _)).
Defined.

Lemma unrouted_request_never_completed_witness :
  wp (WduDriver.dispatch_handler 0x900 0x100) (DriverDemo.running DriverDemo.close_stack)
    (fun status s1 => status = STATUS_SUCCESS /\ w_mem s1 !! 0x100 = Some (inj IrpDemo.irp)).
Proof.
  eapply wp_mono.
  - apply (unrouted_request_never_completed 0x900 0x100 IrpDemo.irp DriverDemo.close_stack
      MajorFunction.Close DriverDemo.dev DriverDemo.device_object DriverDemo.drv);
      [apply DriverDemo.request_arrives|reflexivity|apply DriverDemo.is_attached|reflexivity].
  - intros st s1 (-> & -> & _). split; [reflexivity|]. vm_compute. reflexivity.
Defined.
