(* ===== verification/Interleave.v ===== *)
(** * Interleave: threads that take and give back one lock

    A lock's operations are lists of atomic actions.  [exec] says what an
    action does when thread [t] runs it: nothing yet (it waits), the end of the
    thread (a panic, or a call or store that the documentation of what it calls
    does not allow), or a change of the shared state and of the thread's own.  A thread takes the
    lock in a mode, is inside for as long as it likes, and gives it back; one
    step of the system is one action of one thread. *)

From stdpp Require Import relations.
From S2P Require Import Prelude.

Inductive effect (SH LO : Type) : Type :=
| Waits
| Panics
| Runs (sh : SH) (lo : LO).
Arguments Waits {SH LO}.
Arguments Panics {SH LO}.
Arguments Runs {SH LO} sh lo.

Inductive phase (A Md : Type) : Type :=
| Outside
| Acquiring (m : Md) (todo : list A)
| Inside (m : Md)
| Releasing (m : Md) (todo : list A)
| Crashed.
Arguments Outside {A Md}.
Arguments Acquiring {A Md} m todo.
Arguments Inside {A Md} m.
Arguments Releasing {A Md} m todo.
Arguments Crashed {A Md}.

Section system.
Context {A Md SH LO : Type}.
Context (exec : nat -> A -> SH -> LO -> effect SH LO) (acq rel : nat -> Md -> list A).

Record state : Type := mkState {
  shared : SH;
  phases : nat -> phase A Md;
  locals : nat -> LO
}.

Definition upd {X} (t : nat) (x : X) (f : nat -> X) : nat -> X :=
  fun u => if decide (u = t) then x else f u.

Lemma upd_eq {X} t (x : X) f : upd t x f t = x.
Proof. unfold upd. by rewrite decide_True. Qed.
Lemma upd_ne {X} t u (x : X) f : u <> t -> upd t x f u = f u.
Proof. intros. unfold upd. by rewrite decide_False. Qed.

(** One step of thread [t]; [m] is the mode it asks for if it is outside. *)
Definition advance (t : nat) (m : Md) (s : state) : option state :=
  match phases s t with
  | Outside => Some (mkState (shared s) (upd t (Acquiring m (acq t m)) (phases s)) (locals s))
  | Acquiring m [] => Some (mkState (shared s) (upd t (Inside m) (phases s)) (locals s))
  | Acquiring m (a :: todo) =>
      match exec t a (shared s) (locals s t) with
      | Waits => None
      | Panics => Some (mkState (shared s) (upd t Crashed (phases s)) (locals s))
      | Runs sh lo =>
          Some (mkState sh (upd t (Acquiring m todo) (phases s)) (upd t lo (locals s)))
      end
  | Inside m => Some (mkState (shared s) (upd t (Releasing m (rel t m)) (phases s)) (locals s))
  | Releasing m [] => Some (mkState (shared s) (upd t Outside (phases s)) (locals s))
  | Releasing m (a :: todo) =>
      match exec t a (shared s) (locals s t) with
      | Waits => None
      | Panics => Some (mkState (shared s) (upd t Crashed (phases s)) (locals s))
      | Runs sh lo =>
          Some (mkState sh (upd t (Releasing m todo) (phases s)) (upd t lo (locals s)))
      end
  | Crashed => None
  end.

Definition step (s s' : state) : Prop := exists t m, advance t m s = Some s'.

Definition start (sh : SH) (lo : nat -> LO) : state := mkState sh (fun _ => Outside) lo.

Definition reachable (s0 s : state) : Prop := rtc step s0 s.

(** A schedule: which thread moves, asking for which mode. *)
Fixpoint run (sched : list (nat * Md)) (s : state) : option state :=
  match sched with
  | [] => Some s
  | (t, m) :: sched => advance t m s ≫= run sched
  end.

Lemma run_reachable sched s s' : run sched s = Some s' -> reachable s s'.
Proof.
  revert s. induction sched as [|[t m] sched IH]; intros s H; simpl in H.
  - injection H as <-. apply rtc_refl.
  - destruct (advance t m s) as [s1|] eqn:E; [|done]. simpl in H.
    eapply rtc_l; [by exists t, m|by apply IH].
Qed.

(** Where a schedule ends, and that it can be run to its end. *)
Definition ends (sched : list (nat * Md)) (s : state) : state := default s (run sched s).

Lemma ends_reachable sched s : is_Some (run sched s) -> reachable s (ends sched s).
Proof. intros [s' E]. unfold ends. rewrite E. by eapply run_reachable. Qed.

Lemma reachable_inv (I : state -> Prop) s0 s :
  I s0 -> (forall s s', I s -> step s s' -> I s') -> reachable s0 s -> I s.
Proof. intros H0 Hs Hr. induction Hr; eauto. Qed.
(** *** Coming to an end

    Once no thread asks for the lock again, the threads that have asked, or
    are inside, get out: no schedule goes on for ever, and none gets stuck. *)

Definition busy (p : phase A Md) : bool :=
  match p with Outside | Crashed => false | _ => true end.

(** A step that is not a new request. *)
Definition closing (s s' : state) : Prop :=
  exists t m, busy (phases s t) = true /\ advance t m s = Some s'.

(** A thread that can go on. *)
Definition ready (t : nat) (s : state) : Prop :=
  busy (phases s t) = true /\ exists m, is_Some (advance t m s).

(** How many steps a thread is from being outside. *)
Definition work (t : nat) (p : phase A Md) : nat :=
  match p with
  | Outside | Crashed => 0
  | Acquiring m todo => length todo + length (rel t m) + 3
  | Inside m => length (rel t m) + 2
  | Releasing _ todo => S (length todo)
  end.
Definition total (ts : list nat) (s : state) : nat := sum_list_with (fun t => work t (phases s t)) ts.

(** [ts] are the threads that may be busy. *)
Definition covers (ts : list nat) (s : state) : Prop :=
  NoDup ts /\ forall t, busy (phases s t) = true -> t ∈ ts.

Lemma advance_others t m s s' u : advance t m s = Some s' -> u <> t -> phases s' u = phases s u.
Proof.
  unfold advance. intros E Hu. destruct (phases s t) as [|? [|a l]|?|? [|a l]|]; simplify_eq/=;
    try destruct (exec t a (shared s) (locals s t)); simplify_eq/=; by rewrite ?upd_ne.
Qed.

Lemma advance_work t m s s' :
  busy (phases s t) = true -> advance t m s = Some s' -> (work t (phases s' t) < work t (phases s t))%nat.
Proof.
  unfold advance. intros Hb E. destruct (phases s t) as [|? [|a l]|?|? [|a l]|]; simplify_eq/=;
    try destruct (exec t a (shared s) (locals s t)); simplify_eq/=; rewrite upd_eq; simpl; lia.
Qed.

Lemma total_ext ts s s' : (forall t, t ∈ ts -> phases s' t = phases s t) -> total ts s' = total ts s.
Proof.
  intros H. unfold total. induction ts as [|t ts IH]; [done|]. simpl.
  rewrite H by by left. f_equal. apply IH. intros u Hu. apply H. by right.
Qed.

Lemma closing_total ts s s' :
  covers ts s -> closing s s' -> (total ts s' < total ts s)%nat /\ covers ts s'.
Proof.
  intros [Hnd Hts] (t & m & Hb & E). pose proof (Hts t Hb) as Ht. split.
  - apply list_elem_of_split in Ht as (l1 & l2 & ->). pose proof (advance_work _ _ _ _ Hb E) as Hw.
    apply NoDup_app in Hnd as (_ & Hd & Hnd2). apply NoDup_cons in Hnd2 as [Hn _].
    unfold total. rewrite !sum_list_with_app. simpl.
    pose proof (total_ext l1 s s') as H1. pose proof (total_ext l2 s s') as H2. unfold total in H1, H2.
    rewrite H1, H2; [lia|..]; intros u Hu; eapply advance_others; try done; intros ->; [done|].
    eapply Hd; [done|by left].
  - split; [done|]. intros u Hu. destruct (decide (u = t)) as [->|Hne]; [done|].
    apply Hts. by rewrite <- (advance_others _ _ _ _ _ E Hne).
Qed.

Lemma closing_sn ts s : covers ts s -> sn closing s.
Proof.
  remember (total ts s) as n eqn:Hn. revert s Hn. induction (lt_wf n) as [n _ IH]. intros s -> Hc.
  constructor. intros s' Hs. destruct (closing_total _ _ _ Hc Hs). by eapply IH.
Qed.

(** Only finitely many threads have asked, at any time. *)
Lemma reachable_covers sh lo s : reachable (start sh lo) s -> exists ts, covers ts s.
Proof.
  apply (reachable_inv (fun s => exists ts, covers ts s)).
  - exists []. split; [constructor|done].
  - intros s1 s2 (ts & Hnd & Hts) (t & m & E). exists (remove_dups (t :: ts)).
    split; [apply NoDup_remove_dups|]. intros u Hu. apply elem_of_remove_dups.
    destruct (decide (u = t)) as [->|Hne]; [by left|]. right. apply Hts.
    by rewrite <- (advance_others _ _ _ _ _ E Hne).
Qed.

Lemma closing_step s s' : closing s s' -> step s s'.
Proof. intros (t & m & _ & E). by exists t, m. Qed.

(** What a lock promises: an invariant of its threads, under which nobody
    crashes, and who waits, waits for a thread that can go on. *)
Class Progressive (I : state -> Prop) : Prop := {
  progressive_step s s' : I s -> step s s' -> I s';
  progressive_crash s t : I s -> phases s t <> Crashed;
  progressive_waits s t m a todo :
    I s -> phases s t = Acquiring m (a :: todo) \/ phases s t = Releasing m (a :: todo) ->
    exec t a (shared s) (locals s t) = Waits -> exists u, ready u s
}.

Lemma progressive_ready I `{!Progressive I} s t : I s -> busy (phases s t) = true -> exists u, ready u s.
Proof.
  intros HI Hb. destruct (phases s t) as [|m todo|m|m todo|] eqn:Ph; try done.
  - destruct todo as [|a todo].
    + exists t. split; [by rewrite Ph|]. exists m. unfold advance. rewrite Ph. by eexists.
    + destruct (exec t a (shared s) (locals s t)) eqn:E; [by eapply progressive_waits; [|left|]|..];
        (exists t; split; [by rewrite Ph|]; exists m; unfold advance; rewrite Ph, E; by eexists).
  - exists t. split; [by rewrite Ph|]. exists m. unfold advance. rewrite Ph. by eexists.
  - destruct todo as [|a todo].
    + exists t. split; [by rewrite Ph|]. exists m. unfold advance. rewrite Ph. by eexists.
    + destruct (exec t a (shared s) (locals s t)) eqn:E; [by eapply progressive_waits; [|right|]|..];
        (exists t; split; [by rewrite Ph|]; exists m; unfold advance; rewrite Ph, E; by eexists).
Qed.

(** What the invariant says of a state where everybody is outside holds at the
    end. *)
Lemma quiesces_with I `{!Progressive I} (P : state -> Prop) sh lo s :
  I (start sh lo) -> reachable (start sh lo) s ->
  (forall s', I s' -> (forall t, phases s' t = Outside) -> P s') ->
  sn closing s /\ forall s', rtc closing s s' -> nf closing s' -> (forall t, phases s' t = Outside) /\ P s'.
Proof.
  intros H0 Hr HP. destruct (reachable_covers _ _ _ Hr) as (ts & Hts). split; [by eapply closing_sn|].
  intros s' Hc Hnf.
  assert (HI : I s').
  { apply (reachable_inv I (start sh lo)); [exact H0|apply progressive_step|].
    unfold reachable in *. etrans; [exact Hr|]. eapply rtc_subrel; [|exact Hc]. intros x y. apply closing_step. }
  enough (Ho : forall t, phases s' t = Outside) by (split; [done|by apply HP]). intros t.
  destruct (busy (phases s' t)) eqn:Hb.
  - destruct (progressive_ready I s' t HI Hb) as (u & Hu & m & s'' & E). destruct Hnf. exists s''. by exists u, m.
  - pose proof (progressive_crash s' t HI). by destruct (phases s' t).
Qed.
End system.
Arguments upd : simpl never.
Arguments state : clear implicits.

(** Splits what one thread's step can be. *)
Ltac step_cases :=
  match goal with
  | H : step _ _ _ ?s ?s' |- _ =>
      let t := fresh "t" in let m := fresh "m" in let E := fresh "E" in let Ph := fresh "Ph" in
      destruct H as (t & m & E); unfold advance in E;
      destruct (phases s t) as [|? [|? ?]|?|? [|? ?]|] eqn:Ph; simplify_eq/=
  end.
