(* ===== verification/LockApi.v ===== *)
(** * LockApi: the traits of [lock_api] that the crate's locks implement

    [lock_api] is another crate: its [Mutex] and [RwLock] call these methods
    of the raw lock they contain.  The lock is at the second argument; the
    first is where the method keeps its parameter, for the implementations
    that take its address. *)

From S2P Require Import Prelude Nt World.

(** [lock_api::RawMutex], implemented by [R]. *)
Class RawMutex {KN : Kernel} (U R : Type) : Type := {
  mutex_INIT : R;
  mutex_lock : ptr -> ptr -> M (world U) unit;
  mutex_try_lock : ptr -> ptr -> M (world U) bool;
  mutex_unlock : ptr -> ptr -> M (world U) unit
}.
Arguments mutex_INIT {KN U} R {_}.
Arguments mutex_lock {KN U} R {_}.
Arguments mutex_try_lock {KN U} R {_}.
Arguments mutex_unlock {KN U} R {_}.

(** [lock_api::RawRwLock] *)
Class RawRwLock {KN : Kernel} (U R : Type) : Type := {
  rw_INIT : R;
  rw_lock_shared : ptr -> ptr -> M (world U) unit;
  rw_try_lock_shared : ptr -> ptr -> M (world U) bool;
  rw_unlock_shared : ptr -> ptr -> M (world U) unit;
  rw_lock_exclusive : ptr -> ptr -> M (world U) unit;
  rw_try_lock_exclusive : ptr -> ptr -> M (world U) bool;
  rw_unlock_exclusive : ptr -> ptr -> M (world U) unit
}.
Arguments rw_INIT {KN U} R {_}.
Arguments rw_lock_shared {KN U} R {_}.
Arguments rw_try_lock_shared {KN U} R {_}.
Arguments rw_unlock_shared {KN U} R {_}.
Arguments rw_lock_exclusive {KN U} R {_}.
Arguments rw_try_lock_exclusive {KN U} R {_}.
Arguments rw_unlock_exclusive {KN U} R {_}.
