(* ===== verification/SpinLock.v ===== *)
(** * SpinLock: spin locks, [sync/spinlock.rs]

    Each operation is the list of its atomic actions, with [old_irql] and the
    lock handle as they are in the code: members of the lock that all threads
    share.  The list is run by one thread on the world ([exec_all], the code
    as a function), and interleaved with the lists of other threads. *)

From S2P Require Import Prelude Nt World Crate Interleave LockApi.

(** A newtype of [KLOCK_QUEUE_HANDLE], whose bytes are the kernel's; [inner]
    and [inner_mut] are its own address. *)
Module LockHandle.
Record LockHandle : Type := mk { zeroed : bool }.
Definition default : LockHandle := {| zeroed := true |}.
Definition inner (self : ptr) : ptr := self.
Definition inner_mut (self : ptr) : ptr := self.
End LockHandle.

Module WduSpinLock.
(** [Option<LockHandle>]: whether there is one; its bytes are the kernel's. *)
Record WduSpinLock : Type := mk {
  old_irql : Z;
  spinlock : Z;
  lockhandle : bool
}.

Definition const_new : WduSpinLock := {| old_irql := 0; spinlock := 0; lockhandle := false |}.
Definition new : WduSpinLock := {| old_irql := 0; spinlock := 0; lockhandle := false |}.
Definition default : WduSpinLock := new.

Inductive action : Type :=
(* [debug_assert!] on the current IRQL and on the handle *)
| AssertIrqlLe | AssertIrqlEq | AssertIrqlGe | AssertNoHandle | AssertHandle
(* [KeAcquireSpinLockRaiseToDpc], [KeAcquireSpinLockForDpc], and the store of what they return *)
| RaiseToDpc | AcquireForDpc | SaveIrql
(* the load of [old_irql], [KeReleaseSpinLock], [KeReleaseSpinLockForDpc] *)
| ReadIrql | ReleaseTo | ReleaseForDpc
(* [KeAcquireSpinLockAtDpcLevel], [KeReleaseSpinLockFromDpcLevel] *)
| AtDpc | FromDpc
(* [lockhandle = Some(default)]; [KeAcquireInStackQueuedSpinLock] enters the
   queue through the handle, then waits for its turn *)
| NewHandle | EnterQueue | AwaitTurn
(* [KeReleaseInStackQueuedSpinLock]; [lockhandle = None] *)
| ReleaseHandle | ClearHandle.

Definition acquire_code : list action := [AssertIrqlLe; RaiseToDpc; SaveIrql].
Definition release_code : list action := [AssertIrqlEq; ReadIrql; ReleaseTo].
Definition acquire_at_dpc_code : list action := [AssertIrqlGe; AtDpc].
Definition release_from_dpc_code : list action := [AssertIrqlGe; FromDpc].
Definition acquire_in_stack_code : list action :=
  [AssertIrqlLe; AssertNoHandle; NewHandle; EnterQueue; AwaitTurn].
Definition release_in_stack_code : list action := [AssertHandle; ReleaseHandle; ClearHandle].
Definition acquire_for_dpc_code : list action := [AssertIrqlLe; AcquireForDpc; SaveIrql].
Definition release_for_dpc_code : list action := [AssertIrqlEq; ReadIrql; ReleaseForDpc].

Section Ops.
Context {KN : Kernel} {B : Build} {U : Type} `{!Storable U WduSpinLock}.

Definition set_old_irql (irql : Z) (l : WduSpinLock) : WduSpinLock :=
  mk irql (spinlock l) (lockhandle l).
Definition set_handle (h : bool) (l : WduSpinLock) : WduSpinLock := mk (old_irql l) (spinlock l) h.

(** The lock is at [self]; its address stands for those of its members.
    [reg] is the thread's temporary. *)
Definition exec (self : ptr) (a : action) (reg : Z) : M (world U) Z :=
  match a with
  | AssertIrqlLe =>
      debug_assert (irql ← current_irql; mret (irql <=? u8 DISPATCH_LEVEL))
        "assertion failed: current_irql() <= DISPATCH_LEVEL as u8" ;; mret reg
  | AssertIrqlEq =>
      debug_assert (irql ← current_irql; mret (irql =? u8 DISPATCH_LEVEL))
        "assertion failed: current_irql() == DISPATCH_LEVEL as u8" ;; mret reg
  | AssertIrqlGe =>
      debug_assert (irql ← current_irql; mret (u8 DISPATCH_LEVEL <=? irql))
        "assertion failed: current_irql() >= DISPATCH_LEVEL as u8" ;; mret reg
  | AssertNoHandle =>
      debug_assert (l ← load (T := WduSpinLock) self; mret (negb (lockhandle l)))
        "assertion failed: self.lockhandle.is_none()" ;; mret reg
  | AssertHandle =>
      debug_assert (l ← load (T := WduSpinLock) self; mret (lockhandle l))
        "assertion failed: self.lockhandle.is_some()" ;; mret reg
  | RaiseToDpc => kcall_ (KeAcquireSpinLockRaiseToDpc self)
  | AcquireForDpc => kcall_ (KeAcquireSpinLockForDpc self)
  | SaveIrql => update self (set_old_irql reg) ;; mret reg
  | ReadIrql => l ← load (T := WduSpinLock) self; mret (old_irql l)
  | ReleaseTo => kcall_ (KeReleaseSpinLock self reg) ;; mret reg
  | ReleaseForDpc => kcall_ (KeReleaseSpinLockForDpc self reg) ;; mret reg
  | AtDpc => kcall_ (KeAcquireSpinLockAtDpcLevel self) ;; mret reg
  | FromDpc => kcall_ (KeReleaseSpinLockFromDpcLevel self) ;; mret reg
  | NewHandle => update self (set_handle true) ;; mret reg
  | EnterQueue =>
      l ← load (T := WduSpinLock) self;
      assert_ (lockhandle l) "called `Option::unwrap()` on a `None` value" ;;
      kcall_ (KeAcquireInStackQueuedSpinLock self self) ;; mret reg
  | AwaitTurn => mret reg
  | ReleaseHandle =>
      l ← load (T := WduSpinLock) self;
      assert_ (lockhandle l) "called `Option::unwrap()` on a `None` value" ;;
      kcall_ (KeReleaseInStackQueuedSpinLock self) ;; mret reg
  | ClearHandle => update self (set_handle false) ;; mret reg
  end.

Fixpoint exec_all (self : ptr) (code : list action) (reg : Z) : M (world U) unit :=
  match code with
  | [] => mret tt
  | a :: code => reg ← exec self a reg; exec_all self code reg
  end.

Definition init (self : ptr) : M (world U) unit := kcall_ (KeInitializeSpinLock self).
Definition acquire (self : ptr) : M (world U) unit := exec_all self acquire_code 0.
Definition release (self : ptr) : M (world U) unit := exec_all self release_code 0.
Definition acquire_at_dpc (self : ptr) : M (world U) unit := exec_all self acquire_at_dpc_code 0.
Definition release_from_dpc (self : ptr) : M (world U) unit := exec_all self release_from_dpc_code 0.
Definition acquire_in_stack (self : ptr) : M (world U) unit := exec_all self acquire_in_stack_code 0.
Definition release_in_stack (self : ptr) : M (world U) unit := exec_all self release_in_stack_code 0.
Definition acquire_for_dpc (self : ptr) : M (world U) unit := exec_all self acquire_for_dpc_code 0.
Definition release_for_dpc (self : ptr) : M (world U) unit := exec_all self release_for_dpc_code 0.
End Ops.
End WduSpinLock.
Import WduSpinLock (WduSpinLock).

(** ** [lock_api]: the three raw mutexes

    Each is a tuple struct of a [WduSpinLock]; [as_mut_ptr] is the address of
    its member, which is its own. *)

Module SpinLock.
Record SpinLock : Type := mk { lock_member : WduSpinLock }.
Definition INIT : SpinLock := {| lock_member := WduSpinLock.const_new |}.
(** [Deref], [DerefMut] *)
Definition deref (self : ptr) : ptr := self.
Definition deref_mut (self : ptr) : ptr := self.

Section Ops.
Context {KN : Kernel} {B : Build} {U : Type} `{!Storable U WduSpinLock}.
Definition as_mut_ptr (self : ptr) : ptr := self.
Definition init_lock (self : ptr) : M (world U) unit := WduSpinLock.init (as_mut_ptr self).
Definition lock (self : ptr) : M (world U) unit := WduSpinLock.acquire (as_mut_ptr self).
Definition unlock (self : ptr) : M (world U) unit := WduSpinLock.release (as_mut_ptr self).
Definition try_lock (self : ptr) : M (world U) bool := panic "not implemented".

#[global] Instance raw_mutex : RawMutex U SpinLock := {|
  mutex_INIT := INIT;
  mutex_lock _ := lock;
  mutex_try_lock _ := try_lock;
  mutex_unlock _ := unlock
|}.
End Ops.
End SpinLock.

Module StackSpinLock.
Record StackSpinLock : Type := mk { lock_member : WduSpinLock }.
Definition INIT : StackSpinLock := {| lock_member := WduSpinLock.const_new |}.
(** [Deref], [DerefMut] *)
Definition deref (self : ptr) : ptr := self.
Definition deref_mut (self : ptr) : ptr := self.

Section Ops.
Context {KN : Kernel} {B : Build} {U : Type} `{!Storable U WduSpinLock}.
Definition as_mut_ptr (self : ptr) : ptr := self.
Definition init_lock (self : ptr) : M (world U) unit := WduSpinLock.init (as_mut_ptr self).
Definition lock_stack (self : ptr) : M (world U) unit :=
  WduSpinLock.acquire_in_stack (as_mut_ptr self).
Definition unlock_stack (self : ptr) : M (world U) unit :=
  WduSpinLock.release_in_stack (as_mut_ptr self).
Definition try_lock (self : ptr) : M (world U) bool := panic "not implemented".

#[global] Instance raw_mutex : RawMutex U StackSpinLock := {|
  mutex_INIT := INIT;
  mutex_lock _ := lock_stack;
  mutex_try_lock _ := try_lock;
  mutex_unlock _ := unlock_stack
|}.
End Ops.
End StackSpinLock.

Module DpcSpinLock.
Record DpcSpinLock : Type := mk { lock_member : WduSpinLock }.
Definition INIT : DpcSpinLock := {| lock_member := WduSpinLock.const_new |}.
(** [Deref], [DerefMut] *)
Definition deref (self : ptr) : ptr := self.
Definition deref_mut (self : ptr) : ptr := self.

Section Ops.
Context {KN : Kernel} {B : Build} {U : Type} `{!Storable U WduSpinLock}.
Definition as_mut_ptr (self : ptr) : ptr := self.
Definition init_lock (self : ptr) : M (world U) unit := WduSpinLock.init (as_mut_ptr self).
Definition lock_at_dpc (self : ptr) : M (world U) unit :=
  WduSpinLock.acquire_at_dpc (as_mut_ptr self).
Definition unlock_at_dpc (self : ptr) : M (world U) unit :=
  WduSpinLock.release_from_dpc (as_mut_ptr self).
Definition try_lock (self : ptr) : M (world U) bool := panic "not implemented".

#[global] Instance raw_mutex : RawMutex U DpcSpinLock := {|
  mutex_INIT := INIT;
  mutex_lock _ := lock_at_dpc;
  mutex_try_lock _ := try_lock;
  mutex_unlock _ := unlock_at_dpc
|}.
End Ops.
End DpcSpinLock.

(** ** Many threads *)

(** What the threads share: who holds the kernel's lock, and the lock's own
    members; of the handle, whether it is there, and while it is the kernel's,
    the thread it was given for and the IRQL that is kept in it. *)
Record shared_lock : Type := mkShared {
  owner : option nat;
  saved : Z;
  handle : bool;
  queued : option (nat * Z)
}.

(** Of a thread: its IRQL, and the temporary. *)
Record cpu : Type := mkCpu { irql : Z; reg : Z }.

(** Which pair of operations a thread uses. *)
Inductive usage : Type := Raise | ForDpc | AtDpcLevel | InStack.

#[export] Instance usage_eq_dec : EqDecision usage.
Proof. solve_decision. Defined.

Definition acquire_of (u : usage) : list WduSpinLock.action :=
  match u with
  | Raise => WduSpinLock.acquire_code
  | ForDpc => WduSpinLock.acquire_for_dpc_code
  | AtDpcLevel => WduSpinLock.acquire_at_dpc_code
  | InStack => WduSpinLock.acquire_in_stack_code
  end.
Definition release_of (u : usage) : list WduSpinLock.action :=
  match u with
  | Raise => WduSpinLock.release_code
  | ForDpc => WduSpinLock.release_for_dpc_code
  | AtDpcLevel => WduSpinLock.release_from_dpc_code
  | InStack => WduSpinLock.release_in_stack_code
  end.

(** The effect of an action on what is shared: the kernel's routines as they
    are documented. [dbg] says whether debug assertions are compiled in.

    A queue handle belongs to the kernel from the call that acquires the lock
    with it until the call that releases it; the documentation asks for one
    handle for each acquire. What the kernel makes of a handle that is
    overwritten, or given to it again, before that is not documented: such an
    action is the end of its thread ([Panics]), as a panic is. *)
Definition act (dbg : bool) (t : nat) (a : WduSpinLock.action) (sh : shared_lock) (c : cpu)
    : effect shared_lock cpu :=
  let check (b : bool) := if dbg && negb b then Panics else Runs sh c in
  match a with
  | WduSpinLock.AssertIrqlLe => check (irql c <=? DISPATCH_LEVEL)
  | WduSpinLock.AssertIrqlEq => check (irql c =? DISPATCH_LEVEL)
  | WduSpinLock.AssertIrqlGe => check (DISPATCH_LEVEL <=? irql c)
  | WduSpinLock.AssertNoHandle => check (negb (handle sh))
  | WduSpinLock.AssertHandle => check (handle sh)
  | WduSpinLock.RaiseToDpc | WduSpinLock.AcquireForDpc =>
      if owner sh is Some _ then Waits
      else Runs (mkShared (Some t) (saved sh) (handle sh) (queued sh))
                (mkCpu DISPATCH_LEVEL (irql c))
  | WduSpinLock.SaveIrql => Runs (mkShared (owner sh) (reg c) (handle sh) (queued sh)) c
  | WduSpinLock.ReadIrql => Runs sh (mkCpu (irql c) (saved sh))
  | WduSpinLock.ReleaseTo | WduSpinLock.ReleaseForDpc =>
      Runs (mkShared None (saved sh) (handle sh) (queued sh)) (mkCpu (reg c) (reg c))
  | WduSpinLock.AtDpc =>
      if owner sh is Some _ then Waits
      else Runs (mkShared (Some t) (saved sh) (handle sh) (queued sh)) c
  | WduSpinLock.FromDpc => Runs (mkShared None (saved sh) (handle sh) (queued sh)) c
  | WduSpinLock.NewHandle =>
      if queued sh is Some _ then Panics else Runs (mkShared (owner sh) (saved sh) true None) c
  | WduSpinLock.EnterQueue =>
      if handle sh then
        if queued sh is Some _ then Panics
        else Runs (mkShared (owner sh) (saved sh) true (Some (t, irql c))) (mkCpu DISPATCH_LEVEL (reg c))
      else Panics
  | WduSpinLock.AwaitTurn =>
      if owner sh is Some _ then Waits
      else Runs (mkShared (Some t) (saved sh) (handle sh) (queued sh)) c
  | WduSpinLock.ReleaseHandle =>
      match queued sh with
      | Some (u, i) =>
          if handle sh && bool_decide (u = t)
          then Runs (mkShared None (saved sh) true None) (mkCpu i (reg c)) else Panics
      | None => Panics
      end
  | WduSpinLock.ClearHandle => Runs (mkShared (owner sh) (saved sh) false (queued sh)) c
  end.

Section threads.
Context (dbg : bool) (uses : nat -> usage) (base : nat -> Z).
Local Abbreviation sys := (state WduSpinLock.action unit shared_lock cpu).

Definition lock_step : sys -> sys -> Prop :=
  step (act dbg) (fun t _ => acquire_of (uses t)) (fun t _ => release_of (uses t)).
Definition lock_start : sys := start (mkShared None 0 false None) (fun t => mkCpu (base t) 0).
Definition lock_ends (sched : list nat) : sys :=
  ends (act dbg) (fun t _ => acquire_of (uses t)) (fun t _ => release_of (uses t))
    ((fun t => (t, tt)) <$> sched) lock_start.
End threads.

(** ** Properties *)

Section exclusion.
Context (dbg : bool) (uses : nat -> usage) (base : nat -> Z).

(** A client of the lock: every thread starts at or below DISPATCH_LEVEL, the
    threads of the AtDpcLevel pair at it; nobody uses the queued operations. *)
Definition well_used : Prop := forall t,
  base t <= DISPATCH_LEVEL /\ uses t <> InStack /\ (uses t = AtDpcLevel -> base t = DISPATCH_LEVEL).

Definition holding (t : nat) (sh : shared_lock) (c : cpu) : Prop :=
  owner sh = Some t /\ irql c = DISPATCH_LEVEL /\ (uses t <> AtDpcLevel -> saved sh = base t).
Definition away (t : nat) (sh : shared_lock) (c : cpu) : Prop :=
  owner sh <> Some t /\ irql c = base t.
(** Between the kernel's routine and the store of what it returned, or
    between the load and the kernel's routine. *)
Definition carrying (t : nat) (sh : shared_lock) (c : cpu) : Prop :=
  owner sh = Some t /\ irql c = DISPATCH_LEVEL /\ reg c = base t /\ uses t <> AtDpcLevel.

Definition thread_inv (t : nat) (sh : shared_lock) (c : cpu) (p : phase WduSpinLock.action unit)
    : Prop :=
  match p with
  | Outside => away t sh c
  | Inside _ => holding t sh c
  | Acquiring _ todo =>
      ((todo = acquire_of (uses t) \/ todo = tail (acquire_of (uses t))) /\ away t sh c) \/
      (todo = [WduSpinLock.SaveIrql] /\ carrying t sh c) \/ (todo = [] /\ holding t sh c)
  | Releasing _ todo =>
      ((todo = release_of (uses t) \/ todo = tail (release_of (uses t))) /\ holding t sh c) \/
      (todo = tail (tail (release_of (uses t))) /\ carrying t sh c) \/ (todo = [] /\ away t sh c)
  | Crashed => False
  end.

Definition lock_inv (s : state WduSpinLock.action unit shared_lock cpu) : Prop :=
  forall t, thread_inv t (shared s) (locals s t) (phases s t).

(** What the other threads need of a step. *)
Lemma thread_inv_frame t sh sh' c p :
  (owner sh' = Some t <-> owner sh = Some t) -> (owner sh = Some t -> saved sh' = saved sh) ->
  thread_inv t sh c p -> thread_inv t sh' c p.
Proof.
  intros Ho Hs. unfold thread_inv, holding, away, carrying. destruct p; intuition congruence.
Qed.

Lemma lock_inv_start : well_used -> lock_inv (lock_start base).
Proof. intros _ t. by split. Qed.

(** What a step of [t] leaves of the lock to the others. *)
Definition frame (t : nat) (sh sh' : shared_lock) : Prop := forall u, u <> t ->
  (owner sh' = Some u <-> owner sh = Some u) /\ (owner sh = Some u -> saved sh' = saved sh).

(** A step of [t] itself: cases of its code, the checks decided by its IRQL. *)
Ltac solve_act :=
  repeat match goal with
  | H : _ /\ _ |- _ => destruct H
  | H : _ :: _ = _ |- _ => progress simplify_eq/=
  | |- context [if ?d && negb ?b then _ else _] =>
      replace b with true
        by (symmetry; first [apply Z.leb_le | apply Z.eqb_eq]; unfold DISPATCH_LEVEL in *; intuition lia);
      rewrite andb_false_r
  | |- context [match ?o with Some _ => Waits | None => _ end] => destruct o eqn:?
  end; simpl; try done;
  try (split; [|intros ?u ?Hu; simpl]); try (intuition congruence).

Lemma act_acquire t a todo sh c :
  well_used -> thread_inv t sh c (Acquiring tt (a :: todo)) ->
  match act dbg t a sh c with
  | Waits => True
  | Panics => False
  | Runs sh' c' => thread_inv t sh' c' (Acquiring tt todo) /\ frame t sh sh'
  end.
Proof.
  intros Hw. destruct (Hw t) as (Hle & Hns & Hat). simpl.
  unfold frame, away, holding, carrying. destruct (uses t) eqn:Eu; simpl; try done;
    unfold WduSpinLock.acquire_code, WduSpinLock.acquire_for_dpc_code,
      WduSpinLock.acquire_at_dpc_code;
    intros [[[H|H] Haway]|[[H Hc]|[H _]]]; simplify_eq/=; solve_act.
Qed.

Lemma act_release t a todo sh c :
  well_used -> thread_inv t sh c (Releasing tt (a :: todo)) ->
  match act dbg t a sh c with
  | Waits => True
  | Panics => False
  | Runs sh' c' => thread_inv t sh' c' (Releasing tt todo) /\ frame t sh sh'
  end.
Proof.
  intros Hw. destruct (Hw t) as (Hle & Hns & Hat). simpl.
  unfold frame, away, holding, carrying. destruct (uses t) eqn:Eu; simpl; try done;
    unfold WduSpinLock.release_code, WduSpinLock.release_for_dpc_code,
      WduSpinLock.release_from_dpc_code;
    intros [[[H|H] Haway]|[[H Hc]|[H _]]]; simplify_eq/=; solve_act.
Qed.

Lemma lock_inv_step s s' : well_used -> lock_inv s -> lock_step dbg uses s s' -> lock_inv s'.
Proof.
  intros Hw HI Hst. unfold lock_step in Hst.
  assert (Hgo : forall t p sh' c', thread_inv t sh' c' p -> frame t (shared s) sh' ->
    lock_inv (mkState sh' (upd t p (phases s)) (upd t c' (locals s)))).
  { intros t p sh' c' Hp Hf u. simpl. unfold upd. case_decide as E; [by subst|].
    destruct (Hf u E). eapply thread_inv_frame; [done..|apply HI]. }
  assert (Hnop : forall t p, thread_inv t (shared s) (locals s t) p ->
    lock_inv (mkState (shared s) (upd t p (phases s)) (locals s))).
  { intros t p Hp u. simpl. unfold upd. case_decide as E; [by subst|apply HI]. }
  step_cases; pose proof (HI t) as Ht; rewrite Ph in Ht.
  - apply Hnop. left. split; [by left|done].
  - apply Hnop. destruct Ht as [[H ?]|[[H ?]|[_ ?]]]; [|done..].
    by destruct (uses t), H.
  - apply act_acquire in Ht; [|done]. destruct (act _ _ _ _ _); simplify_eq; [done|].
    destruct Ht. by apply Hgo.
  - apply Hnop. left. split; [by left|done].
  - apply Hnop. destruct Ht as [[H ?]|[[H ?]|[_ ?]]]; [| |done].
    + by destruct (uses t), H.
    + destruct (Hw t) as (_ & Hns & _). by destruct (uses t) eqn:?; simplify_eq/=; destruct H0 as (_ & _ & _ & []).
  - apply act_release in Ht; [|done]. destruct (act _ _ _ _ _); simplify_eq; [done|].
    destruct Ht. by apply Hgo.
Qed.

(** C13: however the threads that use the acquire/release, for_dpc and at_dpc
    pairs interleave, one lock works as a spin lock: at most one thread is
    inside, no debug assertion fails, and a thread that has left runs at the
    IRQL it had before it took the lock - although the IRQL to return to is
    kept in the lock, which all threads share. *)
Theorem spinlock_restores_irql s :
  well_used -> rtc (lock_step dbg uses) (lock_start base) s ->
  (forall t u m n, phases s t = Inside m -> phases s u = Inside n -> t = u) /\
  (forall t, phases s t <> Crashed) /\
  (forall t, phases s t = Outside -> irql (locals s t) = base t).
Proof.
  intros Hw Hr.
  assert (HI : lock_inv s).
  { eapply reachable_inv; [by apply lock_inv_start| |exact Hr]. intros. by eapply lock_inv_step. }
  split_and!.
  - intros t u m n Ht Hu. pose proof (HI t) as H1. pose proof (HI u) as H2.
    rewrite Ht in H1. rewrite Hu in H2. destruct H1 as [H1 _], H2 as [H2 _]. congruence.
  - intros t Ht. pose proof (HI t) as H. by rewrite Ht in H.
  - intros t Ht. pose proof (HI t) as H. rewrite Ht in H. by destruct H.
Qed.

(** A thread that holds the lock can go on. *)
Lemma holder_ready s t :
  well_used -> lock_inv s -> owner (shared s) = Some t ->
  ready (act dbg) (fun t _ => acquire_of (uses t)) (fun t _ => release_of (uses t)) t s.
Proof.
  intros Hw HI Ho. pose proof (HI t) as Ht.
  split; [|exists tt]; unfold thread_inv, away in Ht; unfold advance.
  { destruct (phases s t); try done. by destruct Ht. }
  destruct (phases s t) as [|[] [|a l]|?|[] [|a l]|] eqn:Ph; try contradiction; try (by eexists).
  - destruct Ht as [[_ [Hn _]]|[[H Hc]|[H _]]]; [done|simplify_eq; by eexists|done].
  - destruct (Hw t) as (_ & Hns & _).
    assert (Hnw : act dbg t a (shared s) (locals s t) <> Waits).
    { destruct Ht as [[[H|H] _]|[[H _]|[H _]]]; [..|done]; destruct (uses t); simpl in H;
        unfold WduSpinLock.release_code, WduSpinLock.release_for_dpc_code, WduSpinLock.release_from_dpc_code in H;
        simplify_eq/=; repeat case_match; congruence. }
    destruct (act dbg t a (shared s) (locals s t)); [done|by eexists..].
Qed.

(** The threads wait for the one that holds the lock. *)
Lemma lock_progressive :
  well_used -> Progressive (act dbg) (fun t _ => acquire_of (uses t)) (fun t _ => release_of (uses t)) lock_inv.
Proof.
  intros Hw. split.
  - intros. by eapply lock_inv_step.
  - intros s t HI Ht. pose proof (HI t) as H. by rewrite Ht in H.
  - intros s t m a todo HI _ E.
    destruct (owner (shared s)) as [u|] eqn:Ho; [exists u; by apply holder_ready|].
    destruct a; simpl in E; rewrite ?Ho in E; repeat case_match; done.
Qed.

(** C16: a spin lock that threads use through the acquire/release, for_dpc and
    at_dpc pairs - none through the in-stack pair - and from an IRQL the pair
    may be used at, is live: from any state its threads can get into, once
    nobody asks for the lock again, every schedule comes to an end, and it
    ends with every thread outside and the lock free. *)
Theorem spinlock_quiesces s :
  well_used -> rtc (lock_step dbg uses) (lock_start base) s ->
  let closing := closing (act dbg) (fun t _ => acquire_of (uses t)) (fun t _ => release_of (uses t)) in
  sn closing s /\ forall s', rtc closing s s' -> nf closing s' ->
    (forall t, phases s' t = Outside) /\ owner (shared s') = None.
Proof.
  intros Hw Hr. pose proof (lock_progressive Hw).
  eapply quiesces_with; [done| |exact Hr|].
  - by apply lock_inv_start.
  - intros s' HI Ho. destruct (owner (shared s')) as [t|] eqn:E; [|done].
    pose proof (HI t) as Ht. rewrite Ho in Ht. by destruct Ht.
Qed.
End exclusion.

(** *** The in-stack pair

    All threads of one lock pass the same handle, the lock's member. *)
Section in_stack.
Context (dbg : bool).
Local Abbreviation sys := (state WduSpinLock.action unit shared_lock cpu).
Local Abbreviation stack_run :=
  (run (act dbg) (fun (_ : nat) (_ : unit) => WduSpinLock.acquire_in_stack_code)
     (fun _ _ => WduSpinLock.release_in_stack_code)).

(** The handle is the kernel's, for thread [t]. *)
Definition lent (t : nat) (sh : shared_lock) : Prop := exists i, queued sh = Some (t, i).

(** What is left to do of a thread that has not yet given the handle to the
    kernel. *)
Definition asking (todo : list WduSpinLock.action) : Prop := todo ∈
  [WduSpinLock.acquire_in_stack_code;
   [WduSpinLock.AssertNoHandle; WduSpinLock.NewHandle; WduSpinLock.EnterQueue; WduSpinLock.AwaitTurn];
   [WduSpinLock.NewHandle; WduSpinLock.EnterQueue; WduSpinLock.AwaitTurn];
   [WduSpinLock.EnterQueue; WduSpinLock.AwaitTurn]].

Definition stack_inv (t : nat) (sh : shared_lock) (ph : phase WduSpinLock.action unit) : Prop :=
  match ph with
  | Acquiring _ todo => asking todo \/ (todo = [WduSpinLock.AwaitTurn] \/ todo = []) /\ lent t sh
  | Inside _ => lent t sh
  | Releasing _ todo =>
      (todo = WduSpinLock.release_in_stack_code \/ todo = tail WduSpinLock.release_in_stack_code) /\ lent t sh \/
      todo = [WduSpinLock.ClearHandle] \/ todo = []
  | Outside | Crashed => True
  end.

(** Nobody but the thread it serves takes the handle from the kernel. *)
Lemma act_lent t u a sh c sh' c' : act dbg u a sh c = Runs sh' c' -> u <> t -> lent t sh -> lent t sh'.
Proof.
  intros E Hu [i Hi]. exists i. destruct a; simpl in E; rewrite ?Hi in E; repeat case_match; simplify_eq/=; try done.
  rewrite andb_true_iff, bool_decide_eq_true in *. by destruct_and!.
Qed.

(** What a thread does itself. *)
Lemma stack_act t a todo sh c (m : unit) sh' c' :
  act dbg t a sh c = Runs sh' c' ->
  (stack_inv t sh (Acquiring m (a :: todo)) -> stack_inv t sh' (Acquiring m todo)) /\
  (stack_inv t sh (Releasing m (a :: todo)) -> stack_inv t sh' (Releasing m todo)).
Proof.
  intros E. unfold stack_inv, asking, lent. split.
  - intros [H|[[H|H] [i Hi]]]; [|simplify_eq/=; case_match; simplify_eq/=; right; split; [by right|by exists i]|done].
    rewrite !elem_of_cons, elem_of_nil in H. destruct H as [H|[H|[H|[H|[]]]]]; unfold WduSpinLock.acquire_in_stack_code in H; simplify_eq/=.
    1-3: left; rewrite !elem_of_cons; naive_solver.
    right. repeat case_match; simplify_eq/=. split; [by left|]. by eexists.
  - intros [[[H|H] [i Hi]]|[H|H]]; unfold WduSpinLock.release_in_stack_code in *; simplify_eq/=.
    + left. split; [by right|]. exists i. repeat case_match; simplify_eq/=; done.
    + right. by left.
    + right. by right.
Qed.

Lemma stack_inv_step (s s' : sys) :
  (forall t, stack_inv t (shared s) (phases s t)) -> lock_step dbg (fun _ => InStack) s s' ->
  forall t, stack_inv t (shared s') (phases s' t).
Proof.
  intros HI Hst. unfold lock_step in Hst.
  assert (Hnop : forall t ph, stack_inv t (shared s) ph -> forall u, stack_inv u (shared s) (upd t ph (phases s) u)).
  { intros t ph Hp u. unfold upd. case_decide as E; [by subst|apply HI]. }
  assert (Hgo : forall t a ph sh' c', act dbg t a (shared s) (locals s t) = Runs sh' c' -> stack_inv t sh' ph ->
    forall u, stack_inv u sh' (upd t ph (phases s) u)).
  { intros t a ph sh' c' E Hp u. unfold upd. case_decide as Eu; [by subst|]. pose proof (HI u) as Hu.
    pose proof (act_lent u t _ _ _ _ _ E (fun e => Eu (eq_sym e))) as Hl. unfold stack_inv in *. destruct (phases s u); naive_solver. }
  step_cases; pose proof (HI t) as Ht; rewrite Ph in Ht.
  - apply Hnop. left. left.
  - apply Hnop. destruct Ht as [H|[_ H]]; [|exact H]. unfold asking in H. rewrite !elem_of_cons, elem_of_nil in H.
    unfold WduSpinLock.acquire_in_stack_code in H. naive_solver.
  - destruct (act dbg t _ (shared s) (locals s t)) as [| |sh' c'] eqn:E'; simplify_eq; [by apply Hnop|].
    eapply Hgo; [exact E'|]. eapply stack_act; [exact E'|]. exact Ht.
  - apply Hnop. left. split; [by left|exact Ht].
  - by apply Hnop.
  - destruct (act dbg t _ (shared s) (locals s t)) as [| |sh' c'] eqn:E'; simplify_eq; [by apply Hnop|].
    eapply Hgo; [exact E'|]. eapply stack_act; [exact E'|]. exact Ht.
Qed.

(** A thread that asks while the handle is the kernel's, for another thread,
    comes to its end without a wait. *)
Lemma asking_ends t u m todo (s : sys) :
  u <> t -> lent t (shared s) -> asking todo -> phases s u = Acquiring m todo ->
  exists n s', (n <= length todo)%nat /\ stack_run (replicate n (u, tt)) s = Some s' /\ phases s' u = Crashed.
Proof.
  intros Hu Hl Ha. revert s Hl.
  assert (Hend : forall a l s, phases s u = Acquiring m (a :: l) -> act dbg u a (shared s) (locals s u) = Panics ->
    exists n s', (n <= S (length l))%nat /\ stack_run (replicate n (u, tt)) s = Some s' /\ phases s' u = Crashed).
  { intros a l s Ph E. exists 1%nat. eexists. split; [lia|]. simpl. unfold advance. rewrite Ph, E.
    split; [done|]. simpl. by rewrite upd_eq. }
  assert (Hmore : forall a l s, act dbg u a (shared s) (locals s u) <> Waits -> lent t (shared s) ->
    phases s u = Acquiring m (a :: l) ->
    (forall s', lent t (shared s') -> phases s' u = Acquiring m l ->
       exists n s'', (n <= length l)%nat /\ stack_run (replicate n (u, tt)) s' = Some s'' /\ phases s'' u = Crashed) ->
    exists n s', (n <= S (length l))%nat /\ stack_run (replicate n (u, tt)) s = Some s' /\ phases s' u = Crashed).
  { intros a l s Hnw Hl Ph IH. destruct (act dbg u a (shared s) (locals s u)) as [| |sh' c'] eqn:E; [done|by eapply Hend|].
    destruct (IH (mkState sh' (upd u (Acquiring m l) (phases s)) (upd u c' (locals s)))) as (n & s'' & Hn & Hr & Hc);
      [by eapply act_lent|simpl; by rewrite upd_eq|].
    exists (S n), s''. split; [lia|]. split; [|done]. simpl. unfold advance. rewrite Ph, E. exact Hr. }
  assert (H4 : forall s, lent t (shared s) -> phases s u = Acquiring m [WduSpinLock.EnterQueue; WduSpinLock.AwaitTurn] ->
    exists n s', (n <= 2)%nat /\ stack_run (replicate n (u, tt)) s = Some s' /\ phases s' u = Crashed).
  { intros s [i Hi] Ph. apply (Hend _ _ _ Ph). simpl. rewrite Hi. by destruct (handle _). }
  assert (Hnw : forall sh c, act dbg u WduSpinLock.NewHandle sh c <> Waits /\
    act dbg u WduSpinLock.AssertNoHandle sh c <> Waits /\ act dbg u WduSpinLock.AssertIrqlLe sh c <> Waits).
  { intros sh c. simpl. split_and!; case_match; discriminate. }
  unfold asking in Ha. rewrite !elem_of_cons, elem_of_nil in Ha.
  assert (H3 := fun s Hl Ph => Hmore WduSpinLock.NewHandle _ s (proj1 (Hnw _ _)) Hl Ph H4).
  assert (H2 := fun s Hl Ph => Hmore WduSpinLock.AssertNoHandle _ s (proj1 (proj2 (Hnw _ _))) Hl Ph H3).
  assert (H1 := fun s Hl Ph => Hmore WduSpinLock.AssertIrqlLe _ s (proj2 (proj2 (Hnw _ _))) Hl Ph H2).
  destruct Ha as [->|[->|[->|[->|[]]]]]; assumption.
Qed.

(** C26: the in-stack operations keep the queue handle in the lock, where the
    kernel's documentation asks for one handle for each acquire; so nobody can
    wait for the lock.  In whatever state the threads of a lock have got to,
    with or without debug assertions: if one thread is inside and another has
    asked, the other one's next steps - none of them a wait - end it, with a
    failed debug assertion or by overwriting, or giving to the kernel again,
    the handle that the kernel has for the thread inside. *)
Theorem in_stack_contention_breaks base t u m todo (s : sys) :
  rtc (lock_step dbg (fun _ => InStack)) (lock_start base) s ->
  t <> u -> phases s t = Inside tt -> phases s u = Acquiring m todo ->
  exists n s', (n <= length todo)%nat /\ stack_run (replicate n (u, tt)) s = Some s' /\ phases s' u = Crashed.
Proof.
  intros Hr Htu Ht Hu.
  assert (HI : forall t, stack_inv t (shared s) (phases s t)).
  { eapply (reachable_inv _ _ _ (fun s => forall t, stack_inv t (shared s) (phases s t)));
      [| |exact Hr]; [by intros v|intros; by eapply stack_inv_step]. }
  pose proof (HI t) as H1. rewrite Ht in H1. destruct H1 as [i Hi]. pose proof (HI u) as H2. rewrite Hu in H2. destruct H2 as [Ha|[_ [j Hj]]]; [|rewrite Hi in Hj; by injection Hj].
  eapply asking_ends; [done|by exists i|done|exact Hu].
Qed.
End in_stack.
(** What the documentation says of the IRQL: the routines that raise it
    return, or keep in the handle, the one they found; the routines that
    lower it set the one they are given. *)
Class IrqlLaws {KN : Kernel} : Type := {
  irql_of : kstate -> Z;
  queued_irql : kstate -> ptr -> Z;
  get_irql k : kstep KeGetCurrentIrql k = (irql_of k, k);
  raise_law l k : (kstep (KeAcquireSpinLockRaiseToDpc l) k).1 = irql_of k /\
                  irql_of (kstep (KeAcquireSpinLockRaiseToDpc l) k).2 = DISPATCH_LEVEL;
  for_dpc_law l k : (kstep (KeAcquireSpinLockForDpc l) k).1 = irql_of k /\
                    irql_of (kstep (KeAcquireSpinLockForDpc l) k).2 = DISPATCH_LEVEL;
  release_law l i k : irql_of (kstep (KeReleaseSpinLock l i) k).2 = i;
  release_for_dpc_law l i k : irql_of (kstep (KeReleaseSpinLockForDpc l i) k).2 = i;
  at_dpc_law l k : irql_of (kstep (KeAcquireSpinLockAtDpcLevel l) k).2 = irql_of k;
  from_dpc_law l k : irql_of (kstep (KeReleaseSpinLockFromDpcLevel l) k).2 = irql_of k;
  in_stack_law l h k : irql_of (kstep (KeAcquireInStackQueuedSpinLock l h) k).2 = DISPATCH_LEVEL /\
                       queued_irql (kstep (KeAcquireInStackQueuedSpinLock l h) k).2 h = irql_of k;
  release_in_stack_law h k :
    irql_of (kstep (KeReleaseInStackQueuedSpinLock h) k).2 = queued_irql k h
}.

Section sequential.
Context {KN : Kernel} {B : Build} {U : Type} `{!Storable U WduSpinLock, !IrqlLaws}.
Implicit Types s : world U.

Lemma kernel_kafter c s : w_kernel (kafter c s) = (kstep c (w_kernel s)).2.
Proof. done. Qed.
Lemma kresp_kernel c s : kresp c s = (kstep c (w_kernel s)).1.
Proof. done. Qed.

(** The assertions on the IRQL see the kernel's, and change nothing else. *)
Lemma wp_assert_irql (f : Z -> bool) msg s (Q : unit -> world U -> Prop) :
  f (irql_of (w_kernel s)) = true ->
  (forall tr, Q tt (World (w_kernel s) tr (w_mem s))) ->
  wp (debug_assert (irql ← current_irql; mret (f irql)) msg) s Q.
Proof.
  intros Hf HQ. unfold debug_assert. destruct debug_assertions.
  - unfold current_irql. wp_step. wp_step. wp_step. wp_step.
    rewrite kresp_kernel, get_irql. simpl. rewrite Hf. apply wp_ret.
    unfold kafter. rewrite get_irql. apply HQ.
  - apply wp_ret. specialize (HQ (w_trace s)). by destruct s.
Qed.

Lemma wp_assert_handle (f : bool -> bool) p (l : WduSpinLock) msg s (Q : unit -> world U -> Prop) :
  p <> 0 -> w_mem s !! p = Some (inj l) -> f (WduSpinLock.lockhandle l) = true -> Q tt s ->
  wp (debug_assert (l ← load (T := WduSpinLock) p; mret (f (WduSpinLock.lockhandle l))) msg) s Q.
Proof.
  intros Hp Hl Hf HQ. unfold debug_assert. destruct debug_assertions; [|by apply wp_ret].
  wp_step. wp_step. eapply wp_load; [done..|]. wp_step. rewrite Hf. by apply wp_ret.
Qed.

(** What one thread knows while it runs: its IRQL, the one in the handle if
    it put it there, the lock, and its temporary. *)
Record view : Type := mkView {
  v_irql : Z;
  v_queued : option Z;
  v_lock : WduSpinLock;
  v_reg : Z
}.

Definition sees (p : ptr) (m : gmap ptr U) (v : view) s : Prop :=
  irql_of (w_kernel s) = v_irql v /\
  (forall q, v_queued v = Some q -> queued_irql (w_kernel s) p = q) /\
  w_mem s = <[p := inj (v_lock v)]> m.

(** The view after an action; [None] where it might panic. *)
Definition view_after (a : WduSpinLock.action) (v : view) : option view :=
  let '(mkView i q l r) := v in
  let check (b : bool) := if b then Some v else None in
  match a with
  | WduSpinLock.AssertIrqlLe => check (i <=? DISPATCH_LEVEL)
  | WduSpinLock.AssertIrqlEq => check (i =? DISPATCH_LEVEL)
  | WduSpinLock.AssertIrqlGe => check (DISPATCH_LEVEL <=? i)
  | WduSpinLock.AssertNoHandle => check (negb (WduSpinLock.lockhandle l))
  | WduSpinLock.AssertHandle => check (WduSpinLock.lockhandle l)
  | WduSpinLock.RaiseToDpc | WduSpinLock.AcquireForDpc => Some (mkView DISPATCH_LEVEL None l i)
  | WduSpinLock.SaveIrql => Some (mkView i q (WduSpinLock.set_old_irql r l) r)
  | WduSpinLock.ReadIrql => Some (mkView i q l (WduSpinLock.old_irql l))
  | WduSpinLock.ReleaseTo | WduSpinLock.ReleaseForDpc => Some (mkView r None l r)
  | WduSpinLock.AtDpc | WduSpinLock.FromDpc => Some (mkView i None l r)
  | WduSpinLock.NewHandle => Some (mkView i q (WduSpinLock.set_handle true l) r)
  | WduSpinLock.EnterQueue =>
      if WduSpinLock.lockhandle l then Some (mkView DISPATCH_LEVEL (Some i) l r) else None
  | WduSpinLock.AwaitTurn => Some v
  | WduSpinLock.ReleaseHandle =>
      if WduSpinLock.lockhandle l then (fun q => mkView q None l r) <$> q else None
  | WduSpinLock.ClearHandle => Some (mkView i q (WduSpinLock.set_handle false l) r)
  end.

Fixpoint view_all (code : list WduSpinLock.action) (v : view) : option view :=
  match code with [] => Some v | a :: code => view_after a v ≫= view_all code end.

Lemma wp_exec p m a v v' s (Q : Z -> world U -> Prop) :
  p <> 0 -> sees p m v s -> view_after a v = Some v' ->
  (forall s', sees p m v' s' -> Q (v_reg v') s') ->
  wp (WduSpinLock.exec p a (v_reg v)) s Q.
Proof.
  intros Hp (Hi & Hq & Hm) Hv HQ. destruct v as [i q l r]. simpl in *.
  assert (Hl : w_mem s !! p = Some (inj l)) by (rewrite Hm; map_at).
  destruct a; simpl in *; repeat case_match; simplify_eq/=;
    try (wp_step; apply wp_assert_irql; [done|]; intros tr; wp_step; by apply HQ);
    try (wp_step; eapply (wp_assert_handle negb); [done..|]; wp_step; by apply HQ);
    try (wp_step; eapply (wp_assert_handle id); [done..|]; wp_step; by apply HQ);
    repeat (wp_step; try done).
  - rewrite kresp_kernel. destruct (raise_law p (w_kernel s)) as [-> ?]. by apply HQ.
  - rewrite kresp_kernel. destruct (for_dpc_law p (w_kernel s)) as [-> ?]. by apply HQ.
  - apply HQ. unfold sees. simpl. by rewrite Hm, insert_insert_eq.
  - by apply HQ.
  - apply HQ. split; [apply release_law|done].
  - apply HQ. split; [apply release_for_dpc_law|done].
  - apply HQ. split; [by etransitivity; [apply at_dpc_law|]|done].
  - apply HQ. split; [by etransitivity; [apply from_dpc_law|]|done].
  - apply HQ. unfold sees. simpl. by rewrite Hm, insert_insert_eq.
  - apply HQ. destruct (in_stack_law p p (w_kernel s)) as [? ?]. unfold sees. simpl.
    split; [done|]. split; [by intros ? [= <-]|done].
  - by apply HQ.
  - destruct q as [q|]; simplify_eq/=. apply HQ.
    split; [by etransitivity; [apply release_in_stack_law|apply Hq]|done].
  - apply HQ. unfold sees. simpl. by rewrite Hm, insert_insert_eq.
Qed.

Lemma wp_exec_all p m code v v' s (Q : unit -> world U -> Prop) :
  p <> 0 -> sees p m v s -> view_all code v = Some v' ->
  (forall s', sees p m v' s' -> Q tt s') ->
  wp (WduSpinLock.exec_all p code (v_reg v)) s Q.
Proof.
  revert v s. induction code as [|a code IH]; intros v s Hp Hs Hv HQ; simpl in *.
  - simplify_eq. by apply wp_ret, HQ.
  - destruct (view_after a v) as [v1|] eqn:E; [|done]. simpl in Hv. apply wp_bind.
    eapply wp_exec; [done..|]. intros s1 Hs1. by eapply IH.
Qed.

(** The views the code of a pair goes through. *)
Lemma pair_views u i (l : WduSpinLock) :
  WduSpinLock.lockhandle l = false -> i <= DISPATCH_LEVEL -> (u = AtDpcLevel -> i = DISPATCH_LEVEL) ->
  exists v, view_all (acquire_of u) (mkView i None l 0) = Some v /\ v_irql v = DISPATCH_LEVEL /\
    exists v', view_all (release_of u) (mkView (v_irql v) (v_queued v) (v_lock v) 0) = Some v' /\
      v_irql v' = i /\ WduSpinLock.lockhandle (v_lock v') = false.
Proof.
  intros Hh Hi Hat. assert (Hle : (i <=? DISPATCH_LEVEL) = true) by by apply Z.leb_le.
  destruct u; simpl.
  1, 2: rewrite Hle; simpl; eexists; do 2 (split; [done|]); eexists; by split; [done|].
  - rewrite Hat by done. simpl. eexists. do 2 (split; [done|]). eexists. by split; [done|].
  - rewrite Hle. simpl. rewrite Hh. simpl. eexists. do 2 (split; [done|]). simpl. eexists. by split; [done|].
Qed.

(** What a thread may do while it holds the lock at [p]. *)
Definition leaves_alone (p : ptr) s s' : Prop :=
  irql_of (w_kernel s') = irql_of (w_kernel s) /\
  queued_irql (w_kernel s') p = queued_irql (w_kernel s) p /\ w_mem s' !! p = w_mem s !! p.

(** The pairs as a client has them: through [RawMutex], where there is an
    implementation of it. *)
Definition lock_of (u : usage) (slot : ptr) : ptr -> M (world U) unit :=
  match u with
  | Raise => mutex_lock SpinLock.SpinLock slot
  | AtDpcLevel => mutex_lock DpcSpinLock.DpcSpinLock slot
  | InStack => mutex_lock StackSpinLock.StackSpinLock slot
  | ForDpc => WduSpinLock.acquire_for_dpc
  end.
Definition unlock_of (u : usage) (slot : ptr) : ptr -> M (world U) unit :=
  match u with
  | Raise => mutex_unlock SpinLock.SpinLock slot
  | AtDpcLevel => mutex_unlock DpcSpinLock.DpcSpinLock slot
  | InStack => mutex_unlock StackSpinLock.StackSpinLock slot
  | ForDpc => WduSpinLock.release_for_dpc
  end.

(** Where the thread is once it has the lock: at DISPATCH_LEVEL, and memory is
    what it was, but for the lock itself. *)
Definition has_entered (p : ptr) s s1 : Prop :=
  irql_of (w_kernel s1) = DISPATCH_LEVEL /\ forall a, a <> p -> w_mem s1 !! a = w_mem s !! a.

(** C39: a critical section of one thread, with each of the four pairs of
    operations, from an IRQL it may be used at, neither panics nor fails a
    debug assertion, and brings the thread back to the IRQL it started from;
    the lock has no handle again and is ready for the next use.  The section
    runs at DISPATCH_LEVEL, on the memory there was when the lock was asked
    for; whatever it is, if it does not fault or panic there and leaves the
    lock and the IRQL alone, what it returned and left in the rest of memory
    is what there is in the end. *)
Theorem critical_section_restores_irql {A} u slot p (l : WduSpinLock) (body : M (world U) A) s
    (R : A -> gmap ptr U -> Prop) :
  p <> 0 -> w_mem s !! p = Some (inj l) -> WduSpinLock.lockhandle l = false ->
  irql_of (w_kernel s) <= DISPATCH_LEVEL ->
  (u = AtDpcLevel -> irql_of (w_kernel s) = DISPATCH_LEVEL) ->
  (forall s1, has_entered p s s1 ->
     wp body s1 (fun x s2 => leaves_alone p s1 s2 /\ R x (delete p (w_mem s2)))) ->
  wp (lock_of u slot p ;; x ← body; unlock_of u slot p ;; mret x) s (fun x s' =>
    irql_of (w_kernel s') = irql_of (w_kernel s) /\ R x (delete p (w_mem s')) /\
    exists l', w_mem s' !! p = Some (inj l') /\ WduSpinLock.lockhandle l' = false).
Proof.
  intros Hp Hl Hh Hi Hat Hbody. set (i := irql_of (w_kernel s)) in *.
  assert (Hs : sees p (w_mem s) (mkView i None l 0) s)
    by (split_and!; [done|done|by rewrite insert_id]).
  destruct (pair_views u i l Hh Hi Hat) as (v & Hv & Hd & v' & Hv' & Hi' & Hh').
  replace (lock_of u slot) with (fun p => WduSpinLock.exec_all p (acquire_of u) 0) by by destruct u.
  replace (unlock_of u slot) with (fun p => WduSpinLock.exec_all p (release_of u) 0) by by destruct u.
  apply wp_bind, (wp_exec_all p (w_mem s) _ (mkView i None l 0) v); [done..|]. intros s1 (H1 & H2 & H3).
  apply wp_bind. eapply wp_mono; [apply Hbody; split; [congruence|intros a Ha; by rewrite H3, lookup_insert_ne]|].
  intros x s2 ((E1 & E2 & E3) & HR). apply wp_bind.
  apply (wp_exec_all p (w_mem s2) _ (mkView (v_irql v) (v_queued v) (v_lock v) 0) v'); [done| |done|].
  { split_and!; simpl; [congruence|intros q Hq; rewrite E2; auto|].
    rewrite insert_id; [done|]. by rewrite E3, H3, lookup_insert_eq. }
  intros s3 (H4 & _ & H5). apply wp_ret. split; [congruence|]. split; [by rewrite H5, delete_insert_eq|].
  exists (v_lock v'). by rewrite H5, lookup_insert_eq.
Qed.
End sequential.

(** ** Instances *)

Module SpinLockDemo.
(** A kernel that keeps one IRQL and the one of the last queue handle. *)
#[export] Instance kernel : Kernel := {|
  kstate := Z * Z;
  kstep c k := match c as c return kret c * (Z * Z) with
               | KeGetCurrentIrql => (k.1, k)
               | KeAcquireSpinLockRaiseToDpc _ => (k.1, (DISPATCH_LEVEL, k.2))
               | KeAcquireSpinLockForDpc _ => (k.1, (DISPATCH_LEVEL, k.2))
               | KeReleaseSpinLock _ i => (tt, (i, k.2))
               | KeReleaseSpinLockForDpc _ i => (tt, (i, k.2))
               | KeAcquireInStackQueuedSpinLock _ _ => (tt, (DISPATCH_LEVEL, k.1))
               | KeReleaseInStackQueuedSpinLock _ => (tt, (k.2, k.2))
               | c => (default_answer c, k)
               end |}.
#[export] Instance laws : IrqlLaws.
Proof. refine {| irql_of k := k.1; queued_irql k _ := k.2 |}; by intros; destruct k. Defined.
#[export] Instance build : Build := true.
Abbreviation cells := (WduSpinLock + (Z + unit))%type.
(** The lock at 0x40, a counter that it protects at 0x80. *)
Definition start : world cells := World (1, 0) [] {[0x40 := inj WduSpinLock.new; 0x80 := inj 5]}.
(** The counter is incremented, its old value returned. *)
Definition count : M (world cells) Z := x ← load (T := Z) 0x80; store 0x80 (x + 1) ;; mret x.
Definition uses (t : nat) : usage := match t with O => AtDpcLevel | 1%nat => ForDpc | _ => Raise end.
Definition base (t : nat) : Z := match t with O => 2 | 1%nat => 1 | _ => 0 end.
(** Thread 2 takes the lock and gives it back, thread 0 then takes it. *)
Definition sched : list nat := [2; 2; 2; 2; 2; 2; 2; 2; 2; 2; 0; 0; 0; 0]%nat.
End SpinLockDemo.
#[local] Existing Instance SpinLockDemo.kernel.
#[local] Existing Instance SpinLockDemo.laws.
#[local] Existing Instance SpinLockDemo.build.

Lemma spinlock_restores_irql_witness :
  let s := lock_ends true SpinLockDemo.uses SpinLockDemo.base SpinLockDemo.sched in
  phases s 0%nat = Inside tt /\ phases s 2%nat = Outside /\ irql (locals s 2%nat) = 0.
Proof.
  cbv zeta. split; [vm_compute; reflexivity|]. split; [vm_compute; reflexivity|].
  apply (spinlock_restores_irql true SpinLockDemo.uses SpinLockDemo.base).
  - intros [|[|t]]; split_and!; try discriminate; intros; try discriminate; reflexivity.
  - apply ends_reachable. vm_compute. eexists. reflexivity.
  - vm_compute. reflexivity.
Defined.

(** Thread 0 is inside, thread 1 has asked. *)
Lemma in_stack_contention_breaks_witness :
  exists n s', run (act false) (fun _ _ => WduSpinLock.acquire_in_stack_code) (fun _ _ => WduSpinLock.release_in_stack_code)
    (replicate n (1%nat, tt)) (lock_ends false (fun _ => InStack) SpinLockDemo.base [0; 0; 0; 0; 0; 0; 0; 1]%nat) = Some s' /\
    phases s' 1%nat = Crashed.
Proof.
  destruct (in_stack_contention_breaks false SpinLockDemo.base 0%nat 1%nat tt WduSpinLock.acquire_in_stack_code
    (lock_ends false (fun _ => InStack) SpinLockDemo.base [0; 0; 0; 0; 0; 0; 0; 1]%nat)) as (n & s' & _ & H).
  - apply ends_reachable. vm_compute. eexists. reflexivity.
  - discriminate.
  - vm_compute. reflexivity.
  - vm_compute. reflexivity.
  - exists n, s'. exact H.
Defined.

Lemma critical_section_restores_irql_witness :
  wp (mutex_lock StackSpinLock.StackSpinLock 0x90 0x40 ;;
      x ← SpinLockDemo.count; mutex_unlock StackSpinLock.StackSpinLock 0x90 0x40 ;; mret x) SpinLockDemo.start
    (fun x s' => x = 5 /\ delete 0x40 (w_mem s') !! 0x80 = Some (inj 6) /\ (w_kernel s').1 = 1).
Proof.
  eapply wp_mono.
  - apply (critical_section_restores_irql InStack 0x90 0x40 WduSpinLock.new SpinLockDemo.count SpinLockDemo.start
      (fun x m => x = 5 /\ m !! 0x80 = Some (inj 6)));
      [discriminate|vm_compute; reflexivity|reflexivity|discriminate|discriminate|].
    intros s1 [_ Hm]. specialize (Hm 0x80 ltac:(discriminate)).
    unfold SpinLockDemo.count. apply wp_bind. eapply wp_load; [discriminate|exact Hm|].
    apply wp_bind. eapply wp_store; [discriminate|exact Hm|]. apply wp_ret.
    split; [split; [reflexivity|]; split; [reflexivity|]|split; [reflexivity|]]; rewrite mem_set_mem.
    + by rewrite lookup_insert_ne.
    + by rewrite lookup_delete_ne, lookup_insert_eq.
  - intros x s' (H & [Hx Hc] & _). split; [exact Hx|]. split; [exact Hc|exact H].
Defined.

Lemma spinlock_quiesces_witness :
  sn (closing (act true) (fun t _ => acquire_of (SpinLockDemo.uses t)) (fun t _ => release_of (SpinLockDemo.uses t)))
    (lock_ends true SpinLockDemo.uses SpinLockDemo.base SpinLockDemo.sched).
Proof.
  apply (spinlock_quiesces true SpinLockDemo.uses SpinLockDemo.base).
  - intros [|[|t]]; split_and!; try discriminate; intros; try discriminate; reflexivity.
  - apply ends_reachable. vm_compute. eexists. reflexivity.
Defined.
