(* ===== verification/Sync.v ===== *)
(** * Sync: critical regions, waiting, events, semaphores, rundown protection,
    remove locks, timers and deferred procedure calls

    [sync/mod.rs], [sync/event.rs], [sync/semaphore.rs],
    [sync/rundown_protection.rs], [sync/remove_lock.rs], [sync/timer.rs],
    [common/dpc.rs].  An object the crate embeds is named by the address of
    the structure that embeds it. *)

From S2P Require Import Prelude Nt World Crate.
Import ProcessorMode (ProcessorMode).

Section mod_rs.
Context {KN : Kernel} {U : Type}.

Definition enter_critical_region : M (world U) unit := kcall_ KeEnterCriticalRegion.
Definition leave_critical_region : M (world U) unit := kcall_ KeLeaveCriticalRegion.

(** The timeout is passed by reference, and read. *)
Definition wait_single_object (object wait_reason : Z) (mode : ProcessorMode) (alertable : bool)
    (timeout : Z) : M (world U) NTSTATUS :=
  kcall_ (KeWaitForSingleObject object wait_reason (ProcessorMode.into_i8 mode) (u8_from alertable)
            timeout).

Definition wait_multiple_objects : M (world U) unit := panic "not yet implemented".
End mod_rs.

(** [&self as *const _ as *mut Self] in a method whose [self] is a reference:
    the address of the parameter [self], at [slot], not the address it holds. *)
Definition address_of_self (slot self : ptr) : ptr := slot.

Module WduEvent.
Inductive WduEventType : Type := NotificationEvent | SynchronizationEvent.
Definition into_EVENT_TYPE (self : WduEventType) : Z :=
  match self with NotificationEvent => 0 | SynchronizationEvent => 1 end.

Record WduEvent : Type := mk { event : ptr }.
Definition const_new : WduEvent := {| event := null |}.
Definition new : WduEvent := {| event := null |}.
Definition default : WduEvent := new.
Definition as_ptr (self : WduEvent) : ptr := event self.
(** [Clone], derived. *)
Definition clone (self : WduEvent) : WduEvent := {| event := event self |}.

Section Ops.
Context {KN : Kernel} {NS : NtStatics} {U : Type}.
Definition init (self : WduEvent) (event_type : WduEventType) (state : bool) : M (world U) unit :=
  kcall_ (KeInitializeEvent (event self) (into_EVENT_TYPE event_type) (u8_from state)).
Definition reset (self : WduEvent) : M (world U) Z := kcall_ (KeResetEvent (event self)).
Definition clear (self : WduEvent) : M (world U) unit := kcall_ (KeClearEvent (event self)).
Definition set (self : WduEvent) (increment : Z) (wait : bool) : M (world U) Z :=
  kcall_ (KeSetEvent (event self) increment (u8_from wait)).
Definition read_state (self : WduEvent) : M (world U) Z := kcall_ (KeReadStateEvent (event self)).
Definition pulse (self : WduEvent) (increment : Z) (wait : bool) : M (world U) Z :=
  kcall_ (KePulseEvent (event self) increment (u8_from wait)).
Definition ref_by_handle (handle access_mask : Z) (access_mode : ProcessorMode)
    : M (world U) (result WduEvent WduError) :=
  object ←? ref_by_handle handle access_mask (Some deref_ExEventObjectType) access_mode;
  mret (Ok {| event := object |}).
Definition dereference (self : WduEvent) : M (world U) unit := dereference (as_ptr self).
End Ops.
End WduEvent.
Import WduEvent (WduEvent).

Module WduSemaphore.
Record WduSemaphore : Type := mk { semaphore : ptr }.
Definition const_new : WduSemaphore := {| semaphore := null |}.
Definition new : WduSemaphore := {| semaphore := null |}.
Definition default : WduSemaphore := new.
Definition as_ptr (self : WduSemaphore) : ptr := semaphore self.
(** [Clone], derived. *)
Definition clone (self : WduSemaphore) : WduSemaphore := {| semaphore := semaphore self |}.

Section Ops.
Context {KN : Kernel} {NS : NtStatics} {U : Type}.
Definition init (self : WduSemaphore) (count limit : Z) : M (world U) unit :=
  kcall_ (KeInitializeSemaphore (semaphore self) count limit).
Definition release (self : WduSemaphore) (increment adjustment : Z) (wait : bool) : M (world U) Z :=
  kcall_ (KeReleaseSemaphore (semaphore self) increment adjustment (u8_from wait)).
Definition read_state (self : WduSemaphore) : M (world U) Z :=
  kcall_ (KeReadStateSemaphore (semaphore self)).
Definition ref_by_handle (handle access_mask : Z) (access_mode : ProcessorMode)
    : M (world U) (result WduSemaphore WduError) :=
  object ←? ref_by_handle handle access_mask (Some deref_ExSemaphoreObjectType) access_mode;
  mret (Ok {| semaphore := object |}).
Definition dereference (self : WduSemaphore) : M (world U) unit := dereference (as_ptr self).
End Ops.
End WduSemaphore.
Import WduSemaphore (WduSemaphore).

Module WduRundownProtection.
Section Ops.
Context {KN : Kernel} {U : Type}.
(** [run_ref: EX_RUNDOWN_REF { Count: 0 }] *)
Definition const_new : Z := 0.
Definition new : Z := 0.
Definition default : Z := new.
Definition init (self : ptr) : M (world U) unit := kcall_ (ExInitializeRundownProtection self).
Definition acquire (self : ptr) : M (world U) bool :=
  r ← kcall_ (ExAcquireRundownProtection self); mret (r =? u8_from true).
Definition acquire_ex (self : ptr) (count : Z) : M (world U) bool :=
  r ← kcall_ (ExAcquireRundownProtectionEx self count); mret (r =? u8_from true).
Definition release (self : ptr) : M (world U) unit := kcall_ (ExReleaseRundownProtection self).
Definition wait (self : ptr) : M (world U) unit := kcall_ (ExWaitForRundownProtectionRelease self).
Definition completed (self : ptr) : M (world U) unit := kcall_ (ExRundownCompleted self).
Definition reinit (self : ptr) : M (world U) unit := kcall_ (ExReInitializeRundownProtection self).
Definition drop (self : ptr) : M (world U) unit := wait self.
End Ops.
End WduRundownProtection.

Module WduRemoveLock.
(** The [IO_REMOVE_LOCK] itself is the kernel's. *)
Record WduRemoveLock : Type := mk { lock_tag : option Z }.
Definition const_new : WduRemoveLock := {| lock_tag := None |}.
Definition new : WduRemoveLock := {| lock_tag := None |}.
Definition default : WduRemoveLock := new.

Section Ops.
Context {KN : Kernel} {U : Type} `{!Storable U WduRemoveLock}.
(** [size_of::<IO_REMOVE_LOCK>()] as a [u32], and the place in the source
    that is passed for the debugging of checked locks. *)
Context (size_of_IO_REMOVE_LOCK line : Z).

Definition tag_ptr (lock_tag : option Z) : ptr :=
  match lock_tag with None => null | Some tag => tag end.

Definition init (self : ptr) (tag max_min high_water : Z) : M (world U) unit :=
  kcall_ (IoInitializeRemoveLockEx self tag max_min high_water size_of_IO_REMOVE_LOCK).

Definition acquire (self : ptr) (tag : option Z) : M (world U) NTSTATUS :=
  update self (fun _ => {| lock_tag := tag |}) ;;
  l ← load (T := WduRemoveLock) self;
  kcall_ (IoAcquireRemoveLockEx self (tag_ptr (lock_tag l)) line size_of_IO_REMOVE_LOCK).

Definition release (self : ptr) : M (world U) unit :=
  l ← load (T := WduRemoveLock) self;
  kcall_ (IoReleaseRemoveLockEx self (tag_ptr (lock_tag l)) size_of_IO_REMOVE_LOCK) ;;
  update self (fun _ => {| lock_tag := None |}).

Definition release_and_wait (self : ptr) : M (world U) unit :=
  l ← load (T := WduRemoveLock) self;
  kcall_ (IoReleaseRemoveLockAndWaitEx self (tag_ptr (lock_tag l)) size_of_IO_REMOVE_LOCK) ;;
  update self (fun _ => {| lock_tag := None |}).
End Ops.
End WduRemoveLock.
Import WduRemoveLock (WduRemoveLock).

Module WduDpc.
(** [routine] takes the [WduDpc] by reference. *)
Record WduDpc (T : Type) : Type := mk { context : option T; routine : option fnptr }.
Arguments mk {T}. Arguments context {T}. Arguments routine {T}.

Definition new {T} : WduDpc T := {| context := None; routine := None |}.

Section Ops.
Context {KN : Kernel} {LK : Linked} {U T : Type} `{!Storable U (WduDpc T)}.

Definition as_ptr (self : ptr) : ptr := self.
Definition as_mut_ptr (self : ptr) : ptr := self.
(** The reference to the context is read at once. *)
Definition context_as_ref (self : ptr) : M (world U) (option T) :=
  d ← load (T := WduDpc T) self; mret (context d).
Definition context_as_mut_ref (self : ptr) : M (world U) (option T) :=
  d ← load (T := WduDpc T) self; mret (context d).

Definition init (self : ptr) (routine : fnptr) (context : option T) : M (world U) unit :=
  update self (fun _ => {| context := context; routine := Some routine |}) ;;
  kcall_ (KeInitializeDpc (as_mut_ptr self) (code_addr "WduDpc::custom_dpc") self).

(** [transmute(&arg)]: the arguments are parameters of [insert], at [slot1]
    and [slot2] of its frame. *)
Definition insert {V W} (slot1 slot2 self : ptr) (arg1 : option V) (arg2 : option W)
    : M (world U) bool :=
  let place {X} (slot : ptr) (o : option X) := match o with None => null | Some _ => slot end in
  r ← kcall_ (KeInsertQueueDpc (as_mut_ptr self) (place slot1 arg1) (place slot2 arg2));
  mret (r =? u8_from true).

Definition remove (self : ptr) : M (world U) unit := mret tt.
Definition set_importance (self : ptr) : M (world U) unit := mret tt.

(** [run rtn] is the client's routine at [rtn]. *)
Definition custom_dpc (run : fnptr -> ptr -> M (world U) unit) (dpc ctx arg1 arg2 : ptr)
    : M (world U) unit :=
  d ← load (T := WduDpc T) ctx;
  match routine d with None => mret tt | Some rtn => run rtn ctx end.
End Ops.
End WduDpc.
Import WduDpc (WduDpc).

Module WduTimer.
Inductive WduTimerType : Type := NotificationTimer | SynchronizationTimer.
Definition into_TIMER_TYPE (self : WduTimerType) : Z :=
  match self with
  | NotificationTimer => Nt.NotificationTimer
  | SynchronizationTimer => Nt.SynchronizationTimer
  end.

Inductive WduExTimerAttributes : Type :=
| HighResolution | NoWake | Notification | UnlimitedTolerance.
Definition attributes_into_u32 (self : WduExTimerAttributes) : Z :=
  match self with
  | HighResolution => EX_TIMER_HIGH_RESOLUTION
  | NoWake => EX_TIMER_NO_WAKE
  | Notification => Z.shiftl 1 31
  | UnlimitedTolerance => 2 ^ 32 - 1
  end.

Section Ops.
Context {KN : Kernel} {U : Type}.
Definition init (self : ptr) : M (world U) unit := kcall_ (KeInitializeTimer self).
(** The timer is initialised at [slot] of the frame, then returned by value. *)
Definition init_ex (slot : ptr) (timer_type : WduTimerType) : M (world U) unit :=
  kcall_ (KeInitializeTimerEx slot (into_TIMER_TYPE timer_type)).
Definition cancel (self : ptr) : M (world U) bool :=
  r ← kcall_ (KeCancelTimer self); mret (r =? u8_from true).
Definition read_state (self : ptr) : M (world U) bool :=
  r ← kcall_ (KeReadStateTimer self); mret (r =? u8_from true).
Definition dpc_ptr (dpc : option ptr) : ptr :=
  match dpc with None => null | Some dpc => WduDpc.as_ptr dpc end.
Definition set_coalescable (self : ptr) (duetime period tolerable_delay : Z) (dpc : option ptr)
    : M (world U) bool :=
  r ← kcall_ (KeSetCoalescableTimer self duetime period tolerable_delay (dpc_ptr dpc));
  mret (r =? u8_from true).
Definition set (self : ptr) (duetime : Z) (dpc : option ptr) : M (world U) bool :=
  r ← kcall_ (KeSetTimer self duetime (dpc_ptr dpc)); mret (r =? u8_from true).
Definition set_ex (self : ptr) (duetime period : Z) : M (world U) bool :=
  r ← kcall_ (KeSetTimerEx self duetime period null); mret (r =? u8_from true).
End Ops.
End WduTimer.

Module WduExTimer.
(** [PEX_TIMER] *)
Record WduExTimer : Type := mk { timer : ptr }.
Definition init : WduExTimer := {| timer := 0 |}.
Section Ops.
Context {KN : Kernel} {U : Type}.
Definition delete (self : WduExTimer) (cancel wait : bool) : M (world U) bool :=
  r ← kcall_ (ExDeleteTimer (timer self) (u8_from cancel) (u8_from wait)); mret (r =? u8_from true).
Definition set (self : WduExTimer) (duetime period : Z) : M (world U) bool :=
  r ← kcall_ (ExSetTimer (timer self) duetime period); mret (r =? u8_from true).
Definition cancel (self : WduExTimer) : M (world U) bool :=
  r ← kcall_ (ExCancelTimer (timer self)); mret (r =? u8_from true).
End Ops.
End WduExTimer.

(** ** Properties *)

Section references.
Context {KN : Kernel} {NS : NtStatics} {U : Type}.
Implicit Types s : world U.

(** An object referenced through a handle, used, and dereferenced. *)
Definition with_event (handle access : Z) (mode : ProcessorMode) (use : WduEvent -> M (world U) unit)
    : M (world U) (option NTSTATUS) :=
  r ← WduEvent.ref_by_handle handle access mode;
  match r with
  | Ok e => use e ;; WduEvent.dereference e ;; mret None
  | Err (WduError_NtStatus status) => mret (Some status)
  end.

(** Taking an event by handle asks the kernel once, for an event object,
    in the caller's mode. If that succeeds the wrapper is of the very object
    the kernel referenced, and [dereference] gives that reference back; if it
    fails the kernel's status is the error and nothing is to be given back. *)
Theorem event_reference_balanced handle access mode use s :
  let c := ObReferenceObjectByHandle handle access deref_ExEventObjectType (ProcessorMode.into_i8 mode) in
  let r0 := kresp c s in
  (forall e s1, wp (use e) s1 (fun _ s2 => calls s2 = calls s1)) ->
  wp (with_event handle access mode use) s (fun r s' =>
    (r0.1 = STATUS_SUCCESS /\ r = None /\ calls s' = calls s ++ [c; ObfDereferenceObject r0.2]) \/
    (r0.1 <> STATUS_SUCCESS /\ r = Some r0.1 /\ calls s' = calls s ++ [c])).
Proof.
  intros c r0 Huse. unfold with_event, WduEvent.ref_by_handle, try_, ref_by_handle.
  do 4 wp_step. simpl (default 0 (Some _)). fold c. fold r0.
  change (kret c) with (NTSTATUS * ptr)%type in *. destruct r0 as [st o] eqn:E. simpl.
  destruct (Z.eqb_spec st STATUS_SUCCESS) as [->|Hst]; simpl; wp_step.
  - wp_step. wp_step. eapply wp_mono; [apply Huse|]. intros [] s2 Hs2.
    unfold WduEvent.dereference, dereference. wp_steps. left. simpl. rewrite Hs2.
    autorewrite with wdu. by rewrite <- app_assoc.
  - wp_steps. by right.
Qed.
End references.

Section removal.
Context {KN : Kernel} {U : Type} `{!Storable U WduRemoveLock}.
Context (size line : Z).
Implicit Types s : world U.

Lemma wp_remove_acquire p tag (l : WduRemoveLock) s (Q : NTSTATUS -> world U -> Prop) :
  p <> 0 -> w_mem s !! p = Some (inj l) ->
  (let c := IoAcquireRemoveLockEx p (WduRemoveLock.tag_ptr tag) line size in
   forall s', w_mem s' = <[p := inj (WduRemoveLock.mk tag)]> (w_mem s) -> calls s' = calls s ++ [c] ->
     w_kernel s' = w_kernel (kafter c s) -> Q (kresp c s) s') ->
  wp (WduRemoveLock.acquire size line p tag) s Q.
Proof.
  intros Hp Hl HQ. unfold WduRemoveLock.acquire. wp_step. eapply wp_update; [done..|].
  wp_step. eapply wp_load; [done|map_at|]. wp_step. refine (HQ _ _ _ _); [done| |done]. by autorewrite with wdu.
Qed.

Lemma wp_remove_release p (l : WduRemoveLock) s (Q : unit -> world U -> Prop) :
  p <> 0 -> w_mem s !! p = Some (inj l) ->
  (forall s', w_mem s' = <[p := inj (WduRemoveLock.mk None)]> (w_mem s) ->
    calls s' = calls s ++ [IoReleaseRemoveLockEx p (WduRemoveLock.tag_ptr (WduRemoveLock.lock_tag l)) size] ->
    Q tt s') ->
  wp (WduRemoveLock.release size p) s Q.
Proof.
  intros Hp Hl HQ. unfold WduRemoveLock.release. wp_step. eapply wp_load; [done..|].
  wp_step. wp_step. eapply wp_update; [done..|]. apply HQ; [done|]. by autorewrite with wdu.
Qed.

(** A remove lock remembers one tag, for all its holders. One acquisition
    and its release name the same tag, as the kernel requires; of two
    acquisitions that overlap, the first one's tag is lost: the releases name
    the second tag and then none. *)
Theorem remove_lock_tags p a b (l : WduRemoveLock) s :
  p <> 0 -> w_mem s !! p = Some (inj l) ->
  wp (WduRemoveLock.acquire size line p (Some a) ;; WduRemoveLock.release size p) s (fun _ s' =>
    calls s' = calls s ++ [IoAcquireRemoveLockEx p a line size; IoReleaseRemoveLockEx p a size]) /\
  wp (WduRemoveLock.acquire size line p (Some a) ;; WduRemoveLock.acquire size line p (Some b) ;;
      WduRemoveLock.release size p ;; WduRemoveLock.release size p) s (fun _ s' =>
    calls s' = calls s ++ [IoAcquireRemoveLockEx p a line size; IoAcquireRemoveLockEx p b line size;
                           IoReleaseRemoveLockEx p b size; IoReleaseRemoveLockEx p null size]).
Proof.
  intros Hp Hl. split; apply wp_bind; (eapply wp_remove_acquire; [done..|]); intros c s1 M1 C1 _.
  - eapply wp_remove_release; [done|rewrite M1; map_at|]. intros s2 _ C2.
    rewrite C2, C1, <- app_assoc. done.
  - apply wp_bind. eapply wp_remove_acquire; [done|rewrite M1; map_at|]. intros c2 s2 M2 C2 _.
    apply wp_bind. eapply wp_remove_release; [done|rewrite M2; map_at|]. intros s3 M3 C3.
    eapply wp_remove_release; [done|rewrite M3; map_at|]. intros s4 _ C4.
    rewrite C4, C3, C2, C1, <- !app_assoc. done.
Qed.
End removal.

Section dpcs.
Context {KN : Kernel} {LK : Linked} {U T : Type} `{!Storable U (WduDpc T)}.
Implicit Types s : world U.

(** The kernel is given the crate's DPC routine with the address of the
    [WduDpc]; when it calls it, the client's routine runs on that very
    [WduDpc]. The address is taken when the DPC is initialised: if the
    structure has moved away since, the routine reads freed memory. *)
Theorem dpc_runs_routine run p rtn ctx (d : WduDpc T) s :
  p <> 0 -> w_mem s !! p = Some (inj d) ->
  wp (WduDpc.init p rtn ctx) s (fun _ s1 =>
    calls s1 = calls s ++ [KeInitializeDpc p (code_addr "WduDpc::custom_dpc") p] /\
    (forall arg1 arg2, WduDpc.custom_dpc (T := T) run p p arg1 arg2 s1 = run rtn p s1) /\
    (forall arg1 arg2, let s2 := set_mem (delete p (w_mem s1)) s1 in
       WduDpc.custom_dpc (T := T) run p p arg1 arg2 s2 = Ub (Dangling p) s2)).
Proof.
  intros Hp Hd. unfold WduDpc.init. wp_step. eapply wp_update; [done..|]. wp_step.
  split; [by autorewrite with wdu|]. split; intros arg1 arg2.
  - unfold WduDpc.custom_dpc. erewrite bind_done by (apply load_at; [done|map_at]). done.
  - apply bind_ub. apply load_dangling; [done|]. map_at.
Qed.
End dpcs.

(** ** Instances *)

Module SyncDemo.
#[export] Instance statics : NtStatics := Build_NtStatics 1 2 3 4 5 6 7 8.
#[export] Instance linked : Linked :=
  {| size_of_WduDevice := 24; size_of_WduDriver := 72; code_addr s := 0x7000 |}.
Definition answer (c : kcall) : kret c :=
  match c as c return kret c with
  | ObReferenceObjectByHandle _ _ _ _ => (STATUS_SUCCESS, 0x600)
  | c => default_answer c
  end.
Definition start {U} (m : gmap ptr U) : @world (answering answer) U := world_of answer m.
End SyncDemo.
#[local] Existing Instance SyncDemo.statics.
#[local] Existing Instance SyncDemo.linked.

Lemma event_reference_balanced_witness :
  wp (with_event 4 2 ProcessorMode.UserMode (fun _ => mret tt)) (SyncDemo.start (U := unit) ∅)
    (fun r s' => r = None /\ calls s' = [ObReferenceObjectByHandle 4 2 7 1; ObfDereferenceObject 0x600]).
Proof.
  eapply wp_mono.
  - apply (event_reference_balanced 4 2 ProcessorMode.UserMode (fun _ => mret tt)
      (SyncDemo.start (U := unit) ∅)). intros e s1. reflexivity.
  - intros r s' [(_ & -> & ->)|([] & _)]; split; reflexivity.
Defined.

Lemma remove_lock_tags_witness :
  wp (WduRemoveLock.acquire 32 1 0x50 (Some 7) ;; WduRemoveLock.release 32 0x50)
    (SyncDemo.start (U := (WduRemoveLock + unit)%type) {[0x50 := inj WduRemoveLock.new]})
    (fun _ s' => calls s' = [IoAcquireRemoveLockEx 0x50 7 1 32; IoReleaseRemoveLockEx 0x50 7 32]).
Proof.
  eapply wp_mono.
  - apply (remove_lock_tags 32 1 0x50 7 8 WduRemoveLock.new
      (SyncDemo.start (U := (WduRemoveLock + unit)%type) {[0x50 := inj WduRemoveLock.new]}));
      [discriminate|vm_compute; reflexivity].
  - intros [] s' H. exact H.
Defined.

Lemma dpc_runs_routine_witness :
  wp (WduDpc.init (T := Z) 0x50 0x77 (Some 5))
    (SyncDemo.start (U := (WduDpc Z + unit)%type) {[0x50 := inj WduDpc.new]})
    (fun _ s' => calls s' = [KeInitializeDpc 0x50 0x7000 0x50]).
Proof.
  eapply wp_mono.
  - apply (dpc_runs_routine (fun _ _ => mret tt) 0x50 0x77 (Some 5) WduDpc.new
      (SyncDemo.start (U := (WduDpc Z + unit)%type) {[0x50 := inj WduDpc.new]}));
      [discriminate|vm_compute; reflexivity].
  - intros [] s' (H & _). exact H.
Defined.
