(* ===== verification/PushLock.v ===== *)
(** * PushLock: push locks, [sync/pushlock.rs]

    [release] decides by the member [access], which all holders share, how
    the lock is given back.  As for spin locks, the operations are lists of
    atomic actions, run by one thread or interleaved. *)

From S2P Require Import Prelude Nt World Sync Interleave LockApi.

Inductive PushLockAccess : Type := AccessNone | Exclusive | Shared.

#[export] Instance PushLockAccess_eq_dec : EqDecision PushLockAccess.
Proof. solve_decision. Defined.

Module WduPushLock.
Record WduPushLock : Type := mk {
  access : PushLockAccess;
  pushlock : Z
}.
Definition const_new : WduPushLock := {| access := AccessNone; pushlock := 0 |}.
Definition new : WduPushLock := {| access := AccessNone; pushlock := 0 |}.
Definition default : WduPushLock := new.

Inductive action : Type :=
| AcquireShared | AcquireExclusive
| SetAccess (a : PushLockAccess)
| ReadAccess
(* the routine for the access that was read *)
| ReleaseAsRead.

Definition acquired_shared_code : list action := [AcquireShared; SetAccess Shared].
Definition acquire_exclusive_code : list action := [AcquireExclusive; SetAccess Exclusive].
Definition release_code : list action := [ReadAccess; ReleaseAsRead].

Section Ops.
Context {KN : Kernel} {U : Type} `{!Storable U WduPushLock}.

(** The lock is at [self], [reg] is the thread's temporary. *)
Definition exec (self : ptr) (a : action) (reg : PushLockAccess) : M (world U) PushLockAccess :=
  match a with
  | AcquireShared => kcall_ (ExAcquirePushLockSharedEx self EX_DEFAULT_PUSH_LOCK_FLAGS) ;; mret reg
  | AcquireExclusive =>
      kcall_ (ExAcquirePushLockExclusiveEx self EX_DEFAULT_PUSH_LOCK_FLAGS) ;; mret reg
  | SetAccess a => update self (fun l => mk a (pushlock l)) ;; mret reg
  | ReadAccess => l ← load (T := WduPushLock) self; mret (access l)
  | ReleaseAsRead =>
      match reg with
      | Shared => kcall_ (ExReleasePushLockSharedEx self EX_DEFAULT_PUSH_LOCK_FLAGS)
      | Exclusive => kcall_ (ExReleasePushLockExclusiveEx self EX_DEFAULT_PUSH_LOCK_FLAGS)
      | AccessNone => mret tt
      end ;; mret reg
  end.

Fixpoint exec_all (self : ptr) (code : list action) (reg : PushLockAccess) : M (world U) unit :=
  match code with
  | [] => mret tt
  | a :: code => reg ← exec self a reg; exec_all self code reg
  end.

Definition init (self : ptr) : M (world U) unit := kcall_ (ExInitializePushLock self).
Definition acquired_shared (self : ptr) : M (world U) unit :=
  exec_all self acquired_shared_code AccessNone.
Definition acquire_exclusive (self : ptr) : M (world U) unit :=
  exec_all self acquire_exclusive_code AccessNone.
Definition release (self : ptr) : M (world U) unit := exec_all self release_code AccessNone.

(** *** [lock_api]

    The lock is at [self]; [slot] is where the method keeps its parameter. *)
Definition init_lock (slot self : ptr) : M (world U) unit := init (address_of_self slot self).
Definition lock_shared (slot self : ptr) : M (world U) unit :=
  acquired_shared (address_of_self slot self).
Definition lock_exclusive (slot self : ptr) : M (world U) unit :=
  acquire_exclusive (address_of_self slot self).
Definition unlock (slot self : ptr) : M (world U) unit := release (address_of_self slot self).

(** [RawRwLock] *)
Definition raw_lock_shared (slot self : ptr) : M (world U) unit :=
  enter_critical_region ;; lock_shared slot self.
Definition raw_unlock_shared (slot self : ptr) : M (world U) unit :=
  unlock slot self ;; leave_critical_region.
Definition raw_lock_exclusive (slot self : ptr) : M (world U) unit :=
  enter_critical_region ;; lock_exclusive slot self.
Definition raw_unlock_exclusive (slot self : ptr) : M (world U) unit :=
  unlock slot self ;; leave_critical_region.
Definition try_lock_shared (slot self : ptr) : M (world U) bool := panic "not implemented".
Definition try_lock_exclusive (slot self : ptr) : M (world U) bool := panic "not implemented".

#[global] Instance raw_rw_lock : RawRwLock U WduPushLock := {|
  rw_INIT := const_new;
  rw_lock_shared := raw_lock_shared;
  rw_try_lock_shared := try_lock_shared;
  rw_unlock_shared := raw_unlock_shared;
  rw_lock_exclusive := raw_lock_exclusive;
  rw_try_lock_exclusive := try_lock_exclusive;
  rw_unlock_exclusive := raw_unlock_exclusive
|}.
End Ops.
End WduPushLock.
Import WduPushLock (WduPushLock).

(** ** Many threads *)

(** Who holds the kernel's push lock, and the member [access]. *)
Record shared_push : Type := mkPush {
  readers : gset nat;
  writer : option nat;
  accessed : PushLockAccess
}.

(** A thread reads or writes. *)
Inductive mode : Type := Reads | Writes.

Definition access_of (m : mode) : PushLockAccess :=
  match m with Reads => Shared | Writes => Exclusive end.
Definition acquire_code_of (m : mode) : list WduPushLock.action :=
  match m with
  | Reads => WduPushLock.acquired_shared_code
  | Writes => WduPushLock.acquire_exclusive_code
  end.

(** The kernel's routines as documented; giving back a lock in a way it is
    not held is the end of the thread. *)
Definition push_act (t : nat) (a : WduPushLock.action) (sh : shared_push) (reg : PushLockAccess)
    : effect shared_push PushLockAccess :=
  match a with
  | WduPushLock.AcquireShared =>
      match writer sh with
      | Some _ => Waits
      | None => Runs (mkPush ({[t]} ∪ readers sh) None (accessed sh)) reg
      end
  | WduPushLock.AcquireExclusive =>
      match writer sh with
      | Some _ => Waits
      | None => if decide (readers sh = ∅) then Runs (mkPush ∅ (Some t) (accessed sh)) reg else Waits
      end
  | WduPushLock.SetAccess a => Runs (mkPush (readers sh) (writer sh) a) reg
  | WduPushLock.ReadAccess => Runs sh (accessed sh)
  | WduPushLock.ReleaseAsRead =>
      match reg with
      | Shared =>
          if decide (t ∈ readers sh)
          then Runs (mkPush (readers sh ∖ {[t]}) (writer sh) (accessed sh)) reg else Panics
      | Exclusive =>
          if decide (writer sh = Some t) then Runs (mkPush (readers sh) None (accessed sh)) reg
          else Panics
      | AccessNone => Runs sh reg
      end
  end.

Local Abbreviation sys := (state WduPushLock.action mode shared_push PushLockAccess).

Definition push_step : sys -> sys -> Prop :=
  step push_act (fun _ => acquire_code_of) (fun _ _ => WduPushLock.release_code).
Definition push_start : sys := start (mkPush ∅ None AccessNone) (fun _ => AccessNone).

(** ** Properties *)

Definition holds (t : nat) (m : mode) (sh : shared_push) : Prop :=
  match m with
  | Reads => t ∈ readers sh /\ writer sh = None
  | Writes => writer sh = Some t /\ readers sh = ∅
  end.
Definition out (t : nat) (sh : shared_push) : Prop := (t ∉ readers sh) /\ writer sh <> Some t.

Definition push_inv (t : nat) (sh : shared_push) (reg : PushLockAccess)
    (p : phase WduPushLock.action mode) : Prop :=
  match p with
  | Outside => out t sh
  | Inside m => holds t m sh /\ accessed sh = access_of m
  | Acquiring m todo =>
      (todo = acquire_code_of m /\ out t sh) \/
      (todo = [WduPushLock.SetAccess (access_of m)] /\ holds t m sh) \/
      (todo = [] /\ holds t m sh /\ accessed sh = access_of m)
  | Releasing m todo =>
      (todo = WduPushLock.release_code /\ holds t m sh /\ accessed sh = access_of m) \/
      (todo = [WduPushLock.ReleaseAsRead] /\ holds t m sh /\ reg = access_of m) \/
      (todo = [] /\ out t sh)
  | Crashed => False
  end.

(** What a step of another thread leaves of a thread's rights. *)
Definition push_frame (t : nat) (sh sh' : shared_push) : Prop := forall u, u <> t ->
  (out u sh -> out u sh') /\
  (forall m, holds u m sh -> holds u m sh' /\ (accessed sh = access_of m -> accessed sh' = access_of m)).

Lemma push_inv_frame t u sh sh' reg p :
  push_frame t sh sh' -> u <> t -> push_inv u sh reg p -> push_inv u sh' reg p.
Proof.
  intros Hf Hu. destruct (Hf u Hu) as [Ho Hh]. destruct p; simpl; try done.
  - intros [[-> H]|[[-> H]|(-> & H & Ha)]]; [left; by split; [|apply Ho]| |];
      destruct (Hh _ H) as [H1 H2]; right; [left|right]; auto.
  - intros [H Ha]. destruct (Hh _ H). auto.
  - intros [(-> & H & Ha)|[(-> & H & Ha)|[-> H]]];
      [destruct (Hh _ H) as [H1 H2]; left|destruct (Hh _ H) as [H1 H2]; right; left|right; right]; auto.
Qed.

Lemma push_act_acquire t m a todo sh reg :
  push_inv t sh reg (Acquiring m (a :: todo)) ->
  match push_act t a sh reg with
  | Waits => True
  | Panics => False
  | Runs sh' reg' => push_inv t sh' reg' (Acquiring m todo) /\ push_frame t sh sh'
  end.
Proof.
  simpl. intros [[H Ho]|[[H Hh]|[H _]]]; [| |done].
  - destruct m; injection H as -> ->; simpl; (destruct (writer sh) eqn:Ew; [done|]);
      [|case_decide; [|done]]; (split; [right; left; split; [done|]; simpl|]).
    + split; [set_solver|done].
    + intros u Hu. unfold out. simpl. split; [set_solver|]. intros []; simpl; [set_solver|].
      intros [? _]; congruence.
    + done.
    + intros u Hu. unfold out. simpl. split; [set_solver|]. intros []; simpl; [set_solver|].
      intros [? _]; congruence.
  - injection H as -> ->. simpl. split; [right; right; by destruct m|].
    intros u Hu. split; [done|]. intros m' Hm'. split; [by destruct m'|]. intros _. simpl.
    destruct m, m'; simpl in *; try done.
    + destruct Hm' as [_ E]. set_solver.
    + destruct Hm' as [_ E]. destruct Hh. congruence.
Qed.

Lemma push_act_release t m a todo sh reg :
  push_inv t sh reg (Releasing m (a :: todo)) ->
  match push_act t a sh reg with
  | Waits => True
  | Panics => False
  | Runs sh' reg' => push_inv t sh' reg' (Releasing m todo) /\ push_frame t sh sh'
  end.
Proof.
  simpl. intros [(H & Hh & Ha)|[(H & Hh & Ha)|[H _]]]; [| |done]; injection H as -> ->; simpl.
  - split; [right; left; done|]. intros u Hu. auto.
  - subst reg. destruct m; simpl in *; destruct Hh as [H1 H2]; rewrite decide_True by done;
      (split; [right; right; split; [done|]; split; simpl; [set_solver|congruence]|]);
      intros u Hu; unfold out; simpl; (split; [set_solver|]); intros []; simpl; set_solver.

Qed.

Lemma push_inv_step (s s' : sys) :
  (forall t, push_inv t (shared s) (locals s t) (phases s t)) -> push_step s s' ->
  forall t, push_inv t (shared s') (locals s' t) (phases s' t).
Proof.
  intros HI Hst. unfold push_step in Hst.
  assert (Hgo : forall t p sh' c', push_inv t sh' c' p -> push_frame t (shared s) sh' ->
    forall u, push_inv u sh' (upd t c' (locals s) u) (upd t p (phases s) u)).
  { intros t p sh' c' Hp Hf u. unfold upd. case_decide as E; [by subst|].
    by eapply push_inv_frame. }
  assert (Hnop : forall t p, push_inv t (shared s) (locals s t) p ->
    forall u, push_inv u (shared s) (locals s u) (upd t p (phases s) u)).
  { intros t p Hp u. unfold upd. case_decide as E; [by subst|apply HI]. }
  step_cases; pose proof (HI t) as Ht; rewrite Ph in Ht.
  - apply Hnop. by left.
  - apply Hnop. destruct Ht as [[H ?]|[[H ?]|[_ ?]]]; [by destruct m0|done..].
  - apply push_act_acquire in Ht. destruct (push_act _ _ _ _); simplify_eq; [done|].
    destruct Ht. by apply Hgo.
  - apply Hnop. left. by destruct Ht.
  - apply Hnop. by destruct Ht as [[H ?]|[[H ?]|[_ ?]]].
  - apply push_act_release in Ht. destruct (push_act _ _ _ _); simplify_eq; [done|].
    destruct Ht. by apply Hgo.
Qed.

(** With every thread outside, nobody holds the lock. *)
Lemma push_lock_free (s : sys) :
  (forall t, push_inv t (shared s) (locals s t) (phases s t)) -> (forall t, phases s t = Outside) ->
  readers (shared s) = ∅ /\ writer (shared s) = None.
Proof.
  intros HI Ho. assert (Hout : forall t, out t (shared s)) by (intros t; pose proof (HI t) as H; by rewrite Ho in H).
  split.
  - apply set_eq. intros t. split; [|set_solver]. intros Ht. by destruct (Hout t).
  - destruct (writer (shared s)) as [t|] eqn:E; [|done]. by destruct (Hout t) as [_ []].
Qed.

(** C19: however readers and writers interleave, a push lock excludes: a thread
    that is inside to write is the only one inside. And although [release]
    goes by a member that every holder overwrites, the lock is always given
    back the way it was taken, and no holder is left behind. *)
Theorem push_lock_releases_as_taken (s : sys) :
  rtc push_step push_start s ->
  (forall t, phases s t <> Crashed) /\
  (forall t u m, phases s t = Inside Writes -> phases s u = Inside m -> t = u) /\
  (forall t m, phases s t = Inside m -> accessed (shared s) = access_of m) /\
  ((forall t, phases s t = Outside) -> readers (shared s) = ∅ /\ writer (shared s) = None).
Proof.
  intros Hr.
  assert (HI : forall t, push_inv t (shared s) (locals s t) (phases s t)).
  { eapply (reachable_inv _ _ _ (fun s => forall t, push_inv t (shared s) (locals s t) (phases s t)));
      [|intros; by eapply push_inv_step|exact Hr]. by intros t. }
  split_and!.
  - intros t Ht. pose proof (HI t) as H. by rewrite Ht in H.
  - intros t u m Ht Hu. pose proof (HI t) as H1. pose proof (HI u) as H2.
    rewrite Ht in H1. rewrite Hu in H2. destruct H1 as [[H1 H1'] _], H2 as [H2 _].
    destruct m; simpl in H2; [set_solver|]. destruct H2. congruence.
  - intros t m Ht. pose proof (HI t) as H. rewrite Ht in H. by destruct H.
  - by apply push_lock_free.
Qed.

(** A thread that holds the lock, to read or to write, can go on. *)
Lemma push_holder_ready (s : sys) t :
  (forall t, push_inv t (shared s) (locals s t) (phases s t)) -> ~ out t (shared s) ->
  ready push_act (fun _ => acquire_code_of) (fun _ _ => WduPushLock.release_code) t s.
Proof.
  intros HI Hn. pose proof (HI t) as Ht. unfold push_inv in Ht. split; [|exists Reads]; unfold advance.
  { destruct (phases s t); done. }
  destruct (phases s t) as [|m [|a l]|m|m [|a l]|] eqn:Ph; try contradiction; try (by eexists).
  - destruct Ht as [[_ ?]|[[H _]|[? _]]]; [done|simplify_eq; by eexists|done].
  - assert (Hnw : push_act t a (shared s) (locals s t) <> Waits).
    { destruct Ht as [[H _]|[[H _]|[H _]]]; unfold WduPushLock.release_code in H;
        simplify_eq/=; repeat case_match; congruence. }
    destruct (push_act t a (shared s) (locals s t)); [done|by eexists..].
Qed.

Lemma push_progressive :
  Progressive push_act (fun _ => acquire_code_of) (fun _ _ => WduPushLock.release_code)
    (fun s => forall t, push_inv t (shared s) (locals s t) (phases s t)).
Proof.
  split.
  - intros s s' HI Hst. by apply (push_inv_step s).
  - intros s t HI Ht. pose proof (HI t) as H. by rewrite Ht in H.
  - intros s t m a todo HI _ E.
    destruct (writer (shared s)) as [u|] eqn:Ew.
    { exists u. apply push_holder_ready; [done|]. by intros [_ []]. }
    destruct (decide (readers (shared s) = ∅)) as [Er|(u & Hu)%set_choose_L].
    { destruct a; simpl in E; rewrite ?Ew in E; repeat case_match; done. }
    exists u. apply push_holder_ready; [done|]. by intros [].
Qed.

(** C20: readers and writers of a push lock do not hold one another up for
    ever: once nobody asks for the lock again, every schedule comes to an end,
    and it ends with every thread outside and the lock free. *)
Theorem push_lock_quiesces (s : sys) :
  rtc push_step push_start s ->
  let closing := closing push_act (fun _ => acquire_code_of) (fun _ _ => WduPushLock.release_code) in
  sn closing s /\ forall s', rtc closing s s' -> nf closing s' ->
    (forall t, phases s' t = Outside) /\ readers (shared s') = ∅ /\ writer (shared s') = None.
Proof.
  intros Hr. pose proof push_progressive. eapply quiesces_with; [done| |exact Hr|exact push_lock_free]. by intros t.
Qed.

Section lock_api.
Context {KN : Kernel} {U : Type} `{!Storable U WduPushLock}.
Implicit Types s : world U.

(** The [lock_api] operations of a push lock work on the wrong memory: the
    address they take is that of their own parameter. The kernel is asked for
    a lock at [slot], where there is none, and the store of the access kind
    to [slot] is out of the bounds of what is there; the lock itself is not
    touched. *)
Theorem push_lock_api_wrong_address slot self (l : WduPushLock) s :
  slot <> 0 -> slot <> self -> w_mem s !! self = Some (inj l) ->
  w_mem s !! slot ≫= prj (T := WduPushLock) = None ->
  exists s', WduPushLock.raw_lock_exclusive slot self s = Ub (Dangling slot) s' /\
    calls s' = calls s ++ [KeEnterCriticalRegion; ExAcquirePushLockExclusiveEx slot 0] /\
    w_mem s' !! self = Some (inj l).
Proof.
  intros Hs Hne Hl Hslot.
  unfold WduPushLock.raw_lock_exclusive, WduPushLock.lock_exclusive, address_of_self.
  eexists. split; [|split].
  - unfold enter_critical_region, WduPushLock.acquire_exclusive. simpl.
    erewrite bind_done by done. erewrite bind_done.
    2: { erewrite bind_done by done. done. }
    apply bind_ub, bind_ub, bind_ub. by apply load_fault.
  - autorewrite with wdu. by rewrite <- app_assoc.
  - done.
Qed.
End lock_api.

(** ** Instances *)

Module PushLockDemo.
(** Two readers share the lock; a writer asks and waits. *)
Definition sched : list (nat * mode) :=
  [(0, Reads); (0, Reads); (0, Reads); (0, Reads); (1, Reads); (1, Reads); (1, Reads); (1, Reads);
   (2, Writes); (0, Reads); (0, Reads); (0, Reads); (0, Reads); (1, Reads); (1, Reads); (1, Reads);
   (1, Reads); (2, Writes); (2, Writes); (2, Writes)]%nat.
Definition ended : sys :=
  ends push_act (fun _ => acquire_code_of) (fun _ _ => WduPushLock.release_code) sched push_start.
Abbreviation cells := (WduPushLock + (Z + unit))%type.
(** A lock at 0x40, a reference to it at 0x90. *)
Definition start : @world idle_kernel cells :=
  world_of default_answer {[0x40 := inj WduPushLock.new; 0x90 := inj 0x40]}.
End PushLockDemo.

Lemma push_lock_releases_as_taken_witness :
  phases PushLockDemo.ended 2%nat = Inside Writes /\
  accessed (shared PushLockDemo.ended) = Exclusive.
Proof.
  split; [vm_compute; reflexivity|].
  apply (push_lock_releases_as_taken PushLockDemo.ended) with (t := 2%nat) (m := Writes).
  - apply ends_reachable. vm_compute. eexists. reflexivity.
  - vm_compute. reflexivity.
Defined.

Lemma push_lock_api_wrong_address_witness :
  exists s', WduPushLock.raw_lock_exclusive 0x90 0x40 PushLockDemo.start = Ub (Dangling 0x90) s'.
Proof.
  destruct (push_lock_api_wrong_address 0x90 0x40 WduPushLock.new PushLockDemo.start) as (s' & H & _);
    [discriminate|discriminate|vm_compute; reflexivity|vm_compute; reflexivity|].
  exists s'. exact H.
Defined.

Lemma push_lock_quiesces_witness :
  sn (closing push_act (fun _ => acquire_code_of) (fun _ _ => WduPushLock.release_code)) PushLockDemo.ended.
Proof.
  apply (push_lock_quiesces PushLockDemo.ended). apply ends_reachable. vm_compute. eexists. reflexivity.
Defined.
