(* ===== verification/Mutex.v ===== *)
(** * Mutex: mutants, fast and guarded mutexes, [sync/mutex.rs]

    A mutex is at [self]; in the [lock_api] methods [slot] is where the
    method keeps its parameter. *)

From S2P Require Import Prelude Nt World Sync Interleave LockApi.

Module WduMutant.
(** [KMUTANT], its bytes as a number. *)
Record WduMutant : Type := mk { mutex : Z }.
Definition const_new : WduMutant := {| mutex := 0 |}.
Definition new : WduMutant := {| mutex := 0 |}.
Definition default : WduMutant := new.

Section Ops.
Context {KN : Kernel} {U : Type}.
Definition init (self : ptr) : M (world U) unit := kcall_ (KeInitializeMutex self 0).
Definition release (self : ptr) (wait : bool) : M (world U) unit :=
  kcall_ (KeReleaseMutex self (u8_from wait)) ;; mret tt.
Definition read_state (self : ptr) : M (world U) Z := kcall_ (KeReadStateMutex self).
End Ops.
End WduMutant.

Module WduFastMutex.
(** Of [FAST_MUTEX], the member the crate writes. *)
Record WduFastMutex : Type := mk { Count : Z }.
Definition const_new : WduFastMutex := {| Count := 0 |}.
Definition new : WduFastMutex := {| Count := 0 |}.
Definition default : WduFastMutex := new.

Section Ops.
Context {KN : Kernel} {U : Type}.
Definition init `{!Storable U WduFastMutex} (self : ptr) : M (world U) unit :=
  update self (fun _ => {| Count := i32 FM_LOCK_BIT |}) ;;
  kcall_ (KeInitializeEvent self SynchronizationEvent (u8_from false)).
Definition acquire (self : ptr) : M (world U) unit := kcall_ (ExAcquireFastMutex self).
Definition acquire_unsafe (self : ptr) : M (world U) unit := kcall_ (ExAcquireFastMutexUnsafe self).
Definition try_acquire (self : ptr) : M (world U) bool :=
  r ← kcall_ (ExTryToAcquireFastMutex self); mret (r =? u8_from true).
Definition release (self : ptr) : M (world U) unit := kcall_ (ExReleaseFastMutex self).
Definition release_unsafe (self : ptr) : M (world U) unit := kcall_ (ExReleaseFastMutexUnsafe self).

(** *** [lock_api] *)
Definition init_lock `{!Storable U WduFastMutex} (slot self : ptr) : M (world U) unit :=
  init (address_of_self slot self).
Definition lock (slot self : ptr) : M (world U) unit := acquire (address_of_self slot self).
Definition try_lock (slot self : ptr) : M (world U) bool := try_acquire (address_of_self slot self).
Definition unlock (slot self : ptr) : M (world U) unit := release (address_of_self slot self).

(** The methods of the trait call the inherent ones. *)
#[global] Instance raw_mutex : RawMutex U WduFastMutex := {|
  mutex_INIT := const_new;
  mutex_lock := lock;
  mutex_try_lock := try_lock;
  mutex_unlock := unlock
|}.
End Ops.
End WduFastMutex.

Module WduGuardedMutex.
(** [FAST_MUTEX], its bytes as a number. *)
Record WduGuardedMutex : Type := mk { mutex : Z }.
Definition const_new : WduGuardedMutex := {| mutex := 0 |}.
Definition new : WduGuardedMutex := {| mutex := 0 |}.
Definition default : WduGuardedMutex := new.

Section Ops.
Context {KN : Kernel} {U : Type}.
Definition init (self : ptr) : M (world U) unit := kcall_ (KeInitializeGuardedMutex self).
Definition acquire (self : ptr) : M (world U) unit := kcall_ (KeAcquireGuardedMutex self).
Definition acquire_unsafe (self : ptr) : M (world U) unit :=
  kcall_ (KeAcquireGuardedMutexUnsafe self).
Definition try_acquire (self : ptr) : M (world U) bool :=
  r ← kcall_ (KeTryToAcquireGuardedMutex self); mret (r =? u8_from true).
Definition release (self : ptr) : M (world U) unit := kcall_ (KeReleaseGuardedMutex self).
Definition release_unsafe (self : ptr) : M (world U) unit :=
  kcall_ (KeReleaseGuardedMutexUnsafe self).

(** *** [lock_api] *)
Definition init_lock (slot self : ptr) : M (world U) unit := init (address_of_self slot self).
Definition lock (slot self : ptr) : M (world U) unit := acquire (address_of_self slot self).
Definition try_lock (slot self : ptr) : M (world U) bool := try_acquire (address_of_self slot self).
Definition unlock (slot self : ptr) : M (world U) unit := release (address_of_self slot self).

(** The methods of the trait call the inherent ones. *)
#[global] Instance raw_mutex : RawMutex U WduGuardedMutex := {|
  mutex_INIT := const_new;
  mutex_lock := lock;
  mutex_try_lock := try_lock;
  mutex_unlock := unlock
|}.
End Ops.
End WduGuardedMutex.

(** ** Many threads

    The calls an operation makes are the atomic actions of its thread. *)

Definition program_of {A} (m : M (@world idle_kernel unit) A) : list kcall :=
  match m (world_of default_answer ∅) with Done _ s => calls s | _ => [] end.

(** The pair of operations a thread uses. *)
Inductive pair : Type := Fast | FastUnsafe | Guarded | GuardedUnsafe.

#[export] Instance pair_eq_dec : EqDecision pair.
Proof. solve_decision. Defined.

(** Of a fast or of a guarded mutex. *)
Definition is_guarded (k : pair) : bool := match k with Fast | FastUnsafe => false | _ => true end.

Definition acquire_pair {KN : Kernel} {U} (k : pair) (p : ptr) : M (world U) unit :=
  match k with
  | Fast => WduFastMutex.acquire p
  | FastUnsafe => WduFastMutex.acquire_unsafe p
  | Guarded => WduGuardedMutex.acquire p
  | GuardedUnsafe => WduGuardedMutex.acquire_unsafe p
  end.
Definition release_pair {KN : Kernel} {U} (k : pair) (p : ptr) : M (world U) unit :=
  match k with
  | Fast => WduFastMutex.release p
  | FastUnsafe => WduFastMutex.release_unsafe p
  | Guarded => WduGuardedMutex.release p
  | GuardedUnsafe => WduGuardedMutex.release_unsafe p
  end.

(** The [lock_api] pairs, through the trait: the unsafe ones have none. *)
Definition api_lock {KN : Kernel} {U} (guarded : bool) (slot p : ptr) : M (world U) unit :=
  if guarded then mutex_lock WduGuardedMutex.WduGuardedMutex slot p
  else mutex_lock WduFastMutex.WduFastMutex slot p.
Definition api_unlock {KN : Kernel} {U} (guarded : bool) (slot p : ptr) : M (world U) unit :=
  if guarded then mutex_unlock WduGuardedMutex.WduGuardedMutex slot p
  else mutex_unlock WduFastMutex.WduFastMutex slot p.

(** *** The routines, as they are documented

    A routine does what its documentation says where the caller keeps to what
    it asks for; a call that does not is the end of the thread ([Panics]),
    since nothing is documented of it.  It asks for: a mutex of the routine's
    kind that was initialised; an IRQL of at most APC_LEVEL, and for the
    unsafe routines that APCs are off already; a mutex the thread does not
    have yet; and that a mutex is given back by its owner, with the routine
    that belongs to the one it was acquired with. *)

Definition APC_LEVEL : Z := 1.

(** Of a thread: its IRQL, whether it is in a critical region, and how many
    guarded regions it is in. *)
Record thread : Type := mkThread { irql : Z; critical : bool; regions : nat }.

(** A mutex at an address: its kind; who has it, how it was acquired, and at
    which IRQL. *)
Record kernel_mutex : Type := mkMutex { km_guarded : bool; km_held : option (nat * pair * Z) }.

Definition allowed (k : pair) (th : thread) : bool :=
  (irql th <=? APC_LEVEL) &&
  match k with
  | Fast | Guarded => true
  | FastUnsafe => (irql th =? APC_LEVEL) || critical th || (0 <? regions th)%nat
  | GuardedUnsafe => (irql th =? APC_LEVEL) || (0 <? regions th)%nat
  end.

(** [ExAcquireFastMutex] raises the IRQL to APC_LEVEL, and the mutex keeps the
    old one; [KeAcquireGuardedMutex] enters a guarded region; the unsafe
    routines do neither. *)
Definition entered (k : pair) (th : thread) : thread :=
  match k with
  | Fast => mkThread APC_LEVEL (critical th) (regions th)
  | Guarded => mkThread (irql th) (critical th) (S (regions th))
  | FastUnsafe | GuardedUnsafe => th
  end.
Definition left_again (k : pair) (old : Z) (th : thread) : thread :=
  match k with
  | Fast => mkThread old (critical th) (regions th)
  | Guarded => mkThread (irql th) (critical th) (pred (regions th))
  | FastUnsafe | GuardedUnsafe => th
  end.

Local Abbreviation kernel := (gmap ptr kernel_mutex).

Definition take (t : nat) (k : pair) (p : ptr) (sh : kernel) (th : thread) : effect kernel thread :=
  match sh !! p with
  | Some (mkMutex g held) =>
      if eqb g (is_guarded k) && allowed k th then
        match held with
        | None => Runs (<[p := mkMutex g (Some (t, k, irql th))]> sh) (entered k th)
        | Some (u, _, _) => if decide (u = t) then Panics else Waits
        end
      else Panics
  | None => Panics
  end.
Definition give (t : nat) (k : pair) (p : ptr) (sh : kernel) (th : thread) : effect kernel thread :=
  match sh !! p with
  | Some (mkMutex g (Some (u, k', old))) =>
      if decide (u = t /\ k' = k) then Runs (<[p := mkMutex g None]> sh) (left_again k old th) else Panics
  | _ => Panics
  end.

Definition mutex_act (t : nat) (c : kcall) : kernel -> thread -> effect kernel thread :=
  match c with
  | ExAcquireFastMutex p => take t Fast p
  | ExAcquireFastMutexUnsafe p => take t FastUnsafe p
  | KeAcquireGuardedMutex p => take t Guarded p
  | KeAcquireGuardedMutexUnsafe p => take t GuardedUnsafe p
  | ExReleaseFastMutex p => give t Fast p
  | ExReleaseFastMutexUnsafe p => give t FastUnsafe p
  | KeReleaseGuardedMutex p => give t Guarded p
  | KeReleaseGuardedMutexUnsafe p => give t GuardedUnsafe p
  | _ => fun _ _ => Panics
  end.

(** *** The start: a new mutex at [p], initialised by [init]

    [KeInitializeGuardedMutex] makes a guarded mutex; a fast mutex is what
    [ExInitializeFastMutex] of the headers makes of it: the lock bit set, and
    a synchronization event that is not signalled. *)

Abbreviation cells := (WduFastMutex.WduFastMutex + (WduGuardedMutex.WduGuardedMutex + unit))%type.

Definition init_pair (guarded : bool) (p : ptr) : M (@world idle_kernel cells) unit :=
  if guarded then WduGuardedMutex.init p else WduFastMutex.init p.

Definition is_initialised (guarded : bool) (p : ptr) (s : @world idle_kernel cells) : bool :=
  if guarded
  then existsb (fun c => if c is KeInitializeGuardedMutex q then q =? p else false) (calls s)
  else existsb (fun c => if c is KeInitializeEvent q ty signalled
                           then (q =? p) && (ty =? SynchronizationEvent) && (signalled =? 0) else false) (calls s) &&
       (if w_mem s !! p ≫= prj (T := WduFastMutex.WduFastMutex) is Some m
        then WduFastMutex.Count m =? FM_LOCK_BIT else false).

Definition objects (guarded : bool) (p : ptr) : kernel :=
  let new : cells := if guarded then inj (T := WduGuardedMutex.WduGuardedMutex) WduGuardedMutex.new
                     else inj (T := WduFastMutex.WduFastMutex) WduFastMutex.new in
  match init_pair guarded p (world_of default_answer {[p := new]}) with
  | Done _ s => if is_initialised guarded p s then {[p := mkMutex guarded None]} else ∅
  | _ => ∅
  end.

Section threads.
Context (guarded : bool) (p : ptr) (uses : nat -> pair) (base : nat -> thread).
Local Abbreviation sys := (state kcall unit kernel thread).

Definition mutex_start : sys := start (objects guarded p) base.
Definition acquire_of (t : nat) (_ : unit) : list kcall := program_of (acquire_pair (uses t) p).
Definition release_of (t : nat) (_ : unit) : list kcall := program_of (release_pair (uses t) p).
Definition mutex_step : sys -> sys -> Prop := step mutex_act acquire_of release_of.
Definition mutex_ends (sched : list nat) : sys :=
  ends mutex_act acquire_of release_of ((fun t => (t, tt)) <$> sched) mutex_start.
End threads.

(** All threads through [lock_api]; a thread [t] calls its methods with the
    parameter at [slot t]. *)
Definition api_acquire (guarded : bool) (slot : nat -> ptr) (p : ptr) (t : nat) (_ : unit) : list kcall :=
  program_of (api_lock guarded (slot t) p).
Definition api_release (guarded : bool) (slot : nat -> ptr) (p : ptr) (t : nat) (_ : unit) : list kcall :=
  program_of (api_unlock guarded (slot t) p).
Definition api_step (guarded : bool) (slot : nat -> ptr) (p : ptr)
    : state kcall unit kernel thread -> state kcall unit kernel thread -> Prop :=
  step mutex_act (api_acquire guarded slot p) (api_release guarded slot p).

(** ** Properties *)

Lemma wp_init_pair guarded p (s : @world idle_kernel cells) :
  p <> 0 -> (guarded = false -> exists m : WduFastMutex.WduFastMutex, w_mem s !! p = Some (inj m)) ->
  wp (init_pair guarded p) s (fun _ s' => is_initialised guarded p s' = true).
Proof.
  intros Hp Hm. unfold init_pair, is_initialised. destruct guarded.
  - unfold WduGuardedMutex.init. wp_step. rewrite calls_kafter, existsb_app. simpl. by rewrite Z.eqb_refl, orb_true_r.
  - destruct Hm as [m Hm]; [done|]. unfold WduFastMutex.init. wp_step. eapply wp_update; [done..|]. wp_step.
    rewrite calls_kafter, existsb_app, mem_kafter, mem_set_mem, lookup_insert_eq. simpl.
    by rewrite Z.eqb_refl, orb_true_r.
Qed.

(** [init] makes a mutex of a new one. *)
Lemma objects_init guarded p : p <> 0 -> objects guarded p = {[p := mkMutex guarded None]}.
Proof.
  intros Hp. unfold objects. destruct (wp_elim _ _ _ (wp_init_pair guarded p (world_of default_answer
    {[p := if guarded then inj (T := WduGuardedMutex.WduGuardedMutex) WduGuardedMutex.new
           else inj (T := WduFastMutex.WduFastMutex) WduFastMutex.new]}) Hp
    ltac:(intros ->; eexists; apply lookup_singleton_eq))) as ([] & s & E & H).
  cbv zeta. by rewrite E, H.
Qed.

Section exclusion.
Context (guarded : bool) (p : ptr) (uses : nat -> pair) (base : nat -> thread).

(** The threads use the routines of the mutex's kind, from where they may. *)
Definition well_used : Prop :=
  p <> 0 /\ forall t, is_guarded (uses t) = guarded /\ allowed (uses t) (base t) = true.

Definition holding (t : nat) (sh : gmap ptr kernel_mutex) (th : thread) : Prop :=
  sh !! p = Some (mkMutex guarded (Some (t, uses t, irql (base t)))) /\ th = entered (uses t) (base t).
Definition away (t : nat) (sh : gmap ptr kernel_mutex) (th : thread) : Prop :=
  (exists held, sh !! p = Some (mkMutex guarded held) /\ forall k old, held <> Some (t, k, old)) /\ th = base t.

Definition mutex_inv (t : nat) (sh : gmap ptr kernel_mutex) (th : thread) (ph : phase kcall unit) : Prop :=
  match ph with
  | Outside => away t sh th
  | Inside _ => holding t sh th
  | Acquiring _ todo => (todo = [] /\ holding t sh th) \/ (todo = acquire_of p uses t tt /\ away t sh th)
  | Releasing _ todo => (todo = [] /\ away t sh th) \/ (todo = release_of p uses t tt /\ holding t sh th)
  | Crashed => False
  end.
Local Abbreviation inv s := (forall t, mutex_inv t (shared s) (locals s t) (phases s t)).

(** What a step of a thread leaves to another one. *)
Definition same_for (u : nat) (sh sh' : gmap ptr kernel_mutex) : Prop :=
  (forall th, holding u sh th -> holding u sh' th) /\ (forall th, away u sh th -> away u sh' th).

(** The program of a pair is one call, whose effect is the routine's. *)
Lemma mutex_act_acquire t k l sh th : well_used -> k :: l = acquire_of p uses t tt -> away t sh th ->
  l = [] /\ (mutex_act t k sh th = Waits /\ (exists u, u <> t /\ ~ away u sh (base u)) \/
    exists sh' th', mutex_act t k sh th = Runs sh' th' /\ holding t sh' th' /\
      forall u, u <> t -> same_for u sh sh').
Proof.
  intros [_ Hw] E [(held & Hsh & Hno) ->]. destruct (Hw t) as [Hg Ha].
  assert (Hact : l = [] /\ mutex_act t k = take t (uses t) p) by (unfold acquire_of in E; by destruct (uses t); injection E as -> ->).
  destruct Hact as [-> ->]. split; [done|]. unfold take. rewrite Hsh, Hg, eqb_reflx, Ha. simpl.
  destruct held as [[[u k'] old]|].
  - left. rewrite decide_False by (intros ->; by apply (Hno k' old)). split; [done|]. exists u. split; [intros ->; by apply (Hno k' old)|].
    intros [(h & E' & Hn) _]. rewrite Hsh in E'. injection E' as <-. by apply (Hn k' old).
  - right. do 2 eexists. split; [done|]. split; [split; [by simplify_map_eq|done]|].
    intros u Hu. split; intros th; [intros [H _]; by simplify_map_eq|intros [_ ->]].
    split; [eexists; split; [by simplify_map_eq|]|done]. congruence.
Qed.

Lemma mutex_act_release t k l sh th : well_used -> k :: l = release_of p uses t tt -> holding t sh th ->
  l = [] /\ exists sh' th', mutex_act t k sh th = Runs sh' th' /\ away t sh' th' /\
    forall u, u <> t -> same_for u sh sh'.
Proof.
  intros [_ Hw] E [Hsh ->]. destruct (Hw t) as [Hg Ha].
  assert (Hact : l = [] /\ mutex_act t k = give t (uses t) p) by (unfold release_of in E; by destruct (uses t); injection E as -> ->).
  destruct Hact as [-> ->]. split; [done|]. unfold give. rewrite Hsh, decide_True by done.
  do 2 eexists. split; [done|]. split; [split; [eexists; split; [by simplify_map_eq|done]|]|].
  - by destruct (uses t), (base t).
  - intros u Hu. split; intros th; [intros [H _]; simplify_map_eq; congruence|intros [_ ->]].
    split; [eexists; split; [by simplify_map_eq|done]|done].
Qed.

Lemma mutex_inv_frame u sh sh' th ph : same_for u sh sh' -> mutex_inv u sh th ph -> mutex_inv u sh' th ph.
Proof. intros [Hh Ha]. destruct ph; simpl; naive_solver. Qed.

Lemma mutex_inv_step s s' : well_used -> inv s -> mutex_step p uses s s' -> inv s'.
Proof.
  intros Hw HI Hst. unfold mutex_step in Hst.
  assert (Hgo : forall t ph sh' th', mutex_inv t sh' th' ph -> (forall u, u <> t -> same_for u (shared s) sh') ->
    forall u, mutex_inv u sh' (upd t th' (locals s) u) (upd t ph (phases s) u)).
  { intros t ph sh' th' Hp Hf u. unfold upd. case_decide as E; [by subst|]. by eapply mutex_inv_frame; [apply Hf|]. }
  assert (Hnop : forall t ph, mutex_inv t (shared s) (locals s t) ph ->
    forall u, mutex_inv u (shared s) (locals s u) (upd t ph (phases s) u)).
  { intros t ph Hp u. unfold upd. case_decide as E; [by subst|apply HI]. }
  step_cases; pose proof (HI t) as Ht; rewrite Ph in Ht; simpl in Ht.
  - apply Hnop. right. by destruct m.
  - apply Hnop. destruct Ht as [[_ ?]|[H _]]; [done|]. unfold acquire_of in H. by destruct (uses t).
  - destruct Ht as [[H _]|[H Ha]]; [done|].
    destruct (mutex_act_acquire _ _ _ _ _ Hw H Ha) as (-> & [[E' _]|(sh' & th' & E' & Hh & Hf)]);
      rewrite E' in E; simplify_eq. apply Hgo; [by left|done].
  - apply Hnop. right. by destruct m.
  - apply Hnop. destruct Ht as [[_ ?]|[H _]]; [done|]. unfold release_of in H. by destruct (uses t).
  - destruct Ht as [[H _]|[H Hh]]; [done|].
    destruct (mutex_act_release _ _ _ _ _ Hw H Hh) as (-> & sh' & th' & E' & Ha & Hf);
      rewrite E' in E; simplify_eq. apply Hgo; [by left|done].
Qed.

Lemma mutex_inv_start : well_used -> inv (mutex_start guarded p base).
Proof.
  intros [Hp _] t. simpl. split; [|done]. exists None. split; [|done]. rewrite objects_init by done. apply lookup_singleton_eq.
Qed.

Lemma mutex_inv_reachable s : well_used -> rtc (mutex_step p uses) (mutex_start guarded p base) s -> inv s.
Proof.
  intros Hw Hr. eapply (reachable_inv _ _ _ (fun s => inv s)); [by apply mutex_inv_start| |exact Hr].
  intros. by eapply mutex_inv_step.
Qed.

(** C36: threads that call [acquire] and [release] of one initialised mutex -
    of a fast or a guarded one, each thread checked or unsafe, from an IRQL
    and regions the routine asks for - exclude one another, and no thread
    breaks the documentation of a routine it calls: each gives the mutex back
    as its owner and with the routine that belongs to the one it took it with.
    Inside, a thread has APCs off the way its routine promises; outside it
    again runs at the IRQL and in the regions it started from. *)
Theorem mutex_excludes s :
  well_used -> rtc (mutex_step p uses) (mutex_start guarded p base) s ->
  (forall t u m n, phases s t = Inside m -> phases s u = Inside n -> t = u) /\
  (forall t, phases s t <> Crashed) /\
  (forall t m, phases s t = Inside m -> locals s t = entered (uses t) (base t)) /\
  (forall t, phases s t = Outside -> locals s t = base t).
Proof.
  intros Hw Hr. pose proof (mutex_inv_reachable _ Hw Hr) as HI. split_and!.
  - intros t u m n Ht Hu. pose proof (HI t) as H1. pose proof (HI u) as H2.
    rewrite Ht in H1. rewrite Hu in H2. destruct H1 as [H1 _], H2 as [H2 _]. congruence.
  - intros t Ht. pose proof (HI t) as H. by rewrite Ht in H.
  - intros t m Ht. pose proof (HI t) as H. rewrite Ht in H. by destruct H.
  - intros t Ht. pose proof (HI t) as H. rewrite Ht in H. by destruct H.
Qed.

(** The owner of the mutex can go on. *)
Lemma mutex_owner_ready s t : well_used -> inv s -> ~ away t (shared s) (base t) ->
  ready mutex_act (acquire_of p uses) (release_of p uses) t s.
Proof.
  intros Hw HI Ho. pose proof (HI t) as Ht.
  assert (Hn : forall th, ~ away t (shared s) th) by (intros th [H ->]; by apply Ho).
  unfold mutex_inv in Ht. split; [|exists tt]; unfold advance.
  { destruct (phases s t); try done. by apply Hn in Ht. }
  destruct (phases s t) as [|m [|a l]|m|m [|a l]|] eqn:Ph; try contradiction; try (by eexists).
  - destruct Ht as [[? _]|[_ Ha]]; [done|by apply Hn in Ha].
  - destruct Ht as [[? _]|[H Hh]]; [done|].
    destruct (mutex_act_release _ _ _ _ _ Hw H Hh) as (_ & ? & ? & -> & _). by eexists.
Qed.

(** A thread that waits has a call of [acquire] to make on the mutex. *)
Lemma mutex_progressive : well_used ->
  Progressive mutex_act (acquire_of p uses) (release_of p uses) (fun s => inv s).
Proof.
  intros Hw. split.
  - intros s s' HI Hst. by eapply mutex_inv_step.
  - intros s t HI Ht. pose proof (HI t) as H. by rewrite Ht in H.
  - intros s t m a todo HI Ph E. pose proof (HI t) as Ht. destruct Ph as [Ph|Ph]; rewrite Ph in Ht; destruct Ht as [[? _]|[H Ha]]; try done.
    + destruct (mutex_act_acquire _ _ _ _ _ Hw H Ha) as (_ & [[_ (u & _ & Hu)]|(? & ? & E' & _)]); [|congruence].
      exists u. by apply mutex_owner_ready.
    + destruct (mutex_act_release _ _ _ _ _ Hw H Ha) as (_ & ? & ? & E' & _). congruence.
Qed.

(** Threads that call [acquire] and [release] on one mutex get on: once
    nobody asks for it again, every schedule comes to an end, and it ends with
    every thread outside and the mutex free. *)
Theorem mutex_quiesces s :
  well_used -> rtc (mutex_step p uses) (mutex_start guarded p base) s ->
  let closing := closing mutex_act (acquire_of p uses) (release_of p uses) in
  sn closing s /\ forall s', rtc closing s s' -> nf closing s' ->
    (forall t, phases s' t = Outside) /\ shared s' !! p = Some (mkMutex guarded None).
Proof.
  intros Hw Hr. pose proof (mutex_progressive Hw).
  eapply (quiesces_with _ _ _ (fun s => inv s)); [by apply mutex_inv_start|exact Hr|]. intros s' HI Ho.
  pose proof (HI 0%nat) as H0. rewrite Ho in H0. destruct H0 as [([[[u k] old]|] & Hsh & _) _]; [|done].
  pose proof (HI u) as Hu. rewrite Ho in Hu. destruct Hu as [(h & E & Hh) _]. rewrite Hsh in E. injection E as <-.
  by destruct (Hh k old).
Qed.
End exclusion.

(** C37: the [lock_api] methods never get to the mutex: the address they give
    to the kernel is that of their own parameter, where no mutex was
    initialised, so that the call is not one its documentation allows.  At
    whatever moment a thread asks, it comes to that call and not further; no
    thread ever gets inside, and the mutex stays free. *)
Theorem lock_api_mutex_wrong_address guarded slot p base s :
  p <> 0 -> (forall t, slot t <> p) ->
  rtc (api_step guarded slot p) (mutex_start guarded p base) s ->
  shared s = {[p := mkMutex guarded None]} /\
  (forall t, phases s t = Outside -> exists s1 s2,
     advance mutex_act (api_acquire guarded slot p) (api_release guarded slot p) t tt s = Some s1 /\
     phases s1 t = Acquiring tt [if guarded then KeAcquireGuardedMutex (slot t) else ExAcquireFastMutex (slot t)] /\
     advance mutex_act (api_acquire guarded slot p) (api_release guarded slot p) t tt s1 = Some s2 /\
     phases s2 t = Crashed) /\
  (forall t m, phases s t <> Inside m).
Proof.
  intros Hp Hslot Hr.
  set (call t := if guarded then KeAcquireGuardedMutex (slot t) else ExAcquireFastMutex (slot t)).
  assert (Hacq : forall t m, api_acquire guarded slot p t m = [call t]) by (intros t m; by destruct guarded).
  assert (Hact : forall t th, mutex_act t (call t) {[p := mkMutex guarded None]} th = Panics).
  { intros t th. unfold call. destruct guarded; simpl; unfold take; by rewrite lookup_singleton_ne. }
  assert (HI : shared s = {[p := mkMutex guarded None]} /\
    forall t, phases s t = Outside \/ phases s t = Acquiring tt [call t] \/ phases s t = Crashed).
  { eapply (reachable_inv _ _ _ (fun s => shared s = {[p := mkMutex guarded None]} /\
      forall t, phases s t = Outside \/ phases s t = Acquiring tt [call t] \/ phases s t = Crashed)); [| |exact Hr].
    - simpl. split; [by apply objects_init|]. by left.
    - clear s Hr. intros s s' [Hsh Hph] (t & m & E). unfold advance in E. destruct (Hph t) as [Ph|[Ph|Ph]]; rewrite Ph in E; simpl in E.
      + injection E as <-. rewrite Hacq. destruct m. split; [done|]. intros u. simpl. unfold upd. case_decide as Eu; [subst; auto|apply Hph].
      + rewrite Hsh, Hact in E. injection E as <-. split; [done|]. intros u. simpl. unfold upd. case_decide; [auto|apply Hph].
      + done. }
  destruct HI as [Hsh Hph]. split; [done|]. split; [|intros t m E; destruct (Hph t) as [H|[H|H]]; congruence].
  intros t Ht. unfold advance at 1. rewrite Ht, Hacq. do 2 eexists. split; [done|]. split; [simpl; by rewrite upd_eq|].
  unfold advance. simpl. rewrite upd_eq, Hsh, Hact. split; [done|]. simpl. by rewrite upd_eq.
Qed.

(** ** Instances *)

Module MutexDemo.
Definition slot (t : nat) : ptr := 0x1000 + 0x100 * Z.of_nat t.
(** The even threads use the checked routines, from PASSIVE_LEVEL; the odd
    ones the unsafe ones, in a guarded region. *)
Definition uses (guarded : bool) (t : nat) : pair :=
  if Nat.even t then (if guarded then Guarded else Fast) else (if guarded then GuardedUnsafe else FastUnsafe).
Definition base (t : nat) : thread := mkThread 0 false (if Nat.even t then 0 else 1).
(** Thread 0 has been inside, thread 1 is, thread 2 has asked. *)
Definition sched : list nat := [0; 0; 0; 2; 0; 0; 0; 1; 1; 1]%nat.
End MutexDemo.

Lemma demo_well_used guarded : well_used guarded 0x40 (MutexDemo.uses guarded) MutexDemo.base.
Proof.
  split; [done|]. intros t. unfold MutexDemo.uses, MutexDemo.base, allowed. destruct (Nat.even t), guarded; by split.
Qed.

Lemma mutex_excludes_witness :
  let s := mutex_ends false 0x40 (MutexDemo.uses false) MutexDemo.base MutexDemo.sched in
  phases s 1%nat = Inside tt /\ phases s 2%nat <> Crashed /\ irql (locals s 0%nat) = 0.
Proof.
  cbv zeta. split; [vm_compute; reflexivity|].
  destruct (mutex_excludes false 0x40 (MutexDemo.uses false) MutexDemo.base
    (mutex_ends false 0x40 (MutexDemo.uses false) MutexDemo.base MutexDemo.sched)) as (_ & H1 & _ & H2).
  - apply demo_well_used.
  - apply ends_reachable. vm_compute. eexists. reflexivity.
  - split; [apply H1|]. rewrite H2; vm_compute; reflexivity.
Defined.

Lemma lock_api_mutex_wrong_address_witness :
  exists s1 s2,
    advance mutex_act (api_acquire true MutexDemo.slot 0x40) (api_release true MutexDemo.slot 0x40) 0%nat tt
      (mutex_start true 0x40 MutexDemo.base) = Some s1 /\
    advance mutex_act (api_acquire true MutexDemo.slot 0x40) (api_release true MutexDemo.slot 0x40) 0%nat tt
      s1 = Some s2 /\ phases s2 0%nat = Crashed.
Proof.
  destruct (lock_api_mutex_wrong_address true MutexDemo.slot 0x40 MutexDemo.base (mutex_start true 0x40 MutexDemo.base))
    as (_ & H & _).
  - discriminate.
  - unfold MutexDemo.slot. intros t. lia.
  - apply rtc_refl.
  - destruct (H 0%nat eq_refl) as (s1 & s2 & E1 & _ & E2 & Hc). exists s1, s2. split; [exact E1|]. split; [exact E2|exact Hc].
Defined.

Lemma mutex_quiesces_witness :
  sn (closing mutex_act (acquire_of 0x40 (MutexDemo.uses true)) (release_of 0x40 (MutexDemo.uses true)))
    (mutex_ends true 0x40 (MutexDemo.uses true) MutexDemo.base MutexDemo.sched).
Proof.
  apply (mutex_quiesces true 0x40 (MutexDemo.uses true) MutexDemo.base); [apply demo_well_used|].
  apply ends_reachable. vm_compute. eexists. reflexivity.
Defined.
