(* ===== verification/EResource.v ===== *)
(** * EResource: executive resources, [sync/eresource.rs] *)

From S2P Require Import Prelude Nt World Sync LockApi.

Module WduEResource.
(** [ERESOURCE], its bytes as a number. *)
Record WduEResource : Type := mk { resource : Z }.
Definition const_new : WduEResource := {| resource := 0 |}.

Section Ops.
Context {KN : Kernel} {U : Type}.

Definition init (self : ptr) : M (world U) unit := kcall_ (ExInitializeResourceLite self) ;; mret tt.
Definition delete (self : ptr) : M (world U) unit := kcall_ (ExDeleteResourceLite self) ;; mret tt.
(** A zeroed resource, initialised at [slot] of the frame and then returned
    by value. *)
Definition default (slot : ptr) : M (world U) unit := init slot.
Definition drop (self : ptr) : M (world U) unit := delete self.
Definition acquired_shared (self : ptr) (wait : bool) : M (world U) bool :=
  r ← kcall_ (ExAcquireResourceSharedLite self (u8_from wait)); mret (r =? u8_from true).
Definition acquire_exclusive (self : ptr) (wait : bool) : M (world U) bool :=
  r ← kcall_ (ExAcquireResourceExclusiveLite self (u8_from wait)); mret (r =? u8_from true).
Definition convert_to_shared (self : ptr) : M (world U) unit :=
  kcall_ (ExConvertExclusiveToSharedLite self).
Definition release (self : ptr) : M (world U) unit := kcall_ (ExReleaseResourceLite self).

(** *** [lock_api] *)
Definition init_lock (slot self : ptr) : M (world U) unit := init (address_of_self slot self).
Definition lock_shared (slot self : ptr) : M (world U) unit :=
  acquired_shared (address_of_self slot self) true ;; mret tt.
Definition try_lock_shared (slot self : ptr) : M (world U) bool :=
  acquired_shared (address_of_self slot self) false.
Definition unlock_shared (slot self : ptr) : M (world U) unit := release (address_of_self slot self).
Definition lock_exclusive (slot self : ptr) : M (world U) unit :=
  acquire_exclusive (address_of_self slot self) true ;; mret tt.
Definition try_lock_exclusive (slot self : ptr) : M (world U) bool :=
  acquire_exclusive (address_of_self slot self) false.
Definition unlock_exclusive (slot self : ptr) : M (world U) unit :=
  release (address_of_self slot self).

(** [RawRwLock] *)
Definition raw_lock_shared (slot self : ptr) : M (world U) unit :=
  enter_critical_region ;; lock_shared slot self.
Definition raw_try_lock_shared (slot self : ptr) : M (world U) bool :=
  enter_critical_region ;; try_lock_shared slot self.
Definition raw_unlock_shared (slot self : ptr) : M (world U) unit :=
  unlock_shared slot self ;; leave_critical_region.
Definition raw_lock_exclusive (slot self : ptr) : M (world U) unit :=
  enter_critical_region ;; lock_exclusive slot self.
Definition raw_try_lock_exclusive (slot self : ptr) : M (world U) bool :=
  enter_critical_region ;; try_lock_exclusive slot self.
Definition raw_unlock_exclusive (slot self : ptr) : M (world U) unit :=
  unlock_exclusive slot self ;; leave_critical_region.

#[global] Instance raw_rw_lock : RawRwLock U WduEResource := {|
  rw_INIT := const_new;
  rw_lock_shared := raw_lock_shared;
  rw_try_lock_shared := raw_try_lock_shared;
  rw_unlock_shared := raw_unlock_shared;
  rw_lock_exclusive := raw_lock_exclusive;
  rw_try_lock_exclusive := raw_try_lock_exclusive;
  rw_unlock_exclusive := raw_unlock_exclusive
|}.
End Ops.
End WduEResource.

(** ** Properties *)

(** How deep in critical regions the calls [cs] leave a thread. *)
Fixpoint region_depth (cs : list kcall) : Z :=
  match cs with
  | [] => 0
  | KeEnterCriticalRegion :: cs => 1 + region_depth cs
  | KeLeaveCriticalRegion :: cs => -1 + region_depth cs
  | _ :: cs => region_depth cs
  end.

Lemma region_depth_app cs ds : region_depth (cs ++ ds) = region_depth cs + region_depth ds.
Proof. induction cs as [|c cs IH]; [done|]. destruct c; simpl; rewrite ?IH; lia. Qed.

Section properties.
Context {KN : Kernel} {U : Type}.
Implicit Types s : world U.

Definition try_lock (exclusive : bool) (slot self : ptr) : M (world U) bool :=
  if exclusive then WduEResource.raw_try_lock_exclusive slot self
  else WduEResource.raw_try_lock_shared slot self.
Definition lock (exclusive : bool) (slot self : ptr) : M (world U) unit :=
  if exclusive then WduEResource.raw_lock_exclusive slot self
  else WduEResource.raw_lock_shared slot self.
Definition unlock (exclusive : bool) (slot self : ptr) : M (world U) unit :=
  if exclusive then WduEResource.raw_unlock_exclusive slot self
  else WduEResource.raw_unlock_shared slot self.

(** A [lock_api] guard that is made by [try_lock] and dropped: the lock is
    given back only if it was taken. *)
Definition try_guard (exclusive : bool) (slot slot' self : ptr) : M (world U) bool :=
  b ← try_lock exclusive slot self;
  (if b : bool then unlock exclusive slot' self else mret tt) ;; mret b.

(** What the kernel answers to the attempt. *)
Definition try_answer (exclusive : bool) (slot : ptr) s : Z :=
  let s1 := kafter KeEnterCriticalRegion s in
  if exclusive then kresp (ExAcquireResourceExclusiveLite slot 0) s1
  else kresp (ExAcquireResourceSharedLite slot 0) s1.

(** A critical region is entered for every attempt to lock a resource and
    left when the lock is given back. So a lock that is taken and given back
    is balanced, but an attempt that fails leaves its thread in a critical
    region for good, one deeper at each failure. *)
Theorem failed_try_lock_stays_in_region exclusive slot slot' self s :
  wp (try_guard exclusive slot slot' self) s (fun b s' =>
    (b = true <-> try_answer exclusive slot s = 1) /\
    region_depth (calls s') = region_depth (calls s) + (if b then 0 else 1)).
Proof.
  unfold try_answer, try_guard, try_lock, unlock, WduEResource.raw_try_lock_exclusive,
    WduEResource.raw_try_lock_shared, WduEResource.try_lock_exclusive, WduEResource.try_lock_shared,
    WduEResource.acquire_exclusive, WduEResource.acquired_shared, address_of_self,
    WduEResource.raw_unlock_exclusive, WduEResource.raw_unlock_shared,
    WduEResource.unlock_exclusive, WduEResource.unlock_shared, WduEResource.release,
    enter_critical_region, leave_critical_region.
  destruct exclusive; simpl; repeat (wp_step; simpl);
    match goal with |- context [?x =? 1] => destruct (Z.eqb_spec x 1) as [E|E] end;
    simpl; wp_steps; rewrite ?region_depth_app; simpl; rewrite ?region_depth_app; simpl;
    (split; [by split|lia]).
Qed.

(** Through [lock_api] the resource itself is never involved: the routines
    are given the addresses of the methods' own parameters, so the resource
    released need not even be the one acquired. *)
Theorem resource_api_wrong_address exclusive slot slot' self s :
  wp (lock exclusive slot self ;; unlock exclusive slot' self) s (fun _ s' =>
    calls s' = calls s ++ [KeEnterCriticalRegion;
      (if exclusive then ExAcquireResourceExclusiveLite slot 1 else ExAcquireResourceSharedLite slot 1);
      ExReleaseResourceLite slot'; KeLeaveCriticalRegion]).
Proof.
  destruct exclusive; unfold lock, unlock, WduEResource.raw_lock_exclusive,
    WduEResource.raw_lock_shared, WduEResource.lock_exclusive, WduEResource.lock_shared,
    WduEResource.acquire_exclusive, WduEResource.acquired_shared, address_of_self,
    WduEResource.raw_unlock_exclusive, WduEResource.raw_unlock_shared,
    WduEResource.unlock_exclusive, WduEResource.unlock_shared, WduEResource.release,
    enter_critical_region, leave_critical_region;
    repeat (wp_step; simpl); autorewrite with wdu; by rewrite <- !app_assoc.
Qed.
End properties.
