(* ===== verification/Notify.v ===== *)
(** * Notify: process, thread and image notification routines

    [callbacks/mod.rs], [callbacks/process.rs], [callbacks/thread.rs] and
    [callbacks/image.rs].  The three wrappers keep the one contract of class
    [NotifyApi]; what holds of any client of the contract is proved once. *)

From S2P Require Import Prelude Nt World UnicodeStr FileObj.
From stdpp Require Import gmultiset.
#[local] Open Scope Z_scope.
Import WduUnicodeStr (WduUnicodeStr).
Import WduFileObject (WduFileObject).

Inductive WduCallbackError : Type :=
| CallbackInsufficientResources
| NotRegistered
| RegisterError (status : NTSTATUS)
| UnregisterError (status : NTSTATUS)
| CallbackNtStatus (status : NTSTATUS)
| CallbackCreateError (status : NTSTATUS)
| CallbackOpenError (status : NTSTATUS).

(** ** The three wrappers *)

Module WduPsCallback.
Inductive PsCallbackVersion : Type :=
| NotifyRoutine (cb : option fnptr)
| NotifyRoutineEx (cb : fnptr)
| NotifyRoutineEx2 (cb : fnptr).

Record WduPsCallback : Type := mk { callback : option PsCallbackVersion }.
Definition default : WduPsCallback := {| callback := None |}.
Definition const_new : WduPsCallback := {| callback := None |}.

Section Ops.
Context {KN : Kernel} {U : Type}.

Definition control_callbacks (callback : PsCallbackVersion) (remove : bool) : M (world U) NTSTATUS :=
  match callback with
  | NotifyRoutine cb => kcall_ (PsSetCreateProcessNotifyRoutine cb (u8_from remove))
  | NotifyRoutineEx cb => kcall_ (PsSetCreateProcessNotifyRoutineEx cb remove)
  | NotifyRoutineEx2 cb =>
      kcall_ (PsSetCreateProcessNotifyRoutineEx2 PsCreateProcessNotifySubsystems cb remove)
  end.

(** [&mut self]: the changed wrapper is given back. *)
Definition register (self : WduPsCallback) (callback : PsCallbackVersion)
    : M (world U) (result unit WduCallbackError * WduPsCallback) :=
  status ← control_callbacks callback false;
  if negb (status =? STATUS_SUCCESS) then mret (Err (RegisterError status), self)
  else mret (Ok tt, {| callback := Some callback |}).

Definition unregister (self : WduPsCallback)
    : M (world U) (result unit WduCallbackError * WduPsCallback) :=
  match callback self with
  | None => mret (Err NotRegistered, self)
  | Some callback =>
      status ← control_callbacks callback true;
      if negb (status =? STATUS_SUCCESS) then mret (Err (UnregisterError status), self)
      else mret (Ok tt, {| callback := None |})
  end.

Definition drop (self : WduPsCallback) : M (world U) unit := unregister self ;; mret tt.
End Ops.
End WduPsCallback.
Import WduPsCallback (WduPsCallback).

Module WduThCallback.
Inductive ThCallbackVersion : Type :=
| NotifyRoutine (cb : option fnptr)
| NotifyRoutineEx (notify_type : Z) (cb : option fnptr).

Record WduThCallback : Type := mk { callback : option ThCallbackVersion }.
Definition const_new : WduThCallback := {| callback := None |}.

Section Ops.
Context {KN : Kernel} {U : Type}.

Definition register (self : WduThCallback) (callback : ThCallbackVersion)
    : M (world U) (result unit WduCallbackError * WduThCallback) :=
  status ← match callback with
           | NotifyRoutine cb => kcall_ (PsSetCreateThreadNotifyRoutine cb)
           | NotifyRoutineEx notify_type cb => kcall_ (PsSetCreateThreadNotifyRoutineEx notify_type cb)
           end;
  if negb (status =? STATUS_SUCCESS) then mret (Err (RegisterError status), self)
  else mret (Ok tt, {| callback := Some callback |}).

Definition unregister (self : WduThCallback)
    : M (world U) (result unit WduCallbackError * WduThCallback) :=
  match callback self with
  | None => mret (Err NotRegistered, self)
  | Some callback =>
      let cb := match callback with NotifyRoutine cb => cb | NotifyRoutineEx _ cb => cb end in
      status ← kcall_ (PsRemoveCreateThreadNotifyRoutine cb);
      if negb (status =? STATUS_SUCCESS) then mret (Err (UnregisterError status), self)
      else mret (Ok tt, {| callback := None |})
  end.

Definition drop (self : WduThCallback) : M (world U) unit := unregister self ;; mret tt.
End Ops.
End WduThCallback.
Import WduThCallback (WduThCallback).

Module WduImageCallback.
Record WduImageCallback : Type := mk { callback : option fnptr }.
Definition default : WduImageCallback := {| callback := None |}.
Definition const_new : WduImageCallback := {| callback := None |}.

Section Ops.
Context {KN : Kernel} {U : Type}.

Definition register (self : WduImageCallback) (callback : option fnptr)
    : M (world U) (result unit WduCallbackError * WduImageCallback) :=
  assert_ (if callback is Some _ then true else false) "assertion failed: callback.is_some()" ;;
  status ← kcall_ (PsSetLoadImageNotifyRoutine callback);
  if negb (status =? STATUS_SUCCESS) then mret (Err (RegisterError status), self)
  else mret (Ok tt, {| callback := callback |}).

Definition unregister (self : WduImageCallback)
    : M (world U) (result unit WduCallbackError * WduImageCallback) :=
  match callback self with
  | None => mret (Err NotRegistered, self)
  | Some _ =>
      status ← kcall_ (PsRemoveLoadImageNotifyRoutine (callback self));
      if negb (status =? STATUS_SUCCESS) then mret (Err (UnregisterError status), self)
      else mret (Ok tt, {| callback := None |})
  end.

Definition drop (self : WduImageCallback) : M (world U) unit := unregister self ;; mret tt.
End Ops.
End WduImageCallback.
Import WduImageCallback (WduImageCallback).

(** What a process notification is told, [WduPsCreateNotifyInfo]. *)
Module WduPsCreateNotifyInfo.
Section Ops.
Context {KN : Kernel} {U : Type} `{!Storable U PS_CREATE_NOTIFY_INFO}.
Context `{!Storable U units, !Storable U UNICODE_STRING}.

Definition is_exit (self : ptr) : bool := self =? null.
Definition get (self : ptr) : M (world U) PS_CREATE_NOTIFY_INFO := load self.
Definition set_status (self : ptr) (status : NTSTATUS) : M (world U) unit :=
  update self (fun i => mkPsInfo status (ParentProcessId i) (CommandLine i) (ImageFileName i)
                          (PsFileObject i) (CreatingThreadId i) (PsFlags i)).
Definition parent_pid (self : ptr) : M (world U) Z := i ← get self; mret (ParentProcessId i).
Definition cmdline (self : ptr) : M (world U) WduUnicodeStr :=
  i ← get self; WduUnicodeStr.from_ptr (CommandLine i).
Definition image_filename (self : ptr) : M (world U) WduUnicodeStr :=
  i ← get self; WduUnicodeStr.from_ptr (ImageFileName i).
Definition fileobj (self : ptr) : M (world U) WduFileObject :=
  i ← get self; mret (WduFileObject.wrap (PsFileObject i)).
Definition client_id (self : ptr) : M (world U) (Z * Z) := i ← get self; mret (CreatingThreadId i).
Definition open_name_available (self : ptr) : M (world U) bool :=
  i ← get self; mret (Z.land (PsFlags i) 1 =? 1).
End Ops.
End WduPsCreateNotifyInfo.

(** ** The contract

    A wrapper [W] of callbacks [CB]: one call of the kernel for each
    operation, and a wrapper that remembers what it has registered. The
    kernel tells registrations apart by [key]. *)

Class NotifyApi {KN : Kernel} (U W CB Key : Type) : Type := {
  api_register : W -> CB -> M (world U) (result unit WduCallbackError * W);
  api_unregister : W -> M (world U) (result unit WduCallbackError * W);
  api_drop : W -> M (world U) unit;
  api_callback : W -> option CB;
  api_with : option CB -> W;
  key : CB -> Key;
  set_event : CB -> NTSTATUS -> event;
  remove_event : CB -> NTSTATUS -> event
}.

(** What a call says of the registrations: one more, or one less, if its
    status is a success. *)
Inductive effect (Key : Type) : Type :=
| Adds (k : Key) (status : NTSTATUS)
| Removes (k : Key) (status : NTSTATUS)
| Neither_.
Arguments Adds {Key}. Arguments Removes {Key}. Arguments Neither_ {Key}.

Class NotifyLaws {KN : Kernel} {U W CB Key} `{Countable Key} (api : NotifyApi U W CB Key) : Type := {
  effect_of : event -> effect Key;
  set_effect cb st : effect_of (set_event cb st) = Adds (key cb) st;
  remove_effect cb st : effect_of (remove_event cb st) = Removes (key cb) st;
  with_callback cb : api_callback (api_with cb) = cb;
  register_law w cb s : wp (api_register w cb) s (fun r s' => exists st,
    w_trace s' = w_trace s ++ [set_event cb st] /\ w_mem s' = w_mem s /\
    r = if st =? STATUS_SUCCESS then (Ok tt, api_with (Some cb)) else (Err (RegisterError st), w));
  unregister_none w s : api_callback w = None ->
    api_unregister w s = Done (Err NotRegistered, w) s;
  unregister_law w cb s : api_callback w = Some cb -> wp (api_unregister w) s (fun r s' => exists st,
    w_trace s' = w_trace s ++ [remove_event cb st] /\ w_mem s' = w_mem s /\
    r = if st =? STATUS_SUCCESS then (Ok tt, api_with None) else (Err (UnregisterError st), w));
  drop_law w : api_drop w = (api_unregister w ;; mret tt)
}.

(** What a client does with a wrapper. *)
Inductive notify_op (CB : Type) : Type :=
| Register (cb : CB)
| Unregister.
Arguments Register {CB}. Arguments Unregister {CB}.

Section clients.
Context {KN : Kernel} {U W CB Key : Type} `{Countable Key}.
Context (api : NotifyApi U W CB Key) (laws : NotifyLaws api).
Implicit Types (s : world U) (w : W).

(** The registrations that are in force after the calls of [tr]. *)
Definition live_step (L : gmultiset Key) (e : event) : gmultiset Key :=
  match effect_of e with
  | Adds k st => if st =? STATUS_SUCCESS then L ⊎ {[+ k +]} else L
  | Removes k st => if st =? STATUS_SUCCESS then L ∖ {[+ k +]} else L
  | Neither_ => L
  end.
Definition live (tr : list event) : gmultiset Key := foldl live_step ∅ tr.

Lemma live_snoc tr e : live (tr ++ [e]) = live_step (live tr) e.
Proof. unfold live. by rewrite foldl_app. Qed.

Definition current w : gmultiset Key :=
  match api_callback w with Some cb => {[+ key cb +]} | None => ∅ end.

(** [lost] collects the registrations the wrapper has forgotten: those it
    still had when it made another. *)
Definition run_notify (op : notify_op CB) w (lost : gmultiset Key) : M (world U) (W * gmultiset Key) :=
  match op with
  | Register cb =>
      r ← api_register w cb;
      mret (r.2, if is_ok r.1 then lost ⊎ current w else lost)
  | Unregister => r ← api_unregister w; mret (r.2, lost)
  end.

Fixpoint run_notifies (ops : list (notify_op CB)) w (lost : gmultiset Key)
    : M (world U) (W * gmultiset Key) :=
  match ops with
  | [] => mret (w, lost)
  | op :: ops => r ← run_notify op w lost; run_notifies ops r.1 r.2
  end.

Lemma run_notify_live op w lost base s :
  live (w_trace s) = base ⊎ lost ⊎ current w ->
  wp (run_notify op w lost) s (fun r s' =>
    w_mem s' = w_mem s /\ live (w_trace s') = base ⊎ r.2 ⊎ current r.1).
Proof.
  intros Hl. destruct op as [cb|]; simpl.
  - apply wp_bind. eapply wp_mono; [exact (register_law _ _ _)|].
    intros r s' (st & Ht & Hm & ->). apply wp_ret. rewrite Ht, live_snoc. unfold live_step.
    rewrite set_effect. destruct (st =? STATUS_SUCCESS); simpl; (split; [done|]); [|done].
    unfold current at 2. rewrite with_callback, Hl. multiset_solver.
  - apply wp_bind. destruct (api_callback w) as [cb|] eqn:Ecb.
    + eapply wp_mono; [exact (unregister_law _ _ _ Ecb)|].
      intros r s' (st & Ht & Hm & ->). apply wp_ret. rewrite Ht, live_snoc. unfold live_step.
      rewrite remove_effect. destruct (st =? STATUS_SUCCESS); simpl; (split; [done|]); [|done].
      unfold current in *. rewrite with_callback. rewrite Ecb in Hl. rewrite Hl. multiset_solver.
    + eapply wp_done; [exact (unregister_none _ _ Ecb)|]. by apply wp_ret.
Qed.

Lemma run_notifies_live ops w lost base s :
  live (w_trace s) = base ⊎ lost ⊎ current w ->
  wp (run_notifies ops w lost) s (fun r s' =>
    w_mem s' = w_mem s /\ live (w_trace s') = base ⊎ r.2 ⊎ current r.1).
Proof.
  revert w lost s. induction ops as [|op ops IH]; intros w lost s Hl; simpl.
  - by apply wp_ret.
  - apply wp_bind.
    eapply wp_mono; [exact (run_notify_live op w lost base s Hl)|]. intros r s1 [Hm Hl1].
    eapply wp_mono; [exact (IH _ _ _ Hl1)|]. intros r2 s2 [Hm2 Hl2]. split; [congruence|done].
Qed.

(** A scope that owns a wrapper: what is registered when it ends is what was
    registered before, and the registrations that were overwritten, and, if
    the kernel refused the removal the end of the scope asks for, that one. *)
Definition accounted (ops : list (notify_op CB)) s : Prop :=
  wp (r ← run_notifies ops (api_with None) ∅; api_drop r.1 ;; mret r) s (fun r s' =>
    w_mem s' = w_mem s /\
    (live (w_trace s') = live (w_trace s) ⊎ r.2 \/
     exists cb st, api_callback r.1 = Some cb /\ st <> STATUS_SUCCESS /\
       (exists tr, w_trace s' = tr ++ [remove_event cb st]) /\
       live (w_trace s') = live (w_trace s) ⊎ r.2 ⊎ {[+ key cb +]})).

Lemma scope_accounted ops s : accounted ops s.
Proof.
  unfold accounted. apply wp_bind. eapply wp_mono.
  { apply (run_notifies_live ops (api_with None) ∅ (live (w_trace s))).
    unfold current. rewrite with_callback. multiset_solver. }
  intros [w lost] s1 [Hm Hl]. simpl in *. rewrite drop_law. unfold current in Hl.
  apply wp_bind. apply wp_bind. destruct (api_callback w) as [cb|] eqn:Ecb.
  - eapply wp_mono; [exact (unregister_law _ _ _ Ecb)|].
    intros r s' (st & Ht & Hm' & ->). do 2 apply wp_ret. split; [congruence|].
    rewrite Ht, live_snoc. unfold live_step. rewrite remove_effect.
    destruct (Z.eqb_spec st STATUS_SUCCESS) as [->|Hst]; simpl.
    + left. rewrite Hl. multiset_solver.
    + right. exists cb, st. split_and!; [done|done| |done]. by eexists.
  - eapply wp_done; [exact (unregister_none _ _ Ecb)|]. do 2 apply wp_ret. split; [done|]. left.
    rewrite Hl. multiset_solver.
Qed.
End clients.

(** ** The three implementations *)

#[export] Instance ps_version_eq_dec : EqDecision WduPsCallback.PsCallbackVersion.
Proof. solve_decision. Defined.
#[export] Instance ps_version_countable : Countable WduPsCallback.PsCallbackVersion.
Proof.
  refine (inj_countable'
    (fun v => match v with
              | WduPsCallback.NotifyRoutine cb => inl cb
              | WduPsCallback.NotifyRoutineEx cb => inr (inl cb)
              | WduPsCallback.NotifyRoutineEx2 cb => inr (inr cb)
              end)
    (fun e => match e with
              | inl cb => WduPsCallback.NotifyRoutine cb
              | inr (inl cb) => WduPsCallback.NotifyRoutineEx cb
              | inr (inr cb) => WduPsCallback.NotifyRoutineEx2 cb
              end) _).
  by intros [].
Defined.

Section instances.
Context {KN : Kernel} {U : Type}.
Implicit Types s : world U.

(** The kernel tells process callbacks apart by routine and kind. *)
#[export] Instance ps_api : NotifyApi U WduPsCallback WduPsCallback.PsCallbackVersion
    WduPsCallback.PsCallbackVersion := {|
  api_register := WduPsCallback.register;
  api_unregister := WduPsCallback.unregister;
  api_drop := WduPsCallback.drop;
  api_callback := WduPsCallback.callback;
  api_with := WduPsCallback.mk;
  key cb := cb;
  set_event cb st := match cb with
    | WduPsCallback.NotifyRoutine cb => Ev (PsSetCreateProcessNotifyRoutine cb 0) st
    | WduPsCallback.NotifyRoutineEx cb => Ev (PsSetCreateProcessNotifyRoutineEx cb false) st
    | WduPsCallback.NotifyRoutineEx2 cb => Ev (PsSetCreateProcessNotifyRoutineEx2 0 cb false) st
    end;
  remove_event cb st := match cb with
    | WduPsCallback.NotifyRoutine cb => Ev (PsSetCreateProcessNotifyRoutine cb 1) st
    | WduPsCallback.NotifyRoutineEx cb => Ev (PsSetCreateProcessNotifyRoutineEx cb true) st
    | WduPsCallback.NotifyRoutineEx2 cb => Ev (PsSetCreateProcessNotifyRoutineEx2 0 cb true) st
    end |}.

(** Thread and image callbacks are removed by routine. *)
#[export] Instance th_api : NotifyApi U WduThCallback WduThCallback.ThCallbackVersion (option fnptr) := {|
  api_register := WduThCallback.register;
  api_unregister := WduThCallback.unregister;
  api_drop := WduThCallback.drop;
  api_callback := WduThCallback.callback;
  api_with := WduThCallback.mk;
  key cb := match cb with
            | WduThCallback.NotifyRoutine cb | WduThCallback.NotifyRoutineEx _ cb => cb
            end;
  set_event cb st := match cb with
    | WduThCallback.NotifyRoutine cb => Ev (PsSetCreateThreadNotifyRoutine cb) st
    | WduThCallback.NotifyRoutineEx ty cb => Ev (PsSetCreateThreadNotifyRoutineEx ty cb) st
    end;
  remove_event cb st := match cb with
    | WduThCallback.NotifyRoutine cb | WduThCallback.NotifyRoutineEx _ cb =>
        Ev (PsRemoveCreateThreadNotifyRoutine cb) st
    end |}.

#[export] Instance image_api : NotifyApi U WduImageCallback fnptr fnptr := {|
  api_register w cb := WduImageCallback.register w (Some cb);
  api_unregister := WduImageCallback.unregister;
  api_drop := WduImageCallback.drop;
  api_callback := WduImageCallback.callback;
  api_with := WduImageCallback.mk;
  key cb := cb;
  set_event cb st := Ev (PsSetLoadImageNotifyRoutine (Some cb)) st;
  remove_event cb st := Ev (PsRemoveLoadImageNotifyRoutine (Some cb)) st |}.

Definition ps_effect (e : event) : effect WduPsCallback.PsCallbackVersion :=
  match e with
  | Ev (PsSetCreateProcessNotifyRoutine cb r) st =>
      (if r =? 0 then Adds else Removes) (WduPsCallback.NotifyRoutine cb) st
  | Ev (PsSetCreateProcessNotifyRoutineEx cb r) st =>
      (if r : bool then Removes else Adds) (WduPsCallback.NotifyRoutineEx cb) st
  | Ev (PsSetCreateProcessNotifyRoutineEx2 _ cb r) st =>
      (if r : bool then Removes else Adds) (WduPsCallback.NotifyRoutineEx2 cb) st
  | _ => Neither_
  end.
Definition th_effect (e : event) : effect (option fnptr) :=
  match e with
  | Ev (PsSetCreateThreadNotifyRoutine cb) st | Ev (PsSetCreateThreadNotifyRoutineEx _ cb) st => Adds cb st
  | Ev (PsRemoveCreateThreadNotifyRoutine cb) st => Removes cb st
  | _ => Neither_
  end.
Definition image_effect (e : event) : effect fnptr :=
  match e with
  | Ev (PsSetLoadImageNotifyRoutine (Some cb)) st => Adds cb st
  | Ev (PsRemoveLoadImageNotifyRoutine (Some cb)) st => Removes cb st
  | _ => Neither_
  end.

(** An operation that makes one call and decides by its status. *)
Ltac one_call :=
  repeat (wp_step; simpl);
  match goal with |- wp (if negb (?st =? _) then _ else _) _ _ =>
    let Hst := fresh in destruct (st =? STATUS_SUCCESS) eqn:Hst;
    simpl; apply wp_ret; eexists; (split; [reflexivity|]); (split; [reflexivity|]);
    by rewrite Hst
  end.

#[export] Instance ps_laws : NotifyLaws ps_api.
Proof.
  refine {| effect_of := ps_effect |}; try done; try (by intros [] ?).
  - intros w cb s. simpl. unfold WduPsCallback.register, WduPsCallback.control_callbacks.
    destruct cb; one_call.
  - intros w s Hw. simpl in *. unfold WduPsCallback.unregister. by rewrite Hw.
  - intros w cb s Hw. simpl in *. unfold WduPsCallback.unregister, WduPsCallback.control_callbacks.
    rewrite Hw. destruct cb; one_call.
Defined.

#[export] Instance th_laws : NotifyLaws th_api.
Proof.
  refine {| effect_of := th_effect |}; try done; try (by intros [] ?).
  - intros w cb s. simpl. unfold WduThCallback.register. destruct cb; one_call.
  - intros w s Hw. simpl in *. unfold WduThCallback.unregister. by rewrite Hw.
  - intros w cb s Hw. simpl in *. unfold WduThCallback.unregister. rewrite Hw. destruct cb; one_call.
Defined.

#[export] Instance image_laws : NotifyLaws image_api.
Proof.
  refine {| effect_of := image_effect |}; try done; try (by intros [] ?).
  - intros w cb s. simpl. unfold WduImageCallback.register. one_call.
  - intros w s Hw. simpl in *. unfold WduImageCallback.unregister. by rewrite Hw.
  - intros w cb s Hw. simpl in *. unfold WduImageCallback.unregister. rewrite Hw. one_call.
Defined.
End instances.

(** C25: the owner of a process, thread or image notification wrapper may call
    [register] and [unregister] as often as it likes, on any kernel.  Neither
    touches memory, and when the owner's scope has ended, the wrapper dropped,
    the notification routines that are registered are those from before the
    scope, and those a further [register] made the wrapper forget; besides
    them only the last one, if the kernel refused the removal [drop] asks
    for. *)
Theorem notify_registrations_accounted {KN : Kernel} {U : Type} (s : world U) :
  (forall ops : list (notify_op WduPsCallback.PsCallbackVersion), accounted ps_api ps_laws ops s) /\
  (forall ops : list (notify_op WduThCallback.ThCallbackVersion), accounted th_api th_laws ops s) /\
  (forall ops : list (notify_op fnptr), accounted image_api image_laws ops s).
Proof. split_and!; intros ops; apply scope_accounted. Qed.

(** Two registrations and one scope: the first routine stays registered. *)
#[local] Existing Instance idle_kernel.
Example second_register_forgets :
  match (r ← run_notifies image_api [Register 1; Register 2] (WduImageCallback.mk None) ∅;
         WduImageCallback.drop r.1) (world_of default_answer (∅ : gmap ptr unit)) with
  | Done _ s => elements (live (image_api (U := unit)) image_laws (w_trace s)) = [1]
  | _ => False
  end.
Proof. vm_compute. reflexivity. Qed.
