(* ===== verification/Ob.v ===== *)
(** * Ob: object manager callbacks, [callbacks/ob.rs]

    A [WduObCallback] keeps what the client registered for handle operations.
    The kernel is given the wrapper's address and two functions of the crate,
    [pre_op_internal] and [post_op_internal]; these find the wrapper there
    and run the client's callbacks that ask for the operation. *)

From S2P Require Import Prelude Nt World UnicodeStr Crate Notify.
Import WduUnicodeStr (WduUnicodeStr).

Module ObjectType.
Inductive ObjectType : Type := Unknown | Process | Thread | Desktop.
Definition default : ObjectType := Unknown.

(** [Into<*const POBJECT_TYPE>] *)
Definition into {NS : NtStatics} {S} (self : ObjectType) : M S ptr :=
  match self with
  | Process => mret PsProcessType
  | Thread => mret PsThreadType
  | Desktop => mret ExDesktopObjectType
  | Unknown => panic "internal error: entered unreachable code"
  end.
End ObjectType.
Import ObjectType (ObjectType).
#[export] Instance ObjectType_eq_dec : EqDecision ObjectType.
Proof. solve_decision. Defined.

(** What the kernel tells before a handle is made: [ObPreOpInfo] is the
    address of it. *)
Module ObPreOpInfo.
Section Ops.
Context {KN : Kernel} {NS : NtStatics} {U : Type}.
Context `{!Storable U OB_PRE_INFORMATION, !Storable U OB_PRE_PARAMETERS}.

Definition get (self : ptr) : M (world U) OB_PRE_INFORMATION := load self.
Definition get_params (self : ptr) : M (world U) OB_PRE_PARAMETERS :=
  i ← get self; load (PreParameters i).

(** Without the feature [allocator_api]; with it this is [todo!()]. *)
Definition set_context {T} `{!Storable U T} (self : ptr) (context : T) : M (world U) unit :=
  i ← get self;
  assert_ (PreCallContext i =? null)
    "assertion failed: self.get().CallContext.is_null()" ;;
  p ← box_into_raw context;
  update self (fun i => mkObPre (PreOperation_ i) (PreFlags i) (PreObject i) (PreObjectType i) p
                          (PreParameters i)).
Definition set_context_allocator_api {T} (self : ptr) (_context : T)
    : M (world U) (result unit WduCallbackError) := panic "not yet implemented".

Definition operation (self : ptr) : M (world U) Z := i ← get self; mret (PreOperation_ i).
Definition object (self : ptr) : M (world U) ptr := i ← get self; mret (PreObject i).
Definition object_type (self : ptr) : M (world U) ObjectType :=
  i ← get self;
  mret (if PreObjectType i =? deref_PsProcessType then ObjectType.Process
        else if PreObjectType i =? deref_PsThreadType then ObjectType.Thread
        else if PreObjectType i =? deref_ExDesktopObjectType then ObjectType.Desktop
        else ObjectType.Unknown).

(** Both members of the parameter union start with the same two fields. *)
Definition desired_access (self : ptr) : M (world U) Z :=
  i ← get self;
  if PreOperation_ i =? OB_OPERATION_HANDLE_CREATE then p ← get_params self; mret (ObDesiredAccess p)
  else if PreOperation_ i =? OB_OPERATION_HANDLE_DUPLICATE
       then p ← get_params self; mret (ObDesiredAccess p)
  else panic "internal error: entered unreachable code".
Definition original_desired_access (self : ptr) : M (world U) Z :=
  i ← get self;
  if PreOperation_ i =? OB_OPERATION_HANDLE_CREATE
  then p ← get_params self; mret (ObOriginalDesiredAccess p)
  else if PreOperation_ i =? OB_OPERATION_HANDLE_DUPLICATE
       then p ← get_params self; mret (ObOriginalDesiredAccess p)
  else panic "internal error: entered unreachable code".
Definition set_desired_access (self : ptr) (desired_access : Z) : M (world U) unit :=
  let write := i ← get self; update (PreParameters i) (fun p =>
                 mkObPreParams desired_access (ObOriginalDesiredAccess p)) in
  i ← get self;
  if PreOperation_ i =? OB_OPERATION_HANDLE_CREATE then write
  else if PreOperation_ i =? OB_OPERATION_HANDLE_DUPLICATE then write
  else panic "internal error: entered unreachable code".
Definition is_kernel_handle (self : ptr) : M (world U) bool :=
  i ← get self; mret (Z.land (PreFlags i) 1 =? 1).
End Ops.
End ObPreOpInfo.

(** What it tells after. *)
Module ObPostOpInfo.
Section Ops.
Context {KN : Kernel} {NS : NtStatics} {U : Type}.
Context `{!Storable U OB_POST_INFORMATION, !Storable U OB_POST_PARAMETERS}.

Definition get (self : ptr) : M (world U) OB_POST_INFORMATION := load self.
Definition get_params (self : ptr) : M (world U) OB_POST_PARAMETERS :=
  i ← get self; load (PostParameters i).

(** The box is the caller's: here it is moved out of. *)
Definition call_context {T} `{!Storable U T} (self : ptr) : M (world U) (option T) :=
  i ← get self;
  if PostCallContext i =? null then mret None
  else i ← get self; x ← box_from_raw (PostCallContext i); mret (Some x).

Definition operation (self : ptr) : M (world U) Z := i ← get self; mret (PostOperation_ i).
Definition return_status (self : ptr) : M (world U) NTSTATUS :=
  i ← get self; mret (PostReturnStatus i).
Definition object (self : ptr) : M (world U) ptr := i ← get self; mret (PostObject i).
Definition object_type (self : ptr) : M (world U) ObjectType :=
  i ← get self;
  mret (if PostObjectType i =? deref_PsProcessType then ObjectType.Process
        else if PostObjectType i =? deref_PsThreadType then ObjectType.Thread
        else if PostObjectType i =? deref_ExDesktopObjectType then ObjectType.Desktop
        else ObjectType.Unknown).
Definition granted_access (self : ptr) : M (world U) Z :=
  i ← get self;
  if PostOperation_ i =? OB_OPERATION_HANDLE_CREATE then p ← get_params self; mret (ObGrantedAccess p)
  else if PostOperation_ i =? OB_OPERATION_HANDLE_DUPLICATE
       then p ← get_params self; mret (ObGrantedAccess p)
  else panic "internal error: entered unreachable code".
Definition is_kernel_handle (self : ptr) : M (world U) bool :=
  i ← get self; mret (Z.land (PostFlags i) 1 =? 1).
End Ops.
End ObPostOpInfo.

(** [context] is the address of the client's context, or null. *)
Module WduObOpRegistration.
Record WduObOpRegistration : Type := mk {
  ob_type : ObjectType;
  operations : Z;
  pre : option fnptr;
  post : option fnptr;
  context : ptr
}.
Definition default : WduObOpRegistration := mk ObjectType.default 0 None None null.
Definition set_ob_type (self : WduObOpRegistration) (ob_type : ObjectType) : WduObOpRegistration :=
  mk ob_type (operations self) (pre self) (post self) (context self).
Definition set_operations (self : WduObOpRegistration) (operations : Z) : WduObOpRegistration :=
  mk (ob_type self) operations (pre self) (post self) (context self).
Definition set_pre (self : WduObOpRegistration) (pre : fnptr) : WduObOpRegistration :=
  mk (ob_type self) (operations self) (Some pre) (post self) (context self).
Definition set_post (self : WduObOpRegistration) (post : fnptr) : WduObOpRegistration :=
  mk (ob_type self) (operations self) (pre self) (Some post) (context self).
Definition build (self : WduObOpRegistration) : WduObOpRegistration := self.
Definition set_context (self : WduObOpRegistration) (context : ptr) : WduObOpRegistration :=
  mk (ob_type self) (operations self) (pre self) (post self) context.

Definition into_native {NS : NtStatics} {LK : Linked} {S} (self : WduObOpRegistration)
    : M S OB_OPERATION_REGISTRATION :=
  object_type ← ObjectType.into (ob_type self);
  mret (mkObOperation object_type (operations self)
    (if pre self is Some _ then Some (code_addr "WduObCallback::pre_op_internal") else None)
    (if post self is Some _ then Some (code_addr "WduObCallback::post_op_internal") else None)).
End WduObOpRegistration.
Import WduObOpRegistration (WduObOpRegistration).

(** The client's callbacks, by address: the context, and the information. *)
Class ObClient {KN : Kernel} (U : Type) : Type := {
  run_pre : fnptr -> option ptr -> ptr -> M (world U) unit;
  run_post : fnptr -> option ptr -> ptr -> M (world U) unit
}.

Module WduObCallback.
Record WduObCallback : Type := mk { handle : ptr; operations : list WduObOpRegistration }.
Definition default : WduObCallback := {| handle := null; operations := [] |}.
Definition const_new : WduObCallback := {| handle := null; operations := [] |}.

(** [iter().map(f)], the closures run in order. *)
Fixpoint map_all {S A B} (f : A -> M S B) (l : list A) : M S (list B) :=
  match l with
  | [] => mret []
  | x :: l => y ← f x; ys ← map_all f l; mret (y :: ys)
  end.

Section Ops.
Context {KN : Kernel} {NS : NtStatics} {LK : Linked} {U : Type} `{!Storable U WduObCallback}.
Context `{!Storable U OB_PRE_INFORMATION, !Storable U OB_POST_INFORMATION, !ObClient U}.

(** [&mut self] is an address: the kernel keeps it. *)
Definition push_op_registration (self : ptr) (op_registration : WduObOpRegistration)
    : M (world U) unit :=
  update self (fun cb => mk (handle cb) (operations cb ++ [op_registration])).

(** [reserved] says whether [try_reserve] found the memory. *)
Definition register (reserved : bool) (self : ptr) (altitude : WduUnicodeStr)
    : M (world U) (result unit WduCallbackError) :=
  cb ← load (T := WduObCallback) self;
  if decide (operations cb = []) then mret (Err (CallbackNtStatus STATUS_INVALID_PARAMETER))
  else if negb reserved then mret (Err CallbackInsufficientResources)
  else
    native ← map_all WduObOpRegistration.into_native (operations cb);
    r ← kcall_ (ObRegisterCallbacks (u16 OB_FLT_REGISTRATION_VERSION)
                  (u16 (Z.of_nat (length (operations cb))))
                  (WduUnicodeStr.as_unicode_string altitude) self native);
    let '(status, out) := r in
    (if out is Some h then update self (fun cb => mk h (operations cb)) else mret tt) ;;
    if negb (status =? STATUS_SUCCESS) then mret (Err (RegisterError status)) else mret (Ok tt).

Definition unregister (self : ptr) : M (world U) (result unit WduCallbackError) :=
  cb ← load (T := WduObCallback) self;
  if handle cb =? null then mret (Err (UnregisterError STATUS_INTERNAL_ERROR))
  else
    kcall_ (ObUnRegisterCallbacks (handle cb)) ;;
    update self (fun cb => mk null (operations cb)) ;;
    mret (Ok tt).

Definition get_self (context : ptr) : M (world U) WduObCallback := load context.

(** What the loops of the two functions do with a registration: the filter of
    the iterator runs when its turn comes, after the callbacks before it. *)
Definition pre_op_each (op_info : ptr) (op : WduObOpRegistration) : M (world U) unit :=
  ty ← ObPreOpInfo.object_type op_info;
  selected ←
    (if negb (bool_decide (WduObOpRegistration.ob_type op = ty)) then mret false
     else
       o1 ← ObPreOpInfo.operation op_info;
       o2 ← ObPreOpInfo.operation op_info;
       if negb (Z.land (WduObOpRegistration.operations op) o1 =? o2) then mret false
       else mret (if WduObOpRegistration.pre op is Some _ then true else false));
  if negb selected then mret tt
  else
    match WduObOpRegistration.pre op with
    | None => panic "called `Option::unwrap()` on a `None` value"
    | Some pre_fn =>
        if WduObOpRegistration.context op =? null then run_pre pre_fn None op_info
        else run_pre pre_fn (Some (WduObOpRegistration.context op)) op_info
    end.
Definition pre_op_internal (context op_info : ptr) : M (world U) Z :=
  ob_cb ← get_self context;
  for_each (pre_op_each op_info) (operations ob_cb) ;;
  mret OB_PREOP_SUCCESS.

Definition post_op_each (op_info : ptr) (op : WduObOpRegistration) : M (world U) unit :=
  ty ← ObPostOpInfo.object_type op_info;
  selected ←
    (if negb (bool_decide (WduObOpRegistration.ob_type op = ty)) then mret false
     else
       o1 ← ObPostOpInfo.operation op_info;
       o2 ← ObPostOpInfo.operation op_info;
       if negb (Z.land (WduObOpRegistration.operations op) o1 =? o2) then mret false
       else mret (if WduObOpRegistration.post op is Some _ then true else false));
  if negb selected then mret tt
  else
    match WduObOpRegistration.post op with
    | None => panic "called `Option::unwrap()` on a `None` value"
    | Some post_fn =>
        if WduObOpRegistration.context op =? null then run_post post_fn None op_info
        else run_post post_fn (Some (WduObOpRegistration.context op)) op_info
    end.
Definition post_op_internal (context op_info : ptr) : M (world U) unit :=
  ob_cb ← get_self context;
  for_each (post_op_each op_info) (operations ob_cb).

Definition version : M (world U) Z := kcall_ ObGetFilterVersion.
End Ops.
End WduObCallback.
Import WduObCallback (WduObCallback).

(** ** Properties *)

(** A loop whose body skips some elements is the loop over the others, as
    long as the elements that are run keep what the test reads. *)
Lemma for_each_filter {S A} (Inv : S -> Prop) (body run : A -> M S unit) (sel : A -> bool) l s :
  (forall x s, Inv s -> body x s = if sel x then run x s else Done tt s) ->
  (forall x s s', Inv s -> run x s = Done tt s' -> Inv s') ->
  Inv s -> for_each body l s = for_each run (List.filter sel l) s.
Proof.
  intros Hb Hr. revert s. induction l as [|x l IH]; intros s HI; simpl; [done|].
  unfold mbind, M_bind. rewrite Hb by done. destruct (sel x); simpl.
  - unfold mbind, M_bind. destruct (run x s) as [[] s'|?|?] eqn:E; [|done|done]. apply IH. eauto.
  - by apply IH.
Qed.

Section dispatch.
Context {KN : Kernel} {NS : NtStatics} {LK : Linked} {U : Type} `{!Storable U WduObCallback}.
Context `{!Storable U OB_PRE_INFORMATION, !Storable U OB_POST_INFORMATION, !ObClient U}.
Implicit Types s : world U.

Definition kind_of (object_type : ptr) : ObjectType :=
  if object_type =? deref_PsProcessType then ObjectType.Process
  else if object_type =? deref_PsThreadType then ObjectType.Thread
  else if object_type =? deref_ExDesktopObjectType then ObjectType.Desktop
  else ObjectType.Unknown.

(** The registrations for operation [opn] on objects of type [ty] that have
    a callback. *)
Definition wants (rtn : WduObOpRegistration -> option fnptr) (ty : ObjectType) (opn : Z)
    (op : WduObOpRegistration) : bool :=
  bool_decide (WduObOpRegistration.ob_type op = ty) &&
  (Z.land (WduObOpRegistration.operations op) opn =? opn) &&
  (if rtn op is Some _ then true else false).

(** The client's callback on its own context. *)
Definition run_with (run : fnptr -> option ptr -> ptr -> M (world U) unit)
    (rtn : WduObOpRegistration -> option fnptr) (info : ptr) (op : WduObOpRegistration)
    : M (world U) unit :=
  match rtn op with
  | None => mret tt
  | Some f => run f (if WduObOpRegistration.context op =? null then None
                     else Some (WduObOpRegistration.context op)) info
  end.

(** [info] is about operation [opn] on an object of type [ty]. *)
Definition pre_info (info : ptr) (ty : ObjectType) (opn : Z) s : Prop :=
  info <> 0 /\ exists i, w_mem s !! info = Some (inj i) /\
    kind_of (PreObjectType i) = ty /\ PreOperation_ i = opn.
Definition post_info (info : ptr) (ty : ObjectType) (opn : Z) s : Prop :=
  info <> 0 /\ exists i, w_mem s !! info = Some (inj i) /\
    kind_of (PostObjectType i) = ty /\ PostOperation_ i = opn.

(** The client does not change what its callbacks are asked about. *)
Definition keeps (run : fnptr -> option ptr -> ptr -> M (world U) unit) (info : ptr)
    (P : world U -> Prop) : Prop :=
  forall f ctx s s', P s -> run f ctx info s = Done tt s' -> P s'.

Lemma pre_info_reads info ty opn s : pre_info info ty opn s ->
  ObPreOpInfo.object_type info s = Done ty s /\ ObPreOpInfo.operation info s = Done opn s.
Proof.
  intros (Hp & i & Hm & <- & <-).
  split; unfold ObPreOpInfo.object_type, ObPreOpInfo.operation, ObPreOpInfo.get;
    by erewrite bind_done by by apply load_at.
Qed.

Lemma post_info_reads info ty opn s : post_info info ty opn s ->
  ObPostOpInfo.object_type info s = Done ty s /\ ObPostOpInfo.operation info s = Done opn s.
Proof.
  intros (Hp & i & Hm & <- & <-).
  split; unfold ObPostOpInfo.object_type, ObPostOpInfo.operation, ObPostOpInfo.get;
    by erewrite bind_done by by apply load_at.
Qed.

(** The body of either loop, while the information is what it was. *)
Ltac ob_body reads rtn :=
  let Ht := fresh in let Ho := fresh in
  destruct reads as [Ht Ho]; rewrite (bind_done _ _ _ _ _ Ht); unfold wants, run_with;
  let E1 := fresh in let E2 := fresh in
  destruct (bool_decide _) eqn:E1; simpl; [|done];
  unfold mbind, M_bind; rewrite Ho, Ho;
  destruct (_ =? _) eqn:E2; simpl; [|done];
  destruct rtn; simpl; [by case_match|done].

Lemma pre_op_each_eq info ty opn op s : pre_info info ty opn s ->
  WduObCallback.pre_op_each info op s =
    if wants WduObOpRegistration.pre ty opn op
    then run_with run_pre WduObOpRegistration.pre info op s else Done tt s.
Proof.
  intros HI. unfold WduObCallback.pre_op_each.
  ob_body (pre_info_reads _ _ _ _ HI) (WduObOpRegistration.pre op).
Qed.

Lemma post_op_each_eq info ty opn op s : post_info info ty opn s ->
  WduObCallback.post_op_each info op s =
    if wants WduObOpRegistration.post ty opn op
    then run_with run_post WduObOpRegistration.post info op s else Done tt s.
Proof.
  intros HI. unfold WduObCallback.post_op_each.
  ob_body (post_info_reads _ _ _ _ HI) (WduObOpRegistration.post op).
Qed.

(** C15: the functions the crate registers with the kernel run, for an
    operation on an object, exactly the callbacks the client pushed for that
    operation and that type of object, in the order they were pushed, each
    with the context it was pushed with; the operation goes through. *)
Theorem ob_dispatch_runs_wanted self cb info ty opn s :
  self <> 0 -> w_mem s !! self = Some (inj cb) ->
  (keeps run_pre info (pre_info info ty opn) -> pre_info info ty opn s ->
    WduObCallback.pre_op_internal self info s =
      (for_each (run_with run_pre WduObOpRegistration.pre info)
         (List.filter (wants WduObOpRegistration.pre ty opn) (WduObCallback.operations cb)) ;;
       mret OB_PREOP_SUCCESS) s) /\
  (keeps run_post info (post_info info ty opn) -> post_info info ty opn s ->
    WduObCallback.post_op_internal self info s =
      for_each (run_with run_post WduObOpRegistration.post info)
        (List.filter (wants WduObOpRegistration.post ty opn) (WduObCallback.operations cb)) s).
Proof.
  intros Hs Hcb. split; intros Hk Hi.
  - unfold WduObCallback.pre_op_internal. erewrite bind_done by by apply load_at.
    unfold mbind, M_bind.
    erewrite (for_each_filter (pre_info info ty opn)); [reflexivity| | |done].
    + intros op s1 HI. by apply pre_op_each_eq.
    + intros op s1 s2 HI. unfold run_with. case_match; [by apply Hk|]. by intros [= <-].
  - unfold WduObCallback.post_op_internal. erewrite bind_done by by apply load_at.
    apply (for_each_filter (post_info info ty opn)); [| |done].
    + intros op s1 HI. by apply post_op_each_eq.
    + intros op s1 s2 HI. unfold run_with. case_match; [by apply Hk|]. by intros [= <-].
Qed.
End dispatch.

Section contexts.
Context {KN : Kernel} {U T : Type} `{!Storable U OB_PRE_INFORMATION, !Storable U OB_POST_INFORMATION}.
Context `{!Storable U T}.
Implicit Types s : world U.

(** What the callback before an operation attaches with [set_context],
    the callback after it gets from [call_context], once: the allocation is
    given back.  Asking again reads freed memory, and so a second callback of
    the same operation that attaches a context panics. *)
Theorem call_context_roundtrip pre post (i : OB_PRE_INFORMATION) (j : OB_POST_INFORMATION) (x y : T) s :
  pre <> 0 -> w_mem s !! pre = Some (inj i) -> PreCallContext i = null ->
  wp (ObPreOpInfo.set_context pre x) s (fun _ s1 =>
    exists i' : OB_PRE_INFORMATION, w_mem s1 !! pre = Some (inj i') /\ PreCallContext i' <> null /\
      PreOperation_ i' = PreOperation_ i /\ PreParameters i' = PreParameters i /\
    (exists msg, ObPreOpInfo.set_context pre y s1 = Panicked msg s1) /\
    (post <> 0 -> post <> pre -> w_mem s1 !! post = Some (inj j) ->
     PostCallContext j = PreCallContext i' ->
     wp (ObPostOpInfo.call_context post) s1 (fun r s2 =>
       r = Some x /\ w_mem s2 = delete (PreCallContext i') (w_mem s1) /\
       (w_mem s2 !! post = Some (inj j) ->
        ObPostOpInfo.call_context (T := T) post s2 = Ub (Dangling (PreCallContext i')) s2)))).
Proof.
  intros Hp Hi Hn. unfold ObPreOpInfo.set_context, ObPreOpInfo.get.
  apply wp_bind. eapply wp_load; [done..|]. rewrite Hn. apply wp_bind, wp_assert; [done|].
  apply wp_bind, wp_box_into_raw. cbv zeta. set (q := fresh_addr (w_mem s)).
  assert (Hq : q <> 0) by (pose proof (fresh_addr_pos (w_mem s)); unfold q; lia).
  assert (Hqp : q <> pre).
  { intros E. pose proof (fresh_addr_fresh (w_mem s)) as Hf. unfold q in E. congruence. }
  eapply wp_update; [done|map_at|]. eexists.
  split; [map_at|]. simpl. split; [done|]. do 2 (split; [done|]). split.
  - eexists. erewrite bind_done by (apply load_at; [done|map_at]). simpl.
    rewrite (not_null q) by done. done.
  - intros Hpost Hne Hj Hc. unfold ObPostOpInfo.call_context, ObPostOpInfo.get.
    apply wp_bind. eapply wp_load; [done..|]. rewrite Hc, not_null by done.
    apply wp_bind. eapply wp_load; [done..|]. rewrite Hc. apply wp_bind.
    eapply wp_box_from_raw; [done|map_at|]. apply wp_ret. split; [done|]. split; [done|].
    intros Hj2. erewrite bind_done by by apply load_at. simpl. rewrite Hc, not_null by done.
    erewrite bind_done by by apply load_at. rewrite Hc. apply bind_ub, bind_ub.
    apply load_dangling; [done|]. map_at.
Qed.
End contexts.

Section registration.
Context {KN : Kernel} {NS : NtStatics} {LK : Linked} {U : Type} `{!Storable U WduObCallback}.
Implicit Types s : world U.

(** What the kernel is told of a registration. *)
Definition native_type (ty : ObjectType) : ptr :=
  match ty with
  | ObjectType.Process => PsProcessType
  | ObjectType.Thread => PsThreadType
  | ObjectType.Desktop => ExDesktopObjectType
  | ObjectType.Unknown => null
  end.
Definition native (op : WduObOpRegistration) : OB_OPERATION_REGISTRATION :=
  mkObOperation (native_type (WduObOpRegistration.ob_type op)) (WduObOpRegistration.operations op)
    ((fun _ => code_addr "WduObCallback::pre_op_internal") <$> WduObOpRegistration.pre op)
    ((fun _ => code_addr "WduObCallback::post_op_internal") <$> WduObOpRegistration.post op).

Lemma into_native_done op s : WduObOpRegistration.ob_type op <> ObjectType.Unknown ->
  WduObOpRegistration.into_native op s = Done (native op) s.
Proof. destruct op as [[] ? [] [] ?]; by intros H. Qed.

Lemma map_native_done ops s : Forall (fun op => WduObOpRegistration.ob_type op <> ObjectType.Unknown) ops ->
  WduObCallback.map_all WduObOpRegistration.into_native ops s = Done (native <$> ops) s.
Proof.
  intros H. induction H as [|op ops Hop _ IH]; [done|]. simpl.
  erewrite bind_done by by apply into_native_done. by erewrite bind_done by done.
Qed.

Lemma map_native_panics ops s : Exists (fun op => WduObOpRegistration.ob_type op = ObjectType.Unknown) ops ->
  WduObCallback.map_all WduObOpRegistration.into_native ops s =
    Panicked "internal error: entered unreachable code" s.
Proof.
  intros H. induction H as [op ops Hop|op ops _ IH]; simpl.
  - apply bind_panicked. unfold WduObOpRegistration.into_native. by rewrite Hop.
  - destruct (decide (WduObOpRegistration.ob_type op = ObjectType.Unknown)) as [E|E].
    + apply bind_panicked. unfold WduObOpRegistration.into_native. by rewrite E.
    + erewrite bind_done by by apply into_native_done. by apply bind_panicked.
Qed.

Definition register_call self altitude (cb : WduObCallback) : kcall :=
  ObRegisterCallbacks 0x100 (u16 (Z.of_nat (length (WduObCallback.operations cb))))
    (WduUnicodeStr.as_unicode_string altitude) self (native <$> WduObCallback.operations cb).

(** The branch that reaches the kernel. *)
Lemma register_calls self altitude (cb : WduObCallback) s :
  self <> 0 -> w_mem s !! self = Some (inj cb) -> WduObCallback.operations cb <> [] ->
  Forall (fun op => WduObOpRegistration.ob_type op <> ObjectType.Unknown) (WduObCallback.operations cb) ->
  let c := register_call self altitude cb in
  wp (WduObCallback.register true self altitude) s (fun r s1 => exists status out,
    kresp c s = (status, out) /\ w_trace s1 = w_trace s ++ [Ev c (status, out)] /\
    w_mem s1 = <[self := inj (WduObCallback.mk (default (WduObCallback.handle cb) out)
                                (WduObCallback.operations cb))]> (w_mem s) /\
    r = if status =? STATUS_SUCCESS then Ok tt else Err (RegisterError status)).
Proof.
  intros Hs Hcb He Hall c. unfold WduObCallback.register.
  apply wp_bind. eapply wp_load; [done..|]. rewrite decide_False by done. simpl.
  apply wp_bind. eapply wp_done; [by apply map_native_done|]. wp_step. wp_step.
  change (u16 OB_FLT_REGISTRATION_VERSION) with 0x100.
  match goal with |- context [kresp ?d s] => change d with c end.
  destruct (kresp c s) as [status out] eqn:E.
  apply wp_bind. eapply (wp_mono _ _ (fun _ s1 =>
    w_trace s1 = w_trace s ++ [Ev c (status, out)] /\
    w_mem s1 = <[self := inj (WduObCallback.mk (default (WduObCallback.handle cb) out)
                                (WduObCallback.operations cb))]> (w_mem s))).
  - destruct out as [h|].
    + eapply wp_update; [done..|]. split; [by rewrite trace_set_mem, trace_kafter, E|done].
    + apply wp_ret. split; [by rewrite trace_kafter, E|]. rewrite mem_kafter, insert_id; [done|]. by destruct cb.
  - intros [] s1 [H1 H2]. destruct (status =? STATUS_SUCCESS) eqn:Est; apply wp_ret; exists status, out;
      by rewrite Est.
Qed.

(** C40: [register] on every branch: without operations, or without memory for
    their native form, it is an error and the kernel is not called; an
    operation whose object type was never set panics; otherwise the kernel
    gets one native registration for each operation, in order, with the
    crate's functions exactly where the client gave a callback, and the
    wrapper's address as their context. *)
Theorem ob_register_outcome self altitude (cb : WduObCallback) s :
  self <> 0 -> w_mem s !! self = Some (inj cb) ->
  let ops := WduObCallback.operations cb in
  (ops = [] -> forall reserved, WduObCallback.register reserved self altitude s =
     Done (Err (CallbackNtStatus STATUS_INVALID_PARAMETER)) s) /\
  (ops <> [] -> WduObCallback.register false self altitude s =
     Done (Err CallbackInsufficientResources) s) /\
  (Exists (fun op => WduObOpRegistration.ob_type op = ObjectType.Unknown) ops ->
     exists msg, WduObCallback.register true self altitude s = Panicked msg s) /\
  (ops <> [] -> Forall (fun op => WduObOpRegistration.ob_type op <> ObjectType.Unknown) ops ->
     wp (WduObCallback.register true self altitude) s (fun r s1 => exists status out,
       w_trace s1 = w_trace s ++ [Ev (register_call self altitude cb) (status, out)] /\
       w_mem s1 !! self = Some (inj (WduObCallback.mk (default (WduObCallback.handle cb) out) ops)) /\
       r = if status =? STATUS_SUCCESS then Ok tt else Err (RegisterError status))).
Proof.
  intros Hs Hcb ops. unfold WduObCallback.register. split_and!.
  - intros He reserved. erewrite bind_done by by apply load_at. by rewrite decide_True.
  - intros He. erewrite bind_done by by apply load_at. by rewrite decide_False.
  - intros He. eexists. erewrite bind_done by by apply load_at. rewrite decide_False.
    + simpl. by erewrite bind_panicked by by apply map_native_panics.
    + intros E. fold ops in E. rewrite E in He. by apply Exists_nil in He.
  - intros He Hall. eapply wp_mono; [by apply register_calls|].
    intros r s1 (status & out & _ & Ht & Hm & Hr). exists status, out. rewrite Hm. split_and!; [done|map_at|done].
Qed.

(** What the kernel's documentation promises: a handle for a success. *)
Definition gives_handle : Prop := forall k version count altitude ctx ops out,
  fst (kstep (ObRegisterCallbacks version count altitude ctx ops) k) = (STATUS_SUCCESS, out) ->
  exists h, out = Some h /\ h <> null.

Lemma unregister_done self h ops s : self <> 0 -> h <> null ->
  w_mem s !! self = Some (inj (WduObCallback.mk h ops)) ->
  wp (WduObCallback.unregister self) s (fun r s1 =>
    r = Ok tt /\ calls s1 = calls s ++ [ObUnRegisterCallbacks h] /\
    w_mem s1 = <[self := inj (WduObCallback.mk null ops)]> (w_mem s)).
Proof.
  intros Hs Hh Hcb. unfold WduObCallback.unregister. apply wp_bind. eapply wp_load; [done..|]. simpl.
  rewrite not_null by done. wp_step. wp_step. wp_step. eapply wp_update; [done..|].
  apply wp_ret. by autorewrite with wdu.
Qed.

Lemma unregister_null self ops s : self <> 0 ->
  w_mem s !! self = Some (inj (WduObCallback.mk null ops)) ->
  WduObCallback.unregister self s = Done (Err (UnregisterError STATUS_INTERNAL_ERROR)) s.
Proof.
  intros Hs Hcb. unfold WduObCallback.unregister. by erewrite bind_done by by apply load_at.
Qed.

(** A successful [register] puts the kernel's handle in the wrapper;
    [unregister] then gives back that handle, once: to ask again is an error
    and calls nothing.  This is so whatever handle the wrapper had before: a
    wrapper that registers twice cannot give the first registration back. *)
Theorem ob_handle_given_back_once self altitude (cb : WduObCallback) s :
  gives_handle -> self <> 0 -> w_mem s !! self = Some (inj cb) ->
  WduObCallback.operations cb <> [] ->
  Forall (fun op => WduObOpRegistration.ob_type op <> ObjectType.Unknown) (WduObCallback.operations cb) ->
  wp (WduObCallback.register true self altitude) s (fun r s1 => r = Ok tt ->
    exists h, h <> null /\
      w_trace s1 = w_trace s ++ [Ev (register_call self altitude cb) (STATUS_SUCCESS, Some h)] /\
      wp (WduObCallback.unregister self) s1 (fun r2 s2 =>
        r2 = Ok tt /\ calls s2 = calls s1 ++ [ObUnRegisterCallbacks h] /\
        WduObCallback.unregister self s2 =
          Done (Err (UnregisterError STATUS_INTERNAL_ERROR)) s2)).
Proof.
  intros Hg Hs Hcb Hne Hall.
  eapply wp_mono; [by apply register_calls|]. intros r s1 (status & out & Hk & Ht & Hm & ->).
  destruct (Z.eqb_spec status STATUS_SUCCESS) as [->|]; [|done]. intros _.
  destruct (Hg _ _ _ _ _ _ _ Hk) as (h & -> & Hh). exists h. split; [done|]. split; [done|].
  eapply wp_mono; [apply (unregister_done self h); [done|done|rewrite Hm; map_at]|]. intros r2 s2 (-> & Hc & Hm2).
  split; [done|]. split; [done|]. eapply unregister_null; [done|]. rewrite Hm2. map_at.
Qed.
End registration.

(** ** Instances *)

Module ObDemo.
#[export] Instance statics : NtStatics := Build_NtStatics 1 2 3 0x10 0x20 0x30 7 8.
#[export] Instance linked : Linked :=
  {| size_of_WduDevice := 24; size_of_WduDriver := 72; code_addr s := 0x7000 |}.
Abbreviation cells := (WduObCallback + (OB_PRE_INFORMATION + (OB_POST_INFORMATION + (Z + unit))))%type.
(** A kernel that gives the handle 0xC00. *)
#[export] Instance kernel : Kernel := {|
  kstate := unit;
  kstep c k := (match c as c return kret c with
                | ObRegisterCallbacks _ _ _ _ _ => (STATUS_SUCCESS, Some 0xC00)
                | c => default_answer c
                end, k) |}.
(** A client whose callbacks signal an event: which one tells them apart. *)
#[export] Instance client : ObClient cells := {|
  run_pre f ctx _ := kcall_ (KeSetEvent f (default 0 ctx) 0) ;; mret tt;
  run_post f ctx _ := kcall_ (KeSetEvent f (default 0 ctx) 0) ;; mret tt |}.

Definition op (ty : ObjectType) (opn f ctx : Z) : WduObOpRegistration :=
  WduObOpRegistration.mk ty opn (Some f) None ctx.
(** Process handles: both operations, then duplication; thread handles. *)
Definition wrapper : WduObCallback := WduObCallback.mk null
  [op ObjectType.Process 3 0x91 0x5; op ObjectType.Thread 3 0x92 0;
   op ObjectType.Process 2 0x93 0; op ObjectType.Process 1 0x94 0].
Definition pre : OB_PRE_INFORMATION := mkObPre 1 0 0x600 0x10 null 0x700.
Definition post (ctx : ptr) : OB_POST_INFORMATION := mkObPost 1 0 0x600 0x10 ctx 0 0x700.
Definition start : world cells :=
  World tt [] {[0x40 := inj wrapper; 0x50 := inj pre; 0x60 := inj (post 0x70)]}.
Definition altitude : WduUnicodeStr := WduUnicodeStr.from_slice 0x800 [51; 50].
End ObDemo.
#[local] Existing Instance ObDemo.statics.
#[local] Existing Instance ObDemo.linked.
#[local] Existing Instance ObDemo.kernel.
#[local] Existing Instance ObDemo.client.

(** Creating a handle to a process runs the first and the last callback. *)
Lemma ob_dispatch_runs_wanted_witness :
  wp (WduObCallback.pre_op_internal 0x40 0x50) ObDemo.start (fun r s1 =>
    r = OB_PREOP_SUCCESS /\ calls s1 = [KeSetEvent 0x91 5 0; KeSetEvent 0x94 0 0]).
Proof.
  unfold wp. erewrite (proj1 (ob_dispatch_runs_wanted 0x40 ObDemo.wrapper 0x50 ObjectType.Process 1
    ObDemo.start _ _)).
  - vm_compute. split; reflexivity.
  - intros f ctx s s' [Hp (i & Hm & Hk)] [= <-]. split; [exact Hp|]. exists i. exact (conj Hm Hk).
  - split; [discriminate|]. exists ObDemo.pre. vm_compute. repeat split.
  Unshelve. discriminate. vm_compute. reflexivity.
Defined.

Lemma call_context_roundtrip_witness :
  wp (ObPreOpInfo.set_context 0x50 (42 : Z)) ObDemo.start (fun _ s1 =>
    exists msg, ObPreOpInfo.set_context 0x50 (43 : Z) s1 = Panicked msg s1).
Proof.
  eapply wp_mono.
  - apply (call_context_roundtrip 0x50 0x60 ObDemo.pre (ObDemo.post 0x70) (42 : Z) (43 : Z) ObDemo.start);
      [discriminate|vm_compute; reflexivity|reflexivity].
  - intros [] s1 (i' & _ & _ & _ & _ & H & _). exact H.
Defined.

Lemma ob_register_outcome_witness :
  wp (WduObCallback.register true 0x40 ObDemo.altitude) ObDemo.start (fun r s1 => exists status out,
    r = (if status =? STATUS_SUCCESS then Ok tt else Err (RegisterError status)) /\
    w_mem s1 !! 0x40 = Some (inj (WduObCallback.mk (default null out)
                                     (WduObCallback.operations ObDemo.wrapper)))).
Proof.
  destruct (ob_register_outcome 0x40 ObDemo.altitude ObDemo.wrapper ObDemo.start) as (_ & _ & _ & H);
    [discriminate|vm_compute; reflexivity|].
  eapply wp_mono.
  - apply H; [discriminate|repeat constructor; discriminate].
  - intros r s1 (status & out & _ & Hm & ->). exists status, out. split; [reflexivity|exact Hm].
Defined.

Lemma ob_handle_given_back_once_witness :
  wp (WduObCallback.register true 0x40 ObDemo.altitude) ObDemo.start (fun r s1 => r = Ok tt ->
    exists h, wp (WduObCallback.unregister 0x40) s1 (fun r2 s2 =>
      r2 = Ok tt /\ calls s2 = calls s1 ++ [ObUnRegisterCallbacks h])).
Proof.
  eapply wp_mono.
  - apply (ob_handle_given_back_once 0x40 ObDemo.altitude ObDemo.wrapper ObDemo.start);
      [|discriminate|vm_compute; reflexivity|discriminate|repeat constructor; discriminate].
    intros k v n a c ops out [= <-]. exists 0xC00. split; [reflexivity|discriminate].
  - intros r s1 H Hr. destruct (H Hr) as (h & _ & _ & Hu). exists h.
    eapply wp_mono; [exact Hu|]. intros r2 s2 (Hr2 & Hc & _). split; assumption.
Defined.
