(* ===== verification/Callback.v ===== *)
(** * Callback: callback objects, registry callbacks and object attributes

    [callbacks/callback.rs], [callbacks/cm.rs] and [common/obj_attr.rs]. *)

From S2P Require Import Prelude Nt World UnicodeString Crate Sync Notify.
Import WduUnicodeString (WduUnicodeString).

(** The attributes' flags are their bits. *)
Module WduObjHandleAttributes.
Definition Inherit : Z := OBJ_INHERIT.
Definition Permanent : Z := OBJ_PERMANENT.
Definition Exclusive : Z := OBJ_EXCLUSIVE.
Definition CaseInsensitive : Z := OBJ_CASE_INSENSITIVE.
Definition OpenIf : Z := OBJ_OPENIF.
Definition KernelHandle : Z := OBJ_KERNEL_HANDLE.
Definition ForceAccessCheck : Z := OBJ_FORCE_ACCESS_CHECK.
Definition DontReparse : Z := OBJ_DONT_REPARSE.
Definition IgnoreImpersonatedDeviceMap : Z := OBJ_IGNORE_IMPERSONATED_DEVICEMAP.
Definition ValidAttributes : Z := OBJ_VALID_ATTRIBUTES.
End WduObjHandleAttributes.

Module WduObjectAttributes.
Record WduObjectAttributes : Type := mk { obj_attr : OBJECT_ATTRIBUTES }.
Definition default : WduObjectAttributes := mk (mkObjectAttributes 0 0 null 0 null null).

Definition root_dir (self : WduObjectAttributes) (handle : Z) : WduObjectAttributes :=
  let o := obj_attr self in
  mk (mkObjectAttributes (ObjLength o) handle (ObjectName o) (ObjAttributes o)
        (SecurityDescriptor o) (SecurityQualityOfService o)).

Section Ops.
Context {KN : Kernel} {U : Type} `{!Storable U units, !Storable U UNICODE_STRING}.

(** The parameter [obj_name] is at [slot] until the function returns; then
    it is dropped. *)
Definition object_name (slot : ptr) (self : WduObjectAttributes) (obj_name : WduUnicodeString)
    : M (world U) WduObjectAttributes :=
  install slot (WduUnicodeString.string obj_name) ;;
  let o := obj_attr self in
  let self := mk (mkObjectAttributes (ObjLength o) (RootDirectory o) slot (ObjAttributes o)
                    (SecurityDescriptor o) (SecurityQualityOfService o)) in
  WduUnicodeString.drop obj_name ;;
  box_from_raw (T := UNICODE_STRING) slot ;;
  mret self.
End Ops.

Definition attributes (self : WduObjectAttributes) (attributes : Z) : WduObjectAttributes :=
  let o := obj_attr self in
  mk (mkObjectAttributes (ObjLength o) (RootDirectory o) (ObjectName o) (u32 attributes)
        (SecurityDescriptor o) (SecurityQualityOfService o)).
Definition security_descriptor {S} (self : WduObjectAttributes) : M S WduObjectAttributes :=
  panic "not yet implemented".
Definition build (self : WduObjectAttributes) : WduObjectAttributes :=
  let o := obj_attr self in
  mk (mkObjectAttributes (u32 size_of_OBJECT_ATTRIBUTES) (RootDirectory o) (ObjectName o)
        (ObjAttributes o) (SecurityDescriptor o) (SecurityQualityOfService o)).

(** [inner_getters_value!] *)
Definition get (self : WduObjectAttributes) : OBJECT_ATTRIBUTES := obj_attr self.
End WduObjectAttributes.
Import WduObjectAttributes (WduObjectAttributes).

(** ** Callback objects *)

(** A newtype of the pointer [ExRegisterCallback] returns, which derefs to it. *)
Module CallbackHandle.
Definition CallbackHandle : Type := ptr.
Definition default : CallbackHandle := null.
Definition deref (self : CallbackHandle) : ptr := self.
Definition deref_mut (self : CallbackHandle) : ptr := self.
End CallbackHandle.
Import CallbackHandle (CallbackHandle).

Module WduCallbackObject.
Record WduCallbackObject : Type := mk {
  object : ptr;
  handle : CallbackHandle;
  ctx : ptr;
  cb : option fnptr
}.
Definition new (ctx : ptr) : WduCallbackObject := mk null CallbackHandle.default ctx None.

Section Ops.
Context {KN : Kernel} {LK : Linked} {U : Type} `{!Storable U WduCallbackObject}.

(** [&mut self], for an object in a local variable. *)
Definition unregister_value (self : WduCallbackObject) : M (world U) WduCallbackObject :=
  kcall_ (ExUnregisterCallback (CallbackHandle.deref (handle self))) ;;
  mret (mk (object self) (handle self) (ctx self) None).
Definition drop_value (self : WduCallbackObject) : M (world U) unit :=
  unregister_value self ;; mret tt.

(** [obj_attr] is the address of the attributes; an object that is not
    returned is dropped. *)
Definition create_with (create allow_multiple : bool) (obj_attr ctx : ptr)
    : M (world U) (result WduCallbackObject WduCallbackError) :=
  let cb_obj := new ctx in
  r ← kcall_ (ExCreateCallback obj_attr (u8_from create) (u8_from allow_multiple));
  let '(status, out) := r in
  let cb_obj := mk (default (object cb_obj) out) (handle cb_obj) (WduCallbackObject.ctx cb_obj)
                  (cb cb_obj) in
  if negb (status =? STATUS_SUCCESS) then drop_value cb_obj ;; mret (Err (CallbackCreateError status))
  else mret (Ok cb_obj).
Definition open (obj_attr ctx : ptr) : M (world U) (result WduCallbackObject WduCallbackError) :=
  create_with false false obj_attr ctx.
Definition create (allow_multiple : bool) (obj_attr ctx : ptr)
    : M (world U) (result WduCallbackObject WduCallbackError) :=
  create_with true allow_multiple obj_attr ctx.

(** [self] is the address of the object, [slot] that of the parameter
    [self]: [transmute(&self)] is the latter. *)
Definition register (slot self : ptr) (cb : fnptr) : M (world U) (result unit WduCallbackError) :=
  o ← load (T := WduCallbackObject) self;
  handle ← kcall_ (ExRegisterCallback (object o) (code_addr "WduCallbackObject::cb_internal")
                     (address_of_self slot self));
  if handle =? null then mret (Err (RegisterError STATUS_UNSUCCESSFUL))
  else
    update self (fun o => mk (object o) (WduCallbackObject.handle o) (ctx o) (Some cb)) ;;
    update self (fun o => mk (object o) handle (ctx o) (WduCallbackObject.cb o)) ;;
    mret (Ok tt).

Definition unregister (self : ptr) : M (world U) unit :=
  o ← load (T := WduCallbackObject) self;
  o ← unregister_value o;
  store self o.

(** [Drop] *)
Definition drop (self : ptr) : M (world U) unit := unregister self.

(** [run] is the client's callback, by address. *)
Definition cb_internal (run : fnptr -> ptr -> ptr -> ptr -> M (world U) unit)
    (ctx arg1 arg2 : ptr) : M (world U) unit :=
  o ← load (T := WduCallbackObject) ctx;
  match cb o with
  | None => mret tt
  | Some pfn => o ← load (T := WduCallbackObject) ctx; run pfn (WduCallbackObject.ctx o) arg1 arg2
  end.

Definition notify (self : ptr) (arg1 arg2 : ptr) : M (world U) unit :=
  o ← load (T := WduCallbackObject) self;
  kcall_ (ExNotifyCallback (object o) arg1 arg2).
End Ops.
End WduCallbackObject.
Import WduCallbackObject (WduCallbackObject).

(** ** Registry callbacks *)

Record CmCallbackVersion : Type := mkCmCallbackVersion { minor : Z; major : Z }.

Module WduCmKeyObject.
Record WduCmKeyObject : Type := mk { object_id : Z; object_name : WduUnicodeString }.
Definition default : WduCmKeyObject := mk 0 WduUnicodeString.default.

Section Ops.
Context {KN : Kernel} {U : Type} `{!Storable U units, !Storable U UNICODE_STRING}.
(** A key object whose member [object_name] is at [name]: the function of
    [Drop], then the members are dropped. *)
Definition drop (name : ptr) (self : WduCmKeyObject) : M (world U) unit :=
  kcall_ (CmCallbackReleaseKeyObjectIDEx name) ;;
  WduUnicodeString.drop (object_name self).
End Ops.
End WduCmKeyObject.
Import WduCmKeyObject (WduCmKeyObject).

Module WduCmCallback.
Record WduCmCallback : Type := mk { cookie : Z; altitude : WduUnicodeString }.
Definition default : WduCmCallback := mk 0 WduUnicodeString.default.

Section Ops.
Context {KN : Kernel} {LK : Linked} {U : Type} `{!Storable U units, !Storable U UNICODE_STRING}.

(** [&mut self]: the changed wrapper is given back; its member [altitude] is
    at [at_]: the kernel is given that address. *)
Definition set_altitude (self : WduCmCallback) (altitude : WduUnicodeString)
    : M (world U) WduCmCallback :=
  WduUnicodeString.drop (WduCmCallback.altitude self) ;;
  mret (mk (cookie self) altitude).

Definition test : NTSTATUS := STATUS_SUCCESS.

Definition register (at_ : ptr) (self : WduCmCallback)
    : M (world U) (result unit WduCallbackError * WduCmCallback) :=
  r ← kcall_ (CmRegisterCallbackEx (code_addr "cm::test") at_);
  let '(status, out) := r in
  let self := mk (stdpp.option.default (cookie self) out) (altitude self) in
  if negb (status =? STATUS_SUCCESS) then mret (Err (RegisterError status), self)
  else mret (Ok tt, self).

Definition unregister (self : WduCmCallback) : M (world U) (result unit WduCallbackError) :=
  status ← kcall_ (CmUnRegisterCallback (cookie self));
  if negb (status =? STATUS_SUCCESS) then mret (Err (CallbackNtStatus status)) else mret (Ok tt).

Definition version : M (world U) CmCallbackVersion :=
  r ← kcall_ CmGetCallbackVersion;
  mret (mkCmCallbackVersion r.2 r.1).

(** [&mut key_object.object_name.as_mut_ptr()] is the address of a temporary
    that holds the address of the name: the kernel's pointer goes there.
    [name] is the address of the local's member [object_name]. *)
Definition key_object_id (name : ptr) (self : WduCmCallback) (object : ptr)
    : M (world U) (result WduCmKeyObject WduCallbackError) :=
  let key_object := WduCmKeyObject.default in
  r ← kcall_ (CmCallbackGetKeyObjectIDEx (cookie self) object 0);
  let '(status, out) := r in
  let key_object :=
    match out with
    | None => key_object
    | Some (id, _) => WduCmKeyObject.mk id (WduCmKeyObject.object_name key_object)
    end in
  if negb (status =? STATUS_SUCCESS)
  then WduCmKeyObject.drop name key_object ;; mret (Err (CallbackNtStatus status))
  else mret (Ok key_object).

Definition bound_transaction (self : WduCmCallback) (object : ptr) : M (world U) unit :=
  kcall_ (CmGetBoundTransaction (cookie self) object).
End Ops.
End WduCmCallback.
Import WduCmCallback (WduCmCallback).

(** ** Properties *)

Section callback_objects.
Context {KN : Kernel} {LK : Linked} {U : Type} `{!Storable U WduCallbackObject}.
Context (run : fnptr -> ptr -> ptr -> ptr -> M (world U) unit).
Implicit Types s : world U.

(** A callback object registers with the address of the parameter [self],
    not with its own.  The kernel's answer is kept as it should be: a null
    handle is an error and changes nothing, another is stored with the
    client's callback.  But when the kernel calls back with the context it
    was given, no callback object is there; with the object's address the
    client's callback would have run. *)
Theorem callback_context_not_the_object slot self f arg1 arg2 (o : WduCallbackObject) s :
  self <> 0 -> slot <> 0 -> slot <> self -> w_mem s !! self = Some (inj o) ->
  w_mem s !! slot ≫= prj (T := WduCallbackObject) = None ->
  wp (WduCallbackObject.register slot self f) s (fun r s1 => exists h,
    w_trace s1 = w_trace s ++
      [Ev (ExRegisterCallback (WduCallbackObject.object o)
             (code_addr "WduCallbackObject::cb_internal") slot) h] /\
    (h = null -> r = Err (RegisterError STATUS_UNSUCCESSFUL) /\ w_mem s1 = w_mem s) /\
    (h <> null -> r = Ok tt /\ w_mem s1 !! self =
       Some (inj (WduCallbackObject.mk (WduCallbackObject.object o) h (WduCallbackObject.ctx o) (Some f))) /\
       WduCallbackObject.cb_internal run self arg1 arg2 s1 =
         run f (WduCallbackObject.ctx o) arg1 arg2 s1) /\
    WduCallbackObject.cb_internal run slot arg1 arg2 s1 = Ub (Dangling slot) s1).
Proof.
  intros Hs Hsl Hne Ho Hslot. unfold WduCallbackObject.register, address_of_self.
  apply wp_bind. eapply wp_load; [done..|]. wp_step. wp_step.
  match goal with |- context [kresp ?c s] => set (call := c); set (h := kresp call s) end.
  destruct (h =? null) eqn:Eh.
  - apply wp_ret. exists h. apply Z.eqb_eq in Eh. split; [done|]. split; [done|]. split; [done|].
    apply bind_ub. by apply load_fault.
  - apply Z.eqb_neq in Eh. apply wp_bind. eapply wp_update; [done..|]. apply wp_bind.
    eapply wp_update; [done|map_at|]. apply wp_ret. exists h. split; [done|]. split; [done|].
    simpl. rewrite insert_insert_eq. split.
    + intros _. split; [done|]. split; [map_at|]. unfold WduCallbackObject.cb_internal.
      erewrite bind_done by (apply load_at; [done|map_at]). simpl.
      by erewrite bind_done by (apply load_at; [done|map_at]).
    + apply bind_ub. apply load_fault; [done|]. by map_at.
Qed.

(** A callback object gives back its handle twice: [unregister] does not
    forget it, and [drop] calls the kernel again.  An object that was never
    registered, such as one whose creation failed, gives back null. *)
Theorem callback_unregistered_twice self (o : WduCallbackObject) create allow attr ctx s :
  self <> 0 -> w_mem s !! self = Some (inj o) ->
  wp (WduCallbackObject.unregister self ;; WduCallbackObject.drop self) s (fun _ s1 =>
    calls s1 = calls s ++ [ExUnregisterCallback (WduCallbackObject.handle o);
                           ExUnregisterCallback (WduCallbackObject.handle o)]) /\
  wp (WduCallbackObject.create_with create allow attr ctx) s (fun r s1 =>
    let c := ExCreateCallback attr (u8_from create) (u8_from allow) in
    w_mem s1 = w_mem s /\
    match r with
    | Ok o => calls s1 = calls s ++ [c] /\ WduCallbackObject.handle o = null /\
              WduCallbackObject.ctx o = ctx /\ WduCallbackObject.cb o = None
    | Err e => calls s1 = calls s ++ [c; ExUnregisterCallback null] /\
               exists status, e = CallbackCreateError status /\ status <> STATUS_SUCCESS
    end).
Proof.
  intros Hs Ho. split.
  - unfold WduCallbackObject.drop, WduCallbackObject.unregister, WduCallbackObject.unregister_value.
    apply wp_bind, wp_bind. eapply wp_load; [done..|]. do 3 wp_step. wp_step.
    eapply wp_store; [done..|]. apply wp_bind. eapply wp_load; [done|map_at|]. do 4 wp_step.
    eapply wp_store; [done|map_at|]. autorewrite with wdu. by rewrite <- app_assoc.
  - unfold WduCallbackObject.create_with. wp_step. wp_step.
    destruct (kresp _ s) as [status out] eqn:E. destruct (Z.eqb_spec status STATUS_SUCCESS); simpl.
    + apply wp_ret. by autorewrite with wdu.
    + unfold WduCallbackObject.drop_value, WduCallbackObject.unregister_value.
      repeat wp_step. autorewrite with wdu. rewrite <- app_assoc. split; [done|]. split; [done|].
      by exists status.
Qed.
End callback_objects.

Section registry.
Context {KN : Kernel} {LK : Linked} {U : Type} `{!Storable U units, !Storable U UNICODE_STRING}.
Implicit Types s : world U.

(** The registry wrapper remembers the cookie the kernel gave it, and
    removes the registration by it.  The key object it returns has the
    object's id but never its name: the kernel's pointer is lost, and when
    the key object is dropped, the kernel is asked to release the empty
    string inside it, whatever was returned. *)
Theorem cm_key_object_name_lost at_ name dropped_at (w : WduCmCallback) object s :
  wp (WduCmCallback.register at_ w) s (fun r s1 =>
    w_mem s1 = w_mem s /\ exists status out,
      w_trace s1 = w_trace s ++ [Ev (CmRegisterCallbackEx (code_addr "cm::test") at_) (status, out)] /\
      r.1 = (if status =? STATUS_SUCCESS then Ok tt else Err (RegisterError status)) /\
      forall cookie, out = Some cookie ->
        wp (WduCmCallback.unregister r.2) s1 (fun _ s2 => calls s2 = calls s1 ++ [CmUnRegisterCallback cookie])) /\
  wp (WduCmCallback.key_object_id name w object) s (fun r s1 =>
    w_mem s1 = w_mem s /\ exists status out,
      let c := CmCallbackGetKeyObjectIDEx (WduCmCallback.cookie w) object 0 in
      match r with
      | Err e => e = CallbackNtStatus status /\
          w_trace s1 = w_trace s ++ [Ev c (status, out); Ev (CmCallbackReleaseKeyObjectIDEx name) tt]
      | Ok k => status = STATUS_SUCCESS /\ w_trace s1 = w_trace s ++ [Ev c (status, out)] /\
          WduCmKeyObject.object_id k = default 0 (fst <$> out) /\
          WduCmKeyObject.object_name k = WduUnicodeString.default /\
          wp (WduCmKeyObject.drop dropped_at k) s1 (fun _ s2 =>
            calls s2 = calls s1 ++ [CmCallbackReleaseKeyObjectIDEx dropped_at] /\ w_mem s2 = w_mem s)
      end).
Proof.
  split.
  - unfold WduCmCallback.register. wp_step. wp_step. destruct (kresp _ s) as [status out] eqn:E.
    destruct (status =? STATUS_SUCCESS) eqn:Es; apply wp_ret; (split; [done|]); exists status, out;
      (split; [by rewrite trace_kafter, E|]); rewrite Es; (split; [done|]); intros cookie ->;
      unfold WduCmCallback.unregister; wp_step; wp_step; wp_if; apply wp_ret;
      autorewrite with wdu; done.
  - unfold WduCmCallback.key_object_id. wp_step. wp_step. destruct (kresp _ s) as [status out] eqn:E.
    destruct (Z.eqb_spec status STATUS_SUCCESS) as [->|Hs]; simpl.
    + apply wp_ret. split; [done|]. exists STATUS_SUCCESS, out. split; [done|].
      split; [by rewrite trace_kafter, E|]. split; [by destruct out as [[]|]|].
      split; [by destruct out as [[]|]|]. unfold WduCmKeyObject.drop. wp_step. wp_step.
      destruct out as [[]|]; simpl; apply wp_ret; by autorewrite with wdu.
    + unfold WduCmKeyObject.drop. repeat wp_step.
      assert (Hn : WduCmKeyObject.object_name
        (match out with
         | Some (id, _) => WduCmKeyObject.mk id WduUnicodeString.default
         | None => WduCmKeyObject.default end) = WduUnicodeString.default) by by destruct out as [[]|].
      simpl in *. rewrite Hn. apply wp_ret. apply wp_ret. split; [done|]. exists status, out.
      split; [done|]. autorewrite with wdu. rewrite E, <- app_assoc.
      by destruct (kresp (CmCallbackReleaseKeyObjectIDEx name) _).
Qed.

(** [object_name] leaves the attributes with the address of its own
    parameter, which is dropped when the method returns: the kernel, given
    the attributes, follows a dangling pointer.  The other members are set
    as asked. *)
Theorem object_name_dangles slot (a : WduObjectAttributes) u s :
  slot <> 0 -> w_mem s !! slot = None ->
  wp (WduObjectAttributes.object_name slot a (WduUnicodeString.mk u None)) s (fun a' s1 =>
    let o := WduObjectAttributes.get (WduObjectAttributes.build a') in
    ObjectName o = slot /\ load (T := UNICODE_STRING) (ObjectName o) s1 = Ub (Dangling slot) s1 /\
    w_mem s1 = w_mem s /\ ObjLength o = size_of_OBJECT_ATTRIBUTES /\
    RootDirectory o = RootDirectory (WduObjectAttributes.get a) /\
    ObjAttributes o = ObjAttributes (WduObjectAttributes.get a)).
Proof.
  intros Hs Hn. unfold WduObjectAttributes.object_name. apply wp_bind. apply wp_install; [done|].
  wp_step. simpl. apply wp_ret. wp_step. eapply wp_box_from_raw; [done|map_at|]. apply wp_ret.
  split; [done|]. split; [apply load_dangling; [done|map_at]|].
  split; [|done]. simpl. by rewrite delete_insert_id.
Qed.
End registry.

(** ** Instances *)

Module CallbackDemo.
#[export] Instance linked : Linked :=
  {| size_of_WduDevice := 24; size_of_WduDriver := 72; code_addr s := 0x7000 |}.
Abbreviation cells := (WduCallbackObject + (UNICODE_STRING + (units + (Z + unit))))%type.
(** A kernel that gives the handle 0xC00. *)
Definition answer (c : kcall) : kret c :=
  match c as c return kret c with
  | ExRegisterCallback _ _ _ => 0xC00
  | c => default_answer c
  end.
Definition object : WduCallbackObject := WduCallbackObject.mk 0x300 null 0x400 None.
(** The object at 0x40, a reference to it at 0x90. *)
Definition start : @world (answering answer) cells :=
  world_of answer {[0x40 := inj object; 0x90 := inj 0x40]}.
End CallbackDemo.
#[local] Existing Instance CallbackDemo.linked.

Lemma callback_context_not_the_object_witness :
  wp (WduCallbackObject.register 0x90 0x40 0x77) CallbackDemo.start (fun r s1 =>
    exists h, WduCallbackObject.cb_internal (fun _ _ _ _ => mret tt) 0x90 1 2 s1 = Ub (Dangling 0x90) s1 /\
      (h <> null -> r = Ok tt)).
Proof.
  eapply wp_mono.
  - apply (callback_context_not_the_object (fun _ _ _ _ => mret tt) 0x90 0x40 0x77 1 2
      CallbackDemo.object CallbackDemo.start);
      [discriminate|discriminate|discriminate|vm_compute; reflexivity|vm_compute; reflexivity].
  - intros r s1 (h & _ & _ & Hok & Hub). exists h. split; [exact Hub|]. intros Hh. exact (proj1 (Hok Hh)).
Defined.

Lemma callback_unregistered_twice_witness :
  wp (WduCallbackObject.unregister 0x40 ;; WduCallbackObject.drop 0x40) CallbackDemo.start (fun _ s1 =>
    calls s1 = [ExUnregisterCallback 0; ExUnregisterCallback 0]).
Proof.
  exact (proj1 (callback_unregistered_twice 0x40 CallbackDemo.object true true 0 0 CallbackDemo.start
    ltac:(discriminate) ltac:(vm_compute; reflexivity))).
Defined.

Lemma object_name_dangles_witness :
  wp (WduObjectAttributes.object_name 0x90 WduObjectAttributes.default
        (WduUnicodeString.mk (mkUnicode 4 4 0x500) None))
    (world_of default_answer (∅ : gmap ptr CallbackDemo.cells)) (fun a s1 =>
    load (T := UNICODE_STRING) (ObjectName (WduObjectAttributes.get a)) s1 = Ub (Dangling 0x90) s1).
Proof.
  eapply wp_mono.
  - apply (object_name_dangles 0x90 WduObjectAttributes.default (mkUnicode 4 4 0x500)
      (world_of default_answer (∅ : gmap ptr CallbackDemo.cells))); [discriminate|reflexivity].
  - intros a s1 (_ & H & _). exact H.
Defined.
