(* ===== verification/Process.v ===== *)
(** * Process: processes and threads, [common/process.rs], [common/thread.rs] *)

From S2P Require Import Prelude Nt World Format UnicodeStr Crate.
Import WduUnicodeStr (WduUnicodeStr).

(** The UTF-16 code units of a string literal, [utf16str!]; the crate's
    literals are ASCII. *)
Fixpoint utf16str (l : string) : list Z :=
  match l with
  | EmptyString => []
  | String c l => Z.of_N (Ascii.N_of_ascii c) :: utf16str l
  end.

Module WduProcess.
Record WduProcess : Type := mk { process : ptr }.
Definition inner (self : WduProcess) : ptr := process self.
Definition wrap (process : ptr) : WduProcess := mk process.
(** [PartialEq], derived. *)
Definition eq (a b : WduProcess) : bool := process a =? process b.
(** [Debug], and [Display] by it *)
Definition debug_fmt (self : WduProcess) : string := fmt_upper_hex (process self).
Definition display_fmt (self : WduProcess) : string := debug_fmt self.

Section Ops.
Context {KN : Kernel} {U : Type}.

Definition current_process : M (world U) WduProcess := p ← kcall_ IoGetCurrentProcess; mret (mk p).
Definition current_process_id : M (world U) Z := kcall_ PsGetCurrentProcessId.
Definition exit_time : M (world U) Z := kcall_ PsGetProcessExitTime.
Definition process_id (self : WduProcess) : M (world U) Z := kcall_ (PsGetProcessId (inner self)).
Definition create_time (self : WduProcess) : M (world U) Z :=
  kcall_ (PsGetProcessCreateTimeQuadPart (inner self)).
Definition exit_status (self : WduProcess) : M (world U) NTSTATUS :=
  kcall_ (PsGetProcessExitStatus (inner self)).
Definition start_key (self : WduProcess) : M (world U) Z := kcall_ (PsGetProcessStartKey (inner self)).

(** [name] is the address of the literal. *)
Definition protection (name : ptr) (self : WduProcess) : M (world U) (option Z) :=
  let ps_protection := WduUnicodeStr.from_slice name (utf16str "PsGetProcessProtection") in
  pfn ← get_system_routine_addr ps_protection;
  match pfn with
  | None => mret None
  | Some pfn => p ← kcall_ (CallPsGetProcessProtection pfn (inner self)); mret (Some p)
  end.
End Ops.
End WduProcess.

#[export] Instance WduProcess_eq_dec : EqDecision WduProcess.WduProcess.
Proof. solve_decision. Defined.

Module WduThread.
Record WduThread : Type := mk { thread : ptr }.
Definition inner (self : WduThread) : ptr := thread self.
Definition wrap (thread : ptr) : WduThread := mk thread.
(** [Debug], and [Display] by it *)
Definition debug_fmt (self : WduThread) : string := fmt_upper_hex (thread self).
Definition display_fmt (self : WduThread) : string := debug_fmt self.

Section Ops.
Context {KN : Kernel} {U : Type}.
Definition current_thread_id : M (world U) Z := kcall_ PsGetCurrentThreadId.
Definition process_id (self : WduThread) : M (world U) Z := kcall_ (PsGetThreadProcessId (inner self)).
Definition create_time (self : WduThread) : M (world U) Z := kcall_ (PsGetThreadCreateTime (inner self)).
End Ops.
End WduThread.

(** What is printed of a process tells it from every other. *)
Lemma process_display_identifies a b :
  0 <= WduProcess.inner a < 2 ^ 64 -> 0 <= WduProcess.inner b < 2 ^ 64 ->
  WduProcess.display_fmt a = WduProcess.display_fmt b <-> WduProcess.eq a b = true.
Proof.
  intros Ha Hb. unfold WduProcess.eq. rewrite Z.eqb_eq. split; [by apply fmt_upper_hex_inj|].
  unfold WduProcess.display_fmt, WduProcess.debug_fmt. by intros ->.
Qed.

(** [protection] looks the routine up by name on every call, and calls it
    on this process if the running kernel has it; an older kernel is told
    apart by [None], and nothing but the lookup has happened. *)
Theorem protection_if_supported {KN : Kernel} {U} name p (s : world U) :
  wp (WduProcess.protection name (WduProcess.wrap p)) s (fun r s1 =>
    let lookup := MmGetSystemRoutineAddress (mkUnicode 44 44 name) (utf16str "PsGetProcessProtection") in
    w_mem s1 = w_mem s /\
    match r with
    | None => w_trace s1 = w_trace s ++ [Ev lookup null]
    | Some x => exists pfn, pfn <> null /\
        w_trace s1 = w_trace s ++ [Ev lookup pfn; Ev (CallPsGetProcessProtection pfn p) x]
    end).
Proof.
  unfold WduProcess.protection, get_system_routine_addr. do 3 wp_step. wp_step.
  match goal with |- context [kresp ?c s] =>
    change c with (MmGetSystemRoutineAddress (mkUnicode 44 44 name) (utf16str "PsGetProcessProtection"))
  end.
  set (lookup := MmGetSystemRoutineAddress _ _). destruct (kresp lookup s =? null) eqn:E.
  - apply Z.eqb_eq in E. wp_step. split; [done|]. by rewrite trace_kafter, E.
  - apply Z.eqb_neq in E. repeat wp_step. split; [done|]. eexists. split; [done|].
    by rewrite !trace_kafter, <- app_assoc.
Qed.
