(* ===== verification/TestDriver.v ===== *)
(** * TestDriver: the driver that tests the strings, [tests/strings/src/lib.rs]

    [DriverEntry] runs [test_unicode] and panics when it fails.  Every string
    it makes is dropped at the end of the function, or at the [?] that leaves
    it early. *)

From S2P Require Import Prelude Nt World Format Utf16 UnicodeStr Crate Pool UnicodeString Process.
Import WduUnicodeStr (WduUnicodeStr).
Import PoolFlags (PoolFlags, PoolFlagNonPaged, PoolFlagPaged).
Import WduUnicodeString (WduUnicodeString, AllocType, Os, Rust, Pool).

(** Where the literals and the temporaries are, and what the libraries the
    tests use do: the room the global allocator has, the words of a vector,
    [str::to_lowercase]. *)
Class TestLayout : Type := {
  global_name_at : ptr;
  x_at : ptr;
  encoded_at : ptr;
  y_at : ptr;
  u16cstr_at : ptr;
  utf16_at : ptr;
  has_room : Z -> bool;
  vec_words : ptr -> Z -> list Z;
  to_lowercase : list Z -> list Z
}.

Section TestDriver.
Context {KN : Kernel} {TL : TestLayout} {U : Type} `{!Storable U units, !Storable U UNICODE_STRING}.
(** The feature [try_non_paged] of the crate. *)
Context (try_non_paged : bool).

(** [let x = m?;] for a string, which is dropped at the end of the scope. *)
Definition owned (m : M (world U) (result WduUnicodeString WduUnicodeError))
    (k : WduUnicodeString -> M (world U) (result unit WduUnicodeError))
    : M (world U) (result unit WduUnicodeError) :=
  str ←? m; r ← k str; WduUnicodeString.drop str ;; mret r.

Definition chars (s : string) : list Z := utf16str s.

Definition test_unicode (reg_path : ptr) : M (world U) (result unit WduUnicodeError) :=
  let x := [0x48; 0x65; 0x6C; 0x6C; 0x6f] in
  let hello := WduUnicodeStr.from_slice x_at x in
  reg_path_str ← WduUnicodeStr.from_ptr reg_path;
  owned (WduUnicodeString.to_owned try_non_paged reg_path_str) (fun reg_path_owned =>
  assert_ (WduUnicodeStr.eq_str hello (chars "Hello")) "assertion failed: hello == hello_str" ;;
  b ← WduUnicodeString.eq_WduUnicodeStr reg_path_owned reg_path_str;
  assert_ b "assertion failed: reg_path_str == reg_path_owned" ;;
  u ← load (T := UNICODE_STRING) reg_path;
  res ← kcall_ (RtlCompareUnicodeString u (WduUnicodeStr.into_UNICODE_STRING reg_path_str) (u8_from false));
  assert_ (res =? 0) "assertion failed: res == 0" ;;
  let empty := WduUnicodeString.default in
  assert_ (WduUnicodeString.is_empty empty) "assertion failed: empty.is_empty()" ;;
  v ← WduUnicodeString.validate empty;
  assert_ (if v is Ok _ then true else false) "assertion failed: empty.validate().is_ok()" ;;
  let invalid := WduUnicodeString.mk (mkUnicode 1 0 null) None in
  v ← WduUnicodeString.validate invalid;
  assert_ (if v is Err _ then true else false) "assertion failed: invalid.validate().is_err()" ;;
  owned (WduUnicodeString.create x_at x PoolFlagNonPaged) (fun hello_alloc =>
  assert_ (WduUnicodeString.is_pool_alloc hello_alloc) "assertion failed: hello_alloc.is_pool_alloc()" ;;
  owned (c ← WduUnicodeString.clone vec_words hello_alloc; mret (Ok c)) (fun hello_clone =>
  b ← WduUnicodeString.eq hello_clone hello_alloc;
  assert_ b "assertion failed: hello_clone == hello_alloc" ;;
  owned (WduUnicodeString.from_str try_non_paged has_room encoded_at (chars "from_str")) (fun from_str =>
  b ← WduUnicodeString.eq_str from_str (chars "from_str");
  assert_ b "assertion failed: from_str.to_string() == 'from_str'" ;;
  owned (WduUnicodeString.TryFrom_u64 try_non_paged 0xDEADBEEF) (fun from_u64 =>
  b ← WduUnicodeString.eq_str from_u64 (chars (fmt_display 0xDEADBEEF));
  assert_ b "assertion failed: from_u64.to_string() == format!(...)" ;;
  owned (WduUnicodeString.try_from_u32 try_non_paged 0xCAFE 16) (fun from_u32 =>
  b ← WduUnicodeString.eq_str from_u32 (chars "CAFE");
  assert_ b "assertion failed: from_u32.to_string() == 'CAFE'" ;;
  owned (WduUnicodeString.try_from_slice try_non_paged y_at [0x6E; 0x34; 0x72; 0x31; 0x42]) (fun n4r1B =>
  b ← WduUnicodeString.eq_str n4r1B (chars "n4r1B");
  assert_ b "assertion failed: n4r1B.to_string() == n4r1b_str" ;;
  owned (WduUnicodeString.try_from_slice try_non_paged u16cstr_at (utf16str "N4R1B")) (fun n4r1b_upcase =>
  l ← WduUnicodeString.as_slice n4r1b_upcase;
  assert_ (bool_decide (l = utf16str "N4R1B")) "assertion failed: n4r1b_upcase.as_slice() == ..." ;;
  b ← WduUnicodeString.compare n4r1b_upcase n4r1B false;
  assert_ (negb b) "assertion failed: n4r1b_upcase.compare(&n4r1B, false) == false" ;;
  b ← WduUnicodeString.compare n4r1b_upcase n4r1B true;
  assert_ b "assertion failed: n4r1b_upcase.compare(&n4r1B, true) == true" ;;
  owned (WduUnicodeString.try_from_slice try_non_paged utf16_at (utf16str "n4r1b")) (fun n4r1b =>
  owned (WduUnicodeString.new_lower n4r1b_upcase) (fun n4r1b_lower =>
  b ← WduUnicodeString.np_compare n4r1b_lower n4r1b;
  assert_ b "assertion failed: n4r1b_lower.np_compare(&n4r1b) == true" ;;
  owned (WduUnicodeString.TryFrom_str try_non_paged has_room encoded_at (chars "services")) (fun services =>
  reg_path_string ← WduUnicodeString.wrap reg_path;
  b ← WduUnicodeString.contains to_lowercase reg_path_string services false;
  assert_ (negb b) "assertion failed: reg_path_string.contains(&services, false) == false" ;;
  b ← WduUnicodeString.contains to_lowercase reg_path_string services true;
  assert_ b "assertion failed: reg_path_string.contains(&services, true) == true" ;;
  mret (Ok tt)))))))))))).

(** The logger is not modelled. *)
Definition DriverEntry (_driver_object reg_path : ptr) : M (world U) Z :=
  SimpleAlloc.init global_name_at SimpleAlloc.const_new ;;
  r ← test_unicode reg_path;
  match r with
  | Err _ => panic "Failed to test Unicode module."
  | Ok _ => mret 0
  end.

(** C35: the test driver cannot pass its own tests: on any registry path the
    system can give it, [DriverEntry] never returns.  The second statement of
    [test_unicode] makes a copy of the path with [to_owned], which either finds
    no memory - and the driver panics - or writes past the end of its block. *)
Theorem test_driver_never_passes driver reg_path (u : UNICODE_STRING) (b : units) s :
  reg_path <> 0 -> w_mem s !! reg_path = Some (inj u) ->
  Buffer u <> 0 -> w_mem s !! Buffer u = Some (inj b) ->
  2 <= MaximumLength u < 2 ^ 16 -> MaximumLength u <= b_bytes b ->
  MaximumLength u / 2 <= Z.of_nat (length (b_units b)) ->
  (exists msg s', DriverEntry driver reg_path s = Panicked msg s') \/
  (exists p s', DriverEntry driver reg_path s = Ub (OutOfBounds p) s').
Proof.
  intros Hp Hu Hb Hm Hcap Hbytes Hunits. unfold DriverEntry.
  destruct (wp_elim (SimpleAlloc.init global_name_at SimpleAlloc.const_new) s (fun _ s1 => w_mem s1 = w_mem s))
    as (g & s1 & E & M1).
  { unfold SimpleAlloc.init, get_system_routine_addr. by repeat wp_step. }
  erewrite bind_done by exact E.
  assert (Hs : native_string reg_path u b s1) by (eapply native_string_frame; [exact M1|by split]).
  destruct (to_owned_overruns try_non_paged _ _ _ _ Hs) as (s2 & Hc & _). set (q := kresp _ s1) in Hc.
  assert (Ht : test_unicode reg_path s1 =
    if q =? 0 then Done (Err InsufficientResources) s2 else Ub (OutOfBounds q) s2).
  { unfold test_unicode. erewrite bind_done by by apply from_ptr_done. unfold owned at 1, try_ at 1.
    destruct (q =? 0); [by erewrite bind_done by exact Hc|by apply bind_ub]. }
  destruct (q =? 0).
  - left. erewrite bind_done by exact Ht. by do 2 eexists.
  - right. exists q, s2. by apply bind_ub.
Qed.
End TestDriver.

(** ** Instances *)

Module TestDriverDemo.
#[export] Instance layout : TestLayout :=
  {| global_name_at := 0x80; x_at := 0x90; encoded_at := 0xA0; y_at := 0xB0; u16cstr_at := 0xC0;
     utf16_at := 0xD0; has_room _ := true; vec_words _ _ := []; to_lowercase l := l |}.
End TestDriverDemo.

Lemma test_driver_never_passes_witness :
  let run := DriverEntry (TL := TestDriverDemo.layout) true 0x10 0x600
    (UnicodeStringDemo.start UnicodeStringDemo.memory) in
  (exists msg s', run = Panicked msg s') \/ (exists p s', run = Ub (OutOfBounds p) s').
Proof.
  refine (test_driver_never_passes (TL := TestDriverDemo.layout) true 0x10 0x600 (mkUnicode 2 8 0x500)
    (mkUnits 8 [72; 105; 0; 0]) (UnicodeStringDemo.start UnicodeStringDemo.memory) _ _ _ _ _ _ _);
    first [discriminate | vm_compute; reflexivity | simpl; lia].
Defined.
