(* ===== verification/Event.v ===== *)
(** * Event: the example driver [examples/event/src/lib.rs]

    A client registers with a control request to be told when a time is due:
    by the completion of the request, which stays pending until then, or by
    an event it has a handle to.  Each registration is a boxed record with a
    timer and a DPC, kept in a queue in the device extension under a spin
    lock.  A record leaves the queue when its timer is due, when its request
    is cancelled, or when the client's file handle is cleaned up.

    The members of a structure that other code is given the address of are
    cells of their own, at an offset. *)

From S2P Require Import Prelude Nt World UnicodeStr Crate Pool FileObj.
From S2P Require Import Device Irp DeviceControl Driver SpinLock Sync Process.
Import WduUnicodeStr (WduUnicodeStr).
Import WduDevice (WduDevice).
Import WduFileObject (WduFileObject).
Import WduIrp (WduIrp).
Import MajorFunction (MajorFunction).
Import WduIoStatus (WduIoStatus).
Import WduCreate (WduCreate).
Import WduDeviceControl (WduDeviceControl).
Import WduEvent (WduEvent).
Import WduSpinLock (WduSpinLock).
Import WduRemoveLock (WduRemoveLock).
Import WduDpc (WduDpc).

Inductive EventError : Type := DriverError | DeviceError | UnicodeError | Status (status : NTSTATUS).

(** [From<WduDeviceError>], [From<WduDriverError>], [From<WduError>] *)
Definition from_device_error (_ : WduDeviceError) : EventError := DeviceError.
Definition from_driver_error (_ : WduDriverError) : EventError := DriverError.
Definition from_error (e : WduError) : EventError :=
  match e with WduError_NtStatus status => Status status end.

Definition LOCK_TAG : Z := u32_from_ne_bytes 84 69 86 69.
Definition DEVICE_NAME_UTF16 : list Z := utf16str "\Device\Event_Sample".
Definition WIN32_NAME_UTF16 : list Z := utf16str "\DosDevices\Event_Sample".
Definition IRP_BASED : Z := 0.
Definition EVENT_BASED : Z := 1.

Inductive NotifyType : Type := IrpBased (irp : WduIrp) | EventBased (event : WduEvent).

Record RegisterEvent : Type := mkRegisterEvent { notify_type : Z; event : Z; due_time : Z }.
Definition size_of_RegisterEvent : Z := 24.

Definition IOCTL_REGISTER_EVENT : Z :=
  encode_ioctl FILE_DEVICE_UNKNOWN 0x800 METHOD_BUFFERED FILE_ANY_ACCESS.

Record NotifyData : Type := mkNotifyData { ty : NotifyType; extension_of : ptr }.

(** [PartialEq] *)
Definition NotifyData_eq (self other : NotifyData) : bool :=
  match ty self with
  | IrpBased irp =>
      match ty other with
      | IrpBased other_irp => WduIrp.as_ptr other_irp =? WduIrp.as_ptr irp
      | EventBased _ => false
      end
  | EventBased event =>
      match ty other with
      | EventBased other_event => WduEvent.as_ptr other_event =? WduEvent.as_ptr event
      | IrpBased _ => false
      end
  end.

(** The members [dpc] and [timer] are at offsets of the record. *)
Record NotifyRecord : Type := mkNotifyRecord { file_object : WduFileObject; data_of : NotifyData }.

(** [FileContext] has the one member [file_rundown], a remove lock. *)
Abbreviation FileContext := WduRemoveLock.

(** The member [queue_lock] is at an offset of the extension. *)
Record DeviceExtension : Type := mkDeviceExtension { event_queue : list ptr }.

(** Where the compiler puts things. *)
Class EventLayout : Type := {
  size_of_DeviceExtension : Z;
  queue_lock_offset : Z;
  dpc_offset : Z;
  timer_offset : Z;
  size_of_IO_REMOVE_LOCK : Z;
  line : Z;
  device_name_at : ptr;
  win32_name_at : ptr;
  global_name_at : ptr;
  queue_lock_offset_pos : 0 < queue_lock_offset;
  dpc_offset_pos : 0 < dpc_offset
}.

(** [iter().position(p)], where [p] reads memory. *)
Fixpoint position_m {St A} (p : A -> M St bool) (l : list A) : M St (option nat) :=
  match l with
  | [] => mret None
  | x :: l => found ← p x;
              if found : bool then mret (Some O) else i ← position_m p l; mret (S <$> i)
  end.

Definition unwrap {St A} (o : option A) : M St A :=
  match o with Some a => mret a | None => panic "called `Option::unwrap()` on a `None` value" end.

Section Event.
Context {KN : Kernel} {B : Build} {LK : Linked} {NS : NtStatics} {EL : EventLayout} {U : Type}.
Context `{!Storable U DRIVER_OBJECT, !Storable U DRIVER_EXTENSION, !Storable U DEVICE_OBJECT}.
Context `{!Storable U WduDevice, !Storable U WduDriver}.
Context `{!Storable U IRP, !Storable U IO_STACK_LOCATION, !Storable U WduIrp, !Storable U FILE_OBJECT}.
Context `{!Storable U WduSpinLock, !Storable U WduRemoveLock, !Storable U RegisterEvent}.
Context `{!Storable U DeviceExtension, !Storable U NotifyRecord, !Storable U (WduDpc NotifyData)}.

Definition queue_lock (e : ptr) : ptr := e + queue_lock_offset.
Definition dpc_of (r : ptr) : ptr := r + dpc_offset.
Definition timer_of (r : ptr) : ptr := r + timer_offset.

(** A box of a record, with its members; the end of its scope. *)
Definition box_record (r : NotifyRecord) : M (world U) ptr :=
  b ← box_into_raw r; install (dpc_of b) (WduDpc.new (T := NotifyData)) ;; mret b.
Definition drop_record (b : ptr) : M (world U) unit :=
  box_from_raw (T := WduDpc NotifyData) (dpc_of b) ;;
  box_from_raw (T := NotifyRecord) b ;; mret tt.

Definition init (driver_object : ptr) : M (world U) (result unit EventError) :=
  let device_name := WduUnicodeStr.from_slice device_name_at DEVICE_NAME_UTF16 in
  let fileobj := FileObjDispatch.cleanup_irp (FileObjDispatch.close_irp (FileObjDispatch.create_irp
    FileObjDispatch.default (code_addr "event::create")) (code_addr "event::close"))
    (code_addr "event::cleanup") in
  let io := IoDispath.ioctl_irp IoDispath.default (code_addr "event::device_control") in
  d ← WduDriver.unload (WduDriver.new driver_object) (code_addr "event::driver_unload");
  d ← WduDriver.file_object d fileobj;
  d ← WduDriver.io d io;
  try_ from_driver_error (WduDriver.build d) (fun wdu_driver =>
  try_ from_device_error (WduDevice.build size_of_DeviceExtension
      (WduDevice.set_characteristics (WduDevice.set_device_type WduDevice.default UnknownDevice)
         SecureOpen) (WduDriver.as_ptr wdu_driver) (Some device_name)) (fun wdu_device =>
  let win32_name := WduUnicodeStr.from_slice win32_name_at WIN32_NAME_UTF16 in
  r ← WduDevice.symbolic_name wdu_device device_name win32_name;
  (if r is Err _ then WduDevice.delete wdu_device else mret tt) ;;
  extension ← WduDevice.extension_as_mut_ref wdu_device;
  install (queue_lock extension) WduSpinLock.default ;;
  install extension (mkDeviceExtension []) ;;
  WduDevice.set_flags wdu_device DO_BUFFERED_IO ;;
  mret (Ok tt))).

(** The logger is not modelled. *)
Definition DriverEntry (driver_object : ptr) : M (world U) NTSTATUS :=
  SimpleAlloc.init global_name_at SimpleAlloc.const_new ;;
  r ← init driver_object;
  match r with Err _ => mret STATUS_UNSUCCESSFUL | Ok _ => mret STATUS_SUCCESS end.

(** The extension is moved out, and with it the queue's boxes: they are
    dropped at the end of the scope; here there are none. *)
Definition driver_unload (driver : WduDriver) : M (world U) unit :=
  dev_obj ← WduDriver.device driver;
  extension ← WduDevice.extension DeviceExtension dev_obj;
  assert_ (bool_decide (event_queue extension = [])) "Event Queue is not empty" ;;
  let win32_name := WduUnicodeStr.from_slice win32_name_at WIN32_NAME_UTF16 in
  WduDevice.delete_symbolic_name win32_name ;;
  WduDevice.delete dev_obj.

(** [remove_lock] is a local, at [slot], until it moves into the context. *)
Definition create (slot : ptr) (_device : WduDevice) (request : WduIrp) (req_data : WduCreate)
    : M (world U) WduIrp :=
  let io_status := WduIoStatus.success_no_info in
  install slot WduRemoveLock.new ;;
  WduRemoveLock.init size_of_IO_REMOVE_LOCK slot LOCK_TAG 0 0 ;;
  file_ctx ← box_from_raw (T := FileContext) slot;
  ctx ← WduFileObject.context (WduCreate.file_object req_data);
  assert_ (if ctx is Some _ then false else true)
    "assertion failed: req_data.file_object().context::<()>().is_none()" ;;
  WduFileObject.set_context false FileContext (WduCreate.file_object req_data) file_ctx ;;
  WduIrp.complete request io_status ;;
  mret request.

Definition close (_device : WduDevice) (request : WduIrp) (file_obj : WduFileObject)
    : M (world U) WduIrp :=
  let io_status := WduIoStatus.success_no_info in
  ctx ← WduFileObject.context file_obj;
  drop_opt_box FileContext ctx ;;
  WduIrp.complete request io_status ;;
  mret request.

(** What the closure of [retain_mut] does with the record [x]: whether the
    record is kept, and the request for the cleanup list. *)
Definition cleanup_record (file_obj : WduFileObject) (x : ptr) : M (world U) (bool * list WduIrp) :=
  r ← load (T := NotifyRecord) x;
  skip ← (if bool_decide (file_object r = file_obj) then mret false
          else c ← WduTimer.cancel (timer_of x); mret (negb c));
  if skip : bool then mret (true, [])
  else
    match ty (data_of r) with
    | IrpBased irp =>
        u ← WduIrp.set_cancel_rtn irp None;
        let '(prev, irp) := u in
        update x (fun r => mkNotifyRecord (file_object r)
                             (mkNotifyData (IrpBased irp) (extension_of (data_of r)))) ;;
        match prev with
        | None => mret (false, [WduIrp.clone irp])
        | Some _ => mret (true, [])
        end
    | EventBased evt => WduEvent.dereference evt ;; mret (false, [])
    end.

(** [retain_mut]: the records that are not kept are dropped. *)
Fixpoint cleanup_records (file_obj : WduFileObject) (queue : list ptr)
    : M (world U) (list ptr * list WduIrp) :=
  match queue with
  | [] => mret ([], [])
  | x :: queue =>
      r ← cleanup_record file_obj x;
      let '(keep, irps) := r : bool * list WduIrp in
      (if negb keep then drop_record x else mret tt) ;;
      rest ← cleanup_records file_obj queue;
      let '(kept, irps') := rest : list ptr * list WduIrp in
      mret (if keep then x :: kept else kept, irps ++ irps')
  end.

Definition cleanup (device : WduDevice) (request : WduIrp) (file_obj : WduFileObject)
    : M (world U) WduIrp :=
  extension ← WduDevice.extension_as_mut_ref device;
  assert_ (WduFileObject.is_valid file_obj) "assertion failed: file_obj.is_valid()" ;;
  ctx ← WduFileObject.context_as_mut_ref file_obj;
  fs_ctx ← unwrap ctx;
  let tag := Some (WduIrp.as_ptr request) in
  status ← WduRemoveLock.acquire size_of_IO_REMOVE_LOCK line fs_ctx tag;
  assert_ (status =? STATUS_SUCCESS) "assertion failed: status == STATUS_SUCCESS" ;;
  WduRemoveLock.release_and_wait size_of_IO_REMOVE_LOCK fs_ctx ;;
  WduSpinLock.acquire (queue_lock extension) ;;
  ext ← load (T := DeviceExtension) extension;
  r ← cleanup_records file_obj (event_queue ext);
  let '(queue, cleanup_list) := r in
  store extension (mkDeviceExtension queue) ;;
  WduSpinLock.release (queue_lock extension) ;;
  for_each (fun irp => WduIrp.complete irp (WduIoStatus.set_status WduIoStatus.new STATUS_CANCELLED))
    cleanup_list ;;
  WduIrp.complete request WduIoStatus.success_no_info ;;
  mret request.

Definition irp_notification (device : WduDevice) (irp : WduIrp) (register_event : RegisterEvent)
    : M (world U) (WduIrp * result NTSTATUS EventError) :=
  extension ← WduDevice.extension_as_mut_ref device;
  u ← WduIrp.set_cancel_rtn irp (Some (code_addr "event::cancel_routine"));
  let irp := u.2 in
  extension_ptr ← WduDevice.extension_as_mut_ptr device;
  let data := mkNotifyData (IrpBased (WduIrp.clone irp)) extension_ptr in
  fo ← WduIrp.file_object irp;
  record ← box_record (mkNotifyRecord fo data);
  let due_time := if 0 <? due_time register_event then - due_time register_event
                  else due_time register_event in
  WduTimer.init (timer_of record) ;;
  WduDpc.init (dpc_of record) (code_addr "event::timer_dpc") (Some data) ;;
  WduSpinLock.acquire (queue_lock extension) ;;
  cancelled ← WduIrp.is_cancel irp;
  u ← (if cancelled : bool then WduIrp.set_cancel_rtn irp None else mret (None, irp));
  let '(prev, irp) := u in
  if prev is Some _ then
    WduSpinLock.release (queue_lock extension) ;;
    drop_record record ;;
    mret (irp, Err (Status STATUS_CANCELLED))
  else
    WduIrp.mark_pending irp ;;
    WduTimer.set (timer_of record) due_time (Some (dpc_of record)) ;;
    update extension (fun e => mkDeviceExtension (event_queue e ++ [record])) ;;
    WduSpinLock.release (queue_lock extension) ;;
    mret (irp, Ok STATUS_PENDING).

Definition event_notification (device : WduDevice) (irp : WduIrp) (register_event : RegisterEvent)
    : M (world U) (WduIrp * result NTSTATUS EventError) :=
  extension ← WduDevice.extension_as_mut_ref device;
  let access_mask := Z.lor 0x00100000 0x0002 in
  mode ← WduIrp.processor_mode irp;
  r ← WduEvent.ref_by_handle (event register_event) access_mask mode;
  match r with
  | Err e => mret (irp, Err (from_error e))
  | Ok event =>
      extension_ptr ← WduDevice.extension_as_mut_ptr device;
      let data := mkNotifyData (EventBased event) extension_ptr in
      fo ← WduIrp.file_object irp;
      record ← box_record (mkNotifyRecord fo data);
      let due_time := if 0 <? due_time register_event then - due_time register_event
                      else due_time register_event in
      WduTimer.init (timer_of record) ;;
      WduDpc.init (dpc_of record) (code_addr "event::timer_dpc") (Some data) ;;
      WduSpinLock.acquire (queue_lock extension) ;;
      WduTimer.set (timer_of record) due_time (Some (dpc_of record)) ;;
      update extension (fun e => mkDeviceExtension (event_queue e ++ [record])) ;;
      WduSpinLock.release (queue_lock extension) ;;
      mret (irp, Ok STATUS_SUCCESS)
  end.

Definition handle_register_event (device : WduDevice) (request : WduIrp) (req_data : WduDeviceControl)
    : M (world U) (WduIrp * result NTSTATUS EventError) :=
  if WduDeviceControl.input_buffer_size req_data <? size_of_RegisterEvent
  then mret (request, Err (Status STATUS_INVALID_PARAMETER))
  else
    let buffer := WduDeviceControl.input_buffer req_data in
    if buffer =? null then mret (request, Err (Status STATUS_INVALID_PARAMETER))
    else
      r ← load (T := RegisterEvent) buffer;
      if notify_type r =? IRP_BASED then irp_notification device request r
      else if notify_type r =? EVENT_BASED then event_notification device request r
      else mret (request, Err (Status STATUS_INVALID_PARAMETER)).

Definition device_control (device : WduDevice) (request : WduIrp) (req_data : WduDeviceControl)
    : M (world U) (WduIrp * NTSTATUS) :=
  let io_status := WduIoStatus.new in
  fo ← WduIrp.file_object request;
  assert_ (WduFileObject.is_valid fo) "assertion failed: fo.is_valid()" ;;
  ctx ← WduFileObject.context_as_mut_ref fo;
  fs_ctx ← unwrap ctx;
  st ← WduRemoveLock.acquire size_of_IO_REMOVE_LOCK line fs_ctx (Some (WduIrp.as_ptr request));
  if negb (st =? STATUS_SUCCESS) then
    WduIrp.complete request io_status ;; mret (request, STATUS_UNSUCCESSFUL)
  else
    r ← (if WduDeviceControl.ioctl req_data =? IOCTL_REGISTER_EVENT then
           r ← handle_register_event device request req_data;
           mret (r.1, match r.2 with
                      | Ok status => status
                      | Err (Status status) => status
                      | Err _ => STATUS_UNSUCCESSFUL
                      end)
         else debug_assert (mret false) "assertion failed: false" ;;
              mret (request, STATUS_NOT_IMPLEMENTED));
    let '(request, status) := r in
    (if negb (status =? STATUS_PENDING)
     then WduIrp.complete request (WduIoStatus.set_status io_status status) else mret tt) ;;
    WduRemoveLock.release size_of_IO_REMOVE_LOCK fs_ctx ;;
    mret (request, status).

Definition cancel_routine (device : WduDevice) (irp : WduIrp) : M (world U) WduIrp :=
  dev_ext ← WduDevice.extension_as_mut_ref device;
  WduIrp.release_cancel_lock irp ;;
  WduSpinLock.acquire (queue_lock dev_ext) ;;
  e ← load (T := DeviceExtension) dev_ext;
  i ← position_m (fun x =>
        r ← load (T := NotifyRecord) x;
        mret (match ty (data_of r) with
              | IrpBased i => WduIrp.as_ptr i =? WduIrp.as_ptr irp
              | EventBased _ => false
              end)) (event_queue e);
  index ← unwrap i;
  u ← unwrap (swap_remove index (event_queue e));
  let '(pending_irp, queue) := u in
  store dev_ext (mkDeviceExtension queue) ;;
  WduTimer.cancel (timer_of pending_irp) ;;
  WduSpinLock.release (queue_lock dev_ext) ;;
  WduIrp.complete irp (WduIoStatus.new_with_status STATUS_CANCELLED) ;;
  drop_record pending_irp ;;
  mret irp.

(** The queue is [swap_remove]d by the index found before the lock was given
    up; [between] is what other threads do meanwhile. *)
Definition timer_dpc (between : M (world U) unit) (dpc : ptr) : M (world U) unit :=
  d ← WduDpc.context_as_mut_ref (T := NotifyData) dpc;
  data ← unwrap d;
  if extension_of data =? null then debug_assert (mret false) "Null DeviceExtension in DPC"
  else
    let extension := extension_of data in
    WduSpinLock.acquire_at_dpc (queue_lock extension) ;;
    e ← load (T := DeviceExtension) extension;
    index ← position_m (fun x =>
              r ← load (T := NotifyRecord) x; mret (NotifyData_eq (data_of r) data))
              (event_queue e);
    match index with
    | None => WduSpinLock.release_from_dpc (queue_lock extension)
    | Some index =>
        remove ← match ty data with
                 | IrpBased irp =>
                     u ← WduIrp.set_cancel_rtn irp None;
                     let '(prev, irp) := u in
                     update dpc (fun d => WduDpc.mk
                       ((fun data => mkNotifyData (IrpBased irp) (extension_of data)) <$> WduDpc.context d)
                       (WduDpc.routine d)) ;;
                     if prev is Some _ then
                       WduSpinLock.release_from_dpc (queue_lock extension) ;;
                       WduIrp.complete irp WduIoStatus.success_no_info ;;
                       between ;;
                       WduSpinLock.acquire_at_dpc (queue_lock extension) ;;
                       mret true
                     else mret false
                 | EventBased evt =>
                     WduEvent.set evt 0 false ;; WduEvent.dereference evt ;; mret true
                 end;
        (if remove : bool then
           e ← load (T := DeviceExtension) extension;
           u ← unwrap (swap_remove index (event_queue e));
           store extension (mkDeviceExtension u.2) ;;
           drop_record u.1
         else mret tt) ;;
        WduSpinLock.release_from_dpc (queue_lock extension)
    end.
End Event.

(** ** Properties *)

(** The requests completed, with their statuses. *)
Definition completions (cs : list kcall) : list (ptr * NTSTATUS) :=
  omap (fun c => if c is IofCompleteRequest p _ status _ then Some (p, status) else None) cs.

Lemma completions_app cs cs' : completions (cs ++ cs') = completions cs ++ completions cs'.
Proof. apply omap_app. Qed.

Lemma position_m_done {St A} (f : A -> M St bool) (g : A -> bool) l (s : St) :
  Forall (fun x => f x s = Done (g x) s) l -> position_m f l s = Done (position g l) s.
Proof.
  intros H. induction H as [|x l Hx _ IH]; [done|]. simpl. erewrite bind_done by done.
  destruct (g x); [done|]. by erewrite bind_done by done.
Qed.

(** What the driver's environment is told of: the requests completed, the
    signals to the clients' events, which are then given back, and the timers
    set and cancelled. *)
Inductive signal : Type :=
| Completed (irp : ptr) (status : NTSTATUS)
| Signalled (event : ptr)
| Dereferenced (event : ptr)
| TimerSet (timer dpc : ptr)
| TimerCancelled (timer : ptr).
Definition signals (cs : list kcall) : list signal :=
  omap (fun c => match c with
                 | IofCompleteRequest p _ status _ => Some (Completed p status)
                 | KeSetEvent event _ _ => Some (Signalled event)
                 | ObfDereferenceObject object => Some (Dereferenced object)
                 | KeSetTimer t _ dpc => Some (TimerSet t dpc)
                 | KeCancelTimer t => Some (TimerCancelled t)
                 | _ => None
                 end) cs.

Lemma signals_app cs cs' : signals (cs ++ cs') = signals cs ++ signals cs'.
Proof. apply omap_app. Qed.

Lemma completions_signals cs :
  completions cs = omap (fun o => if o is Completed p status then Some (p, status) else None) (signals cs).
Proof. induction cs as [|[] cs IH]; simpl; rewrite ?IH; done. Qed.

Lemma cancelled_signals t cs : TimerCancelled t ∈ signals cs <-> KeCancelTimer t ∈ cs.
Proof.
  unfold signals. rewrite list_elem_of_omap. split.
  - intros ([] & Hc & [=]). by subst.
  - intros Hc. by exists (KeCancelTimer t).
Qed.

Lemma swap_remove_last {A} (l : list A) x : swap_remove (length l) (l ++ [x]) = Some (x, l).
Proof.
  unfold swap_remove. rewrite list_lookup_middle by done. rewrite last_snoc, length_app. simpl.
  rewrite decide_True by lia. by rewrite take_app_length.
Qed.

Section properties.
Context {KN : Kernel} {B : Build} {LK : Linked} {NS : NtStatics} {EL : EventLayout} {U : Type}.
Context `{!Storable U DRIVER_OBJECT, !Storable U DRIVER_EXTENSION, !Storable U DEVICE_OBJECT}.
Context `{!Storable U WduDevice, !Storable U WduDriver}.
Context `{!Storable U IRP, !Storable U IO_STACK_LOCATION, !Storable U WduIrp, !Storable U FILE_OBJECT}.
Context `{!Storable U WduSpinLock, !Storable U WduRemoveLock, !Storable U RegisterEvent}.
Context `{!Storable U DeviceExtension, !Storable U NotifyRecord, !Storable U (WduDpc NotifyData)}.
Context (release_build : debug_assertions = false).
Implicit Types s : world U.

(** *** The parts the routines are made of *)

Lemma wp_lock_acquire l (lk : WduSpinLock) s (Q : unit -> world U -> Prop) :
  l <> 0 -> w_mem s !! l = Some (inj lk) ->
  (forall (lk' : WduSpinLock) s', w_mem s' = <[l := inj lk']> (w_mem s) ->
     calls s' = calls s ++ [KeAcquireSpinLockRaiseToDpc l] -> Q tt s') ->
  wp (WduSpinLock.acquire l) s Q.
Proof.
  intros Hl Hm HQ. unfold WduSpinLock.acquire. simpl. unfold debug_assert. rewrite release_build.
  repeat wp_step. eapply HQ; [done|].
  by autorewrite with wdu.
Qed.

Lemma wp_lock_release l (lk : WduSpinLock) s (Q : unit -> world U -> Prop) :
  l <> 0 -> w_mem s !! l = Some (inj lk) ->
  (forall s', w_mem s' = w_mem s -> (exists irql, calls s' = calls s ++ [KeReleaseSpinLock l irql]) ->
     Q tt s') ->
  wp (WduSpinLock.release l) s Q.
Proof.
  intros Hl Hm HQ. unfold WduSpinLock.release. simpl. unfold debug_assert. rewrite release_build.
  repeat wp_step. apply HQ; [done|].
  eexists. by autorewrite with wdu.
Qed.

Lemma wp_lock_at_dpc l s (Q : unit -> world U -> Prop) :
  (forall s', w_mem s' = w_mem s -> calls s' = calls s ++ [KeAcquireSpinLockAtDpcLevel l] -> Q tt s') ->
  wp (WduSpinLock.acquire_at_dpc l) s Q.
Proof.
  intros HQ. unfold WduSpinLock.acquire_at_dpc. simpl. unfold debug_assert. rewrite release_build.
  repeat wp_step. apply HQ; [done|]. by autorewrite with wdu.
Qed.

Lemma wp_unlock_from_dpc l s (Q : unit -> world U -> Prop) :
  (forall s', w_mem s' = w_mem s -> calls s' = calls s ++ [KeReleaseSpinLockFromDpcLevel l] -> Q tt s') ->
  wp (WduSpinLock.release_from_dpc l) s Q.
Proof.
  intros HQ. unfold WduSpinLock.release_from_dpc. simpl. unfold debug_assert. rewrite release_build.
  repeat wp_step. apply HQ; [done|]. by autorewrite with wdu.
Qed.

Lemma wp_box_record (r : NotifyRecord) s (Q : ptr -> world U -> Prop) :
  (forall b s', b <> 0 -> dpc_of b <> 0 -> dpc_of b <> b ->
     w_mem s !! b = None -> w_mem s !! dpc_of b = None ->
     w_mem s' = <[dpc_of b := inj (WduDpc.new (T := NotifyData))]> (<[b := inj r]> (w_mem s)) ->
     calls s' = calls s -> Q b s') ->
  wp (box_record r) s Q.
Proof.
  intros HQ. unfold box_record. pose proof dpc_offset_pos as Ho.
  pose proof (fresh_addr_pos (w_mem s)) as Hp. unfold dpc_of in *.
  wp_step. wp_step. cbv zeta. wp_step. apply wp_install; [unfold dpc_of; lia|]. wp_step.
  apply HQ; unfold dpc_of; try lia; try done; apply fresh_addr_above; lia.
Qed.

Lemma wp_drop_record b (r : NotifyRecord) (d : WduDpc NotifyData) s (Q : unit -> world U -> Prop) :
  b <> 0 -> dpc_of b <> 0 -> dpc_of b <> b ->
  w_mem s !! b = Some (inj r) -> w_mem s !! dpc_of b = Some (inj (d : WduDpc NotifyData)) ->
  (forall s', w_mem s' = delete b (delete (dpc_of b) (w_mem s)) -> calls s' = calls s -> Q tt s') ->
  wp (drop_record b) s Q.
Proof.
  intros H1 H2 H3 Hb Hd HQ. unfold drop_record. wp_step. eapply wp_box_from_raw; [done..|].
  wp_step. eapply wp_box_from_raw; [done|map_at|]. apply wp_ret. by apply HQ.
Qed.

(** A new record, with its timer and DPC; the lock is then held. *)
Lemma wp_new_record {A} (r : NotifyRecord) (data : NotifyData) l (lk : WduSpinLock)
    (k : ptr -> M (world U) A) s (Q : A -> world U -> Prop) :
  l <> 0 -> w_mem s !! l = Some (inj lk) ->
  (forall b (lk' : WduSpinLock) s', b <> 0 -> dpc_of b <> 0 -> dpc_of b <> b ->
     w_mem s !! b = None -> w_mem s !! dpc_of b = None ->
     w_mem s' = <[l := inj lk']> (<[dpc_of b := inj (WduDpc.mk (Some data) (Some (code_addr "event::timer_dpc")))]>
                  (<[b := inj r]> (w_mem s))) ->
     signals (calls s') = signals (calls s) -> wp (k b) s' Q) ->
  wp (record ← box_record r;
      WduTimer.init (timer_of record) ;;
      WduDpc.init (dpc_of record) (code_addr "event::timer_dpc") (Some data) ;;
      WduSpinLock.acquire l ;; k record) s Q.
Proof.
  intros Hl Hlk HQ. wp_step. apply wp_box_record. intros b s1 Hb0 Hd0 Hne Hb Hd M1 C1.
  assert (b <> l /\ dpc_of b <> l) as [? ?] by (split; congruence).
  unfold WduTimer.init. wp_step. wp_step. name_state s2 M2 C2. rewrite M1 in M2.
  wp_step. unfold WduDpc.init. wp_step. eapply wp_update; [done|rewrite M2; map_at|].
  name_state s3 M3 C3. rewrite M2, insert_insert_eq in M3. wp_step. name_state s4 M4 C4. rewrite M3 in M4.
  wp_step. eapply (wp_lock_acquire _ lk); [done|rewrite M4; map_at|]. intros lk' s5 M5 C5. rewrite M4 in M5.
  eapply HQ; [done..| |].
  - exact M5.
  - rewrite C5, C4, C3, C2, C1, !signals_app. simpl. by rewrite !app_nil_r.
Qed.

(** The record joins the queue, its timer set; the lock is given up. *)
Lemma wp_enqueue {A} b due e q l (lk : WduSpinLock) (x : A) s (Q : A -> world U -> Prop) :
  e <> 0 -> w_mem s !! e = Some (inj (mkDeviceExtension q)) ->
  l <> 0 -> l <> e -> w_mem s !! l = Some (inj lk) ->
  (forall s', w_mem s' = <[e := inj (mkDeviceExtension (q ++ [b]))]> (w_mem s) ->
     signals (calls s') = signals (calls s) ++ [TimerSet (timer_of b) (dpc_of b)] -> Q x s') ->
  wp (WduTimer.set (timer_of b) due (Some (dpc_of b)) ;;
      update e (fun e => mkDeviceExtension (event_queue e ++ [b])) ;;
      WduSpinLock.release l ;; mret x) s Q.
Proof.
  intros He0 He Hl0 Hle Hl HQ. unfold WduTimer.set. do 3 wp_step. name_state s1 M1 C1. do 2 wp_step.
  eapply wp_update; [done|by rewrite M1|]. name_state s2 M2 C2. rewrite M1 in M2. simpl in M2.
  wp_step. eapply (wp_lock_release _ lk); [done|rewrite M2; map_at|]. intros s3 M3 (irql & C3). rewrite M2 in M3.
  wp_step. apply HQ; [done|].
  rewrite C3, C2, C1, !signals_app. simpl. by rewrite !app_nil_r.
Qed.

(** *** A registered request *)

Definition rtn : fnptr := code_addr "event::cancel_routine".
(** The wrapper in the record, and the data of the record. *)
Definition wrapper (p : ptr) (mj : MajorFunction) : WduIrp := WduIrp.mk p mj (Some rtn).
Definition irp_data (e p : ptr) (mj : MajorFunction) : NotifyData :=
  mkNotifyData (IrpBased (wrapper p mj)) e.

Definition names (p : ptr) (r : NotifyRecord) : bool :=
  match ty (data_of r) with IrpBased i => WduIrp.irp i =? p | EventBased _ => false end.

(** The device [d] has its extension at [e], with the queue [q]. *)
Record queued (d : WduDevice) (e : ptr) (q : list ptr) s : Prop := {
  qd_dev : WduDevice.device d <> 0;
  qd_obj : exists o : DEVICE_OBJECT, w_mem s !! WduDevice.device d = Some (inj o) /\
             usize (Nt.DeviceExtension o + size_of_WduDevice) = e;
  qd_e : e <> 0;
  qd_ext : w_mem s !! e = Some (inj (mkDeviceExtension q));
  qd_l : queue_lock e <> 0;
  qd_lock : exists lk : WduSpinLock, w_mem s !! queue_lock e = Some (inj lk)
}.

(** The records at [q] are about other requests than [p], and none of them is
    at one of the addresses [apart]. *)
Definition others_by (k : NotifyRecord -> bool) (apart : list ptr) (q : list ptr) s : Prop :=
  Forall (fun x => x <> 0 /\ x ∉ apart /\
    exists r : NotifyRecord, w_mem s !! x = Some (inj r) /\ k r = false) q.
Definition others (p : ptr) : list ptr -> list ptr -> world U -> Prop := others_by (names p).

(** The request [p] is pending: its record [b] is at index [i] of the queue
    [q], [q'] is the queue without it, and the context of its cancel routine
    is at [c]. *)
Record pending_at (d : WduDevice) (e : ptr) (q : list ptr) (i : nat) (q' : list ptr) (p : ptr)
    (mj : MajorFunction) (b c : ptr) s : Prop := {
  pd_queued : queued d e q s;
  pd_at : swap_remove i q = Some (b, q');
  pd_irp : p <> 0 /\ exists i, w_mem s !! p = Some (inj i) /\ DriverContext3 i = c;
  pd_ctx : c <> 0 /\ w_mem s !! c = Some (inj (wrapper p mj));
  pd_rec : b <> 0 /\ exists fo, w_mem s !! b = Some (inj (mkNotifyRecord fo (irp_data e p mj)));
  pd_dpc : dpc_of b <> 0 /\ w_mem s !! dpc_of b =
             Some (inj (WduDpc.mk (Some (irp_data e p mj)) (Some (code_addr "event::timer_dpc"))));
  pd_apart : NoDup [WduDevice.device d; e; queue_lock e; p; c; b; dpc_of b];
  pd_others : others p [WduDevice.device d; e; queue_lock e; p; c; b; dpc_of b] q' s
}.
(** Its record is the last one. *)
Definition pending (d : WduDevice) (e : ptr) (q : list ptr) (p : ptr) (mj : MajorFunction) (b c : ptr) s
    : Prop := pending_at d e (q ++ [b]) (length q) q p mj b c s.

(** The request has been completed with [status], and nothing is left of its
    registration. *)
Record completed (d : WduDevice) (e : ptr) (q : list ptr) (p b : ptr) (status : NTSTATUS)
    s s' : Prop := {
  cp_calls : completions (calls s') = completions (calls s) ++ [(p, status)];
  cp_queued : queued d e q s';
  cp_irp : w_mem s' !! p = None;
  cp_rec : w_mem s' !! b = None;
  cp_dpc : w_mem s' !! dpc_of b = None
}.

(** Memory is changed at the addresses [l] only. *)
Definition only_at (l : list ptr) s s' : Prop := forall a, a ∉ l -> w_mem s' !! a = w_mem s !! a.

Lemma extension_done d e q s :
  queued d e q s -> WduDevice.extension_as_mut_ref d s = Done e s.
Proof.
  intros [Hd (o & Ho & <-) _ _ _ _].
  unfold WduDevice.extension_as_mut_ref, WduDevice.device_extension, WduDevice.device_as_mut.
  erewrite bind_done; [done|]. by erewrite bind_done by by apply load_at.
Qed.

Lemma queued_frame d e q s s' :
  (forall a, a ∈ [WduDevice.device d; e; queue_lock e] -> w_mem s' !! a = w_mem s !! a) ->
  queued d e q s -> queued d e q s'.
Proof.
  intros Hf [? (o & Ho & He) ? Hx ? (lk & Hl)]. split; try done.
  - exists o. split; [|done]. rewrite Hf; [done|]. set_solver.
  - rewrite Hf; [done|]. set_solver.
  - exists lk. rewrite Hf; [done|]. set_solver.
Qed.

(** The queue is looked through for the only record that [k] is true of. *)
Lemma find_record (k : NotifyRecord -> bool) q i b q' (f : NotifyRecord -> bool) s (r : NotifyRecord) :
  (forall r, f r = k r) -> k r = true -> swap_remove i q = Some (b, q') ->
  others_by k [b] q' s -> b <> 0 -> w_mem s !! b = Some (inj r) ->
  position_m (fun x => r ← load (T := NotifyRecord) x; mret (f r)) q s = Done (Some i) s.
Proof.
  intros Hf Hr Hq Ho Hb Hm.
  set (g := fun x => match w_mem s !! x ≫= prj (T := NotifyRecord) with Some r => k r | None => false end).
  assert (Ho' : Forall (fun y => g y = false) q').
  { eapply Forall_impl; [exact Ho|]. intros x (_ & _ & r' & Hx & Hn). unfold g. rewrite Hx. simpl. by rewrite prj_inj. }
  rewrite (position_m_done _ g).
  - f_equal. eapply position_swap_remove; [done| |done]. unfold g. rewrite Hm. simpl. by rewrite prj_inj.
  - rewrite (swap_remove_perm _ _ _ _ Hq). constructor; [|eapply Forall_impl; [exact Ho|]; intros x (Hx0 & _ & r' & Hx & Hn)];
      unfold g; (erewrite bind_done by by apply load_at); rewrite Hf; [rewrite Hm|rewrite Hx]; simpl; by rewrite prj_inj.
Qed.

Lemma data_eq_names e p mj r : NotifyData_eq (data_of r) (irp_data e p mj) = names p r.
Proof. unfold NotifyData_eq, names. destruct (ty (data_of r)); [|done]. simpl. apply Z.eqb_sym. Qed.

Lemma others_weaken k l l' q s : (forall a, a ∈ l' -> a ∈ l) -> others_by k l q s -> others_by k l' q s.
Proof.
  intros Hl Ho. eapply Forall_impl; [exact Ho|]. intros x (? & Hx & ?). split; [done|]. split; [|done].
  intros ?. apply Hx. auto.
Qed.

Lemma others_frame k l q s s' :
  (forall a, a ∉ l -> w_mem s' !! a = w_mem s !! a) -> others_by k l q s -> others_by k l q s'.
Proof.
  intros Hf Ho. eapply Forall_impl; [exact Ho|]. intros x (? & Hx & r & Hr & ?).
  split; [done|]. split; [done|]. exists r. by rewrite Hf.
Qed.

Lemma names_irp_data fo e p mj : names p (mkNotifyRecord fo (irp_data e p mj)) = true.
Proof. unfold names. simpl. apply Z.eqb_refl. Qed.

(** The timer is due. *)
Lemma wp_timer_dpc d e q n q' p mj b c s :
  pending_at d e q n q' p mj b c s ->
  wp (timer_dpc (mret tt) (dpc_of b)) s (fun _ s' =>
    completed d e q' p b STATUS_SUCCESS s s' /\
    signals (calls s') = signals (calls s) ++ [Completed p STATUS_SUCCESS] /\
    only_at [queue_lock e; e; p; c; b; dpc_of b] s s').
Proof.
  intros [Hq Hn [Hp (i & Hi & Hic)] [Hc0 Hc] [Hb0 (fo & Hb)] [Hd0 Hd] Ha Ho].
  pose proof Hq as [_ _ He0 He Hl0 _]. apart Ha.
  unfold timer_dpc, WduDpc.context_as_mut_ref. wp_step. wp_step. eapply wp_load; [done..|].
  repeat wp_step. simpl. wp_step. simpl. rewrite not_null by done.
  wp_step. apply wp_lock_at_dpc. intros s1 M1 C1. wp_step.
  eapply wp_load; [done|rewrite M1; done|]. wp_step. eapply wp_done.
  { eapply (find_record (names p) q n b q' (fun r => NotifyData_eq (data_of r) (irp_data e p mj)) s1
      (mkNotifyRecord fo (irp_data e p mj)));
      [intros; apply data_eq_names|apply names_irp_data|done| |done|by rewrite M1].
    eapply others_weaken, (others_frame _ _ _ s); [|by intros; rewrite M1|done]. clear; set_solver. }
  simpl. wp_step. wp_step.
  apply (wp_disarm (wrapper p mj) (wrapper p mj) i s1);
    [done|by rewrite M1|by rewrite Hic|by rewrite Hic|by rewrite Hic, M1|].
  rewrite Hic. simpl. name_state s2 M2 C2. rewrite M1 in M2.
  wp_step. eapply wp_update; [done|rewrite M2; map_at|]. name_state s3 M3 C3. rewrite M2 in M3.
  wp_step. apply wp_unlock_from_dpc. intros s4 M4 C4. rewrite M3 in M4. wp_step.
  eapply wp_complete; [done|rewrite M4; map_at|]. simpl. intros s5 M5 C5. rewrite M4 in M5.
  wp_step. wp_step. wp_step. apply wp_lock_at_dpc. intros s6 M6 C6. rewrite M5 in M6.
  wp_step. wp_step. wp_step. eapply wp_load; [done|rewrite M6; map_at|]. simpl.
  rewrite Hn. simpl. wp_step. wp_step. wp_step.
  eapply wp_store; [done|rewrite M6; map_at|]. simpl. name_state s7 M7 C7. rewrite M6 in M7.
  eapply wp_drop_record; [done..|rewrite M7; map_at|rewrite M7; map_at|]. intros s8 M8 C8. rewrite M7 in M8.
  apply wp_unlock_from_dpc. intros s9 M9 C9. rewrite M8 in M9.
  split; [|split; [by rewrite C9, C8, C7, C6, C5, C4, C3, C2, C1, !signals_app, !app_nil_r|
    intros a Hna; rewrite !not_elem_of_cons in Hna; destruct_and! Hna; rewrite M9; map_at]].
  split; [|destruct Hq as [? (o & Hoo & ?) _ _ _ (lk & Hlk)]; split; try done|..].
  - rewrite C9, C8, C7, C6, C5, C4, C3, C2, C1, !completions_app. simpl. by rewrite !app_nil_r.
  - exists o. split; [|done]. rewrite M9. map_at.
  - rewrite M9. map_at.
  - exists lk. rewrite M9. map_at.
  - rewrite M9. map_at.
  - rewrite M9. map_at.
  - rewrite M9. map_at.
Qed.

(** The request is cancelled. *)
Lemma wp_cancel_routine d e q n q' mj b c w s :
  pending_at d e q n q' (WduIrp.irp w) mj b c s ->
  wp (cancel_routine d w) s (fun _ s' =>
    completed d e q' (WduIrp.irp w) b STATUS_CANCELLED s s' /\
    signals (calls s') = signals (calls s) ++
      [TimerCancelled (timer_of b); Completed (WduIrp.irp w) STATUS_CANCELLED] /\
    only_at [queue_lock e; e; WduIrp.irp w; b; dpc_of b] s s').
Proof.
  intros [Hq Hn [Hp (i & Hi & Hic)] [Hc0 Hc] [Hb0 (fo & Hb)] [Hd0 Hd] Ha Ho].
  pose proof Hq as [_ _ He0 He Hl0 (lk & Hl)]. apart Ha.
  unfold cancel_routine.
  wp_step. eapply wp_done; [by eapply extension_done|]. wp_step. unfold WduIrp.release_cancel_lock.
  wp_step. eapply wp_load; [done..|]. wp_step. name_state s1 M1 C1.
  wp_step. eapply wp_lock_acquire; [done|by rewrite M1|]. intros lk' s2 M2 C2. rewrite M1 in M2.
  wp_step. eapply wp_load; [done|rewrite M2; map_at|]. wp_step. eapply wp_done.
  { eapply (find_record (names (WduIrp.irp w)) q n b q' (names (WduIrp.irp w)) s2
      (mkNotifyRecord fo (irp_data e (WduIrp.irp w) mj)));
      [done|apply names_irp_data|done| |done|rewrite M2; map_at].
    eapply others_weaken, (others_frame _ _ _ s); [|intros a Hna; rewrite M2, lookup_insert_ne; [done|]|done]; [clear; set_solver|].
    intros <-. apply Hna. clear. set_solver. }
  simpl. wp_step. wp_step. simpl. wp_step. rewrite Hn. simpl. wp_step. wp_step.
  eapply wp_store; [done|rewrite M2; map_at|]. simpl. name_state s3 M3 C3. rewrite M2 in M3.
  unfold WduTimer.cancel. wp_step. wp_step. wp_step. name_state s4 M4 C4. wp_step. rewrite M3 in M4.
  wp_step. eapply (wp_lock_release _ lk'); [done|rewrite M4; map_at|]. intros s5 M5 (irql & C5). rewrite M4 in M5.
  wp_step. eapply wp_complete; [done|rewrite M5; map_at|]. intros s6 M6 C6. rewrite M5 in M6.
  wp_step.
  eapply wp_drop_record; [done..|rewrite M6; map_at|rewrite M6; map_at|]. intros s7 M7 C7. rewrite M6 in M7.
  apply wp_ret.
  split; [|split; [by rewrite C7, C6, C5, C4, C3, C2, C1, !signals_app, !app_nil_r, <- app_assoc|
    intros a Hna; rewrite !not_elem_of_cons in Hna; destruct_and! Hna; rewrite M7; map_at]].
  split; [|destruct Hq as [? (o & Hoo & ?) _ _ _ _]; split; try done|..].
  - rewrite C7, C6, C5, C4, C3, C2, C1, !completions_app. simpl. by rewrite !app_nil_r.
  - exists o. split; [|done]. rewrite M7. map_at.
  - rewrite M7. map_at.
  - exists lk'. rewrite M7. map_at.
  - rewrite M7. map_at.
  - rewrite M7. map_at.
  - rewrite M7. map_at.
Qed.

(** The other records stay what they are when only the addresses [apart] and
    new ones are written. *)
Lemma others_elsewhere k apart apart' q new s s' :
  others_by k apart q s -> Forall (fun a => w_mem s !! a = None) new ->
  apart' ⊆ apart ++ new -> (forall a, a ∉ apart ++ new -> w_mem s' !! a = w_mem s !! a) ->
  others_by k apart' q s'.
Proof.
  intros Ho Hnew Hsub Hf. eapply Forall_impl; [exact Ho|]. intros x (Hx0 & Hx & r & Hr & Hn).
  assert (x ∉ apart ++ new).
  { intros [?|Hin]%elem_of_app; [done|]. rewrite Forall_forall in Hnew. apply Hnew in Hin. congruence. }
  split; [done|]. split; [by intros ?%Hsub|]. exists r. by rewrite Hf.
Qed.

(** The request is registered. *)
Lemma wp_irp_notification d e q (w : WduIrp) reg i st s :
  queued d e q s -> dispatched (WduIrp.irp w) i st s -> Cancel i <> 1 ->
  NoDup [WduDevice.device d; e; queue_lock e; WduIrp.irp w; CurrentStackLocation i] ->
  others (WduIrp.irp w) [WduDevice.device d; e; queue_lock e; WduIrp.irp w; CurrentStackLocation i] q s ->
  wp (irp_notification d w reg) s (fun r s' =>
    r.2 = Ok STATUS_PENDING /\
    exists b c, pending d e q (WduIrp.irp w) (WduIrp.mj w) b c s' /\
      signals (calls s') = signals (calls s) ++ [TimerSet (timer_of b) (dpc_of b)] /\
      w_mem s' !! WduIrp.irp w = Some (inj (armed i c)) /\
      (exists st', w_mem s' !! CurrentStackLocation i = Some (inj st') /\ MajorFunction_ st' = MajorFunction_ st) /\
      Forall (fun a => w_mem s !! a = None) [c; b; dpc_of b] /\
      only_at [queue_lock e; e; WduIrp.irp w; CurrentStackLocation i; c; b; dpc_of b] s s').
Proof.
  intros Hq Hdp Hc Ha Ho. pose proof Hq as [Hd0 (o & Hd & Hoe) He0 He Hl0 (lk & Hl)].
  pose proof Hdp as [Hp Hi Hcount Hloc Hst0 Hst]. apart Ha.
  unfold irp_notification.
  wp_step. eapply wp_done; [by eapply extension_done|]. wp_step.
  apply (wp_arm _ _ i); [done..|]. set (c := fresh_addr (w_mem s)). simpl. intros Hc0 Hcn.
  fold rtn. name_state s1 M1 C1.
  assert (Hcfresh : forall a (y : U), w_mem s !! a = Some y -> c <> a) by (intros a y Hy <-; congruence).
  pose proof (Hcfresh _ _ Hd). pose proof (Hcfresh _ _ He). pose proof (Hcfresh _ _ Hl).
  pose proof (Hcfresh _ _ Hi). pose proof (Hcfresh _ _ Hst).
  assert (Hq1 : queued d e q s1).
  { split; try done; [exists o; split; [|done]|..|exists lk]; rewrite M1; map_at. }
  wp_step. eapply wp_done; [by eapply (extension_done d e q s1)|]. wp_step.
  assert (Hd1 : dispatched (WduIrp.irp w) (armed i c) st s1).
  { split; try done; rewrite M1; simpl; map_at. }
  eapply wp_done; [by eapply (file_object_done _ (WduIrp.mj w) (Some rtn))|].
  eapply (wp_new_record _ _ _ lk); [done|rewrite M1; map_at|].
  intros b lk' s2 Hb0 Hdb0 Hne Hb Hdb M2 C2. rewrite M1 in M2.
  assert (Hold : forall a, w_mem s1 !! a = None -> a <> c /\ a <> WduIrp.irp w /\ w_mem s !! a = None).
  { intros a. rewrite M1, !lookup_insert_None. naive_solver. }
  destruct (Hold _ Hb) as (Hbc & Hbp & Hbs), (Hold _ Hdb) as (Hdc & Hdp' & Hds).
  assert (Hbfresh : forall a (y : U), w_mem s !! a = Some y -> b <> a /\ dpc_of b <> a).
  { intros a y Hy. split; intros <-; congruence. }
  destruct (Hbfresh _ _ Hd), (Hbfresh _ _ He), (Hbfresh _ _ Hl), (Hbfresh _ _ Hst).
  unfold WduIrp.is_cancel. do 2 wp_step. eapply wp_load; [done|rewrite M2; map_at|].
  wp_step. simpl. rewrite (proj2 (Z.eqb_neq _ _) Hc). do 2 wp_step.
  unfold WduIrp.mark_pending. do 2 wp_step. eapply wp_done.
  { apply (current_stack_done _ (armed i c) st s2). split; try done; rewrite M2; simpl; map_at. }
  simpl. eapply wp_update; [done|rewrite M2; map_at|]. name_state s3 M3 C3. rewrite M2 in M3.
  eapply (wp_enqueue _ _ _ q _ lk'); [done|rewrite M3; map_at|done|done|rewrite M3; map_at|].
  intros s4 M4 C4. rewrite M3 in M4. split; [done|]. exists b, c.
  assert (Hm : forall a, a ∉ [queue_lock e; e; WduIrp.irp w; CurrentStackLocation i; c; b; dpc_of b] ->
    w_mem s4 !! a = w_mem s !! a).
  { intros a Hna. rewrite !not_elem_of_cons in Hna. destruct_and! Hna. rewrite M4. map_at. }
  split_and!; [|by rewrite C4, C3, C2, C1|rewrite M4; map_at|eexists; split; [rewrite M4; map_at|done]
    |by repeat constructor; [apply fresh_addr_fresh|..]|done].
  split.
  - split; try done; [exists o; split; [|done]|..|exists lk']; rewrite M4; map_at.
  - apply swap_remove_last.
  - split; [done|]. exists (armed i c). split; [|done]. rewrite M4. map_at.
  - split; [done|]. rewrite M4. map_at.
  - split; [done|]. eexists. rewrite M4. map_at.
  - split; [done|]. rewrite M4. map_at.
  - rewrite !NoDup_cons, !not_elem_of_cons. split_and!; first [done|apply not_elem_of_nil|apply NoDup_nil_2].
  - eapply (others_elsewhere _ _ _ _ [c; b; dpc_of b]); [exact Ho|by repeat constructor; [apply fresh_addr_fresh|..]| |].
    + intros a Hin. apply elem_of_app. clear -Hin. set_solver.
    + intros a Hna. apply Hm. intros Hin. apply Hna, elem_of_app. clear -Hin. set_solver.
Qed.

(** A client that asks to be told by the completion of its request gets
    it completed exactly once.  Registering it completes nothing and leaves it
    pending; when its timer is due, it is completed with success; when
    instead it is cancelled, with [STATUS_CANCELLED].  Either way the queue is
    then what it was before, whatever other registrations are in it, and the
    record with its DPC is freed. *)
Theorem event_request_completed_once d e q (w : WduIrp) reg i st s :
  queued d e q s -> dispatched (WduIrp.irp w) i st s -> Cancel i <> 1 ->
  NoDup [WduDevice.device d; e; queue_lock e; WduIrp.irp w; CurrentStackLocation i] ->
  others (WduIrp.irp w) [WduDevice.device d; e; queue_lock e; WduIrp.irp w; CurrentStackLocation i] q s ->
  wp (irp_notification d w reg) s (fun r s1 =>
    r.2 = Ok STATUS_PENDING /\ completions (calls s1) = completions (calls s) /\
    exists b,
      wp (timer_dpc (mret tt) (dpc_of b)) s1 (fun _ s2 =>
        completed d e q (WduIrp.irp w) b STATUS_SUCCESS s1 s2) /\
      wp (cancel_routine d (WduIrp.mk (WduIrp.irp w) (WduIrp.mj w) None)) s1 (fun _ s2 =>
        completed d e q (WduIrp.irp w) b STATUS_CANCELLED s1 s2)).
Proof.
  intros Hq Hdp Hc Ha Ho. eapply wp_mono; [by eapply wp_irp_notification|].
  intros r s1 (Hr & b & c & Hpd & Hs & _). split; [done|]. split.
  { rewrite !completions_signals, Hs, omap_app. simpl. apply app_nil_r. }
  exists b. split.
  - eapply wp_mono; [by eapply wp_timer_dpc|]. by intros [] s2 (? & _).
  - eapply wp_mono; [by eapply (wp_cancel_routine _ _ _ _ _ (WduIrp.mj w) b c (WduIrp.mk (WduIrp.irp w) (WduIrp.mj w) None))|].
    by intros w' s2 (? & _).
Qed.

(** A request that is cancelled after its cancel routine was set, and
    before its record is in the queue, brings the driver down: the cancel
    routine unwraps the position of a record that is not there, with the
    queue's lock held. *)
Theorem event_cancel_before_queued_panics d e q (w : WduIrp) (i : IRP) s :
  queued d e q s -> WduIrp.irp w <> 0 -> w_mem s !! WduIrp.irp w = Some (inj i) ->
  others (WduIrp.irp w) [queue_lock e] q s -> queue_lock e <> e ->
  exists msg s', cancel_routine d w s = Panicked msg s' /\
    calls s' = calls s ++ [IoReleaseCancelSpinLock (CancelIrql i); KeAcquireSpinLockRaiseToDpc (queue_lock e)].
Proof.
  intros Hq Hp Hi Ho Hne. pose proof Hq as [_ _ He0 He Hl0 (lk & Hl)].
  unfold cancel_routine. erewrite bind_done by by eapply extension_done.
  unfold WduIrp.release_cancel_lock. rewrite (bind_done _ _ s tt (kafter (IoReleaseCancelSpinLock (CancelIrql i)) s)).
  2: { erewrite bind_done by by apply load_at. unfold kcall_. by destruct (kresp _ s). }
  set (s1 := kafter _ s).
  assert (Hacq : exists lk' s2, WduSpinLock.acquire (queue_lock e) s1 = Done tt s2 /\
    w_mem s2 = <[queue_lock e := inj (lk' : WduSpinLock)]> (w_mem s1) /\
    calls s2 = calls s1 ++ [KeAcquireSpinLockRaiseToDpc (queue_lock e)]).
  { destruct (wp_elim (WduSpinLock.acquire (queue_lock e)) s1 (fun _ s2 => exists lk' : WduSpinLock,
      w_mem s2 = <[queue_lock e := inj lk']> (w_mem s1) /\
      calls s2 = calls s1 ++ [KeAcquireSpinLockRaiseToDpc (queue_lock e)])) as ([] & s2 & E & lk' & H); [|eauto].
    eapply (wp_lock_acquire _ lk); [done..|]. eauto. }
  destruct Hacq as (lk' & s2 & E & M2 & C2). erewrite bind_done by exact E.
  erewrite bind_done by (apply load_at; [done|rewrite M2; map_at]).
  rewrite (bind_done _ _ s2 None s2).
  2: { rewrite (position_m_done _ (fun _ => false)).
       - f_equal. apply position_None. by apply Forall_forall.
       - eapply Forall_impl; [exact Ho|]. intros x (Hx0 & Hx & r & Hr & Hn).
         assert (queue_lock e <> x) by (intros <-; apply Hx; by left).
         erewrite bind_done by (apply load_at; [done|rewrite M2; map_at]). unfold mret, M_ret. f_equal.
         exact Hn. }
  eexists _, s2. split; [by apply bind_panicked|].
  rewrite C2. unfold s1. autorewrite with wdu. by rewrite <- app_assoc.
Qed.

(** The timer is due for a request without a context. *)
Lemma timer_dpc_null d e p mj b (r : NotifyRecord) (i : IRP) s :
  queued d e [b] s -> b <> 0 -> dpc_of b <> 0 -> p <> 0 ->
  w_mem s !! b = Some (inj r) -> names p r = true ->
  w_mem s !! dpc_of b = Some (inj (WduDpc.mk (Some (irp_data e p mj)) (Some (code_addr "event::timer_dpc")))) ->
  w_mem s !! p = Some (inj i) -> DriverContext3 i = null ->
  exists s', timer_dpc (mret tt) (dpc_of b) s = Ub NullDeref s'.
Proof.
  intros Hq Hb0 Hd0 Hp Hb Hr Hd Hi Hn. pose proof Hq as [_ _ He0 He _ _].
  unfold timer_dpc, WduDpc.context_as_mut_ref.
  rewrite (bind_done _ _ s (Some (irp_data e p mj)) s) by by erewrite bind_done by by apply load_at.
  simpl. erewrite bind_done by done. simpl. rewrite not_null by done.
  destruct (wp_elim (WduSpinLock.acquire_at_dpc (queue_lock e)) s (fun _ s1 => w_mem s1 = w_mem s))
    as ([] & s1 & E & M1); [by apply wp_lock_at_dpc|].
  erewrite bind_done by exact E. erewrite bind_done by (apply load_at; [done|by rewrite M1]).
  rewrite (bind_done _ _ s1 (Some O) s1).
  2: { eapply (find_record (names p) [b] 0 b [] (fun r => NotifyData_eq (data_of r) (irp_data e p mj)) s1 r);
         [intros; apply data_eq_names|done|done|constructor|done|by rewrite M1]. }
  eexists. apply bind_ub, bind_ub. unfold WduIrp.set_cancel_rtn, WduIrp.from_context, update. simpl.
  apply bind_ub. erewrite bind_done.
  2: { erewrite bind_done by (apply load_at; [done|by rewrite M1]). unfold store.
       erewrite bind_done by (apply load_at; [done|by rewrite M1]). done. }
  erewrite bind_done. 2: { erewrite bind_done by (apply load_at; [done|map_at]). done. }
  simpl. rewrite Hn. done.
Qed.

(** The record of a request made through the handle that is cleaned up. *)
Lemma wp_cleanup_record f e p mj b c (i : IRP) s (Q : bool * list WduIrp -> world U -> Prop) :
  b <> 0 -> p <> 0 -> c <> 0 -> c <> p -> b <> p -> b <> c ->
  w_mem s !! b = Some (inj (mkNotifyRecord f (irp_data e p mj))) ->
  w_mem s !! p = Some (inj i) -> DriverContext3 i = c -> w_mem s !! c = Some (inj (wrapper p mj)) ->
  (forall s', calls s' = calls s ->
     w_mem s' = <[b := inj (mkNotifyRecord f (mkNotifyData (IrpBased (WduIrp.mk p mj None)) e))]>
                  (<[p := inj (disarmed i)]> (delete c (w_mem s))) -> Q (true, []) s') ->
  wp (cleanup_record f b) s Q.
Proof.
  intros Hb0 Hp Hc0 Hcp Hbp Hbc Hb Hi Hic Hc HQ. unfold cleanup_record.
  wp_step. eapply wp_load; [done..|]. simpl. rewrite bool_decide_true by done. wp_step. wp_step. wp_step.
  apply (wp_disarm (wrapper p mj) (wrapper p mj) i); [done|done|by rewrite Hic..|]. rewrite Hic. simpl. name_state s1 M1 C1.
  wp_step. eapply wp_update; [done|rewrite M1; map_at|]. name_state s2 M2 C2. simpl.
  apply wp_ret. apply HQ; [by rewrite C2, C1|by rewrite M2, M1].
Qed.

(** Cleaning a handle up, but for what it does to the records of the queue. *)
Lemma wp_cleanup d e q (request : WduIrp) f (fo : FILE_OBJECT) (rl : WduRemoveLock) (ri : IRP) s
    (Q : WduIrp -> world U -> Prop) :
  (kresp (IoAcquireRemoveLockEx (FsContext fo) (WduIrp.irp request) line size_of_IO_REMOVE_LOCK) s : NTSTATUS) = STATUS_SUCCESS ->
  queued d e q s -> f <> 0 -> w_mem s !! f = Some (inj fo) ->
  FsContext fo <> 0 -> w_mem s !! FsContext fo = Some (inj rl) ->
  WduIrp.irp request <> 0 ->
  NoDup [f; FsContext fo; WduDevice.device d; e; queue_lock e] ->
  (forall (lk : WduSpinLock) s1,
     w_mem s1 = <[queue_lock e := inj lk]> (<[FsContext fo := inj (WduRemoveLock.mk None)]> (w_mem s)) ->
     signals (calls s1) = signals (calls s) ->
     wp (cleanup_records (WduFileObject.wrap f) q) s1 (fun r s2 =>
       r.2 = [] /\ (exists x : DeviceExtension, w_mem s2 !! e = Some (inj x)) /\
       w_mem s2 !! queue_lock e = Some (inj lk) /\
       w_mem s2 !! WduIrp.irp request = Some (inj ri) /\ e <> WduIrp.irp request /\
       forall s3, w_mem s3 = delete (WduIrp.irp request) (<[e := inj (mkDeviceExtension r.1)]> (w_mem s2)) ->
         signals (calls s3) = signals (calls s2) ++ [Completed (WduIrp.irp request) STATUS_SUCCESS] ->
         Q request s3)) ->
  wp (cleanup d request (WduFileObject.wrap f)) s Q.
Proof.
  intros Hacq Hq Hf0 Hf Hk0 Hk Hr0 Ha HQ.
  pose proof Hq as [Hdv (o & Hoo & Hoe) He0 He Hl0 (lk & Hl)]. apart Ha.
  unfold cleanup. wp_step. eapply wp_done; [by eapply extension_done|]. wp_step.
  apply wp_assert; [by apply negb_true_iff, not_null|]. unfold WduFileObject.context_as_mut_ref.
  wp_step. wp_step. eapply wp_load; [done..|]. wp_step. rewrite not_null by done.
  wp_step. simpl. wp_step.
  wp_step. eapply wp_remove_acquire; [done..|]. cbv zeta. intros s2 M2 C2 _.
  wp_step. apply wp_assert; [apply Z.eqb_eq, Hacq|].
  unfold WduRemoveLock.release_and_wait. wp_step. wp_step. eapply wp_load; [done|rewrite M2; map_at|].
  wp_step. wp_step. name_state s3 M3 C3. rewrite M2 in M3. eapply wp_update; [done|rewrite M3; map_at|].
  name_state s4 M4 C4. rewrite M3 in M4. rewrite insert_insert_eq in M4.
  wp_step. eapply (wp_lock_acquire _ lk); [done|rewrite M4; map_at|]. intros lk' s5 M5 C5. rewrite M4 in M5.
  wp_step. eapply wp_load; [done|rewrite M5; map_at|]. simpl. wp_step. eapply wp_mono.
  { apply (HQ lk'); [done|]. rewrite C5, C4, C3, C2, !signals_app. simpl. by rewrite !app_nil_r. }
  intros [queue irps] s6 (Hirps & (x & Hx) & Hl6 & Hr6 & Her & Hend). simpl in Hirps, Hend. subst irps.
  wp_step. eapply wp_store; [done..|]. name_state s7 M7 C7.
  wp_step. eapply (wp_lock_release _ lk'); [done|rewrite M7; map_at|]. intros s8 M8 (irql & C8). rewrite M7 in M8.
  wp_step. simpl. wp_step. wp_step. eapply wp_complete; [done|rewrite M8; map_at|]. simpl. intros s9 M9 C9.
  rewrite M8 in M9. apply wp_ret. apply Hend; [done|].
  rewrite C9, C8, C7, !signals_app. simpl. by rewrite app_nil_r.
Qed.

(** C30: cleaning up the file handle a pending request was made through does
    not complete the request.  The test of [set_cancel_rtn]'s answer is the
    wrong way round: the record stays in the queue, its timer running, but the
    request has lost its cancel routine and context - it can no longer be
    cancelled, and when the timer is due the DPC makes a box of null.  Only
    the cleanup request itself is completed. *)
Theorem event_cleanup_abandons_request d e p mj b c (request : WduIrp) f k
    (fo : FILE_OBJECT) (rl : WduRemoveLock) (ri : IRP) s :
  (forall ks l tag, fst (kstep (IoAcquireRemoveLockEx l tag line size_of_IO_REMOVE_LOCK) ks) = STATUS_SUCCESS) ->
  pending d e [] p mj b c s ->
  w_mem s !! b = Some (inj (mkNotifyRecord (WduFileObject.wrap f) (irp_data e p mj))) ->
  f <> 0 -> w_mem s !! f = Some (inj fo) -> FsContext fo = k -> k <> 0 -> w_mem s !! k = Some (inj rl) ->
  WduIrp.irp request <> 0 -> w_mem s !! WduIrp.irp request = Some (inj ri) ->
  NoDup [WduIrp.irp request; f; k; WduDevice.device d; e; queue_lock e; p; c; b; dpc_of b] ->
  wp (cleanup d request (WduFileObject.wrap f)) s (fun _ s' =>
    completions (calls s') = completions (calls s) ++ [(WduIrp.irp request, STATUS_SUCCESS)] /\
    (forall t, KeCancelTimer t ∈ calls s' -> KeCancelTimer t ∈ calls s) /\
    queued d e [b] s' /\
    (exists i, w_mem s' !! p = Some (inj i) /\ CancelRoutine i = None) /\
    exists s'', timer_dpc (mret tt) (dpc_of b) s' = Ub NullDeref s'').
Proof.
  intros Hacq [Hq _ [Hp (i & Hi & Hic)] [Hc0 Hc] [Hb0 _] [Hd0 Hd] _ _] Hb Hf0 Hf <- Hk0 Hk Hr0 Hr Ha.
  pose proof Hq as [Hdv (o & Hoo & Hoe) He0 He Hl0 _]. apart Ha.
  eapply (wp_cleanup d e [b] request f fo rl ri); [apply Hacq|done..| |].
  { repeat (apply NoDup_cons_2; [rewrite ?not_elem_of_cons; split_and?; try done; apply not_elem_of_nil|]).
    apply NoDup_nil_2. }
  intros lk s1 M1 S1. simpl. wp_step.
  eapply (wp_cleanup_record _ e p mj b c i); [done..|rewrite M1; map_at|rewrite M1; map_at|done|rewrite M1; map_at|].
  intros s2 C2 M2. rewrite M1 in M2. simpl. do 5 wp_step. simpl.
  split; [done|]. split; [eexists; rewrite M2; map_at|]. split; [rewrite M2; map_at|].
  split; [rewrite M2; map_at|]. split; [done|]. intros s3 M3 S3. rewrite M2 in M3. rewrite C2, S1 in S3.
  assert (Hq' : queued d e [b] s3).
  { split; try done; [exists o; split; [|done]|..|exists lk]; rewrite M3; map_at. }
  split; [by rewrite !completions_signals, S3, omap_app|]. split; [|split; [done|split]].
  - intros t. rewrite <- !cancelled_signals, S3, elem_of_app. intros [?|Ht]; [done|].
    apply list_elem_of_singleton in Ht. done.
  - exists (disarmed i). split; [|done]. rewrite M3. map_at.
  - eapply (timer_dpc_null d e p mj b _ (disarmed i));
      [done..|rewrite M3; map_at|by apply Z.eqb_eq|rewrite M3; map_at|rewrite M3; map_at|done].
Qed.
End properties.

(** ** Instances *)

Module EventDemo.
#[export] Instance build : Build := false.
#[export] Instance statics : NtStatics := Build_NtStatics 1 2 3 4 5 6 7 8.
#[export] Instance linked : Linked :=
  {| size_of_WduDevice := 24; size_of_WduDriver := 72; code_addr s := 0x7000 |}.
#[export] Instance layout : EventLayout :=
  {| size_of_DeviceExtension := 48; queue_lock_offset := 24; dpc_offset := 8; timer_offset := 80;
     size_of_IO_REMOVE_LOCK := 32; line := 1; device_name_at := 0x800; win32_name_at := 0x840;
     global_name_at := 0x880; queue_lock_offset_pos := eq_refl; dpc_offset_pos := eq_refl |}.
#[export] Instance kernel : Kernel := idle_kernel.
Abbreviation cells :=
  (DEVICE_OBJECT + (IRP + (IO_STACK_LOCATION + (WduIrp + (FILE_OBJECT + (WduSpinLock +
    (WduRemoveLock + (DeviceExtension + (NotifyRecord + (WduDpc NotifyData + unit))))))))))%type.

Definition device : WduDevice := WduDevice.wrap_device 0x900.
Definition object : DEVICE_OBJECT := mkDeviceObject 0xA00 0x80 0.
Definition other : NotifyRecord :=
  mkNotifyRecord (WduFileObject.wrap 0x400) (mkNotifyData (EventBased (WduEvent.mk 0x600)) 0xA18).
Definition request : WduIrp := WduIrp.mk 0x100 MajorFunction.DeviceControl None.
Definition shared : gmap ptr cells :=
  {[0x900 := inj object; 0xA30 := inj WduSpinLock.new; 0x100 := inj IrpDemo.irp;
    0x200 := inj IrpDemo.stack]}.
(** Another registration is in the queue. *)
Definition start : world cells :=
  World tt [] (<[0xA18 := inj (mkDeviceExtension [0x500])]> (<[0x500 := inj other]> shared)).

(** A request is pending, and its handle is cleaned up by another one. *)
Definition own : NotifyRecord :=
  mkNotifyRecord (WduFileObject.wrap 0x400) (irp_data 0xA18 0x100 MajorFunction.DeviceControl).
Definition cleaning : WduIrp := WduIrp.mk 0x180 MajorFunction.Cleanup None.
Definition file : FILE_OBJECT := mkFileObject (mkUnicode 0 0 0) 0x680 0.
Definition waiting : world cells :=
  World tt [] (<[0xA18 := inj (mkDeviceExtension [0x500])]> (<[0x500 := inj own]>
    (<[0x508 := inj (WduDpc.mk (Some (irp_data 0xA18 0x100 MajorFunction.DeviceControl)) (Some 0x7000))]>
    (<[0x100 := inj (armed IrpDemo.irp 0x640)]> (<[0x640 := inj (wrapper 0x100 MajorFunction.DeviceControl)]>
    (<[0x400 := inj file]> (<[0x680 := inj WduRemoveLock.new]> (<[0x180 := inj IrpDemo.irp]> shared)))))))).
End EventDemo.
#[local] Existing Instance EventDemo.build.
#[local] Existing Instance EventDemo.statics.
#[local] Existing Instance EventDemo.linked.
#[local] Existing Instance EventDemo.layout.
#[local] Existing Instance EventDemo.kernel.

(** An address in or out of a list of concrete addresses. *)
Ltac not_in :=
  let H := fresh in intros H; vm_compute in H;
  repeat (apply elem_of_cons in H as [H|H]; [discriminate H|]); by apply elem_of_nil in H.
Ltac concrete :=
  first [discriminate | vm_compute; reflexivity | not_in
        | repeat (apply NoDup_cons_2; [not_in|]); apply NoDup_nil_2].

Lemma demo_queued : queued EventDemo.device 0xA18 [0x500] EventDemo.start.
Proof.
  split; [concrete|exists EventDemo.object; split; concrete|concrete..|].
  exists WduSpinLock.new. concrete.
Qed.

Lemma event_request_completed_once_witness :
  wp (irp_notification EventDemo.device EventDemo.request (mkRegisterEvent 0 0 (-50))) EventDemo.start
    (fun r s1 => r.2 = Ok STATUS_PENDING /\ exists b,
       wp (timer_dpc (mret tt) (dpc_of b)) s1 (fun _ s2 =>
         completions (calls s2) = completions (calls s1) ++ [(0x100, STATUS_SUCCESS)])).
Proof.
  eapply wp_mono.
  - apply (event_request_completed_once eq_refl EventDemo.device 0xA18 [0x500] EventDemo.request
      (mkRegisterEvent 0 0 (-50)) IrpDemo.irp IrpDemo.stack EventDemo.start).
    + apply demo_queued.
    + split; first [concrete | simpl; lia].
    + discriminate.
    + concrete.
    + repeat constructor; [concrete|concrete|]. exists EventDemo.other. split; concrete.
  - intros r s1 (Hr & _ & b & H & _). split; [exact Hr|]. exists b.
    eapply wp_mono; [exact H|]. intros [] s2 Hc. exact (cp_calls _ _ _ _ _ _ _ _ Hc).
Defined.

Lemma event_cancel_before_queued_panics_witness :
  exists msg s', cancel_routine EventDemo.device EventDemo.request EventDemo.start = Panicked msg s'.
Proof.
  destruct (event_cancel_before_queued_panics eq_refl EventDemo.device 0xA18 [0x500] EventDemo.request
    IrpDemo.irp EventDemo.start) as (msg & s' & H & _).
  - apply demo_queued.
  - discriminate.
  - concrete.
  - repeat constructor; [concrete|concrete|]. exists EventDemo.other. split; concrete.
  - discriminate.
  - exists msg, s'. exact H.
Defined.

Lemma demo_pending :
  pending EventDemo.device 0xA18 [] 0x100 MajorFunction.DeviceControl 0x500 0x640 EventDemo.waiting.
Proof.
  split.
  - split; [concrete|exists EventDemo.object; split; concrete|concrete..|]. exists WduSpinLock.new. concrete.
  - concrete.
  - split; [concrete|]. exists (armed IrpDemo.irp 0x640). split; concrete.
  - split; concrete.
  - split; [concrete|]. exists (WduFileObject.wrap 0x400). concrete.
  - split; concrete.
  - concrete.
  - constructor.
Qed.

Lemma event_cleanup_abandons_request_witness :
  wp (cleanup EventDemo.device EventDemo.cleaning (WduFileObject.wrap 0x400)) EventDemo.waiting (fun _ s' =>
    completions (calls s') = [(0x180, STATUS_SUCCESS)] /\
    exists s'', timer_dpc (mret tt) 0x508 s' = Ub NullDeref s'').
Proof.
  eapply wp_mono.
  - apply (event_cleanup_abandons_request eq_refl EventDemo.device 0xA18 0x100 MajorFunction.DeviceControl
      0x500 0x640 EventDemo.cleaning 0x400 0x680 EventDemo.file WduRemoveLock.new IrpDemo.irp
      EventDemo.waiting); [reflexivity|apply demo_pending|concrete..].
  - intros w s' (H & _ & _ & _ & Hub). split; [exact H|exact Hub].
Defined.
