(* ===== verification/EventSystem.v ===== *)
(** * EventSystem: the event driver as a whole

    The handlers of [examples/event/src/lib.rs], run one after another:
    requests arrive, timers are due, requests are cancelled, in any order but
    those [step] leaves out.  The kernel calls the crate's routines
    ([WduDpc::custom_dpc], [WduIrp::cancel_routine]), which call the driver's.

    The queue in the device extension is read as a list of clients that wait;
    what the driver does is then what a specification without memory says. *)

From stdpp Require Import relations.
From S2P Require Import Prelude Nt World UnicodeStr Crate Pool FileObj Device Irp DeviceControl Driver SpinLock Sync Process Event.
Import ProcessorMode (ProcessorMode).
Import WduDevice (WduDevice).
Import WduFileObject (WduFileObject).
Import WduIrp (WduIrp).
Import MajorFunction (MajorFunction).
Import WduEvent (WduEvent).
#[local] Existing Instance MajorFunction.MajorFunction_eq_dec.
Import WduSpinLock (WduSpinLock).
Import WduRemoveLock (WduRemoveLock).
Import WduDpc (WduDpc).

(** ** Registrations that are answered by an event *)

Section by_event.
Context {KN : Kernel} {B : Build} {LK : Linked} {NS : NtStatics} {EL : EventLayout} {U : Type}.
Context `{!Storable U DEVICE_OBJECT, !Storable U IRP, !Storable U IO_STACK_LOCATION, !Storable U WduIrp}.
Context `{!Storable U WduSpinLock, !Storable U DeviceExtension, !Storable U NotifyRecord}.
Context `{!Storable U (WduDpc NotifyData)}.
Context (release_build : debug_assertions = false).
Implicit Types s : world U.

Definition event_data (e ev : ptr) : NotifyData := mkNotifyData (EventBased (WduEvent.mk ev)) e.

Definition names_event (ev : ptr) (r : NotifyRecord) : bool :=
  match ty (data_of r) with EventBased v => WduEvent.as_ptr v =? ev | IrpBased _ => false end.

Lemma data_eq_names_event e ev r : NotifyData_eq (data_of r) (event_data e ev) = names_event ev r.
Proof. unfold NotifyData_eq, names_event. destruct (ty (data_of r)); [done|]. simpl. apply Z.eqb_sym. Qed.

(** The record [b] of the event [ev] is at index [n] of the queue [q]; [q'] is
    the queue without it. *)
Record signal_at (d : WduDevice) (e : ptr) (q : list ptr) (n : nat) (q' : list ptr) (ev b : ptr) s
    : Prop := {
  sg_queued : queued d e q s;
  sg_at : swap_remove n q = Some (b, q');
  sg_rec : b <> 0 /\ exists fo, w_mem s !! b = Some (inj (mkNotifyRecord fo (event_data e ev)));
  sg_dpc : dpc_of b <> 0 /\ w_mem s !! dpc_of b =
             Some (inj (WduDpc.mk (Some (event_data e ev)) (Some (code_addr "event::timer_dpc"))));
  sg_apart : NoDup [WduDevice.device d; e; queue_lock e; b; dpc_of b];
  sg_others : others_by (names_event ev) [WduDevice.device d; e; queue_lock e; b; dpc_of b] q' s
}.

(** The DPC at [x] is run, about the event [ev]; the first record that is
    about it is [b]. *)
Lemma wp_signal x rt d e q n q' ev b s :
  x <> 0 -> w_mem s !! x = Some (inj (WduDpc.mk (Some (event_data e ev)) rt)) ->
  queued d e q s -> swap_remove n q = Some (b, q') ->
  (forall s1, w_mem s1 = w_mem s ->
     position_m (fun x => r ← load (T := NotifyRecord) x; mret (NotifyData_eq (data_of r) (event_data e ev))) q s1
     = Done (Some n) s1) ->
  b <> 0 -> (exists r : NotifyRecord, w_mem s !! b = Some (inj r)) ->
  dpc_of b <> 0 -> (exists dpc : WduDpc NotifyData, w_mem s !! dpc_of b = Some (inj dpc)) ->
  NoDup [WduDevice.device d; e; queue_lock e; b; dpc_of b] ->
  wp (timer_dpc (mret tt) x) s (fun _ s' =>
    queued d e q' s' /\
    signals (calls s') = signals (calls s) ++ [Signalled ev; Dereferenced ev] /\
    w_mem s' !! dpc_of b = None /\
    only_at [queue_lock e; e; b; dpc_of b] s s').
Proof.
  intros Hx0 Hx Hq Hn Hfind Hb0 (r & Hb) Hd0 (dpc & Hd) Ha.
  pose proof Hq as [_ _ He0 He Hl0 _]. apart Ha.
  unfold timer_dpc, WduDpc.context_as_mut_ref. do 2 wp_step. eapply wp_load; [done..|].
  repeat wp_step. simpl. wp_step. simpl. rewrite not_null by done.
  wp_step. apply (wp_lock_at_dpc release_build). intros s1 M1 C1. wp_step.
  eapply wp_load; [done|rewrite M1; done|]. wp_step. eapply wp_done; [by apply Hfind|].
  simpl. do 2 wp_step. unfold WduEvent.set, WduEvent.dereference, dereference. simpl.
  wp_step. name_state s2 M2 C2. wp_step. wp_step. name_state s3 M3 C3. wp_step.
  rewrite M2, M1 in M3. do 2 wp_step. eapply wp_load; [done|by rewrite M3|]. simpl. wp_step.
  rewrite Hn. simpl. do 2 wp_step. eapply wp_store; [done|by rewrite M3|]. simpl.
  name_state s4 M4 C4. rewrite M3 in M4.
  eapply wp_drop_record; [done..|rewrite M4; map_at|rewrite M4; map_at|]. intros s5 M5 C5. rewrite M4 in M5.
  apply (wp_unlock_from_dpc release_build). intros s6 M6 C6. rewrite M5 in M6.
  split; [|split; [by rewrite C6, C5, C4, C3, C2, C1, !signals_app, !app_nil_r, <- app_assoc|
    split; [rewrite M6; map_at|
    intros a Hna; rewrite !not_elem_of_cons in Hna; destruct_and! Hna; rewrite M6; map_at]]].
  destruct Hq as [? (o & Hoo & ?) _ _ _ (lk & Hlk)]. split; try done.
  - exists o. split; [|done]. rewrite M6. map_at.
  - rewrite M6. map_at.
  - exists lk. rewrite M6. map_at.
Qed.

(** The timer is due: the event is signalled and given back. *)
Lemma wp_timer_dpc_event d e q n q' ev b s :
  signal_at d e q n q' ev b s ->
  wp (timer_dpc (mret tt) (dpc_of b)) s (fun _ s' =>
    queued d e q' s' /\
    signals (calls s') = signals (calls s) ++ [Signalled ev; Dereferenced ev] /\
    only_at [queue_lock e; e; b; dpc_of b] s s').
Proof.
  intros [Hq Hn [Hb0 (fo & Hb)] [Hd0 Hd] Ha Ho].
  eapply wp_mono; [eapply (wp_signal _ _ d e q n q' ev b); try done; try by eexists|].
  - intros s1 M1.
    eapply (find_record (names_event ev) q n b q' (fun r => NotifyData_eq (data_of r) (event_data e ev)) s1
      (mkNotifyRecord fo (event_data e ev)));
      [intros; apply data_eq_names_event|apply Z.eqb_refl|done| |done|by rewrite M1].
    eapply others_weaken, (others_frame _ _ _ s); [|by intros; rewrite M1|done]. clear; set_solver.
  - by intros [] s' (? & ? & _ & ?).
Qed.

(** The registration: nothing happens when the handle is refused. *)
Definition event_reference (reg : RegisterEvent) (mode : ProcessorMode) : kcall :=
  ObReferenceObjectByHandle (event reg) 0x00100002 deref_ExEventObjectType (ProcessorMode.into_i8 mode).

Lemma wp_event_ref reg mode s (Q : result WduEvent WduError -> world U -> Prop) :
  (forall s1, w_mem s1 = w_mem s -> signals (calls s1) = signals (calls s) ->
     Q (let '(status, ev) := kresp (event_reference reg mode) s : NTSTATUS * ptr in
        if status =? STATUS_SUCCESS then Ok (WduEvent.mk ev) else Err (WduError_NtStatus status)) s1) ->
  wp (WduEvent.ref_by_handle (event reg) 0x00100002 mode) s Q.
Proof.
  intros HQ. unfold WduEvent.ref_by_handle, ref_by_handle, try_. do 3 wp_step.
  change (default 0 (Some deref_ExEventObjectType)) with deref_ExEventObjectType.
  fold (event_reference reg mode). specialize (HQ (kafter (event_reference reg mode) s)).
  destruct (kresp (event_reference reg mode) s) as [status ev]. simpl in *.
  destruct (status =? STATUS_SUCCESS); repeat wp_step; (apply HQ; [done|]);
    rewrite calls_kafter, signals_app; apply app_nil_r.
Qed.

Lemma wp_event_notification d e q (w : WduIrp) reg i st mode s :
  queued d e q s -> dispatched (WduIrp.irp w) i st s -> RequestorMode i = ProcessorMode.into_i8 mode ->
  NoDup [WduDevice.device d; e; queue_lock e] ->
  wp (event_notification d w reg) s (fun r s' =>
    r.1 = w /\ let '(status, ev) := kresp (event_reference reg mode) s : NTSTATUS * ptr in
    if status =? STATUS_SUCCESS then
      r.2 = Ok STATUS_SUCCESS /\
      exists b, queued d e (q ++ [b]) s' /\ b <> 0 /\ dpc_of b <> 0 /\ dpc_of b <> b /\
        (exists fo, w_mem s' !! b = Some (inj (mkNotifyRecord fo (event_data e ev)))) /\
        w_mem s' !! dpc_of b =
          Some (inj (WduDpc.mk (Some (event_data e ev)) (Some (code_addr "event::timer_dpc")))) /\
        signals (calls s') = signals (calls s) ++ [TimerSet (timer_of b) (dpc_of b)] /\
        Forall (fun a => w_mem s !! a = None) [b; dpc_of b] /\
        only_at [queue_lock e; e; b; dpc_of b] s s'
    else r.2 = Err (Status status) /\ w_mem s' = w_mem s /\ signals (calls s') = signals (calls s)).
Proof.
  intros Hq Hdp Hmode Ha. pose proof Hq as [Hd0 (o & Hd & Hoe) He0 He Hl0 (lk & Hl)].
  pose proof Hdp as [Hp Hi _ _ _ _]. apart Ha.
  unfold event_notification, WduIrp.processor_mode.
  wp_step. eapply wp_done; [by eapply extension_done|]. do 2 wp_step.
  eapply wp_load; [done..|]. rewrite Hmode. eapply wp_done; [apply processor_mode_roundtrip|].
  wp_step. change (Z.lor 0x00100000 0x0002) with 0x00100002. apply wp_event_ref. intros s1 M1 S1.
  destruct (kresp (event_reference reg mode) s) as [status ev]. simpl in *.
  destruct (status =? STATUS_SUCCESS); [|by wp_step].
  assert (Hq1 : queued d e q s1) by (apply (queued_frame release_build d e q s); [by intros; rewrite M1|done]).
  wp_step. eapply wp_done; [by eapply (extension_done d e q s1)|].
  wp_step. eapply wp_done.
  { destruct w as [p mj c]. eapply (file_object_done p mj c i st s1). destruct Hdp; split; by rewrite ?M1. }
  eapply (wp_new_record release_build _ _ _ lk); [done|by rewrite M1|].
  intros b lk' s2 Hb0 Hdb0 Hne Hb Hdb M2 S2. rewrite M1 in *.
  assert (Hfresh : forall a (y : U), w_mem s !! a = Some y -> b <> a /\ dpc_of b <> a).
  { intros a y Hy. split; intros <-; congruence. }
  destruct (Hfresh _ _ Hd), (Hfresh _ _ He), (Hfresh _ _ Hl).
  eapply (wp_enqueue release_build _ _ _ q _ lk'); [done|rewrite M2; map_at|done|done|rewrite M2; map_at|].
  intros s3 M3 S3. rewrite M2 in M3. do 2 (split; [done|]). exists b.
  split; [|split_and!; try done].
  - split; try done; [exists o; split; [|done]|..|exists lk']; rewrite M3; map_at.
  - eexists. rewrite M3. map_at.
  - rewrite M3. map_at.
  - by rewrite S3, S2, S1.
  - by repeat constructor.
  - intros a Hna. rewrite !not_elem_of_cons in Hna. destruct_and! Hna. rewrite M3. map_at.
Qed.
End by_event.

(** ** The clients that wait *)

(** An entry of the queue, with the addresses it lives at: a request [p] with
    its stack location and the context of its cancel routine, or an event; and
    the record. *)
Inductive entry : Type :=
| ByIrp (p stk c b : ptr) (mj : MajorFunction)
| ByEvent (ev b : ptr).

Definition record_of (r : entry) : ptr := match r with ByIrp _ _ _ b _ | ByEvent _ b => b end.
Definition event_of (r : entry) : option ptr :=
  match r with ByIrp _ _ _ _ _ => None | ByEvent ev _ => Some ev end.
Definition request_of (r : entry) : option ptr :=
  match r with ByIrp p _ _ _ _ => Some p | ByEvent _ _ => None end.

#[export] Instance entry_eq_dec : EqDecision entry.
Proof. solve_decision. Defined.

(** What the specification knows of an entry. *)
Inductive client : Type := Request (irp : ptr) | Listener (event : ptr).
Definition client_of (r : entry) : client :=
  match r with ByIrp p _ _ _ _ => Request p | ByEvent ev _ => Listener ev end.

Section system.
Context {KN : Kernel} {B : Build} {LK : Linked} {NS : NtStatics} {EL : EventLayout} {U : Type}.
Context `{!Storable U DEVICE_OBJECT, !Storable U IRP, !Storable U IO_STACK_LOCATION, !Storable U WduIrp}.
Context `{!Storable U WduSpinLock, !Storable U DeviceExtension, !Storable U NotifyRecord}.
Context `{!Storable U (WduDpc NotifyData)}.
Context (release_build : debug_assertions = false).
Implicit Types (s : world U) (r : entry) (rs : list entry).

Definition footprint r : list ptr :=
  match r with ByIrp p stk c b _ => [p; stk; c; b; dpc_of b] | ByEvent _ b => [b; dpc_of b] end.
Definition timer_pair r : ptr * ptr := (timer_of (record_of r), dpc_of (record_of r)).
Definition data_for (e : ptr) r : NotifyData :=
  match r with ByIrp p _ _ _ mj => irp_data e p mj | ByEvent ev _ => event_data e ev end.
Definition names_entry r : NotifyRecord -> bool :=
  match r with ByIrp p _ _ _ _ => names p | ByEvent ev _ => names_event ev end.

(** The entry that the record at [b] is, and the entries of the queue. *)
Definition entry_at s (b : ptr) : option entry :=
  r ← w_mem s !! b ≫= prj (T := NotifyRecord);
  match ty (data_of r) with
  | IrpBased w => i ← w_mem s !! WduIrp.irp w ≫= prj (T := IRP);
                  Some (ByIrp (WduIrp.irp w) (CurrentStackLocation i) (DriverContext3 i) b (WduIrp.mj w))
  | EventBased ev => Some (ByEvent (WduEvent.as_ptr ev) b)
  end.
Definition entries (e : ptr) s : list entry :=
  match w_mem s !! e ≫= prj (T := DeviceExtension) with
  | Some x => omap (entry_at s) (event_queue x)
  | None => []
  end.

(** The addresses the driver relies on. *)
Definition base (d : WduDevice) (e : ptr) : list ptr := [WduDevice.device d; e; queue_lock e].
(** Of these, what the handlers write. *)
Definition touched (e : ptr) : list ptr := [e; queue_lock e].
Definition in_use (d : WduDevice) (e : ptr) rs : list ptr := base d e ++ (rs ≫= footprint).

(** Everything of the entry is in memory; a request is pending with its
    cancel routine set. *)
Record present (e : ptr) s r : Prop := {
  pr_addrs : Forall (fun a => a <> 0) (footprint r);
  pr_rec : exists fo, w_mem s !! record_of r = Some (inj (mkNotifyRecord fo (data_for e r)));
  pr_dpc : w_mem s !! dpc_of (record_of r) =
             Some (inj (WduDpc.mk (Some (data_for e r)) (Some (code_addr "event::timer_dpc"))));
  pr_irp : match r with
           | ByIrp p stk c _ mj =>
               exists i st, dispatched p i st s /\ CurrentStackLocation i = stk /\ DriverContext3 i = c /\
                 CancelRoutine i = Some rtn_addr /\ MajorFunction_ st = major_code mj /\
                 w_mem s !! c = Some (inj (wrapper p mj))
           | ByEvent _ _ => True
           end
}.

(** The invariant: the queue in memory is [rs], each entry is there, no
    address is used twice, and no event has two entries. *)
Record consistent (d : WduDevice) (e : ptr) rs s : Prop := {
  cs_queued : queued d e (record_of <$> rs) s;
  cs_present : Forall (present e s) rs;
  cs_apart : NoDup (in_use d e rs);
  cs_events : NoDup (omap event_of rs)
}.

(** *** Laws of entries *)

#[local] Instance in_use_perm d e : Proper ((≡ₚ) ==> (≡ₚ)) (in_use d e).
Proof. intros rs rs' H. unfold in_use. f_equiv. by rewrite H. Qed.

Lemma record_in_footprint r : record_of r ∈ footprint r /\ dpc_of (record_of r) ∈ footprint r.
Proof. destruct r; simpl; set_solver. Qed.

Lemma names_own e fo r : names_entry r (mkNotifyRecord fo (data_for e r)) = true.
Proof. destruct r; apply Z.eqb_refl. Qed.

(** A record names no other entry. *)
Lemma names_other e fo r r' :
  NoDup (footprint r ++ footprint r') -> NoDup (omap event_of [r; r']) ->
  names_entry r (mkNotifyRecord fo (data_for e r')) = false.
Proof.
  intros Ha He. destruct r, r'; try done; apply Z.eqb_neq; simpl in *.
  - intros ->. apply NoDup_cons in Ha as [Ha _]. apply Ha. set_solver.
  - intros ->. apply NoDup_cons in He as [He _]. apply He. set_solver.
Qed.

Lemma present_frame e s s' r :
  (forall a, a ∈ footprint r -> w_mem s' !! a = w_mem s !! a) -> present e s r -> present e s' r.
Proof.
  intros Hf [Ha (fo & Hr) Hd Hi]. pose proof (record_in_footprint r) as [H1 H2].
  split; [done|exists fo; by rewrite Hf|by rewrite Hf|].
  destruct r as [p stk c b mj|]; [|done].
  destruct Hi as (i & st & Hdp & Hstk & Hc & Hcr & Hmj & Hw). exists i, st.
  assert (w_mem s' !! p = w_mem s !! p /\ w_mem s' !! stk = w_mem s !! stk /\ w_mem s' !! c = w_mem s !! c)
    as (E1 & E2 & E3) by (split_and!; apply Hf; clear; set_solver).
  split_and!; [|done..|by rewrite E3]. destruct Hdp; split; by rewrite ?E1, ?Hstk, ?E2, <- ?Hstk.
Qed.

(** *** Laws of the invariant *)

Lemma consistent_entries d e rs s : consistent d e rs s -> entries e s = rs.
Proof.
  intros [[_ _ _ He _ _] Hp _ _]. unfold entries. rewrite He. simpl. rewrite prj_inj. simpl. clear He.
  induction Hp as [|r rs [_ (fo & Hr) _ Hi] _ IH]; [done|]. rewrite fmap_cons. cbn.
  assert (entry_at s (record_of r) = Some r) as ->; [|by f_equal].
  unfold entry_at. rewrite Hr. simpl. rewrite prj_inj. simpl. destruct r as [p stk c b mj|]; [|done].
  destruct Hi as (i & st & [_ Hm _ _ _ _] & <- & <- & _). simpl. rewrite Hm. simpl. by rewrite prj_inj.
Qed.

(** What is in use is in memory. *)
Lemma in_use_in_memory d e rs s a : consistent d e rs s -> a ∈ in_use d e rs -> is_Some (w_mem s !! a).
Proof.
  intros [[_ (o & Ho & _) _ He _ (lk & Hl)] Hp _ _] [Ha|Ha]%elem_of_app.
  - unfold base in Ha. rewrite !elem_of_cons, elem_of_nil in Ha. naive_solver.
  - apply list_elem_of_bind in Ha as (r & Ha & Hr). rewrite Forall_forall in Hp.
    destruct (Hp r Hr) as [_ (fo & Hrec) Hd Hi]. destruct r as [p stk c b mj|ev b]; simpl in *.
    + destruct Hi as (i & st & [_ ? _ _ _ ?] & <- & <- & _ & _ & ?).
      rewrite !elem_of_cons, elem_of_nil in Ha. naive_solver.
    + rewrite !elem_of_cons, elem_of_nil in Ha. naive_solver.
Qed.

Lemma in_use_cons d e r rs : in_use d e (r :: rs) = base d e ++ footprint r ++ (rs ≫= footprint).
Proof. done. Qed.

Lemma only_at_sub l l' s s' : (forall a, a ∈ l -> a ∈ l') -> only_at l s s' -> only_at l' s s'.
Proof. intros Hl Hf a Ha. apply Hf. auto. Qed.
Lemma only_at_base d e l s s' : only_at (touched e ++ l) s s' -> only_at (base d e ++ l) s s'.
Proof. apply only_at_sub. intros a. unfold base. simpl. rewrite !elem_of_cons. tauto. Qed.

(** Two entries share no address. *)
Lemma in_use_apart d e r rs r' :
  NoDup (in_use d e (r :: rs)) -> r' ∈ rs ->
  NoDup (footprint r ++ footprint r') /\
  forall a, a ∈ footprint r' -> a ∉ base d e ++ footprint r.
Proof.
  intros Hnd Hin. rewrite in_use_cons, !NoDup_app in Hnd. destruct Hnd as (Hb & Hbf & Hr & Hrr & Hrs).
  assert (Hsub : forall a, a ∈ footprint r' -> a ∈ rs ≫= footprint).
  { intros a Ha. apply list_elem_of_bind. by exists r'. }
  split.
  - rewrite NoDup_app. split_and!; [done|by intros a Ha Ha'%Hsub; eapply Hrr|].
    apply list_elem_of_split in Hin as (l1 & l2 & ->).
    rewrite bind_app in Hrs. simpl in Hrs. rewrite !NoDup_app in Hrs. tauto.
  - intros a Ha [H|H]%elem_of_app; [|by eapply Hrr; [|apply Hsub]].
    eapply Hbf; [done|]. apply elem_of_app. right. auto.
Qed.

(** Nothing about the driver changes when nothing at its addresses does. *)
Lemma consistent_frame d e rs s s' :
  (forall a, a ∈ in_use d e rs -> w_mem s' !! a = w_mem s !! a) -> consistent d e rs s -> consistent d e rs s'.
Proof.
  intros Hf [Hq Hp Ha He]. split; [|apply Forall_forall|done|done].
  - eapply (queued_frame release_build); [|done]. intros a Hin. apply Hf, elem_of_app. by left.
  - intros r Hr. eapply present_frame; [|by eapply Forall_forall].
    intros a Hin. apply Hf, elem_of_app. right. apply list_elem_of_bind. eauto.
Qed.

(** An entry leaves: only its addresses and the queue have changed. *)
Lemma consistent_remove d e rs n r rs' s s' :
  consistent d e rs s -> swap_remove n rs = Some (r, rs') ->
  queued d e (record_of <$> rs') s' -> only_at (base d e ++ footprint r) s s' ->
  consistent d e rs' s'.
Proof.
  intros [_ Hp Ha He] Hn Hq Hf. pose proof (swap_remove_perm _ _ _ _ Hn) as Hperm.
  rewrite Hperm in Hp, Ha, He. apply Forall_cons in Hp as [_ Hp]. split; [done|..].
  - apply Forall_forall. intros r' Hr'. eapply present_frame; [|by eapply Forall_forall].
    intros a Hin. apply Hf. by eapply in_use_apart.
  - rewrite in_use_cons, !NoDup_app in Ha. unfold in_use. rewrite NoDup_app.
    destruct Ha as (? & Hd & _ & _ & ?). split_and!; [done| |done].
    intros a ? ?. eapply Hd; [done|]. apply elem_of_app. by right.
  - simpl in He. destruct (event_of r); [by apply NoDup_cons in He as [_ ?]|done].
Qed.

(** An entry joins, at addresses of its own. *)
Lemma consistent_add d e rs r s s' :
  consistent d e rs s -> queued d e (record_of <$> (rs ++ [r])) s' -> present e s' r ->
  NoDup (footprint r) -> (forall a, a ∈ footprint r -> a ∉ in_use d e rs) ->
  (forall ev, event_of r = Some ev -> ev ∉ omap event_of rs) ->
  only_at (base d e ++ footprint r) s s' ->
  consistent d e (rs ++ [r]) s'.
Proof.
  intros [_ Hp Ha He] Hq Hr Hn Hnew Hev Hf. split; [done|..].
  - apply Forall_app. split; [|by constructor]. apply Forall_forall. intros r' Hr'.
    eapply present_frame; [|by eapply Forall_forall]. intros a Hin. apply Hf.
    assert (Ha' : a ∈ rs ≫= footprint) by (apply list_elem_of_bind; eauto).
    intros [H|H]%elem_of_app.
    + unfold in_use in Ha. apply NoDup_app in Ha as (_ & Hd & _). by eapply Hd.
    + eapply Hnew; [exact H|]. apply elem_of_app. by right.
  - unfold in_use in *. rewrite bind_app, bind_singleton, app_assoc. apply NoDup_app.
    split_and!; [done| |done]. intros a H1 H2. by eapply Hnew.
  - rewrite omap_app. apply NoDup_app. split_and!; [done|..]; simpl; destruct (event_of r) as [ev|] eqn:E;
      try apply NoDup_nil_2; [|set_solver|apply NoDup_singleton].
    intros x Hx ->%list_elem_of_singleton. by eapply Hev.
Qed.

(** The parts of an entry of the queue, as the handlers look for it. *)
Lemma consistent_others d e rs n r rs' s :
  consistent d e rs s -> swap_remove n rs = Some (r, rs') ->
  others_by (names_entry r) (base d e ++ footprint r) (record_of <$> rs') s.
Proof.
  intros [_ Hp Ha He] Hn. pose proof (swap_remove_perm _ _ _ _ Hn) as Hperm.
  rewrite Hperm in Hp, Ha, He. apply Forall_cons in Hp as [_ Hp].
  apply Forall_fmap, Forall_forall. intros r' Hr'. simpl.
  rewrite Forall_forall in Hp. destruct (Hp r' Hr') as [Hz (fo & Hrec) _ _].
  destruct (in_use_apart _ _ _ _ _ Ha Hr') as [Hnd Hout]. pose proof (record_in_footprint r') as [Hin _].
  split; [by eapply Forall_forall in Hz|]. split; [by apply Hout|].
  eexists. split; [done|]. apply names_other; [done|].
  apply list_elem_of_split in Hr' as (l1 & l2 & ->). simpl in *. rewrite omap_app in He. simpl in He.
  destruct (event_of r) as [ev|], (event_of r') as [ev'|];
    try apply NoDup_nil_2; try apply NoDup_singleton.
  apply NoDup_cons in He as [He _]. apply NoDup_cons. split; [set_solver|apply NoDup_singleton].
Qed.

(** *** The handlers, on the invariant *)

Lemma consistent_pending d e rs n p stk c b mj rs' s :
  consistent d e rs s -> swap_remove n rs = Some (ByIrp p stk c b mj, rs') ->
  pending_at d e (record_of <$> rs) n (record_of <$> rs') p mj b c s.
Proof.
  intros Hcs Hn. pose proof (consistent_others _ _ _ _ _ _ _ Hcs Hn) as Ho. destruct Hcs as [Hq Hp Ha _].
  rewrite (swap_remove_perm _ _ _ _ Hn) in Hp, Ha. apply Forall_cons in Hp as [[Hz Hr Hd Hi] _].
  destruct Hi as (i & st & [_ Hm _ _ _ _] & _ & Hc & _ & _ & Hw).
  simpl in Hz. rewrite !Forall_cons in Hz. destruct Hz as (? & _ & ? & ? & ? & _).
  split; try done; [by apply (swap_remove_fmap record_of) in Hn|split; [done|by exists i]|..].
  - rewrite in_use_cons, app_assoc in Ha. apply NoDup_app in Ha as [Ha _].
    refine (sublist_NoDup _ _ Ha _). simpl. do 4 constructor. by do 4 constructor.
  - eapply others_weaken; [|exact Ho]. simpl. clear. set_solver.
Qed.

Lemma consistent_signal d e rs n ev b rs' s :
  consistent d e rs s -> swap_remove n rs = Some (ByEvent ev b, rs') ->
  signal_at d e (record_of <$> rs) n (record_of <$> rs') ev b s.
Proof.
  intros Hcs Hn. pose proof (consistent_others _ _ _ _ _ _ _ Hcs Hn) as Ho. destruct Hcs as [Hq Hp Ha _].
  rewrite (swap_remove_perm _ _ _ _ Hn) in Hp, Ha. apply Forall_cons in Hp as [[Hz Hr Hd _] _].
  simpl in Hz. rewrite !Forall_cons in Hz. destruct Hz as (? & ? & _).
  split; try done; [by apply (swap_remove_fmap record_of) in Hn|].
  rewrite in_use_cons, app_assoc in Ha. by apply NoDup_app in Ha as [Ha _].
Qed.

(** The routine of a DPC, and the cancel routine of a request, by address. *)
Definition run_dpc (rtn : fnptr) (dpc : ptr) : M (world U) unit :=
  if rtn =? code_addr "event::timer_dpc" then timer_dpc (mret tt) dpc else ub (Dangling rtn).
Definition run_cancel (rtn : fnptr) (device : WduDevice) (irp : WduIrp) : M (world U) WduIrp :=
  if rtn =? code_addr "event::cancel_routine" then cancel_routine device irp else ub (Dangling rtn).

(** The kernel runs the DPC of a timer; the context it gives is the address
    [WduDpc::init] gave it. *)
Definition kernel_dpc (dpc : ptr) : M (world U) unit :=
  WduDpc.custom_dpc (T := NotifyData) run_dpc dpc dpc null null.

(** The kernel cancels a request: it takes the routine out and calls it with
    the cancel lock held. *)
Definition cancel_begun (i : IRP) (irql : Z) : IRP :=
  mkIRP (IoStatus_Status i) (IoStatus_Information i) (CurrentLocation i) (StackCount i)
    (CurrentStackLocation i) (SystemBuffer i) (UserBuffer i) (MdlAddress i) (OriginalFileObject i)
    1 irql (RequestorMode i) (DriverContext3 i) None.
Definition kernel_cancel (dev p : ptr) (irql : Z) : M (world U) unit :=
  i ← load (T := IRP) p;
  match CancelRoutine i with
  | None => mret tt
  | Some rtn =>
      store p (cancel_begun i irql) ;;
      if rtn =? rtn_addr then WduIrp.cancel_routine run_cancel dev p else ub (Dangling rtn)
  end.

Definition due_signals r : list signal :=
  match r with
  | ByIrp p _ _ _ _ => [Completed p STATUS_SUCCESS]
  | ByEvent ev _ => [Signalled ev; Dereferenced ev]
  end.

Lemma wp_kernel_dpc d e rs n r rs' s :
  consistent d e rs s -> swap_remove n rs = Some (r, rs') ->
  wp (kernel_dpc (dpc_of (record_of r))) s (fun _ s' =>
    consistent d e rs' s' /\ signals (calls s') = signals (calls s) ++ due_signals r /\
    only_at (touched e ++ footprint r) s s').
Proof.
  intros Hcs Hn. pose proof Hcs as [_ Hp _ _].
  rewrite (swap_remove_perm _ _ _ _ Hn) in Hp. apply Forall_cons in Hp as [[Hz _ Hd _] _].
  pose proof (record_in_footprint r) as [_ Hin]. rewrite Forall_forall in Hz.
  unfold kernel_dpc, WduDpc.custom_dpc. wp_step. eapply wp_load; [by apply Hz|done|]. simpl.
  unfold run_dpc. rewrite Z.eqb_refl.
  destruct r as [p stk c b mj|ev b].
  - eapply wp_mono; [eapply wp_timer_dpc; [done|by eapply consistent_pending]|].
    intros [] s' ([_ Hq _ _ _] & Hs & Hf). eapply (only_at_sub _ (touched e ++ footprint (ByIrp p stk c b mj))) in Hf;
      [|clear; set_solver].
    split; [|done]. eapply consistent_remove; [done..|]. by apply only_at_base.
  - eapply wp_mono; [eapply wp_timer_dpc_event; [done|by eapply consistent_signal]|].
    intros [] s' (Hq & Hs & Hf). eapply (only_at_sub _ (touched e ++ footprint (ByEvent ev b))) in Hf;
      [|clear; set_solver].
    split; [|done]. eapply consistent_remove; [done..|]. by apply only_at_base.
Qed.

(** The kernel changes the request while it is pending. *)
Lemma pending_changed d e q n q' p mj b c (i : IRP) s s' :
  pending_at d e q n q' p mj b c s -> w_mem s' = <[p := inj i]> (w_mem s) -> DriverContext3 i = c ->
  pending_at d e q n q' p mj b c s'.
Proof.
  intros [Hq Hn [Hp _] [Hc0 Hc] [Hb0 (fo & Hb)] [Hd0 Hd] Ha Ho] Hm Hi. pose proof Ha as Ha'. apart Ha'.
  assert (Hf : forall a, a <> p -> w_mem s' !! a = w_mem s !! a) by (intros; rewrite Hm; map_at).
  split; try done.
  - eapply (queued_frame release_build); [|done]. intros a Hin. apply Hf. intros ->.
    revert Hin. rewrite !elem_of_cons, elem_of_nil. naive_solver.
  - split; [done|]. exists i. split; [|done]. rewrite Hm. map_at.
  - by rewrite Hf.
  - split; [done|]. exists fo. by rewrite Hf.
  - by rewrite Hf.
  - eapply others_frame; [|exact Ho]. intros a Hin. apply Hf. intros ->. apply Hin. clear. set_solver.
Qed.

Lemma wp_kernel_cancel dev e rs n p stk c b mj rs' irql s :
  let d := WduDevice.wrap_device dev in
  consistent d e rs s -> swap_remove n rs = Some (ByIrp p stk c b mj, rs') ->
  wp (kernel_cancel dev p irql) s (fun _ s' =>
    consistent d e rs' s' /\
    signals (calls s') = signals (calls s) ++ [TimerCancelled (timer_of b); Completed p STATUS_CANCELLED] /\
    only_at (touched e ++ footprint (ByIrp p stk c b mj)) s s').
Proof.
  intros d Hcs Hn. pose proof (consistent_pending _ _ _ _ _ _ _ _ _ _ _ Hcs Hn) as Hpd.
  pose proof Hcs as [_ Hp Ha _]. rewrite (swap_remove_perm _ _ _ _ Hn) in Hp, Ha.
  apply Forall_cons in Hp as [[Hz _ _ (i & st & Hdp & Hstk & Hci & Hcr & Hmj & Hw)] _].
  rewrite in_use_cons, app_assoc in Ha. apply NoDup_app in Ha as [Ha _]. simpl in Ha. apart Ha.
  simpl in Hz. rewrite !Forall_cons in Hz. destruct Hz as (Hp0 & Hstk0 & Hc0 & _).
  pose proof Hdp as [_ Hm Hcount Hloc _ Hst]. rewrite Hstk in Hst.
  unfold kernel_cancel. wp_step. eapply wp_load; [done..|]. rewrite Hcr, Z.eqb_refl.
  wp_step. eapply wp_store; [done..|]. name_state s1 M1 C1.
  assert (Hpd1 : pending_at d e (record_of <$> rs) n (record_of <$> rs') p mj b c s1)
    by (eapply pending_changed; [done..|by rewrite <- Hci]).
  unfold WduIrp.cancel_routine, WduIrp.from_context, drop_box. cbv zeta.
  wp_step. eapply wp_done.
  { apply (wrap_done p (cancel_begun i irql) st mj s1); [|done].
    split; simpl; try done; rewrite ?Hstk; try done; rewrite M1; map_at. }
  do 2 wp_step. eapply wp_load; [done|rewrite M1; map_at|]. wp_step. simpl. rewrite Hci.
  wp_step. eapply wp_load; [done|rewrite M1; map_at|]. simpl. unfold run_cancel. rewrite Z.eqb_refl.
  do 2 wp_step. eapply wp_mono; [exact (wp_cancel_routine release_build d e _ _ _ mj b c (WduIrp.mk p mj None) s1 Hpd1)|].
  simpl. intros w s2 ([_ Hq _ _ _] & Hs & Hf). wp_step.
  wp_step. eapply wp_box_from_raw; [done| |].
  { rewrite Hf by (rewrite !not_elem_of_cons; split_and!; first [done|apply not_elem_of_nil]). rewrite M1. map_at. }
  wp_step. assert (Hat : only_at (touched e ++ footprint (ByIrp p stk c b mj)) s (set_mem (delete c (w_mem s2)) s2)).
  { intros a Hna. simpl in *. rewrite !not_elem_of_cons in Hna. destruct_and! Hna.
    rewrite lookup_delete_ne by done.
    rewrite Hf by (rewrite !not_elem_of_cons; split_and!; first [done|apply not_elem_of_nil]). rewrite M1. map_at. }
  split; [|split; [by rewrite <- C1|exact Hat]].
  eapply consistent_remove; [done..|apply (queued_frame release_build d e _ s2); [|done]|by apply only_at_base].
  intros a Hin. simpl. rewrite lookup_delete_ne; [done|]. intros <-.
  revert Hin. rewrite !elem_of_cons, elem_of_nil. naive_solver.
Qed.

(** A request as the I/O manager hands it to the driver: at addresses of its
    own, and not cancelled before it is registered. *)
Record arrives (d : WduDevice) (e : ptr) rs (w : WduIrp) (i : IRP) (st : IO_STACK_LOCATION) s : Prop := {
  ar_irp : dispatched (WduIrp.irp w) i st s;
  ar_mj : MajorFunction_ st = major_code (WduIrp.mj w);
  ar_cancel : Cancel i <> 1;
  ar_apart : WduIrp.irp w <> CurrentStackLocation i;
  ar_new : WduIrp.irp w ∉ in_use d e rs /\ CurrentStackLocation i ∉ in_use d e rs
}.

(** What was in memory at other addresses than these is still there. *)
Definition keeps (l : list ptr) s s' : Prop :=
  forall a, is_Some (w_mem s !! a) -> a ∉ l -> w_mem s' !! a = w_mem s !! a.

(** An entry is made of new memory and of the addresses [l]. *)
Definition made_of (l : list ptr) s (x : entry) : Prop :=
  Forall (fun a => w_mem s !! a = None \/ a ∈ l) (footprint x).

Lemma keeps_old l new s s' :
  Forall (fun a => w_mem s !! a = None) new -> (forall a, a ∉ l ++ new -> w_mem s' !! a = w_mem s !! a) -> keeps l s s'.
Proof.
  intros Hn Hf a [x Hx] Ha. apply Hf. intros [?|Hin]%elem_of_app; [done|].
  rewrite Forall_forall in Hn. apply Hn in Hin. congruence.
Qed.

(** No record of the queue is about a new request. *)
Lemma consistent_others_new d e rs p stk s :
  consistent d e rs s -> p ∉ in_use d e rs -> stk ∉ in_use d e rs ->
  others p (base d e ++ [p; stk]) (record_of <$> rs) s.
Proof.
  intros [_ Hp Ha _] Hpn Hsn. apply Forall_fmap, Forall_forall. intros r Hr. unfold compose.
  rewrite Forall_forall in Hp. destruct (Hp r Hr) as [Hz (fo & Hrec) _ _]. rewrite Forall_forall in Hz.
  pose proof (record_in_footprint r) as [Hin _].
  assert (Hall : forall a, a ∈ footprint r -> a ∈ rs ≫= footprint) by (intros; apply list_elem_of_bind; eauto).
  unfold in_use in *. apply NoDup_app in Ha as (_ & Hd & _). rewrite elem_of_app in Hpn, Hsn.
  split; [by apply Hz|]. split.
  - intros [H|H]%elem_of_app; [by eapply Hd, Hall|]. apply Hall in Hin. set_solver.
  - eexists. split; [done|]. destruct r as [p' stk' c b mj|]; [|done]. apply Z.eqb_neq. simpl. intros ->.
    apply Hpn. right. apply Hall. simpl. set_solver.
Qed.

Lemma wp_register_request d e rs (w : WduIrp) reg i st s :
  consistent d e rs s -> arrives d e rs w i st s ->
  wp (irp_notification d w reg) s (fun res s' =>
    res.2 = Ok STATUS_PENDING /\ exists x, client_of x = Request (WduIrp.irp w) /\
      consistent d e (rs ++ [x]) s' /\
      signals (calls s') = signals (calls s) ++ [TimerSet (timer_of (record_of x)) (dpc_of (record_of x))] /\
      keeps (touched e ++ [WduIrp.irp w; CurrentStackLocation i]) s s' /\
      made_of [WduIrp.irp w; CurrentStackLocation i] s x).
Proof.
  intros Hcs [Hdp Hmj Hc Hne [Hpn Hsn]]. pose proof Hcs as [Hq _ Ha _].
  unfold in_use in Ha. apply NoDup_app in Ha as [Ha _].
  pose proof (consistent_others_new _ _ _ _ _ _ Hcs Hpn Hsn) as Ho.
  assert (Hb : forall a, a ∉ in_use d e rs -> a ∉ base d e) by (unfold in_use; clear; set_solver).
  eapply wp_mono; [eapply (wp_irp_notification release_build); [done..| |exact Ho]|].
  { change (NoDup (base d e ++ [WduIrp.irp w; CurrentStackLocation i])). apply NoDup_app.
    split_and!; [done| |by apply NoDup_cons_2; [rewrite list_elem_of_singleton|apply NoDup_singleton]].
    intros a H1 H2. rewrite !elem_of_cons, elem_of_nil in H2. destruct H2 as [-> |[-> |[]]]; [exact (Hb _ Hpn H1)|exact (Hb _ Hsn H1)]. }
  intros res s' (Hr & b & c & Hpd & Hs & Hm & (st' & Hst & Hmj') & Hnew & Hf). split; [done|].
  set (stk := CurrentStackLocation i) in *.
  destruct Hpd as [Hq' _ [Hp0 _] [Hc0 Hcw] [Hb0 Hbr] [Hd0 Hbd] Hap _].
  exists (ByIrp (WduIrp.irp w) stk c b (WduIrp.mj w)). split; [done|]. split; [|split; [done|split]].
  2: { apply (keeps_old _ [c; b; dpc_of b]); [done|]. intros a Hna. apply Hf. contradict Hna.
       unfold touched. simpl in *. revert Hna. clear. set_solver. }
  2: { unfold made_of. simpl. rewrite !Forall_cons in Hnew |- *. destruct Hnew as (? & ? & ? & _).
       split_and!; first [by left|right; by repeat constructor|apply Forall_nil_2]. }
  rewrite !Forall_cons in Hnew. destruct Hnew as (Hcn & Hbn & Hdn & _).
  pose proof Hdp as [_ Hpm Hcount Hloc Hst0 Hstm].
  assert (Hfresh : forall a, w_mem s !! a = None -> a ∉ in_use d e rs /\ a <> stk).
  { intros a Han. split; [|unfold stk; congruence]. intros [y Hy]%(in_use_in_memory _ _ _ s); [congruence|done]. }
  destruct (Hfresh _ Hcn), (Hfresh _ Hbn), (Hfresh _ Hdn).
  apply (consistent_add _ _ _ _ s); try done.
  - by rewrite fmap_app.
  - split; [by repeat constructor|done|done|]. exists (armed i c), st'.
    split_and!; try done. by rewrite <- Hmj, <- Hmj'.
  - simpl. apart Hap. rewrite !NoDup_cons, !not_elem_of_cons.
    split_and!; first [done|apply not_elem_of_nil|apply NoDup_nil_2].
  - intros a Hin. simpl in Hin. rewrite !elem_of_cons, elem_of_nil in Hin. naive_solver.
  - intros a Hna. apply Hf. contradict Hna. unfold base. simpl in *. revert Hna. clear. set_solver.
Qed.

Lemma wp_register_event d e rs (w : WduIrp) reg i st mode s :
  consistent d e rs s -> dispatched (WduIrp.irp w) i st s -> RequestorMode i = ProcessorMode.into_i8 mode ->
  (kresp (event_reference reg mode) s : NTSTATUS * ptr).2 ∉ omap event_of rs ->
  wp (event_notification d w reg) s (fun res s' =>
    res.1 = w /\ keeps (touched e) s s' /\ let '(status, ev) := kresp (event_reference reg mode) s : NTSTATUS * ptr in
    if status =? STATUS_SUCCESS then
      res.2 = Ok STATUS_SUCCESS /\ exists x, client_of x = Listener ev /\
        consistent d e (rs ++ [x]) s' /\
        signals (calls s') = signals (calls s) ++ [TimerSet (timer_of (record_of x)) (dpc_of (record_of x))] /\
        made_of [] s x
    else res.2 = Err (Status status) /\ consistent d e rs s' /\ signals (calls s') = signals (calls s)).
Proof.
  intros Hcs Hdp Hmode Hev. pose proof Hcs as [Hq _ Ha _].
  unfold in_use in Ha. apply NoDup_app in Ha as [Ha _].
  eapply wp_mono; [by eapply (wp_event_notification release_build)|].
  intros res s' [Hw H]. split; [exact Hw|]. revert H. simpl.
  destruct (kresp (event_reference reg mode) s) as [status ev]. simpl in Hev.
  destruct (status =? STATUS_SUCCESS).
  2: { intros (Hr & Hm & Hs). split; [by intros a _ _; rewrite Hm|]. split_and!; [done| |done].
       eapply consistent_frame; [|done]. by intros; rewrite Hm. }
  intros (Hr & b & Hq' & Hb0 & Hd0 & Hne & Hrec & Hdpc & Hs & Hnew & Hf).
  split; [apply (keeps_old _ [b; dpc_of b]); [done|]; intros a Hna; apply Hf; contradict Hna;
          unfold touched; simpl in *; revert Hna; clear; set_solver|]. split; [done|].
  exists (ByEvent ev b). split_and!; [done| |done|].
  2: { unfold made_of. simpl. eapply Forall_impl; [exact Hnew|]. by left. }
  rewrite !Forall_cons in Hnew. destruct Hnew as (Hbn & Hdn & _).
  assert (Hfresh : forall a, w_mem s !! a = None -> a ∉ in_use d e rs).
  { intros a Han [y Hy]%(in_use_in_memory _ _ _ s); [congruence|done]. }
  apply (consistent_add _ _ _ _ s); try done.
  - by rewrite fmap_app.
  - split; [by repeat constructor|done|done|done].
  - simpl. apply NoDup_cons_2; [|apply NoDup_singleton]. rewrite list_elem_of_singleton. congruence.
  - intros a Hin. simpl in Hin. rewrite !elem_of_cons, elem_of_nil in Hin. naive_solver.
  - intros x Hx. by simplify_eq/=.
  - intros a Hna. apply Hf. contradict Hna. unfold base. simpl in *. revert Hna. clear. set_solver.
Qed.

(** *** The system and its steps *)

(** The driver's world; the timers running, each with its DPC; and the
    requests the I/O manager knows to be pending. *)
Record system : Type := mkSystem {
  sy_world : world U;
  sy_timers : list (ptr * ptr);
  sy_pending : list ptr
}.

Definition stop (t : ptr) (ts : list (ptr * ptr)) : list (ptr * ptr) := filter (fun x => x.1 <> t) ts.
Definition timers_after (ts : list (ptr * ptr)) (o : signal) : list (ptr * ptr) :=
  match o with
  | TimerSet t dpc => (t, dpc) :: stop t ts
  | TimerCancelled t => stop t ts
  | _ => ts
  end.
Definition pending_after (ps : list ptr) (o : signal) : list ptr :=
  if o is Completed p _ then filter (fun x => x <> p) ps else ps.

(** The environment sees what a handler did. *)
Definition react (sy : system) (s' : world U) : system :=
  let os := drop (length (signals (calls (sy_world sy)))) (signals (calls s')) in
  mkSystem s' (fold_left timers_after os (sy_timers sy)) (fold_left pending_after os (sy_pending sy)).

(** The answer of a dispatch routine, and a timer that is due. *)
Definition returned (p : ptr) (res : result NTSTATUS EventError) (sy : system) : system :=
  match res with
  | Ok status => if status =? STATUS_PENDING
                 then mkSystem (sy_world sy) (sy_timers sy) (p :: sy_pending sy) else sy
  | Err _ => sy
  end.
Definition expire (t : ptr) (sy : system) : system :=
  mkSystem (sy_world sy) (stop t (sy_timers sy)) (sy_pending sy).

Definition waiting (e : ptr) (sy : system) : list entry := entries e (sy_world sy).

(** One handler runs at a time, to its end.  A timer is among those of the
    system until its DPC runs, which may be at any time after it is due, with
    other steps in between.  The following is left out, and breaks the driver:
    a second wait for an event somebody waits for already
    ([event_same_object_confused]); the cancellation of a request whose timer's
    DPC is queued already ([event_cancel_frees_queued_dpc]: here
    [KeCancelTimer] always comes in time); a cancellation before a registration
    or in the middle of one ([Event.event_cancel_before_queued_panics]); the cleanup of a
    handle while somebody waits ([Event.event_cleanup_abandons_request],
    [EventLife.event_cleanup_drops_listeners]). *)
Inductive step (dev e : ptr) : system -> system -> Prop :=
| step_request w reg i st sy res s' :
    arrives (WduDevice.wrap_device dev) e (waiting e sy) w i st (sy_world sy) ->
    irp_notification (WduDevice.wrap_device dev) w reg (sy_world sy) = Done res s' ->
    step dev e sy (returned (WduIrp.irp w) res.2 (react sy s'))
| step_event w reg i st mode sy res s' :
    dispatched (WduIrp.irp w) i st (sy_world sy) -> RequestorMode i = ProcessorMode.into_i8 mode ->
    (kresp (event_reference reg mode) (sy_world sy) : NTSTATUS * ptr).2 ∉ omap event_of (waiting e sy) ->
    event_notification (WduDevice.wrap_device dev) w reg (sy_world sy) = Done res s' ->
    step dev e sy (returned (WduIrp.irp w) res.2 (react sy s'))
| step_timer t dpc sy s' :
    (t, dpc) ∈ sy_timers sy -> kernel_dpc dpc (sy_world sy) = Done tt s' ->
    step dev e sy (react (expire t sy) s')
| step_cancel p irql sy s' :
    p ∈ sy_pending sy -> kernel_cancel dev p irql (sy_world sy) = Done tt s' ->
    step dev e sy (react sy s')
| step_other s' sy :
    (forall a, a ∈ in_use (WduDevice.wrap_device dev) e (waiting e sy) ->
       w_mem s' !! a = w_mem (sy_world sy) !! a) ->
    calls s' = calls (sy_world sy) ->
    step dev e sy (mkSystem s' (sy_timers sy) (sy_pending sy)).

(** *** The specification

    Clients wait; each is answered once, by its time or by cancellation. *)

Definition board : Type := list client * list signal.

Definition answer (c : client) : list signal :=
  match c with
  | Request p => [Completed p STATUS_SUCCESS]
  | Listener ev => [Signalled ev; Dereferenced ev]
  end.

Inductive spec : board -> board -> Prop :=
| spec_register c cs log : spec (cs, log) (cs ++ [c], log)
| spec_due c cs cs' log : cs ≡ₚ c :: cs' -> spec (cs, log) (cs', log ++ answer c)
| spec_cancel p cs cs' log :
    cs ≡ₚ Request p :: cs' -> spec (cs, log) (cs', log ++ [Completed p STATUS_CANCELLED]).

(** What the clients are told, timers left out. *)
Definition told (os : list signal) : list signal :=
  omap (fun o => match o with TimerSet _ _ | TimerCancelled _ => None | _ => Some o end) os.

Definition board_of (e : ptr) (sy : system) : board :=
  (client_of <$> waiting e sy, told (signals (calls (sy_world sy)))).

(** The invariant of the system: besides the driver's, the timers that run are
    the ones of the records, and the requests pending are the ones in the
    queue. *)
Record sound (dev e : ptr) (rs : list entry) (sy : system) : Prop := {
  so_driver : consistent (WduDevice.wrap_device dev) e rs (sy_world sy);
  so_timers : sy_timers sy ≡ₚ timer_pair <$> rs;
  so_pending : sy_pending sy ≡ₚ omap request_of rs
}.

Definition starts (dev e : ptr) (sy : system) : Prop := sound dev e [] sy.

(** *** Laws of the system *)

Lemma react_signals sy s' os :
  signals (calls s') = signals (calls (sy_world sy)) ++ os ->
  react sy s' = mkSystem s' (fold_left timers_after os (sy_timers sy)) (fold_left pending_after os (sy_pending sy)).
Proof. intros Hs. unfold react. by rewrite Hs, drop_app_length. Qed.

Lemma consistent_record_inj d e rs s r r' :
  consistent d e rs s -> r ∈ rs -> r' ∈ rs -> record_of r = record_of r' -> r = r'.
Proof.
  intros [_ _ Ha _] Hr Hr' E. apply list_elem_of_split in Hr as (l1 & l2 & ->).
  rewrite elem_of_app, elem_of_cons in Hr'. apply dec_stable. intros Hne.
  assert (Hr2 : r' ∈ l1 ++ l2) by (rewrite elem_of_app; naive_solver).
  rewrite <- Permutation_middle in Ha. destruct (in_use_apart _ _ _ _ _ Ha Hr2) as [Hnd _].
  apply NoDup_app in Hnd as (_ & Hd & _). eapply (Hd (record_of r)); [|rewrite E]; apply record_in_footprint.
Qed.

#[local] Instance stop_perm t : Proper ((≡ₚ) ==> (≡ₚ)) (stop t).
Proof. unfold stop. solve_proper. Qed.

(** An entry leaves, and its timer stops; a timer is set for a new one. *)
Lemma stop_entry d e rs n r rs' s ts :
  consistent d e rs s -> swap_remove n rs = Some (r, rs') -> ts ≡ₚ timer_pair <$> rs ->
  stop (timer_of (record_of r)) ts ≡ₚ timer_pair <$> rs'.
Proof.
  intros Hcs Hn ->. pose proof (swap_remove_perm _ _ _ _ Hn) as Hperm.
  rewrite Hperm. unfold stop. rewrite  fmap_cons, filter_cons_False by (simpl; tauto). rewrite filter_all; [done|].
  apply Forall_fmap, Forall_forall. intros r' Hr' E. unfold timer_pair, timer_of in E. simpl in E.
  assert (r' = r) as ->.
  { eapply consistent_record_inj; [done|rewrite Hperm; by right|rewrite Hperm; by left|lia]. }
  destruct Hcs as [_ _ Ha _]. rewrite Hperm in Ha. destruct (in_use_apart _ _ _ _ _ Ha Hr') as [Hnd _].
  apply NoDup_app in Hnd as (_ & Hd & _). eapply (Hd (record_of r)); apply record_in_footprint.
Qed.

Lemma stop_new d e rs x s ts :
  consistent d e (rs ++ [x]) s -> ts ≡ₚ timer_pair <$> rs ->
  timers_after ts (TimerSet (timer_of (record_of x)) (dpc_of (record_of x))) ≡ₚ timer_pair <$> rs ++ [x].
Proof.
  intros Hcs Hts. simpl. rewrite fmap_app. simpl. rewrite (Permutation_app_comm _ [_]). simpl. f_equiv.
  assert (Hn : swap_remove (length rs) (rs ++ [x]) = Some (x, rs)) by apply swap_remove_last.
  pose proof (stop_entry _ _ _ _ _ _ _ ((timer_of (record_of x), dpc_of (record_of x)) :: ts) Hcs Hn) as H.
  unfold stop in *. rewrite filter_cons_False in H by (simpl; tauto). apply H.
  rewrite fmap_app, Hts. simpl. by rewrite (Permutation_app_comm _ [_]).
Qed.

(** A request that leaves is not pending any more. *)
Lemma request_gone d e rs n p stk c b mj rs' s ps :
  consistent d e rs s -> swap_remove n rs = Some (ByIrp p stk c b mj, rs') -> ps ≡ₚ omap request_of rs ->
  filter (fun x => x <> p) ps ≡ₚ omap request_of rs'.
Proof.
  intros Hcs Hn ->. pose proof (swap_remove_perm _ _ _ _ Hn) as Hperm. rewrite Hperm. simpl.
  rewrite filter_cons_False by tauto. rewrite filter_all; [done|].
  apply Forall_forall. intros x Hx ->. apply list_elem_of_omap in Hx as (r' & Hr' & Hx).
  destruct r' as [p' stk' c' b' mj'|]; simplify_eq/=.
  destruct Hcs as [_ _ Ha _]. rewrite Hperm in Ha. destruct (in_use_apart _ _ _ _ _ Ha Hr') as [Hnd _].
  apply NoDup_app in Hnd as (_ & Hd & _). eapply (Hd p); simpl; apply elem_of_cons; by left.
Qed.

Lemma sound_waiting dev e rs sy : sound dev e rs sy -> waiting e sy = rs.
Proof. intros [Hcs _ _]. by eapply consistent_entries. Qed.

(** What is in the timers or pending is in the queue. *)
Lemma timer_entry dev e rs sy t dpc :
  sound dev e rs sy -> (t, dpc) ∈ sy_timers sy ->
  exists n r rs', swap_remove n rs = Some (r, rs') /\ t = timer_of (record_of r) /\ dpc = dpc_of (record_of r).
Proof.
  intros [_ Ht _] Hin. rewrite Ht in Hin. apply list_elem_of_fmap in Hin as (r & E & Hr).
  apply swap_remove_elem in Hr as (n & rs' & Hn). exists n, r, rs'. by injection E.
Qed.

Lemma pending_entry dev e rs sy p :
  sound dev e rs sy -> p ∈ sy_pending sy ->
  exists n stk c b mj rs', swap_remove n rs = Some (ByIrp p stk c b mj, rs').
Proof.
  intros [_ _ Hp] Hin. rewrite Hp in Hin. apply list_elem_of_omap in Hin as (r & Hr & E).
  destruct r as [p' stk c b mj|]; simplify_eq/=. apply swap_remove_elem in Hr as (n & rs' & Hn).
  by exists n, stk, c, b, mj, rs'.
Qed.

(** *** Every step *)

(** A registration. *)
Lemma sound_added dev e rs sy x s' :
  sound dev e rs sy -> consistent (WduDevice.wrap_device dev) e (rs ++ [x]) s' ->
  signals (calls s') = signals (calls (sy_world sy)) ++ [TimerSet (timer_of (record_of x)) (dpc_of (record_of x))] ->
  sound dev e (rs ++ [x])
    (if request_of x is Some p then returned p (Ok STATUS_PENDING) (react sy s') else react sy s') /\
  spec (board_of e sy) (client_of <$> rs ++ [x], told (signals (calls s'))).
Proof.
  intros Hso Hcs Hs. pose proof Hso as [_ Ht Hp]. pose proof (stop_new _ _ _ _ _ _ Hcs Ht) as Ht'.
  rewrite (react_signals _ _ _ Hs). split.
  - destruct x as [p stk c b mj|ev b]; simpl in *; split; try done; simpl; rewrite omap_app; simpl;
      [|by rewrite app_nil_r]. rewrite (Permutation_app_comm _ [_]). simpl. by f_equiv.
  - unfold board_of. rewrite (sound_waiting _ _ _ _ Hso), Hs, fmap_app. unfold told at 2. rewrite omap_app. simpl.
    rewrite app_nil_r. apply spec_register.
Qed.

(** A timer that is due. *)
Lemma sound_due dev e rs sy n r rs' s' :
  sound dev e rs sy -> swap_remove n rs = Some (r, rs') ->
  consistent (WduDevice.wrap_device dev) e rs' s' ->
  signals (calls s') = signals (calls (sy_world sy)) ++ due_signals r ->
  sound dev e rs' (react (expire (timer_of (record_of r)) sy) s') /\
  spec (board_of e sy) (client_of <$> rs', told (signals (calls s'))).
Proof.
  intros Hso Hn Hcs Hs. pose proof Hso as [Hcs0 Ht Hp]. pose proof (stop_entry _ _ _ _ _ _ _ _ Hcs0 Hn Ht) as Ht'.
  rewrite (react_signals (expire _ sy) s' (due_signals r) Hs). split.
  - destruct r as [p stk c b mj|ev b]; split; try done; simpl.
    + by eapply request_gone.
    + rewrite Hp, (swap_remove_perm _ _ _ _ Hn). done.
  - unfold board_of. rewrite (sound_waiting _ _ _ _ Hso), Hs. unfold told at 2. rewrite omap_app.
    change (omap _ (due_signals r)) with (told (due_signals r)).
    replace (told (due_signals r)) with (answer (client_of r)) by by destruct r.
    apply spec_due. rewrite (swap_remove_perm _ _ _ _ Hn). done.
Qed.

(** A request that is cancelled. *)
Lemma sound_cancelled dev e rs sy n p stk c b mj rs' s' :
  sound dev e rs sy -> swap_remove n rs = Some (ByIrp p stk c b mj, rs') ->
  consistent (WduDevice.wrap_device dev) e rs' s' ->
  signals (calls s') =
    signals (calls (sy_world sy)) ++ [TimerCancelled (timer_of b); Completed p STATUS_CANCELLED] ->
  sound dev e rs' (react sy s') /\
  spec (board_of e sy) (client_of <$> rs', told (signals (calls s'))).
Proof.
  intros Hso Hn Hcs Hs. pose proof Hso as [Hcs0 Ht Hp]. rewrite (react_signals sy s' _ Hs). split.
  - split; [done|simpl..]; [|by eapply request_gone].
    by apply (stop_entry _ _ _ _ _ _ _ _ Hcs0 Hn Ht).
  - unfold board_of. rewrite (sound_waiting _ _ _ _ Hso), Hs. unfold told at 2. rewrite omap_app.
    apply spec_cancel. rewrite (swap_remove_perm _ _ _ _ Hn). done.
Qed.

Lemma board_after dev e rs sy : sound dev e rs sy ->
  board_of e sy = (client_of <$> rs, told (signals (calls (sy_world sy)))).
Proof. intros H. unfold board_of. by rewrite (sound_waiting _ _ _ _ H). Qed.

Lemma sy_world_returned p res sy s' : sy_world (returned p res (react sy s')) = s'.
Proof. destruct res as [status|]; [|done]. simpl. by destruct (status =? STATUS_PENDING). Qed.

(** Every step keeps the invariant and is one of the specification, or none. *)
Lemma step_sound dev e rs sy sy' :
  sound dev e rs sy -> step dev e sy sy' ->
  exists rs', sound dev e rs' sy' /\ rtc spec (board_of e sy) (board_of e sy').
Proof.
  intros Hso Hst. pose proof Hso as [Hcs Ht Hp]. pose proof (sound_waiting _ _ _ _ Hso) as Hw.
  assert (Hone : forall rs' sy', sound dev e rs' sy' /\
    spec (board_of e sy) (client_of <$> rs', told (signals (calls (sy_world sy')))) ->
    exists rs', sound dev e rs' sy' /\ rtc spec (board_of e sy) (board_of e sy')).
  { intros rs' sy1 [H1 H2]. exists rs'. split; [done|]. rewrite (board_after _ _ _ _ H1). by apply rtc_once. }
  destruct Hst as [w reg i st sy res s' Harr E|w reg i st mode sy res s' Hdp Hmode Hev E|t dpc sy s' Hin E
    |p irql sy s' Hin E|s' sy Hf Hc]; try rewrite Hw in *.
  - pose proof (wp_result _ _ _ _ _ (wp_register_request _ _ _ _ reg _ _ _ Hcs Harr) E) as (Hr & x & Hx & Hcs' & Hs & _).
    apply (Hone (rs ++ [x])). rewrite sy_world_returned, Hr.
    pose proof (sound_added _ _ _ _ _ _ Hso Hcs' Hs) as H. destruct x; simplify_eq/=. exact H.
  - pose proof (wp_result _ _ _ _ _ (wp_register_event _ _ _ _ reg _ _ _ _ Hcs Hdp Hmode Hev) E) as (_ & _ & H).
    simpl in H. destruct (kresp (event_reference reg mode) (sy_world sy)) as [status ev].
    destruct (status =? STATUS_SUCCESS).
    + destruct H as (Hr & x & Hx & Hcs' & Hs & _). apply (Hone (rs ++ [x])).
      pose proof (sound_added _ _ _ _ _ _ Hso Hcs' Hs) as H. rewrite Hr. destruct x; simplify_eq/=. exact H.
    + destruct H as (Hr & Hcs' & Hs). rewrite Hr. exists rs.
      assert (Hso' : sound dev e rs (returned (WduIrp.irp w) (Err (Status status)) (react sy s'))).
      { rewrite (react_signals _ _ []) by by rewrite app_nil_r. by split. }
      split; [done|]. rewrite (board_after _ _ _ _ Hso'), (board_after _ _ _ _ Hso). simpl. by rewrite Hs.
  - destruct (timer_entry _ _ _ _ _ _ Hso Hin) as (n & r & rs' & Hn & -> & ->).
    pose proof (wp_result _ _ _ _ _ (wp_kernel_dpc _ _ _ _ _ _ _ Hcs Hn) E) as (Hcs' & Hs & _).
    apply (Hone rs'). by eapply sound_due.
  - destruct (pending_entry _ _ _ _ _ Hso Hin) as (n & stk & c & b & mj & rs' & Hn).
    pose proof (wp_result _ _ _ _ _ (wp_kernel_cancel _ _ _ _ _ _ _ _ _ _ irql _ Hcs Hn) E) as (Hcs' & Hs & _).
    apply (Hone rs'). by eapply sound_cancelled.
  - exists rs. assert (Hso' : sound dev e rs (mkSystem s' (sy_timers sy) (sy_pending sy))).
    { split; [|done..]. by eapply consistent_frame. }
    split; [done|]. rewrite (board_after _ _ _ _ Hso'), (board_after _ _ _ _ Hso). simpl. by rewrite Hc.
Qed.

Lemma steps_sound dev e rs sy sy' :
  sound dev e rs sy -> rtc (step dev e) sy sy' ->
  exists rs', sound dev e rs' sy' /\ rtc spec (board_of e sy) (board_of e sy').
Proof.
  intros Hso Hr. revert rs Hso. induction Hr as [sy|sy sy1 sy' Hst _ IH]; intros rs Hso.
  - exists rs. split; [done|apply rtc_refl].
  - destruct (step_sound _ _ _ _ _ Hso Hst) as (rs1 & Hso1 & H1).
    destruct (IH _ Hso1) as (rs' & Hso' & H2). exists rs'. split; [done|by etrans].
Qed.

(** *** Properties of the system *)


(** C12: in every state the handlers get to in the orders [step] allows - one
    handler at a time, no event registered that somebody waits for already, no
    request cancelled before it is registered or when its timer's DPC is queued
    already, no handle cleaned up - and in a build without debug assertions: the timers that run
    are the ones of the records in the queue, the requests that are pending are
    the ones that wait in it, no address is used twice, and everything the
    queue leads to is in memory. *)
Theorem event_system_invariant dev e sy sy' :
  starts dev e sy -> rtc (step dev e) sy sy' -> sound dev e (waiting e sy') sy'.
Proof.
  intros Hso Hr. destruct (steps_sound _ _ _ _ _ Hso Hr) as (rs' & H & _).
  by rewrite (sound_waiting _ _ _ _ H).
Qed.

(** C23: in every state the handlers get to in the orders [step] allows (see
    there for what it leaves out), and in a build without debug assertions, the
    next handler can neither fault nor panic: a timer's DPC answers one client;
    a pending request that is cancelled while its timer runs is completed with
    [STATUS_CANCELLED]; a new request is left pending; and an event that nobody
    waits for yet can be registered. *)
Theorem event_system_safe dev e sy sy' :
  starts dev e sy -> rtc (step dev e) sy sy' ->
  (forall t dpc, (t, dpc) ∈ sy_timers sy' ->
     exists s' c, kernel_dpc dpc (sy_world sy') = Done tt s' /\ c ∈ client_of <$> waiting e sy' /\
       signals (calls s') = signals (calls (sy_world sy')) ++ answer c) /\
  (forall p irql, p ∈ sy_pending sy' ->
     exists s' t, kernel_cancel dev p irql (sy_world sy') = Done tt s' /\
       signals (calls s') = signals (calls (sy_world sy')) ++ [TimerCancelled t; Completed p STATUS_CANCELLED]) /\
  (forall w reg i st, arrives (WduDevice.wrap_device dev) e (waiting e sy') w i st (sy_world sy') ->
     exists res s', irp_notification (WduDevice.wrap_device dev) w reg (sy_world sy') = Done res s' /\
       res.2 = Ok STATUS_PENDING) /\
  (forall w reg i st mode, dispatched (WduIrp.irp w) i st (sy_world sy') ->
     RequestorMode i = ProcessorMode.into_i8 mode ->
     (kresp (event_reference reg mode) (sy_world sy') : NTSTATUS * ptr).2 ∉ omap event_of (waiting e sy') ->
     exists res s', event_notification (WduDevice.wrap_device dev) w reg (sy_world sy') = Done res s').
Proof.
  intros Hso Hr. destruct (steps_sound _ _ _ _ _ Hso Hr) as (rs & Hso' & _).
  rewrite (sound_waiting _ _ _ _ Hso'). pose proof Hso' as [Hcs _ _]. split_and!.
  - intros t dpc Hin. destruct (timer_entry _ _ _ _ _ _ Hso' Hin) as (n & r & rs' & Hn & -> & ->).
    destruct (wp_elim _ _ _ (wp_kernel_dpc _ _ _ _ _ _ _ Hcs Hn)) as ([] & s' & E & _ & Hs & _).
    exists s', (client_of r). split; [done|]. split; [|by destruct r].
    apply list_elem_of_fmap_2. rewrite (swap_remove_perm _ _ _ _ Hn). by left.
  - intros p irql Hin. destruct (pending_entry _ _ _ _ _ Hso' Hin) as (n & stk & c & b & mj & rs' & Hn).
    destruct (wp_elim _ _ _ (wp_kernel_cancel _ _ _ _ _ _ _ _ _ _ irql _ Hcs Hn)) as ([] & s' & E & _ & Hs & _).
    by exists s', (timer_of b).
  - intros w reg i st Harr.
    destruct (wp_elim _ _ _ (wp_register_request _ _ _ _ reg _ _ _ Hcs Harr)) as (res & s' & E & H & _).
    by exists res, s'.
  - intros w reg i st mode Hdp Hmode Hev.
    destruct (wp_elim _ _ _ (wp_register_event _ _ _ _ reg _ _ _ _ Hcs Hdp Hmode Hev)) as (res & s' & E & _).
    by exists res, s'.
Qed.

(** The timers' being due answers the clients one by one. *)
Lemma sound_drains dev e rs sy : sound dev e rs sy ->
  exists sy', rtc (step dev e) sy sy' /\ sound dev e [] sy'.
Proof.
  remember (length rs) as m eqn:Hm. revert rs sy Hm. induction m as [|m IH]; intros rs sy Hm Hso.
  - destruct rs; [|done]. exists sy. split; [apply rtc_refl|done].
  - destruct rs as [|r rs0]; [done|]. destruct (swap_remove_elem r (r :: rs0)) as (n & rs' & Hn); [by left|].
    pose proof Hso as [Hcs Ht _].
    destruct (wp_elim _ _ _ (wp_kernel_dpc _ _ _ _ _ _ _ Hcs Hn)) as ([] & s' & E & Hcs' & Hs & _).
    destruct (sound_due _ _ _ _ _ _ _ _ Hso Hn Hcs' Hs) as [Hso' _].
    assert (Hlen : m = length rs') by (apply swap_remove_perm, Permutation_length in Hn; simpl in *; lia).
    destruct (IH rs' _ Hlen Hso') as (sy'' & Hr & H).
    exists sy''. split; [|done]. eapply rtc_l; [|exact Hr].
    apply (step_timer dev e (timer_of (record_of r)) (dpc_of (record_of r))); [|done].
    rewrite Ht. by left.
Qed.

Lemma sound_idle dev e sy : sound dev e [] sy -> waiting e sy = [] /\ sy_timers sy = [] /\ sy_pending sy = [].
Proof.
  intros Hso. pose proof Hso as [_ Ht Hp].
  split_and!; [by eapply sound_waiting|by apply Permutation_nil_r|by apply Permutation_nil_r].
Qed.

(** From every state the driver gets into, the timers' being due answers
    every client: then nothing waits, no timer runs and no request is
    pending. *)
Theorem event_system_drains dev e sy sy' :
  starts dev e sy -> rtc (step dev e) sy sy' ->
  exists sy'', rtc (step dev e) sy' sy'' /\ waiting e sy'' = [] /\ sy_timers sy'' = [] /\ sy_pending sy'' = [].
Proof.
  intros Hso Hr. destruct (steps_sound _ _ _ _ _ Hso Hr) as (rs & Hso' & _).
  destruct (sound_drains _ _ _ _ Hso') as (sy'' & Hr' & H). exists sy''. split; [done|by apply (sound_idle dev)].
Qed.

(** *** Where the environment is not so kind *)

(** C32: two registrations with one event: the DPC of the second finds the
    record of the first, which is removed and freed, though its timer still
    runs; when that is due, its DPC is no longer there. *)
Theorem event_same_object_confused d e ev b1 b2 fo1 fo2 s :
  queued d e [b1; b2] s ->
  w_mem s !! b1 = Some (inj (mkNotifyRecord fo1 (event_data e ev))) ->
  w_mem s !! b2 = Some (inj (mkNotifyRecord fo2 (event_data e ev))) ->
  (forall b, b = b1 \/ b = b2 -> w_mem s !! dpc_of b =
     Some (inj (WduDpc.mk (Some (event_data e ev)) (Some (code_addr "event::timer_dpc"))))) ->
  Forall (fun a => a <> 0) [b1; dpc_of b1; b2; dpc_of b2] ->
  NoDup [WduDevice.device d; e; queue_lock e; b1; dpc_of b1] ->
  wp (kernel_dpc (dpc_of b2)) s (fun _ s' =>
    queued d e [b2] s' /\
    signals (calls s') = signals (calls s) ++ [Signalled ev; Dereferenced ev] /\
    kernel_dpc (dpc_of b1) s' = Ub (Dangling (dpc_of b1)) s').
Proof.
  intros Hq H1 H2 Hd Hz Ha. rewrite !Forall_cons in Hz. destruct Hz as (Hz1 & Hzd1 & Hz2 & Hzd2 & _).
  unfold kernel_dpc at 1. unfold WduDpc.custom_dpc. wp_step. eapply wp_load; [done|by apply Hd; right|]. simpl.
  unfold run_dpc. rewrite Z.eqb_refl.
  eapply wp_mono; [eapply (wp_signal release_build _ _ d e [b1; b2] 0 [b2] ev b1); try done; try by eexists; eauto|].
  - apply Hd. by right.
  - intros s1 M1. simpl. erewrite bind_done.
    2: { erewrite bind_done by (apply load_at; [done|by rewrite M1]). unfold NotifyData_eq. simpl. by rewrite Z.eqb_refl. }
    done.
  - intros [] s' (Hq' & Hs & Hn & _). split_and!; [done..|].
    unfold kernel_dpc, WduDpc.custom_dpc. by apply bind_ub, load_dangling.
Qed.

(** C33: [cancel_routine] does not look at whether the timer was still there to
    be cancelled: when it was due already, and its DPC only waits for a
    processor, the record is freed all the same, and the DPC with it. *)
Theorem event_cancel_frees_queued_dpc d e q p mj b c w s :
  pending d e q p mj b c s -> WduIrp.irp w = p ->
  wp (cancel_routine d w) s (fun _ s' =>
    signals (calls s') = signals (calls s) ++ [TimerCancelled (timer_of b); Completed p STATUS_CANCELLED] /\
    kernel_dpc (dpc_of b) s' = Ub (Dangling (dpc_of b)) s').
Proof.
  intros Hpd <-. pose proof Hpd as [_ _ _ _ _ [Hd0 _] _ _].
  eapply wp_mono; [by eapply (wp_cancel_routine release_build)|].
  intros w' s' ([_ _ _ _ Hd] & Hs & _). split; [done|]. unfold kernel_dpc, WduDpc.custom_dpc.
  by apply bind_ub, load_dangling.
Qed.
End system.

(** ** Instances *)

#[local] Existing Instance EventDemo.build.
#[local] Existing Instance EventDemo.statics.
#[local] Existing Instance EventDemo.linked.
#[local] Existing Instance EventDemo.layout.
#[local] Existing Instance EventDemo.kernel.

Module SystemDemo.
Definition memory (queue : list ptr) : gmap ptr EventDemo.cells :=
  <[0xA18 := inj (mkDeviceExtension queue)]> EventDemo.shared.
(** Nothing has happened yet; a request is registered. *)
Definition idle : system := mkSystem (World tt [] (memory [])) [] [].
Definition registered : system :=
  match irp_notification (WduDevice.wrap_device 0x900) EventDemo.request (mkRegisterEvent 0 0 (-50))
          (sy_world idle) with
  | Done res s' => returned 0x100 res.2 (react idle s')
  | _ => idle
  end.

(** Two registrations with the event at 0x600. *)
Definition listener : NotifyRecord := mkNotifyRecord (WduFileObject.wrap 0x400) (event_data 0xA18 0x600).
Definition listening : WduDpc NotifyData := WduDpc.mk (Some (event_data 0xA18 0x600)) (Some 0x7000).
Definition twice : world EventDemo.cells :=
  World tt [] (<[0x500 := inj listener]> (<[0x508 := inj listening]> (<[0x580 := inj listener]>
    (<[0x588 := inj listening]> (memory [0x500; 0x580]))))).
End SystemDemo.

Lemma demo_starts : starts 0x900 0xA18 SystemDemo.idle.
Proof.
  split; [|done..]. split; [|constructor|concrete|constructor].
  split; [concrete|exists EventDemo.object; split; concrete|concrete..|]. exists WduSpinLock.new. concrete.
Qed.

Lemma demo_arrives :
  arrives (WduDevice.wrap_device 0x900) 0xA18 [] EventDemo.request IrpDemo.irp IrpDemo.stack
    (sy_world SystemDemo.idle).
Proof.
  split; [split; first [concrete | simpl; lia]|concrete|discriminate|discriminate|split; concrete].
Qed.

Lemma demo_registered : rtc (step 0x900 0xA18) SystemDemo.idle SystemDemo.registered.
Proof.
  pose proof demo_starts as Hso. pose proof Hso as [Hcs _ _].
  destruct (wp_elim _ _ _ (wp_register_request (B := EventDemo.build) eq_refl _ _ _ _ (mkRegisterEvent 0 0 (-50)) _ _ _ Hcs demo_arrives))
    as (res & s' & E & _).
  unfold SystemDemo.registered. rewrite E. apply rtc_once. apply (step_request _ _ EventDemo.request (mkRegisterEvent 0 0 (-50)) IrpDemo.irp IrpDemo.stack); [|exact E].
  rewrite (sound_waiting _ _ _ _ Hso). exact demo_arrives.
Qed.


Lemma event_system_invariant_witness :
  sound 0x900 0xA18 (waiting 0xA18 SystemDemo.registered) SystemDemo.registered /\
  sy_pending SystemDemo.registered = [0x100].
Proof.
  split; [|vm_compute; reflexivity].
  exact (event_system_invariant eq_refl 0x900 0xA18 SystemDemo.idle SystemDemo.registered demo_starts demo_registered).
Defined.

(** The request can be cancelled. *)
Lemma event_system_safe_witness :
  exists s' t, kernel_cancel 0x900 0x100 0 (sy_world SystemDemo.registered) = Done tt s' /\
    signals (calls s') = signals (calls (sy_world SystemDemo.registered)) ++
      [TimerCancelled t; Completed 0x100 STATUS_CANCELLED].
Proof.
  destruct (event_system_safe eq_refl 0x900 0xA18 SystemDemo.idle SystemDemo.registered demo_starts demo_registered)
    as (_ & H & _).
  apply H. assert (sy_pending SystemDemo.registered = [0x100]) as -> by (vm_compute; reflexivity). left.
Defined.

Lemma event_system_drains_witness :
  exists sy, rtc (step 0x900 0xA18) SystemDemo.registered sy /\ waiting 0xA18 sy = [] /\ sy_pending sy = [].
Proof.
  destruct (event_system_drains eq_refl 0x900 0xA18 SystemDemo.idle SystemDemo.registered demo_starts demo_registered)
    as (sy & Hr & Hw & _ & Hp).
  exists sy. split; [exact Hr|split; [exact Hw|exact Hp]].
Defined.

Lemma event_same_object_confused_witness :
  wp (kernel_dpc 0x588) SystemDemo.twice (fun _ s' =>
    queued (WduDevice.wrap_device 0x900) 0xA18 [0x580] s' /\ kernel_dpc 0x508 s' = Ub (Dangling 0x508) s').
Proof.
  eapply wp_mono.
  - refine (event_same_object_confused eq_refl (WduDevice.wrap_device 0x900) 0xA18 0x600 0x500 0x580
      (WduFileObject.wrap 0x400) (WduFileObject.wrap 0x400) SystemDemo.twice _ _ _ _ _ _); [|concrete..| | |].
    + split; [concrete|exists EventDemo.object; split; concrete|concrete..|]. exists WduSpinLock.new. concrete.
    + intros b [-> | ->]; concrete.
    + repeat (constructor; [discriminate|]). constructor.
    + concrete.
  - intros [] s' (H1 & _ & H2). split; [exact H1|exact H2].
Defined.

Lemma event_cancel_frees_queued_dpc_witness :
  wp (cancel_routine EventDemo.device EventDemo.request) EventDemo.waiting (fun _ s' =>
    kernel_dpc 0x508 s' = Ub (Dangling 0x508) s').
Proof.
  eapply wp_mono.
  - exact (event_cancel_frees_queued_dpc eq_refl EventDemo.device 0xA18 [] 0x100 MajorFunction.DeviceControl
      0x500 0x640 EventDemo.request EventDemo.waiting demo_pending eq_refl).
  - intros w s' (_ & H). exact H.
Defined.
