(* ===== verification/EventLife.v ===== *)
(** * EventLife: the event driver from its entry point to its unload routine

    What [init] leaves is where the system of [EventSystem] starts, and the
    unload routine is the end of it.  Then the cleanup of a handle, which that
    system leaves out, on a queue of clients that wait for events. *)

From stdpp Require Import relations.
From S2P Require Import Prelude Nt World UnicodeStr Crate Pool FileObj Device Irp DeviceControl Driver SpinLock Sync Process Event EventSystem.
Import WduUnicodeStr (WduUnicodeStr).
Import WduDevice (WduDevice).
Import WduFileObject (WduFileObject).
Import WduIrp (WduIrp).
Import WduEvent (WduEvent).
Import WduSpinLock (WduSpinLock).
Import WduRemoveLock (WduRemoveLock).
Import WduDpc (WduDpc).

(** ** Cleaning a handle up *)

(** A client that waits for its event: its record, and the handle it was
    registered through. *)
Record listener : Type := mkListener { l_record : ptr; l_file : WduFileObject; l_event : ptr }.

Section cleanup.
Context {KN : Kernel} {B : Build} {LK : Linked} {NS : NtStatics} {EL : EventLayout} {U : Type}.
Context `{!Storable U DRIVER_OBJECT, !Storable U DRIVER_EXTENSION, !Storable U DEVICE_OBJECT}.
Context `{!Storable U WduDevice, !Storable U WduDriver}.
Context `{!Storable U IRP, !Storable U IO_STACK_LOCATION, !Storable U WduIrp, !Storable U FILE_OBJECT}.
Context `{!Storable U WduSpinLock, !Storable U WduRemoveLock, !Storable U RegisterEvent}.
Context `{!Storable U DeviceExtension, !Storable U NotifyRecord, !Storable U (WduDpc NotifyData)}.
Context (release_build : debug_assertions = false).
Implicit Types (s : world U) (l : listener) (ls : list listener).

Definition cells_of l : list ptr := [l_record l; dpc_of (l_record l)].

Record stored (e : ptr) s l : Prop := {
  sd_addrs : Forall (fun a => a <> 0) (cells_of l);
  sd_record : w_mem s !! l_record l = Some (inj (mkNotifyRecord (l_file l) (event_data e (l_event l))));
  sd_dpc : w_mem s !! dpc_of (l_record l) =
    Some (inj (WduDpc.mk (Some (event_data e (l_event l))) (Some (code_addr "event::timer_dpc"))))
}.

(** What cleaning up the handle [f] does about the client. *)
Definition dropped (f : ptr) l : list signal :=
  (if bool_decide (l_file l = WduFileObject.wrap f) then [] else [TimerCancelled (timer_of (l_record l))]) ++
  [Dereferenced (l_event l)].

Lemma stored_frame e s s' l : (forall a, a ∈ cells_of l -> w_mem s' !! a = w_mem s !! a) -> stored e s l -> stored e s' l.
Proof. intros Hf [H1 H2 H3]. unfold cells_of in Hf. split; [done|rewrite Hf; [done|set_solver]..]. Qed.

Lemma wp_cleanup_listener e f l s (Q : bool * list WduIrp -> world U -> Prop) :
  (forall t k, fst (kstep (KeCancelTimer t) k) = u8_from true) -> stored e s l ->
  (forall s', w_mem s' = w_mem s -> signals (calls s') = signals (calls s) ++ dropped f l -> Q (false, []) s') ->
  wp (cleanup_record (WduFileObject.wrap f) (l_record l)) s Q.
Proof.
  intros Ht [Hz Hr _] HQ. apply Forall_cons in Hz as [Hz _]. unfold cleanup_record, dropped in *.
  wp_step. eapply wp_load; [done..|]. cbn [file_object]. wp_step.
  destruct (bool_decide (l_file l = WduFileObject.wrap f)).
  - wp_step. simpl. unfold WduEvent.dereference, dereference. do 3 wp_step.
    apply HQ; [done|]. by rewrite calls_kafter, signals_app.
  - unfold WduTimer.cancel. do 3 wp_step. change (kresp (KeCancelTimer _) s) with (fst (kstep (KeCancelTimer (timer_of (l_record l))) (w_kernel s))).
    rewrite Ht. simpl. wp_step. simpl.
    unfold WduEvent.dereference, dereference. do 3 wp_step.
    apply HQ; [done|]. by rewrite !calls_kafter, !signals_app, <- app_assoc.
Qed.

Lemma wp_cleanup_listeners e f ls s (Q : list ptr * list WduIrp -> world U -> Prop) :
  (forall t k, fst (kstep (KeCancelTimer t) k) = u8_from true) ->
  Forall (stored e s) ls -> NoDup (ls ≫= cells_of) ->
  (forall s', (forall a, a ∈ ls ≫= cells_of -> w_mem s' !! a = None) ->
     (forall a, a ∉ ls ≫= cells_of -> w_mem s' !! a = w_mem s !! a) ->
     signals (calls s') = signals (calls s) ++ (ls ≫= dropped f) -> Q ([], []) s') ->
  wp (cleanup_records (WduFileObject.wrap f) (l_record <$> ls)) s Q.
Proof.
  intros Ht. revert s Q. induction ls as [|l ls IH]; intros s Q Hst Hnd HQ.
  - apply wp_ret, HQ; [set_solver|done|by rewrite app_nil_r].
  - apply Forall_cons in Hst as [Hl Hst]. rewrite bind_cons in *. apply NoDup_app in Hnd as (Hnl & Hap & Hnd).
    unfold cells_of in Hnl at 1. apart Hnl. pose proof Hl as [Hz Hr Hd].
    unfold cells_of in Hz. rewrite !Forall_cons in Hz. destruct Hz as (Hz1 & Hz2 & _).
    cbn [fmap list_fmap cleanup_records]. wp_step. eapply wp_cleanup_listener; [done..|]. intros s1 M1 S1. simpl.
    wp_step. eapply wp_drop_record; [done..|by intros ?|rewrite M1; done|rewrite M1; done|]. intros s2 M2 C2. rewrite M1 in M2.
    wp_step. apply IH; [|done|].
    { apply Forall_forall. intros l' Hl'. rewrite Forall_forall in Hst. eapply stored_frame; [|by apply Hst].
      intros a Ha. assert (a ∉ cells_of l). { intros Ha'. eapply Hap; [done|]. apply list_elem_of_bind. eauto. }
      unfold cells_of in *. rewrite M2. rewrite !not_elem_of_cons in *. destruct_and!. map_at. }
    intros s3 Hnone Hsame S3. simpl. apply wp_ret. apply HQ.
    + intros a [Ha|Ha]%elem_of_app; [|by apply Hnone]. rewrite Hsame by by apply Hap.
      unfold cells_of in Ha. rewrite M2. apply elem_of_cons in Ha as [-> | ->%list_elem_of_singleton]; map_at.
    + intros a Ha. rewrite not_elem_of_app in Ha. destruct Ha as [Ha1 Ha2]. rewrite Hsame by done.
      unfold cells_of in Ha1. rewrite !not_elem_of_cons in Ha1. destruct_and!. rewrite M2. map_at.
    + by rewrite S3, C2, S1, <- app_assoc.
Qed.

(** C31: Cleaning up one handle takes every client that waits for an event out of
    the queue, whatever handle it was registered through, and signals none.
    For the clients of other handles the timer is cancelled; for those of this
    handle it is not, so that it is due when its DPC has been freed. *)
Theorem event_cleanup_drops_listeners d e ls (request : WduIrp) f
    (fo : FILE_OBJECT) (rl : WduRemoveLock) (ri : IRP) s :
  (forall ks rl tag, fst (kstep (IoAcquireRemoveLockEx rl tag line size_of_IO_REMOVE_LOCK) ks) = STATUS_SUCCESS) ->
  (forall t k, fst (kstep (KeCancelTimer t) k) = u8_from true) ->
  queued d e (l_record <$> ls) s -> Forall (stored e s) ls ->
  f <> 0 -> w_mem s !! f = Some (inj fo) -> FsContext fo <> 0 -> w_mem s !! FsContext fo = Some (inj rl) ->
  WduIrp.irp request <> 0 -> w_mem s !! WduIrp.irp request = Some (inj ri) ->
  NoDup ([f; FsContext fo; WduDevice.device d; e; queue_lock e; WduIrp.irp request] ++ (ls ≫= cells_of)) ->
  wp (cleanup d request (WduFileObject.wrap f)) s (fun _ s' =>
    queued d e [] s' /\
    signals (calls s') = signals (calls s) ++ (ls ≫= dropped f) ++ [Completed (WduIrp.irp request) STATUS_SUCCESS] /\
    forall l, l ∈ ls -> kernel_dpc (dpc_of (l_record l)) s' = Ub (Dangling (dpc_of (l_record l))) s').
Proof.
  intros Hacq Ht Hq Hst Hf0 Hf Hk0 Hk Hr0 Hr Hnd. apply NoDup_app in Hnd as (Ha & Hap & Hnd).
  pose proof Hq as [Hdv (o & Hoo & Hoe) He0 He Hl0 _].
  assert (Hout : forall a, a ∈ [f; FsContext fo; WduDevice.device d; e; queue_lock e; WduIrp.irp request] ->
    a ∉ ls ≫= cells_of) by done.
  assert (Hbase : NoDup [f; FsContext fo; WduDevice.device d; e; queue_lock e]).
  { apply (NoDup_app _ [WduIrp.irp request]). exact Ha. }
  apart Ha. eapply (wp_cleanup release_build d e _ request f fo rl ri); [apply Hacq|done..|].
  intros lk s1 M1 S1. apply (wp_cleanup_listeners e); [done| |done|].
  { apply Forall_forall. intros l Hl. rewrite Forall_forall in Hst. eapply stored_frame; [|by apply Hst].
    intros a Hal. assert (a ∈ ls ≫= cells_of) by (apply list_elem_of_bind; eauto).
    rewrite M1, !lookup_insert_ne; [done|..]; intros <-; (eapply Hout; [|done]); clear; set_solver. }
  intros s2 Hnone Hsame S2. simpl.
  assert (Hk2 : forall a, a ∈ [f; FsContext fo; WduDevice.device d; e; queue_lock e; WduIrp.irp request] ->
    w_mem s2 !! a = <[queue_lock e := inj lk]> (<[FsContext fo := inj (WduRemoveLock.mk None)]> (w_mem s)) !! a).
  { intros a Hin. rewrite Hsame by by apply Hout. by rewrite M1. }
  split; [done|]. split; [eexists; rewrite Hk2 by (clear; set_solver); map_at|].
  split; [rewrite Hk2 by (clear; set_solver); map_at|].
  split; [rewrite Hk2 by (clear; set_solver); map_at|]. split; [done|]. intros s3 M3 S3. split.
  { split; try done; [exists o; split; [|done]|..|exists lk]; rewrite M3; map_at; rewrite Hk2 by (clear; set_solver); map_at. }
  split; [by rewrite S3, S2, S1, <- app_assoc|]. intros l Hl.
  rewrite Forall_forall in Hst. destruct (Hst _ Hl) as [Hz _ _]. unfold cells_of in Hz. rewrite !Forall_cons in Hz.
  assert (Hin : dpc_of (l_record l) ∈ ls ≫= cells_of) by (apply list_elem_of_bind; exists l; split; [right; left|done]).
  unfold kernel_dpc, WduDpc.custom_dpc. apply bind_ub, load_dangling; [naive_solver|].
  assert (Hne : forall a, a ∈ [f; FsContext fo; WduDevice.device d; e; queue_lock e; WduIrp.irp request] ->
    a <> dpc_of (l_record l)) by (intros a Ha ->; by eapply Hout).
  rewrite M3, lookup_delete_ne, lookup_insert_ne; [by apply Hnone|apply Hne; clear; set_solver..].
Qed.
End cleanup.

(** ** From [init] to the system *)

Section life.
Context {KN : Kernel} {B : Build} {LK : Linked} {NS : NtStatics} {EL : EventLayout} {U : Type}.
Context `{!Storable U DRIVER_OBJECT, !Storable U DRIVER_EXTENSION, !Storable U DEVICE_OBJECT}.
Context `{!Storable U WduDevice, !Storable U WduDriver}.
Context `{!Storable U IRP, !Storable U IO_STACK_LOCATION, !Storable U WduIrp, !Storable U FILE_OBJECT}.
Context `{!Storable U WduSpinLock, !Storable U WduRemoveLock, !Storable U RegisterEvent}.
Context `{!Storable U DeviceExtension, !Storable U NotifyRecord, !Storable U (WduDpc NotifyData)}.
Context (release_build : debug_assertions = false).
Implicit Types s : world U.

Definition device_name : WduUnicodeStr := WduUnicodeStr.from_slice device_name_at DEVICE_NAME_UTF16.
Definition win32_name : WduUnicodeStr := WduUnicodeStr.from_slice win32_name_at WIN32_NAME_UTF16.
Definition link_call : kcall :=
  IoCreateSymbolicLink (WduUnicodeStr.into_UNICODE_STRING win32_name)
    (WduUnicodeStr.into_UNICODE_STRING device_name).
Definition unlink_call : kcall := IoDeleteSymbolicLink (WduUnicodeStr.into_UNICODE_STRING win32_name).

(** The driver's part of the extension of a device. *)
Definition extension_at (contents : DEVICE_OBJECT) : ptr :=
  usize (Nt.DeviceExtension contents + size_of_WduDevice).

(** What the I/O manager documents of the device it makes for the driver at
    [p]: it and its extension are new memory. *)
Definition makes_devices (p : ptr) : Prop :=
  forall k size name ty chars exclusive object contents k',
    kstep (IoCreateDevice p size name ty chars exclusive) k = ((STATUS_SUCCESS, (object, contents)), k') ->
    let e := extension_at contents in
    new_device p object contents /\ e <> 0 /\ queue_lock e <> 0 /\
    NoDup [p; object; Nt.DeviceExtension contents; e; queue_lock e].

(** The end of [init], on a device that was just made. *)
Definition set_up_device (wdu_device : WduDevice) : M (world U) (result unit EventError) :=
  r ← WduDevice.symbolic_name wdu_device device_name win32_name;
  (if r is Err _ then WduDevice.delete wdu_device else mret tt) ;;
  extension ← WduDevice.extension_as_mut_ref wdu_device;
  install (queue_lock extension) WduSpinLock.default ;;
  install extension (mkDeviceExtension []) ;;
  WduDevice.set_flags wdu_device DO_BUFFERED_IO ;;
  mret (Ok tt).

(** The device object, as [init] leaves it. *)
Definition flagged (contents : DEVICE_OBJECT) : DEVICE_OBJECT :=
  mkDeviceObject (Nt.DeviceExtension contents) (DriverObject contents) (Z.lor (Flags contents) DO_BUFFERED_IO).

Lemma set_up_named object (contents : DEVICE_OBJECT) ty chars ex s :
  let e := extension_at contents in
  w_mem s !! object = Some (inj contents) -> object <> 0 -> e <> 0 -> queue_lock e <> 0 ->
  NoDup [object; e; queue_lock e] -> (kresp link_call s : NTSTATUS) = STATUS_SUCCESS ->
  wp (set_up_device (WduDevice.mk ty chars ex object)) s (fun r s1 =>
    r = Ok tt /\ starts object e (mkSystem s1 [] []) /\ link_call ∈ calls s1 /\
    w_trace s1 = w_trace s ++ [Ev link_call STATUS_SUCCESS] /\
    signals (calls s1) = signals (calls s) /\
    w_mem s1 !! object = Some (inj (flagged contents)) /\
    only_at [object; e; queue_lock e] s s1).
Proof.
  intros e Hm Ho He Hl Ha Hst. apart Ha. unfold set_up_device, WduDevice.symbolic_name. wp_step. fold link_call.
  wp_step. wp_step. change (kret link_call) with NTSTATUS in *. rewrite Hst. simpl. wp_step. wp_step. wp_step.
  name_traced s1 M1 C1 T1. wp_step. unfold WduDevice.extension_as_mut_ref, WduDevice.device_extension. simpl.
  do 2 wp_step. eapply wp_load; [done|by rewrite M1|]. wp_step. wp_step. fold (extension_at contents). fold e.
  wp_step. apply wp_install; [done|]. name_traced s2 M2 C2 T2. rewrite M1 in M2.
  wp_step. apply wp_install; [done|]. name_traced s3 M3 C3 T3. rewrite M2 in M3.
  wp_step. unfold WduDevice.set_flags, WduDevice.device_as_mut. simpl.
  eapply wp_update; [done|rewrite M3; map_at|]. name_traced s4 M4 C4 T4. rewrite M3 in M4.
  apply wp_ret. split; [done|]. split; [|split; [|split; [|split; [|split]]]].
  - split; [|done..]. split; [|constructor| |constructor].
    + split; simpl; [done|eexists; split; [rewrite M4; map_at|done]|done|rewrite M4; map_at|done|].
      exists WduSpinLock.default. rewrite M4. map_at.
    + unfold in_use, base. simpl. repeat (apply NoDup_cons_2; [rewrite ?not_elem_of_cons; split_and?; try done; apply not_elem_of_nil|]).
      apply NoDup_nil_2.
  - rewrite C4, C3, C2, C1. apply elem_of_app. right. by apply list_elem_of_singleton.
  - rewrite T4, T3, T2, T1. f_equal. f_equal. f_equal. exact Hst.
  - rewrite C4, C3, C2, C1, signals_app. simpl. by rewrite app_nil_r.
  - rewrite M4. map_at.
  - intros a Hna. rewrite !not_elem_of_cons in Hna. destruct_and! Hna. rewrite M4. map_at.
Qed.

(** The device that could not be named is deleted, and then used. *)
Lemma set_up_unnamed object (contents : DEVICE_OBJECT) ty chars ex s :
  w_mem s !! object = Some (inj contents) -> object <> 0 -> (kresp link_call s : NTSTATUS) <> STATUS_SUCCESS ->
  exists s1, set_up_device (WduDevice.mk ty chars ex object) s = Ub (Dangling object) s1 /\
    IoDeleteDevice object ∈ calls s1.
Proof.
  intros Hm Ho Hst. set (dev := WduDevice.mk ty chars ex object).
  destruct (wp_elim (r ← WduDevice.symbolic_name dev device_name win32_name;
      if r is Err _ then WduDevice.delete dev else mret tt) s
    (fun _ s1 => w_mem s1 !! object = None /\ IoDeleteDevice object ∈ calls s1)) as ([] & s1 & E & Hn & Hin).
  { unfold WduDevice.symbolic_name. fold link_call. do 2 wp_step. wp_step.
    change (kret link_call) with NTSTATUS in *. destruct (Z.eqb_spec (kresp link_call s) STATUS_SUCCESS); [done|].
    simpl. wp_step. unfold WduDevice.delete. simpl. rewrite not_null by done. simpl. do 2 wp_step.
    wp_step. eapply wp_box_from_raw; [done..|]. wp_step. split; [simpl; apply lookup_delete_eq|].
    rewrite calls_set_mem, calls_kafter. apply elem_of_app. right. by apply list_elem_of_singleton. }
  exists s1. split; [|done]. unfold set_up_device, dev in *. revert E. unfold mbind, M_bind.
  destruct (WduDevice.symbolic_name _ _ _ s) as [r s'|? ?|? ?]; try done. intros E. rewrite E.
  unfold WduDevice.extension_as_mut_ref, WduDevice.device_extension, mbind, M_bind. simpl. by rewrite load_dangling.
Qed.

Lemma signals_none cs : Forall (fun c => signals [c] = []) cs -> signals cs = [].
Proof. induction 1 as [|c cs Hc _ IH]; [done|]. change (c :: cs) with ([c] ++ cs). by rewrite signals_app, Hc, IH. Qed.

(** What [init] registers and makes, and the calls it does it with. *)
Definition event_driver (p : ptr) : WduDriver :=
  mkWduDriver true p None (Some (code_addr "event::driver_unload"))
    (IoDispath.ioctl_irp IoDispath.default (code_addr "event::device_control"))
    (FileObjDispatch.cleanup_irp (FileObjDispatch.close_irp (FileObjDispatch.create_irp FileObjDispatch.default
       (code_addr "event::create")) (code_addr "event::close")) (code_addr "event::cleanup")).
Definition new_event_device (object : ptr) : WduDevice := WduDevice.mk UnknownDevice SecureOpen false object.
Definition alloc_call (p : ptr) : kcall := IoAllocateDriverObjectExtension p id_addr (u32 size_of_WduDriver).
Definition make_call (p : ptr) : kcall :=
  create_call size_of_DeviceExtension (WduDevice.set_characteristics
    (WduDevice.set_device_type WduDevice.default UnknownDevice) SecureOpen) p (Some device_name).

(** From [s] to [s1] the driver was registered, with its extension at [ext], and
    its device was made and named. *)
Record set_up (p : ptr) (o : DRIVER_OBJECT) (ext object : ptr) (contents : DEVICE_OBJECT) s s1 : Prop := {
  su_device : new_device p object contents;
  su_trace : w_trace s1 = w_trace s ++ [Ev (alloc_call p) (STATUS_SUCCESS, ext);
    Ev (make_call p) (STATUS_SUCCESS, (object, contents)); Ev link_call STATUS_SUCCESS];
  su_object : w_mem s1 !! object = Some (inj (flagged contents));
  su_rest : forall a, a ∉ [object; extension_at contents; queue_lock (extension_at contents)] ->
    w_mem s1 !! a = <[Nt.DeviceExtension contents := inj (new_event_device object)]>
      (<[ext := inj (event_driver p)]> (<[p := inj (registered o)]> (w_mem s))) !! a;
  su_starts : starts object (extension_at contents) (mkSystem s1 [] [])
}.

Lemma set_up_calls p o ext object contents s s1 : set_up p o ext object contents s s1 ->
  devices (w_trace s1) = devices (w_trace s) ++ [(object, contents)] /\ DriverObject contents = p /\
  link_call ∈ calls s1 /\ signals (calls s1) = signals (calls s).
Proof.
  intros [[_ Hd _ _] Ht _ _ _]. unfold calls. rewrite Ht, devices_app, !fmap_app, signals_app. split; [done|].
  split; [done|]. split; [|apply app_nil_r]. apply elem_of_app. right. do 2 right. left.
Qed.

(** [init], on every kernel that makes objects as it is documented to.  It
    sends no signal.  It fails if the driver cannot be registered or its device
    cannot be made.  It succeeds if the device was also named; then the driver
    is where the system of its handlers starts, with nobody waiting.  If the
    name is refused, it deletes the device and goes on to use it: what it
    reads is no longer there. *)
Lemma init_outcome p (o : DRIVER_OBJECT) s :
  p <> 0 -> w_mem s !! p = Some (inj o) -> makes_devices p ->
  (let r0 := kresp (IoAllocateDriverObjectExtension p id_addr (u32 size_of_WduDriver)) s in
   r0.1 = STATUS_SUCCESS -> r0.2 <> 0) ->
  match Event.init p s with
  | Done (Ok _) s1 => exists object contents, set_up p o (kresp (alloc_call p) s).2 object contents s s1
  | Done (Err e) s1 => (e = DriverError \/ e = DeviceError) /\ signals (calls s1) = signals (calls s)
  | Panicked _ _ => False
  | Ub f s1 => exists object, f = Dangling object /\ IoDeleteDevice object ∈ calls s1
  end.
Proof.
  intros Hp Hm Hdev Hext.
  assert (Hnew : new_devices p) by (intros k size name ty chars ex object contents k' E; by eapply Hdev).
  let entry := eval unfold Event.init in (Event.init p) in entry_routines entry ltac:(fun unload fo io =>
    pose proof (begin_entry p unload fo io from_driver_error from_device_error size_of_DeviceExtension
      (WduDevice.set_characteristics (WduDevice.set_device_type WduDevice.default UnknownDevice) SecureOpen)
      (Some device_name) set_up_device o s Hp Hm Hnew Hext) as H).
  cbv zeta in H.
  destruct H as [(e & s1 & cs & E & He & T & _ & Hcs & _)|(object & contents & s1 & E & Hd & T & M & k0 & k1 & Hk)];
    match type of E with ?l = _ => change (Event.init p s) with l end; rewrite E.
  - split; [destruct He as [-> |[st ->]]; [by left|by right]|]. unfold calls. rewrite T, fmap_app, signals_app.
    rewrite (signals_none (call_of <$> cs)), app_nil_r; [done|]. eapply Forall_impl; [exact Hcs|].
    by intros c [-> | ->].
  - destruct (Hdev _ _ _ _ _ _ _ _ _ Hk) as (_ & He & Hl & Hnd). pose proof Hd as [Ho _ _ Ha]. simpl.
    assert (Hobj : w_mem s1 !! object = Some (inj contents)) by (rewrite M; map_at).
    assert (S1 : signals (calls s1) = signals (calls s))
      by (unfold calls; rewrite T, fmap_app, signals_app; apply app_nil_r).
    destruct (decide ((kresp link_call s1 : NTSTATUS) = STATUS_SUCCESS)) as [Hst|Hst].
    + destruct (wp_elim _ _ _ (set_up_named object contents UnknownDevice SecureOpen false s1 Hobj Ho He Hl
        ltac:(eapply sublist_NoDup; [exact Hnd|repeat constructor]) Hst)) as (r & s3 & E3 & -> & Hs & _ & T3 & _ & M3 & Hat).
      rewrite E3. exists object, contents.
      split; [done|by rewrite T3, T, <- app_assoc|done| |done]. intros a Hna. rewrite Hat, M by done.
      rewrite !not_elem_of_cons in Hna. destruct Hna as (Hna & _).
      destruct (decide (a = Nt.DeviceExtension contents)) as [->|]; [by rewrite !lookup_insert_eq|].
      rewrite !(lookup_insert_ne _ (Nt.DeviceExtension contents)) by done. by apply lookup_insert_ne.
    + destruct (set_up_unnamed object contents UnknownDevice SecureOpen false s1 Hobj Ho Hst) as (s3 & E3 & Hin).
      rewrite E3. by exists object.
Qed.

(** The unload routine, from any state the handlers can get into. *)
Lemma unload_outcome dev e rs sy drv (o : DRIVER_OBJECT) :
  sound dev e rs sy -> WduDriver.as_ptr drv <> 0 ->
  w_mem (sy_world sy) !! WduDriver.as_ptr drv = Some (inj o) -> DeviceObject o = dev ->
  match Event.driver_unload drv (sy_world sy) with
  | Done _ s' => rs = [] /\ calls s' = calls (sy_world sy) ++ [unlink_call; IoDeleteDevice dev] /\
      w_mem s' = delete dev (w_mem (sy_world sy))
  | Panicked _ s' => rs <> [] /\ s' = sy_world sy
  | Ub _ _ => False
  end.
Proof.
  intros [[[Hd (x & Hx & He) He0 Hq _ _] _ _ _] _ _] Hp Ho Hdev. simpl in *.
  unfold Event.driver_unload, WduDriver.device. erewrite bind_done.
  2: { erewrite bind_done by by apply load_at. by rewrite Hdev. }
  rewrite (bind_done _ _ _ (mkDeviceExtension (record_of <$> rs)) (sy_world sy)).
  2: { unfold WduDevice.extension, WduDevice.device_extension. simpl.
       erewrite bind_done by by (erewrite bind_done by by apply load_at). rewrite He. by apply load_at. }
  simpl. destruct rs as [|r rs]; simpl; [|by split]. erewrite bind_done by done.
  unfold WduDevice.delete_symbolic_name. fold win32_name. fold unlink_call.
  assert (Hdel : forall s', w_mem s' = w_mem (sy_world sy) ->
    WduDevice.delete (WduDevice.wrap_device dev) s' = Done tt (set_mem (delete dev (w_mem s')) (kafter (IoDeleteDevice dev) s'))).
  { intros s' M. unfold WduDevice.delete. simpl. rewrite not_null by done. simpl. erewrite bind_done by done.
    unfold box_from_raw. erewrite bind_done; [done|]. by erewrite bind_done by (apply load_at; [done|by rewrite mem_kafter, M]). }
  match goal with |- context [(?m ≫= ?k) ?s] => destruct (wp_elim m s (fun _ s' => s' = kafter unlink_call s)) as (r & s' & E & ->) end.
  { do 2 wp_step. by destruct (negb _); wp_step. }
  erewrite bind_done by exact E. rewrite Hdel by done.
  split; [done|]. split; [|done]. by rewrite calls_set_mem, !calls_kafter, <- app_assoc.
Qed.

(** The event driver, from its entry point to its unload routine.  When
    [init] succeeds, the device is named and nobody waits.  From then on,
    whatever requests arrive, timers are due and requests are cancelled, the
    clients are told what the specification allows.  The unload routine takes
    the name and the device away if nobody waits, and stops the machine if
    somebody does; and a state in which nobody waits can always be reached.
    When [init] fails it has told nobody anything; when the device cannot be
    named it uses what it has deleted. *)
Theorem event_driver_life p (o : DRIVER_OBJECT) s :
  p <> 0 -> w_mem s !! p = Some (inj o) -> makes_devices p ->
  (let r0 := kresp (IoAllocateDriverObjectExtension p id_addr (u32 size_of_WduDriver)) s in
   r0.1 = STATUS_SUCCESS -> r0.2 <> 0) ->
  match Event.init p s with
  | Done (Err e) s1 => (e = DriverError \/ e = DeviceError) /\ signals (calls s1) = signals (calls s)
  | Panicked _ _ => False
  | Ub f s1 => exists object, f = Dangling object /\ IoDeleteDevice object ∈ calls s1
  | Done (Ok _) s1 => exists object contents,
      devices (w_trace s1) = devices (w_trace s) ++ [(object, contents)] /\
      DriverObject contents = p /\ link_call ∈ calls s1 /\
      let e := extension_at contents in
      forall sy, rtc (step object e) (mkSystem s1 [] []) sy ->
        rtc spec ([], told (signals (calls s))) (board_of e sy) /\
        (exists sy', rtc (step object e) sy sy' /\ waiting e sy' = []) /\
        forall drv (o' : DRIVER_OBJECT), WduDriver.as_ptr drv = p ->
          w_mem (sy_world sy) !! p = Some (inj o') -> DeviceObject o' = object ->
          match Event.driver_unload drv (sy_world sy) with
          | Done _ s' => waiting e sy = [] /\
              calls s' = calls (sy_world sy) ++ [unlink_call; IoDeleteDevice object] /\
              w_mem s' = delete object (w_mem (sy_world sy))
          | Panicked _ s' => waiting e sy <> [] /\ s' = sy_world sy
          | Ub _ _ => False
          end
  end.
Proof.
  intros Hp Hm Hdev Hext. pose proof (init_outcome p o s Hp Hm Hdev Hext) as H.
  destruct (Event.init p s) as [[u|e] s1|msg s1|f s1]; [|done..].
  destruct H as (object & contents & Hsu). pose proof (su_starts _ _ _ _ _ _ _ Hsu) as Hso.
  destruct (set_up_calls _ _ _ _ _ _ _ Hsu) as (Hds & Hd & Hl & Hs). exists object, contents. do 3 (split; [done|]).
  cbv zeta. intros sy Hr. destruct (steps_sound release_build _ _ _ _ _ Hso Hr) as (rs & Hso' & Hspec).
  rewrite (board_after _ _ _ _ Hso) in Hspec. simpl in Hspec. rewrite Hs in Hspec.
  split; [done|]. split.
  - destruct (sound_drains release_build _ _ _ _ Hso') as (sy' & Hr' & H'). exists sy'.
    split; [done|by apply (sound_idle object)].
  - intros drv o' Hdrv Ho' Hdo. rewrite (sound_waiting _ _ _ _ Hso').
    rewrite <- Hdrv in Hp, Ho'. exact (unload_outcome object (extension_at contents) rs sy drv o' Hso' Hp Ho' Hdo).
Qed.
End life.

(** ** Instances *)

#[local] Existing Instance EventDemo.build.
#[local] Existing Instance EventDemo.statics.
#[local] Existing Instance EventDemo.linked.
#[local] Existing Instance EventDemo.layout.

Module LifeDemo.
Abbreviation cells :=
  (DRIVER_OBJECT + (DRIVER_EXTENSION + (DEVICE_OBJECT + (WduDevice + (WduDriver + (IRP + (IO_STACK_LOCATION +
    (WduIrp + (FILE_OBJECT + (WduSpinLock + (WduRemoveLock + (RegisterEvent + (DeviceExtension + (NotifyRecord +
    (WduDpc NotifyData + unit)))))))))))))))%type.

(** Devices are made at 0x900, with their extension at 0xA00; the timers run. *)
#[export] Instance kernel : Kernel := {|
  kstate := unit;
  kstep c k := (match c as c return kret c with
                | IoAllocateDriverObjectExtension _ _ _ => (STATUS_SUCCESS, 0xB00)
                | IoCreateDevice driver _ _ _ _ _ => (STATUS_SUCCESS, (0x900, mkDeviceObject 0xA00 driver 0))
                | KeCancelTimer _ => 1
                | c => default_answer c
                end, k) |}.
Lemma makes : makes_devices 0x80.
Proof.
  intros k size name ty chars exclusive object contents k' E. simpl in E. injection E as <- <- _.
  split_and!; first [concrete|split; concrete].
Qed.

Definition object : DRIVER_OBJECT := mkDriverObject 0 0 None (replicate 28 None).
Definition before : world cells := World tt [] {[0x80 := inj object]}.
Definition after : world cells :=
  Eval vm_compute in match Event.init 0x80 before with Done _ s => s | _ => before end.
(** The I/O manager links the device to the driver. *)
Definition linked : system :=
  mkSystem (set_mem (<[0x80 := inj (mkDriverObject 0x900 0 None [])]> (w_mem after)) after) [] [].

(** A handle at 0x400 and one at 0x440, each with a client that waits. *)
Definition mine : listener := mkListener 0x500 (WduFileObject.wrap 0x400) 0x600.
Definition theirs : listener := mkListener 0x580 (WduFileObject.wrap 0x440) 0x640.
Definition dpc_for (l : listener) : WduDpc NotifyData :=
  WduDpc.mk (Some (event_data 0xA18 (l_event l))) (Some (code_addr "event::timer_dpc")).
Definition record_for (l : listener) : NotifyRecord := mkNotifyRecord (l_file l) (event_data 0xA18 (l_event l)).
Definition crowded : world cells :=
  World tt [] {[0x900 := inj EventDemo.object; 0xA30 := inj WduSpinLock.new;
    0xA18 := inj (mkDeviceExtension [0x500; 0x580]);
    0x500 := inj (record_for mine); 0x508 := inj (dpc_for mine);
    0x580 := inj (record_for theirs); 0x588 := inj (dpc_for theirs);
    0x400 := inj EventDemo.file; 0x680 := inj WduRemoveLock.new; 0x180 := inj IrpDemo.irp]}.
End LifeDemo.
#[local] Existing Instance LifeDemo.kernel.

(** Nobody came: the unload routine gives the device back. *)
Lemma event_driver_life_witness :
  Event.init 0x80 LifeDemo.before = Done (Ok tt) LifeDemo.after /\
  exists s', Event.driver_unload (WduDriver.new 0x80) (sy_world LifeDemo.linked) = Done tt s' /\
    w_mem s' = delete 0x900 (w_mem (sy_world LifeDemo.linked)).
Proof.
  assert (E : Event.init 0x80 LifeDemo.before = Done (Ok tt) LifeDemo.after) by (vm_compute; reflexivity).
  split; [exact E|].
  pose proof (event_driver_life eq_refl 0x80 LifeDemo.object LifeDemo.before) as H.
  specialize (H ltac:(discriminate) ltac:(vm_compute; reflexivity) LifeDemo.makes ltac:(vm_compute; discriminate)).
  rewrite E in H. destruct H as (object & contents & Hd & _ & _ & H).
  vm_compute in Hd. injection Hd as <- <-.
  destruct (H LifeDemo.linked) as (_ & _ & Hu).
  - apply rtc_once. apply (step_other _ _ (sy_world LifeDemo.linked) (mkSystem LifeDemo.after [] [])); [|reflexivity].
    intros a Ha. vm_compute in Ha. repeat (apply elem_of_cons in Ha as [->|Ha]; [vm_compute; reflexivity|]). by apply elem_of_nil in Ha.
  - specialize (Hu (WduDriver.new 0x80) (mkDriverObject 0x900 0 None []) eq_refl ltac:(vm_compute; reflexivity) eq_refl).
    destruct (Event.driver_unload _ _) as [[] s'|msg s'|f s'] eqn:Eu.
    + exists s'. split; [reflexivity|]. apply Hu.
    + exfalso. vm_compute in Eu. discriminate Eu.
    + destruct Hu.
Defined.

(** The client of the other handle is dropped too, and the timer of this
    handle's client finds nothing when it is due. *)
Lemma event_cleanup_drops_listeners_witness :
  wp (cleanup EventDemo.device EventDemo.cleaning (WduFileObject.wrap 0x400)) LifeDemo.crowded (fun _ s' =>
    signals (calls s') = [Dereferenced 0x600; TimerCancelled 0x5D0; Dereferenced 0x640; Completed 0x180 STATUS_SUCCESS] /\
    kernel_dpc 0x508 s' = Ub (Dangling 0x508) s').
Proof.
  eapply wp_mono.
  - apply (event_cleanup_drops_listeners eq_refl EventDemo.device 0xA18 [LifeDemo.mine; LifeDemo.theirs]
      EventDemo.cleaning 0x400 EventDemo.file WduRemoveLock.new IrpDemo.irp LifeDemo.crowded);
      [reflexivity|reflexivity| | |concrete..].
    + split; [concrete|exists EventDemo.object; split; concrete|concrete..|]. exists WduSpinLock.new. concrete.
    + repeat constructor; concrete.
  - intros w s' (_ & Hs & H). split; [exact Hs|]. apply (H LifeDemo.mine). left.
Defined.
