(* ===== verification/EventDispatch.v ===== *)
(** * EventDispatch: the event driver's control requests

    The system of [EventSystem] begins where a registration is handled.  Here
    is the way there: a control request with any code, any length and any
    contents, from the crate's dispatch handler through the driver's checks to
    the registration, and back to the status the I/O manager gets. *)

From S2P Require Import Prelude Nt World Crate FileObj Device Mdl Irp DeviceControl Driver SpinLock Sync Event EventSystem.
Import WduDevice (WduDevice).
Import WduFileObject (WduFileObject).
Import WduIrp (WduIrp).
Import WduIoStatus (WduIoStatus).
Import MajorFunction (MajorFunction).
Import WduDeviceControl (WduDeviceControl).
Import WduSpinLock (WduSpinLock).
Import WduRemoveLock (WduRemoveLock).
Import WduDpc (WduDpc).
Import ProcessorMode (ProcessorMode).

Section control.
Context {KN : Kernel} {B : Build} {LK : Linked} {NS : NtStatics} {EL : EventLayout} {U : Type}.
Context `{!Storable U DRIVER_OBJECT, !Storable U DRIVER_EXTENSION, !Storable U DEVICE_OBJECT}.
Context `{!Storable U WduDevice, !Storable U WduDriver, !Storable U MDL, !Storable U SECURITY_CONTEXT}.
Context `{!Storable U IRP, !Storable U IO_STACK_LOCATION, !Storable U WduIrp, !Storable U FILE_OBJECT}.
Context `{!Storable U WduSpinLock, !Storable U WduRemoveLock, !Storable U RegisterEvent}.
Context `{!Storable U DeviceExtension, !Storable U NotifyRecord, !Storable U (WduDpc NotifyData)}.
Context (release_build : debug_assertions = false).
Implicit Types s : world U.

(** The driver's routines, by address; [slot] is where [create] keeps its
    local. *)
Context (slot : ptr).
#[local] Instance event_client : Client U := {|
  run_add_device pfn _ := ub (Dangling pfn);
  run_unload pfn driver := at_code "event::driver_unload" pfn (Event.driver_unload driver);
  run_create pfn device irp data := at_code "event::create" pfn (Event.create slot device irp data);
  run_close_cleanup pfn device irp file :=
    if pfn =? code_addr "event::close" then Event.close device irp file
    else at_code "event::cleanup" pfn (Event.cleanup device irp file);
  run_read_write pfn _ _ _ := ub (Dangling pfn);
  run_ioctl pfn device irp data := at_code "event::device_control" pfn (Event.device_control device irp data)
|}.

(** ** What is to be answered *)

(** The status, and who waits from now on.  [ref] is what the kernel says of
    the handle of the client's event. *)
Definition registering (p : ptr) (len : Z) (buffer : ptr) (reg : RegisterEvent) (ref : NTSTATUS * ptr)
    : NTSTATUS * option client :=
  if (len <? size_of_RegisterEvent) || (buffer =? null) then (STATUS_INVALID_PARAMETER, None)
  else if notify_type reg =? IRP_BASED then (STATUS_PENDING, Some (Request p))
  else if notify_type reg =? EVENT_BASED then
    if ref.1 =? STATUS_SUCCESS then (STATUS_SUCCESS, Some (Listener ref.2)) else (ref.1, None)
  else (STATUS_INVALID_PARAMETER, None).

(** [removing] is what it says of the remove lock of the handle. *)
Definition control_answer (removing : NTSTATUS) (code p : Z) (len : Z) (buffer : ptr) (reg : RegisterEvent)
    (ref : NTSTATUS * ptr) : NTSTATUS * option client :=
  if negb (removing =? STATUS_SUCCESS) then (STATUS_UNSUCCESSFUL, None)
  else if code =? IOCTL_REGISTER_EVENT then registering p len buffer reg ref
  else (STATUS_NOT_IMPLEMENTED, None).

Definition status_of (r : result NTSTATUS EventError) : NTSTATUS :=
  match r with Ok status => status | Err (Status status) => status | Err _ => STATUS_UNSUCCESSFUL end.

(** The timer of an entry is set. *)
Definition timer_set (x : entry) : signal := TimerSet (timer_of (record_of x)) (dpc_of (record_of x)).

(** From [s] to [s']: who waits now besides [rs]; their timers are set, and
    [log] is what is told then; their entries are made of new memory and of the
    addresses [l]. *)
Definition joins (d : WduDevice) (e : ptr) rs (joined : option client) (log : list signal) (l : list ptr) s s' : Prop :=
  exists xs, consistent d e (rs ++ xs) s' /\ client_of <$> xs = option_list joined /\
    signals (calls s') = signals (calls s) ++ (timer_set <$> xs) ++ log /\
    forall a, a ∈ in_use d e (rs ++ xs) -> is_Some (w_mem s !! a) -> a ∈ in_use d e rs ++ l.

Lemma joins_none d e rs s s' l :
  consistent d e rs s' -> signals (calls s') = signals (calls s) -> joins d e rs None [] l s s'.
Proof.
  intros Hc Ht. exists []. rewrite (app_nil_r rs). split; [done|]. split; [done|]. split; [by rewrite app_nil_r|].
  intros a Ha _. apply elem_of_app. by left.
Qed.

Lemma joins_one d e rs x l s s' :
  consistent d e (rs ++ [x]) s' -> made_of l s x -> signals (calls s') = signals (calls s) ++ [timer_set x] ->
  joins d e rs (Some (client_of x)) [] l s s'.
Proof.
  intros Hc Hx Hs. exists [x]. split; [done|]. split; [done|]. split; [done|]. intros a Ha [u Hu].
  unfold in_use in *. rewrite bind_app, app_assoc in Ha.
  apply elem_of_app in Ha as [Ha|Ha]; [apply elem_of_app; by left|]. simpl in Ha. rewrite app_nil_r in Ha.
  unfold made_of in Hx. rewrite Forall_forall in Hx. apply elem_of_app. right.
  destruct (Hx a Ha) as [Hn|]; [congruence|done].
Qed.

Lemma told_timers_set xs log : told ((timer_set <$> xs) ++ log) = told log.
Proof. unfold told. rewrite omap_app. by induction xs. Qed.

(** ** The registration *)

Section request.
Context (d : WduDevice) (e : ptr) (rs : list entry) (p : ptr) (i : IRP) (st : IO_STACK_LOCATION)
  (mode : ProcessorMode) (reg : RegisterEvent).

Local Abbreviation w := (WduIrp.mk p MajorFunction.DeviceControl None).

(** What a pending request gives to the driver. *)
Definition given (answer : NTSTATUS) : list ptr :=
  if answer =? STATUS_PENDING then [p; CurrentStackLocation i] else [].

Lemma wp_handle_register data s :
  consistent d e rs s -> arrives d e rs w i st s -> RequestorMode i = ProcessorMode.into_i8 mode ->
  let len := WduDeviceControl.input_buffer_size data in
  let buffer := WduDeviceControl.input_buffer data in
  let ref := kresp (event_reference reg mode) s : NTSTATUS * ptr in
  (size_of_RegisterEvent <= len -> buffer <> null -> w_mem s !! buffer = Some (inj reg)) ->
  ref.2 ∉ omap event_of rs ->
  wp (handle_register_event d w data) s (fun r s' =>
    let '(answer, joined) := registering p len buffer reg ref in
    status_of r.2 = answer /\ joins d e rs joined [] (given answer) s s' /\
    keeps (touched e ++ given answer) s s' /\ (answer <> STATUS_PENDING -> r.1 = w)).
Proof.
  intros Hcs Har Hmode len buffer ref Hreg Hev.
  assert (Hsame : forall status, wp (mret (w, Err (Status status))) s (fun r s' =>
    status_of r.2 = status /\ joins d e rs None [] (given status) s s' /\
    keeps (touched e ++ given status) s s' /\ (status <> STATUS_PENDING -> r.1 = w))).
  { intros status. apply wp_ret. split; [done|]. split; [by apply joins_none|]. done. }
  unfold handle_register_event, registering. fold len buffer.
  destruct (Z.ltb_spec len size_of_RegisterEvent) as [|Hlen]; [apply Hsame|].
  destruct (Z.eqb_spec buffer null) as [|Hb]; [apply Hsame|]. simpl.
  wp_step. eapply wp_load; [done|by apply Hreg|].
  destruct (notify_type reg =? IRP_BASED); [|destruct (notify_type reg =? EVENT_BASED); [|apply Hsame]].
  - eapply wp_mono; [exact (wp_register_request release_build d e rs w reg i st s Hcs Har)|].
    intros r s' (Hr & x & Hx & Hcs' & Hs & Hk & Hmade). rewrite Hr. split; [done|].
    split; [simpl in Hx; rewrite <- Hx; exact (joins_one _ _ _ _ _ _ _ Hcs' Hmade Hs)|]. by split.
  - eapply wp_mono; [exact (wp_register_event release_build d e rs w reg i st mode s Hcs (ar_irp _ _ _ _ _ _ _ Har) Hmode Hev)|].
    intros r s' (Hw & Hk & H). fold ref in H. destruct ref as [status ev]. simpl.
    assert (Hk' : forall l, keeps (touched e ++ l) s s').
    { intros l a Ha Hn. apply Hk; [done|]. intros Hin. apply Hn, elem_of_app. by left. }
    destruct (status =? STATUS_SUCCESS).
    + destruct H as (Hr & x & Hx & Hcs' & Hs & Hmade). rewrite Hr. split; [done|].
      split; [rewrite <- Hx; exact (joins_one _ _ _ _ _ _ _ Hcs' Hmade Hs)|]. by split.
    + destruct H as (Hr & Hcs' & Hs). rewrite Hr. split; [done|].
      split; [by apply joins_none|]. split; [apply Hk'|done].
Qed.

(** ** The request *)

Definition request_data : DeviceIoControlRaw := Parameters_DeviceIoControl st.
Definition request_code : Z := u32 (IoControlCode request_data).

(** The request is sent through a handle whose file object has the driver's
    context, made by [create]. *)
Record sent (fo : FILE_OBJECT) (rl : WduRemoveLock) s : Prop := {
  sn_arrives : arrives d e rs w i st s;
  sn_mode : RequestorMode i = ProcessorMode.into_i8 mode;
  sn_file : FileObject st <> 0 /\ w_mem s !! FileObject st = Some (inj fo);
  sn_context : FsContext fo <> 0 /\ w_mem s !! FsContext fo = Some (inj rl);
  sn_apart : FsContext fo ∉ in_use d e rs /\ FsContext fo <> p /\ FsContext fo <> CurrentStackLocation i;
  sn_buffer : request_code = IOCTL_REGISTER_EVENT -> size_of_RegisterEvent <= InputBufferLength request_data ->
    SystemBuffer i <> null -> SystemBuffer i <> FsContext fo /\ w_mem s !! SystemBuffer i = Some (inj reg)
}.

Section sent.
Context (fo : FILE_OBJECT) (rl : WduRemoveLock).
Local Abbreviation k := (FsContext fo).

Definition lock_call : kcall := IoAcquireRemoveLockEx k p line size_of_IO_REMOVE_LOCK.
Definition unlock_call : kcall := IoReleaseRemoveLockEx k p size_of_IO_REMOVE_LOCK.

(** The end of the handler: the request is completed unless it is pending. *)
Definition closing_log (answer : NTSTATUS) : list signal :=
  if answer =? STATUS_PENDING then [] else [Completed p answer].

(** A completed request leaves those who wait alone. *)
Lemma joins_completed joined answer s s1 s2 :
  joins d e rs joined [] (given answer) s s1 -> p ∉ in_use d e rs -> is_Some (w_mem s !! p) ->
  answer <> STATUS_PENDING ->
  w_mem s2 = delete p (w_mem s1) -> signals (calls s2) = signals (calls s1) ++ [Completed p answer] ->
  joins d e rs joined (closing_log answer) (given answer) s s2.
Proof.
  intros (xs & Hc & Hcl & Hs & Hin) Hp Hps Ha M S. unfold closing_log, given in *.
  rewrite (proj2 (Z.eqb_neq _ _) Ha) in *. exists xs. split; [|split; [done|split; [|done]]].
  - eapply (consistent_frame release_build); [|exact Hc]. intros a Hau. rewrite M.
    apply lookup_delete_ne. intros <-. apply Hin in Hau; [|done]. by rewrite app_nil_r in Hau.
  - by rewrite S, Hs, <- !app_assoc.
Qed.

(** Nor does a change at an address of nobody's. *)
Lemma joins_elsewhere joined log l a u s s1 s2 :
  joins d e rs joined log l s s1 -> a ∉ in_use d e rs ++ l -> is_Some (w_mem s !! a) ->
  w_mem s2 = <[a := u]> (w_mem s1) -> signals (calls s2) = signals (calls s1) -> joins d e rs joined log l s s2.
Proof.
  intros (xs & Hc & Hcl & Hs & Hin) Ha Has M S. exists xs. rewrite S. split; [|done].
  eapply (consistent_frame release_build); [|exact Hc]. intros b Hb. rewrite M.
  apply lookup_insert_ne. intros <-. apply Ha. by apply Hin.
Qed.

Lemma wp_closing request answer joined tag s1 s2 (Q : WduIrp * NTSTATUS -> world U -> Prop) :
  p <> 0 -> k <> 0 -> NoDup [p; CurrentStackLocation i; k] -> p ∉ in_use d e rs -> k ∉ in_use d e rs ->
  w_mem s1 !! p = Some (inj i) -> w_mem s1 !! k = Some (inj (WduRemoveLock.mk tag)) ->
  joins d e rs joined [] (given answer) s1 s2 -> keeps (touched e ++ given answer) s1 s2 ->
  (answer <> STATUS_PENDING -> request = w) ->
  (forall s3, joins d e rs joined (closing_log answer) (given answer) s1 s3 ->
     keeps (touched e ++ [p; CurrentStackLocation i; k]) s1 s3 ->
     (answer <> STATUS_PENDING -> w_mem s3 !! p = None) -> w_mem s3 !! k = Some (inj (WduRemoveLock.mk None)) ->
     (exists cs, calls s3 = cs ++ [IoReleaseRemoveLockEx k (WduRemoveLock.tag_ptr tag) size_of_IO_REMOVE_LOCK]) ->
     Q (request, answer) s3) ->
  wp ((if negb (answer =? STATUS_PENDING)
       then WduIrp.complete request (WduIoStatus.set_status WduIoStatus.new answer) else mret tt) ;;
      WduRemoveLock.release size_of_IO_REMOVE_LOCK k ;; mret (request, answer)) s2 Q.
Proof.
  intros Hp0 Hk0 Hap Hp Hk Hpm Hkm Hj Hkeep Hr HQ. apart Hap.
  assert (Hbase : forall a, a ∉ in_use d e rs -> a ∉ touched e) by (intros a Ha Hin; apply Ha, elem_of_app; left; by right).
  assert (Hkg : k ∉ given answer) by (unfold given; destruct (answer =? _); rewrite ?not_elem_of_cons; split_and?; try done; apply not_elem_of_nil).
  assert (Hk2 : w_mem s2 !! k = Some (inj (WduRemoveLock.mk tag))).
  { rewrite Hkeep; [done|by rewrite Hkm|]. rewrite not_elem_of_app. split; [by apply Hbase|done]. }
  assert (Hgiven : forall a, a ∉ touched e ++ [p; CurrentStackLocation i; k] -> a ∉ touched e ++ given answer).
  { intros a. unfold given. rewrite !not_elem_of_app, !not_elem_of_cons. destruct (answer =? _); rewrite ?not_elem_of_cons; naive_solver. }
  wp_step. unfold closing_log in HQ. destruct (Z.eqb_spec answer STATUS_PENDING) as [He|Hne]; simpl.
  - apply wp_ret. wp_step. eapply wp_remove_release; [done..|]. intros s3 M3 C3. apply wp_ret.
    apply HQ; [|intros a Ha Hn|done|rewrite M3; map_at|by eexists].
    + eapply joins_elsewhere; [exact Hj|by rewrite not_elem_of_app|by rewrite Hkm|exact M3|].
      rewrite C3, signals_app. apply app_nil_r.
    + rewrite M3, lookup_insert_ne; [by apply Hkeep, Hgiven|]. intros <-. apply Hn, elem_of_app. right. right. right. by left.
  - rewrite Hr by done. assert (Hp2 : w_mem s2 !! p = Some (inj i)).
    { rewrite Hkeep; [done|by rewrite Hpm|]. unfold given. rewrite (proj2 (Z.eqb_neq _ _) Hne), app_nil_r. by apply Hbase. }
    eapply wp_complete; [done..|]. simpl. intros s3 M3 C3. wp_step.
    eapply wp_remove_release; [done|rewrite M3; map_at|]. intros s4 M4 C4. apply wp_ret. rewrite <- Hr by done.
    apply HQ; [|intros a Ha Hn|intros _; rewrite M4, M3; map_at|rewrite M4; map_at|by eexists].
    + eapply (joins_elsewhere _ _ _ k _ s1 s3);
        [|by rewrite not_elem_of_app|by rewrite Hkm|exact M4|rewrite C4, signals_app; apply app_nil_r].
      assert (Hjc : joins d e rs joined (closing_log answer) (given answer) s1 s3).
      { eapply (joins_completed joined answer s1 s2 s3); [exact Hj|done|by rewrite Hpm|done|exact M3|]. by rewrite C3, signals_app. }
      unfold closing_log in Hjc. by rewrite (proj2 (Z.eqb_neq _ _) Hne) in Hjc.
    + rewrite M4, lookup_insert_ne, M3, lookup_delete_ne; [by apply Hkeep, Hgiven|intros <-; apply Hn, elem_of_app; right; by left|].
      intros <-. apply Hn, elem_of_app. right. right. right. by left.
Qed.

(** Memory before the request, but for the tag. *)
Lemma consistent_tagged u s s1 :
  sent fo rl s -> consistent d e rs s -> w_mem s1 = <[k := u]> (w_mem s) ->
  consistent d e rs s1 /\ arrives d e rs w i st s1.
Proof.
  intros [[Hdp Hmj Hc Hne Hn] _ _ _ (Hk & Hkp & Hks) _] Hcs M. split.
  - eapply consistent_frame; [done| |exact Hcs]. intros a Ha. rewrite M. apply lookup_insert_ne. by intros <-.
  - split; try done. destruct Hdp. split; try done; rewrite M; by rewrite lookup_insert_ne.
Qed.

Definition answer_for s : NTSTATUS * option client :=
  control_answer (kresp lock_call s) request_code p (InputBufferLength request_data) (SystemBuffer i) reg
    (kresp (event_reference reg mode) (kafter lock_call s)).

(** The request has its answer: those who wait are those before and who the
    answer says, the request is completed unless it is pending, and the remove
    lock is given back last. *)
Record answered s (status : NTSTATUS) s' : Prop := {
  an_status : status = (answer_for s).1;
  an_joins : joins d e rs (answer_for s).2 (closing_log (answer_for s).1) (given (answer_for s).1) s s';
  an_keeps : keeps (touched e ++ [p; CurrentStackLocation i; k]) s s';
  an_gone : status <> STATUS_PENDING -> w_mem s' !! p = None;
  an_lock : exists tag, w_mem s' !! k = Some (inj (WduRemoveLock.mk tag));
  an_unlocked : (kresp lock_call s : NTSTATUS) = STATUS_SUCCESS ->
    w_mem s' !! k = Some (inj (WduRemoveLock.mk None)) /\ exists cs, calls s' = cs ++ [unlock_call]
}.

(** What was so since the tag was set was so before. *)
Lemma answered_since answer joined s s1 s' :
  answer_for s = (answer, joined) ->
  (exists u, w_mem s1 = <[k := u]> (w_mem s)) -> signals (calls s1) = signals (calls s) ->
  joins d e rs joined (closing_log answer) (given answer) s1 s' ->
  keeps (touched e ++ [p; CurrentStackLocation i; k]) s1 s' ->
  (answer <> STATUS_PENDING -> w_mem s' !! p = None) ->
  (exists tag, w_mem s' !! k = Some (inj (WduRemoveLock.mk tag))) ->
  ((kresp lock_call s : NTSTATUS) = STATUS_SUCCESS ->
    w_mem s' !! k = Some (inj (WduRemoveLock.mk None)) /\ exists cs, calls s' = cs ++ [unlock_call]) ->
  answered s answer s'.
Proof.
  intros Ha [u M] S (xs & Hc & Hcl & Hs & Hin) Hk Hg Hl Hu.
  assert (Hsome : forall a, is_Some (w_mem s !! a) -> is_Some (w_mem s1 !! a)).
  { intros a Has. rewrite M. destruct (decide (a = k)) as [->|]; [by rewrite lookup_insert_eq; eexists|by rewrite lookup_insert_ne]. }
  split; rewrite ?Ha; [done| | |done..].
  - exists xs. split; [done|]. split; [done|]. split; [by rewrite Hs, S|]. intros a Hau Has. apply Hin; [done|by apply Hsome].
  - intros a Has Hna. rewrite Hk; [|by apply Hsome|done]. rewrite M. apply lookup_insert_ne. intros <-.
    apply Hna, elem_of_app. right. right. right. by left.
Qed.

Definition request_for : WduDeviceControl.WduDeviceControl :=
  WduDeviceControl.mk request_code (OutputBufferLength request_data) (InputBufferLength request_data)
    (buffers_for (method_from_ioctl request_code) i request_data).

Lemma request_buffer : request_code = IOCTL_REGISTER_EVENT ->
  WduDeviceControl.input_buffer request_for = SystemBuffer i.
Proof. unfold request_for. by intros ->. Qed.

(** What the handler does with a request it may handle. *)
Lemma wp_handled s s1 (Q : WduIrp * NTSTATUS -> world U -> Prop) :
  sent fo rl s -> consistent d e rs s -> w_mem s1 = <[k := inj (WduRemoveLock.mk (Some p))]> (w_mem s) ->
  let ref := kresp (event_reference reg mode) s1 : NTSTATUS * ptr in
  ref.2 ∉ omap event_of rs ->
  (forall r answer joined s2,
     control_answer STATUS_SUCCESS request_code p (InputBufferLength request_data) (SystemBuffer i) reg ref = (answer, joined) ->
     joins d e rs joined [] (given answer) s1 s2 -> keeps (touched e ++ given answer) s1 s2 ->
     (answer <> STATUS_PENDING -> r = w) -> Q (r, answer) s2) ->
  wp (if WduDeviceControl.ioctl request_for =? IOCTL_REGISTER_EVENT then
        r ← handle_register_event d w request_for;
        mret (r.1, match r.2 with Ok status => status | Err (Status status) => status | Err _ => STATUS_UNSUCCESSFUL end)
      else debug_assert (mret false) "assertion failed: false" ;; mret (w, STATUS_NOT_IMPLEMENTED)) s1 Q.
Proof.
  intros Hs Hcs M ref Hev HQ. destruct (consistent_tagged _ _ _ Hs Hcs M) as [Hcs1 Har1].
  destruct Hs as [Har Hmode _ [Hk0 Hkm] (Hk & Hkp & Hks) Hbuf]. unfold control_answer in HQ. simpl in HQ |- *.
  destruct (Z.eqb_spec request_code IOCTL_REGISTER_EVENT) as [Hcode|Hcode].
  - wp_step. eapply wp_mono.
    { apply (wp_handle_register request_for s1); [done..| |done]. rewrite request_buffer by done. simpl.
      intros Hlen Hb. destruct (Hbuf Hcode Hlen Hb) as [Hbk Hbm]. by rewrite M, lookup_insert_ne. }
    intros r s2 H. rewrite request_buffer in H by done. simpl in H. fold ref in H. wp_step.
    change (match r.2 with Ok status => status | Err (Status status) => status | Err _ => STATUS_UNSUCCESSFUL end)
      with (status_of r.2).
    destruct (registering p _ _ reg ref) as [answer joined] eqn:Ea. destruct H as (Hst & Hj & Hkeep & Hr).
    rewrite Hst. by eapply HQ.
  - unfold debug_assert. rewrite release_build. wp_step. apply wp_ret. wp_step. eapply HQ; [done| |done|done].
    by apply joins_none.
Qed.

(** With debug assertions, the handler of a code that is not the driver's
    panics, with the remove lock held and the request not completed. *)
Lemma device_control_asserts s :
  debug_assertions = true -> request_code <> IOCTL_REGISTER_EVENT -> sent fo rl s ->
  (kresp lock_call s : NTSTATUS) = STATUS_SUCCESS ->
  exists s', Event.device_control d w request_for s = Panicked "assertion failed: false" s' /\
    calls s' = calls s ++ [lock_call] /\ w_mem s' = <[k := inj (WduRemoveLock.mk (Some p))]> (w_mem s).
Proof.
  intros Hdbg Hcode Hs Hst. pose proof Hs as [[Hdp _ _ _ _] _ [Hf0 Hf] [Hk0 Hkm] _ _].
  destruct (wp_elim (WduRemoveLock.acquire size_of_IO_REMOVE_LOCK line k (Some p)) s (fun r s' => r = STATUS_SUCCESS /\
    calls s' = calls s ++ [lock_call] /\ w_mem s' = <[k := inj (WduRemoveLock.mk (Some p))]> (w_mem s)))
    as (r & s1 & E & -> & C & M).
  { eapply wp_remove_acquire; [done..|]. intros c s1 M1 C1 _. by split. }
  exists s1. split; [|done]. unfold Event.device_control. erewrite bind_done by by eapply file_object_done.
  erewrite bind_done by (unfold assert_, WduFileObject.is_valid; simpl; by rewrite not_null).
  erewrite bind_done.
  2: { unfold WduFileObject.context_as_mut_ref. erewrite bind_done by by apply load_at. by rewrite not_null. }
  erewrite bind_done by done. erewrite bind_done by exact E. simpl.
  rewrite (proj2 (Z.eqb_neq _ _) Hcode). do 2 apply bind_panicked. unfold debug_assert. by rewrite Hdbg.
Qed.

Lemma wp_device_control s :
  sent fo rl s -> consistent d e rs s ->
  (kresp (event_reference reg mode) (kafter lock_call s) : NTSTATUS * ptr).2 ∉ omap event_of rs ->
  wp (Event.device_control d w request_for) s (fun r s' => answered s r.2 s').
Proof.
  intros Hs Hcs Hev. pose proof Hs as [[Hdp _ _ Hps [Hpn _]] _ [Hf0 Hf] [Hk0 Hkm] (Hk & Hkp & Hks) _].
  pose proof Hdp as [Hp0 Hpm _ _ _ _]. unfold Event.device_control.
  wp_step. eapply wp_done; [by eapply file_object_done|]. wp_step.
  apply wp_assert; [by apply negb_true_iff, not_null|]. unfold WduFileObject.context_as_mut_ref.
  do 2 wp_step. eapply wp_load; [done..|]. wp_step. rewrite not_null by done. wp_step. simpl. wp_step. wp_step.
  eapply wp_remove_acquire; [done..|]. intros c s1 M1 C1 K1. change c with lock_call in *. clear c.
  assert (S1 : signals (calls s1) = signals (calls s)) by (rewrite C1, signals_app; apply app_nil_r).
  destruct (consistent_tagged _ _ _ Hs Hcs M1) as [Hcs1 _].
  assert (Hp1 : w_mem s1 !! p = Some (inj i)) by (rewrite M1; by rewrite lookup_insert_ne).
  assert (Hans : answer_for s = control_answer (kresp lock_call s) request_code p (InputBufferLength request_data)
    (SystemBuffer i) reg (kresp (event_reference reg mode) s1)) by (unfold answer_for, kresp; by rewrite K1).
  replace (kresp (event_reference reg mode) (kafter lock_call s)) with (kresp (event_reference reg mode) s1) in Hev
    by (unfold kresp; by rewrite K1).
  destruct (Z.eqb_spec (kresp lock_call s) STATUS_SUCCESS) as [Hst|Hst]; simpl.
  - wp_step. eapply wp_handled; [done..|]. intros r answer joined s2 Ha Hj Hkeep Hr. rewrite Hst, Ha in Hans.
    eapply (wp_closing r answer joined (Some p) s1 s2); try done.
    { rewrite !NoDup_cons, !not_elem_of_cons. split_and!; first [done|apply not_elem_of_nil|apply NoDup_nil_2]. }
    { rewrite M1. map_at. }
    intros s3 Hj3 Hk3 Hg3 Hu3 Hc3. simpl. eapply (answered_since answer joined s s1 s3); try done; by eexists.
  - wp_step. eapply wp_complete; [done..|]. simpl. intros s2 M2 C2. wp_step.
    unfold control_answer in Hans. rewrite (proj2 (Z.eqb_neq _ _) Hst) in Hans. simpl in Hans.
    eapply (answered_since _ _ s s1 s2); [exact Hans|by eexists|done| | |intros _; rewrite M2; map_at|eexists; rewrite M2, M1; map_at|done].
    + eapply (joins_completed None _ s1 s1 s2); [|done|by eexists|done|done|by rewrite C2, signals_app].
      by apply joins_none.
    + intros a _ Hna. rewrite M2. apply lookup_delete_ne. intros <-. apply Hna, elem_of_app. right. by left.
Qed.
End sent.
End request.

(** ** Through the crate *)

(** A call leaves the request as it is. *)
Lemma sent_looked_up c d e rs p (i : IRP) st mode reg (fo : FILE_OBJECT) (rl : WduRemoveLock) s :
  sent d e rs p i st mode reg fo rl s -> sent d e rs p i st mode reg fo rl (kafter c s).
Proof. intros [[[] ? ? ? ?] ? ? ? ? ?]. split; try done; split; try done; by split. Qed.

(** What the crate's dispatch handler does is what the driver's does, after the
    driver's extension was looked up. *)
Lemma wp_control_request dev (o : DEVICE_OBJECT) d drv e rs p (i : IRP) st mode reg (fo : FILE_OBJECT)
    (rl : WduRemoveLock) s :
  attached dev o d drv s -> IoDispath.ioctl (io_rtns drv) = Some (code_addr "event::device_control") ->
  consistent d e rs s -> sent d e rs p i st mode reg fo rl s ->
  let s0 := kafter (IoGetDriverObjectExtension (DriverObject o) id_addr) s in
  (kresp (event_reference reg mode) (kafter (lock_call p fo) s0) : NTSTATUS * ptr).2 ∉ omap event_of rs ->
  wp (WduDriver.dispatch_handler dev p) s (fun status s' => answered d e rs p i st mode reg fo s0 status s').
Proof.
  intros Ha Hio Hcs Hs s0 Hev.
  eapply wp_from; [apply (dispatch_prefix dev p i st MajorFunction.DeviceControl d o drv); [apply Hs..|exact Ha]|].
  fold s0. simpl (MajorFunction.is_fileobj _). cbv iota.
  pose proof (sent_looked_up (IoGetDriverObjectExtension (DriverObject o) id_addr) _ _ _ _ _ _ _ _ _ _ _ Hs) as Hs0.
  assert (Hcs0 : consistent d e rs s0) by (by apply (consistent_frame release_build d e rs s s0)).
  wp_step. unfold WduDriver.io_dispatch. simpl. rewrite Hio. wp_step. eapply wp_done; [by eapply new_control_done; apply Hs0|].
  rewrite at_code_self. eapply wp_mono; [exact (wp_device_control d e rs p i st mode reg fo rl s0 Hs0 Hcs0 Hev)|].
  intros r s' H. by apply wp_ret.
Qed.

End control.

Section answered.
Context {KN : Kernel} {B : Build} {LK : Linked} {NS : NtStatics} {EL : EventLayout} {U : Type}.
Context `{!Storable U DRIVER_OBJECT, !Storable U DRIVER_EXTENSION, !Storable U DEVICE_OBJECT}.
Context `{!Storable U WduDevice, !Storable U WduDriver, !Storable U MDL, !Storable U SECURITY_CONTEXT}.
Context `{!Storable U IRP, !Storable U IO_STACK_LOCATION, !Storable U WduIrp, !Storable U FILE_OBJECT}.
Context `{!Storable U WduSpinLock, !Storable U WduRemoveLock, !Storable U RegisterEvent}.
Context `{!Storable U DeviceExtension, !Storable U NotifyRecord, !Storable U (WduDpc NotifyData)}.
Context (slot : ptr).
#[local] Instance control_client : Client U := event_client slot.
Implicit Types s : world U.

(** C5: a control request to the event driver, with any code, length and
    contents, not cancelled yet, and while nobody waits for the event it names, if it names one (two
    waits for one event are [event_same_object_confused]).  The crate's
    dispatch handler runs the driver's.
    In a build without debug assertions it ends, and what the I/O manager and
    the client are told is what [control_answer] says: a handle that is being
    closed, a foreign code, a short or ill-typed input or a refused event is
    reported and the request completed, once, with the same status; a good
    request for a completion stays pending, and one for an event is completed,
    and then its client waits besides those that waited before.  The remove
    lock of the handle is given back last, with the tag it was taken with;
    nothing else in memory has changed but the queue.
    In a build with debug assertions a foreign code is a panic, unless the
    handle is being closed: the request is not completed, and the remove lock
    is not given back. *)
Theorem event_control_answered dev (o : DEVICE_OBJECT) d drv e rs p (i : IRP) st mode reg
    (fo : FILE_OBJECT) (rl : WduRemoveLock) s :
  attached dev o d drv s -> IoDispath.ioctl (io_rtns drv) = Some (code_addr "event::device_control") ->
  consistent d e rs s -> sent d e rs p i st mode reg fo rl s ->
  let s0 := kafter (IoGetDriverObjectExtension (DriverObject o) id_addr) s in
  let removing := kresp (lock_call p fo) s0 : NTSTATUS in
  let ref := kresp (event_reference reg mode) (kafter (lock_call p fo) s0) : NTSTATUS * ptr in
  ref.2 ∉ omap event_of rs ->
  let answer := control_answer removing (request_code st) p (InputBufferLength (request_data st)) (SystemBuffer i) reg ref in
  (debug_assertions = false ->
   wp (WduDriver.dispatch_handler dev p) s (fun status s' =>
    status = answer.1 /\
    (exists rs', consistent d e rs' s' /\ client_of <$> rs' = (client_of <$> rs) ++ option_list answer.2) /\
    told (signals (calls s')) = told (signals (calls s)) ++
      (if status =? STATUS_PENDING then [] else [Completed p status]) /\
    (status <> STATUS_PENDING -> w_mem s' !! p = None) /\
    (removing = STATUS_SUCCESS ->
       w_mem s' !! FsContext fo = Some (inj (WduRemoveLock.mk None)) /\
       exists cs, calls s' = cs ++ [unlock_call p fo]) /\
    keeps (touched e ++ [p; CurrentStackLocation i; FsContext fo]) s s')) /\
  (debug_assertions = true -> request_code st <> IOCTL_REGISTER_EVENT -> removing = STATUS_SUCCESS ->
   exists s', WduDriver.dispatch_handler dev p s = Panicked "assertion failed: false" s' /\
     calls s' = calls s0 ++ [lock_call p fo] /\
     w_mem s' = <[FsContext fo := inj (WduRemoveLock.mk (Some p))]> (w_mem s)).
Proof.
  intros Ha Hio Hcs Hs s0 removing ref Hev answer. split.
  - intros release_build.
    eapply wp_mono; [exact (wp_control_request release_build slot dev o d drv e rs p i st mode reg fo rl s Ha Hio Hcs Hs Hev)|].
    intros status s' [Hst (xs & Hc & Hcl & Ht & _) Hk Hg _ Hu]. change (answer_for _ _ _ _ _ _ _) with answer in *.
    rewrite <- Hst in Ht. split; [done|]. split; [exists (rs ++ xs); by rewrite fmap_app, Hcl|]. split; [|by split_and!].
    rewrite Ht, calls_kafter, signals_app. cbn [signals omap list_omap]. rewrite app_nil_r.
    unfold told at 1. rewrite omap_app. f_equal. fold (told ((timer_set <$> xs) ++ closing_log p status)).
    rewrite told_timers_set. unfold closing_log. by destruct (status =? STATUS_PENDING).
  - intros Hdbg Hcode Hst.
    pose proof (sent_looked_up (IoGetDriverObjectExtension (DriverObject o) id_addr) _ _ _ _ _ _ _ _ _ _ _ Hs) as Hs0.
    destruct (device_control_asserts d e rs p i st mode reg fo rl s0 Hdbg Hcode Hs0 Hst) as (s' & E & C & M). exists s'. split; [|done].
    rewrite (dispatch_prefix dev p i st MajorFunction.DeviceControl d o drv) by (done || apply Hs). fold s0.
    simpl (MajorFunction.is_fileobj _). cbv iota. apply bind_panicked. unfold WduDriver.io_dispatch. simpl. rewrite Hio.
    erewrite bind_done by (eapply new_control_done; apply Hs0). simpl. rewrite at_code_self. exact E.
Qed.
End answered.

(** ** Instances *)

#[local] Existing Instance EventDemo.build.
#[local] Existing Instance EventDemo.statics.
#[local] Existing Instance EventDemo.linked.
#[local] Existing Instance EventDemo.layout.

Module DispatchDemo.
Abbreviation cells :=
  (DRIVER_OBJECT + (DRIVER_EXTENSION + (DEVICE_OBJECT + (WduDevice + (WduDriver + (MDL + (SECURITY_CONTEXT +
    (IRP + (IO_STACK_LOCATION + (WduIrp + (FILE_OBJECT + (WduSpinLock + (WduRemoveLock + (RegisterEvent +
    (DeviceExtension + (NotifyRecord + (WduDpc NotifyData + unit)))))))))))))))))%type.
(** The driver's extension is at 0xB00. *)
#[export] Instance kernel : Kernel := {|
  kstate := unit;
  kstep c k := (match c as c return kret c with
                | IoGetDriverObjectExtension _ _ => 0xB00
                | ObReferenceObjectByHandle _ _ _ _ => (STATUS_SUCCESS, 0x600)
                | c => default_answer c
                end, k) |}.

Definition drv : WduDriver :=
  mkWduDriver true 0x80 None None (IoDispath.ioctl_irp IoDispath.default (code_addr "event::device_control"))
    FileObjDispatch.default.
Definition stack : IO_STACK_LOCATION :=
  mkStack IRP_MJ_DEVICE_CONTROL 0 0x400 (mkCreateParams 0 0 0) (mkDeviceIoControlRaw 0 24 IOCTL_REGISTER_EVENT 0).
(** The device at 0x900, a request at 0x100 through the handle at 0x400. *)
Definition asking (type : Z) : RegisterEvent := mkRegisterEvent type 0x44 (-50).
Definition before (type : Z) : world cells :=
  World tt [] {[0x900 := inj EventDemo.object; 0xA00 := inj EventDemo.device; 0xB00 := inj drv;
    0xA30 := inj WduSpinLock.new; 0xA18 := inj (mkDeviceExtension []); 0x100 := inj IrpDemo.irp;
    0x200 := inj stack; 0x300 := inj (asking type); 0x400 := inj EventDemo.file; 0x680 := inj WduRemoveLock.new]}.

Lemma event_attached type : attached 0x900 EventDemo.object EventDemo.device drv (before type).
Proof. split; concrete. Qed.
Lemma nobody_waits type : consistent EventDemo.device 0xA18 [] (before type).
Proof.
  split; [|constructor|concrete|constructor].
  split; [concrete|exists EventDemo.object; split; concrete|concrete..|]. exists WduSpinLock.new. concrete.
Qed.
Lemma request_sent type :
  sent EventDemo.device 0xA18 [] 0x100 IrpDemo.irp stack ProcessorMode.UserMode (asking type)
    EventDemo.file WduRemoveLock.new (before type).
Proof.
  split; [|reflexivity|split; concrete|split; concrete|split_and!; concrete|split; concrete].
  split; [split; first [concrete|simpl; lia]|concrete|discriminate|discriminate|split; concrete].
Qed.
End DispatchDemo.
#[local] Existing Instance DispatchDemo.kernel.
#[local] Instance demo_client : Client DispatchDemo.cells := event_client 0x480.

(** One client asks for a completion, one for an event. *)
Lemma event_control_answered_witness :
  wp (WduDriver.dispatch_handler 0x900 0x100) (DispatchDemo.before IRP_BASED) (fun status s' =>
    status = STATUS_PENDING /\ told (signals (calls s')) = []) /\
  wp (WduDriver.dispatch_handler 0x900 0x100) (DispatchDemo.before EVENT_BASED) (fun status s' =>
    status = STATUS_SUCCESS /\ told (signals (calls s')) = [Completed 0x100 STATUS_SUCCESS]).
Proof.
  assert (Hev : forall ev : ptr, ev ∉ omap event_of []) by (intros ev; apply not_elem_of_nil).
  pose proof (fun type => event_control_answered 0x480 0x900 EventDemo.object EventDemo.device DispatchDemo.drv
    0xA18 [] 0x100 IrpDemo.irp DispatchDemo.stack ProcessorMode.UserMode (DispatchDemo.asking type) EventDemo.file
    WduRemoveLock.new (DispatchDemo.before type) (DispatchDemo.event_attached type) eq_refl
    (DispatchDemo.nobody_waits type) (DispatchDemo.request_sent type) (Hev _)) as H. cbv zeta in H.
  split; (eapply wp_mono; [exact (proj1 (H _) eq_refl)|]); intros status s' (Hs & _ & Ht & _);
    vm_compute in Hs; subst status; (split; [reflexivity|exact Ht]).
Defined.
