(* ===== verification/EventServer.v ===== *)
(** * EventServer: the event driver among its callers

    The system of [EventSystem] is of the handlers; here they are behind the
    crate's dispatch handler, with all the requests the driver registers
    routines for: file objects are opened, control requests are sent through
    the handles, handles are cleaned up and closed.  The specification is a
    desk, which keeps who waits, what is open and what was told; every happening
    is one of the desk's.  What callers can do that the driver is not up to is
    left out of [asked] and [serve], which say so. *)

From stdpp Require Import relations.
From S2P Require Import Prelude Nt World Quiet UnicodeStr Crate Pool FileObj Device Mdl Irp DeviceControl Driver SpinLock Sync Process Event EventSystem EventLife EventDispatch.
Import WduUnicodeStr (WduUnicodeStr).
Import WduDevice (WduDevice).
Import WduFileObject (WduFileObject).
Import WduIrp (WduIrp).
Import WduIoStatus (WduIoStatus).
Import WduCreate (WduCreate).
Import MajorFunction (MajorFunction).
Import WduDeviceControl (WduDeviceControl).
Import WduSpinLock (WduSpinLock).
Import WduRemoveLock (WduRemoveLock).
Import WduDpc (WduDpc).
Import ProcessorMode (ProcessorMode).

Section server.
Context {KN : Kernel} {B : Build} {LK : Linked} {NS : NtStatics} {EL : EventLayout} {U : Type}.
Context `{!Storable U DRIVER_OBJECT, !Storable U DRIVER_EXTENSION, !Storable U DEVICE_OBJECT}.
Context `{!Storable U WduDevice, !Storable U WduDriver, !Storable U MDL, !Storable U SECURITY_CONTEXT}.
Context `{!Storable U IRP, !Storable U IO_STACK_LOCATION, !Storable U WduIrp, !Storable U FILE_OBJECT}.
Context `{!Storable U WduSpinLock, !Storable U WduRemoveLock, !Storable U RegisterEvent}.
Context `{!Storable U DeviceExtension, !Storable U NotifyRecord, !Storable U (WduDpc NotifyData)}.
Context {EX : DriverExtensions}.
Context (release_build : debug_assertions = false).
Context (slot : ptr).
#[local] Existing Instance event_client.
#[local] Instance server_client : Client U := event_client slot.
Implicit Types s : world U.

(** ** The calls the handlers make *)

(** No call but one changes a driver's extension. *)
Definition makes_extension (c : kcall) : bool :=
  if c is IoAllocateDriverObjectExtension _ _ _ then true else false.

(** That is what is documented of the extension of the driver at [p]. *)
Definition extension_stays (p : ptr) : Prop := forall c k, makes_extension c = false ->
  ext_of (kstep c k).2 p id_addr = ext_of k p id_addr.

Section quiet.
Context (P : world U -> Prop) `{!Memoryless P}.
Hypothesis HP : forall c, makes_extension c = false -> leaves P c.

Lemma quiet_position {A} (f : A -> M (world U) bool) l : (forall x, quiet P (f x)) -> quiet P (position_m f l).
Proof. intros Hf. induction l; simpl; [apply quiet_ret|]. quiet; auto. Qed.

(** The loops of the handlers, then their straight code. *)
Ltac quiet_calls := repeat first [solve [auto with quiet nocore] | apply quiet_position | apply HP; reflexivity | quiet_step].

Lemma quiet_spin_lock l code reg : quiet P (WduSpinLock.exec_all l code reg).
Proof. revert reg. induction code; intros reg; simpl; [apply quiet_ret|]. quiet_calls. Qed.
#[local] Hint Resolve quiet_spin_lock : quiet.

Lemma quiet_cleanup_records f q : quiet P (cleanup_records f q).
Proof. induction q; simpl; [apply quiet_ret|]. quiet_calls. Qed.
#[local] Hint Resolve quiet_cleanup_records : quiet.

Lemma quiet_kernel_dpc dpc : quiet P (kernel_dpc dpc).
Proof. quiet_calls. Qed.
Lemma quiet_kernel_cancel dev p irql : quiet P (kernel_cancel dev p irql).
Proof. quiet_calls. Qed.
Lemma quiet_dispatch dev p : quiet P (WduDriver.dispatch_handler dev p).
Proof. quiet_calls. all: unfold server_client, event_client; cbv beta iota; quiet_calls. Qed.
End quiet.
(** ** The routines for handles *)

Lemma wp_create d p (i : IRP) data f (fo : FILE_OBJECT) s :
  WduCreate.file_object data = WduFileObject.wrap f -> p <> 0 -> w_mem s !! p = Some (inj i) ->
  f <> 0 -> w_mem s !! f = Some (inj fo) -> FsContext fo = null -> slot <> 0 -> NoDup [slot; f; p] ->
  wp (Event.create slot d (WduIrp.mk p MajorFunction.Create None) data) s (fun _ s' =>
    exists b, b <> 0 /\ (forall a, is_Some (w_mem s !! a) -> a <> slot -> a <> b) /\
      w_mem s' = delete p (<[f := inj (mkFileObject (FileName fo) b (FsContext2 fo))]>
                   (<[b := inj WduRemoveLock.new]> (delete slot (w_mem s)))) /\
      signals (calls s') = signals (calls s) ++ [Completed p STATUS_SUCCESS]).
Proof.
  intros Hdata Hp Hi Hf Hfo Hctx Hs Ha. apart Ha. unfold Event.create, WduRemoveLock.init, WduFileObject.context.
  rewrite Hdata. wp_step. apply wp_install; [done|]. name_state s1 M1 C1. wp_step. wp_step. name_state s2 M2 C2.
  rewrite M1 in M2. wp_step. eapply wp_box_from_raw; [done|rewrite M2; map_at|]. name_state s3 M3 C3.
  rewrite M2, delete_insert_eq in M3. simpl. wp_step. wp_step. eapply wp_load; [done|rewrite M3; map_at|].
  rewrite Hctx. wp_step. simpl. wp_step.
  do 4 wp_step. cbv zeta. set (b := fresh_addr (w_mem s3)).
  assert (Hb : b <> 0 /\ forall a, is_Some (w_mem s !! a) -> a <> slot -> a <> b).
  { pose proof (fresh_addr_pos (w_mem s3)). unfold b. split; [lia|]. intros a [u Hu] Hne Hab.
    assert (H3' : w_mem s3 !! a = Some u) by (rewrite M3, lookup_delete_ne; [done|by intros <-]).
    rewrite Hab, (fresh_addr_fresh (w_mem s3)) in H3'. done. }
  clearbody b. destruct Hb as [Hb0 Hb]. pose proof (Hb f ltac:(by eexists) ltac:(done)) as Hfb.
  pose proof (Hb p ltac:(by eexists) ltac:(done)) as Hpb.
  eapply wp_update; [done|simpl; rewrite M3; map_at|]. name_state s4 M4 C4. simpl in M4. rewrite M3 in M4.
  wp_step. eapply wp_complete; [done|rewrite M4; map_at|]. intros s5 M5 C5. wp_step.
  exists b. split; [done|]. split; [done|]. split; [by rewrite M5, M4|].
  rewrite C5, C4, ?calls_set_mem, C3, C2, C1, !signals_app. simpl. by rewrite app_nil_r.
Qed.

Lemma wp_close d p (i : IRP) f (fo : FILE_OBJECT) (rl : WduRemoveLock) s :
  p <> 0 -> w_mem s !! p = Some (inj i) -> f <> 0 -> w_mem s !! f = Some (inj fo) ->
  FsContext fo <> 0 -> w_mem s !! FsContext fo = Some (inj rl) -> p <> FsContext fo ->
  wp (Event.close d (WduIrp.mk p MajorFunction.Close None) (WduFileObject.wrap f)) s (fun _ s' =>
    w_mem s' = delete p (delete (FsContext fo) (w_mem s)) /\
    signals (calls s') = signals (calls s) ++ [Completed p STATUS_SUCCESS]).
Proof.
  intros Hp Hi Hf Hfo Hk Hl Hne. unfold Event.close, WduFileObject.context.
  wp_step. wp_step. eapply wp_load; [done..|]. rewrite not_null by done. wp_step. simpl. wp_step.
  unfold drop_box. wp_step. eapply wp_box_from_raw; [done..|]. wp_step. wp_step.
  eapply wp_complete; [done|map_at|]. intros s1 M1 C1. wp_step. split; [done|]. by rewrite C1, signals_app.
Qed.

(** With nobody in the queue a handle is cleaned up without harm. *)
Lemma wp_cleanup_idle d e p (i : IRP) f (fo : FILE_OBJECT) (rl : WduRemoveLock) s :
  (kresp (IoAcquireRemoveLockEx (FsContext fo) p line size_of_IO_REMOVE_LOCK) s : NTSTATUS) = STATUS_SUCCESS ->
  queued d e [] s -> p <> 0 -> w_mem s !! p = Some (inj i) -> f <> 0 -> w_mem s !! f = Some (inj fo) ->
  FsContext fo <> 0 -> w_mem s !! FsContext fo = Some (inj rl) ->
  NoDup [p; f; FsContext fo; WduDevice.device d; e; queue_lock e] ->
  wp (Event.cleanup d (WduIrp.mk p MajorFunction.Cleanup None) (WduFileObject.wrap f)) s (fun _ s' =>
    queued d e [] s' /\ only_at [e; queue_lock e; FsContext fo; p] s s' /\
    w_mem s' !! FsContext fo = Some (inj (WduRemoveLock.mk None)) /\
    signals (calls s') = signals (calls s) ++ [Completed p STATUS_SUCCESS]).
Proof.
  intros Hacq Hq Hp Hi Hf Hfo Hk Hl Ha. pose proof Hq as [Hd (o & Hoo & Hoe) He0 He Hl0 _].
  pose proof Ha as Ha'. apart Ha'. apply NoDup_cons in Ha as [_ Ha].
  eapply (wp_cleanup release_build d e [] (WduIrp.mk p MajorFunction.Cleanup None) f fo rl i); [done..|].
  intros lk s1 M1 S1. apply wp_ret. split; [done|]. split; [eexists; rewrite M1; map_at|].
  split; [rewrite M1; map_at|]. split; [rewrite M1; map_at|]. split; [done|]. intros s3 M3 S3. rewrite M1 in M3.
  split; [|split; [|split; [rewrite M3; map_at|by rewrite S3, S1]]].
  - split; try done; [exists o; split; [|done]|..|exists lk]; rewrite M3; map_at.
  - intros a Hna. rewrite !not_elem_of_cons in Hna. destruct_and! Hna. rewrite M3. map_at.
Qed.

(** ** The driver and the I/O manager *)

(** A handle that is open on the device: its file object and the context that
    [create] gave it. *)
Record handle : Type := mkHandle { h_file : ptr; h_lock : ptr }.
Definition handle_cells (h : handle) : list ptr := [h_file h; h_lock h].

Record server : Type := mkServer { sv_system : system (U := U); sv_handles : list handle }.
Implicit Types (sv : server) (hs : list handle).
Definition now sv : world U := sy_world (sv_system sv).

(** What a request asks for.  Of a control request: the answer of the handle's
    remove lock, the code, the length and address of the input, what is in it,
    and the answer to the handle of the client's event. *)
Inductive asking : Type :=
| Open
| Control (removing : NTSTATUS) (code len : Z) (buffer : ptr) (reg : RegisterEvent) (ref : NTSTATUS * ptr)
| CleanUp
| Close
| Transfer.

(** What happens: a request [p] on the file object [f] is dispatched and
    answered with a status; a timer is due; the kernel is asked to cancel a
    request; or something that is no business of the driver's. *)
Inductive happening : Type :=
| Asked (p f : ptr) (what : asking) (status : NTSTATUS)
| TimerDue
| CancelAsked (p : ptr)
| Elsewhere.

Section device.
(** The device, with the driver's part of its extension at [e]; the driver's own
    extension is at [ext]. *)
Context (dev : ptr) (o : DEVICE_OBJECT) (e ext : ptr).

Definition waits sv : list entry := waiting e (sv_system sv).

(** The addresses that are taken: by the crate, by the handles, by the driver. *)
Definition cells hs : list ptr := [Nt.DeviceExtension o; ext] ++ (hs ≫= handle_cells).
Definition used sv : list ptr := cells (sv_handles sv) ++ in_use (WduDevice.wrap_device dev) e (waits sv).

(** The state in which the crate has looked the driver's extension up. *)
Definition looked_up sv : world U := kafter (IoGetDriverObjectExtension (DriverObject o) id_addr) (now sv).

(** A packet the I/O manager has made: at addresses of its own. *)
Record packet sv (p : ptr) (i : IRP) (st : IO_STACK_LOCATION) (mj : MajorFunction) : Prop := {
  pk_dispatched : dispatched p i st (now sv);
  pk_major : MajorFunction_ st = major_code mj;
  pk_apart : p <> CurrentStackLocation i;
  pk_new : p ∉ used sv /\ CurrentStackLocation i ∉ used sv
}.

(** What can be asked, and how.  A file object is opened once, without a
    context; the other requests come through an open handle.  The driver takes
    more than this, and is not up to it: an event is asked for only if nobody
    waits for it yet ([event_same_object_confused]), a request is not cancelled
    yet when it is sent, and a handle is cleaned
    up only when nobody waits ([event_cleanup_abandons_request],
    [event_cleanup_drops_listeners]) and its remove lock was not given up
    before. *)
Inductive asked sv (p : ptr) : ptr -> asking -> Prop :=
| ask_open i st sec fo :
    packet sv p i st MajorFunction.Create ->
    (SecurityContext (Parameters_Create st) <> null ->
     w_mem (now sv) !! SecurityContext (Parameters_Create st) = Some (inj (sec : SECURITY_CONTEXT))) ->
    OriginalFileObject i <> 0 -> w_mem (now sv) !! OriginalFileObject i = Some (inj fo) -> FsContext fo = null ->
    OriginalFileObject i ∉ used sv -> slot <> 0 -> slot ∉ used sv ->
    NoDup [slot; OriginalFileObject i; p] ->
    asked sv p (OriginalFileObject i) Open
| ask_control h i st mode reg fo :
    packet sv p i st MajorFunction.DeviceControl -> Cancel i <> 1 ->
    RequestorMode i = ProcessorMode.into_i8 mode ->
    h ∈ sv_handles sv -> FileObject st = h_file h -> w_mem (now sv) !! h_file h = Some (inj fo) ->
    (request_code st = IOCTL_REGISTER_EVENT -> size_of_RegisterEvent <= InputBufferLength (request_data st) ->
     SystemBuffer i <> null -> SystemBuffer i <> h_lock h /\ w_mem (now sv) !! SystemBuffer i = Some (inj reg)) ->
    let removing := kresp (lock_call p fo) (looked_up sv) : NTSTATUS in
    let ref := kresp (event_reference reg mode) (kafter (lock_call p fo) (looked_up sv)) : NTSTATUS * ptr in
    ref.1 <> STATUS_PENDING -> ref.2 ∉ omap event_of (waits sv) ->
    asked sv p (h_file h)
      (Control removing (request_code st) (InputBufferLength (request_data st)) (SystemBuffer i) reg ref)
| ask_cleanup h i st :
    packet sv p i st MajorFunction.Cleanup -> h ∈ sv_handles sv -> FileObject st = h_file h -> waits sv = [] ->
    (kresp (IoAcquireRemoveLockEx (h_lock h) p line size_of_IO_REMOVE_LOCK) (looked_up sv) : NTSTATUS) = STATUS_SUCCESS ->
    asked sv p (h_file h) CleanUp
| ask_close h i st :
    packet sv p i st MajorFunction.Close -> h ∈ sv_handles sv -> FileObject st = h_file h ->
    asked sv p (h_file h) Close
| ask_transfer i st mj :
    packet sv p i st mj -> mj = MajorFunction.Read \/ mj = MajorFunction.Write ->
    asked sv p (FileObject st) Transfer.

(** What the I/O manager has seen when the dispatch handler returns. *)
Definition context_at s (f : ptr) : ptr :=
  if w_mem s !! f ≫= prj (T := FILE_OBJECT) is Some fo then FsContext fo else null.
Definition pended (p : ptr) (status : NTSTATUS) (sy : system (U := U)) : system :=
  if status =? STATUS_PENDING then mkSystem (sy_world sy) (sy_timers sy) (p :: sy_pending sy) else sy.
Definition handles_after (f : ptr) (what : asking) s' hs : list handle :=
  match what with
  | Open => mkHandle f (context_at s' f) :: hs
  | Close => filter (fun h => h_file h <> f) hs
  | _ => hs
  end.
Definition after (p f : ptr) (what : asking) (status : NTSTATUS) s' sv : server :=
  mkServer (pended p status (react (sv_system sv) s')) (handles_after f what s' (sv_handles sv)).

(** The crate's routines run, one at a time and each to its end: the dispatch
    handler, the DPC and the cancel routine, as the kernel calls them.  As in
    [EventSystem.step], a request is cancelled while its timer still runs, not
    when the timer's DPC is queued already. *)
Inductive serve : happening -> server -> server -> Prop :=
| serve_request p f what status sv s' :
    asked sv p f what -> WduDriver.dispatch_handler dev p (now sv) = Done status s' ->
    serve (Asked p f what status) sv (after p f what status s' sv)
| serve_timer t dpc sv s' :
    (t, dpc) ∈ sy_timers (sv_system sv) -> kernel_dpc dpc (now sv) = Done tt s' ->
    serve TimerDue sv (mkServer (react (expire t (sv_system sv)) s') (sv_handles sv))
| serve_cancel p irql sv s' :
    p ∈ sy_pending (sv_system sv) -> kernel_cancel dev p irql (now sv) = Done tt s' ->
    serve (CancelAsked p) sv (mkServer (react (sv_system sv) s') (sv_handles sv))
| serve_elsewhere s' sv :
    (forall a, a ∈ used sv -> w_mem s' !! a = w_mem (now sv) !! a) -> calls s' = calls (now sv) ->
    ext_of (w_kernel s') (DriverObject o) id_addr = ext_of (w_kernel (now sv)) (DriverObject o) id_addr ->
    serve Elsewhere sv (mkServer (mkSystem s' (sy_timers (sv_system sv)) (sy_pending (sv_system sv))) (sv_handles sv)).

(** ** The specification

    A desk: who waits, which file objects are open, and what has been told. *)
Record desk : Type := mkDesk { dk_waiting : list client; dk_open : list ptr; dk_told : list signal }.

Inductive attends : happening -> desk -> desk -> Prop :=
| attend_open p f cs fs log : f ∉ fs ->
    attends (Asked p f Open STATUS_SUCCESS) (mkDesk cs fs log) (mkDesk cs (f :: fs) (log ++ [Completed p STATUS_SUCCESS]))
| attend_control p f removing code len buffer reg ref cs fs log : f ∈ fs ->
    let answer := control_answer removing code p len buffer reg ref in
    attends (Asked p f (Control removing code len buffer reg ref) answer.1) (mkDesk cs fs log)
      (mkDesk (cs ++ option_list answer.2) fs (log ++ closing_log p answer.1))
| attend_cleanup p f fs log : f ∈ fs ->
    attends (Asked p f CleanUp STATUS_SUCCESS) (mkDesk [] fs log) (mkDesk [] fs (log ++ [Completed p STATUS_SUCCESS]))
| attend_close p f cs fs log : f ∈ fs ->
    attends (Asked p f Close STATUS_SUCCESS) (mkDesk cs fs log)
      (mkDesk cs (filter (fun f' => f' <> f) fs) (log ++ [Completed p STATUS_SUCCESS]))
| attend_transfer p f dk : attends (Asked p f Transfer STATUS_SUCCESS) dk dk
| attend_timer c cs cs' fs log : cs ≡ₚ c :: cs' ->
    attends TimerDue (mkDesk cs fs log) (mkDesk cs' fs (log ++ answer c))
| attend_cancel p cs cs' fs log : cs ≡ₚ Request p :: cs' ->
    attends (CancelAsked p) (mkDesk cs fs log) (mkDesk cs' fs (log ++ [Completed p STATUS_CANCELLED]))
| attend_elsewhere dk : attends Elsewhere dk dk.

Definition desk_of sv : desk :=
  mkDesk (client_of <$> waits sv) (h_file <$> sv_handles sv) (told (signals (calls (now sv)))).

(** Some happenings, one after another. *)
Inductive run {A} (step : happening -> A -> A -> Prop) : list happening -> A -> A -> Prop :=
| run_nil a : run step [] a a
| run_cons x xs a b c : step x a b -> run step xs b c -> run step (x :: xs) a c.

(** ** The invariant *)

Record opened s (h : handle) : Prop := {
  op_file : h_file h <> 0;
  op_lock : h_lock h <> 0;
  op_object : exists fo, w_mem s !! h_file h = Some (inj (fo : FILE_OBJECT)) /\ FsContext fo = h_lock h;
  op_remove : exists rl, w_mem s !! h_lock h = Some (inj (rl : WduRemoveLock))
}.

(** The system of the handlers is sound, the crate finds the device and the
    driver, every open handle has its context, and everybody's addresses are
    apart. *)
Record serving rs sv : Prop := {
  se_sound : sound dev e rs (sv_system sv);
  se_attached : attached dev o (new_event_device dev) (event_driver (DriverObject o)) (now sv);
  se_extension : ext_of (w_kernel (now sv)) (DriverObject o) id_addr = ext;
  se_handles : Forall (opened (now sv)) (sv_handles sv);
  se_cells : NoDup (cells (sv_handles sv));
  se_apart : forall a, a ∈ cells (sv_handles sv) -> a ∉ in_use (WduDevice.wrap_device dev) e rs
}.

Lemma serving_waits rs sv : serving rs sv -> waits sv = rs.
Proof. intros []. by eapply sound_waiting. Qed.
Lemma serving_used rs sv : serving rs sv ->
  used sv = cells (sv_handles sv) ++ in_use (WduDevice.wrap_device dev) e rs.
Proof. intros H. unfold used. by rewrite (serving_waits _ _ H). Qed.
Lemma desk_serving rs sv : serving rs sv ->
  desk_of sv = mkDesk (client_of <$> rs) (h_file <$> sv_handles sv) (told (signals (calls (now sv)))).
Proof. intros H. unfold desk_of. by rewrite (serving_waits _ _ H). Qed.

Lemma in_use_used rs sv a : serving rs sv -> a ∈ in_use (WduDevice.wrap_device dev) e rs -> a ∈ used sv.
Proof. intros Hse Ha. rewrite (serving_used _ _ Hse). apply elem_of_app. by right. Qed.

Lemma cells_cons h hs : cells (h :: hs) ≡ₚ handle_cells h ++ cells hs.
Proof. unfold cells. rewrite bind_cons. rewrite !app_assoc. by rewrite (Permutation_app_comm [_; _] (handle_cells h)). Qed.

(** Only the device of a [WduDevice] counts. *)
Lemma consistent_device d d' rs s :
  WduDevice.device d = WduDevice.device d' -> consistent d e rs s -> consistent d' e rs s.
Proof.
  intros Hd [[H1 H2 H3 H4 H5 H6] Hp Ha Hev]. unfold in_use, base in Ha. rewrite Hd in *.
  split; [by split|done|exact Ha|done].
Qed.

Lemma serving_driver rs sv : serving rs sv ->
  consistent (new_event_device dev) e rs (now sv) /\ consistent (WduDevice.wrap_device dev) e rs (now sv).
Proof. intros [[Hc _ _] _ _ _ _ _]. split; [by apply (consistent_device (WduDevice.wrap_device dev))|done]. Qed.

(** What is taken is in memory. *)
Lemma used_in_memory rs sv a : serving rs sv -> a ∈ used sv -> is_Some (w_mem (now sv) !! a).
Proof.
  intros Hse. rewrite (serving_used _ _ Hse). destruct Hse as [[Hc _ _] [_ _ _ Hdev _ _ Hdrv] He Hh _ _].
  rewrite elem_of_app. intros [Ha|Ha]; [|by eapply in_use_in_memory].
  unfold kresp in Hdrv. rewrite get_ext in Hdrv. simpl in Hdrv. rewrite He in Hdrv.
  unfold cells in Ha. rewrite elem_of_app, list_elem_of_bind, !elem_of_cons, elem_of_nil in Ha.
  destruct Ha as [[-> |[-> |[]]]|(h & Ha & Hin)]; [by eexists..|].
  rewrite Forall_forall in Hh. destruct (Hh h Hin) as [_ _ (fo & ? & _) (rl & ?)].
  unfold handle_cells in Ha. rewrite !elem_of_cons, elem_of_nil in Ha. destruct Ha as [-> |[-> |[]]]; by eexists.
Qed.

Lemma handle_used sv h : h ∈ sv_handles sv -> h_file h ∈ used sv /\ h_lock h ∈ used sv.
Proof.
  intros Hh. unfold used, cells. rewrite !elem_of_app, !list_elem_of_bind.
  split; left; right; exists h; (split; [unfold handle_cells; set_solver|done]).
Qed.

Lemma device_used sv : [dev; Nt.DeviceExtension o; ext] ⊆ used sv.
Proof. unfold used, cells, in_use, base. simpl. set_solver. Qed.

(** Changes elsewhere. *)
Lemma opened_frame s s' h :
  w_mem s' !! h_file h = w_mem s !! h_file h ->
  (w_mem s' !! h_lock h = w_mem s !! h_lock h \/ exists rl, w_mem s' !! h_lock h = Some (inj (rl : WduRemoveLock))) ->
  opened s h -> opened s' h.
Proof.
  intros Hf Hl [H1 H2 (fo & Ho & Hk) (rl & Hr)]. split; [done..|exists fo; by rewrite Hf|].
  destruct Hl as [-> |Hl]; [by exists rl|done].
Qed.

Lemma serving_next rs rs' sv sy' hs' :
  serving rs sv -> sound dev e rs' sy' -> ext_of (w_kernel (sy_world sy')) (DriverObject o) id_addr = ext ->
  (forall a, a ∈ [dev; Nt.DeviceExtension o; ext] -> w_mem (sy_world sy') !! a = w_mem (now sv) !! a) ->
  Forall (opened (sy_world sy')) hs' -> NoDup (cells hs') ->
  (forall a, a ∈ cells hs' -> a ∉ in_use (WduDevice.wrap_device dev) e rs') ->
  serving rs' (mkServer sy' hs').
Proof.
  intros [_ Hat He _ _ _] Hso He' Hm Hh Hc Ha. split; try done.
  eapply attached_frame; [exact Hat|rewrite He; exact He'|]. rewrite He. exact Hm.
Qed.

(** A handler that leaves everybody else's addresses alone. *)
Lemma serving_kept rs rs' sv sy' :
  serving rs sv -> sound dev e rs' sy' -> ext_of (w_kernel (sy_world sy')) (DriverObject o) id_addr = ext ->
  (forall a, a ∈ dev :: cells (sv_handles sv) -> w_mem (sy_world sy') !! a = w_mem (now sv) !! a) ->
  (forall a, a ∈ cells (sv_handles sv) -> a ∉ in_use (WduDevice.wrap_device dev) e rs') ->
  serving rs' (mkServer sy' (sv_handles sv)).
Proof.
  intros Hse Hso He Hm Ha. pose proof Hse as [_ _ _ Hh Hc _].
  eapply serving_next; [done..| | |done|done].
  - intros a Hin. apply Hm. unfold cells. clear -Hin. set_solver.
  - apply Forall_forall. intros h Hin. rewrite Forall_forall in Hh.
    assert (Hcell : forall a, a ∈ handle_cells h -> a ∈ dev :: cells (sv_handles sv)).
    { intros a Ha'. right. apply elem_of_app. right. apply list_elem_of_bind. by exists h. }
    eapply opened_frame; [|left|by apply Hh]; apply Hm, Hcell; unfold handle_cells; clear; set_solver.
Qed.

(** The handlers do not write the device. *)
Lemma device_apart rs s : consistent (WduDevice.wrap_device dev) e rs s ->
  dev ∉ touched e ++ (rs ≫= footprint).
Proof.
  intros [_ _ Ha _]. unfold in_use, base in Ha. simpl in Ha. apply NoDup_cons in Ha as [Ha _]. exact Ha.
Qed.

(** ** What the I/O manager sees *)

Lemma not_pending p rs ps :
  p ∉ in_use (WduDevice.wrap_device dev) e rs -> ps ≡ₚ omap request_of rs ->
  filter (fun x => x <> p) ps ≡ₚ omap request_of rs.
Proof.
  intros Hp ->. rewrite filter_all; [done|]. apply Forall_forall. intros x Hx ->.
  apply list_elem_of_omap in Hx as (r & Hr & Hx). destruct r as [p' stk c b mj|]; simplify_eq/=.
  apply Hp, elem_of_app. right. apply list_elem_of_bind. eexists. split; [|exact Hr]. by left.
Qed.

Lemma sound_completed rs sy p status s' :
  sound dev e rs sy -> consistent (WduDevice.wrap_device dev) e rs s' ->
  signals (calls s') = signals (calls (sy_world sy)) ++ [Completed p status] ->
  p ∉ in_use (WduDevice.wrap_device dev) e rs -> sound dev e rs (react sy s').
Proof.
  intros [_ Ht Hp] Hc Hs Hn. rewrite (react_signals _ _ _ Hs). split; [done..|]. by apply not_pending.
Qed.

(** Who joins, and with which status. *)
Definition joins_as (p : ptr) (status : NTSTATUS) (joined : option client) : Prop :=
  (status = STATUS_PENDING /\ joined = Some (Request p)) \/
  (status <> STATUS_PENDING /\ forall q, joined <> Some (Request q)).

Lemma control_joins_as removing code p len buffer reg ref : ref.1 <> STATUS_PENDING ->
  let answer := control_answer removing code p len buffer reg ref in joins_as p answer.1 answer.2.
Proof.
  intros Hr. unfold control_answer, registering.
  repeat case_match; simpl; first [by left|by right|right; by split].
Qed.

Lemma sound_joined rs sy xs joined status p s' :
  sound dev e rs sy -> client_of <$> xs = option_list joined ->
  consistent (WduDevice.wrap_device dev) e (rs ++ xs) s' ->
  signals (calls s') = signals (calls (sy_world sy)) ++ (timer_set <$> xs) ++ closing_log p status ->
  p ∉ in_use (WduDevice.wrap_device dev) e rs -> joins_as p status joined ->
  sound dev e (rs ++ xs) (pended p status (react sy s')).
Proof.
  intros Hso Hx Hc Hs Hn Hj. unfold pended, closing_log in *.
  destruct joined as [c|]; [apply fmap_cons_inv in Hx as (x & [|] & Hx & Hnil & ->); [|done]|apply fmap_nil_inv in Hx as ->].
  - destruct Hj as [[-> Hj]|[Hst Hj]].
    + rewrite Z.eqb_refl in *. pose proof (sound_added release_build _ _ _ _ _ _ Hso Hc Hs) as [H' _].
      destruct x; simplify_eq/=. exact H'.
    + rewrite (proj2 (Z.eqb_neq _ _) Hst) in *. pose proof Hso as [_ Ht Hp].
      rewrite (react_signals _ _ _ Hs). pose proof (stop_new release_build _ _ _ _ _ _ Hc Ht) as Ht'.
      destruct x as [p' stk k b mj|ev b]; [by destruct (Hj p'); rewrite Hx|]. split; [done|exact Ht'|]. simpl.
      rewrite omap_app. simpl. rewrite app_nil_r. by apply not_pending.
  - destruct Hj as [[_ ?]|[Hst _]]; [done|]. rewrite (proj2 (Z.eqb_neq _ _) Hst) in *.
    rewrite (app_nil_r rs) in Hc |- *. exact (sound_completed _ _ _ _ _ Hso Hc Hs Hn).
Qed.

Lemma world_pended p status sy s' : sy_world (pended p status (react sy s')) = s'.
Proof. unfold pended. by destruct (status =? STATUS_PENDING). Qed.

Definition extension_found s : Prop := ext_of (w_kernel s) (DriverObject o) id_addr = ext.
#[local] Instance extension_memoryless : Memoryless extension_found.
Proof. intros m s H. exact H. Qed.
Lemma extension_leaves c : extension_stays (DriverObject o) -> makes_extension c = false -> leaves extension_found c.
Proof. intros Hst Hc s Hs. unfold extension_found in *. simpl. by rewrite Hst. Qed.

(** ** The requests *)

Section requests.
Hypothesis Hstays : extension_stays (DriverObject o).
(** Two routines are at two addresses. *)
Hypothesis Hcode : code_addr "event::close" <> code_addr "event::cleanup".

(** What the handlers make of a request is what the specification says. *)
Definition served p f what sv (status : NTSTATUS) s' : Prop :=
  exists rs', serving rs' (after p f what status s' sv) /\
    attends (Asked p f what status) (desk_of sv) (desk_of (after p f what status s' sv)).

Lemma wp_dispatched rs sv p i st mj (Q : NTSTATUS -> world U -> Prop) :
  serving rs sv -> packet sv p i st mj ->
  let irp := WduIrp.mk p mj None in
  (dispatched p i st (looked_up sv) ->
   wp (if MajorFunction.is_fileobj mj then WduDriver.fo_dispatch (event_driver (DriverObject o)) (new_event_device dev) irp ;; mret STATUS_SUCCESS
       else r ← WduDriver.io_dispatch (event_driver (DriverObject o)) (new_event_device dev) irp; mret r.2) (looked_up sv)
     (fun status s' => extension_found s' -> Q status s')) ->
  wp (WduDriver.dispatch_handler dev p) (now sv) Q.
Proof.
  intros Hse [Hd Hmj _ _] irp Hw. eapply wp_mono.
  - apply (wp_quiet extension_found); [|apply Hse|].
    + apply quiet_dispatch; [apply _|]. intros c Hc. by apply extension_leaves.
    + eapply wp_from; [apply (dispatch_prefix dev p i st mj (new_event_device dev) o (event_driver (DriverObject o))); [done..|apply Hse]|].
      apply Hw. destruct Hd. by split.
  - intros status s' [HQ He]. by apply HQ.
Qed.

Lemma signals_looked_up sv : signals (calls (looked_up sv)) = signals (calls (now sv)).
Proof. unfold looked_up. rewrite calls_kafter, signals_app. apply app_nil_r. Qed.

Lemma told_app os os' : told (os ++ os') = told os ++ told os'.
Proof. apply omap_app. Qed.

(** A request that is completed, with success, and changes no queue. *)
Lemma finish_request rs sv p f what s' hs' :
  serving rs sv -> p ∉ used sv -> consistent (WduDevice.wrap_device dev) e rs s' ->
  signals (calls s') = signals (calls (now sv)) ++ [Completed p STATUS_SUCCESS] -> extension_found s' ->
  (forall a, a ∈ [dev; Nt.DeviceExtension o; ext] -> w_mem s' !! a = w_mem (now sv) !! a) ->
  handles_after f what s' (sv_handles sv) = hs' -> Forall (opened s') hs' -> NoDup (cells hs') ->
  (forall a, a ∈ cells hs' -> a ∉ in_use (WduDevice.wrap_device dev) e rs) ->
  serving rs (after p f what STATUS_SUCCESS s' sv) /\
  desk_of (after p f what STATUS_SUCCESS s' sv) =
    mkDesk (client_of <$> rs) (h_file <$> hs') (told (signals (calls (now sv))) ++ [Completed p STATUS_SUCCESS]).
Proof.
  intros Hse Hp Hc Hs He Hm <- Hh Hn Ha. rewrite (serving_used _ _ Hse), not_elem_of_app in Hp.
  assert (Hse' : serving rs (after p f what STATUS_SUCCESS s' sv)).
  { eapply serving_next; [exact Hse|..]; try done. exact (sound_completed _ _ _ _ _ (se_sound _ _ Hse) Hc Hs (proj2 Hp)). }
  split; [done|]. rewrite (desk_serving _ _ Hse'). f_equal. change (now (after _ _ _ _ _ _)) with s'. by rewrite Hs, told_app.
Qed.

(** What a request to open leaves: the handle's cell, its remove lock, and the
    addresses in use as they were. *)
Lemma handle_opened rs sv p f b s' (fo : FILE_OBJECT) (rl : WduRemoveLock) :
  serving rs sv -> p ∉ used sv -> f ∉ used sv -> b ∉ used sv -> f <> 0 -> b <> 0 -> f <> b ->
  signals (calls s') = signals (calls (now sv)) ++ [Completed p STATUS_SUCCESS] -> extension_found s' ->
  (forall a, a ∈ used sv -> w_mem s' !! a = w_mem (now sv) !! a) ->
  w_mem s' !! f = Some (inj fo) -> FsContext fo = b -> w_mem s' !! b = Some (inj rl) ->
  served p f Open sv STATUS_SUCCESS s'.
Proof.
  intros Hse Hp Hfu Hbu Hf0 Hb0 Hfb S He Hkeep Hf Hk Hb.
  assert (Hnew : handles_after f Open s' (sv_handles sv) = mkHandle f b :: sv_handles sv).
  { simpl. unfold context_at. rewrite Hf. simpl. rewrite prj_inj. by rewrite Hk. }
  pose proof Hse as [[Hc _ _] _ _ Hh Hnd Hap]. rewrite Forall_forall in Hh.
  assert (Hcells : forall a, a ∈ cells (sv_handles sv) -> a ∈ used sv) by (intros a Ha'; apply elem_of_app; by left).
  assert (Hnew' : forall a, a ∈ [f; b] -> a ∉ used sv)
    by (intros a [-> |[-> |[]%elem_of_nil]%elem_of_cons]%elem_of_cons; done).
  assert (Hcells' : cells (mkHandle f b :: sv_handles sv) ≡ₚ [f; b] ++ cells (sv_handles sv)) by exact (cells_cons (mkHandle f b) _).
  exists rs. destruct (finish_request rs sv p f Open s' (mkHandle f b :: sv_handles sv)) as [Hse' Hdk]; try done.
  - eapply (consistent_frame release_build); [|exact Hc]. intros a Hu. by eapply Hkeep, in_use_used.
  - intros a Hu. by apply Hkeep, (device_used sv).
  - apply Forall_cons. split; [split; [done..|by exists fo|by exists rl]|].
    apply Forall_forall. intros h Hh'. destruct (handle_used sv h Hh') as [H1' H2'].
    eapply opened_frame; [by apply Hkeep|left; by apply Hkeep|by apply Hh].
  - rewrite Hcells'. apply NoDup_app. split; [|split; [|done]].
    + apply NoDup_cons_2; [by rewrite list_elem_of_singleton|apply NoDup_singleton].
    + intros a Ha' Hu. by apply (Hnew' a Ha'), Hcells.
  - intros a. rewrite Hcells', elem_of_app. intros [Ha'|Ha']; [|by apply Hap]. intros Hu.
    apply (Hnew' a Ha'). by eapply in_use_used.
  - split; [done|]. rewrite Hdk, (desk_serving _ _ Hse). apply attend_open.
    intros (h & -> & Hh')%list_elem_of_fmap. by apply Hfu, handle_used.
Qed.

Lemma wp_ask_open rs sv p i st sec fo :
  serving rs sv -> packet sv p i st MajorFunction.Create ->
  (SecurityContext (Parameters_Create st) <> null ->
   w_mem (now sv) !! SecurityContext (Parameters_Create st) = Some (inj (sec : SECURITY_CONTEXT))) ->
  let f := OriginalFileObject i in
  f <> 0 -> w_mem (now sv) !! f = Some (inj fo) -> FsContext fo = null -> f ∉ used sv ->
  slot <> 0 -> slot ∉ used sv -> NoDup [slot; f; p] ->
  wp (WduDriver.dispatch_handler dev p) (now sv) (served p f Open sv).
Proof.
  intros Hse Hpk Hsec f Hf0 Hf Hctx Hfu Hs0 Hsu Ha. pose proof Hpk as [[Hp0 Hp _ _ _ _] _ _ [Hpu _]].
  eapply wp_dispatched; [done..|]. intros Hd. simpl. unfold WduDriver.fo_dispatch. simpl.
  destruct (new_create_done p MajorFunction.Create None i st sec _ Hd Hsec) as (data & Hdata & Hfo).
  do 2 wp_step. eapply wp_done; [exact Hdata|]. rewrite at_code_self.
  eapply wp_mono; [apply (wp_create _ p i data f fo); done|].
  intros _ s' (b & Hb0 & Hb & M & S). apply wp_ret. intros He. apart Ha.
  rewrite signals_looked_up in S. change (w_mem (looked_up sv)) with (w_mem (now sv)) in *.
  pose proof (fun a => used_in_memory rs sv a Hse) as Hin.
  assert (Hfb : f <> b) by (apply Hb; [by eexists|done]).
  assert (Hpb : p <> b) by (apply Hb; [by eexists|done]).
  assert (Hbs : forall a, a ∈ used sv -> a <> b) by (intros a Hu; apply Hb; [by apply Hin|by intros ->]).
  eapply (handle_opened rs sv p f b); try done; [by intros Hu; apply Hbs in Hu| |rewrite M; map_at|done|rewrite M; map_at].
  intros a Hu. specialize (Hbs a Hu). rewrite M.
  assert (a <> slot /\ a <> f /\ a <> p) as (? & ? & ?) by (split_and!; by intros ->). map_at.
Qed.

(** The handle is in the list once. *)
Lemma handle_split h hs : h ∈ hs -> NoDup (cells hs) -> hs ≡ₚ h :: filter (fun h' => h_file h' <> h_file h) hs.
Proof.
  intros (l1 & l2 & ->)%list_elem_of_split Hn. rewrite <- Permutation_middle. f_equiv.
  assert (Hn' : NoDup (cells (h :: (l1 ++ l2)))).
  { unfold cells in *. by rewrite <- Permutation_middle in Hn. }
  rewrite cells_cons in Hn'. apply NoDup_app in Hn' as (_ & Hd & _).
  rewrite filter_cons_False by (intros Hne; by apply Hne).
  rewrite filter_all; [done|]. apply Forall_forall. intros h' Hh' E.
  apply (Hd (h_file h)); [by left|]. rewrite <- E. apply elem_of_app. right. apply list_elem_of_bind.
  exists h'. split; [by left|done].
Qed.

Definition others_than h hs : list handle := filter (fun h' => h_file h' <> h_file h) hs.

Lemma cells_split h hs : h ∈ hs -> NoDup (cells hs) -> cells hs ≡ₚ handle_cells h ++ cells (others_than h hs).
Proof. intros Hh Hn. rewrite <- cells_cons. unfold cells. by rewrite (handle_split h hs Hh Hn) at 1. Qed.

Lemma handle_cell h hs a : h ∈ hs -> a ∈ handle_cells h -> a ∈ cells hs.
Proof. intros Hh Ha. apply elem_of_app. right. apply list_elem_of_bind. by exists h. Qed.

(** The addresses of a handle are its own. *)
Lemma handle_apart h hs : h ∈ hs -> NoDup (cells hs) ->
  h_file h <> h_lock h /\ forall a, a ∈ cells (others_than h hs) -> a ∈ cells hs /\ a <> h_lock h.
Proof.
  intros Hh Hn. pose proof (cells_split h hs Hh Hn) as Hc. pose proof Hn as Hn'. rewrite Hc in Hn'.
  apply NoDup_app in Hn' as (Hn1 & Hout & _). split.
  - apply NoDup_cons in Hn1 as [Hn1 _]. intros E. apply Hn1. rewrite E. left.
  - intros a Ha. split; [rewrite Hc; apply elem_of_app; by right|]. intros ->. apply (Hout (h_lock h)); [right; left|done].
Qed.

Lemma files_filter f hs :
  h_file <$> filter (fun h => h_file h <> f) hs = filter (fun f' => f' <> f) (h_file <$> hs).
Proof.
  induction hs as [|h hs IH]; [done|]. rewrite fmap_cons, !filter_cons.
  destruct (decide (h_file h <> f)); [by rewrite fmap_cons, IH|done].
Qed.

Lemma file_open sv h : h ∈ sv_handles sv -> h_file h ∈ h_file <$> sv_handles sv.
Proof. apply list_elem_of_fmap_2. Qed.

Lemma wp_ask_close rs sv p i st h :
  serving rs sv -> packet sv p i st MajorFunction.Close -> h ∈ sv_handles sv -> FileObject st = h_file h ->
  wp (WduDriver.dispatch_handler dev p) (now sv) (served p (h_file h) Close sv).
Proof.
  intros Hse Hpk Hh Hf. pose proof Hpk as [[Hp0 Hp _ _ _ _] _ _ [Hpu _]].
  pose proof Hse as [[Hc _ _] _ _ Hhs Hnd Hap]. rewrite Forall_forall in Hhs.
  destruct (Hhs h Hh) as [Hf0 Hl0 (fo & Hfo & Hk) (rl & Hrl)]. destruct (handle_used sv h Hh) as [Hfu Hlu].
  eapply wp_dispatched; [done..|]. intros Hd. simpl. unfold WduDriver.fo_dispatch. simpl.
  do 2 wp_step. eapply wp_done; [by eapply file_object_done|]. rewrite Z.eqb_refl, Hf.
  eapply wp_mono; [apply (wp_close _ p i (h_file h) fo rl); rewrite ?Hk; try done; by intros ->|].
  intros _ s' (M & S). apply wp_ret. intros He. rewrite signals_looked_up in S. rewrite Hk in M.
  change (w_mem (looked_up sv)) with (w_mem (now sv)) in *.
  assert (Hkeep : forall a, a ∈ used sv -> a <> h_lock h -> w_mem s' !! a = w_mem (now sv) !! a).
  { intros a Hu Hne. rewrite M, !lookup_delete_ne; [done|done|]. by intros <-. }
  set (hs' := others_than h (sv_handles sv)). destruct (handle_apart h _ Hh Hnd) as [_ Hin].
  assert (Hnd' : NoDup (cells hs')) by (rewrite (cells_split h _ Hh Hnd) in Hnd; by apply NoDup_app in Hnd as (_ & _ & ?)).
  assert (Hne : forall a, a ∈ in_use (WduDevice.wrap_device dev) e rs -> a <> h_lock h).
  { intros a Hu ->. by apply (Hap (h_lock h)); [apply (handle_cell h); [done|right; left]|]. }
  destruct (finish_request rs sv p (h_file h) Close s' hs') as [Hse' Hdk]; try done.
  - eapply (consistent_frame release_build); [|exact Hc]. intros a Hu. by apply Hkeep; [eapply in_use_used|apply Hne].
  - intros a Ha. apply Hkeep; [by apply (device_used sv)|].
    apply elem_of_cons in Ha as [-> |Ha]; [apply Hne, elem_of_app; left; by left|].
    apply Hin, elem_of_app. by left.
  - apply Forall_forall. intros h' Hh'.
    assert (Hh'' : h' ∈ sv_handles sv) by (by apply list_elem_of_filter in Hh' as [_ ?]). destruct (handle_used sv h' Hh'') as [H1' H2'].
    eapply opened_frame; [|left|by apply Hhs]; (apply Hkeep; [done|]); apply Hin, (handle_cell h' _ _ Hh'); unfold handle_cells; clear; set_solver.
  - intros a Ha. by apply Hap, Hin.
  - exists rs. split; [done|]. rewrite Hdk, (desk_serving _ _ Hse). unfold hs', others_than. rewrite files_filter.
    by apply attend_close, file_open.
Qed.

(** The handle's remove lock changes, and of the others' addresses nothing. *)
Lemma opened_locked sv h s' :
  Forall (opened (now sv)) (sv_handles sv) ->
  (forall a, a ∈ cells (sv_handles sv) -> a <> h_lock h -> w_mem s' !! a = w_mem (now sv) !! a) ->
  NoDup (cells (sv_handles sv)) -> h ∈ sv_handles sv ->
  (exists rl, w_mem s' !! h_lock h = Some (inj (rl : WduRemoveLock))) ->
  Forall (opened s') (sv_handles sv).
Proof.
  intros Hhs Hkeep Hnd Hh Hl. rewrite Forall_forall in Hhs. apply Forall_forall. intros h' Hh'.
  destruct (handle_apart h _ Hh Hnd) as [Hne Hout].
  assert (Hfile : h_file h' <> h_lock h).
  { rewrite (handle_split h _ Hh Hnd) in Hh'. apply elem_of_cons in Hh' as [->|Hh']; [done|].
    apply Hout, (handle_cell h' _ _ Hh'). left. }
  pose proof (handle_cell h' (sv_handles sv)) as Hcell.
  eapply opened_frame; [apply Hkeep; [apply Hcell; [done|left]|done]| |by apply Hhs].
  destruct (decide (h_lock h' = h_lock h)) as [->|]; [by right|]. left. apply Hkeep; [apply Hcell; [done|right; left]|done].
Qed.

Lemma device_cells hs a : a ∈ [dev; Nt.DeviceExtension o; ext] -> a ∈ dev :: cells hs.
Proof. intros [-> |Ha]%elem_of_cons; [left|]. right. apply elem_of_app. by left. Qed.

(** The handlers do not write where the device and the handles are. *)
Lemma apart_touched rs sv a : serving rs sv -> a ∈ dev :: cells (sv_handles sv) ->
  a ∉ touched e /\ a ∉ rs ≫= footprint.
Proof.
  intros [[Hc _ _] _ _ _ _ Hap] Ha. apply not_elem_of_app. apply elem_of_cons in Ha as [-> |Ha]; [by eapply device_apart|].
  intros Hin. apply (Hap a Ha). unfold in_use, base. by right.
Qed.

(** The device and the extensions are not at the address of a handle's lock. *)
Lemma lock_apart rs sv h a : serving rs sv -> h ∈ sv_handles sv ->
  a ∈ [dev; Nt.DeviceExtension o; ext] -> a <> h_lock h.
Proof.
  intros Hse Hh Ha ->. pose proof Hse as [_ _ _ _ Hnd Hap].
  assert (Hl : h_lock h ∈ sv_handles sv ≫= handle_cells) by (apply list_elem_of_bind; exists h; split; [right; left|done]).
  apply elem_of_cons in Ha as [<-|Ha].
  - apply (Hap (h_lock h)); [apply elem_of_app; by right|]. apply elem_of_app. left. left.
  - apply NoDup_app in Hnd as (_ & Hd & _). by apply (Hd (h_lock h)).
Qed.

Lemma wp_ask_cleanup rs sv p i st h :
  serving rs sv -> packet sv p i st MajorFunction.Cleanup -> h ∈ sv_handles sv -> FileObject st = h_file h ->
  waits sv = [] ->
  (kresp (IoAcquireRemoveLockEx (h_lock h) p line size_of_IO_REMOVE_LOCK) (looked_up sv) : NTSTATUS) = STATUS_SUCCESS ->
  wp (WduDriver.dispatch_handler dev p) (now sv) (served p (h_file h) CleanUp sv).
Proof.
  intros Hse Hpk Hh Hf Hw Hacq. pose proof Hpk as [[Hp0 Hp _ _ _ _] _ _ [Hpu _]].
  rewrite (serving_waits _ _ Hse) in Hw. subst rs.
  pose proof Hse as [[Hc _ _] _ _ Hhs Hnd Hap].
  pose proof Hhs as Hhs'. rewrite Forall_forall in Hhs'.
  destruct (Hhs' h Hh) as [Hf0 Hl0 (fo & Hfo & Hk) (rl & Hrl)]. destruct (handle_used sv h Hh) as [Hfu Hlu].
  destruct (handle_apart h _ Hh Hnd) as [Hfl _].
  assert (Hcell : forall a, a ∈ handle_cells h -> a ∉ base (new_event_device dev) e).
  { intros a Ha Hin. eapply Hap; [by eapply handle_cell|exact Hin]. }
  assert (Hpb : p ∉ base (new_event_device dev) e) by (rewrite (serving_used _ _ Hse), not_elem_of_app in Hpu; apply Hpu).
  eapply wp_dispatched; [done..|]. intros Hd. simpl. unfold WduDriver.fo_dispatch. simpl.
  do 2 wp_step. eapply wp_done; [by eapply file_object_done|].
  rewrite (proj2 (Z.eqb_neq _ _)) by done. rewrite at_code_self, Hf.
  destruct Hc as [Hq _ Hb _]. unfold in_use in Hb. simpl in Hb. rewrite ?app_nil_r in Hb.
  assert (Hq' : queued (new_event_device dev) e [] (looked_up sv)) by (destruct Hq; by split).
  eapply wp_mono; [apply (wp_cleanup_idle (new_event_device dev) e p i (h_file h) fo rl); rewrite ?Hk; try done|].
  { change (NoDup ([p; h_file h; h_lock h] ++ base (new_event_device dev) e)). apply NoDup_app. split; [|split; [|done]].
    - repeat (apply NoDup_cons_2; [rewrite ?not_elem_of_cons; split_and?; try apply not_elem_of_nil; try done; by intros -> |]).
      apply NoDup_nil_2.
    - intros a [-> |Ha]%elem_of_cons; [done|by apply Hcell]. }
  intros _ s' (Hq2 & Hat & Hlk & S). apply wp_ret. intros He. rewrite signals_looked_up in S. rewrite Hk in *.
  assert (Hkeep : forall a, a ∈ used sv -> a ∉ touched e -> a <> h_lock h -> w_mem s' !! a = w_mem (now sv) !! a).
  { intros a Hu Ht Hne. apply Hat. unfold touched in Ht. rewrite !not_elem_of_cons in Ht. rewrite !not_elem_of_cons. destruct Ht as (? & ? & _).
    split_and!; first [done|by intros ->|apply not_elem_of_nil]. }
  destruct (finish_request [] sv p (h_file h) CleanUp s' (sv_handles sv)) as [Hse' Hdk]; try done.
  - split; [by destruct Hq2; split|constructor|done|constructor].
  - intros a Ha. apply Hkeep; [by apply (device_used sv)| |by eapply lock_apart].
    eapply apart_touched; [done|by apply device_cells].
  - eapply (opened_locked sv h); try done; [|by eexists]. intros a Ha Hne. apply Hkeep; [apply elem_of_app; by left| |done].
    eapply apart_touched; [done|by right].
  - exists []. split; [done|]. rewrite Hdk, (desk_serving _ _ Hse). by apply attend_cleanup, file_open.
Qed.

(** Nothing becomes of a request to read or write, but that the I/O manager is
    told of success. *)
Lemma wp_ask_transfer rs sv p i st mj :
  serving rs sv -> packet sv p i st mj -> mj = MajorFunction.Read \/ mj = MajorFunction.Write ->
  wp (WduDriver.dispatch_handler dev p) (now sv) (served p (FileObject st) Transfer sv).
Proof.
  intros Hse Hpk Hmj. eapply wp_dispatched; [done..|]. intros Hd.
  assert (Hgo : extension_found (looked_up sv) -> served p (FileObject st) Transfer sv STATUS_SUCCESS (looked_up sv)).
  { intros He. pose proof Hse as [[Hc Ht Hp] _ _ Hh Hn Ha].
    assert (Hse' : serving rs (after p (FileObject st) Transfer STATUS_SUCCESS (looked_up sv) sv)).
    { eapply serving_kept; [exact Hse| |done..]. simpl. rewrite (react_signals _ _ []) by by rewrite signals_looked_up, app_nil_r.
      split; [|done..]. by apply (consistent_frame release_build _ _ _ (now sv)). }
    exists rs. split; [done|]. rewrite (desk_serving _ _ Hse'), (desk_serving _ _ Hse).
    change (now (after _ _ _ _ _ _)) with (looked_up sv). rewrite signals_looked_up. apply attend_transfer. }
  destruct Hmj as [-> | ->]; simpl; wp_step; simpl; apply wp_ret, wp_ret; exact Hgo.
Qed.

Lemma inj_inj {T} `{!Storable U T} (x y : T) : inj x = inj y -> x = y.
Proof. intros E. pose proof (f_equal prj E) as E'. rewrite !prj_inj in E'. by injection E'. Qed.

(** After the control handler. *)
Lemma control_joined rs sv p (i : IRP) h xs answer joined s' :
  serving rs sv -> p ∉ used sv -> CurrentStackLocation i ∉ used sv -> h ∈ sv_handles sv ->
  joins_as p answer joined -> client_of <$> xs = option_list joined -> consistent (new_event_device dev) e (rs ++ xs) s' ->
  signals (calls s') = signals (calls (now sv)) ++ (timer_set <$> xs) ++ closing_log p answer ->
  (forall a, a ∈ in_use (new_event_device dev) e (rs ++ xs) -> is_Some (w_mem (now sv) !! a) ->
     a ∈ in_use (new_event_device dev) e rs ++ given p i answer) ->
  keeps (touched e ++ [p; CurrentStackLocation i; h_lock h]) (now sv) s' ->
  (exists rl, w_mem s' !! h_lock h = Some (inj (rl : WduRemoveLock))) -> extension_found s' ->
  serving (rs ++ xs) (mkServer (pended p answer (react (sv_system sv) s')) (sv_handles sv)).
Proof.
  intros Hse Hpu Hsu Hh Hj Hcl Hc Hs Hin Hkeep Hlk He. pose proof Hse as [Hso _ _ Hhs Hnd Hap].
  assert (Hso' : sound dev e (rs ++ xs) (pended p answer (react (sv_system sv) s'))).
  { eapply (sound_joined _ _ _ _ answer p s' Hso Hcl); [by apply (consistent_device (new_event_device dev))|done| |exact Hj].
    intros Hp. apply Hpu. by eapply in_use_used. }
  assert (Hkept : forall a, a ∈ used sv -> a ∉ touched e -> a <> h_lock h -> w_mem s' !! a = w_mem (now sv) !! a).
  { intros a Hu Ht Hne. apply Hkeep; [by eapply used_in_memory|]. rewrite not_elem_of_app, !not_elem_of_cons.
    split_and!; first [done|by intros ->|apply not_elem_of_nil]. }
  eapply serving_next; [exact Hse|exact Hso'|by rewrite world_pended|..]; rewrite ?world_pended; [..|exact Hnd|].
  - intros a Ha. apply Hkept; [by apply (device_used sv)| |by eapply lock_apart].
    eapply apart_touched; [done|by apply device_cells].
  - apply (opened_locked sv h); [done| |done..]. intros a Ha Hne. apply Hkept; [apply elem_of_app; by left| |done].
    eapply apart_touched; [done|by right].
  - intros a Ha Hu. assert (Hua : a ∈ used sv) by (apply elem_of_app; by left).
    apply Hin in Hu; [|by eapply used_in_memory]. apply elem_of_app in Hu as [Hu|Hu]; [by apply (Hap a)|].
    unfold given in Hu. destruct (answer =? STATUS_PENDING); [|by apply elem_of_nil in Hu].
    rewrite !elem_of_cons, elem_of_nil in Hu. destruct Hu as [-> |[-> |[]]]; done.
Qed.

Lemma wp_ask_control rs sv p i st mode reg fo h :
  serving rs sv -> packet sv p i st MajorFunction.DeviceControl -> Cancel i <> 1 ->
  RequestorMode i = ProcessorMode.into_i8 mode ->
  h ∈ sv_handles sv -> FileObject st = h_file h -> w_mem (now sv) !! h_file h = Some (inj fo) ->
  (request_code st = IOCTL_REGISTER_EVENT -> size_of_RegisterEvent <= InputBufferLength (request_data st) ->
   SystemBuffer i <> null -> SystemBuffer i <> h_lock h /\ w_mem (now sv) !! SystemBuffer i = Some (inj reg)) ->
  let removing := kresp (lock_call p fo) (looked_up sv) : NTSTATUS in
  let ref := kresp (event_reference reg mode) (kafter (lock_call p fo) (looked_up sv)) : NTSTATUS * ptr in
  ref.1 <> STATUS_PENDING -> ref.2 ∉ omap event_of (waits sv) ->
  wp (WduDriver.dispatch_handler dev p) (now sv) (served p (h_file h)
    (Control removing (request_code st) (InputBufferLength (request_data st)) (SystemBuffer i) reg ref) sv).
Proof.
  intros Hse Hpk Hcan Hmode Hh Hf Hfo Hbuf removing ref Hr1 Hr2. pose proof Hpk as [Hd Hmj Hps [Hpu Hsu]].
  pose proof Hse as [Hso Hat He Hhs Hnd Hap]. rewrite (serving_waits _ _ Hse) in Hr2.
  pose proof Hhs as Hhs'. rewrite Forall_forall in Hhs'.
  destruct (Hhs' h Hh) as [Hf0 Hl0 (fo' & Hfo' & Hk) (rl & Hrl)]. rewrite Hfo in Hfo'. injection Hfo' as <-%inj_inj.
  destruct (handle_used sv h Hh) as [Hfu Hlu]. destruct (serving_driver _ _ Hse) as [Hc Hc'].
  assert (Hu : forall a, a ∉ used sv -> a ∉ in_use (new_event_device dev) e rs) by
    (intros a Ha Hin; apply Ha; by eapply in_use_used).
  assert (Hlin : h_lock h ∉ in_use (new_event_device dev) e rs) by (apply Hap; eapply handle_cell; [done|right; left]).
  assert (Hsent : sent (new_event_device dev) e rs p i st mode reg fo rl (now sv)).
  { split; [split; auto|done|by rewrite Hf|by rewrite Hk| |by rewrite Hk]. rewrite Hk. split; [done|]. split; [by intros <-|]. intros E. by rewrite <- E in Hsu. }
  eapply wp_mono.
  - apply (wp_quiet extension_found); [|exact He|].
    + apply quiet_dispatch; [apply _|]. intros c Hcc. by apply extension_leaves.
    + exact (wp_control_request release_build slot dev o (new_event_device dev) (event_driver (DriverObject o)) e rs p i st mode reg fo rl
        (now sv) Hat eq_refl Hc Hsent Hr2).
  - intros status s' [[Hst (xs & Hcx & Hcl & Hs & Hin) Hkeep _ [tag Hlk] _] He'].
    change (answer_for _ _ _ _ _ _ _) with (control_answer removing (request_code st) p
      (InputBufferLength (request_data st)) (SystemBuffer i) reg ref) in *.
    pose proof (attend_control p (h_file h) removing (request_code st) (InputBufferLength (request_data st)) (SystemBuffer i) reg ref
      (client_of <$> rs) _ (told (signals (calls (now sv)))) (file_open sv h Hh)) as Hatt.
    pose proof (control_joins_as removing (request_code st) p (InputBufferLength (request_data st)) (SystemBuffer i) reg ref Hr1) as Hj.
    cbv zeta in Hatt, Hj. destruct (control_answer _ _ _ _ _ _ _) as [answer joined]. simpl in *. subst status.
    change (kafter _ (now sv)) with (looked_up sv) in *. rewrite signals_looked_up in Hs. rewrite Hk in *.
    pose proof (control_joined rs sv p i h xs answer joined s' Hse Hpu Hsu Hh Hj Hcl Hcx Hs Hin Hkeep (ex_intro _ _ Hlk) He') as Hse'.
    exists (rs ++ xs). unfold after. cbn [handles_after]. split; [exact Hse'|].
    rewrite (desk_serving _ _ Hse'), (desk_serving _ _ Hse), fmap_app, Hcl.
    unfold now at 2. cbn [sv_system sv_handles]. rewrite world_pended, Hs, told_app, told_timers_set.
    replace (told (closing_log p answer)) with (closing_log p answer); [exact Hatt|].
    unfold closing_log. by destruct (answer =? STATUS_PENDING).
Qed.

Lemma wp_asked rs sv p f what :
  serving rs sv -> asked sv p f what -> wp (WduDriver.dispatch_handler dev p) (now sv) (served p f what sv).
Proof.
  intros Hse [i st sec fo ? ? ? ? ? ? ? ?|h i st mode reg fo|h i st|h i st|i st mj].
  - by eapply wp_ask_open.
  - by eapply wp_ask_control.
  - by eapply wp_ask_cleanup.
  - by eapply wp_ask_close.
  - by eapply wp_ask_transfer.
Qed.

(** ** The other happenings *)

(** An entry has left the queue. *)
Lemma serving_left rs sv n r rs' sy' :
  serving rs sv -> swap_remove n rs = Some (r, rs') -> sound dev e rs' sy' -> extension_found (sy_world sy') ->
  only_at (touched e ++ footprint r) (now sv) (sy_world sy') ->
  serving rs' (mkServer sy' (sv_handles sv)).
Proof.
  intros Hse Hn Hso He Hat. pose proof (swap_remove_perm _ _ _ _ Hn) as Hp.
  assert (Hsub : forall a, (a ∈ footprint r -> a ∈ rs ≫= footprint) /\ (a ∈ rs' ≫= footprint -> a ∈ rs ≫= footprint)).
  { intros a. rewrite Hp, bind_cons, elem_of_app. tauto. }
  eapply serving_kept; [exact Hse|exact Hso|exact He|..].
  - intros a Ha. destruct (apart_touched _ _ _ Hse Ha) as [H1 H2]. apply Hat. rewrite not_elem_of_app.
    split; [done|]. by intros ?%Hsub.
  - intros a Ha [Hb|Hb]%elem_of_app; apply (se_apart _ _ Hse a Ha), elem_of_app; [by left|right; by apply Hsub].
Qed.

Lemma serve_due_sound rs sv n r rs' :
  serving rs sv -> swap_remove n rs = Some (r, rs') ->
  wp (kernel_dpc (dpc_of (record_of r))) (now sv) (fun _ s' =>
    let sv' := mkServer (react (expire (timer_of (record_of r)) (sv_system sv)) s') (sv_handles sv) in
    serving rs' sv' /\ attends TimerDue (desk_of sv) (desk_of sv') /\
    dk_told (desk_of sv') = dk_told (desk_of sv) ++ answer (client_of r)).
Proof.
  intros Hse Hn. pose proof Hse as [Hso _ He _ _ _]. eapply wp_mono.
  - apply (wp_quiet extension_found); [|exact He|exact (wp_kernel_dpc release_build _ _ _ _ _ _ _ (so_driver _ _ _ _ Hso) Hn)].
    apply quiet_kernel_dpc; [apply _|]. intros c Hc. by apply extension_leaves.
  - intros [] s' [(Hc & Hs & Hat) He']. cbv zeta. destruct (sound_due release_build _ _ _ _ _ _ _ _ Hso Hn Hc Hs) as [Hso' _].
    set (sv' := mkServer _ _). assert (Hse' : serving rs' sv') by (by eapply serving_left).
    split; [done|]. rewrite (desk_serving _ _ Hse'), (desk_serving _ _ Hse). change (now sv') with s'. rewrite Hs, told_app.
    replace (told (due_signals r)) with (answer (client_of r)) by by destruct r.
    split; [|done]. apply attend_timer. by rewrite (swap_remove_perm _ _ _ _ Hn).
Qed.

Lemma serve_cancel_sound rs sv p irql :
  serving rs sv -> p ∈ sy_pending (sv_system sv) ->
  wp (kernel_cancel dev p irql) (now sv) (fun _ s' =>
    let sv' := mkServer (react (sv_system sv) s') (sv_handles sv) in
    exists rs', serving rs' sv' /\ attends (CancelAsked p) (desk_of sv) (desk_of sv')).
Proof.
  intros Hse Hin. pose proof Hse as [Hso _ He _ _ _].
  destruct (pending_entry _ _ _ _ _ Hso Hin) as (n & stk & c & b & mj & rs' & Hn).
  eapply wp_mono.
  - apply (wp_quiet extension_found); [|exact He|
      exact (wp_kernel_cancel release_build _ _ _ _ _ _ _ _ _ _ irql _ (so_driver _ _ _ _ Hso) Hn)].
    apply quiet_kernel_cancel; [apply _|]. intros c' Hc. by apply extension_leaves.
  - intros [] s' [(Hc & Hs & Hat) He']. cbv zeta.
    destruct (sound_cancelled release_build _ _ _ _ _ _ _ _ _ _ _ _ Hso Hn Hc Hs) as [Hso' _].
    set (sv' := mkServer _ _). assert (Hse' : serving rs' sv') by (by eapply serving_left).
    exists rs'. split; [done|]. rewrite (desk_serving _ _ Hse'), (desk_serving _ _ Hse). change (now sv') with s'.
    rewrite Hs, told_app. apply attend_cancel. by rewrite (swap_remove_perm _ _ _ _ Hn).
Qed.

(** Every happening keeps the invariant and is one of the specification. *)
Lemma serve_sound rs sv x sv' :
  serving rs sv -> serve x sv sv' -> exists rs', serving rs' sv' /\ attends x (desk_of sv) (desk_of sv').
Proof.
  intros Hse Hst. destruct Hst as [p f what status sv1 s' Ha E|t dpc sv1 s' Hin E|p irql sv1 s' Hin E|s' sv1 Hf Hc He].
  - exact (wp_result _ _ _ _ _ (wp_asked _ _ _ _ _ Hse Ha) E).
  - destruct (timer_entry _ _ _ _ _ _ (se_sound _ _ Hse) Hin) as (n & r & rs' & Hn & -> & ->).
    destruct (wp_result _ _ _ _ _ (serve_due_sound _ _ _ _ _ Hse Hn) E) as (H1 & H2 & _). by exists rs'.
  - exact (wp_result _ _ _ _ _ (serve_cancel_sound _ _ _ irql Hse Hin) E).
  - pose proof Hse as [[Hcs Ht Hp] _ He0 _ _ Hap].
    assert (Hse' : serving rs (mkServer (mkSystem s' (sy_timers (sv_system sv1)) (sy_pending (sv_system sv1))) (sv_handles sv1))).
    { eapply serving_kept; [exact Hse| |by simpl; rewrite He| |done].
      - split; [|done..]. eapply (consistent_frame release_build); [|exact Hcs]. intros a Ha. apply Hf. by eapply in_use_used.
      - intros a [-> |Ha]%elem_of_cons; apply Hf; [apply device_used; left|apply elem_of_app; by left]. }
    exists rs. split; [done|]. rewrite (desk_serving _ _ Hse'), (desk_serving _ _ Hse).
    change (now (mkServer _ _)) with s'. rewrite Hc. apply attend_elsewhere.
Qed.

Lemma run_sound rs sv xs sv' :
  serving rs sv -> run serve xs sv sv' -> exists rs', serving rs' sv' /\ run attends xs (desk_of sv) (desk_of sv').
Proof.
  intros Hse Hr. revert rs Hse. induction Hr as [sv|x xs sv1 sv2 sv3 Hx _ IH]; intros rs Hse.
  - exists rs. split; [done|constructor].
  - destruct (serve_sound _ _ _ _ Hse Hx) as (rs2 & Hse2 & H1). destruct (IH _ Hse2) as (rs3 & Hse3 & H2).
    exists rs3. split; [done|by econstructor].
Qed.

(** Whoever waits can be answered, by the timer of its record. *)
Lemma serving_due rs sv r : serving rs sv -> r ∈ rs ->
  exists rs' sv', rs ≡ₚ r :: rs' /\ serve TimerDue sv sv' /\ serving rs' sv' /\ sv_handles sv' = sv_handles sv /\
    dk_told (desk_of sv') = dk_told (desk_of sv) ++ answer (client_of r).
Proof.
  intros Hse Hr. destruct (swap_remove_elem r rs Hr) as (n & rs' & Hn).
  destruct (wp_elim _ _ _ (serve_due_sound _ _ _ _ _ Hse Hn)) as ([] & s' & E & Hse' & _ & Ht).
  eexists rs', _. split; [by eapply swap_remove_perm|]. split; [|split; [exact Hse'|by split]].
  apply (serve_timer (timer_of (record_of r)) (dpc_of (record_of r))); [|done].
  rewrite (so_timers _ _ _ _ (se_sound _ _ Hse)). by apply (list_elem_of_fmap_2 timer_pair).
Qed.

(** The timers, each in its time, answer everybody. *)
Lemma serving_drains rs sv : serving rs sv ->
  exists sv', run serve (replicate (length rs) TimerDue) sv sv' /\ serving [] sv' /\ sv_handles sv' = sv_handles sv.
Proof.
  remember (length rs) as m eqn:Hm. revert rs sv Hm. induction m as [|m IH]; intros rs sv Hm Hse.
  - destruct rs; [|done]. exists sv. split; [constructor|done].
  - destruct rs as [|r rs0]; [done|]. destruct (serving_due _ _ r Hse ltac:(left)) as (rs' & sv1 & Hp & Hst & Hse1 & Hh & _).
    apply Permutation_length in Hp. destruct (IH rs' sv1 ltac:(simpl in *; lia) Hse1) as (sv' & Hr & H1 & H2). exists sv'.
    split; [by econstructor|]. split; [done|congruence].
Qed.
End requests.
End device.
End server.
