(* ===== verification/EventServerLife.v ===== *)
(** * EventServerLife: the event driver from its entry point to its unload routine

    What [init] leaves is where the driver of [EventServer] starts serving; the
    theorems are about all the driver does from then on. *)

From stdpp Require Import relations.
From S2P Require Import Prelude Nt World Quiet UnicodeStr Crate Pool FileObj Device Mdl Irp DeviceControl Driver SpinLock Sync Process Event EventSystem EventLife EventDispatch EventServer.
Import WduUnicodeStr (WduUnicodeStr).
Import WduDevice (WduDevice).
Import WduFileObject (WduFileObject).
Import WduIrp (WduIrp).
Import WduIoStatus (WduIoStatus).
Import WduCreate (WduCreate).
Import MajorFunction (MajorFunction).
Import WduDeviceControl (WduDeviceControl).
Import WduSpinLock (WduSpinLock).
Import WduRemoveLock (WduRemoveLock).
Import WduDpc (WduDpc).
Import ProcessorMode (ProcessorMode).

Section life.
Context {KN : Kernel} {B : Build} {LK : Linked} {NS : NtStatics} {EL : EventLayout} {U : Type}.
Context `{!Storable U DRIVER_OBJECT, !Storable U DRIVER_EXTENSION, !Storable U DEVICE_OBJECT}.
Context `{!Storable U WduDevice, !Storable U WduDriver, !Storable U MDL, !Storable U SECURITY_CONTEXT}.
Context `{!Storable U IRP, !Storable U IO_STACK_LOCATION, !Storable U WduIrp, !Storable U FILE_OBJECT}.
Context `{!Storable U WduSpinLock, !Storable U WduRemoveLock, !Storable U RegisterEvent}.
Context `{!Storable U DeviceExtension, !Storable U NotifyRecord, !Storable U (WduDpc NotifyData)}.
Context {EX : DriverExtensions}.
Context (release_build : debug_assertions = false).
Context (slot : ptr).
Implicit Types s : world U.

(** ** From [init] on *)

(** The device the I/O manager makes is apart from the driver's extension. *)
Definition extension_apart (p : ptr) : Prop :=
  forall k size name ty chars exclusive object contents k',
    kstep (IoCreateDevice p size name ty chars exclusive) k = ((STATUS_SUCCESS, (object, contents)), k') ->
    ext_of k p id_addr ∉ [object; Nt.DeviceExtension contents; extension_at contents; queue_lock (extension_at contents)].

Lemma quiet_init (P : world U -> Prop) `{!Memoryless P} p : (forall c, leaves P c) -> quiet P (Event.init p).
Proof. intros HP. quiet. all: apply HP. Qed.

Lemma init_serving p (o : DRIVER_OBJECT) ext object contents s s1 :
  makes_devices p -> extension_stays p -> extension_apart p ->
  Event.init p s = Done (Ok tt) s1 -> set_up p o ext object contents s s1 ->
  serving object (flagged contents) (extension_at contents) ext [] (mkServer (mkSystem s1 [] []) []).
Proof.
  intros Hdev Hst Hap E Hsu. pose proof Hsu as [[Ho Hd Hx _] Ht Hobj Hrest Hso].
  assert (Hr : replays_since s s1).
  { eapply (quiet_init (replays_since s) p); [apply replays_leaves| |exact E]. exists []. by rewrite app_nil_r. }
  destruct Hr as (t & Ht' & Hr). rewrite Ht in Ht'. apply app_inv_head in Ht' as <-.
  cbn [replays] in Hr. destruct Hr as (H1 & H2 & _ & Hk3).
  set (k1 := (kstep (alloc_call p) (w_kernel s)).2) in *. set (k2 := (kstep (make_call p) k1).2) in *.
  destruct (alloc_ext_law (w_kernel s) k1 p id_addr (u32 size_of_WduDriver) ext) as [Hx0 Hk1].
  { fold (alloc_call p). unfold k1. rewrite H1. by destruct (kstep (alloc_call p) (w_kernel s)). }
  assert (Hm : kstep (make_call p) k1 = ((STATUS_SUCCESS, (object, contents)), k2)).
  { unfold k2. rewrite H2. by destruct (kstep (make_call p) k1). }
  destruct (Hdev _ _ _ _ _ _ _ _ _ Hm) as (_ & He & Hl & Hnd). apply Hap in Hm. rewrite Hk1 in Hm.
  assert (Hk : ext_of (w_kernel s1) p id_addr = ext) by (rewrite Hk3, Hst by done; unfold k2; by rewrite Hst).
  rewrite !not_elem_of_cons in Hm. destruct Hm as (Hxo & Hxd & Hxe & Hxl & _). apart Hnd.
  split; [exact Hso| |simpl; by rewrite Hd|constructor| |].
  - split; unfold now; simpl; try done; rewrite ?Hd.
    + rewrite Hrest, lookup_insert_eq; [done|]. rewrite !not_elem_of_cons. split_and!; first [done|by apply not_eq_sym|apply not_elem_of_nil].
    + unfold kresp. rewrite get_ext. simpl. by rewrite Hk.
    + unfold kresp. rewrite get_ext. simpl. rewrite Hk, Hrest; [rewrite lookup_insert_ne by done; by rewrite lookup_insert_eq|].
      rewrite !not_elem_of_cons. split_and!; first [done|by apply not_eq_sym|apply not_elem_of_nil].
  - unfold cells. simpl. apply NoDup_cons_2; [rewrite list_elem_of_singleton; by intros <-|apply NoDup_singleton].
  - intros a Ha. unfold cells in Ha. simpl in Ha. rewrite !elem_of_cons, elem_of_nil in Ha. unfold in_use, base. simpl.
    rewrite !not_elem_of_cons. destruct Ha as [-> |[-> |[]]]; split_and!; first [done|by apply not_eq_sym|apply not_elem_of_nil].
Qed.

(** *** The driver among its callers *)

Section driver.
Context (p : ptr) (o : DRIVER_OBJECT) (s : world U).
Hypothesis Hp : p <> 0.
Hypothesis Ho : w_mem s !! p = Some (inj o).
(** What is documented of the I/O manager. *)
Hypothesis Hdev : makes_devices p.
Hypothesis Hstays : extension_stays p.
Hypothesis Hapart : extension_apart p.
Hypothesis Hcode : code_addr "event::close" <> code_addr "event::cleanup".

Local Abbreviation ext := (kresp (alloc_call p) s).2.
Definition starting (s1 : world U) : server := mkServer (mkSystem s1 [] []) [].

Lemma extension_made : let r0 := kresp (alloc_call p) s : NTSTATUS * ptr in r0.1 = STATUS_SUCCESS -> r0.2 <> 0.
Proof.
  intros r0 Hr. eapply (alloc_ext_law (w_kernel s) (kstep (alloc_call p) (w_kernel s)).2 p id_addr (u32 size_of_WduDriver)).
  unfold r0, kresp, alloc_call in *. destruct (kstep _ (w_kernel s)) as [[st x] k']. simpl in *. by rewrite Hr.
Qed.

(** C1: the event driver among its callers, from its entry point to its unload
    routine, in a build without debug assertions.  When [init] succeeds, the
    device is made and named.  From then on file objects are opened, control
    requests are sent through the open handles, handles are cleaned up and
    closed, all through the crate's dispatch handler; timers are due and
    requests are cancelled; one routine runs at a time.  In whatever order this
    happens - except that a handle is cleaned up only when nobody waits, that an
    event is registered only when nobody waits for it already, and that a
    request is cancelled only once it is registered and before its timer's DPC
    is queued - the clients and the I/O manager are told what
    the specification says, request by request.  The timers can always answer
    everybody; and the unload routine takes the name and the device away if
    nobody waits, and stops the machine if somebody does.  When [init] fails it
    has told nobody anything; when the device cannot be named it uses what it
    has deleted. *)
Theorem event_server_life :
  match Event.init p s with
  | Done (Err err) s1 => (err = DriverError \/ err = DeviceError) /\ signals (calls s1) = signals (calls s)
  | Panicked _ _ => False
  | Ub f s1 => exists object, f = Dangling object /\ IoDeleteDevice object ∈ calls s1
  | Done (Ok _) s1 => exists object contents,
      devices (w_trace s1) = devices (w_trace s) ++ [(object, contents)] /\
      DriverObject contents = p /\ link_call ∈ calls s1 /\
      let e := extension_at contents in
      let serve := serve slot object (flagged contents) e ext in
      forall xs sv, run serve xs (starting s1) sv ->
        run attends xs (mkDesk [] [] (told (signals (calls s)))) (desk_of e sv) /\
        (exists n sv', run serve (replicate n TimerDue) sv sv' /\ waits e sv' = []) /\
        forall drv (o' : DRIVER_OBJECT), WduDriver.as_ptr drv = p ->
          w_mem (now sv) !! p = Some (inj o') -> DeviceObject o' = object ->
          match Event.driver_unload drv (now sv) with
          | Done _ s' => waits e sv = [] /\ calls s' = calls (now sv) ++ [unlink_call; IoDeleteDevice object] /\
              w_mem s' = delete object (w_mem (now sv))
          | Panicked _ s' => waits e sv <> [] /\ s' = now sv
          | Ub _ _ => False
          end
  end.
Proof.
  pose proof (init_outcome p o s Hp Ho Hdev extension_made) as H.
  destruct (Event.init p s) as [[[]|err] s1|msg s1|f s1] eqn:E; [|done..].
  destruct H as (object & contents & Hsu). destruct (set_up_calls _ _ _ _ _ _ _ Hsu) as (Hds & Hd & Hl & Hs).
  exists object, contents. do 3 (split; [done|]). cbv zeta. intros xs sv Hr.
  pose proof (init_serving p o _ object contents s s1 Hdev Hstays Hapart E Hsu) as Hse.
  assert (Hst : extension_stays (DriverObject (flagged contents))) by (simpl; by rewrite Hd).
  destruct (run_sound release_build _ _ _ _ _ Hst Hcode _ _ _ _ Hse Hr) as (rs & Hse' & Hrun).
  rewrite (desk_serving _ _ _ _ _ _ Hse) in Hrun. simpl in Hrun. unfold now in Hrun. simpl in Hrun. rewrite Hs in Hrun.
  split; [exact Hrun|]. split.
  - destruct (serving_drains release_build slot _ _ _ _ Hst _ _ Hse') as (sv' & Hr' & Hidle & _). exists (length rs), sv'.
    split; [exact Hr'|by eapply serving_waits].
  - intros drv o' Hdrv Ho' Hdo. rewrite (serving_waits _ _ _ _ _ _ Hse').
    rewrite <- Hdrv in Hp, Ho'. exact (unload_outcome object _ rs _ drv o' (se_sound _ _ _ _ _ _ Hse') Hp Ho' Hdo).
Qed.

(** C2: in a build without debug assertions, in every state a run of the event
    driver gets to in which its callers kept to [asked] and [serve] - one
    routine at a time, a handle cleaned up only when nobody waits, an event
    registered only when nobody waits for it already, a request cancelled only
    once it is registered and before its timer's DPC is queued - the driver can go on, without a fault or
    a panic: the next request that keeps to them is answered; whoever waits
    is answered when its time is due; and a request that waits can be cancelled,
    while its timer runs. *)
Theorem event_server_ready s1 object contents xs sv :
  Event.init p s = Done (Ok tt) s1 -> devices (w_trace s1) = devices (w_trace s) ++ [(object, contents)] ->
  let e := extension_at contents in
  let serve := serve slot object (flagged contents) e ext in
  run serve xs (starting s1) sv ->
  (forall q f what, asked slot object (flagged contents) e ext sv q f what ->
     exists status sv', serve (Asked q f what status) sv sv') /\
  (forall c, c ∈ dk_waiting (desk_of e sv) ->
     exists sv', serve TimerDue sv sv' /\ dk_told (desk_of e sv') = dk_told (desk_of e sv) ++ answer c) /\
  (forall q, Request q ∈ dk_waiting (desk_of e sv) -> exists sv', serve (CancelAsked q) sv sv').
Proof.
  intros E Hds. cbv zeta. intros Hr. pose proof (init_outcome p o s Hp Ho Hdev extension_made) as H. rewrite E in H.
  destruct H as (object' & contents' & Hsu). destruct (set_up_calls _ _ _ _ _ _ _ Hsu) as (Hds' & Hd & _).
  rewrite Hds in Hds'. apply app_inv_head in Hds' as [= <- <-].
  pose proof (init_serving p o _ object contents s s1 Hdev Hstays Hapart E Hsu) as Hse.
  assert (Hst : extension_stays (DriverObject (flagged contents))) by (simpl; by rewrite Hd).
  destruct (run_sound release_build _ _ _ _ _ Hst Hcode _ _ _ _ Hse Hr) as (rs & Hse' & _).
  rewrite (desk_serving _ _ _ _ _ _ Hse'). cbn [dk_waiting dk_told]. split; [|split].
  - intros q f what Ha. destruct (wp_elim _ _ _ (wp_asked release_build _ _ _ _ _ Hst Hcode _ _ _ _ _ Hse' Ha)) as (status & s' & E' & _).
    exists status. eexists. by eapply serve_request.
  - intros c (r & -> & Hin)%list_elem_of_fmap.
    destruct (serving_due release_build slot _ _ _ _ Hst _ _ r Hse' Hin) as (rs' & sv' & _ & Hsv & _ & _ & Ht).
    exists sv'. split; [exact Hsv|]. rewrite Ht. by rewrite (desk_serving _ _ _ _ _ _ Hse').
  - intros q (r & Hq & Hin)%list_elem_of_fmap. destruct r as [q' stk c b mj|]; [|done]. injection Hq as ->.
    assert (Hpend : q' ∈ sy_pending (sv_system sv)).
    { rewrite (so_pending _ _ _ _ (se_sound _ _ _ _ _ _ Hse')). apply list_elem_of_omap. by exists (ByIrp q' stk c b mj). }
    destruct (wp_elim _ _ _ (serve_cancel_sound release_build _ _ _ _ Hst _ _ q' 0 Hse' Hpend)) as ([] & s' & E' & _).
    eexists. by eapply serve_cancel.
Qed.
End driver.
End life.

(** ** Instances *)

#[local] Existing Instance EventDemo.build.
#[local] Existing Instance EventDemo.statics.
#[local] Existing Instance EventDemo.layout.

Module ServerDemo.
Abbreviation cells :=
  (DRIVER_OBJECT + (DRIVER_EXTENSION + (DEVICE_OBJECT + (WduDevice + (WduDriver + (MDL + (SECURITY_CONTEXT +
    (IRP + (IO_STACK_LOCATION + (WduIrp + (FILE_OBJECT + (WduSpinLock + (WduRemoveLock + (RegisterEvent +
    (DeviceExtension + (NotifyRecord + (WduDpc NotifyData + unit)))))))))))))))))%type.

#[export] Instance linked : Linked :=
  {| size_of_WduDevice := 24; size_of_WduDriver := 72; code_addr s := 0x7000 + Z.of_nat (String.length s) |}.
(** The driver's extension is at 0xB00, the device at 0x900, with its extension
    at 0xA00. *)
#[export] Instance kernel : Kernel := {|
  kstate := unit;
  kstep c k := (match c as c return kret c with
                | IoAllocateDriverObjectExtension _ _ _ => (STATUS_SUCCESS, 0xB00)
                | IoGetDriverObjectExtension _ _ => 0xB00
                | IoCreateDevice driver _ _ _ _ _ => (STATUS_SUCCESS, (0x900, mkDeviceObject 0xA00 driver 0))
                | ObReferenceObjectByHandle _ _ _ _ => (STATUS_SUCCESS, 0x600)
                | KeCancelTimer _ => 1
                | c => default_answer c
                end, k) |}.
#[export] Instance extensions : DriverExtensions.
Proof.
  refine {| ext_of _ _ _ := 0xB00 |}; [done|]. intros k k' d id sz p E. by injection E as <- _.
Defined.

Lemma serves_devices : makes_devices 0x80.
Proof.
  intros k size name ty chars exclusive object contents k' E. simpl in E. injection E as <- <- _.
  split_and!; first [concrete|split; concrete].
Qed.
Lemma apart_from_extension : extension_apart 0x80.
Proof. intros k size name ty chars exclusive object contents k' E. simpl in E. injection E as <- <- _. concrete. Qed.

Definition object : DRIVER_OBJECT := mkDriverObject 0 0 None (replicate 28 None).
Definition before : world cells := World tt [] {[0x80 := inj object]}.
Definition set_up : world cells :=
  match Event.init 0x80 before with Done _ s => s | _ => before end.
Definition contents : DEVICE_OBJECT := mkDeviceObject 0xA00 0x80 0.

(** A request at [p] with the major function [mj], for the file object at 0x400;
    its input is at 0x300. *)
Definition packet (stk : ptr) : IRP := mkIRP 0 0 2 2 stk 0x300 0 0 0x400 0 0 (ProcessorMode.into_i8 ProcessorMode.UserMode) 0 None.
Definition stack (mj : MajorFunction) : IO_STACK_LOCATION :=
  mkStack (major_code mj) 0 0x400 (mkCreateParams 0 0 0) (mkDeviceIoControlRaw 0 24 IOCTL_REGISTER_EVENT 0).
Definition deliver (p stk : ptr) (mj : MajorFunction) (m : gmap ptr cells) : gmap ptr cells :=
  <[p := inj (packet stk)]> (<[stk := inj (stack mj)]> m).
Definition registration : RegisterEvent := mkRegisterEvent IRP_BASED 0 (-50).
Definition new_file : FILE_OBJECT := mkFileObject (mkUnicode 0 0 0) 0 0.
End ServerDemo.
#[local] Existing Instance ServerDemo.linked.
#[local] Existing Instance ServerDemo.kernel.
#[local] Existing Instance ServerDemo.extensions.
#[local] Instance demo_client : Client ServerDemo.cells := event_client 0x480.

Module ServerRun.
Abbreviation system_of sv s := (mkSystem s (sy_timers (sv_system sv)) (sy_pending (sv_system sv))).
Definition elsewhere (m : gmap ptr ServerDemo.cells) (sv : server (U := ServerDemo.cells)) : server (U := ServerDemo.cells) :=
  mkServer (system_of sv (set_mem m (now sv))) (sv_handles sv).
Definition dispatch (p f : ptr) (what : asking) (sv : server (U := ServerDemo.cells)) : server (U := ServerDemo.cells) :=
  match WduDriver.dispatch_handler 0x900 p (now sv) with
  | Done status s' => after p f what status s' sv
  | _ => sv
  end.
Definition register : asking :=
  Control STATUS_SUCCESS IOCTL_REGISTER_EVENT 24 0x300 ServerDemo.registration (STATUS_SUCCESS, 0x600).

(** A file object is made and a create request for it, which is dispatched;
    then a control request through the new handle. *)
Definition delivered : server (U := ServerDemo.cells) :=
  elsewhere (<[0x400 := inj ServerDemo.new_file]> (ServerDemo.deliver 0x100 0x200 MajorFunction.Create (w_mem ServerDemo.set_up)))
    (starting ServerDemo.set_up).
Definition opened : server (U := ServerDemo.cells) := dispatch 0x100 0x400 Open delivered.
Definition requested : server (U := ServerDemo.cells) :=
  elsewhere (<[0x300 := inj ServerDemo.registration]>
    (ServerDemo.deliver 0x180 0x280 MajorFunction.DeviceControl (w_mem (now opened)))) opened.
Definition registered : server (U := ServerDemo.cells) := dispatch 0x180 0x400 register requested.
Definition story : list happening :=
  [Elsewhere; Asked 0x100 0x400 Open STATUS_SUCCESS; Elsewhere; Asked 0x180 0x400 register STATUS_PENDING].
End ServerRun.
Import ServerRun.

Abbreviation demo_serve := (serve 0x480 0x900 (flagged ServerDemo.contents) 0xA18 0xB00).

(** What is made at free addresses changes nothing that is in use. *)
Ltac same_elsewhere :=
  intros a Ha; unfold ServerDemo.deliver; rewrite !lookup_insert_ne; [reflexivity|..]; intros <-; revert Ha; not_in.

Lemma demo_packet (sv : server (U := ServerDemo.cells)) p stk mj :
  dispatched p (ServerDemo.packet stk) (ServerDemo.stack mj) (now sv) -> p <> stk ->
  p ∉ used 0x900 (flagged ServerDemo.contents) 0xA18 0xB00 sv -> stk ∉ used 0x900 (flagged ServerDemo.contents) 0xA18 0xB00 sv ->
  packet 0x900 (flagged ServerDemo.contents) 0xA18 0xB00 sv p (ServerDemo.packet stk) (ServerDemo.stack mj) mj.
Proof. by split. Qed.

Lemma demo_opened : demo_serve (Asked 0x100 0x400 Open STATUS_SUCCESS) delivered opened.
Proof.
  assert (Ha : asked 0x480 0x900 (flagged ServerDemo.contents) 0xA18 0xB00 delivered 0x100 0x400 Open).
  { apply (ask_open 0x480 0x900 (flagged ServerDemo.contents) 0xA18 0xB00 delivered 0x100 (ServerDemo.packet 0x200)
      (ServerDemo.stack MajorFunction.Create) (mkSecurityContext 0) ServerDemo.new_file);
    [apply demo_packet; [split; first [concrete|simpl; lia]|concrete..]|by intros []|concrete..]. }
  assert (E : exists s', WduDriver.dispatch_handler 0x900 0x100 (now delivered) = Done STATUS_SUCCESS s' /\
    after 0x100 0x400 Open STATUS_SUCCESS s' delivered = opened) by (eexists; split; vm_compute; reflexivity).
  destruct E as (s' & E & <-). exact (serve_request _ _ _ _ _ _ _ _ _ _ _ Ha E).
Qed.

Lemma demo_subscribed : demo_serve (Asked 0x180 0x400 register STATUS_PENDING) requested registered.
Proof.
  assert (Ha : asked 0x480 0x900 (flagged ServerDemo.contents) 0xA18 0xB00 requested 0x180 0x400 register).
  { apply (ask_control 0x480 0x900 (flagged ServerDemo.contents) 0xA18 0xB00 requested 0x180 (mkHandle 0x400 0xB10)
      (ServerDemo.packet 0x280) (ServerDemo.stack MajorFunction.DeviceControl) ProcessorMode.UserMode
      ServerDemo.registration (mkFileObject (mkUnicode 0 0 0) 0xB10 0));
    [apply demo_packet; [split; first [concrete|simpl; lia]|concrete..]|concrete|reflexivity| |reflexivity|concrete|split; concrete|concrete..].
    vm_compute. left. }
  assert (E : exists s', WduDriver.dispatch_handler 0x900 0x180 (now requested) = Done STATUS_PENDING s' /\
    after 0x180 0x400 register STATUS_PENDING s' requested = registered) by (eexists; split; vm_compute; reflexivity).
  destruct E as (s' & E & <-). exact (serve_request _ _ _ _ _ _ _ _ _ _ _ Ha E).
Qed.

Lemma demo_elsewhere m (sv : server (U := ServerDemo.cells)) :
  (forall a, a ∈ used 0x900 (flagged ServerDemo.contents) 0xA18 0xB00 sv -> m !! a = w_mem (now sv) !! a) ->
  demo_serve Elsewhere sv (elsewhere m sv).
Proof. intros Hm. by apply (serve_elsewhere _ _ _ _ _ (set_mem m (now sv)) sv). Qed.

Lemma demo_story : run demo_serve story (starting ServerDemo.set_up) registered.
Proof.
  apply (run_cons _ _ _ _ delivered); [|apply (run_cons _ _ _ _ opened); [exact demo_opened|]].
  - apply demo_elsewhere. same_elsewhere.
  - apply (run_cons _ _ _ _ requested); [|apply (run_cons _ _ _ _ registered); [exact demo_subscribed|constructor]].
    apply demo_elsewhere. same_elsewhere.
Qed.

Lemma demo_started : Event.init 0x80 ServerDemo.before = Done (Ok tt) ServerDemo.set_up.
Proof. vm_compute. reflexivity. Qed.
Lemma demo_stays : extension_stays 0x80.
Proof. by intros c k _. Qed.

(** A file object is opened, and a request sent through it stays pending; then
    its timer is due. *)
Lemma event_server_life_witness :
  Event.init 0x80 ServerDemo.before = Done (Ok tt) ServerDemo.set_up /\
  run attends story (mkDesk [] [] []) (mkDesk [Request 0x180] [0x400] [Completed 0x100 STATUS_SUCCESS]) /\
  exists n sv, run demo_serve (replicate n TimerDue) registered sv /\ waits 0xA18 sv = [].
Proof.
  split; [exact demo_started|].
  pose proof (event_server_life eq_refl 0x480 0x80 ServerDemo.object ServerDemo.before ltac:(discriminate)
    ltac:(vm_compute; reflexivity) ServerDemo.serves_devices demo_stays ServerDemo.apart_from_extension ltac:(discriminate)) as H.
  rewrite demo_started in H. destruct H as (object & contents & Hd & _ & _ & H).
  assert (Hd' : [(object, contents)] = [(0x900, ServerDemo.contents)]).
  { apply (app_inv_head (devices (w_trace ServerDemo.before))). rewrite <- Hd. vm_compute. reflexivity. }
  injection Hd' as -> ->. destruct (H story registered demo_story) as (H1 & H2 & _).
  split; [|exact H2]. exact H1.
Defined.

Lemma event_server_ready_witness :
  exists sv, demo_serve (CancelAsked 0x180) registered sv.
Proof.
  destruct (event_server_ready eq_refl 0x480 0x80 ServerDemo.object ServerDemo.before ltac:(discriminate)
    ltac:(vm_compute; reflexivity) ServerDemo.serves_devices demo_stays ServerDemo.apart_from_extension ltac:(discriminate)
    ServerDemo.set_up 0x900 ServerDemo.contents story registered demo_started ltac:(vm_compute; reflexivity) demo_story)
    as (_ & _ & H).
  apply H. vm_compute. left.
Defined.
