(* ===== verification/Sioctl.v ===== *)
(** * Sioctl: the example driver [examples/sioctl/src/lib.rs]

    It answers control requests of the four buffering methods with a fixed
    text.  What it prints of the client's data is not modelled. *)

From S2P Require Import Prelude Nt World UnicodeStr Crate Pool FileObj.
From S2P Require Import Device Mdl Irp DeviceControl Driver Process.
Import WduUnicodeStr (WduUnicodeStr).
Import WduDevice (WduDevice).
Import WduFileObject (WduFileObject).
Import WduIrp (WduIrp).
Import MajorFunction (MajorFunction).
Import WduIoStatus (WduIoStatus).
Import WduCreate (WduCreate).
Import WduDeviceControl (WduDeviceControl).
Import ProcessorMode (ProcessorMode, UserMode, KernelMode).

(** A buffer seen as bytes; it is as long as the list. *)
Record bytes : Type := mkBytes { b_data : list Z }.

(** [dst.copy_from(src, src.len())] on bytes. *)
Definition copy_from {KN : Kernel} {U} `{!Storable U bytes} (dst : ptr) (src : list Z)
    : M (world U) unit :=
  b ← load (T := bytes) dst;
  if Z.of_nat (length (b_data b)) <? Z.of_nat (length src) then ub (OutOfBounds dst)
  else store dst (mkBytes (src ++ drop (length src) (b_data b))).

Inductive SioctlError : Type := DriverError | DeviceError | MdlError.

(** [From<WduDeviceError>], [From<WduDriverError>], [From<WduMdlError>] *)
Definition from_device_error (_ : WduDeviceError) : SioctlError := DeviceError.
Definition from_driver_error (_ : WduDriverError) : SioctlError := DriverError.
Definition from_mdl_error (_ : WduMdlError) : SioctlError := MdlError.

Definition DEVICE_NAME_UTF16 : list Z := utf16str "\Device\SIOCTL".
Definition WIN32_NAME_UTF16 : list Z := utf16str "\DosDevices\IoctlTest".

Definition SIOCTL_TYPE : Z := 40000.
Definition IOCTL_SIOCTL_METHOD_IN_DIRECT : Z :=
  encode_ioctl SIOCTL_TYPE 0x900 METHOD_IN_DIRECT FILE_ANY_ACCESS.
Definition IOCTL_SIOCTL_METHOD_OUT_DIRECT : Z :=
  encode_ioctl SIOCTL_TYPE 0x901 METHOD_OUT_DIRECT FILE_ANY_ACCESS.
Definition IOCTL_SIOCTL_METHOD_BUFFERED : Z :=
  encode_ioctl SIOCTL_TYPE 0x902 METHOD_BUFFERED FILE_ANY_ACCESS.
Definition IOCTL_SIOCTL_METHOD_NEITHER : Z :=
  encode_ioctl SIOCTL_TYPE 0x903 METHOD_NEITHER FILE_ANY_ACCESS.

(** The two texts; ASCII, so their bytes are their code units. *)
Definition reply_text : list Z := utf16str "String from Rust Device Driver!".
Definition neither_text : list Z := utf16str "String from Rust Device Driver (Method Neither)!".

(** Where the compiler puts the names. *)
Class SioctlLayout : Type := { device_name_at : ptr; win32_name_at : ptr; global_name_at : ptr }.

Section Sioctl.
Context {KN : Kernel} {B : Build} {LK : Linked} {SL : SioctlLayout} {U : Type}.
Context `{!Storable U DRIVER_OBJECT, !Storable U DRIVER_EXTENSION, !Storable U DEVICE_OBJECT}.
Context `{!Storable U WduDevice, !Storable U WduDriver, !Storable U IRP, !Storable U MDL}.
Context `{!Storable U bytes}.

Definition init (driver_object : ptr) : M (world U) (result unit SioctlError) :=
  let device_name := WduUnicodeStr.from_slice device_name_at DEVICE_NAME_UTF16 in
  let win32_name := WduUnicodeStr.from_slice win32_name_at WIN32_NAME_UTF16 in
  let fileobj := FileObjDispatch.close_irp (FileObjDispatch.create_irp FileObjDispatch.default
    (code_addr "sioctl::create")) (code_addr "sioctl::close") in
  let io := IoDispath.ioctl_irp IoDispath.default (code_addr "sioctl::device_control") in
  d ← WduDriver.unload (WduDriver.new driver_object) (code_addr "sioctl::driver_unload");
  d ← WduDriver.file_object d fileobj;
  d ← WduDriver.io d io;
  try_ from_driver_error (WduDriver.build d) (fun wdu_driver =>
  try_ from_device_error (WduDevice.build 0
      (WduDevice.set_characteristics (WduDevice.set_device_type WduDevice.default UnknownDevice)
         SecureOpen) (WduDriver.as_ptr wdu_driver) (Some device_name)) (fun wdu_device =>
  r ← WduDevice.symbolic_name wdu_device device_name win32_name;
  (if r is Err _ then WduDevice.delete wdu_device else mret tt) ;;
  mret (Ok tt))).

(** The logger is not modelled. *)
Definition DriverEntry (driver_object : ptr) : M (world U) NTSTATUS :=
  SimpleAlloc.init global_name_at SimpleAlloc.const_new ;;
  r ← init driver_object;
  match r with Err _ => mret STATUS_UNSUCCESSFUL | Ok _ => mret STATUS_SUCCESS end.

Definition driver_unload (driver : WduDriver) : M (world U) unit :=
  dev_obj ← WduDriver.device driver;
  let win32_name := WduUnicodeStr.from_slice win32_name_at WIN32_NAME_UTF16 in
  WduDevice.delete_symbolic_name win32_name ;;
  WduDevice.delete dev_obj.

Definition create (_device : WduDevice) (request : WduIrp) (_req_data : WduCreate)
    : M (world U) WduIrp :=
  WduIrp.complete request WduIoStatus.success_no_info ;; mret request.

Definition close (_device : WduDevice) (request : WduIrp) (_file_object : WduFileObject)
    : M (world U) WduIrp :=
  WduIrp.complete request WduIoStatus.success_no_info ;; mret request.

(** Each block's MDL is dropped at the end of the block, on an early return
    too. *)
Definition method_neither (req_data : WduDeviceControl) : M (world U) (result Z SioctlError) :=
  let priority := Z.lor PagePriority.Normal PagePriority.MdlMappingNoExecute in
  in_mdl ←? (r ← WduMdl.allocate (WduDeviceControl.input_buffer req_data)
                   (u32 (WduDeviceControl.input_buffer_size req_data)) false None;
             mret match r with Ok m => Ok m | Err e => Err (from_mdl_error e) end);
  in_mdl ← WduMdl.probe_and_lock in_mdl UserMode IoReadAccess;
  in_buf ← WduMdl.get_system_addr in_mdl priority;
  if in_buf =? null then WduMdl.drop in_mdl ;; mret (Err MdlError)
  else
    WduMdl.drop in_mdl ;;
    output ← WduDeviceControl.output_buffer req_data;
    out_mdl ←? (r ← WduMdl.allocate output (u32 (WduDeviceControl.output_buffer_size req_data)) false None;
                mret match r with Ok m => Ok m | Err e => Err (from_mdl_error e) end);
    out_mdl ← WduMdl.probe_and_lock out_mdl UserMode IoWriteAccess;
    out_buf ← WduMdl.get_system_addr out_mdl priority;
    if out_buf =? null then WduMdl.drop out_mdl ;; mret (Err MdlError)
    else
      copy_from out_buf neither_text ;;
      n ← WduMdl.byte_count out_mdl;
      let written_bytes := if n <? Z.of_nat (length neither_text) then n
                           else Z.of_nat (length neither_text) in
      WduMdl.drop out_mdl ;;
      mret (Ok written_bytes).

Definition device_control (_device : WduDevice) (request : WduIrp) (req_data : WduDeviceControl)
    : M (world U) (WduIrp * NTSTATUS) :=
  let io_status := WduIoStatus.success_no_info in
  let ioctl := WduDeviceControl.ioctl req_data in
  let in_buf_size := WduDeviceControl.input_buffer_size req_data in
  let out_buf_size := WduDeviceControl.output_buffer_size req_data in
  let data_len := Z.of_nat (length reply_text) in
  if (in_buf_size =? 0) || (out_buf_size =? 0) then
    WduIrp.complete request (WduIoStatus.set_status io_status STATUS_INVALID_PARAMETER) ;;
    mret (request, STATUS_INVALID_PARAMETER)
  else
    out_buf ← WduDeviceControl.output_buffer req_data;
    if out_buf =? null then
      WduIrp.complete request (WduIoStatus.set_status io_status STATUS_INSUFFICIENT_RESOURCES) ;;
      mret (request, STATUS_INSUFFICIENT_RESOURCES)
    else
      r ← (if (ioctl =? IOCTL_SIOCTL_METHOD_BUFFERED) || (ioctl =? IOCTL_SIOCTL_METHOD_OUT_DIRECT) then
             copy_from out_buf reply_text ;;
             mret (WduIoStatus.set_info io_status
                     (if out_buf_size <? data_len then out_buf_size else data_len), STATUS_SUCCESS)
           else if ioctl =? IOCTL_SIOCTL_METHOD_IN_DIRECT then
             copy_from out_buf reply_text ;;
             n ← WduDeviceControl.mdl_byte_count req_data;
             mret (WduIoStatus.set_info io_status n, STATUS_SUCCESS)
           else if ioctl =? IOCTL_SIOCTL_METHOD_NEITHER then
             w ← method_neither req_data;
             match w with
             | Ok written_bytes => mret (WduIoStatus.set_info io_status written_bytes, STATUS_SUCCESS)
             | Err _ => mret (io_status, STATUS_INSUFFICIENT_RESOURCES)
             end
           else mret (io_status, STATUS_INVALID_DEVICE_REQUEST));
      let '(io_status, status) := r in
      WduIrp.complete request (WduIoStatus.set_status io_status status) ;;
      mret (request, status).
End Sioctl.

(** ** Properties *)

(** The codes are what the client computes from the same fields, and the
    driver tells them apart. *)
Lemma codes_differ :
  [IOCTL_SIOCTL_METHOD_IN_DIRECT; IOCTL_SIOCTL_METHOD_OUT_DIRECT; IOCTL_SIOCTL_METHOD_BUFFERED;
   IOCTL_SIOCTL_METHOD_NEITHER] = [0x9C402401; 0x9C402406; 0x9C402408; 0x9C40240F].
Proof. reflexivity. Qed.

Section properties.
Context {KN : Kernel} {B : Build} {U : Type} `{!Storable U IRP, !Storable U MDL, !Storable U bytes}.
Implicit Types s : world U.

(** The status and the information a buffered control request is completed
    with. *)
Definition buffered_answer (code in_len out_len : Z) (buf : ptr) : NTSTATUS * Z :=
  if (in_len =? 0) || (out_len =? 0) then (STATUS_INVALID_PARAMETER, 0)
  else if buf =? null then (STATUS_INSUFFICIENT_RESOURCES, 0)
  else if code =? IOCTL_SIOCTL_METHOD_BUFFERED then (STATUS_SUCCESS, Z.min out_len 31)
  else (STATUS_INVALID_DEVICE_REQUEST, 0).

(** Whether the text is copied to the buffer. *)
Definition copies (code in_len out_len : Z) (buf : ptr) : bool :=
  negb (in_len =? 0) && negb (out_len =? 0) && negb (buf =? null)
  && (code =? IOCTL_SIOCTL_METHOD_BUFFERED).

Definition answered_block (blk : bytes) : bytes := mkBytes (reply_text ++ drop 31 (b_data blk)).

Lemma wp_copy_reply buf (blk : bytes) s (Q : unit -> world U -> Prop) :
  buf <> 0 -> w_mem s !! buf = Some (inj blk) -> 31 <= Z.of_nat (length (b_data blk)) ->
  Q tt (set_mem (<[buf := inj (answered_block blk)]> (w_mem s)) s) ->
  wp (copy_from buf reply_text) s Q.
Proof.
  intros H0 Hb Hl HQ. unfold copy_from. wp_step. eapply wp_load; [done..|].
  rewrite (proj2 (Z.ltb_ge _ _)) by (simpl; lia). by eapply wp_store.
Qed.

(** The request is completed once, with that answer, the text being copied
    first when it is the driver's. *)
Lemma wp_buffered (dev : WduDevice) (w : WduIrp) (i : IRP) code in_len out_len buf s
    (Q : WduIrp * NTSTATUS -> world U -> Prop) :
  WduIrp.irp w <> 0 -> w_mem s !! WduIrp.irp w = Some (inj i) ->
  code <> IOCTL_SIOCTL_METHOD_OUT_DIRECT -> code <> IOCTL_SIOCTL_METHOD_IN_DIRECT ->
  code <> IOCTL_SIOCTL_METHOD_NEITHER ->
  let a := buffered_answer code in_len out_len buf in
  let completes (m : gmap ptr U) :=
    Q (w, a.1) (set_mem (delete (WduIrp.irp w) m)
                  (kafter (IofCompleteRequest (WduIrp.irp w) 0 a.1 a.2) s)) in
  (if copies code in_len out_len buf
   then buf <> WduIrp.irp w /\ exists blk : bytes, w_mem s !! buf = Some (inj blk) /\
        31 <= Z.of_nat (length (b_data blk)) /\
        completes (<[buf := inj (answered_block blk)]> (w_mem s))
   else completes (w_mem s)) ->
  wp (device_control dev w (WduDeviceControl.mk code out_len in_len (Buffered buf))) s Q.
Proof.
  intros Hp Hi H1 H2 H3. unfold buffered_answer, copies, device_control. simpl.
  assert (E : forall c, code <> c -> (code =? c) = false) by (intros; by apply Z.eqb_neq).
  destruct (in_len =? 0), (out_len =? 0); simpl;
    try (intros HQ; wp_step; eapply wp_complete_at; [done..|]; by apply wp_ret).
  destruct (Z.eqb_spec buf null) as [->|Hb]; simpl.
  { intros HQ. wp_step. apply wp_ret. simpl. wp_step. eapply wp_complete_at; [done..|]. by apply wp_ret. }
  rewrite (E _ H1), (E _ H2), (E _ H3). destruct (Z.eqb_spec code IOCTL_SIOCTL_METHOD_BUFFERED) as [->|Hc]; simpl.
  - intros (Hbp & blk & Hm & Hl & HQ). wp_step. apply wp_ret. rewrite not_null by done. simpl.
    do 2 wp_step. eapply wp_copy_reply; [done..|]. do 2 wp_step.
    eapply wp_complete_at; [done|map_at|]. apply wp_ret. simpl in *.
    replace (Z.min out_len 31) with (if out_len <? 31 then out_len else 31) in HQ; [done|].
    destruct (Z.ltb_spec out_len 31); lia.
  - intros HQ. wp_step. apply wp_ret. rewrite not_null by done. simpl. do 3 wp_step.
    eapply wp_complete_at; [done..|]. by apply wp_ret.
Qed.

(** C29: the driver's answer to a buffered control request, on every branch.
    The request is completed once, with the status that is returned: an empty
    buffer is an invalid parameter, a foreign code an invalid request.  A
    request with the driver's code is answered with the text, and told how
    much of it there is for the client - provided that the buffer the I/O
    manager made has room for the whole text: the driver copies all of it
    whatever the size, so a smaller buffer is overrun. *)
Theorem sioctl_buffered_reply dev (w : WduIrp) (i : IRP) code in_len out_len buf (blk : bytes) s :
  WduIrp.irp w <> 0 -> w_mem s !! WduIrp.irp w = Some (inj i) ->
  buf <> 0 -> buf <> WduIrp.irp w -> w_mem s !! buf = Some (inj blk) ->
  code <> IOCTL_SIOCTL_METHOD_OUT_DIRECT -> code <> IOCTL_SIOCTL_METHOD_IN_DIRECT ->
  code <> IOCTL_SIOCTL_METHOD_NEITHER ->
  let req := WduDeviceControl.mk code out_len in_len (Buffered buf) in
  let answered status info m := wp (device_control dev w req) s (fun r s' =>
    r.2 = status /\ calls s' = calls s ++ [IofCompleteRequest (WduIrp.irp w) 0 status info] /\
    w_mem s' = delete (WduIrp.irp w) m) in
  (in_len = 0 \/ out_len = 0 -> answered STATUS_INVALID_PARAMETER 0 (w_mem s)) /\
  (in_len <> 0 -> out_len <> 0 -> code <> IOCTL_SIOCTL_METHOD_BUFFERED ->
     answered STATUS_INVALID_DEVICE_REQUEST 0 (w_mem s)) /\
  (in_len <> 0 -> out_len <> 0 -> code = IOCTL_SIOCTL_METHOD_BUFFERED ->
     if 31 <=? Z.of_nat (length (b_data blk)) then
       answered STATUS_SUCCESS (Z.min out_len 31)
         (<[buf := inj (mkBytes (reply_text ++ drop 31 (b_data blk)))]> (w_mem s))
     else device_control dev w req s = Ub (OutOfBounds buf) s).
Proof.
  intros Hp Hi Hb0 Hbp Hb H1 H2 H3 req answered.
  pose proof (fun Q => wp_buffered dev w i code in_len out_len buf s Q Hp Hi H1 H2 H3) as Hwp.
  unfold buffered_answer, copies in Hwp. rewrite (proj2 (Z.eqb_neq buf null) Hb0) in Hwp.
  unfold answered. split_and!.
  - intros H. replace ((in_len =? 0) || (out_len =? 0)) with true in Hwp.
    2: { symmetry. apply orb_true_iff. by rewrite !Z.eqb_eq. }
    apply Hwp. destruct (Z.eqb_spec in_len 0), (Z.eqb_spec out_len 0); simpl; first [by autorewrite with wdu | by destruct H].
  - intros Hin Hout Hc.
    rewrite (proj2 (Z.eqb_neq _ _) Hin), (proj2 (Z.eqb_neq _ _) Hout), (proj2 (Z.eqb_neq _ _) Hc) in Hwp.
    apply Hwp. by autorewrite with wdu.
  - intros Hin Hout ->.
    rewrite (proj2 (Z.eqb_neq _ _) Hin), (proj2 (Z.eqb_neq _ _) Hout), Z.eqb_refl in Hwp.
    destruct (Z.leb_spec 31 (Z.of_nat (length (b_data blk)))) as [Hlen|Hlen].
    + apply Hwp. split; [done|]. exists blk. by autorewrite with wdu.
    + unfold device_control, req. simpl.
      rewrite (proj2 (Z.eqb_neq _ _) Hin), (proj2 (Z.eqb_neq _ _) Hout). simpl.
      erewrite bind_done by done. rewrite not_null by done. simpl. apply bind_ub, bind_ub.
      unfold copy_from. erewrite bind_done by by apply load_at.
      by rewrite (proj2 (Z.ltb_lt _ _)) by (simpl; lia).
Qed.
End properties.

(** ** Instances *)

Module SioctlDemo.
#[export] Instance build : Build := true.
Abbreviation cells := (IRP + (MDL + (bytes + unit)))%type.
Definition irp : IRP := mkIRP 0 0 1 1 0x200 0x300 0 0 0x400 0 0 1 0 None.
Definition request : WduIrp := WduIrp.mk 0x100 MajorFunction.DeviceControl None.
Definition start (room : nat) : @world idle_kernel cells :=
  world_of default_answer {[0x100 := inj irp; 0x400 := inj (mkBytes (repeat 0 room))]}.
Definition asks (code in_len out_len : Z) : WduDeviceControl :=
  WduDeviceControl.mk code out_len in_len (Buffered 0x400).
End SioctlDemo.
#[local] Existing Instance SioctlDemo.build.

Lemma sioctl_buffered_reply_witness :
  wp (device_control (WduDevice.wrap_device 0x900) SioctlDemo.request
        (SioctlDemo.asks IOCTL_SIOCTL_METHOD_BUFFERED 8 40)) (SioctlDemo.start 40) (fun r s' =>
    r.2 = STATUS_SUCCESS /\ calls s' = [IofCompleteRequest 0x100 0 STATUS_SUCCESS 31]) /\
  device_control (WduDevice.wrap_device 0x900) SioctlDemo.request
    (SioctlDemo.asks IOCTL_SIOCTL_METHOD_BUFFERED 8 16) (SioctlDemo.start 16)
    = Ub (OutOfBounds 0x400) (SioctlDemo.start 16).
Proof.
  pose proof (fun out_len room => sioctl_buffered_reply (WduDevice.wrap_device 0x900) SioctlDemo.request
    SioctlDemo.irp IOCTL_SIOCTL_METHOD_BUFFERED 8 out_len 0x400 (mkBytes (repeat 0 room))
    (SioctlDemo.start room)) as H.
  split.
  - destruct (H 40 40%nat) as (_ & _ & H40);
      [discriminate|vm_compute; reflexivity|discriminate|discriminate|vm_compute; reflexivity
      |discriminate|discriminate|discriminate|].
    specialize (H40 ltac:(discriminate) ltac:(discriminate) eq_refl).
    eapply wp_mono; [exact H40|]. intros r s' (Hst & C & _). split; [exact Hst|exact C].
  - destruct (H 16 16%nat) as (_ & _ & H16);
      [discriminate|vm_compute; reflexivity|discriminate|discriminate|vm_compute; reflexivity
      |discriminate|discriminate|discriminate|].
    exact (H16 ltac:(discriminate) ltac:(discriminate) eq_refl).
Defined.
