(* ===== verification/SioctlSystem.v ===== *)
(** * SioctlSystem: the sioctl driver among its callers

    The handlers of [examples/sioctl/src/lib.rs] are put behind the crate's
    dispatch handler, as [init] registers them, and the I/O manager sends the
    driver requests one after another.  The theorem starts at [init] and says
    what becomes of every request. *)

From S2P Require Import Prelude Nt World UnicodeStr Crate FileObj Device Mdl Irp DeviceControl Driver Sioctl.
Import WduDevice (WduDevice).
Import WduFileObject (WduFileObject).
Import WduIrp (WduIrp).
Import WduCreate (WduCreate).
Import MajorFunction (MajorFunction).
Import WduDeviceControl (WduDeviceControl).
Import WduUnicodeStr (WduUnicodeStr).

Section system.
Context {KN : Kernel} {B : Build} {LK : Linked} {SL : SioctlLayout} {U : Type}.
Context `{!Storable U DRIVER_OBJECT, !Storable U DRIVER_EXTENSION, !Storable U DEVICE_OBJECT}.
Context `{!Storable U WduDevice, !Storable U WduDriver, !Storable U IRP, !Storable U MDL}.
Context `{!Storable U IO_STACK_LOCATION, !Storable U SECURITY_CONTEXT, !Storable U bytes}.
Implicit Types (s : world U) (m : gmap ptr U).

#[local] Instance sioctl_client : Client U := {|
  run_add_device pfn _ := ub (Dangling pfn);
  run_unload pfn driver := at_code "sioctl::driver_unload" pfn (Sioctl.driver_unload driver);
  run_create pfn device irp data := at_code "sioctl::create" pfn (Sioctl.create device irp data);
  run_close_cleanup pfn device irp data := at_code "sioctl::close" pfn (Sioctl.close device irp data);
  run_read_write pfn _ _ _ := ub (Dangling pfn);
  run_ioctl pfn device irp data := at_code "sioctl::device_control" pfn (Sioctl.device_control device irp data)
|}.

(** ** Requests *)

(** A request, with all the memory the I/O manager makes for it. *)
Record request : Type := mkRequest {
  rq_irp : ptr;
  rq_packet : IRP;
  rq_stack : IO_STACK_LOCATION;
  rq_kind : MajorFunction;
  rq_security : SECURITY_CONTEXT;
  rq_buffer : bytes
}.
Implicit Types r : request.

Definition security_at r : ptr := SecurityContext (Parameters_Create (rq_stack r)).
Definition stack_at r : ptr := CurrentStackLocation (rq_packet r).
Definition buffer_at r : ptr := SystemBuffer (rq_packet r).

Definition delivered r m : gmap ptr U :=
  <[rq_irp r := inj (rq_packet r)]> (<[stack_at r := inj (rq_stack r)]>
    (<[security_at r := inj (rq_security r)]> (<[buffer_at r := inj (rq_buffer r)]> m))).

(** The answer of the driver's control handler to the request. *)
Definition control_answer r : NTSTATUS * Z :=
  let data := Parameters_DeviceIoControl (rq_stack r) in
  buffered_answer (u32 (IoControlCode data)) (InputBufferLength data) (OutputBufferLength data)
    (buffer_at r).
Definition control_copies r : bool :=
  let data := Parameters_DeviceIoControl (rq_stack r) in
  copies (u32 (IoControlCode data)) (InputBufferLength data) (OutputBufferLength data) (buffer_at r).

(** A request that is well formed: its pieces are apart from each other and
    from the driver's blocks [own]; a control request is a buffered one, with
    room in its buffer for the reply. *)
Record arrives (own : list ptr) r : Prop := {
  ar_irp : rq_irp r <> 0;
  ar_stack : stack_at r <> 0;
  ar_apart : rq_irp r <> stack_at r;
  ar_security : security_at r <> rq_irp r /\ security_at r <> stack_at r;
  ar_buffer : buffer_at r <> rq_irp r /\ buffer_at r <> stack_at r;
  ar_buffer_security : buffer_at r <> security_at r \/ buffer_at r = null;
  ar_own : Forall (fun a => a <> rq_irp r /\ a <> stack_at r /\ a <> security_at r /\ a <> buffer_at r) own;
  ar_count : -128 <= StackCount (rq_packet r) < 127;
  ar_loc : CurrentLocation (rq_packet r) <= StackCount (rq_packet r) + 1;
  ar_kind : MajorFunction_ (rq_stack r) = major_code (rq_kind r);
  ar_method : method_from_ioctl (u32 (IoControlCode (Parameters_DeviceIoControl (rq_stack r)))) = METHOD_BUFFERED;
  ar_room : control_copies r = true -> 31 <= Z.of_nat (length (b_data (rq_buffer r)))
}.

(** What is to become of it: completed with a status and an information, or
    left alone. *)
Definition fate r : option (NTSTATUS * Z) :=
  match rq_kind r with
  | MajorFunction.Create | MajorFunction.Close => Some (STATUS_SUCCESS, 0)
  | MajorFunction.DeviceControl => Some (control_answer r)
  | MajorFunction.Cleanup | MajorFunction.Read | MajorFunction.Write => None
  end.
Definition returned r : NTSTATUS := if fate r is Some (status, _) then status else STATUS_SUCCESS.

(** The packets completed by some calls. *)
Definition completed (cs : list kcall) : list (ptr * NTSTATUS * Z) :=
  omap (fun c => if c is IofCompleteRequest p _ status info then Some (p, status, info) else None) cs.
Definition completion r : option (ptr * NTSTATUS * Z) :=
  if fate r is Some (status, info) then Some (rq_irp r, status, info) else None.

(** What became of the links asked for in a trace. *)
Definition links (t : list event) : list NTSTATUS :=
  omap (fun e : event => let (c, answer) := e in
    match c as c return kret c -> option NTSTATUS with
    | IoCreateSymbolicLink _ _ => fun answer => Some answer
    | _ => fun _ => None
    end answer) t.

Lemma links_app t t' : links (t ++ t') = links t ++ links t'.
Proof. apply omap_app. Qed.
Lemma completed_app cs cs' : completed (cs ++ cs') = completed cs ++ completed cs'.
Proof. apply omap_app. Qed.

(** The I/O manager sends the device some requests. *)
Fixpoint serve (device : ptr) (rs : list request) : M (world U) (list NTSTATUS) :=
  match rs with
  | [] => mret []
  | r :: rs =>
      modify (fun s => set_mem (delivered r (w_mem s)) s) ;;
      status ← WduDriver.dispatch_handler device (rq_irp r);
      statuses ← serve device rs;
      mret (status :: statuses)
  end.

(** ** One request *)

Definition sioctl_driver (p : ptr) : WduDriver :=
  mkWduDriver true p None (Some (code_addr "sioctl::driver_unload"))
    (IoDispath.ioctl_irp IoDispath.default (code_addr "sioctl::device_control"))
    (FileObjDispatch.close_irp (FileObjDispatch.create_irp FileObjDispatch.default
      (code_addr "sioctl::create")) (code_addr "sioctl::close")).

Lemma new_buffered q i st mj c s :
  dispatched q i st s ->
  let data := Parameters_DeviceIoControl st in
  method_from_ioctl (u32 (IoControlCode data)) = METHOD_BUFFERED ->
  WduDeviceControl.new (WduIrp.mk q mj c) s =
    Done (WduDeviceControl.mk (u32 (IoControlCode data)) (OutputBufferLength data)
            (InputBufferLength data) (Buffered (SystemBuffer i))) s.
Proof.
  intros Hd data Hm. rewrite (new_control_done q mj c i st s Hd). fold data. by rewrite Hm.
Qed.

Lemma delivered_dispatched own r s :
  arrives own r -> dispatched (rq_irp r) (rq_packet r) (rq_stack r) (set_mem (delivered r (w_mem s)) s).
Proof. intros []. split; try done; simpl; unfold delivered; map_at. Qed.

Lemma delivered_own own r m a : arrives own r -> a ∈ own -> delivered r m !! a = m !! a.
Proof.
  intros Har Ha. pose proof (ar_own _ _ Har) as Hown. rewrite Forall_forall in Hown.
  destruct (Hown a Ha) as (H1 & H2 & H3 & H4). unfold delivered. map_at.
Qed.

Context `{!DriverExtensions}.

(** Calls that leave the driver's extension where it is. *)
Definition keeps_extension (c : kcall) : bool :=
  match c with
  | IoGetDriverObjectExtension _ _ | IoCreateDevice _ _ _ _ _ _ | IoCreateSymbolicLink _ _
  | IofCompleteRequest _ _ _ _ => true
  | _ => false
  end.
Definition extension_stays (p : ptr) : Prop :=
  forall c k, keeps_extension c = true -> ext_of (kstep c k).2 p id_addr = ext_of k p id_addr.

Lemma extension_after p c s :
  extension_stays p -> keeps_extension c = true ->
  ext_of (w_kernel (kafter c s)) p id_addr = ext_of (w_kernel s) p id_addr.
Proof. intros Hs. apply Hs. Qed.

(** The blocks of the device and of the driver. *)
Definition own_blocks (p object : ptr) (o : DEVICE_OBJECT) s : list ptr :=
  [object; DeviceExtension o; ext_of (w_kernel s) p id_addr].

(** The state the dispatch handler calls the client's routine in. *)
Definition entered (p : ptr) r s : world U :=
  kafter (IoGetDriverObjectExtension p id_addr) (set_mem (delivered r (w_mem s)) s).

(** After the request: the device is attached as before, and the request has
    met its fate. *)
Record settled p object (o : DEVICE_OBJECT) dev r s s' : Prop := {
  st_attached : attached object o dev (sioctl_driver p) s';
  st_own : own_blocks p object o s' = own_blocks p object o s;
  st_completed : completed (calls s') = completed (calls s) ++ option_list (completion r)
}.

Section request.
Context (p object : ptr) (o : DEVICE_OBJECT) (dev : WduDevice) (r : request) (s : world U).
Hypothesis Hstay : extension_stays p.
Hypothesis Hdriver : DriverObject o = p.
Hypothesis Hattached : attached object o dev (sioctl_driver p) s.
Hypothesis Harrives : arrives (own_blocks p object o s) r.

Lemma delivered_attached : attached object o dev (sioctl_driver p) (set_mem (delivered r (w_mem s)) s).
Proof.
  eapply attached_frame; [done..|]. intros a Ha. rewrite Hdriver in Ha. by eapply delivered_own.
Qed.

Lemma settled_idle : fate r = None -> settled p object o dev r s (entered p r s).
Proof.
  intros Hf. unfold entered. split.
  - eapply attached_frame; [apply delivered_attached| |done]. rewrite Hdriver. by apply extension_after.
  - unfold own_blocks. by rewrite extension_after.
  - unfold completion. by rewrite Hf, calls_kafter, completed_app.
Qed.

Lemma settled_finished status info m :
  fate r = Some (status, info) ->
  (forall a, a ∈ own_blocks p object o s -> m !! a = w_mem s !! a) ->
  settled p object o dev r s
    (set_mem (delete (rq_irp r) m) (kafter (IofCompleteRequest (rq_irp r) 0 status info) (entered p r s))).
Proof.
  intros Hf Hm. pose proof (ar_own _ _ Harrives) as Hown. rewrite Forall_forall in Hown. split.
  - eapply attached_frame; [done|rewrite Hdriver, kernel_set_mem; unfold entered; by rewrite !extension_after|].
    rewrite Hdriver. intros a Ha. simpl. rewrite lookup_delete_ne by by edestruct (Hown a). by apply Hm.
  - unfold own_blocks, entered. by rewrite kernel_set_mem, !extension_after.
  - unfold completion, entered.
    by rewrite Hf, calls_set_mem, !calls_kafter, !completed_app, app_nil_r.
Qed.

Lemma entered_dispatched : dispatched (rq_irp r) (rq_packet r) (rq_stack r) (entered p r s).
Proof. by destruct (delivered_dispatched _ r s Harrives). Qed.

Local Abbreviation irp_of kind := (WduIrp.mk (rq_irp r) kind None).

(** [create] and [close] *)
Lemma wp_finish kind (Q : WduIrp -> world U -> Prop) :
  fate r = Some (STATUS_SUCCESS, 0) ->
  (forall s', settled p object o dev r s s' -> Q (irp_of kind) s') ->
  wp (WduIrp.complete (irp_of kind) WduIoStatus.success_no_info ;; mret (irp_of kind)) (entered p r s) Q.
Proof.
  intros Hf HQ. destruct entered_dispatched. wp_step. eapply wp_complete_at; [done..|].
  apply wp_ret, HQ, settled_finished; [done|]. intros a Ha. by eapply delivered_own.
Qed.

Lemma codes_not_buffered code : method_from_ioctl code = METHOD_BUFFERED ->
  code <> IOCTL_SIOCTL_METHOD_OUT_DIRECT /\ code <> IOCTL_SIOCTL_METHOD_IN_DIRECT /\
  code <> IOCTL_SIOCTL_METHOD_NEITHER.
Proof. intros Hm. by split_and!; intros ->. Qed.

Lemma wp_control kind code in_len out_len (Q : WduIrp * NTSTATUS -> world U -> Prop) :
  rq_kind r = MajorFunction.DeviceControl ->
  let data := Parameters_DeviceIoControl (rq_stack r) in
  code = u32 (IoControlCode data) -> in_len = InputBufferLength data -> out_len = OutputBufferLength data ->
  (forall s', settled p object o dev r s s' -> Q (irp_of kind, returned r) s') ->
  wp (Sioctl.device_control dev (irp_of kind) (WduDeviceControl.mk code out_len in_len (Buffered (buffer_at r))))
    (entered p r s) Q.
Proof.
  intros Hk data -> -> -> HQ. destruct entered_dispatched.
  destruct (codes_not_buffered (u32 (IoControlCode data)) (ar_method _ _ Harrives)) as (H1 & H2 & H3).
  eapply wp_buffered; [done..|]. cbv zeta.
  change (copies _ _ _ _) with (control_copies r). change (buffered_answer _ _ _ _) with (control_answer r).
  assert (Hf : fate r = Some ((control_answer r).1, (control_answer r).2)).
  { unfold fate. rewrite Hk. by destruct (control_answer r). }
  assert (Hret : returned r = (control_answer r).1) by (unfold returned; by rewrite Hf).
  rewrite <- Hret in *. destruct (control_copies r) eqn:Hc.
  - destruct (ar_buffer _ _ Harrives) as [Hb1 Hb2]. split; [done|]. exists (rq_buffer r).
    assert (buffer_at r <> null).
    { intros E. unfold control_copies, copies in Hc. rewrite E in Hc. by rewrite !andb_false_r in Hc. }
    assert (Hbs : buffer_at r <> security_at r) by by destruct (ar_buffer_security _ _ Harrives).
    split; [unfold entered, delivered; map_at|]. split; [by apply (ar_room _ _ Harrives)|].
    apply HQ, settled_finished; [done|]. intros a Ha. pose proof (ar_own _ _ Harrives) as Hown.
    rewrite Forall_forall in Hown. destruct (Hown a Ha) as (? & ? & ? & ?).
    rewrite lookup_insert_ne by done. by eapply delivered_own.
  - apply HQ, settled_finished; [done|]. intros a Ha. by eapply delivered_own.
Qed.
End request.

(** Any request that arrives at the device meets its fate. *)
Lemma wp_request p object (o : DEVICE_OBJECT) dev r s (Q : NTSTATUS -> world U -> Prop) :
  extension_stays p -> DriverObject o = p -> attached object o dev (sioctl_driver p) s ->
  arrives (own_blocks p object o s) r ->
  (forall s', settled p object o dev r s s' -> Q (returned r) s') ->
  wp (WduDriver.dispatch_handler object (rq_irp r)) (set_mem (delivered r (w_mem s)) s) Q.
Proof.
  intros Hstay Hp Ha Har HQ.
  eapply wp_from; [apply (dispatch_prefix object (rq_irp r) (rq_packet r) (rq_stack r) (rq_kind r) dev o (sioctl_driver p));
    [by eapply delivered_dispatched|apply Har|by eapply delivered_attached]|].
  rewrite Hp. fold (entered p r s).
  pose proof (entered_dispatched p object o r s Har) as Hd.
  assert (Hidle : fate r = None -> Q STATUS_SUCCESS (entered p r s)).
  { intros Hf. replace STATUS_SUCCESS with (returned r) by (unfold returned; by rewrite Hf).
    by apply HQ, settled_idle. }
  assert (Hdone : fate r = Some (STATUS_SUCCESS, 0) -> forall s', settled p object o dev r s s' -> Q STATUS_SUCCESS s').
  { intros Hf s' Hs. replace STATUS_SUCCESS with (returned r) by (unfold returned; by rewrite Hf). by apply HQ. }
  destruct (rq_kind r) eqn:Hk; unfold fate in Hidle, Hdone; rewrite Hk in Hidle, Hdone;
    simpl; unfold WduDriver.fo_dispatch, WduDriver.io_dispatch; simpl.
  - destruct (new_create_done _ MajorFunction.Create None _ _ (rq_security r) _ Hd) as (data & Hdata & _).
    { intros Hn. unfold entered, delivered. destruct (ar_security _ _ Har). map_at. }
    do 2 wp_step. eapply wp_done; [done|]. rewrite at_code_self.
    eapply wp_finish; [done..|unfold fate; by rewrite Hk|]. intros s' Hs. by apply wp_ret, Hdone.
  - do 2 wp_step. eapply wp_done; [by eapply file_object_done|]. rewrite at_code_self.
    eapply wp_finish; [done..|unfold fate; by rewrite Hk|]. intros s' Hs. by apply wp_ret, Hdone.
  - wp_step. apply wp_ret, wp_ret. by apply Hidle.
  - wp_step. apply wp_ret, wp_ret. by apply Hidle.
  - wp_step. apply wp_ret, wp_ret. by apply Hidle.
  - do 2 wp_step. eapply wp_done; [apply (new_buffered _ _ _ _ _ _ Hd), Har|]. rewrite at_code_self.
    eapply wp_control; [done..|]. intros s' Hs. by apply wp_ret, HQ.
Qed.

Lemma wp_serve p object (o : DEVICE_OBJECT) dev rs s :
  extension_stays p -> DriverObject o = p -> attached object o dev (sioctl_driver p) s ->
  Forall (arrives (own_blocks p object o s)) rs ->
  wp (serve object rs) s (fun statuses s' =>
    statuses = returned <$> rs /\
    completed (calls s') = completed (calls s) ++ omap completion rs).
Proof.
  intros Hstay Hp. revert s. induction rs as [|r rs IH]; intros s Ha Hrs; simpl.
  - apply wp_ret. by rewrite app_nil_r.
  - apply Forall_cons in Hrs as [Hr Hrs]. wp_step. wp_step. wp_step.
    eapply wp_request; [done..|]. intros s1 [H1 H2 H3]. wp_step.
    eapply wp_mono; [apply IH; [done|by rewrite H2]|]. intros statuses s2 [-> Hc]. apply wp_ret.
    split; [done|]. rewrite Hc, H3, <- app_assoc. by destruct (completion r).
Qed.

(** ** From [init] on *)

Definition device_name : WduUnicodeStr := WduUnicodeStr.from_slice device_name_at DEVICE_NAME_UTF16.
Definition win32_name : WduUnicodeStr := WduUnicodeStr.from_slice win32_name_at WIN32_NAME_UTF16.
Definition link_call : kcall :=
  IoCreateSymbolicLink (WduUnicodeStr.into_UNICODE_STRING win32_name)
    (WduUnicodeStr.into_UNICODE_STRING device_name).

(** What the I/O manager documents of the objects it makes for the driver at
    [p]: a device is new memory, and the driver's extension stays until the
    driver is unloaded. *)
Record io_manager (p : ptr) : Prop := {
  im_device : forall k size name ty chars exclusive object contents k',
    kstep (IoCreateDevice p size name ty chars exclusive) k = ((STATUS_SUCCESS, (object, contents)), k') ->
    new_device p object contents /\
    ext_of k p id_addr <> object /\ ext_of k p id_addr <> DeviceExtension contents;
  im_stays : extension_stays p
}.

Definition new_sioctl_device (object : ptr) : WduDevice := WduDevice.mk UnknownDevice SecureOpen false object.

(** The end of [init], on a device that was just made. *)
Lemma wp_name_device object (o : DEVICE_OBJECT) s (Q : result unit SioctlError -> world U -> Prop) :
  object <> 0 -> w_mem s !! object = Some (inj o) ->
  (let s1 := kafter link_call s in
   let status : NTSTATUS := kresp link_call s in
   if status =? STATUS_SUCCESS then Q (Ok tt) s1
   else Q (Ok tt) (set_mem (delete object (w_mem s)) (kafter (IoDeleteDevice object) s1))) ->
  wp (r ← WduDevice.symbolic_name (new_sioctl_device object) device_name win32_name;
      (if r is Err _ then WduDevice.delete (new_sioctl_device object) else mret tt) ;;
      mret (Ok tt)) s Q.
Proof.
  intros Ho Hm HQ. unfold WduDevice.symbolic_name. fold link_call. do 2 wp_step. wp_step.
  cbv zeta in HQ. change (kret link_call) with NTSTATUS in *.
  destruct (kresp link_call s =? STATUS_SUCCESS); simpl.
  - apply wp_ret. wp_step. apply wp_ret. by apply wp_ret.
  - apply wp_ret. wp_step. unfold WduDevice.delete. simpl. rewrite not_null by done. simpl.
    do 2 wp_step. wp_step. eapply wp_box_from_raw; [done..|]. do 2 apply wp_ret. done.
Qed.

(** What [init] leaves: on every failure it reports, nothing that a request
    could reach; otherwise a device, unless it could not be named. *)
Definition set_up (p : ptr) (res : result unit SioctlError) s s1 : Prop :=
  completed (calls s1) = completed (calls s) /\
  match res with
  | Err e => e = DriverError \/ e = DeviceError
  | Ok _ => exists object contents status,
      devices (w_trace s1) = devices (w_trace s) ++ [(object, contents)] /\
      links (w_trace s1) = links (w_trace s) ++ [status] /\
      if status =? STATUS_SUCCESS
      then DriverObject contents = p /\
           attached object contents (new_sioctl_device object) (sioctl_driver p) s1
      else w_mem s1 !! object = None /\ IoDeleteDevice object ∈ calls s1
  end.

Lemma wp_init_device p s s0 :
  io_manager p ->
  ext_of (w_kernel s) p id_addr <> 0 ->
  w_mem s !! ext_of (w_kernel s) p id_addr = Some (inj (sioctl_driver p)) ->
  completed (calls s) = completed (calls s0) ->
  devices (w_trace s) = devices (w_trace s0) -> links (w_trace s) = links (w_trace s0) ->
  wp (try_ from_device_error (WduDevice.build 0
        (WduDevice.set_characteristics (WduDevice.set_device_type WduDevice.default UnknownDevice) SecureOpen)
        p (Some device_name)) (fun wdu_device =>
      r ← WduDevice.symbolic_name wdu_device device_name win32_name;
      (if r is Err _ then WduDevice.delete wdu_device else mret tt) ;; mret (Ok tt)))
    s (fun res s1 => set_up p res s0 s1).
Proof.
  intros [Hdev Hstay] He Hdrv Hc Hds Hls. unfold try_. wp_step. apply wp_build. cbv zeta.
  set (c := create_call _ _ _ _). assert (Hkeep : keeps_extension c = true) by done.
  specialize (Hdev (w_kernel s) (u32 (size_of_WduDevice + 0)) (WduUnicodeStr.as_unicode_string device_name)
    FILE_DEVICE_UNKNOWN 0x100 (u8_from false)).
  change (IoCreateDevice _ _ _ _ _ _) with c in Hdev. unfold kresp.
  change (kret c) with (NTSTATUS * (ptr * DEVICE_OBJECT))%type in *.
  destruct (kstep c (w_kernel s)) as [[st [object contents]] k'] eqn:E. simpl.
  destruct (Z.eqb_spec st STATUS_SUCCESS) as [->|Hst].
  2: { apply wp_ret. split; [|by right]. by rewrite calls_kafter, completed_app, app_nil_r. }
  destruct (Hdev _ _ _ eq_refl) as ([Ho Hd Hx Ha] & Hne1 & Hne2).
  do 2 (split; [done|]). eapply (wp_name_device object contents); [done|map_at|]. cbv zeta.
  set (s1 := set_mem _ (kafter c s)).
  assert (Hc1 : completed (calls (kafter link_call s1)) = completed (calls s0)).
  { unfold s1. rewrite calls_kafter, calls_set_mem, calls_kafter, !completed_app. simpl. by rewrite !app_nil_r. }
  assert (Ht : w_trace (kafter link_call s1) =
    w_trace s ++ [Ev c (STATUS_SUCCESS, (object, contents)); Ev link_call (kresp link_call s1)]).
  { unfold s1. rewrite trace_kafter, trace_set_mem, trace_kafter, <- app_assoc. unfold kresp at 1. by rewrite E. }
  assert (Hdl : devices (w_trace (kafter link_call s1)) = devices (w_trace s0) ++ [(object, contents)] /\
                links (w_trace (kafter link_call s1)) = links (w_trace s0) ++ [kresp link_call s1]).
  { by rewrite Ht, devices_app, links_app, Hds, Hls. }
  destruct Hdl as [Hdv Hln].
  change (kret link_call) with NTSTATUS in *.
  destruct (kresp link_call s1 =? STATUS_SUCCESS) eqn:El.
  - split; [done|]. exists object, contents, (kresp link_call s1). rewrite El. do 3 (split; [done|]).
    assert (Hk : ext_of (w_kernel (kafter link_call s1)) p id_addr = ext_of (w_kernel s) p id_addr).
    { rewrite extension_after by done. unfold s1. by rewrite kernel_set_mem, extension_after. }
    split; unfold kresp; rewrite ?get_ext, ?Hd, ?Hk; simpl; try done; map_at.
  - split; [by rewrite calls_set_mem, calls_kafter, completed_app, Hc1, app_nil_r|].
    exists object, contents, (kresp link_call s1). rewrite El, trace_set_mem, trace_kafter.
    rewrite devices_app, links_app, Hdv, Hln, !app_nil_r. do 2 (split; [done|]).
    rewrite calls_set_mem, calls_kafter. split; [simpl; apply lookup_delete_eq|].
    apply elem_of_app. right. by apply list_elem_of_singleton.
Qed.

(** C6: the sioctl driver from its entry point on.  [init] completes no request
    and fails only if the driver cannot be registered or its device cannot be
    made.  When it succeeds and its symbolic link was made, the device serves
    any sequence of well formed requests: each create and close request is
    completed once, with success; each buffered control request once, with
    the answer of the control handler; and no cleanup, read or write request
    is ever completed, though the I/O manager is told that it was a success.
    When the link could not be made, [init] still succeeds, without a device. *)
Theorem sioctl_end_to_end p (o : DRIVER_OBJECT) s :
  p <> 0 -> w_mem s !! p = Some (inj o) -> io_manager p ->
  wp (Sioctl.init p) s (fun res s1 =>
    completed (calls s1) = completed (calls s) /\
    match res with
    | Err e => e = DriverError \/ e = DeviceError
    | Ok _ => exists object contents status,
        devices (w_trace s1) = devices (w_trace s) ++ [(object, contents)] /\
        links (w_trace s1) = links (w_trace s) ++ [status] /\
        if status =? STATUS_SUCCESS then
          forall rs, Forall (arrives (own_blocks p object contents s1)) rs ->
          wp (serve object rs) s1 (fun statuses s2 =>
            statuses = returned <$> rs /\
            completed (calls s2) = completed (calls s1) ++ omap completion rs)
        else w_mem s1 !! object = None /\ IoDeleteDevice object ∈ calls s1
    end).
Proof.
  intros Hp Hm Him. apply (wp_mono _ _ (fun res s1 => set_up p res s s1)).
  - unfold wp, Sioctl.init, try_ at 1. rewrite register_then.
    match goal with |- match ?m s with _ => _ end => change (wp m s (fun res s1 => set_up p res s s1)) end.
    wp_step. eapply wp_register; [done..|]. cbv zeta. set (c := IoAllocateDriverObjectExtension _ _ _).
    split; [intros _; apply wp_ret; split; [|by left]; by rewrite calls_kafter, completed_app, app_nil_r|].
    intros Hst. set (s1 := kafter c _). set (ext := (kresp c s).2).
    assert (Hl : kstep c (w_kernel s) = ((STATUS_SUCCESS, ext), w_kernel s1)).
    { unfold s1, kafter, ext. simpl. rewrite <- Hst. unfold kresp. by destruct (kstep c (w_kernel s)) as [[] ?]. }
    apply alloc_ext_law in Hl as [Hext He]. split; [done|]. change (WduDriver.as_ptr _) with p.
    apply wp_init_device; [done|..]; rewrite ?kernel_set_mem, ?He; [done|map_at|..].
    + unfold s1. by rewrite calls_set_mem, calls_kafter, completed_app, app_nil_r.
    + unfold s1. by rewrite trace_set_mem, trace_kafter, devices_app, app_nil_r.
    + unfold s1. by rewrite trace_set_mem, trace_kafter, links_app, app_nil_r.
  - intros res s1 [Hc Hres]. split; [done|]. destruct res as [u|]; [|done].
    destruct Hres as (object & contents & status & Hd1 & Hl & Hs). exists object, contents, status.
    do 2 (split; [done|]). destruct (status =? STATUS_SUCCESS); [|done]. destruct Hs as [Hd Ha].
    intros rs Hrs. eapply wp_serve; [apply Him|done..].
Qed.
End system.

(** ** Instances *)

Module SioctlSystemDemo.
#[export] Instance build : Build := true.
#[export] Instance linked : Linked :=
  {| size_of_WduDevice := 24; size_of_WduDriver := 72; code_addr s := 0x7000 + Z.of_nat (String.length s) |}.
#[export] Instance layout : SioctlLayout :=
  {| device_name_at := 0x7800; win32_name_at := 0x7900; global_name_at := 0x7A00 |}.
Abbreviation cells :=
  (DRIVER_OBJECT + (DRIVER_EXTENSION + (DEVICE_OBJECT + (WduDevice + (WduDriver + (IRP + (MDL +
    (IO_STACK_LOCATION + (SECURITY_CONTEXT + (bytes + unit))))))))))%type.

(** A kernel that makes every device at 0x900, with its extension at 0xA00. *)
#[export] Instance kernel : Kernel := {|
  kstate := unit;
  kstep c k := (match c as c return kret c with
                | IoAllocateDriverObjectExtension _ _ _ => (STATUS_SUCCESS, 0xB00)
                | IoGetDriverObjectExtension _ _ => 0xB00
                | IoCreateDevice driver _ _ _ _ _ => (STATUS_SUCCESS, (0x900, mkDeviceObject 0xA00 driver 0))
                | c => default_answer c
                end, k) |}.
#[export] Instance extensions : DriverExtensions.
Proof.
  refine {| ext_of _ _ _ := 0xB00 |}; [done|]. intros k k' d id sz p E. by injection E as <- _.
Defined.
Lemma manages : io_manager 0x80.
Proof.
  split; [|done]. intros k size name ty chars exclusive object contents k' E. simpl in E.
  injection E as <- <- _. by split.
Qed.

Definition object : DRIVER_OBJECT := mkDriverObject 0 0 None (replicate 28 None).
Definition before : world cells := World tt [] {[0x80 := inj object]}.
Definition after : world cells :=
  Eval vm_compute in match Sioctl.init 0x80 before with Done _ s => s | _ => before end.
Lemma init_runs : Sioctl.init 0x80 before = Done (Ok tt) after.
Proof. vm_compute. reflexivity. Qed.

(** An open handle, a question and the end of the handle. *)
Definition asking (p : ptr) (kind : MajorFunction) : request :=
  mkRequest p (mkIRP 0 0 1 1 (p + 8) 0x2000 0 0 0 0 0 1 0 None)
    (mkStack (major_code kind) 0 0 (mkCreateParams 0 0 0)
       (mkDeviceIoControlRaw 40 8 IOCTL_SIOCTL_METHOD_BUFFERED 0))
    kind (mkSecurityContext 0) (mkBytes (repeat 0 40)).
Definition requests : list request :=
  [asking 0x100 MajorFunction.Create; asking 0x200 MajorFunction.DeviceControl;
   asking 0x300 MajorFunction.Cleanup; asking 0x400 MajorFunction.Close].
Lemma requests_arrive : Forall (arrives [0x900; 0xA00; 0xB00]) requests.
Proof.
  repeat constructor; try discriminate; try (vm_compute; intuition discriminate);
    try (vm_compute; reflexivity); left; discriminate.
Qed.
End SioctlSystemDemo.
#[local] Existing Instance SioctlSystemDemo.build.
#[local] Existing Instance SioctlSystemDemo.linked.
#[local] Existing Instance SioctlSystemDemo.layout.
#[local] Existing Instance SioctlSystemDemo.kernel.
#[local] Existing Instance SioctlSystemDemo.extensions.

(** The cleanup request at 0x300 is never completed. *)
Lemma sioctl_end_to_end_witness :
  Sioctl.init 0x80 SioctlSystemDemo.before = Done (Ok tt) SioctlSystemDemo.after /\
  wp (serve 0x900 SioctlSystemDemo.requests) SioctlSystemDemo.after (fun statuses s2 =>
    statuses = [0; 0; 0; 0] /\
    completed (calls s2) = [(0x100, STATUS_SUCCESS, 0); (0x200, STATUS_SUCCESS, 31); (0x400, STATUS_SUCCESS, 0)]).
Proof.
  pose proof (sioctl_end_to_end 0x80 SioctlSystemDemo.object SioctlSystemDemo.before) as H.
  specialize (H ltac:(discriminate) ltac:(vm_compute; reflexivity) SioctlSystemDemo.manages).
  unfold wp at 1 in H. rewrite SioctlSystemDemo.init_runs in H.
  split; [exact SioctlSystemDemo.init_runs|].
  destruct H as (_ & o & contents & status & Hd & Hl & H).
  vm_compute in Hd. injection Hd as <- <-. vm_compute in Hl. injection Hl as <-.
  eapply wp_mono; [exact (H _ SioctlSystemDemo.requests_arrive)|].
  intros statuses s2 [-> ->]. split; reflexivity.
Defined.
