(* ===== verification/ObCallback.v ===== *)
(** * ObCallback: the example driver [examples/obcallback], lib.rs and callback.rs

    It protects processes of one name: a process notification remembers the
    process that was created last under the name, and object callbacks take
    the right to terminate from handles to it and to its threads.  What is
    protected is in a static, behind a guarded mutex.

    What is only logged is not modelled.  As in [Event], the members of a
    structure that other code is given the address of are cells of their own,
    at an offset. *)

From S2P Require Import Prelude Nt World UnicodeStr Crate Pool UnicodeString FileObj Device.
From S2P Require Import Irp DeviceControl Driver Sync Mutex Notify Ob Process.
Import WduUnicodeStr (WduUnicodeStr).
Import WduUnicodeString (WduUnicodeString).
Import WduDevice (WduDevice).
Import WduFileObject (WduFileObject).
Import WduIrp (WduIrp).
Import WduIoStatus (WduIoStatus).
Import WduCreate (WduCreate).
Import WduDeviceControl (WduDeviceControl).
Import WduProcess (WduProcess).
Import WduThread (WduThread).
Import WduPsCallback (WduPsCallback).
Import WduObCallback (WduObCallback).
Import WduObOpRegistration (WduObOpRegistration).
Import ObjectType (ObjectType).

Inductive ObCallbackError : Type :=
  DriverError | DeviceError | CallbackError | InvalidParameter | UnicodeError.

(** The [From] instances. *)
Definition from_device_error (_ : WduDeviceError) : ObCallbackError := DeviceError.
Definition from_driver_error (_ : WduDriverError) : ObCallbackError := DriverError.
Definition from_callback_error (_ : WduCallbackError) : ObCallbackError := CallbackError.
Definition from_unicode_error (_ : WduUnicodeError) : ObCallbackError := UnicodeError.

Definition DEVICE_NAME_UTF16 : list Z := utf16str "\Device\ObCallbackTest".
Definition WIN32_NAME_UTF16 : list Z := utf16str "\DosDevices\ObCallbackTest".
Definition TD_IOCTL_PROTECT_NAME_CALLBACK : Z :=
  encode_ioctl FILE_DEVICE_UNKNOWN (0x800 + 2) METHOD_BUFFERED FILE_SPECIAL_ACCESS.
Definition TD_IOCTL_UNPROTECT_CALLBACK : Z :=
  encode_ioctl FILE_DEVICE_UNKNOWN (0x800 + 3) METHOD_BUFFERED FILE_SPECIAL_ACCESS.

Definition PROTECT_NAME_PROTECT : Z := 0.
Definition PROTECT_NAME_REJECT : Z := 1.
Definition CB_PROCESS_TERMINATE : Z := 0x0001.
Definition CB_THREAD_TERMINATE : Z := 0x0001.
Definition NAME_SIZE : Z := 200.

(** [name] has [NAME_SIZE + 1] units. *)
Record ProtectNameInput : Type := mkProtectNameInput { operation : Z; name : list Z }.
(** Of [repr(C)]: 4 bytes, the units, and padding to a multiple of 4. *)
Definition size_of_ProtectNameInput : Z := 408.
Definition name_offset : Z := 4.

Inductive Object : Type := Process (process : WduProcess) | Thread (pid : Z).
Record CallContext : Type := mkCallContext { ctx_operation : Z; object : Object }.

Module ProtectData.
Record ProtectData : Type := mk {
  target_process : option WduProcess;
  target_process_id : option Z;
  name : WduUnicodeString
}.
Definition const_new : ProtectData := mk None None WduUnicodeString.const_new.
End ProtectData.
Import ProtectData (ProtectData).

(** Where the compiler puts the statics, and the members of [Protect]. *)
Class ObcLayout : Type := {
  PROTECT : ptr;
  PROCESS_CB : ptr;
  PROTECT_NAME_FLAG : ptr;
  REJECT_NAME_FLAG : ptr;
  raw_slot : ptr;
  protect_data_offset : Z;
  callback_offset : Z;
  device_name_at : ptr;
  win32_name_at : ptr;
  global_name_at : ptr;
  altitude_at : ptr
}.

(** [lock_api]'s mutex, as far as the driver uses it: where the raw mutex and
    the data are, and what taking the mutex and dropping its guard do. *)
Class LockApi {KN : Kernel} (U : Type) : Type := {
  raw : ptr -> ptr;
  data : ptr -> ptr;
  mutex_lock : ptr -> M (world U) unit;
  guard_drop : ptr -> M (world U) unit
}.

Module Protect.
(** The members [protect_data] and [callback] are at offsets. *)
Record Protect : Type := mk { callback_installed : bool }.

Section Ops.
Context {KN : Kernel} {NS : NtStatics} {LK : Linked} {OL : ObcLayout} {U : Type}.
Context `{!Storable U units, !Storable U UNICODE_STRING, !Storable U bool}.
Context `{!Storable U Protect, !Storable U ProtectData, !Storable U WduObCallback}.
Context `{!Storable U ProtectNameInput, !Storable U CallContext}.
Context `{!Storable U OB_PRE_INFORMATION, !Storable U OB_PRE_PARAMETERS}.
Context `{!Storable U OB_POST_INFORMATION, !Storable U OB_POST_PARAMETERS}.
Context (to_lowercase : list Z -> list Z) (try_non_paged reserved : bool).

Definition protect_data (self : ptr) : ptr := self + protect_data_offset.
Definition callback (self : ptr) : ptr := self + callback_offset.

(** The initial value of the static at [self]. *)
Definition const_new (self : ptr) : M (world U) unit :=
  install self (mk false) ;;
  install (protect_data self) ProtectData.const_new ;;
  install (callback self) WduObCallback.const_new.

Definition is_cb_installed (self : ptr) : M (world U) bool :=
  p ← load (T := Protect) self; mret (callback_installed p).

(** The callbacks by their addresses. *)
Definition registration (ty : ObjectType) (self : ptr) : WduObOpRegistration :=
  WduObOpRegistration.build (WduObOpRegistration.set_context
    (WduObOpRegistration.set_post (WduObOpRegistration.set_pre
      (WduObOpRegistration.set_operations (WduObOpRegistration.set_ob_type WduObOpRegistration.default ty)
         (Z.lor OB_OPERATION_HANDLE_CREATE OB_OPERATION_HANDLE_DUPLICATE))
      (code_addr "Protect::pre_operation_cb")) (code_addr "Protect::post_operation_cb"))
    (protect_data self)).

Definition register_callback (self : ptr) : M (world U) (result unit ObCallbackError) :=
  let process_cb := registration ObjectType.Process self in
  let thread_cb := registration ObjectType.Thread self in
  WduObCallback.push_op_registration (callback self) process_cb ;;
  WduObCallback.push_op_registration (callback self) thread_cb ;;
  let altitude := WduUnicodeStr.from_slice altitude_at (utf16str "1000") in
  try_ from_callback_error (WduObCallback.register reserved (callback self) altitude) (fun _ =>
  update self (fun _ => mk true) ;;
  mret (Ok tt)).

Definition protect_name_cb (self : ptr) (req_data : WduDeviceControl)
    : M (world U) (result NTSTATUS ObCallbackError) :=
  let input_buffer := WduDeviceControl.input_buffer req_data in
  if input_buffer =? null then mret (Err InvalidParameter)
  else
    i ← load (T := ProtectNameInput) input_buffer;
    try_ from_unicode_error
      (WduUnicodeString.try_from_slice try_non_paged (input_buffer + name_offset) (name i)) (fun name =>
    d ← load (T := ProtectData) (protect_data self);
    WduUnicodeString.drop (ProtectData.name d) ;;
    update (protect_data self) (fun d =>
      ProtectData.mk (ProtectData.target_process d) (ProtectData.target_process_id d) name) ;;
    _ ←? register_callback self;
    i ← load (T := ProtectNameInput) input_buffer;
    if operation i =? PROTECT_NAME_PROTECT then
      store PROTECT_NAME_FLAG true ;; store REJECT_NAME_FLAG false ;; mret (Ok STATUS_SUCCESS)
    else if operation i =? PROTECT_NAME_REJECT then
      store PROTECT_NAME_FLAG false ;; store REJECT_NAME_FLAG true ;; mret (Ok STATUS_SUCCESS)
    else mret (Err InvalidParameter)).

Definition delete_protect_name_cb (self : ptr) : M (world U) (result unit ObCallbackError) :=
  try_ from_callback_error (WduObCallback.unregister (callback self)) (fun _ =>
  update self (fun _ => mk false) ;;
  mret (Ok tt)).

Definition check_process_match (self : ptr) (process : WduProcess) (pid : Z)
    (filename : WduUnicodeString) : M (world U) NTSTATUS :=
  d ← load (T := ProtectData) (protect_data self);
  matches ← WduUnicodeString.contains to_lowercase filename (ProtectData.name d) true;
  if negb matches then mret STATUS_NOT_FOUND
  else
    update (protect_data self) (fun d =>
      ProtectData.mk (Some process) (ProtectData.target_process_id d) (ProtectData.name d)) ;;
    update (protect_data self) (fun d =>
      ProtectData.mk (ProtectData.target_process d) (Some pid) (ProtectData.name d)) ;;
    mret STATUS_SUCCESS.

(** The object to put in the call context, and the bits to clear; [None] for
    an early return. *)
Definition pre_operation_target (d : ProtectData) (op_info : ptr)
    : M (world U) (option (Object * Z * Z)) :=
  ty ← ObPreOpInfo.object_type op_info;
  match ty with
  | ObjectType.Process =>
      o ← ObPreOpInfo.object op_info;
      let process := WduProcess.wrap o in
      if match ProtectData.target_process d with
         | None => true
         | Some protected_process => negb (WduProcess.eq protected_process process)
         end then mret None
      else
        current ← WduProcess.current_process;
        if WduProcess.eq process current then mret None
        else mret (Some (Process process, CB_PROCESS_TERMINATE, 0))
  | ObjectType.Thread =>
      o ← ObPreOpInfo.object op_info;
      let target_thread := WduThread.wrap o in
      pid ← WduThread.process_id target_thread;
      if match ProtectData.target_process_id d with
         | None => true
         | Some protected_pid => negb (protected_pid =? pid)
         end then mret None
      else
        current ← WduProcess.current_process_id;
        if pid =? current then mret None
        else mret (Some (Thread pid, CB_THREAD_TERMINATE, 0))
  | _ => mret None
  end.

Definition pre_operation_cb (ctx : option ptr) (op_info : ptr) : M (world U) unit :=
  match ctx with
  | None => mret tt
  | Some ctx =>
      protect_data ← load (T := ProtectData) ctx;
      t ← pre_operation_target protect_data op_info;
      match t with
      | None => mret tt
      | Some (object, clear_bit_access, set_bit_access) =>
          desired_access ← ObPreOpInfo.desired_access op_info;
          kernel ← ObPreOpInfo.is_kernel_handle op_info;
          (if negb kernel then
             let desired_access := Z.land desired_access (Z.lxor clear_bit_access 0xFFFFFFFF) in
             let desired_access := Z.lor desired_access set_bit_access in
             ObPreOpInfo.set_desired_access op_info desired_access
           else mret tt) ;;
          o ← ObPreOpInfo.operation op_info;
          ObPreOpInfo.set_context op_info (mkCallContext o object)
      end
  end.

(** All branches at the end return the same; the calls they make are here. *)
Definition post_operation_cb (_ctx : option ptr) (op_info : ptr) : M (world U) unit :=
  call_ctx ← ObPostOpInfo.call_context (T := CallContext) op_info;
  match call_ctx with
  | None => mret tt
  | Some ctx =>
      o ← ObPostOpInfo.operation op_info;
      assert_ (ctx_operation ctx =? o) "assertion failed: ctx.operation == op_info.operation()" ;;
      match object ctx with
      | Process target_process =>
          o ← ObPostOpInfo.object op_info;
          if WduProcess.eq target_process (WduProcess.wrap o) then mret tt
          else WduProcess.current_process ;; mret tt
      | Thread target_process_id =>
          o ← ObPostOpInfo.object op_info;
          pid ← WduThread.process_id (WduThread.wrap o);
          if target_process_id =? pid then mret tt
          else WduProcess.current_process_id ;; mret tt
      end
  end.
End Ops.
End Protect.
Import Protect (Protect).

Section ObCallback.
Context {KN : Kernel} {NS : NtStatics} {B : Build} {LK : Linked} {OL : ObcLayout} {U : Type}.
Context {LA : LockApi U}.
Context `{!Storable U DRIVER_OBJECT, !Storable U DRIVER_EXTENSION, !Storable U DEVICE_OBJECT}.
Context `{!Storable U WduDevice, !Storable U WduDriver, !Storable U IRP}.
Context `{!Storable U units, !Storable U UNICODE_STRING, !Storable U bool}.
Context `{!Storable U Protect, !Storable U ProtectData, !Storable U WduObCallback}.
Context `{!Storable U WduPsCallback, !Storable U ProtectNameInput, !Storable U PS_CREATE_NOTIFY_INFO}.
Context (to_lowercase : list Z -> list Z) (try_non_paged reserved : bool).

(** [let mut lock = PROTECT.lock(); body], to the end of the guard's scope. *)
Definition with_protect {A} (body : ptr -> M (world U) A) : M (world U) A :=
  mutex_lock PROTECT ;; r ← body (data PROTECT); guard_drop PROTECT ;; mret r.

Definition check_match (process : WduProcess) (pid : Z) (filename : WduUnicodeString) (lock : ptr)
    : M (world U) NTSTATUS :=
  Protect.check_process_match to_lowercase lock process pid filename.

Definition process_notify_cb (process : WduProcess) (process_id : Z) (create_info : ptr)
    : M (world U) unit :=
  if WduPsCreateNotifyInfo.is_exit create_info then mret tt
  else
    str ← WduPsCreateNotifyInfo.image_filename create_info;
    owned ← WduUnicodeString.to_owned try_non_paged str;
    let image_filename := match owned with Ok s => s | Err _ => WduUnicodeString.default end in
    protect ← load (T := bool) PROTECT_NAME_FLAG;
    (if protect && negb (WduUnicodeString.is_empty image_filename) then
       with_protect (fun lock => check_match process process_id image_filename lock ;; mret tt)
     else mret tt) ;;
    reject ← load (T := bool) REJECT_NAME_FLAG;
    (if reject && negb (WduUnicodeString.is_empty image_filename) then
       with_protect (fun lock =>
         status ← check_match process process_id image_filename lock;
         if status =? STATUS_SUCCESS
         then WduPsCreateNotifyInfo.set_status create_info STATUS_ACCESS_DENIED else mret tt)
     else mret tt) ;;
    WduUnicodeString.drop image_filename.

Definition init (driver_object : ptr) : M (world U) (result unit ObCallbackError) :=
  let device_name := WduUnicodeStr.from_slice device_name_at DEVICE_NAME_UTF16 in
  let win32_name := WduUnicodeStr.from_slice win32_name_at WIN32_NAME_UTF16 in
  let fileobj := FileObjDispatch.cleanup_irp (FileObjDispatch.close_irp (FileObjDispatch.create_irp
    FileObjDispatch.default (code_addr "obcallback::create")) (code_addr "obcallback::close"))
    (code_addr "obcallback::cleanup") in
  let io := IoDispath.ioctl_irp IoDispath.default (code_addr "obcallback::device_control") in
  d ← WduDriver.unload (WduDriver.new driver_object) (code_addr "obcallback::driver_unload");
  d ← WduDriver.file_object d fileobj;
  d ← WduDriver.io d io;
  try_ from_driver_error (WduDriver.build d) (fun wdu_driver =>
  try_ from_device_error (WduDevice.build 0
      (WduDevice.set_characteristics (WduDevice.set_device_type WduDevice.default UnknownDevice)
         SecureOpen) (WduDriver.as_ptr wdu_driver) (Some device_name)) (fun wdu_device =>
  r ← WduDevice.symbolic_name wdu_device device_name win32_name;
  (if r is Err _ then WduDevice.delete wdu_device else mret tt) ;;
  cb ← load (T := WduPsCallback) PROCESS_CB;
  r ← WduPsCallback.register cb
        (WduPsCallback.NotifyRoutineEx2 (code_addr "obcallback::process_notify_cb"));
  store PROCESS_CB r.2 ;;
  (if r.1 is Err _ then
     WduDevice.delete_symbolic_name win32_name ;; WduDevice.delete wdu_device
   else mret tt) ;;
  mret (Ok tt))).

(** The logger is not modelled. *)
Definition DriverEntry (driver_object : ptr) : M (world U) NTSTATUS :=
  SimpleAlloc.init global_name_at SimpleAlloc.const_new ;;
  WduGuardedMutex.init_lock raw_slot (raw PROTECT) ;;
  r ← init driver_object;
  match r with Err _ => mret STATUS_UNSUCCESSFUL | Ok _ => mret STATUS_SUCCESS end.

Definition driver_unload (driver : WduDriver) : M (world U) unit :=
  dev_obj ← WduDriver.device driver;
  let win32_name := WduUnicodeStr.from_slice win32_name_at WIN32_NAME_UTF16 in
  cb ← load (T := WduPsCallback) PROCESS_CB;
  r ← WduPsCallback.unregister cb;
  store PROCESS_CB r.2 ;;
  with_protect (fun lock =>
    installed ← Protect.is_cb_installed lock;
    if installed : bool then Protect.delete_protect_name_cb lock ;; mret tt else mret tt) ;;
  WduDevice.delete_symbolic_name win32_name ;;
  WduDevice.delete dev_obj.

Definition create (_device : WduDevice) (request : WduIrp) (_req_data : WduCreate)
    : M (world U) WduIrp :=
  WduIrp.complete request WduIoStatus.success_no_info ;; mret request.
Definition close (_device : WduDevice) (request : WduIrp) (_file_obj : WduFileObject)
    : M (world U) WduIrp :=
  WduIrp.complete request WduIoStatus.success_no_info ;; mret request.
Definition cleanup (_device : WduDevice) (request : WduIrp) (_file_obj : WduFileObject)
    : M (world U) WduIrp :=
  WduIrp.complete request WduIoStatus.success_no_info ;; mret request.

(** An error returned inside the block drops the guard too. *)
Definition protect_name (req_data : WduDeviceControl) : M (world U) (result NTSTATUS ObCallbackError) :=
  if WduDeviceControl.input_buffer_size req_data <? size_of_ProtectNameInput
  then mret (Err InvalidParameter)
  else
    _ ←? with_protect (fun lock =>
      installed ← Protect.is_cb_installed lock;
      if negb installed then
        _ ←? Protect.protect_name_cb try_non_paged reserved lock req_data; mret (Ok tt)
      else mret (Ok tt));
    mret (Ok STATUS_SUCCESS).

Definition unprotect : M (world U) (result NTSTATUS ObCallbackError) :=
  _ ←? with_protect (fun lock =>
    installed ← Protect.is_cb_installed lock;
    if installed : bool then Protect.delete_protect_name_cb lock else mret (Ok tt));
  mret (Ok STATUS_SUCCESS).

Definition unwrap_or {A E} (r : result A E) (default : A) : A :=
  match r with Ok a => a | Err _ => default end.

Definition device_control (_device : WduDevice) (request : WduIrp) (req_data : WduDeviceControl)
    : M (world U) (WduIrp * NTSTATUS) :=
  let io_status := WduIoStatus.new in
  let ioctl := WduDeviceControl.ioctl req_data in
  status ← (if ioctl =? TD_IOCTL_PROTECT_NAME_CALLBACK then
              r ← protect_name req_data; mret (unwrap_or r STATUS_UNSUCCESSFUL)
            else if ioctl =? TD_IOCTL_UNPROTECT_CALLBACK then
              r ← unprotect; mret (unwrap_or r STATUS_UNSUCCESSFUL)
            else mret STATUS_INVALID_DEVICE_REQUEST);
  WduIrp.complete request (WduIoStatus.set_status io_status status) ;;
  mret (request, status).

(** The driver's callbacks, as the crate calls them: by address, with the
    address of the context. *)
#[export] Instance obc_client `{!Storable U CallContext} `{!Storable U OB_PRE_INFORMATION}
    `{!Storable U OB_PRE_PARAMETERS, !Storable U OB_POST_INFORMATION} : ObClient U :=
  {| run_pre _ ctx op_info := Protect.pre_operation_cb ctx op_info;
     run_post _ ctx op_info := Protect.post_operation_cb ctx op_info |}.
End ObCallback.

(** ** Handles to the protected process *)

Section handles.
Context {KN : Kernel} {NS : NtStatics} {LK : Linked} {OL : ObcLayout} {U : Type}.
Context `{!Storable U ProtectData, !Storable U WduObCallback, !Storable U CallContext}.
Context `{!Storable U OB_PRE_INFORMATION, !Storable U OB_PRE_PARAMETERS, !Storable U OB_POST_INFORMATION}.
Implicit Types s : world U.

(** What is protected of an object in [s]: the target process, and the
    threads of the target's id; not from the current process, if that is the
    target. *)
Definition protects (d : ProtectData) (ty : ObjectType) (obj : ptr) s : option Object :=
  match ty with
  | ObjectType.Process =>
      if bool_decide (ProtectData.target_process d = Some (WduProcess.wrap obj)) &&
         negb (obj =? kresp IoGetCurrentProcess s)
      then Some (Process (WduProcess.wrap obj)) else None
  | ObjectType.Thread =>
      let owner := PsGetThreadProcessId obj in
      if bool_decide (ProtectData.target_process_id d = Some (kresp owner s)) &&
         negb (kresp owner s =? kresp PsGetCurrentProcessId (kafter owner s))
      then Some (Thread (kresp owner s)) else None
  | _ => None
  end.

(** The kernel asks about a handle operation on an object: the information
    at [info], the parameters. *)
Record asked (info : ptr) (i : OB_PRE_INFORMATION) (p : OB_PRE_PARAMETERS) s : Prop := {
  asked_info : info <> 0 /\ w_mem s !! info = Some (inj i);
  asked_params : PreParameters i <> 0 /\ w_mem s !! PreParameters i = Some (inj p);
  asked_apart : PreParameters i <> info;
  asked_operation : PreOperation_ i = OB_OPERATION_HANDLE_CREATE \/
                    PreOperation_ i = OB_OPERATION_HANDLE_DUPLICATE
}.

(** Nothing is attached yet, and the access is a 32-bit number. *)
Definition untouched (i : OB_PRE_INFORMATION) (p : OB_PRE_PARAMETERS) : Prop :=
  PreCallContext i = null /\ 0 <= ObDesiredAccess p < 2 ^ 32.

Definition is_kernel (i : OB_PRE_INFORMATION) : bool := Z.land (PreFlags i) 1 =? 1.

Definition with_context (i : OB_PRE_INFORMATION) (q : ptr) : OB_PRE_INFORMATION :=
  mkObPre (PreOperation_ i) (PreFlags i) (PreObject i) (PreObjectType i) q (PreParameters i).

(** The memory after the answer: the right to terminate taken from a user's
    handle, and a call context. *)
Definition answered (info : ptr) (i : OB_PRE_INFORMATION) (p : OB_PRE_PARAMETERS) (o : option Object)
    s s' : Prop :=
  match o with
  | None => w_mem s' = w_mem s
  | Some o => exists q access, q <> 0 /\ w_mem s !! q = None /\
      (forall n, 0 <= n -> Z.testbit access n = Z.testbit (ObDesiredAccess p) n && (is_kernel i || negb (n =? 0))) /\
      w_mem s' = <[info := inj (with_context i q)]> (<[q := inj (mkCallContext (PreOperation_ i) o)]>
        (<[PreParameters i := inj (mkObPreParams access (ObOriginalDesiredAccess p))]> (w_mem s)))
  end.

Lemma strip_bits a n : 0 <= a < 2 ^ 32 -> 0 <= n ->
  Z.testbit (Z.lor (Z.land a (Z.lxor 1 0xFFFFFFFF)) 0) n = Z.testbit a n && negb (n =? 0).
Proof.
  intros Ha Hn. rewrite Z.lor_0_r, Z.land_spec. change (Z.lxor 1 0xFFFFFFFF) with (Z.lxor 1 (Z.ones 32)).
  rewrite Z.lxor_spec. destruct (Z.ltb_spec n 32) as [H|H].
  - rewrite Z.ones_spec_low by lia. f_equal.
  - rewrite (proj2 (Z.testbit_false a n Hn)); [done|].
    rewrite Z.div_small; [done|]. split; [lia|]. eapply Z.lt_le_trans; [apply Ha|].
    by apply Z.pow_le_mono_r.
Qed.

Lemma wp_pre_operation_target d info i p s (Q : option (Object * Z * Z) -> world U -> Prop) :
  asked info i p s ->
  (forall s', w_mem s' = w_mem s ->
     Q ((fun o => (o, 1, 0)) <$> protects d (kind_of (PreObjectType i)) (PreObject i) s) s') ->
  wp (Protect.pre_operation_target d info) s Q.
Proof.
  intros [[Hp Hi] _ _ _] HQ. unfold Protect.pre_operation_target.
  assert (R : pre_info info (kind_of (PreObjectType i)) (PreOperation_ i) s).
  { split; [done|]. by exists i. }
  apply wp_bind. eapply wp_done; [by apply (pre_info_reads _ _ _ _ R)|].
  assert (O : forall s', w_mem s' = w_mem s -> ObPreOpInfo.object info s' = Done (PreObject i) s').
  { intros s' E. unfold ObPreOpInfo.object, ObPreOpInfo.get. by erewrite bind_done by (apply load_at; [done|by rewrite E]). }
  destruct (kind_of (PreObjectType i)); simpl in HQ |- *; try by apply wp_ret, HQ.
  - apply wp_bind. eapply wp_done; [by apply O|].
    destruct (ProtectData.target_process d) as [[t]|] eqn:Et; simpl; [|by apply wp_ret, HQ].
    unfold WduProcess.eq at 1. simpl. destruct (Z.eqb_spec t (PreObject i)) as [->|Hn]; simpl.
    + wp_step. unfold WduProcess.current_process. wp_step. wp_step. apply wp_ret. unfold WduProcess.eq. simpl.
      rewrite bool_decide_eq_true_2 in HQ by done. simpl in HQ.
      destruct (_ =? _); by apply wp_ret, HQ.
    + rewrite bool_decide_eq_false_2 in HQ by (intros [= ?]; done). by apply wp_ret, HQ.
  - apply wp_bind. eapply wp_done; [by apply O|]. wp_step. unfold WduThread.process_id. wp_step.
    destruct (ProtectData.target_process_id d) as [t|] eqn:Et; simpl; [|by apply wp_ret, HQ].
    unfold WduThread.inner in *. simpl in *.
    destruct (Z.eqb_spec t (kresp (PsGetThreadProcessId (PreObject i)) s)) as [->|Hn]; simpl.
    + wp_step. unfold WduProcess.current_process_id. wp_step.
      rewrite bool_decide_eq_true_2 in HQ by done. simpl in HQ.
      destruct (_ =? _); by apply wp_ret, HQ.
    + rewrite bool_decide_eq_false_2 in HQ by (intros [= ?]; done). by apply wp_ret, HQ.
Qed.

Lemma desired_access_done info i p s : asked info i p s ->
  ObPreOpInfo.desired_access info s = Done (ObDesiredAccess p) s.
Proof.
  intros [[Hp Hi] [Hq Hpar] _ Hop]. unfold ObPreOpInfo.desired_access, ObPreOpInfo.get_params, ObPreOpInfo.get.
  erewrite bind_done by by apply load_at.
  destruct Hop as [-> | ->]; simpl; erewrite bind_done; try done;
    (erewrite bind_done by by apply load_at); by apply load_at.
Qed.

Lemma wp_set_desired_access info i p a s (Q : unit -> world U -> Prop) :
  asked info i p s ->
  Q tt (set_mem (<[PreParameters i := inj (mkObPreParams a (ObOriginalDesiredAccess p))]> (w_mem s)) s) ->
  wp (ObPreOpInfo.set_desired_access info a) s Q.
Proof.
  intros [[Hp Hi] [Hq Hpar] _ Hop] HQ. unfold ObPreOpInfo.set_desired_access, ObPreOpInfo.get.
  apply wp_bind. eapply wp_load; [done..|].
  destruct Hop as [-> | ->]; simpl; (apply wp_bind; eapply wp_load; [done..|]); by eapply wp_update.
Qed.

(** From [s0] on, whose parameters may have changed. *)
Lemma wp_attach info i o a p s0 s :
  asked info i p s0 -> PreCallContext i = null ->
  w_mem s = <[PreParameters i := inj (mkObPreParams a (ObOriginalDesiredAccess p))]> (w_mem s0) ->
  (forall n, 0 <= n -> Z.testbit a n = Z.testbit (ObDesiredAccess p) n && (is_kernel i || negb (n =? 0))) ->
  wp (o' ← ObPreOpInfo.operation info; ObPreOpInfo.set_context info (mkCallContext o' o)) s
    (fun _ s' => answered info i p (Some o) s0 s').
Proof.
  intros [[Hp Hi] [Hq Hpar] Hne _] Hc Hm Ha.
  assert (Hi' : w_mem s !! info = Some (inj i)) by (rewrite Hm; map_at).
  unfold ObPreOpInfo.operation, ObPreOpInfo.set_context, ObPreOpInfo.get.
  apply wp_bind, wp_bind. eapply wp_load; [done..|]. apply wp_ret.
  apply wp_bind. eapply wp_load; [done..|]. rewrite Hc. apply wp_bind, wp_assert; [done|].
  apply wp_bind, wp_box_into_raw. cbv zeta.
  pose proof (fresh_addr_pos (w_mem s)) as Hf0. pose proof (fresh_addr_fresh (w_mem s)) as Hf.
  set (q := fresh_addr (w_mem s)) in *. clearbody q.
  assert (q <> info) by congruence.
  eapply wp_update; [done|map_at|]. simpl. rewrite Hm in Hf |- *.
  apply lookup_insert_None in Hf as [Hf Hqp]. exists q, a. split_and!; [lia|done|done|done].
Qed.

Lemma wp_pre_operation_cb ctx d info i p s :
  ctx <> 0 -> w_mem s !! ctx = Some (inj d) -> asked info i p s -> untouched i p ->
  wp (Protect.pre_operation_cb (Some ctx) info) s (fun _ s' =>
    answered info i p (protects d (kind_of (PreObjectType i)) (PreObject i) s) s s').
Proof.
  intros Hc Hd Hask [Hcc Hacc]. unfold Protect.pre_operation_cb.
  apply wp_bind. eapply wp_load; [done..|]. apply wp_bind. eapply wp_pre_operation_target; [done|].
  intros s1 E1. destruct (protects _ _ _ s) as [o|]; cbn [fmap option_fmap option_map]; [|by apply wp_ret].
  pose proof Hask as [[Hp Hi] [Hq Hpar] Hne Hop].
  assert (Hask1 : asked info i p s1) by (split; rewrite ?E1; done).
  apply wp_bind. eapply wp_done; [by eapply desired_access_done|].
  unfold ObPreOpInfo.is_kernel_handle, ObPreOpInfo.get. apply wp_bind, wp_bind.
  eapply wp_load; [done|by rewrite E1|]. apply wp_ret. apply wp_bind.
  fold (is_kernel i). destruct (is_kernel i) eqn:Ek; cbn [negb].
  - apply wp_ret. eapply (wp_attach _ _ _ (ObDesiredAccess p)); [done|done| |].
    + rewrite E1, insert_id; [done|]. by destruct p.
    + intros n Hn. by rewrite Ek, andb_true_r.
  - eapply wp_set_desired_access; [done|]. eapply wp_attach; [done|done| |].
    + by rewrite mem_set_mem, E1.
    + intros n Hn. rewrite Ek. by apply strip_bits.
Qed.

#[local] Existing Instance obc_client.

(** What [register_callback] registers. *)
Definition registrations (self : ptr) : list WduObOpRegistration :=
  [Protect.registration ObjectType.Process self; Protect.registration ObjectType.Thread self].

Lemma wp_registration ty self info opn s (Q : unit -> world U -> Prop) ty0 :
  Protect.protect_data self <> 0 -> pre_info info ty opn s ->
  opn = OB_OPERATION_HANDLE_CREATE \/ opn = OB_OPERATION_HANDLE_DUPLICATE ->
  (if decide (ty0 = ty) then wp (Protect.pre_operation_cb (Some (Protect.protect_data self)) info) s Q
   else Q tt s) ->
  wp (WduObCallback.pre_op_each info (Protect.registration ty0 self)) s Q.
Proof.
  intros Hd Hinfo Hop HQ. unfold wp. erewrite pre_op_each_eq by done.
  unfold wants, run_with. simpl. rewrite not_null by done. case_decide.
  - rewrite bool_decide_eq_true_2 by done. destruct Hop as [-> | ->]; exact HQ.
  - by rewrite bool_decide_eq_false_2.
Qed.

Lemma answered_pre_info info i p o s s' : asked info i p s -> answered info i p o s s' ->
  pre_info info (kind_of (PreObjectType i)) (PreOperation_ i) s'.
Proof.
  intros [[Hp Hi] _ _ _] Ha. split; [done|]. destruct o as [o|].
  - destruct Ha as (q & a & _ & _ & _ & ->). exists (with_context i q). split; [map_at|done].
  - exists i. by rewrite Ha.
Qed.

Lemma wp_registrations self d info i p s :
  Protect.protect_data self <> 0 -> w_mem s !! Protect.protect_data self = Some (inj d) ->
  asked info i p s -> untouched i p ->
  wp (for_each (WduObCallback.pre_op_each info) (registrations self)) s (fun _ s' =>
    answered info i p (protects d (kind_of (PreObjectType i)) (PreObject i) s) s s').
Proof.
  intros Hd0 Hd Hask Hu. pose proof Hask as [[Hp Hi] _ _ Hop].
  assert (Hinfo : pre_info info (kind_of (PreObjectType i)) (PreOperation_ i) s) by (split; [done|]; by exists i).
  pose proof (wp_pre_operation_cb _ d info i p s Hd0 Hd Hask Hu) as Hrun.
  simpl. apply wp_bind. eapply wp_registration; [done..|].
  destruct (decide (ObjectType.Process = kind_of (PreObjectType i))) as [E|E].
  - eapply wp_mono; [exact Hrun|]. intros [] s1 Ha. apply wp_bind.
    eapply wp_registration; [done|by eapply answered_pre_info|done|]. rewrite decide_False by congruence.
    by apply wp_ret.
  - apply wp_bind. eapply wp_registration; [done..|]. case_decide as E2.
    + eapply wp_mono; [exact Hrun|]. intros [] s1 Ha. by apply wp_ret.
    + apply wp_ret. by destruct (kind_of (PreObjectType i)).
Qed.

Lemma wp_pre_op_internal self h d info i p s :
  Protect.callback self <> 0 ->
  w_mem s !! Protect.callback self = Some (inj (WduObCallback.mk h (registrations self))) ->
  Protect.protect_data self <> 0 -> w_mem s !! Protect.protect_data self = Some (inj d) ->
  asked info i p s -> untouched i p ->
  wp (WduObCallback.pre_op_internal (Protect.callback self) info) s (fun r s' =>
    r = OB_PREOP_SUCCESS /\
    answered info i p (protects d (kind_of (PreObjectType i)) (PreObject i) s) s s').
Proof.
  intros Hc0 Hc Hd0 Hd Hask Hu. unfold WduObCallback.pre_op_internal, WduObCallback.get_self.
  apply wp_bind. eapply wp_load; [done..|]. apply wp_bind.
  eapply wp_mono; [by eapply wp_registrations|]. intros [] s' Ha. by apply wp_ret.
Qed.

(** C17: while the driver's callbacks are registered, whenever the kernel asks
    them about a handle to a process or thread: if the object is the
    protected process (or one of its threads) and the caller is another
    process, a handle for user mode loses the right to terminate, and no
    other right; a kernel handle keeps them all; and a context is attached
    for the callback after the operation.  For any other object nothing
    changes.  The operation goes through. *)
Theorem protected_handles_lose_terminate self h d info i p s :
  Protect.callback self <> 0 ->
  w_mem s !! Protect.callback self = Some (inj (WduObCallback.mk h (registrations self))) ->
  Protect.protect_data self <> 0 -> w_mem s !! Protect.protect_data self = Some (inj d) ->
  asked info i p s -> untouched i p ->
  wp (WduObCallback.pre_op_internal (Protect.callback self) info) s (fun r s' =>
    r = OB_PREOP_SUCCESS /\
    answered info i p (protects d (kind_of (PreObjectType i)) (PreObject i) s) s s').
Proof. apply wp_pre_op_internal. Qed.

(** After the operation: the context at [q], if any, is of this operation. *)
Record reported (info : ptr) (j : OB_POST_INFORMATION) s : Prop := {
  reported_info : info <> 0 /\ w_mem s !! info = Some (inj j);
  reported_operation : PostOperation_ j = OB_OPERATION_HANDLE_CREATE \/
                       PostOperation_ j = OB_OPERATION_HANDLE_DUPLICATE;
  reported_context : PostCallContext j <> null -> PostCallContext j <> info /\
    exists o, w_mem s !! PostCallContext j = Some (inj (mkCallContext (PostOperation_ j) o))
}.

Definition without_context (q : ptr) (m : gmap ptr U) : gmap ptr U :=
  if q =? null then m else delete q m.

Lemma wp_post_operation_cb ctx info j s (Q : unit -> world U -> Prop) :
  reported info j s ->
  (forall s', w_mem s' = without_context (PostCallContext j) (w_mem s) -> Q tt s') ->
  wp (Protect.post_operation_cb ctx info) s Q.
Proof.
  intros [[Hp Hj] _ Hc] HQ. unfold Protect.post_operation_cb, ObPostOpInfo.call_context,
    ObPostOpInfo.operation, ObPostOpInfo.object, ObPostOpInfo.get, without_context in *.
  apply wp_bind, wp_bind. eapply wp_load; [done..|].
  destruct (Z.eqb_spec (PostCallContext j) null) as [E|E]; [by do 2 wp_step; apply HQ|].
  destruct (Hc E) as (Hne & o & Hm). apply wp_bind. eapply wp_load; [done..|]. apply wp_bind.
  eapply wp_box_from_raw; [done..|]. apply wp_ret. apply wp_bind, wp_bind.
  eapply wp_load; [done|map_at|]. apply wp_ret. apply wp_bind, wp_assert; [by rewrite Z.eqb_refl|].
  simpl. destruct o as [t|t]; (apply wp_bind, wp_bind; eapply wp_load; [done|map_at|]; apply wp_ret).
  - destruct (WduProcess.eq _ _); [by apply wp_ret, HQ|]. unfold WduProcess.current_process.
    do 4 wp_step. by apply HQ.
  - unfold WduThread.process_id, WduProcess.current_process_id. do 2 wp_step.
    destruct (_ =? _); [by apply wp_ret, HQ|]. do 3 wp_step. by apply HQ.
Qed.

Lemma wp_post_registration ty self info opn s (Q : unit -> world U -> Prop) ty0 :
  Protect.protect_data self <> 0 -> post_info info ty opn s ->
  opn = OB_OPERATION_HANDLE_CREATE \/ opn = OB_OPERATION_HANDLE_DUPLICATE ->
  (if decide (ty0 = ty) then wp (Protect.post_operation_cb (Some (Protect.protect_data self)) info) s Q
   else Q tt s) ->
  wp (WduObCallback.post_op_each info (Protect.registration ty0 self)) s Q.
Proof.
  intros Hd Hinfo Hop HQ. unfold wp. erewrite post_op_each_eq by done.
  unfold wants, run_with. simpl. rewrite not_null by done. case_decide.
  - rewrite bool_decide_eq_true_2 by done. destruct Hop as [-> | ->]; exact HQ.
  - by rewrite bool_decide_eq_false_2.
Qed.

Lemma wp_post_op_internal self h info j s :
  Protect.callback self <> 0 ->
  w_mem s !! Protect.callback self = Some (inj (WduObCallback.mk h (registrations self))) ->
  Protect.protect_data self <> 0 -> reported info j s ->
  kind_of (PostObjectType j) = ObjectType.Process \/ kind_of (PostObjectType j) = ObjectType.Thread ->
  wp (WduObCallback.post_op_internal (Protect.callback self) info) s (fun _ s' =>
    w_mem s' = without_context (PostCallContext j) (w_mem s)).
Proof.
  intros Hc0 Hc Hd0 Hr Hk. pose proof Hr as [[Hp Hj] Hop Hq].
  assert (Hinfo : forall s', w_mem s' = w_mem s \/ w_mem s' = without_context (PostCallContext j) (w_mem s) ->
    post_info info (kind_of (PostObjectType j)) (PostOperation_ j) s').
  { intros s' E. split; [done|]. exists j. split; [|done]. unfold without_context in E.
    destruct E as [-> | ->]; [done|]. destruct (Z.eqb_spec (PostCallContext j) null) as [|E]; [done|].
    destruct (Hq E) as [? _]. map_at. }
  unfold WduObCallback.post_op_internal, WduObCallback.get_self.
  apply wp_bind. eapply wp_load; [done..|]. simpl. apply wp_bind.
  eapply wp_post_registration; [done|by apply Hinfo; left|done|]. case_decide as E.
  - eapply wp_post_operation_cb; [done|]. intros s1 E1. apply wp_bind.
    eapply wp_post_registration; [done|by apply Hinfo; right|done|].
    rewrite decide_False by congruence. by apply wp_ret.
  - apply wp_bind. eapply wp_post_registration; [done|by apply Hinfo; left|done|].
    rewrite decide_True by (destruct Hk; congruence).
    eapply wp_post_operation_cb; [done|]. intros s1 E1. by apply wp_ret.
Qed.

(** When the kernel reports the operation, the context that was attached
    to it - the driver attached one to operations on processes and threads
    only - is given back: its allocation is freed, whatever the outcome, and
    an operation without a context changes nothing. *)
Theorem call_context_given_back self h info j s :
  Protect.callback self <> 0 ->
  w_mem s !! Protect.callback self = Some (inj (WduObCallback.mk h (registrations self))) ->
  Protect.protect_data self <> 0 -> reported info j s ->
  kind_of (PostObjectType j) = ObjectType.Process \/ kind_of (PostObjectType j) = ObjectType.Thread ->
  wp (WduObCallback.post_op_internal (Protect.callback self) info) s (fun _ s' =>
    w_mem s' = without_context (PostCallContext j) (w_mem s)).
Proof. apply wp_post_op_internal. Qed.

(** A second context is refused. *)
Lemma pre_operation_cb_panics ctx d info i p s :
  ctx <> 0 -> w_mem s !! ctx = Some (inj d) -> asked info i p s -> PreCallContext i <> null ->
  protects d (kind_of (PreObjectType i)) (PreObject i) s <> None ->
  exists msg s', Protect.pre_operation_cb (Some ctx) info s = Panicked msg s'.
Proof.
  intros Hc Hd Hask Hcc Hpr. pose proof Hask as [[Hp Hi] [Hq Hpar] Hne Hop].
  unfold Protect.pre_operation_cb. erewrite bind_done by by apply load_at.
  destruct (wp_elim (Protect.pre_operation_target d info) s (fun t s1 => t <> None /\ w_mem s1 = w_mem s))
    as ([[[o cl] st]|] & s1 & E & Ht & E1); [|clear Hpr|done].
  { eapply wp_pre_operation_target; [done|]. intros s1 E1. by destruct (protects _ _ _ s). }
  erewrite bind_done by done. clear E Ht. cbv beta iota.
  assert (Hask1 : asked info i p s1) by (split; rewrite ?E1; done).
  erewrite bind_done by by eapply desired_access_done.
  erewrite bind_done.
  2: { unfold ObPreOpInfo.is_kernel_handle, ObPreOpInfo.get.
       erewrite bind_done by (apply load_at; [done|by rewrite E1]). reflexivity. }
  match goal with |- context [mbind ?k ?m] =>
    destruct (wp_elim m s1 (fun _ s2 => w_mem s2 !! info = Some (inj i))) as ([] & s2 & E & E2) end.
  { destruct (negb _); [|by apply wp_ret; rewrite E1].
    eapply wp_set_desired_access; [done|]. rewrite mem_set_mem, E1. map_at. }
  erewrite bind_done by done. clear E.
  do 2 eexists. unfold ObPreOpInfo.operation, ObPreOpInfo.set_context, ObPreOpInfo.get.
  erewrite bind_done by (by erewrite bind_done by by apply load_at).
  erewrite bind_done by by apply load_at. rewrite not_null by done. by apply bind_panicked.
Qed.

Lemma registered_twice_panics self d h info i p s :
  Protect.callback self <> 0 ->
  w_mem s !! Protect.callback self = Some (inj (WduObCallback.mk h (registrations self ++ registrations self))) ->
  Protect.protect_data self <> 0 -> w_mem s !! Protect.protect_data self = Some (inj d) ->
  asked info i p s -> untouched i p ->
  info <> Protect.protect_data self -> PreParameters i <> Protect.protect_data self ->
  kind_of (PreObjectType i) = ObjectType.Process ->
  ProtectData.target_process d = Some (WduProcess.wrap (PreObject i)) ->
  (forall k, fst (kstep IoGetCurrentProcess k) <> PreObject i) ->
  exists msg s', WduObCallback.pre_op_internal (Protect.callback self) info s = Panicked msg s'.
Proof.
  intros Hc0 Hc Hd0 Hd Hask Hu Hi Hpi Hk Ht Hcur.
  assert (Hpr : forall s, protects d ObjectType.Process (PreObject i) s = Some (Process (WduProcess.wrap (PreObject i)))).
  { intros s'. unfold protects. rewrite bool_decide_eq_true_2 by done.
    rewrite (proj2 (Z.eqb_neq _ _)); [done|]. intros E. by apply (Hcur (w_kernel s')). }
  unfold WduObCallback.pre_op_internal, WduObCallback.get_self. erewrite bind_done by by apply load_at.
  cbn [WduObCallback.operations].
  destruct (wp_elim _ _ _ (wp_registrations _ _ _ _ _ _ Hd0 Hd Hask Hu)) as ([] & s1 & E & Ha).
  pose proof (answered_pre_info _ _ _ _ _ _ Hask Ha) as Hinfo.
  rewrite Hk, Hpr in Ha. destruct Ha as (q & a & Hq & Hqf & _ & Hm).
  pose proof Hask as [[Hp0 Hi0] [Hpar0 Hpar] Hne Hop].
  assert (q <> info) by congruence. assert (q <> PreParameters i) by congruence.
  assert (q <> Protect.protect_data self) by congruence.
  destruct (pre_operation_cb_panics (Protect.protect_data self) d info (with_context i q)
    (mkObPreParams a (ObOriginalDesiredAccess p)) s1) as (msg & s2 & E2).
  - done.
  - rewrite Hm. map_at.
  - split; simpl; rewrite ?Hm; try done; (split; [done|map_at]).
  - done.
  - simpl. by rewrite Hk, Hpr.
  - exists msg, s2. apply bind_panicked. rewrite for_each_app. erewrite bind_done by done.
    simpl. apply bind_panicked. erewrite pre_op_each_eq by done. rewrite Hk.
    unfold wants, run_with. simpl. rewrite not_null by done.
    destruct Hop as [-> | ->]; exact E2.
Qed.
End handles.

(** ** Protecting and unprotecting *)

Section protect.
Context {KN : Kernel} {NS : NtStatics} {LK : Linked} {OL : ObcLayout} {U : Type}.
Context `{!Storable U ProtectData, !Storable U WduObCallback, !Storable U CallContext}.
Context `{!Storable U OB_PRE_INFORMATION, !Storable U OB_PRE_PARAMETERS, !Storable U OB_POST_INFORMATION}.
Context `{!Storable U Protect, !Storable U units, !Storable U UNICODE_STRING, !Storable U bool}.
Context `{!Storable U ProtectNameInput, !Storable U IRP}.
Implicit Types s : world U.
#[local] Existing Instance obc_client.

(** The static in memory: what is protected, and the callbacks. *)
Record static_at (self : ptr) (installed : bool) (d : ProtectData) (cb : WduObCallback) s : Prop := {
  static_self : self <> 0 /\ w_mem s !! self = Some (inj (Protect.mk installed));
  static_data : Protect.protect_data self <> 0 /\ w_mem s !! Protect.protect_data self = Some (inj d);
  static_callback : Protect.callback self <> 0 /\ w_mem s !! Protect.callback self = Some (inj cb);
  static_apart : NoDup [self; Protect.protect_data self; Protect.callback self]
}.

Definition altitude : WduUnicodeStr := WduUnicodeStr.from_slice altitude_at (utf16str "1000").

Lemma wp_register_callback self b d h ops s :
  static_at self b d (WduObCallback.mk h ops) s ->
  Forall (fun op => WduObOpRegistration.ob_type op <> ObjectType.Unknown) ops ->
  wp (Protect.register_callback true self) s (fun r s1 => exists h1,
    calls s1 = calls s ++ [register_call (Protect.callback self) altitude (WduObCallback.mk h (ops ++ registrations self))] /\
    static_at self (if r is Ok _ then true else b) d (WduObCallback.mk h1 (ops ++ registrations self)) s1).
Proof.
  intros [[Hs0 Hs] [Hd0 Hd] [Hc0 Hc] Ha] Hall. pose proof Ha as Ha'.
  rewrite !NoDup_cons, !not_elem_of_cons in Ha. destruct_and!.
  unfold Protect.register_callback, WduObCallback.push_op_registration.
  wp_step. eapply wp_update; [done..|]. wp_step. eapply wp_update; [done|map_at|]. unfold try_. wp_step.
  eapply wp_mono.
  - eapply (register_calls _ _ (WduObCallback.mk h (ops ++ registrations self))); [done| | |].
    + simpl. rewrite lookup_insert_eq. by rewrite <- app_assoc.
    + simpl. by destruct ops.
    + simpl. apply Forall_app. split; [done|]. repeat constructor; done.
  - intros r s1 (status & out & _ & T & Hm & ->). simpl in Hm.
    assert (C : calls s1 = calls s ++ [register_call (Protect.callback self) altitude (WduObCallback.mk h (ops ++ registrations self))]).
    { unfold calls. by rewrite T, !trace_set_mem, fmap_app. }
    destruct (status =? STATUS_SUCCESS).
    + wp_step. eapply wp_update; [done|rewrite Hm; map_at|]. apply wp_ret. eexists. split; [by rewrite calls_set_mem|].
      split; try done; (split; [done|]); simpl; rewrite ?Hm; map_at.
    + apply wp_ret. eexists. split; [done|]. split; try done; (split; [done|]); simpl; rewrite ?Hm; map_at.
Qed.

Lemma wp_delete_protect_name_cb self d h ops s (Q : result unit ObCallbackError -> world U -> Prop) :
  static_at self true d (WduObCallback.mk h ops) s -> h <> null ->
  (forall s', static_at self false d (WduObCallback.mk null ops) s' ->
     calls s' = calls s ++ [ObUnRegisterCallbacks h] ->
     (forall p, p <> self -> p <> Protect.callback self -> w_mem s' !! p = w_mem s !! p) -> Q (Ok tt) s') ->
  wp (Protect.delete_protect_name_cb self) s Q.
Proof.
  intros [[Hs0 Hs] [Hd0 Hd] [Hc0 Hc] Ha] Hh HQ. pose proof Ha as Ha'.
  rewrite !NoDup_cons, !not_elem_of_cons in Ha. destruct_and!.
  unfold Protect.delete_protect_name_cb, try_. wp_step.
  eapply wp_mono; [by apply (unregister_done _ h ops)|]. intros r s1 (-> & C & Hm).
  wp_step. eapply wp_update; [done|rewrite Hm; map_at|]. apply wp_ret. apply HQ.
  - split; try done; (split; [done|]); rewrite mem_set_mem, Hm; map_at.
  - by rewrite calls_set_mem.
  - intros p ? ?. rewrite mem_set_mem, Hm. map_at.
Qed.

(** C27: the callbacks that were registered stay in the list after
    [delete_protect_name_cb], and [register_callback] - the step of
    [protect_name_cb] that registers - adds them to it a second time: the
    kernel gets its handle back, and is then given four registrations for the
    two there were.  From then on the first operation on a handle to the
    protected process panics: both registrations of the driver's callback
    run, and the second finds the context of the first.  (That
    [protect_name_cb] does not get as far as [register_callback], unless the
    copy of the name is mended, is [protect_name_overruns].) *)
Theorem protecting_again_panics self d h s :
  static_at self true d (WduObCallback.mk h (registrations self)) s -> h <> null ->
  wp (Protect.delete_protect_name_cb self ;; Protect.register_callback true self) s (fun r s1 =>
    calls s1 = calls s ++ [ObUnRegisterCallbacks h;
      ObRegisterCallbacks 0x100 4 (WduUnicodeStr.as_unicode_string altitude) (Protect.callback self)
        (native <$> registrations self ++ registrations self)] /\
    exists h1, static_at self (if r is Ok _ then true else false) d
      (WduObCallback.mk h1 (registrations self ++ registrations self)) s1 /\
    forall info i p, asked info i p s1 -> untouched i p ->
      info <> Protect.protect_data self -> PreParameters i <> Protect.protect_data self ->
      kind_of (PreObjectType i) = ObjectType.Process ->
      ProtectData.target_process d = Some (WduProcess.wrap (PreObject i)) ->
      (forall k, fst (kstep IoGetCurrentProcess k) <> PreObject i) ->
      exists msg s2, WduObCallback.pre_op_internal (Protect.callback self) info s1 = Panicked msg s2).
Proof.
  intros Hst Hh. apply wp_bind. eapply wp_delete_protect_name_cb; [done..|]. intros s1 Hst1 C1 _.
  eapply wp_mono; [eapply wp_register_callback; [done|repeat constructor; done]|].
  intros r s2 (h1 & C2 & Hst2). split; [rewrite C2, C1, <- app_assoc; done|]. exists h1. split; [done|]. destruct Hst2 as [_ [Hd0 Hd] [Hc0 Hc] _].
  intros. by eapply registered_twice_panics.
Qed.

Variable try_non_paged : bool.

(** The driver cannot protect a process by name.  Without memory for a copy
    of the name the request fails; with it, the copy is written past the end
    of its pool block, and this before any callback is registered. *)
Theorem protect_name_overruns reserved self req inp s :
  let buffer := WduDeviceControl.input_buffer req in
  buffer <> null -> w_mem s !! buffer = Some (inj inp) ->
  Z.of_nat (length (name inp)) = NAME_SIZE + 1 ->
  let p := kresp (ExAllocatePool2 (PoolFlags.as_u64 (WduUnicodeString.POOL_TYPE try_non_paged)) 402
                    WduUnicodeString.STRING_ALLOC_TAG) s in
  exists s', Protect.protect_name_cb try_non_paged reserved self req s =
    if p =? 0 then Done (Err UnicodeError) s' else Ub (OutOfBounds p) s'.
Proof.
  intros buffer Hb Hi Hlen p. unfold Protect.protect_name_cb. fold buffer.
  rewrite not_null by done. unfold WduUnicodeString.try_from_slice, try_.
  edestruct (create_eq (buffer + name_offset) (name inp) (WduUnicodeString.POOL_TYPE try_non_paged) s)
    as (s' & E & _). { destruct try_non_paged; [by right|by left]. }
  rewrite Hlen in E. change (WduUnicodeString.to_unicode_len (NAME_SIZE + 1)) with 402 in E. fold p in E.
  exists s'. rewrite (bind_done _ _ _ _ _ (load_at _ _ _ Hb Hi)). cbv beta.
  destruct (p =? 0); [by rewrite (bind_done _ _ _ _ _ E)|by apply bind_ub].
Qed.

(** What the documentation of [lock_api] says: the mutex calls the methods of
    the raw mutex, whose parameter is somewhere on the stack. *)
Class LockApiLaws (LA : LockApi U) (lock_slot unlock_slot : ptr) : Prop := {
  mutex_lock_law m : mutex_lock m = WduGuardedMutex.lock lock_slot (raw m);
  guard_drop_law m : guard_drop m = WduGuardedMutex.unlock unlock_slot (raw m)
}.

Context {LA : LockApi U} {lock_slot unlock_slot : ptr} {LL : LockApiLaws LA lock_slot unlock_slot}.

(** Nor does the process notification get to look at a name.  The end of a
    process is passed over.  For a new process whose image is named, without
    memory for a copy of the name nothing happens; with it, the copy is
    written past the end of its pool block, before any flag is read. *)
Theorem process_notify_overruns `{!Storable U PS_CREATE_NOTIFY_INFO} to_lowercase (process : WduProcess) pid info (i : PS_CREATE_NOTIFY_INFO) u b (protect reject : bool) s :
  (info <> null -> w_mem s !! info = Some (inj i)) -> native_string (ImageFileName i) u b s ->
  PROTECT_NAME_FLAG <> 0 -> w_mem s !! PROTECT_NAME_FLAG = Some (inj protect) ->
  REJECT_NAME_FLAG <> 0 -> w_mem s !! REJECT_NAME_FLAG = Some (inj reject) ->
  let q := kresp (string_pool_call try_non_paged (2 * (MaximumLength u / 2))) s in
  exists s', process_notify_cb to_lowercase try_non_paged process pid info s =
    (if (info =? null) || (q =? 0) then Done tt s' else Ub (OutOfBounds q) s') /\
    (info = null -> s' = s) /\ (q = 0 -> w_mem s' = w_mem s).
Proof.
  intros Hi Hn Hp0 Hp Hr0 Hr q. unfold process_notify_cb, WduPsCreateNotifyInfo.is_exit.
  destruct (Z.eqb_spec info null) as [|Hinfo]; [by exists s|]. specialize (Hi Hinfo). simpl.
  destruct (to_owned_overruns try_non_paged _ _ _ _ Hn) as (s1 & Hc & Hs1). fold q in Hc, Hs1.
  exists s1. split; [|by split].
  rewrite (bind_done _ _ s (seen u b) s).
  2: { unfold WduPsCreateNotifyInfo.image_filename, WduPsCreateNotifyInfo.get.
       erewrite bind_done by by apply load_at. by apply from_ptr_done. }
  destruct (Z.eqb_spec q 0) as [Eq|Eq]; [|by apply bind_ub]. specialize (Hs1 Eq).
  erewrite bind_done by exact Hc. cbv zeta beta iota.
  erewrite bind_done by (apply load_at; [done|by rewrite Hs1]). rewrite andb_false_r.
  erewrite bind_done by done. erewrite bind_done by (apply load_at; [done|by rewrite Hs1]).
  by rewrite andb_false_r.
Qed.

Lemma wp_with_protect {A} (body : ptr -> M (world U) A) s (Q : A -> world U -> Prop) :
  (forall s1, w_mem s1 = w_mem s ->
     calls s1 = calls s ++ [KeAcquireGuardedMutex (address_of_self lock_slot (raw PROTECT))] ->
     wp (body (data PROTECT)) s1 (fun r s2 => forall s3, w_mem s3 = w_mem s2 ->
       calls s3 = calls s2 ++ [KeReleaseGuardedMutex (address_of_self unlock_slot (raw PROTECT))] ->
       Q r s3)) ->
  wp (with_protect body) s Q.
Proof.
  intros H. unfold with_protect. rewrite mutex_lock_law, guard_drop_law. wp_step.
  unfold WduGuardedMutex.lock, WduGuardedMutex.acquire. wp_step. wp_step.
  eapply wp_mono; [apply H; by autorewrite with wdu|]. intros r s2 HQ.
  unfold WduGuardedMutex.unlock, WduGuardedMutex.release. wp_step. wp_step. apply wp_ret.
  apply HQ; by autorewrite with wdu.
Qed.

(** C28: the driver's control requests, but for protecting a name while nothing
    is protected.  Each is completed once, with the status that is returned:
    a foreign code is an invalid request and touches nothing; a name that is
    too short is refused before the mutex is taken; protecting while
    something is protected does nothing but take the mutex and give it back;
    unprotecting gives the kernel its handle back, while the mutex is held,
    if there is one, and afterwards nothing is registered. *)
Theorem obcallback_control dev reserved (w : WduIrp) (i : IRP) installed d h ops code in_len out_len buf s :
  WduIrp.irp w <> 0 -> w_mem s !! WduIrp.irp w = Some (inj i) ->
  static_at (data PROTECT) installed d (WduObCallback.mk h ops) s -> (installed = true -> h <> null) ->
  NoDup [WduIrp.irp w; data PROTECT; Protect.protect_data (data PROTECT); Protect.callback (data PROTECT)] ->
  let req := WduDeviceControl.mk code out_len in_len (Buffered buf) in
  let took := KeAcquireGuardedMutex (address_of_self lock_slot (raw PROTECT)) in
  let gave := KeReleaseGuardedMutex (address_of_self unlock_slot (raw PROTECT)) in
  let ends status cs installed' h' := wp (device_control try_non_paged reserved dev w req) s (fun r s' =>
    r.2 = status /\ calls s' = calls s ++ cs ++ [IofCompleteRequest (WduIrp.irp w) 0 status 0] /\
    static_at (data PROTECT) installed' d (WduObCallback.mk h' ops) s') in
  (code <> TD_IOCTL_PROTECT_NAME_CALLBACK -> code <> TD_IOCTL_UNPROTECT_CALLBACK ->
     ends STATUS_INVALID_DEVICE_REQUEST [] installed h) /\
  (code = TD_IOCTL_PROTECT_NAME_CALLBACK -> in_len < size_of_ProtectNameInput ->
     ends STATUS_UNSUCCESSFUL [] installed h) /\
  (code = TD_IOCTL_PROTECT_NAME_CALLBACK -> size_of_ProtectNameInput <= in_len -> installed = true ->
     ends STATUS_SUCCESS [took; gave] true h) /\
  (code = TD_IOCTL_UNPROTECT_CALLBACK ->
     ends STATUS_SUCCESS (if installed then [took; ObUnRegisterCallbacks h; gave] else [took; gave])
       false (if installed then null else h)).
Proof.
  intros Hw Hi Hst Hh Ha req took gave ends. rewrite !NoDup_cons, !not_elem_of_cons in Ha. destruct_and!.
  assert (Hfin : forall status b h' cs s1, static_at (data PROTECT) b d (WduObCallback.mk h' ops) s1 ->
    w_mem s1 !! WduIrp.irp w = Some (inj i) -> calls s1 = calls s ++ cs ->
    wp (WduIrp.complete w (WduIoStatus.set_status WduIoStatus.new status) ;; mret (w, status)) s1
      (fun r s' => r.2 = status /\
        calls s' = calls s ++ cs ++ [IofCompleteRequest (WduIrp.irp w) 0 status 0] /\
        static_at (data PROTECT) b d (WduObCallback.mk h' ops) s')).
  { intros status b h' cs s1 [[? ?] [? ?] [? ?] ?] Hw1 C. apply wp_bind. eapply wp_complete; [done..|].
    intros s2 M2 C2. apply wp_ret. split; [done|]. split; [by rewrite C2, C, <- app_assoc|].
    split; try done; (split; [done|]); rewrite M2; map_at. }
  unfold ends, device_control. simpl. split_and!.
  - intros Hn1 Hn2. rewrite (proj2 (Z.eqb_neq _ _) Hn1), (proj2 (Z.eqb_neq _ _) Hn2). apply wp_bind, wp_ret.
    eapply (Hfin _ _ _ []); [done..|by rewrite app_nil_r].
  - intros -> Hl. rewrite Z.eqb_refl. unfold protect_name. simpl. rewrite (proj2 (Z.ltb_lt _ _) Hl).
    apply wp_bind, wp_bind, wp_ret, wp_ret. eapply (Hfin _ _ _ []); [done..|by rewrite app_nil_r].
  - intros -> Hl ->. rewrite Z.eqb_refl. unfold protect_name, try_. simpl.
    rewrite (proj2 (Z.ltb_ge _ _) Hl). do 3 apply wp_bind. apply wp_with_protect. intros s1 M1 C1.
    unfold Protect.is_cb_installed. apply wp_bind, wp_bind. destruct Hst as [[Hs0 Hs] Hd Hc Ha2].
    eapply wp_load; [done|by rewrite M1|]. do 2 apply wp_ret. intros s3 M3 C3. do 2 apply wp_ret.
    eapply (Hfin STATUS_SUCCESS _ _ [took; gave]); [split; rewrite ?M3, ?M1; done|by rewrite M3, M1|by rewrite C3, C1, <- app_assoc].
  - intros ->. simpl. unfold unprotect, try_. do 3 apply wp_bind. apply wp_with_protect. intros s1 M1 C1.
    unfold Protect.is_cb_installed. apply wp_bind, wp_bind. pose proof Hst as [[Hs0 Hs] Hd Hc Ha2].
    eapply wp_load; [done|by rewrite M1|]. apply wp_ret. simpl. destruct installed.
    + eapply wp_delete_protect_name_cb; [split; rewrite ?M1; done|by apply Hh|].
      intros s2 [] C2 F2 s3 M3 C3. do 2 apply wp_ret.
      eapply (Hfin STATUS_SUCCESS _ _ [took; ObUnRegisterCallbacks h; gave]); [split; rewrite ?M3; done|by rewrite M3, F2, M1 by congruence|].
      by rewrite C3, C2, C1, <- !app_assoc.
    + apply wp_ret. intros s3 M3 C3. do 2 apply wp_ret.
      eapply (Hfin STATUS_SUCCESS _ _ [took; gave]); [split; rewrite ?M3, ?M1; done|by rewrite M3, M1|by rewrite C3, C1, <- app_assoc].
Qed.
End protect.

(** ** Instances *)

Module ObcDemo.
#[export] Instance statics : NtStatics := Build_NtStatics 1 2 3 0x10 0x20 0x30 7 8.
#[export] Instance linked : Linked :=
  {| size_of_WduDevice := 24; size_of_WduDriver := 72; code_addr s := 0x7000 |}.
#[export] Instance layout : ObcLayout :=
  {| PROTECT := 0x1000; PROCESS_CB := 0x1500; PROTECT_NAME_FLAG := 0x1600; REJECT_NAME_FLAG := 0x1700;
     raw_slot := 0x7100; protect_data_offset := 0x100; callback_offset := 0x200;
     device_name_at := 0x6000; win32_name_at := 0x6100; global_name_at := 0x6200; altitude_at := 0x6300 |}.
(** The caller is the process at 0x40; registering succeeds. *)
Definition answer (c : kcall) : kret c :=
  match c as c return kret c with
  | IoGetCurrentProcess => 0x40
  | ObRegisterCallbacks _ _ _ _ _ => (STATUS_SUCCESS, Some 0x77)
  | ExAllocatePool2 _ _ _ => 0x9000
  | c => default_answer c
  end.
Definition kernel : Kernel := answering answer.
Abbreviation cells := (ProtectData + (WduObCallback + (CallContext + (OB_PRE_INFORMATION +
  (OB_PRE_PARAMETERS + (OB_POST_INFORMATION + (Protect + (units + (UNICODE_STRING + (bool +
  (ProtectNameInput + (IRP + (PS_CREATE_NOTIFY_INFO + unit)))))))))))))%type.
#[export] Instance lock_api : @LockApi kernel cells :=
  {| raw p := p; data p := p + 0x10; mutex_lock p := WduGuardedMutex.lock 0x7200 p;
     guard_drop p := WduGuardedMutex.unlock 0x7300 p |}.
Lemma lock_api_laws : @LockApiLaws kernel cells lock_api 0x7200 0x7300.
Proof. by split. Qed.

(** The static is at 0x1010; the process at 0x50 is protected. *)
Definition protected : ProtectData := ProtectData.mk (Some (WduProcess.wrap 0x50)) (Some 4) WduUnicodeString.default.
Definition registered : WduObCallback := WduObCallback.mk 0x66 (registrations 0x1010).
Definition info : OB_PRE_INFORMATION := mkObPre OB_OPERATION_HANDLE_CREATE 0 0x50 0x10 null 0x3000.
Definition params : OB_PRE_PARAMETERS := mkObPreParams 0x1FFFFF 0x1FFFFF.
Definition report : OB_POST_INFORMATION := mkObPost OB_OPERATION_HANDLE_CREATE 0 0x50 0x10 0x5000 STATUS_SUCCESS null.
Definition context : CallContext := mkCallContext OB_OPERATION_HANDLE_CREATE (Process (WduProcess.wrap 0x50)).
Definition input : ProtectNameInput := mkProtectNameInput PROTECT_NAME_PROTECT (replicate 201 97).
Definition irp : IRP := mkIRP 0 0 1 1 0x200 0x300 0 0 0x400 0 0 1 0 None.
Definition request : WduIrp := WduIrp.mk 0x100 MajorFunction.DeviceControl None.
Definition start : @world kernel cells := world_of answer
  {[ 0x1010 := inj (Protect.mk true); 0x1110 := inj protected; 0x1210 := inj registered;
     0x2000 := inj info; 0x3000 := inj params; 0x4000 := inj report; 0x5000 := inj context;
     0x100 := inj irp; 0x400 := inj input ]}.
Definition asks (code len : Z) : WduDeviceControl := WduDeviceControl.mk code 0 len (Buffered 0x400).

Lemma kernel_asks : asked 0x2000 info params start.
Proof. split; first [split; [discriminate|vm_compute; reflexivity] | discriminate | by left]. Qed.
Lemma kernel_asks_fresh : untouched info params.
Proof. done. Qed.
Lemma kernel_reports : reported 0x4000 report start.
Proof.
  split; [split; [discriminate|vm_compute; reflexivity]|by left|]. intros _. split; [discriminate|].
  exists (Process (WduProcess.wrap 0x50)). vm_compute. reflexivity.
Qed.
Lemma in_place : static_at 0x1010 true protected registered start.
Proof.
  split; try (split; [discriminate|vm_compute; reflexivity]).
  apply (bool_decide_unpack _). vm_compute. exact I.
Qed.
End ObcDemo.
#[local] Existing Instance ObcDemo.statics.
#[local] Existing Instance ObcDemo.linked.
#[local] Existing Instance ObcDemo.layout.
#[local] Existing Instance ObcDemo.lock_api.
#[local] Existing Instance obc_client.

Lemma protected_handles_lose_terminate_witness :
  wp (WduObCallback.pre_op_internal (Protect.callback 0x1010) 0x2000) ObcDemo.start (fun r s' =>
    r = OB_PREOP_SUCCESS /\ exists a, Z.testbit a 0 = false /\
      w_mem s' !! 0x3000 = Some (inj (mkObPreParams a 0x1FFFFF))).
Proof.
  eapply wp_mono.
  - refine (protected_handles_lose_terminate 0x1010 0x66 ObcDemo.protected 0x2000 ObcDemo.info ObcDemo.params
      ObcDemo.start _ _ _ _ ObcDemo.kernel_asks ObcDemo.kernel_asks_fresh);
      first [discriminate|vm_compute; reflexivity].
  - intros r s' [Hr Ha]. split; [exact Hr|].
    assert (E : protects ObcDemo.protected (kind_of (PreObjectType ObcDemo.info)) (PreObject ObcDemo.info)
                  ObcDemo.start = Some (Process (WduProcess.wrap 0x50))) by (vm_compute; reflexivity).
    rewrite E in Ha. destruct Ha as (q & a & Hq & Hf & Hbits & ->). exists a.
    split; [exact (Hbits 0 ltac:(discriminate))|].
    rewrite lookup_insert_ne by discriminate.
    rewrite lookup_insert_ne by (intros ->; vm_compute in Hf; discriminate Hf). apply lookup_insert_eq.
Defined.

Lemma call_context_given_back_witness :
  wp (WduObCallback.post_op_internal (Protect.callback 0x1010) 0x4000) ObcDemo.start (fun _ s' =>
    w_mem s' = delete 0x5000 (w_mem ObcDemo.start)).
Proof.
  refine (call_context_given_back 0x1010 0x66 0x4000 ObcDemo.report ObcDemo.start _ _ _
    ObcDemo.kernel_reports _); first [discriminate|left; reflexivity|vm_compute; reflexivity].
Defined.

Lemma protecting_again_panics_witness :
  wp (Protect.delete_protect_name_cb 0x1010 ;; Protect.register_callback true 0x1010) ObcDemo.start
    (fun _ s1 => exists msg s2, WduObCallback.pre_op_internal (Protect.callback 0x1010) 0x2000 s1 = Panicked msg s2).
Proof.
  pose proof (protecting_again_panics 0x1010 ObcDemo.protected 0x66 ObcDemo.start ObcDemo.in_place
    ltac:(discriminate)) as H.
  assert (M : wp (Protect.delete_protect_name_cb 0x1010 ;; Protect.register_callback true 0x1010)
    ObcDemo.start (fun _ s1 => w_mem s1 !! 0x2000 = Some (inj ObcDemo.info) /\
                               w_mem s1 !! 0x3000 = Some (inj ObcDemo.params))).
  { vm_compute. split; reflexivity. }
  eapply wp_mono; [exact (wp_and _ _ _ _ H M)|]. intros r s1 [(_ & h1 & _ & Hp) [M1 M2]].
  refine (Hp 0x2000 ObcDemo.info ObcDemo.params _ ObcDemo.kernel_asks_fresh _ _ eq_refl eq_refl _).
  - split; [split; [discriminate|exact M1]|split; [discriminate|exact M2]|discriminate|by left].
  - discriminate.
  - discriminate.
  - intros k. discriminate.
Defined.

Lemma protect_name_overruns_witness :
  exists s', Protect.protect_name_cb true true 0x1010 (ObcDemo.asks TD_IOCTL_PROTECT_NAME_CALLBACK 408)
               ObcDemo.start = Ub (OutOfBounds 0x9000) s'.
Proof.
  apply (protect_name_overruns true true 0x1010 (ObcDemo.asks TD_IOCTL_PROTECT_NAME_CALLBACK 408)
    ObcDemo.input ObcDemo.start); [discriminate|vm_compute; reflexivity|vm_compute; reflexivity].
Defined.

Lemma obcallback_control_witness :
  wp (device_control true true (WduDevice.wrap_device 0x900) ObcDemo.request
        (ObcDemo.asks TD_IOCTL_UNPROTECT_CALLBACK 0)) ObcDemo.start (fun r s' =>
    r.2 = STATUS_SUCCESS /\ calls s' = [KeAcquireGuardedMutex 0x7200; ObUnRegisterCallbacks 0x66;
      KeReleaseGuardedMutex 0x7300; IofCompleteRequest 0x100 0 STATUS_SUCCESS 0]).
Proof.
  destruct (obcallback_control (LL := ObcDemo.lock_api_laws) true (WduDevice.wrap_device 0x900) true
    ObcDemo.request ObcDemo.irp true ObcDemo.protected 0x66 (registrations 0x1010)
    TD_IOCTL_UNPROTECT_CALLBACK 0 0 0x400 ObcDemo.start) as (_ & _ & _ & H);
    [discriminate|vm_compute; reflexivity|apply ObcDemo.in_place|discriminate|
     apply (bool_decide_unpack _); vm_compute; exact I|].
  eapply wp_mono; [exact (H eq_refl)|]. intros r s' (Hr & C & _). split; [exact Hr|exact C].
Defined.
