(* ===== verification/ObCallbackSystem.v ===== *)
(** * ObCallbackSystem: the obcallback driver among many threads

    While the driver's callbacks are registered, threads open and duplicate
    handles.  Each operation is two calls of the kernel to the driver, before
    and after; the operations of the threads overlap in any order, and
    processes that come under the protection change what is protected in
    between.  The calls go through the crate's [pre_op_internal] and
    [post_op_internal] to the callbacks of [examples/obcallback].

    The system starts when the callbacks were registered for the first time,
    with a name to protect, and lasts until they are unregistered: whether the
    driver gets there is another matter ([protect_name_overruns]), and so is
    what a second registration does ([protecting_again_panics]).  The two calls
    of an operation are steps of their own, and so is the process callback,
    [process_notify_cb], as a whole, whenever it comes to its end.  As it is it
    never gets to the name of a process ([process_notify_overruns]); so that
    what is protected can change at all, [check_process_match] - what the
    callback does with a name once it has a copy of it - is a step as well. The
    mutex around it, which the handle callbacks do not take, is not part of
    that step. *)

From stdpp Require Import relations.
From S2P Require Import Prelude Nt World UnicodeStr Crate UnicodeString StringLife Ob Process ObCallback.
Import WduUnicodeString (WduUnicodeString).
Import ProtectData (ProtectData).
Import ObjectType (ObjectType).
Import WduObCallback (WduObCallback).
Import WduProcess (WduProcess).
#[local] Existing Instance obc_client.

Section system.
Context {KN : Kernel} {NS : NtStatics} {LK : Linked} {OL : ObcLayout} {U : Type}.
Context `{!Storable U units, !Storable U UNICODE_STRING}.
Context `{!Storable U ProtectData, !Storable U WduObCallback, !Storable U CallContext}.
Context `{!Storable U OB_PRE_INFORMATION, !Storable U OB_PRE_PARAMETERS, !Storable U OB_POST_INFORMATION}.
(** [str::to_lowercase]; the static's data; the kernel's handle of the
    registration. *)
Context `{!Storable U bool, !Storable U Protect, !Storable U PS_CREATE_NOTIFY_INFO} {LA : LockApi U}.
Context (to_lowercase : list Z -> list Z) (try_non_paged : bool) (self h : ptr).
Implicit Types (s : world U) (m base : gmap ptr U).

(** ** The kernel's side of a handle operation *)

(** Where the kernel keeps what it tells a callback, while it runs. *)
Record places : Type := mkPlaces { at_info : ptr; at_params : ptr }.
Record free_places (pl : places) m : Prop := {
  free_info : at_info pl <> 0 /\ m !! at_info pl = None;
  free_params : at_params pl <> 0 /\ m !! at_params pl = None;
  free_apart : at_params pl <> at_info pl
}.

(** What is asked for: an operation on an object of a type, for a user's or a
    kernel's handle with some access. *)
Record asking : Type := mkAsking {
  as_kind : Z; as_flags : Z; as_type : ptr; as_object : ptr; as_access : Z
}.
Record asks_well (a : asking) : Prop := {
  aw_kind : as_kind a = OB_OPERATION_HANDLE_CREATE \/ as_kind a = OB_OPERATION_HANDLE_DUPLICATE;
  aw_type : kind_of (as_type a) = ObjectType.Process \/ kind_of (as_type a) = ObjectType.Thread;
  aw_access : 0 <= as_access a < 2 ^ 32
}.

Definition told_before pl a : OB_PRE_INFORMATION :=
  mkObPre (as_kind a) (as_flags a) (as_object a) (as_type a) null (at_params pl).
Definition told_after a (context params : ptr) (status : NTSTATUS) : OB_POST_INFORMATION :=
  mkObPost (as_kind a) (as_flags a) (as_object a) (as_type a) context status params.

(** Before the operation: the driver's context, and the access it leaves. *)
Definition kernel_pre pl a : M (world U) (ptr * Z) :=
  modify (fun s => set_mem (<[at_info pl := inj (told_before pl a)]>
    (<[at_params pl := inj (mkObPreParams (as_access a) (as_access a))]> (w_mem s))) s) ;;
  WduObCallback.pre_op_internal (Protect.callback self) (at_info pl) ;;
  i ← load (T := OB_PRE_INFORMATION) (at_info pl);
  p ← load (T := OB_PRE_PARAMETERS) (at_params pl);
  modify (fun s => set_mem (delete (at_info pl) (delete (at_params pl) (w_mem s))) s) ;;
  mret (PreCallContext i, ObDesiredAccess p).

(** After it. *)
Definition kernel_post pl a (context : ptr) (status : NTSTATUS) : M (world U) unit :=
  modify (fun s => set_mem (<[at_info pl := inj (told_after a context (at_params pl) status)]> (w_mem s)) s) ;;
  WduObCallback.post_op_internal (Protect.callback self) (at_info pl) ;;
  modify (fun s => set_mem (delete (at_info pl) (w_mem s)) s).

(** The driver's static while the callbacks are registered, with a name. *)
Record registered_in (d : ProtectData) s : Prop := {
  rg_callback : Protect.callback self <> 0 /\
    w_mem s !! Protect.callback self = Some (inj (WduObCallback.mk h (registrations self)));
  rg_data : Protect.protect_data self <> 0 /\ w_mem s !! Protect.protect_data self = Some (inj d);
  rg_apart : Protect.protect_data self <> Protect.callback self;
  rg_name : well_formed (ProtectData.name d) s;
  rg_name_apart : Buffer (WduUnicodeString.string (ProtectData.name d)) <> Protect.protect_data self
}.

(** The bits that are left of the access. *)
Definition allowed (a : asking) (protected : bool) (n : Z) : bool :=
  Z.testbit (as_access a) n &&
  (negb protected || (Z.land (as_flags a) 1 =? 1) || negb (n =? 0)).

Lemma wp_kernel_pre pl a d s :
  registered_in d s -> free_places pl (w_mem s) -> asks_well a ->
  wp (kernel_pre pl a) s (fun r s' =>
    match protects d (kind_of (as_type a)) (as_object a) s with
    | None => r = (null, as_access a) /\ w_mem s' = w_mem s
    | Some o => r.1 <> 0 /\ w_mem s !! r.1 = None /\
        (forall n, 0 <= n -> Z.testbit r.2 n = allowed a true n) /\
        w_mem s' = <[r.1 := inj (mkCallContext (as_kind a) o)]> (w_mem s)
    end).
Proof.
  intros [[Hc0 Hc] [Hd0 Hd] _ _ _] [[Hi0 Hi] [Hp0 Hp] Hne] [Hk _ Hacc]. unfold kernel_pre. do 2 wp_step.
  set (s0 := set_mem _ s). wp_step.
  assert (Hask : asked (at_info pl) (told_before pl a) (mkObPreParams (as_access a) (as_access a)) s0).
  { split; try done; (split; [done|]); simpl; map_at. }
  eapply wp_mono; [eapply (wp_pre_op_internal self h d);
    [done|simpl; rewrite !lookup_insert_ne by congruence; done|done|
     simpl; rewrite !lookup_insert_ne by congruence; done|exact Hask|by split]|].
  intros r s1 [_ Ha]. simpl in Ha. change (protects d (kind_of (as_type a)) (as_object a) s0)
    with (protects d (kind_of (as_type a)) (as_object a) s) in Ha.
  destruct (protects _ _ _ s) as [o|]; unfold answered in Ha.
  - destruct Ha as (q & access & Hq0 & Hq & Hbits & Hm). simpl in Hq, Hm.
    apply lookup_insert_None in Hq as [Hq Hqi]. apply lookup_insert_None in Hq as [Hq Hqp].
    wp_step. eapply wp_load; [done|rewrite Hm; map_at|]. wp_step.
    eapply wp_load; [done|rewrite Hm; map_at|]. do 2 wp_step. wp_step. simpl.
    split; [done|]. split; [done|]. split; [intros n Hn; by rewrite Hbits|].
    rewrite Hm. apply map_eq. intros x.
    destruct (decide (x = at_info pl)) as [->|Hxi]; [rewrite lookup_delete_eq; by rewrite lookup_insert_ne|].
    rewrite lookup_delete_ne by done.
    destruct (decide (x = at_params pl)) as [->|Hxp]; [rewrite lookup_delete_eq; by rewrite lookup_insert_ne|].
    rewrite lookup_delete_ne, lookup_insert_ne by done.
    destruct (decide (x = q)) as [->|Hxq]; [by rewrite !lookup_insert_eq|].
    by rewrite !lookup_insert_ne by done.
  - wp_step. eapply wp_load; [done|rewrite Ha; simpl; map_at|]. wp_step.
    eapply wp_load; [done|rewrite Ha; simpl; map_at|]. do 2 wp_step. wp_step. simpl. split; [done|].
    rewrite Ha. simpl. rewrite delete_insert_ne, !delete_insert_eq by done.
    rewrite (delete_id (w_mem s) (at_params pl)) by done. by apply delete_id.
Qed.

Lemma wp_kernel_post pl a d context status s :
  registered_in d s -> free_places pl (w_mem s) -> asks_well a ->
  (context <> null -> exists o, w_mem s !! context = Some (inj (mkCallContext (as_kind a) o))) ->
  wp (kernel_post pl a context status) s (fun _ s' => w_mem s' = without_context context (w_mem s)).
Proof.
  intros [[Hc0 Hc] [Hd0 Hd] _ _ _] [[Hi0 Hi] _ _] [Hk Ht _] Hctx. unfold kernel_post. do 2 wp_step.
  set (s0 := set_mem _ s). wp_step.
  assert (Hne : context <> null -> context <> at_info pl) by (intros Hn; destruct (Hctx Hn); congruence).
  assert (Hrep : reported (at_info pl) (told_after a context (at_params pl) status) s0).
  { split; [split; [done|simpl; map_at]|done|]. simpl. intros Hn. split; [by apply Hne|].
    destruct (Hctx Hn) as [o Ho]. exists o. rewrite lookup_insert_ne by (by apply not_eq_sym, Hne). done. }
  eapply wp_mono; [eapply (wp_post_op_internal self h); [done|simpl; by rewrite lookup_insert_ne by congruence|done..]|].
  intros [] s1 Hm. wp_step. rewrite mem_set_mem, Hm. simpl. unfold without_context.
  destruct (Z.eqb_spec context null) as [|Hn]; [by rewrite delete_insert_eq, delete_id|].
  rewrite delete_delete, delete_insert_eq. f_equal. by apply delete_id.
Qed.

Lemma wp_contains str needle ci s :
  well_formed str s -> well_formed needle s ->
  wp (WduUnicodeString.contains to_lowercase str needle ci) s (fun _ s' => w_mem s' = w_mem s).
Proof.
  intros Hs Hn. pose proof (wp_reading (Contains to_lowercase needle ci) str s
    (fun _ s' => w_mem s' = w_mem s) Hs Hn (fun _ E => E)) as Hr.
  unfold run_reading, wp, mbind, M_bind in *. by destruct (WduUnicodeString.contains _ _ _ _ _).
Qed.

(** Another process is noticed: what is protected may change. *)
Lemma wp_notice d process pid filename s :
  registered_in d s -> well_formed filename s ->
  wp (Protect.check_process_match to_lowercase self process pid filename) s (fun status s' =>
    (status = STATUS_NOT_FOUND /\ w_mem s' = w_mem s) \/
    (status = STATUS_SUCCESS /\
     w_mem s' = <[Protect.protect_data self :=
       inj (ProtectData.mk (Some process) (Some pid) (ProtectData.name d))]> (w_mem s))).
Proof.
  intros [_ [Hd0 Hd] _ Hname _] Hf. unfold Protect.check_process_match. wp_step. eapply wp_load; [done..|]. wp_step.
  eapply wp_mono; [by apply wp_contains|]. intros b s1 M. destruct b; simpl; [|by wp_step; left].
  assert (Hd1 : w_mem s1 !! Protect.protect_data self = Some (inj d)) by by rewrite M.
  wp_step. eapply wp_update; [done..|]. wp_step. eapply wp_update; [done|map_at|]. wp_step. right.
  split; [done|]. simpl. by rewrite M, insert_insert_eq.
Qed.

(** What the kernel tells of a process: its end, or that it was created and
    the name of its image. *)
Record process_told (info : ptr) (i : PS_CREATE_NOTIFY_INFO) (protect reject : bool) s : Prop := {
  told_info : info <> null -> w_mem s !! info = Some (inj i);
  told_name : exists u b, native_string (ImageFileName i) u b s;
  told_protect : PROTECT_NAME_FLAG <> 0 /\ w_mem s !! PROTECT_NAME_FLAG = Some (inj protect);
  told_reject : REJECT_NAME_FLAG <> 0 /\ w_mem s !! REJECT_NAME_FLAG = Some (inj reject)
}.

(** The process callback passes over the end of a process, and a new process
    if there is no memory for a copy of its name; else it overruns the copy. *)
Lemma process_callback process pid info i protect reject s :
  process_told info i protect reject s ->
  exists s', w_mem s' = w_mem s /\ process_notify_cb to_lowercase try_non_paged process pid info s = Done tt s' \/
    info <> null /\ exists q, q <> 0 /\
      process_notify_cb to_lowercase try_non_paged process pid info s = Ub (OutOfBounds q) s'.
Proof.
  intros [Hi (u & b & Hn) [Hp0 Hp] [Hr0 Hr]].
  destruct (process_notify_overruns try_non_paged to_lowercase process pid info i u b protect reject s Hi Hn Hp0 Hp Hr0 Hr)
    as (s' & E & E1 & E2). exists s'.
  destruct (Z.eqb_spec info null) as [E0|E0]; simpl in E; [left; split; [by rewrite E1|done]|].
  destruct (Z.eqb_spec (kresp (string_pool_call try_non_paged (2 * (MaximumLength u / 2))) s) 0) as [Eq|Eq].
  - left. split; [by apply E2|done].
  - right. split; [done|]. by eexists.
Qed.

(** ** The system *)

(** An operation that has begun, and the context the kernel keeps for it. *)
Record operation : Type := mkOperation { op_asked : asking; op_context : ptr }.
Record system : Type := mkSystem { sy_world : world U; sy_open : list operation }.

Inductive step : system -> system -> Prop :=
| step_pre pl a context access s s' ops :
    free_places pl (w_mem s) -> asks_well a ->
    kernel_pre pl a s = Done (context, access) s' ->
    step (mkSystem s ops) (mkSystem s' (mkOperation a context :: ops))
| step_post pl op status s s' ops ops' :
    ops ≡ₚ op :: ops' -> free_places pl (w_mem s) ->
    kernel_post pl (op_asked op) (op_context op) status s = Done tt s' ->
    step (mkSystem s ops) (mkSystem s' ops')
| step_notice process pid filename status s s' ops :
    well_formed filename s ->
    Protect.check_process_match to_lowercase self process pid filename s = Done status s' ->
    step (mkSystem s ops) (mkSystem s' ops)
| step_process process pid info i protect reject s s' ops :
    process_told info i protect reject s ->
    process_notify_cb to_lowercase try_non_paged process pid info s = Done tt s' ->
    step (mkSystem s ops) (mkSystem s' ops).

(** Operations with what the driver found to be protected in them; the
    contexts it made for them. *)
Implicit Types ps : list (operation * option Object).
Definition context_cell (x : operation * option Object) : option (ptr * U) :=
  (fun o => (op_context x.1, inj (mkCallContext (as_kind (op_asked x.1)) o))) <$> x.2.
Definition contexts ps : gmap ptr U := list_to_map (omap context_cell ps).

(** Memory without them: what it was, but for what is protected. *)
Definition base_of base (d : ProtectData) : gmap ptr U := <[Protect.protect_data self := inj d]> base.

Record context_sound base (x : operation * option Object) : Prop := {
  cx_asked : asks_well (op_asked x.1);
  cx_context : match x.2 with
               | Some _ => op_context x.1 <> null /\ base !! op_context x.1 = None
               | None => op_context x.1 = null
               end
}.

Record sound base d ps (sy : system) : Prop := {
  so_open : sy_open sy = ps.*1;
  so_registered : registered_in d (set_mem (base_of base d) (sy_world sy));
  so_mem : w_mem (sy_world sy) = contexts ps ∪ base_of base d;
  so_contexts : Forall (context_sound (base_of base d)) ps;
  so_apart : NoDup (omap context_cell ps).*1
}.

Lemma context_cell_fresh base x a v : context_sound base x -> context_cell x = Some (a, v) -> base !! a = None.
Proof. intros [_ Hx] E. unfold context_cell in E. destruct (x.2); [|done]. injection E as <- _. apply Hx. Qed.

Lemma contexts_elsewhere base ps a :
  Forall (context_sound base) ps -> is_Some (base !! a) -> contexts ps !! a = None.
Proof.
  intros Hps [u Hu]. apply not_elem_of_list_to_map_1. intros ([b v] & -> & Hin)%list_elem_of_fmap.
  apply list_elem_of_omap in Hin as (x & Hx & E). rewrite Forall_forall in Hps.
  pose proof (context_cell_fresh _ _ _ _ (Hps x Hx) E). simpl in *. congruence.
Qed.

Lemma registered_frame d s s' :
  (forall a, is_Some (w_mem s !! a) -> w_mem s' !! a = w_mem s !! a) -> registered_in d s -> registered_in d s'.
Proof.
  intros Hf [[? Hc] [? Hd] ? Hn ?]. split; [|..|by eapply well_formed_frame|done]; try done; (split; [done|]).
  - rewrite Hf; [done|by rewrite Hc].
  - rewrite Hf; [done|by rewrite Hd].
Qed.

Lemma sound_registered base d ps sy : sound base d ps sy -> registered_in d (sy_world sy).
Proof.
  intros [_ Hr Hm Hps _]. eapply registered_frame; [|exact Hr]. intros a Ha. simpl in Ha |- *.
  rewrite Hm. apply lookup_union_r. by eapply contexts_elsewhere.
Qed.

Lemma registered_same_mem d m s s' : registered_in d (set_mem m s) -> registered_in d (set_mem m s').
Proof. by apply registered_frame. Qed.

Lemma sound_same_mem base d ps s s' ops :
  sound base d ps (mkSystem s ops) -> w_mem s' = w_mem s -> sound base d ps (mkSystem s' ops).
Proof.
  intros [Ho Hr Hm Hps Hn] E. split; cbn [sy_world sy_open] in *; [done|by eapply registered_same_mem|by rewrite E|done..].
Qed.

Lemma contexts_permutation ps ps' : NoDup (omap context_cell ps).*1 -> ps ≡ₚ ps' -> contexts ps = contexts ps'.
Proof. intros Hn Hp. apply list_to_map_proper; [done|]. by rewrite Hp. Qed.

Lemma sound_pre base d ps s pl a context access s' ops :
  sound base d ps (mkSystem s ops) -> free_places pl (w_mem s) -> asks_well a ->
  kernel_pre pl a s = Done (context, access) s' ->
  sound base d ((mkOperation a context, protects d (kind_of (as_type a)) (as_object a) s) :: ps)
    (mkSystem s' (mkOperation a context :: ops)).
Proof.
  intros Hso Hpl Ha E. pose proof (sound_registered _ _ _ _ Hso) as Hreg.
  destruct Hso as [Ho Hr Hm Hps Hn]. simpl in *.
  pose proof (wp_result _ _ _ _ _ (wp_kernel_pre pl a d s Hreg Hpl Ha) E) as Hk. simpl in Hk.
  destruct (protects _ _ _ s) as [o|].
  - destruct Hk as (Hc0 & Hc & _ & Hm'). rewrite Hm in Hc, Hm'. apply lookup_union_None in Hc as [Hcc Hcb].
    split; simpl; [by rewrite Ho|by eapply registered_same_mem| | |].
    + rewrite Hm'. unfold contexts. simpl. by rewrite insert_union_l.
    + constructor; [|done]. by split.
    + constructor; [|done]. by apply not_elem_of_list_to_map_2.
  - destruct Hk as [Hr0 Hm']. injection Hr0 as -> _.
    split; simpl; [by rewrite Ho|by eapply registered_same_mem|by rewrite Hm'| |done].
    constructor; [|done]. by split.
Qed.

Lemma sound_operation base d ps s op ops ops' :
  sound base d ps (mkSystem s ops) -> ops ≡ₚ op :: ops' ->
  exists o ps', ops' = ps'.*1 /\ sound base d ((op, o) :: ps') (mkSystem s (op :: ops')).
Proof.
  intros [Ho Hr Hm Hps Hn] Hp. simpl in *. rewrite Ho in Hp. symmetry in Hp.
  destruct (Permutation_map_inv _ _ Hp) as (ps1 & E & Hp1).
  destruct ps1 as [|[op1 o] ps']; [done|]. injection E as <- ->. exists o, ps'. split; [done|].
  split; [done..| |by rewrite <- Hp1|by rewrite <- Hp1].
  cbn [sy_world]. rewrite Hm. f_equal. by apply contexts_permutation.
Qed.

Lemma sound_context base d op o ps s ops :
  sound base d ((op, o) :: ps) (mkSystem s ops) -> op_context op <> null ->
  exists o', w_mem s !! op_context op = Some (inj (mkCallContext (as_kind (op_asked op)) o')).
Proof.
  intros [_ _ Hm Hps _] Hn. apply Forall_cons in Hps as [[_ Hc] _]. simpl in *.
  destruct o as [o|]; [|done]. exists o. rewrite Hm. apply lookup_union_Some_l. apply lookup_insert_eq.
Qed.

Lemma sound_post base d op o ps s pl status s' :
  sound base d ((op, o) :: ps) (mkSystem s (op :: ps.*1)) -> free_places pl (w_mem s) ->
  kernel_post pl (op_asked op) (op_context op) status s = Done tt s' ->
  sound base d ps (mkSystem s' ps.*1).
Proof.
  intros Hso Hpl E. pose proof (sound_registered _ _ _ _ Hso) as Hreg.
  pose proof (fun Hn => sound_context _ _ _ _ _ _ _ Hso Hn) as Hctx. simpl in Hreg.
  destruct Hso as [_ Hr Hm Hps Hn]. apply Forall_cons in Hps as [[Ha Hc] Hps]. simpl in *.
  pose proof (wp_result _ _ _ _ _ (wp_kernel_post pl _ d _ status s Hreg Hpl Ha Hctx) E) as Hm'. simpl in Hm'.
  split; simpl; [done|by eapply registered_same_mem| |done|].
  - rewrite Hm', Hm. unfold without_context, contexts in *. simpl in *. destruct o as [o|]; simpl in *.
    + destruct Hc as [Hc0 Hcb]. rewrite not_null by done. rewrite <- insert_union_l, delete_insert_id; [done|].
      apply lookup_union_None. split; [|done]. apply not_elem_of_list_to_map_1.
      by apply NoDup_cons in Hn as [? _].
    + by rewrite Hc.
  - unfold contexts in *. destruct o; simpl in Hn; [by apply NoDup_cons in Hn as [_ ?]|done].
Qed.

Lemma sound_notice base d ps s ops process pid filename status s' :
  sound base d ps (mkSystem s ops) -> well_formed filename s ->
  Protect.check_process_match to_lowercase self process pid filename s = Done status s' ->
  exists d', ProtectData.name d' = ProtectData.name d /\ sound base d' ps (mkSystem s' ops).
Proof.
  intros Hso Hf E. pose proof (sound_registered _ _ _ _ Hso) as Hreg.
  pose proof (wp_result _ _ _ _ _ (wp_notice d process pid filename s Hreg Hf) E) as [[_ Hm'] | [_ Hm']].
  - exists d. split; [done|]. by eapply sound_same_mem.
  - destruct Hso as [Ho Hr Hm Hps Hn]. simpl in *. set (d' := ProtectData.mk (Some process) (Some pid) (ProtectData.name d)) in *. exists d'. split; [done|].
    assert (Eb : base_of base d' = <[Protect.protect_data self := inj d']> (base_of base d)).
    { unfold base_of. by rewrite insert_insert_eq. }
    split; cbn [sy_world sy_open]; [done| | | |done].
    + rewrite Eb. destruct Hr as [[? Hc] [Hd0 _] Hne [Hl Hb (b & Hbk & Hcap)] Hna]. simpl in *.
      split; [split; [done|]|split; [done|]|done| |done]; simpl; [by rewrite lookup_insert_ne|by rewrite lookup_insert_eq|].
      split; [done..|]. exists b. split; [|done]. simpl. by rewrite lookup_insert_ne.
    + rewrite Hm', Hm, Eb. apply insert_union_r. eapply contexts_elsewhere; [done|].
      unfold base_of. rewrite lookup_insert_eq. by eexists.
    + eapply Forall_impl; [exact Hps|]. intros x [Hx Hc]. split; [done|]. destruct x.2; [|done].
      destruct Hc as [? Hc]. split; [done|]. unfold base_of in *. apply lookup_insert_None in Hc as [? ?].
      by rewrite lookup_insert_ne.
Qed.

(** The start: the callbacks were just registered. *)
Record starts (d : ProtectData) (sy : system) : Prop := {
  starts_registered : registered_in d (sy_world sy);
  starts_open : sy_open sy = []
}.

Lemma starts_sound d sy : starts d sy -> sound (w_mem (sy_world sy)) d [] sy.
Proof.
  intros [Hr Ho]. pose proof (rg_data _ _ Hr) as [_ Hd].
  assert (E : base_of (w_mem (sy_world sy)) d = w_mem (sy_world sy)) by by apply insert_id.
  split; rewrite ?E; [done| |unfold contexts; simpl; by rewrite (left_id_L ∅ (∪))|constructor|constructor].
  by eapply registered_frame; [|exact Hr].
Qed.

Lemma handles_step_sound base d ps sy sy' :
  sound base d ps sy -> step sy sy' ->
  exists d' ps', ProtectData.name d' = ProtectData.name d /\ sound base d' ps' sy'.
Proof.
  intros Hso Hst. destruct Hst as [pl a context access s s' ops Hpl Ha E
    |pl op status s s' ops ops' Hp Hpl E|process pid filename status s s' ops Hf E
    |process pid info i protect reject s s' ops Ht E].
  - do 2 eexists. split; [done|]. by eapply sound_pre.
  - destruct (sound_operation _ _ _ _ _ _ _ Hso Hp) as (o & ps' & -> & Hso').
    do 2 eexists. split; [done|]. by eapply sound_post.
  - destruct (sound_notice _ _ _ _ _ _ _ _ _ _ Hso Hf E) as (d' & Hn & Hso'). by exists d', ps.
  - exists d, ps. split; [done|]. eapply sound_same_mem; [done|].
    destruct (process_callback process pid info i protect reject s Ht) as (s1 & [[M E1]|(_ & q & _ & E1)]); congruence.
Qed.

Lemma handles_steps_sound base d ps sy sy' :
  sound base d ps sy -> rtc step sy sy' ->
  exists d' ps', ProtectData.name d' = ProtectData.name d /\ sound base d' ps' sy'.
Proof.
  intros Hso Hr. revert d ps Hso. induction Hr as [sy|sy sy1 sy' Hst _ IH]; intros d ps Hso; [by exists d, ps|].
  destruct (handles_step_sound _ _ _ _ _ Hso Hst) as (d1 & ps1 & E1 & Hso1).
  destruct (IH _ _ Hso1) as (d2 & ps2 & E2 & Hso2). exists d2, ps2. split; [by rewrite E2|done].
Qed.

(** ** Properties *)

(** C8: whatever handle operations have begun and ended, in whatever order,
    memory holds exactly one call context for each operation that has not
    ended and was found to be about something protected, at its own address,
    and besides those what it held at the start, but for the process that is
    protected: no context is lost, shared or overwritten. *)
Theorem obcallback_contexts_accounted d sy sy' :
  starts d sy -> rtc step sy sy' ->
  exists d' ps, sy_open sy' = ps.*1 /\ ProtectData.name d' = ProtectData.name d /\
    NoDup (omap context_cell ps).*1 /\
    w_mem (sy_world sy') = contexts ps ∪ base_of (w_mem (sy_world sy)) d' /\
    Forall (context_sound (base_of (w_mem (sy_world sy)) d')) ps.
Proof.
  intros Hs Hr. destruct (handles_steps_sound _ _ _ _ _ (starts_sound _ _ Hs) Hr) as (d' & ps & Hn & []).
  by exists d', ps.
Qed.


(** There is always somewhere for the kernel to put what it tells. *)
Lemma places_exist m : exists pl, free_places pl m.
Proof.
  pose proof (fresh_addr_pos m). exists (mkPlaces (fresh_addr m) (fresh_addr m + 1)).
  split; simpl; [split; [lia|apply fresh_addr_fresh]|split; [lia|apply fresh_addr_above; lia]|lia].
Qed.

Lemma drain base d ps s :
  sound base d ps (mkSystem s ps.*1) ->
  exists s', rtc step (mkSystem s ps.*1) (mkSystem s' []) /\ w_mem s' = base_of base d.
Proof.
  revert s. induction ps as [|[op o] ps IH]; intros s Hso.
  - exists s. split; [apply rtc_refl|]. pose proof (so_mem _ _ _ _ Hso) as Hm. simpl in Hm. rewrite Hm.
    unfold contexts. simpl. by rewrite (left_id_L ∅ (∪)).
  - destruct (places_exist (w_mem s)) as [pl Hpl]. pose proof (sound_registered _ _ _ _ Hso) as Hreg. simpl in Hreg.
    pose proof (so_contexts _ _ _ _ Hso) as [[Ha _] _]%Forall_cons. simpl in Ha.
    destruct (wp_elim _ _ _ (wp_kernel_post pl (op_asked op) d (op_context op) STATUS_SUCCESS s Hreg Hpl Ha
      (sound_context _ _ _ _ _ _ _ Hso))) as ([] & s1 & E & _).
    destruct (IH s1) as (s' & Hr & Hm); [by eapply sound_post|].
    exists s'. split; [|done]. eapply rtc_l; [|exact Hr]. by apply (step_post pl op STATUS_SUCCESS).
Qed.

(** C18: from every state the driver gets into, the operations that have begun
    can all end; then every context is given back: memory is what it was
    before the first of them, but for the process that is protected. *)
Theorem obcallback_system_drains d sy sy' :
  starts d sy -> rtc step sy sy' ->
  exists s'' d', rtc step sy' (mkSystem s'' []) /\ w_mem s'' = base_of (w_mem (sy_world sy)) d'.
Proof.
  intros Hs Hr. destruct (handles_steps_sound _ _ _ _ _ (starts_sound _ _ Hs) Hr) as (d' & ps & _ & Hso).
  destruct sy' as [s ops]. pose proof (so_open _ _ _ _ Hso) as E. simpl in E. subst ops.
  destruct (drain _ _ _ _ Hso) as (s'' & Hr' & Hm). by exists s'', d'.
Qed.
End system.

(** ** Instances *)

#[local] Existing Instance ObcDemo.statics.
#[local] Existing Instance ObcDemo.linked.
#[local] Existing Instance ObcDemo.layout.
#[local] Existing Instance ObcDemo.lock_api.

Module ObcSystemDemo.
Abbreviation cells := ObcDemo.cells.
(** The protected process at 0x50 has a name; the caller is the one at 0x40. *)
Definition name : WduUnicodeString := WduUnicodeString.mk (mkUnicode 6 6 0x8000) None.
Definition protected : ProtectData := ProtectData.mk (Some (WduProcess.wrap 0x50)) (Some 4) name.
Definition idle : @system ObcDemo.kernel cells := mkSystem (world_of ObcDemo.answer
  {[ 0x1110 := inj protected; 0x1210 := inj ObcDemo.registered; 0x8000 := inj (mkUnits 6 [97; 46; 98]) ]}) [].

(** A handle with all rights, for a user. *)
Definition open_process : asking := mkAsking OB_OPERATION_HANDLE_CREATE 0 0x10 0x50 0x1FFFFF.
Definition there : places := mkPlaces 0x20000 0x30000.
Definition began : @system ObcDemo.kernel cells :=
  match kernel_pre 0x1010 there open_process (sy_world idle) with
  | Done (context, _) s => mkSystem s [mkOperation open_process context]
  | _ => idle
  end.
End ObcSystemDemo.

Lemma handles_demo_starts : starts (KN := ObcDemo.kernel) 0x1010 0x66 ObcSystemDemo.protected ObcSystemDemo.idle.
Proof.
  split; [|reflexivity]. split; try (split; [discriminate|vm_compute; reflexivity]); try discriminate.
  split; [split; discriminate|discriminate|]. exists (mkUnits 6 [97; 46; 98]).
  split; [vm_compute; reflexivity|]. split; discriminate.
Qed.
Lemma handles_demo_begins : rtc (step (KN := ObcDemo.kernel) (fun l => l) true 0x1010) ObcSystemDemo.idle ObcSystemDemo.began.
Proof.
  eapply rtc_once, (step_pre _ _ _ ObcSystemDemo.there ObcSystemDemo.open_process _ 0x1FFFFE).
  - split; first [split; [discriminate|vm_compute; reflexivity]|discriminate].
  - split; [by left|by left|split; [discriminate|reflexivity]].
  - vm_compute. reflexivity.
Qed.

(** The operation that has begun has one context. *)
Lemma obcallback_contexts_accounted_witness :
  exists d' ps, [mkOperation ObcSystemDemo.open_process (op_context (hd (mkOperation ObcSystemDemo.open_process 0)
      (sy_open ObcSystemDemo.began)))] = ps.*1 /\
    w_mem (sy_world ObcSystemDemo.began) =
      contexts ps ∪ base_of 0x1010 (w_mem (sy_world ObcSystemDemo.idle)) d'.
Proof.
  destruct (obcallback_contexts_accounted (KN := ObcDemo.kernel) (fun l => l) true 0x1010 0x66 ObcSystemDemo.protected
    ObcSystemDemo.idle ObcSystemDemo.began handles_demo_starts handles_demo_begins) as (d' & ps & Ho & _ & _ & Hm & _).
  exists d', ps. split; [rewrite <- Ho; vm_compute; reflexivity|exact Hm].
Defined.


Lemma obcallback_system_drains_witness :
  exists s'' d', rtc (step (KN := ObcDemo.kernel) (fun l => l) true 0x1010) ObcSystemDemo.began (mkSystem s'' []) /\
    w_mem s'' = base_of 0x1010 (w_mem (sy_world ObcSystemDemo.idle)) d'.
Proof.
  exact (obcallback_system_drains (KN := ObcDemo.kernel) (fun l => l) true 0x1010 0x66 ObcSystemDemo.protected
    ObcSystemDemo.idle ObcSystemDemo.began handles_demo_starts handles_demo_begins).
Defined.
