(* ===== verification/ObCallbackLife.v ===== *)
(** * ObCallbackLife: the obcallback driver from its entry point to its unload routine

    What [init] leaves for every answer of the kernel, and what the unload
    routine gives back of it, whether or not the handle callbacks were
    registered in between. *)

From S2P Require Import Prelude Nt World UnicodeStr Crate UnicodeString Device Driver Sync Mutex Notify Ob Process ObCallback.
Import WduUnicodeStr (WduUnicodeStr).
Import WduDevice (WduDevice).
Import WduPsCallback (WduPsCallback).
Import WduObCallback (WduObCallback).
Import ProtectData (ProtectData).
Import Protect (Protect).

Section life.
Context {KN : Kernel} {NS : NtStatics} {B : Build} {LK : Linked} {OL : ObcLayout} {U : Type}.
Context `{!Storable U DRIVER_OBJECT, !Storable U DRIVER_EXTENSION, !Storable U DEVICE_OBJECT}.
Context `{!Storable U WduDevice, !Storable U WduDriver}.
Context `{!Storable U Protect, !Storable U ProtectData, !Storable U WduObCallback}.
Context `{!Storable U WduPsCallback}.
Context {LA : LockApi U} {lock_slot unlock_slot : ptr} {LL : LockApiLaws LA lock_slot unlock_slot}.
Implicit Types s : world U.

Definition device_name : WduUnicodeStr := WduUnicodeStr.from_slice device_name_at DEVICE_NAME_UTF16.
Definition win32_name : WduUnicodeStr := WduUnicodeStr.from_slice win32_name_at WIN32_NAME_UTF16.
Definition link_call : kcall :=
  IoCreateSymbolicLink (WduUnicodeStr.into_UNICODE_STRING win32_name) (WduUnicodeStr.into_UNICODE_STRING device_name).
Definition unlink_call : kcall := IoDeleteSymbolicLink (WduUnicodeStr.into_UNICODE_STRING win32_name).
Definition notify_cb : fnptr := code_addr "obcallback::process_notify_cb".
Definition notify_call (remove : bool) : kcall :=
  PsSetCreateProcessNotifyRoutineEx2 PsCreateProcessNotifySubsystems notify_cb remove.

Definition accepted (status : NTSTATUS) : bool := status =? STATUS_SUCCESS.

(** The routine the wrapper remembers, if the kernel took it. *)
Definition noticed (status : NTSTATUS) : WduPsCallback :=
  WduPsCallback.mk (if accepted status then Some (WduPsCallback.NotifyRoutineEx2 notify_cb) else None).

(** The end of [init], on a device that was just made. *)
Definition start_up (wdu_device : WduDevice) : M (world U) (result unit ObCallbackError) :=
  r ← WduDevice.symbolic_name wdu_device device_name win32_name;
  (if r is Err _ then WduDevice.delete wdu_device else mret tt) ;;
  cb ← load (T := WduPsCallback) PROCESS_CB;
  r ← WduPsCallback.register cb (WduPsCallback.NotifyRoutineEx2 notify_cb);
  store PROCESS_CB r.2 ;;
  (if r.1 is Err _ then
     WduDevice.delete_symbolic_name win32_name ;; WduDevice.delete wdu_device
   else mret tt) ;;
  mret (Ok tt).

(** Its calls, by what the kernel says of the link, of the routine and of the
    removal of the link. *)
Definition started (object : ptr) (link notify unlink : NTSTATUS) : list event :=
  [Ev link_call link] ++ (if accepted link then [] else [Ev (IoDeleteDevice object) tt]) ++
  [Ev (notify_call false) notify] ++
  (if accepted notify then [] else [Ev unlink_call unlink; Ev (IoDeleteDevice object) tt]).

Lemma devices_started object link notify unlink : devices (started object link notify unlink) = [].
Proof. unfold started. by destruct (accepted link), (accepted notify). Qed.

Lemma delete_event object s (Q : unit -> world U -> Prop) (contents : DEVICE_OBJECT) ty chars ex :
  object <> 0 -> w_mem s !! object = Some (inj contents) ->
  (forall s1, w_trace s1 = w_trace s ++ [Ev (IoDeleteDevice object) tt] ->
     w_mem s1 = delete object (w_mem s) -> Q tt s1) ->
  wp (WduDevice.delete (WduDevice.mk ty chars ex object)) s Q.
Proof.
  intros Ho Hm HQ. unfold WduDevice.delete. simpl. rewrite not_null by done. simpl. wp_step. wp_step.
  wp_step. eapply wp_box_from_raw; [done..|]. apply wp_ret. apply HQ; [|done].
  rewrite trace_set_mem, trace_kafter. by destruct (kresp (IoDeleteDevice object) s).
Qed.

(** Deleted a second time. *)
Lemma delete_again object s ty chars ex :
  object <> 0 -> w_mem s !! object = None ->
  WduDevice.delete (WduDevice.mk ty chars ex object) s = Ub (Dangling object) (kafter (IoDeleteDevice object) s).
Proof.
  intros Ho Hm. unfold WduDevice.delete. simpl. rewrite not_null by done. simpl. erewrite bind_done by done.
  unfold box_from_raw. by apply bind_ub, bind_ub, load_dangling.
Qed.

Lemma wp_symbolic_name dev s (Q : result unit WduDeviceError -> world U -> Prop) :
  (forall link s1, w_trace s1 = w_trace s ++ [Ev link_call link] -> w_mem s1 = w_mem s ->
     Q (if accepted link then Ok tt else Err (GenericError link)) s1) ->
  wp (WduDevice.symbolic_name dev device_name win32_name) s Q.
Proof.
  intros HQ. unfold WduDevice.symbolic_name. fold link_call. wp_step. wp_step.
  change (kret link_call) with NTSTATUS in *. specialize (HQ (kresp link_call s) _ (trace_kafter _ _) eq_refl).
  unfold accepted in HQ. by destruct (_ =? _); apply wp_ret.
Qed.

Lemma wp_notify_register s (Q : result unit WduCallbackError * WduPsCallback -> world U -> Prop) :
  (forall notify s1, w_trace s1 = w_trace s ++ [Ev (notify_call false) notify] -> w_mem s1 = w_mem s ->
     Q (if accepted notify then Ok tt else Err (RegisterError notify), noticed notify) s1) ->
  wp (WduPsCallback.register WduPsCallback.const_new (WduPsCallback.NotifyRoutineEx2 notify_cb)) s Q.
Proof.
  intros HQ. unfold WduPsCallback.register, WduPsCallback.control_callbacks. fold (notify_call false). wp_step. wp_step.
  change (kret (notify_call false)) with NTSTATUS in *.
  specialize (HQ (kresp (notify_call false) s) _ (trace_kafter _ _) eq_refl).
  unfold noticed, accepted in HQ. by destruct (_ =? _); apply wp_ret.
Qed.

(** The first half: up to the routine. *)
Definition enlist (wdu_device : WduDevice) : M (world U) (result unit WduCallbackError) :=
  r ← WduDevice.symbolic_name wdu_device device_name win32_name;
  (if r is Err _ then WduDevice.delete wdu_device else mret tt) ;;
  cb ← load (T := WduPsCallback) PROCESS_CB;
  r ← WduPsCallback.register cb (WduPsCallback.NotifyRoutineEx2 notify_cb);
  store PROCESS_CB r.2 ;; mret r.1.

Lemma start_up_split dev s : start_up dev s =
  (r ← enlist dev;
   (if r is Err _ then WduDevice.delete_symbolic_name win32_name ;; WduDevice.delete dev else mret tt) ;;
   mret (Ok tt)) s.
Proof.
  unfold start_up, enlist, mbind, M_bind. destruct (WduDevice.symbolic_name _ _ _ s) as [r s1|? ?|? ?]; try done.
  set (m := match r with Ok _ => mret tt | Err _ => WduDevice.delete dev end). clearbody m. destruct (m s1); try done.
  destruct (load PROCESS_CB _); try done. destruct (WduPsCallback.register _ _ _) as [[? ?] ?|? ?|? ?]; try done.
  by destruct (store _ _ _).
Qed.

Section device.
Context (object : ptr) (contents : DEVICE_OBJECT).
Context (object_there : object <> 0).
Context (static_there : PROCESS_CB <> 0) (static_apart : PROCESS_CB <> object).

Lemma wp_enlist ty chars ex s (Q : result unit WduCallbackError -> world U -> Prop) :
  w_mem s !! object = Some (inj contents) -> w_mem s !! PROCESS_CB = Some (inj WduPsCallback.const_new) ->
  (forall link notify s1,
     w_trace s1 = w_trace s ++ [Ev link_call link] ++
       (if accepted link then [] else [Ev (IoDeleteDevice object) tt]) ++ [Ev (notify_call false) notify] ->
     w_mem s1 = <[PROCESS_CB := inj (noticed notify)]> (if accepted link then w_mem s else delete object (w_mem s)) ->
     Q (if accepted notify then Ok tt else Err (RegisterError notify)) s1) ->
  wp (enlist (WduDevice.mk ty chars ex object)) s Q.
Proof.
  intros Hobj Hcb HQ. unfold enlist. wp_step. apply wp_symbolic_name. intros link s1 T1 M1. wp_step.
  assert (wp (if (if accepted link then Ok tt else Err (GenericError link)) is Err _
              then WduDevice.delete (WduDevice.mk ty chars ex object) else mret tt) s1 (fun _ s2 =>
    w_trace s2 = w_trace s ++ [Ev link_call link] ++ (if accepted link then [] else [Ev (IoDeleteDevice object) tt]) /\
    w_mem s2 = if accepted link then w_mem s else delete object (w_mem s))) as Hdel.
  { destruct (accepted link); [by apply wp_ret; rewrite app_nil_r|].
    eapply delete_event; [done|by rewrite M1|]. intros s2 T2 M2. by rewrite T2, M2, T1, M1, <- app_assoc. }
  eapply wp_mono; [exact Hdel|]. intros [] s2 [T2 M2]. wp_step. eapply wp_load; [done| |].
  { rewrite M2. destruct (accepted link); [done|]. by rewrite lookup_delete_ne. }
  wp_step. apply wp_notify_register. intros notify s3 T3 M3. wp_step.
  eapply (wp_store _ _ WduPsCallback.const_new); [done| |].
  { rewrite M3, M2. destruct (accepted link); [done|]. by rewrite lookup_delete_ne. }
  wp_step. simpl. apply (HQ link notify); [|by rewrite mem_set_mem, M3, M2].
  by rewrite trace_set_mem, T3, T2, <- !app_assoc.
Qed.

(** Whatever the kernel refuses, the routine is remembered exactly if it was
    taken, and the device is there exactly if nothing was refused; if both
    are refused the device is deleted twice. *)
Lemma start_up_outcome ty chars ex s :
  w_mem s !! object = Some (inj contents) -> w_mem s !! PROCESS_CB = Some (inj WduPsCallback.const_new) ->
  exists link notify unlink,
  let kept := accepted link && accepted notify in
  match start_up (WduDevice.mk ty chars ex object) s with
  | Done r s1 => r = Ok tt /\ accepted link || accepted notify = true /\
      w_trace s1 = w_trace s ++ started object link notify unlink /\
      w_mem s1 = <[PROCESS_CB := inj (noticed notify)]> (if kept then w_mem s else delete object (w_mem s))
  | Panicked _ _ => False
  | Ub f s1 => f = Dangling object /\ accepted link || accepted notify = false /\
      w_trace s1 = w_trace s ++ started object link notify unlink
  end.
Proof.
  intros Hobj Hcb. rewrite start_up_split.
  destruct (wp_elim (enlist (WduDevice.mk ty chars ex object)) s (fun r s1 => exists link notify,
     w_trace s1 = w_trace s ++ [Ev link_call link] ++
       (if accepted link then [] else [Ev (IoDeleteDevice object) tt]) ++ [Ev (notify_call false) notify] /\
     w_mem s1 = <[PROCESS_CB := inj (noticed notify)]> (if accepted link then w_mem s else delete object (w_mem s)) /\
     r = if accepted notify then Ok tt else Err (RegisterError notify)))
    as (r & s1 & E1 & link & notify & T1 & M1 & ->); [by apply wp_enlist; eauto 10|].
  rewrite (bind_done _ _ _ _ _ E1). exists link, notify, (kresp unlink_call s1). unfold started.
  destruct (accepted notify); simpl.
  { rewrite andb_true_r, orb_true_r. by split_and!. }
  rewrite andb_false_r, orb_false_r.
  destruct (wp_elim (WduDevice.delete_symbolic_name win32_name) s1 (fun _ s2 =>
    w_trace s2 = w_trace s1 ++ [Ev unlink_call (kresp unlink_call s1)] /\ w_mem s2 = w_mem s1)) as (ru & s2 & E2 & T2 & M2).
  { unfold WduDevice.delete_symbolic_name. fold unlink_call. wp_step. wp_step. by destruct (negb _); wp_step. }
  destruct (accepted link).
  - destruct (wp_elim (WduDevice.delete (WduDevice.mk ty chars ex object)) s2 (fun _ s3 =>
      w_trace s3 = w_trace s2 ++ [Ev (IoDeleteDevice object) tt] /\ w_mem s3 = delete object (w_mem s2)))
      as ([] & s3 & E3 & T3 & M3).
    { eapply delete_event; [done| |by auto]. rewrite M2, M1. by rewrite lookup_insert_ne. }
    erewrite bind_done by (erewrite bind_done by exact E2; exact E3). do 2 (split; [done|]).
    split; [by rewrite T3, T2, T1, <- !app_assoc|]. by rewrite M3, M2, M1, delete_insert_ne.
  - erewrite bind_ub by (erewrite bind_done by exact E2; apply delete_again; [done|]; rewrite M2, M1; map_at).
    do 2 (split; [done|]). rewrite trace_kafter, T2, T1, <- !app_assoc. simpl.
    by destruct (kresp (IoDeleteDevice object) s2).
Qed.
End device.

(** ** The unload routine *)

Definition statics : list ptr :=
  [PROCESS_CB; data PROTECT; Protect.protect_data (data PROTECT); Protect.callback (data PROTECT)].

(** The state of the driver's statics: the routine that is registered, and
    the handle callbacks. *)
Record statics_at (notify : NTSTATUS) (installed : bool) (d : ProtectData) (h : ptr)
    (ops : list WduObOpRegistration.WduObOpRegistration) s : Prop := {
  st_process : PROCESS_CB <> 0 /\ w_mem s !! PROCESS_CB = Some (inj (noticed notify));
  st_protect : static_at (data PROTECT) installed d (WduObCallback.mk h ops) s;
  st_handle : installed = true -> h <> null;
  st_apart : NoDup statics
}.

(** What it calls. *)
Definition unloading (registered installed : bool) (h device : ptr) : list kcall :=
  (if registered then [notify_call true] else []) ++
  [KeAcquireGuardedMutex (address_of_self lock_slot (raw PROTECT))] ++
  (if installed then [ObUnRegisterCallbacks h] else []) ++
  [KeReleaseGuardedMutex (address_of_self unlock_slot (raw PROTECT)); unlink_call] ++
  (if device =? null then [] else [IoDeleteDevice device]).

Lemma wp_notify_unregister notify s (Q : result unit WduCallbackError * WduPsCallback -> world U -> Prop) :
  (forall r s1, w_mem s1 = w_mem s -> calls s1 = calls s ++ (if accepted notify then [notify_call true] else []) ->
     Q (r, if accepted notify && negb (accepted (kresp (notify_call true) s)) then noticed notify
           else WduPsCallback.const_new) s1) ->
  wp (WduPsCallback.unregister (noticed notify)) s Q.
Proof.
  intros HQ. unfold WduPsCallback.unregister, noticed in *. destruct (accepted notify); simpl.
  - fold (notify_call true). do 2 wp_step. unfold accepted in HQ. change (kret (notify_call true)) with NTSTATUS in *.
    destruct (kresp (notify_call true) s =? STATUS_SUCCESS); simpl; apply wp_ret, HQ; by autorewrite with wdu.
  - apply wp_ret, HQ; [done|]. by rewrite app_nil_r.
Qed.

Lemma wp_take_callbacks installed d h ops s (Q : unit -> world U -> Prop) :
  static_at (data PROTECT) installed d (WduObCallback.mk h ops) s -> (installed = true -> h <> null) ->
  (forall s1, static_at (data PROTECT) false d (WduObCallback.mk (if installed then null else h) ops) s1 ->
     (forall a, a <> data PROTECT -> a <> Protect.callback (data PROTECT) -> w_mem s1 !! a = w_mem s !! a) ->
     calls s1 = calls s ++ [KeAcquireGuardedMutex (address_of_self lock_slot (raw PROTECT))] ++
       (if installed then [ObUnRegisterCallbacks h] else []) ++
       [KeReleaseGuardedMutex (address_of_self unlock_slot (raw PROTECT))] -> Q tt s1) ->
  wp (with_protect (fun lock =>
    installed ← Protect.is_cb_installed lock;
    if installed : bool then Protect.delete_protect_name_cb lock ;; mret tt else mret tt)) s Q.
Proof.
  intros Hst Hh HQ. apply wp_with_protect. intros s1 M1 C1. unfold Protect.is_cb_installed.
  pose proof Hst as [[Hs0 Hs] Hd Hc Ha]. wp_step. wp_step. eapply wp_load; [done|by rewrite M1|]. apply wp_ret. simpl.
  destruct installed.
  - wp_step. eapply wp_delete_protect_name_cb; [split; rewrite ?M1; done|by apply Hh|].
    intros s2 Hst2 C2 F2. wp_step. intros s3 M3 C3. apply HQ.
    + destruct Hst2. split; rewrite ?M3; done.
    + intros a ? ?. by rewrite M3, F2, M1.
    + by rewrite C3, C2, C1, <- !app_assoc.
  - wp_step. intros s3 M3 C3. apply HQ.
    + split; rewrite ?M3, ?M1; done.
    + intros a ? ?. by rewrite M3, M1.
    + by rewrite C3, C1, <- !app_assoc.
Qed.

Lemma wp_unload drv (o : DRIVER_OBJECT) notify installed d h ops s :
  WduDriver.as_ptr drv <> 0 -> w_mem s !! WduDriver.as_ptr drv = Some (inj o) ->
  statics_at notify installed d h ops s ->
  (DeviceObject o <> null ->
     DeviceObject o ∉ statics /\ exists contents : DEVICE_OBJECT, w_mem s !! DeviceObject o = Some (inj contents)) ->
  wp (driver_unload drv) s (fun _ s' =>
    calls s' = calls s ++ unloading (accepted notify) installed h (DeviceObject o) /\
    w_mem s' !! PROCESS_CB = Some (inj (if accepted notify && negb (accepted (kresp (notify_call true) s))
                                        then noticed notify else WduPsCallback.const_new)) /\
    (exists h', w_mem s' !! Protect.callback (data PROTECT) = Some (inj (WduObCallback.mk h' ops)) /\
       (installed = true -> h' = null)) /\
    w_mem s' !! data PROTECT = Some (inj (Protect.mk false)) /\
    (DeviceObject o <> null -> w_mem s' !! DeviceObject o = None)).
Proof.
  intros Hp Ho [[Hcb0 Hcb] Hst Hh Hap] Hdev. unfold statics in Hap. apply NoDup_cons in Hap as [Hap _].
  rewrite !not_elem_of_cons in Hap. destruct Hap as (Hap1 & Hap2 & Hap3 & _).
  unfold driver_unload, WduDriver.device. do 2 wp_step. eapply wp_load; [done..|]. wp_step.
  wp_step. eapply wp_load; [done..|]. wp_step. apply wp_notify_unregister. intros r s1 M1 C1.
  wp_step. eapply wp_store; [done|by rewrite M1|]. name_state s2 M2 C2. rewrite M1 in M2.
  set (w := if accepted notify && _ then _ else _) in *. clearbody w. wp_step.
  pose proof Hst as [[? Hs] [? Hd] [? Hc] Ha].
  eapply wp_take_callbacks; [|exact Hh|].
  { split; [split; [done|]..|done]; rewrite M2; map_at; exact Hs || exact Hd || exact Hc. }
  intros s3 [[_ H3] _ [_ Hc3] _] F3 C3. wp_step.
  assert (Hlink : wp (WduDevice.delete_symbolic_name win32_name) s3 (fun _ s4 =>
    w_mem s4 = w_mem s3 /\ calls s4 = calls s3 ++ [unlink_call])).
  { unfold WduDevice.delete_symbolic_name. fold unlink_call. do 2 wp_step. cbv beta. destruct (negb _); apply wp_ret; by autorewrite with wdu. }
  eapply wp_mono; [exact Hlink|]. intros ru s4 [M4 C4].
  assert (Hcalls : calls s4 = calls s ++ unloading (accepted notify) installed h null).
  { rewrite C4, C3, C2, C1. unfold unloading. by rewrite <- !app_assoc. }
  destruct (decide (DeviceObject o = null)) as [Hn|Hn].
  - unfold WduDevice.delete. simpl. rewrite Hn. simpl. apply wp_ret. split; [done|].
    split; [rewrite M4, F3, M2 by done; map_at|]. split; [|split; [by rewrite M4|done]].
    exists (if installed then null else h). rewrite M4. split; [done|]. by intros ->.
  - destruct (Hdev Hn) as [Hout [contents Hobj]]. unfold statics in Hout. rewrite !not_elem_of_cons in Hout.
    destruct Hout as (? & ? & ? & ? & _). eapply delete_event; [done| |].
    { rewrite M4, F3, M2 by done. rewrite lookup_insert_ne by done. exact Hobj. }
    intros s5 T5 M5. rewrite M5, !lookup_delete_ne by done. split.
    { unfold calls at 1. rewrite T5, fmap_app. change (call_of <$> w_trace s4) with (calls s4).
      rewrite Hcalls. unfold unloading. rewrite (not_null (DeviceObject o)) by done. by rewrite <- !app_assoc. }
    split; [rewrite M4, F3, M2 by done; map_at|]. split; [|split; [by rewrite M4|intros _; apply lookup_delete_eq]].
    exists (if installed then null else h). rewrite M4. split; [done|]. by intros ->.
Qed.

(** ** From [init] to the unload routine *)

(** The statics are the driver's image: the driver object and what the kernel
    makes for the driver are elsewhere. *)
Record loaded_apart (p extension : ptr) : Prop := {
  la_driver : PROCESS_CB ∉ [p; extension];
  la_devices k size name ty chars exclusive object contents k' :
    kstep (IoCreateDevice p size name ty chars exclusive) k = ((STATUS_SUCCESS, (object, contents)), k') ->
    object ∉ statics /\ PROCESS_CB <> DeviceExtension contents
}.

(** What [init] did before its device was made. *)
Lemma init_begins p (o : DRIVER_OBJECT) s :
  p <> 0 -> w_mem s !! p = Some (inj o) -> new_devices p ->
  let r0 := kresp (IoAllocateDriverObjectExtension p id_addr (u32 size_of_WduDriver)) s in
  (r0.1 = STATUS_SUCCESS -> r0.2 <> 0) -> loaded_apart p r0.2 ->
  (exists e s1 cs, init p s = Done (Err e) s1 /\ (e = DriverError \/ e = DeviceError) /\
     w_trace s1 = w_trace s ++ cs /\ devices cs = [] /\ w_mem s1 !! PROCESS_CB = w_mem s !! PROCESS_CB) \/
  (exists object contents s1 cs,
     init p s = start_up (WduDevice.mk UnknownDevice SecureOpen false object) s1 /\
     w_trace s1 = w_trace s ++ cs /\ devices cs = [(object, contents)] /\
     object <> 0 /\ object ∉ statics /\ w_mem s1 !! object = Some (inj contents) /\
     w_mem s1 !! PROCESS_CB = w_mem s !! PROCESS_CB).
Proof.
  intros Hp Ho Hnew r0 Hext [Hla Hld]. unfold r0 in *.
  let entry := eval unfold init in (init p) in entry_routines entry ltac:(fun unload fo io =>
    pose proof (begin_entry p unload fo io from_driver_error from_device_error 0
      (WduDevice.set_characteristics (WduDevice.set_device_type WduDevice.default UnknownDevice) SecureOpen)
      (Some device_name) start_up o s Hp Ho Hnew Hext) as H).
  cbv zeta in H.
  destruct H as [(e & s1 & cs & E & He & T & D & _ & Hm)|(object & contents & s1 & E & Hd & T & M & k0 & k1 & Hk)].
  - left. exists e, s1, cs. split; [exact E|].
    split; [destruct He as [-> |[st ->]]; [by left|by right]|]. do 2 (split; [done|]). by apply Hm.
  - right. apply Hld in Hk as [Hout Hx]. exists object, contents, s1. eexists. split; [exact E|].
    split; [exact T|]. split; [done|]. destruct Hd as [Ho0 _ _ Ha]. do 2 (split; [done|]).
    unfold statics in Hout. rewrite !not_elem_of_cons in Hout, Hla. destruct_and!.
    rewrite M. split; [map_at|]. by rewrite !lookup_insert_ne by congruence.
Qed.

(** C10: the obcallback driver, from its entry point to its unload routine.
    [init] fails if the driver cannot be registered or its device cannot be
    made; then there is no device, and no routine.  Otherwise it succeeds,
    whatever the kernel says of the link and of the routine: it remembers the
    routine if the kernel took it, and the device is gone if one of the two
    was refused.  If both are, it is deleted a second time.  The unload
    routine takes back what [init] and the requests since then have left: the
    routine, the handle callbacks under the mutex, the link and the device. *)
Theorem obcallback_driver_life p (o : DRIVER_OBJECT) s :
  p <> 0 -> w_mem s !! p = Some (inj o) -> new_devices p ->
  let r0 := kresp (IoAllocateDriverObjectExtension p id_addr (u32 size_of_WduDriver)) s in
  (r0.1 = STATUS_SUCCESS -> r0.2 <> 0) -> loaded_apart p r0.2 ->
  PROCESS_CB <> 0 -> w_mem s !! PROCESS_CB = Some (inj WduPsCallback.const_new) ->
  match init p s with
  | Panicked _ _ => False
  | Done (Err e) s1 => (e = DriverError \/ e = DeviceError) /\
      (exists cs, w_trace s1 = w_trace s ++ cs /\ devices cs = []) /\
      w_mem s1 !! PROCESS_CB = Some (inj WduPsCallback.const_new)
  | Ub f s1 => exists object contents cs link notify unlink,
      accepted link || accepted notify = false /\ f = Dangling object /\
      w_trace s1 = w_trace s ++ cs ++ started object link notify unlink /\ devices cs = [(object, contents)]
  | Done (Ok _) s1 => exists object contents cs link notify unlink,
      accepted link || accepted notify = true /\
      w_trace s1 = w_trace s ++ cs ++ started object link notify unlink /\ devices cs = [(object, contents)] /\
      w_mem s1 !! PROCESS_CB = Some (inj (noticed notify)) /\
      let kept := accepted link && accepted notify in
      w_mem s1 !! object = (if kept then Some (inj contents) else None) /\
      forall drv (o' : DRIVER_OBJECT) installed d h ops s2,
        WduDriver.as_ptr drv = p -> w_mem s2 !! p = Some (inj o') ->
        DeviceObject o' = (if kept then object else null) ->
        (kept = true -> w_mem s2 !! object = w_mem s1 !! object) ->
        statics_at notify installed d h ops s2 ->
        wp (driver_unload drv) s2 (fun _ s3 =>
          calls s3 = calls s2 ++ unloading (accepted notify) installed h (if kept then object else null) /\
          (accepted (kresp (notify_call true) s2) = true -> w_mem s3 !! PROCESS_CB = Some (inj WduPsCallback.const_new)) /\
          w_mem s3 !! data PROTECT = Some (inj (Protect.mk false)) /\
          (kept = true -> w_mem s3 !! object = None))
  end.
Proof.
  intros Hp Ho Hnew r0 Hext Hla Hcb0 Hcb.
  destruct (init_begins p o s Hp Ho Hnew Hext Hla) as
    [(e & s1 & cs & E & He & T & D & M)|(object & contents & s1 & cs & E & T & D & Ho0 & Hout & Hobj & M)]; rewrite E.
  { split; [done|]. split; [by exists cs|]. by rewrite M. }
  assert (Hne : PROCESS_CB <> object) by (intros <-; apply Hout; by left). rewrite Hcb in M.
  destruct (start_up_outcome object contents Ho0 Hcb0 Hne UnknownDevice SecureOpen false s1 Hobj M)
    as (link & notify & unlink & H). cbv zeta in H.
  destruct (start_up _ s1) as [r s2|msg s2|f s2]; [|done|].
  2: { destruct H as (-> & Hk & Ht). exists object, contents, cs, link, notify, unlink. do 2 (split; [done|]).
       split; [by rewrite Ht, T, <- app_assoc|done]. }
  destruct H as (-> & Hk & Ht & Hm). exists object, contents, cs, link, notify, unlink. split; [done|].
  split; [by rewrite Ht, T, <- app_assoc|]. split; [done|]. split; [rewrite Hm; map_at|].
  assert (Hdev : w_mem s2 !! object = if accepted link && accepted notify then Some (inj contents) else None).
  { rewrite Hm, lookup_insert_ne by done. destruct (_ && _); [done|apply lookup_delete_eq]. }
  cbv zeta. split; [done|]. rewrite Hdev. intros drv o' installed d h ops s3 <- Ho' Hdo Hthere Hst.
  eapply wp_mono; [eapply (wp_unload drv o' notify); [done..|]|].
  - rewrite Hdo. destruct (_ && _); [|done]. intros _. split; [done|]. exists contents. by apply Hthere.
  - intros [] s4 (C4 & P4 & _ & S4 & G4). rewrite Hdo in C4, G4. split; [exact C4|].
    split; [intros Ha; by rewrite P4, Ha, andb_false_r|]. split; [done|]. intros Hkept. rewrite Hkept in G4. by apply G4.
Qed.
End life.

(** ** Instances *)

#[local] Existing Instance ObcDemo.statics.
#[local] Existing Instance ObcDemo.linked.
#[local] Existing Instance ObcDemo.layout.

Module ObcLifeDemo.
Abbreviation cells := (DRIVER_OBJECT + (DRIVER_EXTENSION + (DEVICE_OBJECT + (WduDevice + (WduDriver +
  (Protect + (ProtectData + (WduObCallback + (WduPsCallback + unit)))))))))%type.
#[export] Instance build : Build := false.
(** Devices are made at 0x900, with their extension at 0xA00.  The state is
    what the kernel says of the link and of the routine. *)
#[export] Instance kernel : Kernel := {|
  kstate := NTSTATUS * NTSTATUS;
  kstep c k := (match c as c return kret c with
                | IoAllocateDriverObjectExtension _ _ _ => (STATUS_SUCCESS, 0xB00)
                | IoCreateDevice driver _ _ _ _ _ => (STATUS_SUCCESS, (0x900, mkDeviceObject 0xA00 driver 0))
                | IoCreateSymbolicLink _ _ => k.1
                | PsSetCreateProcessNotifyRoutineEx2 _ _ remove => if remove then STATUS_SUCCESS else k.2
                | c => default_answer c
                end, k) |}.
#[export] Instance lock_api : LockApi cells :=
  {| raw p := p; data p := p + 0x10; mutex_lock p := WduGuardedMutex.lock 0x7200 p;
     guard_drop p := WduGuardedMutex.unlock 0x7300 p |}.
#[export] Instance laws : LockApiLaws lock_api 0x7200 0x7300.
Proof. by split. Qed.
Lemma new_at_900 : new_devices 0x80.
Proof. intros k size name ty chars exclusive object contents k' E. simpl in E. by injection E as <- <- _. Qed.
Lemma apart : loaded_apart 0x80 0xB00.
Proof.
  split; [apply (bool_decide_unpack _); vm_compute; exact I|].
  intros k size name ty chars exclusive object contents k' E. simpl in E. injection E as <- <- _.
  split; [apply (bool_decide_unpack _); vm_compute; exact I|discriminate].
Qed.

Definition object : DRIVER_OBJECT := mkDriverObject 0 0 None (replicate 28 None).
Definition before (link notify : NTSTATUS) : world cells :=
  World (link, notify) [] {[0x80 := inj object; 0x1500 := inj WduPsCallback.const_new]}.
(** Protected since, and about to be unloaded. *)
Definition later : world cells := World (0, 0) []
  {[0x80 := inj (mkDriverObject 0x900 0 None []); 0x900 := inj (mkDeviceObject 0xA00 0x80 0);
    0x1500 := inj (noticed 0); 0x1010 := inj (Protect.mk true);
    0x1110 := inj ProtectData.const_new; 0x1210 := inj (WduObCallback.mk 0x77 [])]}.
Lemma later_statics : statics_at 0 true ProtectData.const_new 0x77 [] later.
Proof.
  split; [split; [discriminate|vm_compute; reflexivity]| |discriminate|apply (bool_decide_unpack _); vm_compute; exact I].
  split; try (split; [discriminate|vm_compute; reflexivity]). apply (bool_decide_unpack _). vm_compute. exact I.
Qed.
End ObcLifeDemo.
#[local] Existing Instance ObcLifeDemo.kernel.
#[local] Existing Instance ObcLifeDemo.build.
#[local] Existing Instance ObcLifeDemo.lock_api.
#[local] Existing Instance ObcLifeDemo.laws.

(** Everything is accepted: the unload routine takes it all back. *)
Lemma obcallback_driver_life_witness :
  exists s1, init 0x80 (ObcLifeDemo.before 0 0) = Done (Ok tt) s1 /\
    wp (driver_unload (WduDriver.new 0x80)) ObcLifeDemo.later (fun _ s3 =>
      calls s3 = [notify_call true; KeAcquireGuardedMutex 0x7200; ObUnRegisterCallbacks 0x77;
                  KeReleaseGuardedMutex 0x7300; unlink_call; IoDeleteDevice 0x900]).
Proof.
  pose proof (obcallback_driver_life 0x80 ObcLifeDemo.object (ObcLifeDemo.before 0 0)
    ltac:(discriminate) ltac:(vm_compute; reflexivity) ObcLifeDemo.new_at_900 ltac:(discriminate)
    ObcLifeDemo.apart ltac:(discriminate) ltac:(vm_compute; reflexivity)) as H.
  destruct (init 0x80 (ObcLifeDemo.before 0 0)) as [[[]|e] s1|msg s1|f s1] eqn:E; vm_compute in E; try discriminate E.
  exists s1. split; [reflexivity|].
  destruct H as (object & contents & cs & link & notify & unlink & _ & T & D & P & G & H). injection E as <-.
  assert (Hd : devices (w_trace (ObcLifeDemo.before 0 0) ++ cs ++ started object link notify unlink) = [(object, contents)])
    by (rewrite !devices_app, D, devices_started; reflexivity).
  rewrite <- T in Hd. vm_compute in Hd. injection Hd as <- <-. cbv zeta in G, H.
  destruct (accepted link && accepted notify) eqn:Hk; [|vm_compute in G; discriminate G].
  apply andb_true_iff in Hk as [_ Hk]. apply Z.eqb_eq in Hk. rewrite Hk in H.
  eapply wp_mono.
  - apply (H (WduDriver.new 0x80) (mkDriverObject 0x900 0 None []) true ProtectData.const_new 0x77 []
      ObcLifeDemo.later); [reflexivity|vm_compute; reflexivity|reflexivity| |exact ObcLifeDemo.later_statics].
    intros _. vm_compute. reflexivity.
  - intros [] s3 [C _]. exact C.
Defined.

(** Both the link and the routine are refused: the device is deleted twice. *)
Example refused_twice : exists s1, init 0x80 (ObcLifeDemo.before 1 1) = Ub (Dangling 0x900) s1.
Proof. eexists. vm_compute. reflexivity. Qed.
